(* ===== verification/_CoqProject ===== *)
-Q . S2P
Prelude.v
Bytes.v
State.v
Instances.v
Cache.v
FreeMap.v
Inode.v
InodeData.v
InodeGrowth.v
InodeLife.v
InodeFaults.v
File.v
Directory.v
Filesys.v
Create.v
Fsutil.v
Thread.v
Sync.v
Donation.v
Scheduler.v
Boot.v
Pagedir.v
Kernelmap.v
Pageops.v
Vm.v
Swap.v
Paging.v
Reload.v
Pages.v
Release.v
Sharing.v
Task.v
Descriptors.v
Mmap.v
Process.v
Init.v
Loader.v
Syscall.v
Main.v
