(* ===== verification/Prelude.v ===== *)
(** * A verified model of a Pintos kernel: file system, threads, virtual memory

    The sources are one kernel: [cache.c], [inode.c], [free-map.c], [file.c],
    [directory.c] and [filesys.c] are the file system; [thread.c] and [synch.c] are the
    scheduler, semaphores, locks and conditions; [pagedir.c], [frame.c], [suppage.c] and
    [swap.c] are virtual memory; [process.c], [syscall.c] and [exception.c] run user
    programs; [init.c] starts the kernel, and its command line runs programs and the
    utilities of [fsutil.c].

    ** Style

    A C function is a computation in a state monad with faults ([M] below): it returns a
    value and the new state, or stops with a [fault] (a failed [ASSERT], an access outside
    an object, a signed overflow, a loop that does not end, a wait for another thread).
    [wp m Q s] is total correctness: [m] returns from [s], without a fault, and [Q] holds.
    [hoare] and [preserves] are for runs that may also fault.  Machine integers are [Z]
    with their wrap-around written out ([u32], [s32], [add_int]).  Pointers are numbers
    that index a heap.  Code that is not part of the sources is a type class with its
    documented laws, and an instance for concrete runs: the block device and the bitmap
    library (State, Instances), reading and writing the bitmap file (FreeMap), [malloc]
    (Inode), the kernel's lists (Thread), addresses, page table entries and the page
    allocator (Pagedir).

    ** The file system

    - State: the state [fs] (device, cache, free map, open inodes, held locks).  Inside the
      file system one thread runs at a time, and its locks are names with an owner bit: an
      acquisition of a lock that is held is a panic, as the assertion in [lock_acquire]
      makes it, and a wait that nobody could end is a fault.
    - Cache ([cache.c]): every operation; [cache_evict] as the code's [while (1)] around
      the pass over the list, with fuel 3, of which two passes are enough
      ([cache_evict_second_chance]).  The cache is transparent ([cache_block_transparent])
      and refines an uncached disk ([cache_refines_device]).  Counterexamples show a write
      lost to the write-back thread, an entry freed while in use and a leak of capacity.
    - FreeMap ([free-map.c]): allocation and release on every branch.
    - Inode ([inode.c]): every operation.  [file_growth] is cut into its phases
      ([growth_first], [growth_single], [growth_fill_single], [growth_double], ...).  The
      theorems are in InodeData (the codec of [struct inode_disk]; reading, and writing
      inside the file, through direct, single and double indirect blocks), InodeGrowth
      (writing at or after the end), InodeLife (opening, closing, the list of open inodes)
      and InodeFaults (where the code faults or leaks).  The loops of [inode_read_at] and
      [inode_write_at] have fuel [size + 1]: every pass moves at least one byte.
    - File ([file.c]): open files with their position; the heap of open files also holds
      the directories, since the code casts between them.
    - Directory ([directory.c]): entries are 20 bytes; a directory is abstracted to a finite
      map from names to sectors ([dir_map]), of which [dir_lookup], [dir_add],
      [dir_remove] and [dir_is_empty] are the operations.  Loops over the entries have the
      length of the file as fuel.
    - Filesys ([filesys.c]): initialisation, format, shutdown, and the operations on paths;
      a file written before a shutdown is read after the next start.
    - Create: a name created in the root directory and opened again is a file of zeros, laid
      out in sectors that were free; the directory gains the name, nothing else changes
      ([create_then_open]).  The file stays below 129 sectors, the range that InodeGrowth
      covers, and the cache is not full; the root directory is open and has a free entry.

    ** Threads and synchronization

    - Thread ([thread.c], [synch.c]): the scheduler, priorities, semaphores, locks with
      donation and conditions.  A function runs up to the switch to another thread; what the
      switched-out thread has still to do is its pending operation, which [resume] goes on
      with.  [donate_lock] has the number of threads plus one as fuel: every recursive call
      has raised a thread that was below the donated priority.
    - Sync: the kernel as a transition system ([step]); in every reachable state a lock is
      free exactly when its semaphore is 1 ([locks_stay_consistent]), and only the holder
      gives a lock up ([lock_not_stolen]).
    - Donation: [lock_acquire] leaves no holder of a lock below a thread that waits for it.
    - Scheduler: the invariant of the scheduler's lists, and which thread runs after
      [schedule], [if_yield], [sema_up], [lock_release] and [thread_set_priority].
    - Boot: [thread_init], [thread_start] and the idle thread lead from memory without
      threads to a state that satisfies the invariants ([boot_reaches_invariants]).

    ** Virtual memory

    - Pagedir ([pagedir.c]): a page directory as a page of words that leads to pages of
      entries; it is a map from user pages to frames with flags ([mapping], [flag_of]), of
      which [pagedir_set_page] is insertion and [pagedir_clear_page] deletion.  [pte_step]
      is what clients know of a change of the tables.
    - Pageops: programs of operations on a page directory keep it well-formed and cannot
      fault, but for mapping a page twice ([page_directory_typed]).
    - Kernelmap ([init.c]): [paging_init] maps the physical memory into the directory that
      every process directory is a copy of ([paging_init_maps_ram]).
    - Vm ([frame.c], [suppage.c], [swap.c], the functions of [process.c] that install
      pages): the definitions.  The state [vm] has the file system, the memory and the
      objects of the paging code.  The loops that evict until a page is free have fuel 1:
      one eviction frees a page ([evict_transparent]).
    - Swap: a page is its eight sectors; [sout] and [sback] move it to a free slot and back.
    - Paging: the invariant [vm_ok] and the abstract view [contents], the bytes of the page
      of every frame, in memory, in its slot or in its file.  [evict] keeps both, and takes
      the page that the second-chance rule says.  The invariant is for one address space,
      whose frames are not shared, and mapped files that are not modified.
    - Reload: [load_back] puts the bytes of a page into a new frame and maps it.
    - Sharing: the paths for shared pages never return, and [evict] loses modified pages of
      other processes.
    - Pages: what clients know of an address space ([space], the page of the process at an
      address and its bytes) and the rules for new pages: [extended] and [lazily] say that
      an operation adds given pages and keeps the others.

    ** User programs

    - Task ([thread.h], [process.h], [syscall.h]; the records of children in [process.c]):
      the state [sys] on top of [vm].  A process reads and writes its own memory through its
      page directory; an access of the kernel to a page that is not mapped is a fault.
    - Descriptors ([syscall.c]): the open files of a process are a map from descriptors to
      files ([descriptors_refine_map]); data written comes back ([write_seek_read]).
    - Mmap ([syscall.c]): [mmap] extends the address space by the pages of the file
      ([mmap_maps_file]).  Its loop has one unit of fuel for every page of the file and one
      more.
    - Release ([process.c]): the loop of [process_exit] that frees the pages of the process
      ([free_pages_returns_all]); its fuel is the length of the page table, which every
      turn shortens.
    - Process ([process.c], [syscall.c], [thread.c]): creation, exit and waiting.  A
      computation whose result is [None] has ended the running thread, and [switch_to] is
      the switch to another one, a step of its own between the parts of an operation that
      waits.  A status given to [exit] is what the parent's wait returns
      ([exit_then_wait]), once ([process_wait_once]).
    - Loader ([process.c]): [load], [load_segment] and [setup_stack].  A segment becomes
      pages of the address space ([load_phdr_maps_segment]); the arguments on the stack are
      what [main] reads ([arguments_round_trip]).  The loop of [load_segment] has one unit
      of fuel for every page and one more.
    - Syscall ([syscall.c], [exception.c]): the system call handler with the checks of its
      arguments, and the page fault handler.  Both grow the stack ([stack_grows]) and bring
      pages back ([fault_restores_page]), or do what [exit (-1)] does
      ([bad_address_exits]); otherwise the handler is the call of the number on the stack
      ([syscall_dispatch]).  Strings of the process are followed for a number of bytes that
      is an argument of the handler; a length above that of the string is enough.

    ** Start and utilities

    - Fsutil ([fsutil.c]): the console utilities.  [ls] lists the root directory
      ([ls_lists_root]), [cat] dumps a file ([cat_prints_file]), [append] extends a ustar
      archive on the scratch device, the format being an interface with laws
      ([append_makes_archive]), and [extract] puts the files of such an archive into the
      file system ([extract_puts_archive]).  The loop of [cat] has the length of the file
      plus one as fuel, the loop over the headers of an archive the number of sectors of the
      device plus one, and a copy a unit for every byte; the theorems show that it is enough.
    - Init ([init.c]): the words of the command line ([command_line_round_trip]), its options
      ([parse_options_round_trip]), the block devices ([locate_block_devices_spec]) and the
      actions, run in their order ([run_actions_in_order]); every action takes a word at
      least, so that their number is enough fuel.  What the other threads do while the kernel
      waits for a program is an argument of [run_task].
    - Main ([init.c], [exception_init], [syscall_init]): [main] composes Init, Boot,
      Kernelmap, Filesys and the actions over one state ([machine]); calls into the machine
      are recorded in their order.  [main_boots] shows what holds when the actions begin,
      and that they are what follows.

    ** Not modelled

    - Concurrency inside the file system: its functions run to the end, the write-back
      thread apart, whose turns are explicit steps.  A timer interrupt between the parts of
      [lock_acquire], [lock_release] or [cond_wait] that run with interrupts on.
    - [sema_self_test], statistics and printing; the functions of the multi-level feedback
      scheduler, which return 0.
    - Machine code: context switch, stack frames, interrupts.
    - The dirty and accessed bits that the processor sets: the theorems hold for all values
      of the bits.  The kernel's own mappings of frames have no bits.
    - A page fault that the kernel takes itself on an address of the process that it has not
      checked: in the model such an access is a fault.  [lib/syscall-nr.h] and
      [shutdown_power_off] are arguments of the handler.
    - The initialisers of devices, interrupts and the page allocator, which are outside the
      sources: [main] records that it calls them.  [bss_init] clears the static variables
      that the model has.  The text of [usage]. *)
From Stdlib Require Import ZArith Lia.
From stdpp Require Import prelude gmap.

Open Scope Z_scope.

(** ** Outcomes of kernel code

    A kernel function runs on an explicit state and either returns a value and
    the new state or stops with a fault. *)
Inductive fault :=
| Panic       (* a failed ASSERT, or an explicit PANIC *)
| BadAccess   (* an access outside an object, through NULL or to freed memory *)
| Overflow    (* a signed addition outside the range of [int] *)
| Hang        (* a loop that does not end *)
| WouldBlock. (* the thread would have to wait for another thread *)

#[export] Instance fault_eq_dec : EqDecision fault.
Proof. solve_decision. Defined.

Inductive res (S A : Type) :=
| Ok (a : A) (s : S)
| Fail (f : fault).
Arguments Ok {S A} a s.
Arguments Fail {S A} f.

Definition M (S A : Type) : Type := S -> res S A.

#[export] Instance M_ret S : MRet (M S) := fun A a s => Ok a s.
#[export] Instance M_bind S : MBind (M S) := fun A B k m s =>
  match m s with
  | Ok a s' => k a s'
  | Fail f => Fail f
  end.

Definition get {S} : M S S := fun s => Ok s s.
Definition gets {S A} (f : S -> A) : M S A := fun s => Ok (f s) s.
Definition modify {S} (f : S -> S) : M S unit := fun s => Ok tt (f s).
Definition fail {S A} (f : fault) : M S A := fun _ => Fail f.

(** [ASSERT (c)]. *)
Definition assert {S} (c : bool) : M S unit :=
  fun s => if c then Ok tt s else Fail Panic.

Definition when {S} (c : bool) (m : M S unit) : M S unit :=
  fun s => if c then m s else Ok tt s.

(** Dereferencing a pointer that may be invalid. *)
Definition deref {S A} (o : option A) : M S A :=
  fun s => match o with Some a => Ok a s | None => Fail BadAccess end.

(** [for (i = lo; i < lo + n; i++) body (i)]. *)
Fixpoint for_up {S} (lo : Z) (n : nat) (body : Z -> M S unit) : M S unit :=
  match n with
  | O => mret tt
  | Datatypes.S n' => body lo ;; for_up (lo + 1) n' body
  end.

(** [for (e = list_begin (l); e != list_end (l); e = next) body (e)], where [next]
    is read before the body runs. *)
Fixpoint for_each {S A} (l : list A) (body : A -> M S unit) : M S unit :=
  match l with
  | [] => mret tt
  | e :: rest => body e ;; for_each rest body
  end.

(** ** Total-correctness weakest preconditions

    [wp m Q s] : run from [s], [m] returns, and the value and the final state
    satisfy [Q]. *)
Definition wp {S A} (m : M S A) (Q : A -> S -> Prop) (s : S) : Prop :=
  match m s with
  | Ok a s' => Q a s'
  | Fail _ => False
  end.

Section wp_rules.
Context {S : Type}.
Implicit Types s : S.

Lemma wp_ret {A} (a : A) (Q : A -> S -> Prop) s : Q a s -> wp (mret a) Q s.
Proof. done. Qed.

Lemma wp_bind {A B} (m : M S A) (k : A -> M S B) (Q : B -> S -> Prop) s :
  wp m (fun a s' => wp (k a) Q s') s -> wp (m ≫= k) Q s.
Proof. unfold wp, mbind, M_bind. by destruct (m s). Qed.
Lemma wp_bind_inv {A B} (m : M S A) (k : A -> M S B) (Q : B -> S -> Prop) s :
  wp (m ≫= k) Q s -> wp m (fun a s' => wp (k a) Q s') s.
Proof. unfold wp, mbind, M_bind. by destruct (m s). Qed.

Lemma wp_mono {A} (m : M S A) (P Q : A -> S -> Prop) s :
  wp m P s -> (forall a s', P a s' -> Q a s') -> wp m Q s.
Proof. unfold wp. destruct (m s); auto. Qed.

Lemma wp_get (Q : S -> S -> Prop) s : Q s s -> wp get Q s.
Proof. done. Qed.

Lemma wp_gets {A} (f : S -> A) (Q : A -> S -> Prop) s : Q (f s) s -> wp (gets f) Q s.
Proof. done. Qed.

Lemma wp_modify (f : S -> S) (Q : unit -> S -> Prop) s :
  Q tt (f s) -> wp (modify f) Q s.
Proof. done. Qed.

Lemma wp_assert (c : bool) (Q : unit -> S -> Prop) s :
  c = true -> Q tt s -> wp (assert c) Q s.
Proof. by intros ->. Qed.

Lemma wp_when (c : bool) (m : M S unit) (Q : unit -> S -> Prop) s :
  (c = true -> wp m Q s) -> (c = false -> Q tt s) -> wp (when c m) Q s.
Proof. intros H1 H2. destruct c; [by apply H1|by apply H2]. Qed.

Lemma wp_deref {A} (o : option A) a (Q : A -> S -> Prop) s :
  o = Some a -> Q a s -> wp (deref o) Q s.
Proof. by intros ->. Qed.

Lemma wp_ok {A} (m : M S A) (Q : A -> S -> Prop) s :
  wp m Q s <-> exists a s', m s = Ok a s' /\ Q a s'.
Proof.
  unfold wp. destruct (m s) as [a s'|f]; split.
  - eauto.
  - by intros (? & ? & [= <- <-] & ?).
  - done.
  - by intros (? & ? & ? & ?).
Qed.

Lemma wp_eq {A} (m : M S A) a s s' : wp m (fun b t => b = a /\ t = s') s -> m s = Ok a s'.
Proof. unfold wp. destruct (m s); [by intros [-> ->]|done]. Qed.

(** Runs that stop with a fault: in the rest of a sequence, or in its head. *)
Lemma fails_rest {A B} (m : M S A) (k : A -> M S B) f s :
  wp m (fun a s' => k a s' = Fail f) s -> (m ≫= k) s = Fail f.
Proof. unfold wp, mbind, M_bind. by destruct (m s). Qed.
Lemma fails_head {A B} (m : M S A) (k : A -> M S B) f s : m s = Fail f -> (m ≫= k) s = Fail f.
Proof. unfold mbind, M_bind. by intros ->. Qed.

(** A counted loop: [I i] holds before the iteration with index [i]. *)
Lemma wp_for_up (I : Z -> S -> Prop) lo n (body : Z -> M S unit) s
    (Q : unit -> S -> Prop) :
  I lo s ->
  (forall i s', lo <= i < lo + Z.of_nat n -> I i s' ->
     wp (body i) (fun _ s'' => I (i + 1) s'') s') ->
  (forall s', I (lo + Z.of_nat n) s' -> Q tt s') ->
  wp (for_up lo n body) Q s.
Proof.
  revert lo s. induction n as [|n IH]; intros lo s HI Hb HQ; simpl.
  - apply wp_ret, HQ. by rewrite Z.add_0_r.
  - apply wp_bind. eapply wp_mono; [apply Hb; [lia|done]|].
    intros [] s' HI'. apply IH; [done|intros i s'' ? ?; apply Hb; [lia|done]|].
    intros s'' HI''. apply HQ. revert HI''.
    by replace (lo + 1 + Z.of_nat n) with (lo + Z.of_nat (Datatypes.S n)) by lia.
Qed.

(** A loop over a list: [I done rest] holds between the iterations. *)
Lemma wp_for_each {A} (I : list A -> list A -> S -> Prop) l (body : A -> M S unit) s
    (Q : unit -> S -> Prop) :
  I [] l s ->
  (forall l1 e l2 s', l = l1 ++ e :: l2 -> I l1 (e :: l2) s' ->
     wp (body e) (fun _ s'' => I (l1 ++ [e]) l2 s'') s') ->
  (forall s', I l [] s' -> Q tt s') ->
  wp (for_each l body) Q s.
Proof.
  intros HI Hb HQ.
  assert (forall l2 l1 s', l = l1 ++ l2 -> I l1 l2 s' -> wp (for_each l2 body) Q s')
    as H; [|by apply (H l [] s)].
  induction l2 as [|e l2 IH]; intros l1 s' Hl HI'; simpl.
  - apply wp_ret, HQ. rewrite app_nil_r in Hl. by subst.
  - apply wp_bind. eapply wp_mono; [by apply Hb|]. intros [] s'' HI''.
    apply (IH (l1 ++ [e])); [by rewrite <- app_assoc|done].
Qed.
End wp_rules.

(** ** Partial correctness

    [hoare P m Q] : if [m] returns from a state that satisfies [P], the value and the
    final state satisfy [Q].  Used where a run may also stop with a fault. *)
Definition hoare {S A} (P : S -> Prop) (m : M S A) (Q : A -> S -> Prop) : Prop :=
  forall s a s', P s -> m s = Ok a s' -> Q a s'.

Section hoare_rules.
Context {S : Type}.
Implicit Types (s : S) (P R : S -> Prop).

Lemma hoare_ret {A} (a : A) P (Q : A -> S -> Prop) : (forall s, P s -> Q a s) -> hoare P (mret a) Q.
Proof. intros H s b s' HP [= <- <-]. auto. Qed.

Lemma hoare_fail {A} f P (Q : A -> S -> Prop) : hoare P (fail f) Q.
Proof. done. Qed.

Lemma hoare_bind {A B} (m : M S A) (k : A -> M S B) P (R : A -> S -> Prop) Q :
  hoare P m R -> (forall a, hoare (R a) (k a) Q) -> hoare P (m ≫= k) Q.
Proof.
  intros Hm Hk s b s' HP. unfold mbind, M_bind. destruct (m s) as [a s1|] eqn:He; [|done].
  apply Hk. by eapply Hm.
Qed.

Lemma hoare_conseq {A} (m : M S A) P P' (Q Q' : A -> S -> Prop) :
  hoare P' m Q' -> (forall s, P s -> P' s) -> (forall a s, Q' a s -> Q a s) -> hoare P m Q.
Proof. intros H HP HQ s a s' Hs He. eapply HQ, H; eauto. Qed.

Lemma hoare_get P (Q : S -> S -> Prop) : (forall s, P s -> Q s s) -> hoare P get Q.
Proof. intros H s a s' HP [= <- <-]. auto. Qed.

Lemma hoare_gets {A} (f : S -> A) P (Q : A -> S -> Prop) :
  (forall s, P s -> Q (f s) s) -> hoare P (gets f) Q.
Proof. intros H s a s' HP [= <- <-]. auto. Qed.

Lemma hoare_modify (f : S -> S) P (Q : unit -> S -> Prop) :
  (forall s, P s -> Q tt (f s)) -> hoare P (modify f) Q.
Proof. intros H s a s' HP [= <- <-]. auto. Qed.

Lemma hoare_assert c P (Q : unit -> S -> Prop) :
  (forall s, P s -> c = true -> Q tt s) -> hoare P (assert c) Q.
Proof. intros H s a s' HP. unfold assert. destruct c; [|done]. intros [= <- <-]. auto. Qed.

Lemma hoare_deref {A} (o : option A) P (Q : A -> S -> Prop) :
  (forall s a, P s -> o = Some a -> Q a s) -> hoare P (deref o) Q.
Proof. intros H s a s' HP. unfold deref. destruct o; [|done]. intros [= <- <-]. auto. Qed.

Lemma hoare_when c (m : M S unit) P (Q : unit -> S -> Prop) :
  (c = true -> hoare P m Q) -> (forall s, c = false -> P s -> Q tt s) -> hoare P (when c m) Q.
Proof.
  intros Ht Hf s a s' HP. unfold when. destruct c; [by apply Ht|]. intros [= <- <-]. auto.
Qed.

Lemma hoare_for_each {A} (l : list A) (body : A -> M S unit) P :
  (forall e, e ∈ l -> hoare P (body e) (fun _ => P)) -> hoare P (for_each l body) (fun _ => P).
Proof.
  induction l as [|e l IH]; intros H; simpl; [by apply hoare_ret|].
  eapply hoare_bind; [apply H; by left|]. intros []. apply IH. intros x Hx. apply H. by right.
Qed.

(** A precondition that does not depend on the state. *)
Lemma hoare_pure {A} (m : M S A) (c : Prop) P (Q : A -> S -> Prop) :
  (c -> hoare P m Q) -> hoare (fun s => c /\ P s) m Q.
Proof. intros H s a s' [Hc HP]. by apply H. Qed.
End hoare_rules.

(** ** Runs that keep a relation between their first and their last state *)
Definition preserves {S A} (R : relation S) (m : M S A) : Prop :=
  forall s a s', m s = Ok a s' -> R s s'.

Section preserves_rules.
Context {S : Type} (R : relation S) `{!PreOrder R}.

Lemma preserves_ret {A} (a : A) : preserves R (mret a).
Proof. by intros s b s' [= _ <-]. Qed.
Lemma preserves_fail {A} f : preserves R (fail (A := A) f).
Proof. done. Qed.
Lemma preserves_get : preserves R get.
Proof. by intros s b s' [= _ <-]. Qed.
Lemma preserves_gets {A} (f : S -> A) : preserves R (gets f).
Proof. by intros s b s' [= _ <-]. Qed.
Lemma preserves_assert c : preserves R (assert c).
Proof. intros s a s'. unfold assert. by destruct c; intros [= _ <-]. Qed.
Lemma preserves_deref {A} (o : option A) : preserves R (deref o).
Proof. intros s a s'. unfold deref. by destruct o; intros [= _ <-]. Qed.
Lemma preserves_modify (f : S -> S) : (forall s, R s (f s)) -> preserves R (modify f).
Proof. intros H s a s' [= _ <-]. apply H. Qed.
Lemma preserves_bind {A B} (m : M S A) (k : A -> M S B) :
  preserves R m -> (forall a, preserves R (k a)) -> preserves R (m ≫= k).
Proof.
  intros Hm Hk s b s'. unfold mbind, M_bind. destruct (m s) as [a s1|] eqn:He; [|done].
  intros Hk'. etransitivity; [by eapply Hm|by eapply Hk].
Qed.
Lemma preserves_when c (m : M S unit) : preserves R m -> preserves R (when c m).
Proof. intros Hm s a s'. unfold when. destruct c; [apply Hm|]. by intros [= _ <-]. Qed.
Lemma preserves_for_each {A} (l : list A) (f : A -> M S unit) :
  (forall e, preserves R (f e)) -> preserves R (for_each l f).
Proof.
  intros Hf. induction l as [|e l IH]; simpl; [apply preserves_ret|]. by apply preserves_bind.
Qed.
End preserves_rules.

Create HintDb keeps discriminated.
#[export] Hint Resolve preserves_ret preserves_fail preserves_get preserves_gets preserves_assert
  preserves_deref : keeps.
(* The relations have their preorder by instance search. *)
#[export] Hint Extern 0 (PreOrder _) => typeclasses eauto : keeps.

(** One step of a proof that a computation keeps a relation. *)
Ltac preserves_step :=
  first
    [ solve [auto with keeps]
    | apply preserves_for_each; [typeclasses eauto|intros ?]
    | apply preserves_bind; [typeclasses eauto| |intros ?]
    | apply preserves_when; [typeclasses eauto|]
    | match goal with |- preserves _ (match ?x with _ => _ end) => destruct x end
    | match goal with |- preserves _ (if ?x then _ else _) => destruct x end ].

(** ** Inverting a run *)
Lemma bind_ok {S A B} (m : M S A) (k : A -> M S B) s b s' :
  (m ≫= k) s = Ok b s' -> exists a s1, m s = Ok a s1 /\ k a s1 = Ok b s'.
Proof. unfold mbind, M_bind. destruct (m s); [eauto|done]. Qed.
Lemma assert_ok {S} c (s : S) a s' : assert c s = Ok a s' -> c = true /\ s' = s.
Proof. unfold assert. destruct c; [|done]. by intros [= _ <-]. Qed.
Lemma deref_ok {S A} (o : option A) (s : S) a s' : deref o s = Ok a s' -> o = Some a /\ s' = s.
Proof. unfold deref. destruct o; [|done]. by intros [= <- <-]. Qed.
Lemma when_ok {S} c (m : M S unit) (s : S) a s' :
  when c m s = Ok a s' -> (c = true /\ m s = Ok a s') \/ (c = false /\ s' = s).
Proof. unfold when. destruct c; [by left|]. intros [= _ <-]. by right. Qed.

(** Splits a run [H] of a sequence into the runs of its parts. *)
Ltac ok_split H :=
  lazymatch type of H with
  | (_ ≫= _) _ = Ok _ _ =>
    let a := fresh "a" in let s1 := fresh "s" in let H1 := fresh "R" in
    apply bind_ok in H as (a & s1 & H1 & H); cbn beta in H; ok_split H1; ok_split H
  | get _ = Ok _ _ => first [injection H as <- <- | injection H as <-]
  | gets _ _ = Ok _ _ => first [injection H as <- <- | injection H as <-]
  | modify _ _ = Ok _ _ => first [injection H as <- <- | injection H as <-]
  | mret _ _ = Ok _ _ => first [injection H as <- <- | injection H as <-]
  | assert _ _ = Ok _ _ => let Hc := fresh "Hc" in apply assert_ok in H as [Hc ->]
  | deref _ _ = Ok _ _ => let Hc := fresh "Hd" in apply deref_ok in H as [Hc ->]
  | fail _ _ = Ok _ _ => discriminate H
  | _ => idtac
  end.

Create HintDb wp discriminated.
#[export] Hint Resolve wp_ret wp_get wp_gets wp_modify : wp.

(** One step of symbolic execution of the head of a computation. *)
Ltac wp_step :=
  match goal with
  | |- wp (_ ≫= _) _ _ => apply wp_bind
  | |- wp (mret _) _ _ => apply wp_ret
  | |- wp get _ _ => apply wp_get
  | |- wp (gets _) _ _ => apply wp_gets
  | |- wp (modify _) _ _ => apply wp_modify
  | |- wp (assert _) _ _ => apply wp_assert
  | |- wp (when _ _) _ _ => apply wp_when; intros ?
  | |- wp (match ?x with _ => _ end) _ _ => destruct x eqn:?
  | |- wp (let '(_, _) := ?x in _) _ _ => destruct x eqn:?
  end.
Ltac wp_steps := repeat (wp_step; cbn beta).

(** Case analysis on every integer comparison of the goal. *)
Ltac zcase :=
  repeat match goal with
  | |- context [?a <=? ?b] => destruct (Z.leb_spec a b); simpl
  | |- context [?a <? ?b] => destruct (Z.ltb_spec a b); simpl
  | |- context [?a =? ?b] => destruct (Z.eqb_spec a b); simpl
  end; try done; try lia.

(** ** Machine integers *)
Definition UINT32 : Z := 2 ^ 32.
Definition INT_MAX : Z := 2 ^ 31 - 1.
Definition INT_MIN : Z := - 2 ^ 31.

(** Conversion to [uint32_t] (and [size_t]). *)
Definition u32 (z : Z) : Z := z mod UINT32.

(** Conversion of an unsigned 32-bit value to [int]. *)
Definition s32 (z : Z) : Z := if u32 z <=? INT_MAX then u32 z else u32 z - UINT32.

Definition in_int (z : Z) : bool := (INT_MIN <=? z) && (z <=? INT_MAX).

(** Signed addition of two [int]s. *)
Definition add_int {S} (a b : Z) : M S Z :=
  fun s => if in_int (a + b) then Ok (a + b) s else Fail Overflow.

Lemma wp_add_int {S} a b (Q : Z -> S -> Prop) s :
  INT_MIN <= a + b <= INT_MAX -> Q (a + b) s -> wp (add_int a b) Q s.
Proof.
  intros H HQ. unfold wp, add_int, in_int.
  replace (_ && _) with true; [done|]. symmetry. apply andb_true_iff.
  split; apply Z.leb_le; lia.
Qed.

Lemma preserves_add_int {S} (R : relation S) `{!PreOrder R} a b : preserves R (add_int a b).
Proof. intros s c s'. unfold add_int. destruct (in_int _); [|done]. by intros [= _ <-]. Qed.
#[export] Hint Resolve preserves_add_int : keeps.
Lemma add_int_ok {S} a b (s : S) r s' : add_int a b s = Ok r s' -> r = a + b /\ s' = s.
Proof. unfold add_int. destruct (in_int _); [|done]. by intros [= <- <-]. Qed.

Lemma u32_range z : 0 <= u32 z < UINT32.
Proof. apply Z.mod_pos_bound. unfold UINT32. lia. Qed.

Lemma u32_small z : 0 <= z < UINT32 -> u32 z = z.
Proof. apply Z.mod_small. Qed.

Lemma s32_small z : 0 <= z <= INT_MAX -> s32 z = z.
Proof.
  intros H. unfold s32. rewrite u32_small by (unfold INT_MAX, UINT32 in *; lia).
  destruct (Z.leb_spec z INT_MAX); lia.
Qed.

(** ** Lists *)
Lemma forallb_false {A} (f : A -> bool) (l : list A) :
  forallb f l = false -> exists x, In x l /\ f x = false.
Proof.
  induction l as [|x l IH]; simpl; [done|]. intros [H|H]%andb_false_iff; [by eauto|].
  destruct (IH H) as (y & ? & ?). eauto.
Qed.

Lemma filter_len_le {A} (P Q : A -> Prop) `{!forall x, Decision (P x), !forall x, Decision (Q x)}
    (l : list A) :
  (forall x, x ∈ l -> P x -> Q x) -> (length (filter P l) <= length (filter Q l))%nat.
Proof.
  induction l as [|x l IH]; intros Hpq; [done|].
  assert (IHl : (length (filter P l) <= length (filter Q l))%nat) by (apply IH; set_solver).
  rewrite !filter_cons. specialize (Hpq x). repeat case_decide; simpl; try lia.
  exfalso. set_solver.
Qed.

Lemma filter_len_lt {A} (P Q : A -> Prop) `{!forall x, Decision (P x), !forall x, Decision (Q x)}
    (l : list A) y :
  (forall x, x ∈ l -> P x -> Q x) -> y ∈ l -> Q y -> ~ P y ->
  (length (filter P l) < length (filter Q l))%nat.
Proof.
  induction l as [|x l IH]; intros Hpq Hy HQ HP; [by apply elem_of_nil in Hy|].
  assert (IHl : (length (filter P l) <= length (filter Q l))%nat)
    by (apply filter_len_le; set_solver).
  apply elem_of_cons in Hy as [->|Hy].
  - rewrite !filter_cons, decide_False, decide_True by done. simpl. lia.
  - assert (IHy : (length (filter P l) < length (filter Q l))%nat)
      by (apply IH; [set_solver|done..]).
    rewrite !filter_cons. specialize (Hpq x). repeat case_decide; simpl; try lia.
    exfalso. set_solver.
Qed.

Lemma filter_len_remove `{EqDecision A} (P Q : A -> Prop) `{!forall x, Decision (P x), !forall x, Decision (Q x)}
    (l : list A) y :
  NoDup l -> (forall x, x ∈ l -> P x -> x <> y -> Q x) ->
  (length (filter P l) <= S (length (filter Q l)))%nat.
Proof.
  induction l as [|x l IH]; intros Hnd Hpq; [simpl; lia|].
  apply NoDup_cons in Hnd as [Hx Hnd].
  assert (IHl : (length (filter P l) <= S (length (filter Q l)))%nat) by (apply IH; set_solver).
  rewrite !filter_cons. destruct (decide (P x)) as [Hp|], (decide (Q x)) as [|Hd]; simpl; try lia.
  apply le_n_S, filter_len_le. intros z Hz HPz. destruct (decide (x = y)) as [->|Hne].
  - apply Hpq; [set_solver|done|]. by intros ->.
  - by destruct Hd; apply Hpq; [left|..].
Qed.
