(* ===== verification/Bytes.v ===== *)
(** * Bytes: memory blocks as lists of byte values.

    A byte is a [Z] in [0, 256); a buffer or a disk sector is a list of bytes.
    [memcpy] and [memset] into an object fail when they leave the object, and
    32-bit words are stored little-endian, as on the i386. *)
From S2P Require Import Prelude.
From Stdlib Require Import ZArith Lia.
From stdpp Require Import prelude gmap.

Open Scope Z_scope.

(** [BLOCK_SECTOR_SIZE]. *)
Definition SECTOR : Z := 512.

(** ** Slices *)

(** The [n] bytes of [l] from offset [off]. *)
Definition slice (off n : Z) (l : list Z) : list Z :=
  take (Z.to_nat n) (drop (Z.to_nat off) l).

(** [l] with the bytes from offset [off] replaced by [new]. *)
Definition splice (off : Z) (new l : list Z) : list Z :=
  take (Z.to_nat off) l ++ new ++ drop (Z.to_nat off + length new) l.

(** The byte at offset [k]. *)
Definition byte_at (l : list Z) (k : Z) : Z := nth (Z.to_nat k) l 0.

(** [memcpy (dst + off, src, length src)] into an object with bytes [dst]. *)
Definition memcpy (dst : list Z) (off : Z) (src : list Z) : option (list Z) :=
  if decide (src = []) then Some dst
  else if (0 <=? off) && (off + Z.of_nat (length src) <=? Z.of_nat (length dst))
       then Some (splice off src dst) else None.

(** [memset (dst + off, c, n)]; the count is converted to [size_t]. *)
Definition memset (dst : list Z) (off c n : Z) : option (list Z) :=
  if u32 n =? 0 then Some dst
  else if (0 <=? off) && (off + u32 n <=? Z.of_nat (length dst))
       then Some (splice off (replicate (Z.to_nat (u32 n)) c) dst) else None.

(** [memcpy (buf, src + off, n)] reading from an object with bytes [src]. *)
Definition memread (src : list Z) (off n : Z) : option (list Z) :=
  if n =? 0 then Some []
  else if (0 <=? off) && (0 <=? n) && (off + n <=? Z.of_nat (length src))
       then Some (slice off n src) else None.

(** ** Little-endian words *)
Definition le32 (w : Z) : list Z :=
  [w mod 256; w / 2 ^ 8 mod 256; w / 2 ^ 16 mod 256; w / 2 ^ 24 mod 256].

Definition of_le32 (b : list Z) : Z :=
  byte_at b 0 + 2 ^ 8 * byte_at b 1 + 2 ^ 16 * byte_at b 2 + 2 ^ 24 * byte_at b 3.

Definition is_byte (b : Z) : Prop := 0 <= b < 256.

(** Word [i] of a sector seen as an array of 32-bit words. *)
Definition word_at (l : list Z) (i : Z) : Z := of_le32 (slice (4 * i) 4 l).
Definition set_word (l : list Z) (i w : Z) : list Z := splice (4 * i) (le32 w) l.

Lemma le32_length w : length (le32 w) = 4%nat.
Proof. done. Qed.

Lemma le32_bytes w : Forall is_byte (le32 w).
Proof. unfold le32, is_byte. repeat constructor; apply Z.mod_pos_bound; lia. Qed.

Lemma of_le32_le32 w : of_le32 (le32 w) = u32 w.
Proof.
  unfold of_le32, le32, byte_at, u32, UINT32. cbn [nth Z.to_nat Pos.to_nat Pos.iter_op].
  simpl. change (Z.pow_pos 2 8) with 256. change (Z.pow_pos 2 16) with 65536.
  change (Z.pow_pos 2 24) with 16777216. change (Z.pow_pos 2 32) with 4294967296.
  Z.div_mod_to_equations. lia.
Qed.

Lemma le32_of_le32 b : length b = 4%nat -> Forall is_byte b -> le32 (of_le32 b) = b.
Proof.
  intros Hl Hb. destruct b as [|a [|b [|c [|d [|]]]]]; try done.
  rewrite !Forall_cons in Hb. unfold is_byte in Hb. destruct Hb as (Ha & Hb & Hc & Hd & _).
  unfold of_le32, le32, byte_at. simpl.
  change (Z.pow_pos 2 8) with 256 in *. change (Z.pow_pos 2 16) with 65536.
  change (Z.pow_pos 2 24) with 16777216.
  repeat f_equal; Z.div_mod_to_equations; lia.
Qed.

Lemma of_le32_range b : length b = 4%nat -> Forall is_byte b -> 0 <= of_le32 b < UINT32.
Proof.
  intros Hl Hb. destruct b as [|a [|b [|c [|d [|]]]]]; try done.
  rewrite !Forall_cons in Hb. unfold is_byte in Hb. destruct Hb as (Ha & Hb & Hc & Hd & _).
  unfold of_le32, byte_at, UINT32. simpl. lia.
Qed.

(** ** Lemmas on slices *)
Lemma length_slice off n l :
  0 <= off -> 0 <= n -> off + n <= Z.of_nat (length l) ->
  length (slice off n l) = Z.to_nat n.
Proof. intros. unfold slice. rewrite length_take, length_drop. lia. Qed.

Lemma length_splice off new l :
  0 <= off -> off + Z.of_nat (length new) <= Z.of_nat (length l) ->
  length (splice off new l) = length l.
Proof.
  intros. unfold splice. rewrite !length_app, length_take, length_drop. lia.
Qed.

Lemma nth_default_lookup (l : list Z) i : nth i l 0 = default 0 (l !! i).
Proof. revert i. induction l; intros [|i]; simpl; auto. Qed.

Lemma byte_at_splice off new l k :
  0 <= off -> off + Z.of_nat (length new) <= Z.of_nat (length l) -> 0 <= k ->
  byte_at (splice off new l) k =
    if (off <=? k) && (k <? off + Z.of_nat (length new))
    then byte_at new (k - off) else byte_at l k.
Proof.
  intros Ho Hl Hk. unfold byte_at, splice. rewrite !nth_default_lookup.
  destruct (Z.leb_spec off k); simpl; [|rewrite lookup_app_l, lookup_take_lt;
    rewrite ?length_take; try lia; done].
  rewrite lookup_app_r; rewrite length_take; [|lia].
  destruct (Z.ltb_spec k (off + Z.of_nat (length new))).
  - rewrite lookup_app_l by lia. do 2 f_equal. lia.
  - rewrite lookup_app_r by lia. rewrite lookup_drop. do 2 f_equal. lia.
Qed.

Lemma byte_at_slice off n l k :
  0 <= off -> 0 <= k < n -> byte_at (slice off n l) k = byte_at l (off + k).
Proof.
  intros. unfold byte_at, slice. rewrite !nth_default_lookup. f_equal.
  rewrite lookup_take_lt by lia. rewrite lookup_drop. f_equal. lia.
Qed.

Lemma byte_at_replicate n c k : 0 <= k < Z.of_nat n -> byte_at (replicate n c) k = c.
Proof.
  intros. unfold byte_at. rewrite nth_default_lookup.
  rewrite lookup_replicate_2; [done|lia].
Qed.

Lemma list_byte_eq l1 l2 :
  length l1 = length l2 ->
  (forall k, 0 <= k < Z.of_nat (length l1) -> byte_at l1 k = byte_at l2 k) -> l1 = l2.
Proof.
  intros Hl H. apply (nth_ext _ _ 0 0); [done|].
  intros n Hn. specialize (H (Z.of_nat n)). unfold byte_at in H.
  rewrite Nat2Z.id in H. apply H. lia.
Qed.

Lemma slice_splice_same off new l :
  0 <= off -> off + Z.of_nat (length new) <= Z.of_nat (length l) ->
  slice off (Z.of_nat (length new)) (splice off new l) = new.
Proof.
  intros Ho Hl. apply list_byte_eq.
  - rewrite length_slice; rewrite ?length_splice; lia.
  - rewrite length_slice by (rewrite ?length_splice; lia). intros k Hk.
    rewrite byte_at_slice, byte_at_splice by lia.
    destruct (Z.leb_spec off (off + k)), (Z.ltb_spec (off + k) (off + Z.of_nat (length new)));
      simpl; try lia. f_equal. lia.
Qed.

Lemma slice_splice_other off n off' new l :
  0 <= off -> 0 <= n -> 0 <= off' -> off + n <= Z.of_nat (length l) ->
  off' + Z.of_nat (length new) <= Z.of_nat (length l) ->
  off + n <= off' \/ off' + Z.of_nat (length new) <= off ->
  slice off n (splice off' new l) = slice off n l.
Proof.
  intros. apply list_byte_eq.
  - rewrite !length_slice; rewrite ?length_splice; lia.
  - rewrite length_slice by (rewrite ?length_splice; lia). intros k Hk.
    rewrite !byte_at_slice, byte_at_splice by lia.
    destruct (Z.leb_spec off' (off + k)), (Z.ltb_spec (off + k) (off' + Z.of_nat (length new)));
      simpl; try lia; done.
Qed.

Lemma word_at_set_word l i w :
  0 <= i -> 4 * i + 4 <= Z.of_nat (length l) -> word_at (set_word l i w) i = u32 w.
Proof.
  intros. unfold word_at, set_word. change 4 with (Z.of_nat (length (le32 w))) at 2.
  rewrite slice_splice_same by (simpl; lia). apply of_le32_le32.
Qed.

Lemma word_at_set_word_ne l i j w :
  0 <= i -> 0 <= j -> i <> j -> 4 * i + 4 <= Z.of_nat (length l) ->
  4 * j + 4 <= Z.of_nat (length l) -> word_at (set_word l i w) j = word_at l j.
Proof.
  intros. unfold word_at, set_word. rewrite slice_splice_other; simpl; try done; lia.
Qed.

Lemma length_set_word l i w :
  0 <= i -> 4 * i + 4 <= Z.of_nat (length l) -> length (set_word l i w) = length l.
Proof. intros. apply length_splice; simpl; lia. Qed.

Lemma memset_zero_count dst off c : memset dst off c 0 = Some dst.
Proof. done. Qed.

Lemma memset_ok dst off c n :
  0 <= off -> 0 <= n -> off + n <= Z.of_nat (length dst) -> n < UINT32 ->
  exists dst', memset dst off c n = Some dst' /\ length dst' = length dst /\
    forall k, 0 <= k -> byte_at dst' k =
      if (off <=? k) && (k <? off + n) then c else byte_at dst k.
Proof.
  intros Ho Hn Hl Hu. unfold memset. rewrite u32_small by lia.
  destruct (Z.eqb_spec n 0) as [->|Hz].
  - eexists; split_and!; [done|done|]. intros k Hk.
    destruct (Z.leb_spec off k), (Z.ltb_spec k (off + 0)); simpl; try done; lia.
  - replace (_ && _) with true by (symmetry; apply andb_true_iff; split; apply Z.leb_le; lia).
    eexists; split_and!; [done| |].
    + apply length_splice; rewrite ?length_replicate; lia.
    + intros k Hk. rewrite byte_at_splice; rewrite ?length_replicate; try lia.
      rewrite Z2Nat.id by lia.
      destruct (Z.leb_spec off k), (Z.ltb_spec k (off + n)); simpl; try done.
      apply byte_at_replicate. lia.
Qed.

Lemma memcpy_ok dst off src :
  0 <= off -> off + Z.of_nat (length src) <= Z.of_nat (length dst) ->
  memcpy dst off src = Some (splice off src dst).
Proof.
  intros Ho Hl. unfold memcpy. case_decide as Hs.
  - subst. unfold splice. simpl. f_equal. rewrite Nat.add_0_r. by rewrite take_drop.
  - replace (_ && _) with true; [done|].
    symmetry; apply andb_true_iff; split; apply Z.leb_le; lia.
Qed.

Lemma memread_ok src off n :
  0 <= off -> 0 <= n -> off + n <= Z.of_nat (length src) ->
  memread src off n = Some (slice off n src).
Proof.
  intros Ho Hn Hl. unfold memread. destruct (Z.eqb_spec n 0) as [->|].
  - unfold slice. by rewrite take_0.
  - replace (_ && _ && _) with true; [done|].
    symmetry; rewrite !andb_true_iff; split_and!; apply Z.leb_le; lia.
Qed.

Lemma slice_app a n m l :
  0 <= a -> 0 <= n -> 0 <= m -> slice a n l ++ slice (a + n) m l = slice a (n + m) l.
Proof.
  intros. unfold slice. rewrite Z2Nat.inj_add, Z2Nat.inj_add, <- drop_drop, <- take_take_drop by lia.
  done.
Qed.

(** A slice after one that may have been cut short by the end. *)
Lemma slice_slice_app a n m l :
  0 <= a -> 0 <= n -> 0 <= m ->
  slice a n l ++ slice (a + Z.of_nat (length (slice a n l))) m l = slice a (n + m) l.
Proof.
  intros Ha Hn Hm. destruct (Z.leb_spec (a + n) (Z.of_nat (length l))).
  - rewrite length_slice, Z2Nat.id by lia. by apply slice_app.
  - assert (Hl : length (slice a n l) = (length l - Z.to_nat a)%nat)
      by (unfold slice; rewrite length_take, length_drop; lia).
    unfold slice at 2. rewrite drop_ge, take_nil, app_nil_r by lia.
    unfold slice. rewrite !take_ge by (rewrite length_drop; lia). done.
Qed.
