(* ===== verification/State.v ===== *)
(** * State: the state of the file system code and the interfaces below it.

    The block device and the bitmap library are not part of the sources; they
    are type classes here: the operations the code calls, and the laws their
    documentation gives. *)
From S2P Require Import Prelude Bytes.
From Stdlib Require Import ZArith Lia.
From stdpp Require Import prelude gmap.

Open Scope Z_scope.

(** ** Interface: the block device ([devices/block.h]) *)
Class BlockDev (D : Type) := {
  dev_sectors : Z;                              (* [block_size (fs_device)] *)
  block_read : D -> Z -> list Z;
  block_write : D -> Z -> list Z -> D;
}.

(** The device panics on a sector outside it. *)
Definition valid_sector {D} {dev : BlockDev D} (sid : Z) : bool :=
  (0 <=? sid) && (sid <? dev_sectors).

Class BlockDevLaws (D : Type) {dev : BlockDev D} := {
  block_read_length d sid :
    valid_sector sid = true -> Z.of_nat (length (block_read d sid)) = SECTOR;
  block_read_write_eq d sid b :
    valid_sector sid = true -> Z.of_nat (length b) = SECTOR ->
    block_read (block_write d sid b) sid = b;
  block_read_write_ne d sid sid' b :
    sid <> sid' -> block_read (block_write d sid b) sid' = block_read d sid';
}.

(** ** Interface: bitmaps ([lib/kernel/bitmap.h]) *)
Class Bitmap (B : Type) := {
  bitmap_size : B -> Z;
  bitmap_test : B -> Z -> bool;
  (** [None] stands for [BITMAP_ERROR]. *)
  bitmap_scan_and_flip : B -> Z -> Z -> bool -> option Z * B;
  bitmap_set_multiple : B -> Z -> Z -> bool -> B;
  bitmap_all : B -> Z -> Z -> bool;
  bitmap_create : Z -> option B;                (* [None] when memory is exhausted *)
  bitmap_mark : B -> Z -> B;
  bitmap_flip : B -> Z -> B;
  bitmap_set_all : B -> bool -> B;
}.

Class BitmapLaws (B : Type) {bm : Bitmap B} := {
  bitmap_create_spec n b :
    0 <= n -> bitmap_create n = Some b ->
    bitmap_size b = n /\ forall i, 0 <= i < n -> bitmap_test b i = false;
  bitmap_mark_size b i : bitmap_size (bitmap_mark b i) = bitmap_size b;
  bitmap_mark_test b i j :
    0 <= i < bitmap_size b -> 0 <= j < bitmap_size b ->
    bitmap_test (bitmap_mark b i) j = if i =? j then true else bitmap_test b j;
  bitmap_flip_size b i : bitmap_size (bitmap_flip b i) = bitmap_size b;
  bitmap_flip_test b i j :
    0 <= i < bitmap_size b -> 0 <= j < bitmap_size b ->
    bitmap_test (bitmap_flip b i) j = if i =? j then negb (bitmap_test b j) else bitmap_test b j;
  bitmap_set_all_size b v : bitmap_size (bitmap_set_all b v) = bitmap_size b;
  bitmap_set_all_test b v i : 0 <= i < bitmap_size b -> bitmap_test (bitmap_set_all b v) i = v;
  bitmap_set_multiple_size b start cnt v :
    bitmap_size (bitmap_set_multiple b start cnt v) = bitmap_size b;
  bitmap_set_multiple_test b start cnt v i :
    0 <= start -> 0 <= cnt -> start + cnt <= bitmap_size b -> 0 <= i < bitmap_size b ->
    bitmap_test (bitmap_set_multiple b start cnt v) i =
      if (start <=? i) && (i <? start + cnt) then v else bitmap_test b i;
  bitmap_all_spec b start cnt :
    0 <= start -> 0 <= cnt -> start + cnt <= bitmap_size b ->
    bitmap_all b start cnt = true <->
      (forall i, start <= i < start + cnt -> bitmap_test b i = true);
  (** The scan finds the first group of [cnt] bits equal to [v]. *)
  bitmap_scan_some b start cnt v i b' :
    0 <= start -> 0 < cnt -> bitmap_scan_and_flip b start cnt v = (Some i, b') ->
    start <= i /\ i + cnt <= bitmap_size b /\
    (forall j, i <= j < i + cnt -> bitmap_test b j = v) /\
    b' = bitmap_set_multiple b i cnt (negb v);
  bitmap_scan_none b start cnt v b' :
    0 <= start -> 0 < cnt -> bitmap_scan_and_flip b start cnt v = (None, b') ->
    b' = b /\
    (forall i, start <= i -> i + cnt <= bitmap_size b ->
      exists j, i <= j < i + cnt /\ bitmap_test b j = negb v);
}.

(** ** Locks

    The locks of the file system and of the paging code.  A run of one thread is modelled:
    the state records which locks that thread holds. *)
Inductive lockid :=
| file_lock
| cache_lock
| frame_lock
| swap_lock
| cache_io (c : nat)
| inode_io (i : nat).

#[export] Instance lockid_eq_dec : EqDecision lockid.
Proof. solve_decision. Defined.

#[export] Program Instance lockid_countable : Countable lockid :=
  inj_countable'
    (fun l => match l with
       | file_lock => inl (false, false) | cache_lock => inl (false, true)
       | frame_lock => inl (true, false) | swap_lock => inl (true, true)
       | cache_io c => inr (inl c) | inode_io i => inr (inr i) end)
    (fun x => match x with
       | inl (false, false) => file_lock | inl (false, true) => cache_lock
       | inl (true, false) => frame_lock | inl (true, true) => swap_lock
       | inr (inl c) => cache_io c | inr (inr i) => inode_io i end) _.
Next Obligation. by intros []. Qed.

(** ** Data *)

(** [struct cache]; [c_id] is its address. *)
Record cache := Cache {
  c_id : nat;
  c_sid : Z;
  c_AB : bool;
  c_DB : bool;
  c_read_cnt : Z;
  c_data : list Z;
}.

(** [struct inode_disk]; [unused] includes nothing but the tail of the sector,
    [pad] the three bytes after [isdir]. *)
Record inode_disk := InodeDisk {
  id_length : Z;
  id_sp : Z;
  id_ind : Z;
  id_din : Z;
  id_magic : Z;
  id_isdir : bool;
  id_pad : list Z;
  id_parent : Z;
  id_unused : list Z;
}.

(** [struct inode]; its address is its key in the heap. *)
Record inode := Inode {
  i_sector : Z;
  i_open_cnt : Z;
  i_removed : bool;
  i_deny_write_cnt : Z;
  i_data : inode_disk;
  i_read_cnt : Z;
}.

(** [struct file]. *)
Record file := File {
  f_inode : nat;
  f_pos : Z;
  f_deny_write : bool;
}.

(** The state of [cache.c], [free-map.c] and [inode.c]. *)
Record fs (D B : Type) := Fs {
  fs_device : D;
  cache_list : list cache;
  used_cache : Z;
  next_cache : nat;                   (* the next fresh address of a [struct cache] *)
  free_map : B;
  free_map_file : option file;
  open_inodes : list nat;
  inodes : gmap nat inode;            (* the allocated [struct inode]s *)
  next_inode : nat;
  held : gset lockid;
}.
Arguments Fs {D B}.
Arguments fs_device {D B}. Arguments cache_list {D B}. Arguments used_cache {D B}.
Arguments next_cache {D B}. Arguments free_map {D B}. Arguments free_map_file {D B}.
Arguments open_inodes {D B}. Arguments inodes {D B}. Arguments next_inode {D B}.
Arguments held {D B}.

Section setters.
Context {D B : Type}.
Implicit Types s : fs D B.

Definition set_device (x : D) s := Fs x (cache_list s) (used_cache s) (next_cache s)
  (free_map s) (free_map_file s) (open_inodes s) (inodes s) (next_inode s) (held s).
Definition set_caches x s := Fs (fs_device s) x (used_cache s) (next_cache s)
  (free_map s) (free_map_file s) (open_inodes s) (inodes s) (next_inode s) (held s).
Definition set_used x s := Fs (fs_device s) (cache_list s) x (next_cache s)
  (free_map s) (free_map_file s) (open_inodes s) (inodes s) (next_inode s) (held s).
Definition set_next_cache x s := Fs (fs_device s) (cache_list s) (used_cache s) x
  (free_map s) (free_map_file s) (open_inodes s) (inodes s) (next_inode s) (held s).
Definition set_free_map (x : B) s := Fs (fs_device s) (cache_list s) (used_cache s) (next_cache s)
  x (free_map_file s) (open_inodes s) (inodes s) (next_inode s) (held s).
Definition set_free_map_file x s := Fs (fs_device s) (cache_list s) (used_cache s)
  (next_cache s) (free_map s) x (open_inodes s) (inodes s) (next_inode s) (held s).
Definition set_open_inodes x s := Fs (fs_device s) (cache_list s) (used_cache s)
  (next_cache s) (free_map s) (free_map_file s) x (inodes s) (next_inode s) (held s).
Definition set_inodes x s := Fs (fs_device s) (cache_list s) (used_cache s)
  (next_cache s) (free_map s) (free_map_file s) (open_inodes s) x (next_inode s) (held s).
Definition set_next_inode x s := Fs (fs_device s) (cache_list s) (used_cache s)
  (next_cache s) (free_map s) (free_map_file s) (open_inodes s) (inodes s) x (held s).
Definition set_held x s := Fs (fs_device s) (cache_list s) (used_cache s)
  (next_cache s) (free_map s) (free_map_file s) (open_inodes s) (inodes s) (next_inode s) x.
End setters.

(** ** Lock operations ([threads/synch.h], as seen by the running thread) *)
Section locks.
Context {D B : Type}.
Implicit Types (s : fs D B) (l : lockid).

(** [lock->holder == thread_current ()]. *)
Definition holds l : M (fs D B) bool := fun s => Ok (bool_decide (l ∈ held s)) s.

(** Acquiring a lock one holds fails the assertion of [lock_acquire]. *)
Definition lock_acquire l : M (fs D B) unit := fun s =>
  if decide (l ∈ held s) then Fail Panic else Ok tt (set_held ({[l]} ∪ held s) s).

Definition lock_release l : M (fs D B) unit := fun s =>
  if decide (l ∈ held s) then Ok tt (set_held (held s ∖ {[l]}) s) else Fail Panic.

(** [cond_wait] gives up the processor until another thread signals. *)
Definition cond_wait l : M (fs D B) unit := fun s =>
  if decide (l ∈ held s) then Fail WouldBlock else Fail Panic.

(** With no other thread waiting, [cond_signal] only checks the lock. *)
Definition cond_signal l : M (fs D B) unit := fun s =>
  if decide (l ∈ held s) then Ok tt s else Fail Panic.

(** [if (l.holder != thread_current ()) { fl = 1; lock_acquire (&l); } body
    if (fl == 1) lock_release (&l);] *)
Definition guarded {A} l (body : M (fs D B) A) : M (fs D B) A :=
  h ← holds l;
  when (negb h) (lock_acquire l);;
  r ← body;
  when (negb h) (lock_release l);;
  mret r.

(** [lock_acquire (&l); body; lock_release (&l)] *)
Definition locked {A} l (body : M (fs D B) A) : M (fs D B) A :=
  lock_acquire l;; r ← body; lock_release l;; mret r.

Lemma set_held_id s : set_held (held s) s = s.
Proof. by destruct s. Qed.

Lemma wp_lock_acquire l (Q : unit -> fs D B -> Prop) s :
  l ∉ held s -> Q tt (set_held ({[l]} ∪ held s) s) -> wp (lock_acquire l) Q s.
Proof. intros Hl HQ. unfold wp, lock_acquire. by rewrite decide_False. Qed.

Lemma wp_lock_release l (Q : unit -> fs D B -> Prop) s :
  l ∈ held s -> Q tt (set_held (held s ∖ {[l]}) s) -> wp (lock_release l) Q s.
Proof. intros Hl HQ. unfold wp, lock_release. by rewrite decide_True. Qed.

Lemma wp_cond_signal l (Q : unit -> fs D B -> Prop) s :
  l ∈ held s -> Q tt s -> wp (cond_signal l) Q s.
Proof. intros Hl HQ. unfold wp, cond_signal. by rewrite decide_True. Qed.

(** A guarded body runs with the lock held; afterwards the set of held locks
    is what it was if the body leaves the held locks alone. *)
Lemma wp_guarded {A} l (body : M (fs D B) A) (Q : A -> fs D B -> Prop) s :
  wp body (fun a s' => held s' = {[l]} ∪ held s /\ Q a (set_held (held s) s'))
     (set_held ({[l]} ∪ held s) s) ->
  wp (guarded l body) Q s.
Proof.
  intros H. unfold guarded. apply wp_bind. unfold holds, wp at 1. apply wp_bind.
  case_bool_decide as Hl; simpl.
  - replace ({[l]} ∪ held s) with (held s) in H by set_solver.
    rewrite set_held_id in H. unfold wp at 1, when at 1. apply wp_bind.
    eapply wp_mono; [exact H|]. intros a s' [Hh HQ]. apply wp_bind.
    unfold wp at 1, when. apply wp_ret. revert HQ. rewrite <- Hh at 1.
    by rewrite set_held_id.
  - unfold when at 1. apply wp_lock_acquire; [done|]. apply wp_bind.
    eapply wp_mono; [exact H|]. intros a s' [Hh HQ]. apply wp_bind. unfold when.
    apply wp_lock_release; [set_solver|]. apply wp_ret.
    replace (held s' ∖ {[l]}) with (held s) by set_solver. done.
Qed.

Lemma wp_locked {A} l (body : M (fs D B) A) (Q : A -> fs D B -> Prop) s :
  l ∉ held s ->
  wp body (fun a s' => held s' = {[l]} ∪ held s /\ Q a (set_held (held s) s'))
     (set_held ({[l]} ∪ held s) s) ->
  wp (locked l body) Q s.
Proof.
  intros Hl H. unfold locked. apply wp_bind. apply wp_lock_acquire; [done|].
  apply wp_bind. eapply wp_mono; [exact H|]. intros a s' [Hh HQ]. apply wp_bind.
  apply wp_lock_release; [set_solver|]. apply wp_ret.
  replace (held s' ∖ {[l]}) with (held s) by set_solver. done.
Qed.
End locks.
