(* ===== verification/Instances.v ===== *)
(** * Instances: a concrete block device and a concrete bitmap.

    They show that the laws of the interfaces of State can hold, and let the
    witnesses run the modelled code.  They are not models of the device driver
    or of the bitmap library. *)
From S2P Require Import Prelude Bytes State.
From Stdlib Require Import ZArith Lia.
From stdpp Require Import prelude gmap.

Open Scope Z_scope.

(** ** A device of 1024 sectors, zero where nothing was written *)
Definition disk : Type := gmap Z (list Z).

Definition whole (b : list Z) : list Z := take 512 (b ++ replicate 512 0).

#[export] Instance disk_dev : BlockDev disk := {
  dev_sectors := 1024;
  block_read d sid := whole (default [] (lookup (M := gmap Z (list Z)) sid d));
  block_write d sid b := insert (M := gmap Z (list Z)) sid b d;
}.

#[export] Instance disk_dev_laws : BlockDevLaws disk.
Proof.
  split; simpl; unfold whole.
  - intros d sid _. rewrite length_take, length_app, length_replicate. unfold SECTOR. lia.
  - intros d sid b _ Hb. unfold SECTOR in Hb. rewrite lookup_insert_eq. simpl.
    rewrite take_app_le by lia. rewrite take_ge; [done|lia].
  - intros d sid sid' b Hne. by rewrite lookup_insert_ne.
Qed.

(** ** A bitmap as a list of bits *)
Definition bits : Type := list bool.

Definition bits_test (b : bits) (i : Z) : bool := nth (Z.to_nat i) b false.

Definition bits_set (b : bits) (start cnt : Z) (v : bool) : bits :=
  imap (fun i x => if (start <=? Z.of_nat i) && (Z.of_nat i <? start + cnt) then v else x) b.

Definition bits_group (b : bits) (cnt : Z) (v : bool) (i : Z) : bool :=
  forallb (fun j => eqb (bits_test b j) v) (seqZ i cnt).

Definition bits_scan (b : bits) (start cnt : Z) (v : bool) : option Z :=
  List.find (bits_group b cnt v) (seqZ start (Z.of_nat (length b) - cnt - start + 1)).

Definition bits_mark (b : bits) (i : Z) : bits := <[Z.to_nat i := true]> (b : list bool).

Lemma bits_mark_test (b : list bool) i j :
  0 <= i < Z.of_nat (length b) -> 0 <= j ->
  bits_test (bits_mark b i) j = if i =? j then true else bits_test b j.
Proof.
  intros Hi Hj. unfold bits_test, bits_mark. rewrite !nth_lookup.
  destruct (Z.eqb_spec i j) as [->|].
  - by rewrite list_lookup_insert_eq by lia.
  - by rewrite list_lookup_insert_ne by lia.
Qed.

#[export] Instance bits_bitmap : Bitmap bits := {
  bitmap_size b := Z.of_nat (length b);
  bitmap_test := bits_test;
  bitmap_scan_and_flip b start cnt v :=
    match bits_scan b start cnt v with
    | Some i => (Some i, bits_set b i cnt (negb v))
    | None => (None, b)
    end;
  bitmap_set_multiple := bits_set;
  bitmap_all b start cnt := bits_group b cnt true start;
  bitmap_create n := Some (replicate (Z.to_nat n) false);
  bitmap_mark := bits_mark;
  bitmap_flip b i := <[Z.to_nat i := negb (bits_test b i)]> (b : list bool);
  bitmap_set_all b v := replicate (length b) v;
}.

Lemma bits_group_spec b cnt v i :
  bits_group b cnt v i = true <-> (forall j, i <= j < i + cnt -> bits_test b j = v).
Proof.
  unfold bits_group. rewrite forallb_forall. split; intros H j Hj.
  - apply eqb_prop, H. apply list_elem_of_In, elem_of_seqZ. lia.
  - apply list_elem_of_In, elem_of_seqZ in Hj. rewrite H by lia. apply eqb_reflx.
Qed.

#[export] Instance bits_bitmap_laws : BitmapLaws bits.
Proof.
  split; simpl.
  - intros n b Hn [= <-]. rewrite length_replicate. split; [lia|]. intros i Hi.
    unfold bits_test. rewrite nth_lookup, lookup_replicate_2 by lia. done.
  - intros b i. f_equal. apply length_insert.
  - intros. by apply bits_mark_test; [|lia].
  - intros b i. f_equal. apply length_insert.
  - intros b i j Hi Hj. unfold bits_test. rewrite !nth_lookup. destruct (Z.eqb_spec i j) as [->|].
    + by rewrite list_lookup_insert_eq by lia.
    + by rewrite list_lookup_insert_ne by lia.
  - intros b v. f_equal. apply length_replicate.
  - intros b v i Hi. unfold bits_test. by rewrite nth_lookup, lookup_replicate_2 by lia.
  - intros. unfold bits_set. by rewrite length_imap.
  - intros b start cnt v i H1 H2 H3 H4. unfold bits_test, bits_set.
    rewrite !(nth_lookup _ _ false), list_lookup_imap.
    destruct (lookup_lt_is_Some_2 b (Z.to_nat i)) as [x Hx]; [lia|]. rewrite Hx. simpl.
    rewrite Z2Nat.id by lia. done.
  - intros b start cnt _ _ _. apply bits_group_spec.
  - intros b start cnt v i b' _ Hc. unfold bits_scan.
    destruct (List.find _ _) eqn:Hf; [|done]. intros [= <- <-].
    apply List.find_some in Hf as [Hin Hg]. apply list_elem_of_In, elem_of_seqZ in Hin.
    rewrite bits_group_spec in Hg. split_and!; [lia|lia|done|done].
  - intros b start cnt v b' _ Hc. unfold bits_scan.
    destruct (List.find _ _) eqn:Hf; [done|]. intros [= <-]. split; [done|].
    intros i Hi1 Hi2. eapply List.find_none in Hf;
      [|apply list_elem_of_In, elem_of_seqZ; split; [exact Hi1|lia]].
    unfold bits_group in Hf. apply forallb_false in Hf as (j & Hj & He).
    exists j. apply list_elem_of_In, elem_of_seqZ in Hj. split; [lia|].
    by destruct (bits_test b j), v.
Qed.

(** The state after [cache_system_init] on a fresh device with [n] free sectors
    after the two system sectors. *)
Definition fresh_fs (n : nat) : fs disk bits :=
  Fs ∅ [] 0 0 ([true; true] ++ replicate n false) None [] ∅ 0 ∅.
