(* ===== verification/Cache.v ===== *)
(** * Cache: the buffer cache ([filesys/cache.c]). *)
From S2P Require Import Prelude Bytes State Instances.
From Stdlib Require Import ZArith Lia.
From stdpp Require Import prelude gmap.

Open Scope Z_scope.

Definition CACHE_SIZE : Z := 64.
Definition READ_BLOCK : bool := false.
Definition WRITE_BLOCK : bool := true.

Section cache.
Context {D B : Type} {dev : BlockDev D}.
Abbreviation fs := (fs D B).
Abbreviation K := (M fs).
Implicit Types (s : fs) (c : cache) (h : nat).

(** ** The objects behind [struct cache *] *)
Definition find_id h (l : list cache) : option cache :=
  List.find (fun c => Nat.eqb (c_id c) h) l.
Definition find_sid (sid : Z) (l : list cache) : option cache :=
  List.find (fun c => c_sid c =? sid) l.
Definition update_id h (f : cache -> cache) (l : list cache) : list cache :=
  map (fun c => if Nat.eqb (c_id c) h then f c else c) l.
Definition remove_id h (l : list cache) : list cache :=
  List.filter (fun c => negb (Nat.eqb (c_id c) h)) l.

Definition load_cache h : K cache := s ← get; deref (find_id h (cache_list s)).
Definition store_cache h (f : cache -> cache) : K unit :=
  load_cache h;; modify (fun s => set_caches (update_id h f (cache_list s)) s).
(** [list_remove (&c->elem); free (c);] *)
Definition unlink_cache h : K unit :=
  load_cache h;; modify (fun s => set_caches (remove_id h (cache_list s)) s).

Definition set_AB (b : bool) c := Cache (c_id c) (c_sid c) b (c_DB c) (c_read_cnt c) (c_data c).
Definition set_DB (b : bool) c := Cache (c_id c) (c_sid c) (c_AB c) b (c_read_cnt c) (c_data c).
Definition set_sid (n : Z) c := Cache (c_id c) n (c_AB c) (c_DB c) (c_read_cnt c) (c_data c).
Definition set_read_cnt (n : Z) c := Cache (c_id c) (c_sid c) (c_AB c) (c_DB c) n (c_data c).
Definition set_data (d : list Z) c := Cache (c_id c) (c_sid c) (c_AB c) (c_DB c) (c_read_cnt c) d.

Definition dev_read (sid : Z) : K (list Z) :=
  assert (valid_sector sid);; gets (fun s => block_read (fs_device s) sid).
Definition dev_write (sid : Z) (b : list Z) : K unit :=
  assert (valid_sector sid);; modify (fun s => set_device (block_write (fs_device s) sid b) s).

(** ** Readers and writers of one block *)
Definition read_cache h : K unit :=
  locked (cache_io h)
    (c ← load_cache h; store_cache h (set_read_cnt (c_read_cnt c + 1))).

Definition end_read h : K unit :=
  locked (cache_io h)
    (c ← load_cache h;
     store_cache h (set_read_cnt (c_read_cnt c - 1));;
     when (c_read_cnt c - 1 =? 0) (cond_signal (cache_io h))).

Definition write_cache h : K unit :=
  lock_acquire (cache_io h);;
  c ← load_cache h;
  when (0 <? c_read_cnt c) (cond_wait (cache_io h)).

Definition end_write h : K unit :=
  load_cache h;;
  cond_signal (cache_io h);;
  lock_release (cache_io h).

(** ** Lookup, eviction and creation *)
Definition find_cache (sid : Z) : K (option nat) :=
  guarded cache_lock (gets (fun s => c_id <$> find_sid sid (cache_list s))).

(** The body of the [for] of [cache_evict] over the entries [es]; the result says
    whether an entry was evicted. *)
Fixpoint evict_pass (es : list nat) : K bool :=
  match es with
  | [] => mret false
  | e :: rest =>
    b ← guarded (cache_io e)
      (c ← load_cache e;
       if c_AB c then store_cache e (set_AB false);; mret false
       else when (c_DB c) (dev_write (c_sid c) (c_data c));; mret true);
    if (b : bool) then unlink_cache e;; mret true else evict_pass rest
  end.

(** [while (1) for (...)], [fuel] passes at most. *)
Fixpoint evict_loop (fuel : nat) : K unit :=
  match fuel with
  | O => fail Hang
  | S fuel' =>
    es ← gets (fun s => c_id <$> cache_list s);
    b ← evict_pass es;
    if (b : bool) then mret tt else evict_loop fuel'
  end.

Definition cache_evict (fuel : nat) : K unit :=
  evict_loop fuel;; modify (fun s => set_used (used_cache s - 1) s).

(** [while (used_cache >= CACHE_SIZE) cache_evict ();] *)
Fixpoint make_room (fuel : nat) : K unit :=
  match fuel with
  | O => fail Hang
  | S fuel' =>
    u ← gets used_cache;
    if CACHE_SIZE <=? u then cache_evict 2;; make_room fuel' else mret tt
  end.

(** [malloc] and [list_push_back]; every field is written before it is read. *)
Definition new_cache : K nat :=
  h ← gets next_cache;
  modify (fun s => set_next_cache (S h)
    (set_caches (cache_list s ++ [Cache h 0 false false 0 []]) s));;
  mret h.

Definition create_cache (sid : Z) (type : bool) : K nat :=
  guarded cache_lock
    (u ← gets used_cache;
     make_room (S (Z.to_nat u));;
     h ← new_cache;
     modify (fun s => set_used (used_cache s + 1) s);;
     store_cache h (set_read_cnt 0);;
     locked (cache_io h)
       (store_cache h (fun c => set_sid sid (set_AB true c));;
        b ← dev_read sid;
        store_cache h (set_data b));;
     store_cache h (set_DB type);;
     mret h).

Definition cache_block (sid : Z) (type : bool) : K nat :=
  c ← find_cache sid;
  match c with
  | None => create_cache sid type
  | Some h =>
    locked (cache_io h)
      (store_cache h (fun c => set_DB (c_DB c || type) (set_AB true c)));;
    mret h
  end.

(** ** Write-back, removal and shutdown *)
Definition write_to_disk : K unit :=
  es ← gets (fun s => c_id <$> cache_list s);
  for_each es (fun e =>
    locked (cache_io e)
      (c ← load_cache e;
       when (c_DB c) (dev_write (c_sid c) (c_data c);; store_cache e (set_DB false)))).

(** One turn of the loop of [cache_writeback_func], after [timer_sleep]. *)
Definition cache_writeback_turn : K unit := locked cache_lock write_to_disk.

Definition cache_remove h : K unit := locked cache_lock (unlink_cache h).

Definition free_cache : K unit :=
  locked cache_lock
    (es ← gets (fun s => c_id <$> cache_list s);
     for_each es (fun e =>
       locked (cache_io e)
         (c ← load_cache e; dev_write (c_sid c) (c_data c));;
       unlink_cache e;;
       modify (fun s => set_used (used_cache s - 1) s))).

Definition cache_system_init : K unit :=
  modify (fun s => set_used 0 (set_caches [] s)).

(** ** The two patterns through which the inode layer uses a block *)

(** [cache = cache_block (sid, READ_BLOCK); read_cache (cache);
    memcpy (buf, &cache->data, BLOCK_SECTOR_SIZE); end_read (cache);] *)
Definition fetch_block (sid : Z) : K (list Z) :=
  h ← cache_block sid READ_BLOCK;
  read_cache h;;
  c ← load_cache h;
  end_read h;;
  mret (c_data c).

(** [cache = cache_block (sid, WRITE_BLOCK); write_cache (cache);
    memset or memcpy into cache->data; end_write (cache);] *)
Definition change_block (sid : Z) (f : list Z -> option (list Z)) : K unit :=
  h ← cache_block sid WRITE_BLOCK;
  write_cache h;;
  c ← load_cache h;
  d ← deref (f (c_data c));
  store_cache h (set_data d);;
  end_write h.
End cache.

(** ** The logical contents of the device

    What a reader of sector [sid] sees: the cached copy, or else the disk. *)
Section view.
Context {D : Type} {dev : BlockDev D}.
Implicit Types (d : D) (c : cache) (l : list cache).

Definition lview d l (sid : Z) : list Z :=
  match find_sid sid l with Some c => c_data c | None => block_read d sid end.

(** A clean entry agrees with the disk. *)
Definition entry_ok d c : Prop :=
  valid_sector (c_sid c) = true /\ Z.of_nat (length (c_data c)) = SECTOR /\
  c_read_cnt c = 0 /\ (c_DB c = false -> c_data c = block_read d (c_sid c)).

Definition entries_ok d l : Prop :=
  NoDup (c_id <$> l) /\ NoDup (c_sid <$> l) /\ Forall (entry_ok d) l.

(** [find_sid] *)
Lemma find_sid_Some sid l c : find_sid sid l = Some c -> c ∈ l /\ c_sid c = sid.
Proof.
  intros H. apply List.find_some in H as [Hin Heq].
  split; [by apply list_elem_of_In|by apply Z.eqb_eq].
Qed.

Lemma find_sid_None sid l : find_sid sid l = None <-> (sid ∉ c_sid <$> l).
Proof.
  unfold find_sid. induction l as [|c l IH]; simpl; [set_solver|].
  destruct (Z.eqb_spec (c_sid c) sid) as [->|]; set_solver.
Qed.

Lemma find_sid_elem l c : NoDup (c_sid <$> l) -> c ∈ l -> find_sid (c_sid c) l = Some c.
Proof.
  unfold find_sid. induction l as [|x l IH]; simpl; [set_solver|].
  intros Hnd Hin. apply NoDup_cons in Hnd as [Hx Hnd].
  destruct (Z.eqb_spec (c_sid x) (c_sid c)) as [He|Hne].
  - apply elem_of_cons in Hin as [->|Hin]; [done|].
    destruct Hx. rewrite He. by apply (list_elem_of_fmap_2 c_sid).
  - apply IH; [done|]. apply elem_of_cons in Hin as [->|]; done.
Qed.

Lemma find_sid_perm sid l l' :
  NoDup (c_sid <$> l) -> l ≡ₚ l' -> find_sid sid l = find_sid sid l'.
Proof.
  intros Hnd Hp. assert (Hnd' : NoDup (c_sid <$> l')) by (by rewrite <- Hp).
  destruct (find_sid sid l) as [c|] eqn:H.
  - apply find_sid_Some in H as [Hin <-]. symmetry. apply find_sid_elem; [done|].
    by rewrite <- Hp.
  - symmetry. apply find_sid_None. apply find_sid_None in H. by rewrite <- Hp.
Qed.

Lemma lview_perm d l l' k :
  NoDup (c_sid <$> l) -> l ≡ₚ l' -> lview d l k = lview d l' k.
Proof. intros. unfold lview. by rewrite (find_sid_perm k l l'). Qed.

#[export] Instance entries_ok_perm d : Proper (Permutation ==> iff) (entries_ok d).
Proof. intros l l' Hp. unfold entries_ok. by rewrite Hp. Qed.

Lemma lview_cons d c l k :
  lview d (c :: l) k = if c_sid c =? k then c_data c else lview d l k.
Proof. unfold lview, find_sid. simpl. by destruct (c_sid c =? k). Qed.

(** The reference bit and the io counter do not matter to the contents. *)
Lemma lview_fmap d l (g : cache -> cache) k :
  (forall c, c_sid (g c) = c_sid c /\ c_data (g c) = c_data c) ->
  lview d (g <$> l) k = lview d l k.
Proof.
  intros Hg. induction l as [|c l IH]; [done|]. rewrite fmap_cons, !lview_cons, IH.
  destruct (Hg c) as [-> ->]. done.
Qed.

Lemma lview_strip d l l' k :
  set_AB false <$> l = set_AB false <$> l' -> lview d l k = lview d l' k.
Proof.
  intros H. rewrite <- (lview_fmap d l (set_AB false)) by done.
  rewrite H. by apply lview_fmap.
Qed.

Lemma entries_ok_strip d l : entries_ok d (set_AB false <$> l) <-> entries_ok d l.
Proof. unfold entries_ok. rewrite <- !list_fmap_compose, Forall_fmap. done. Qed.

Lemma entries_ok_cons d c l :
  entries_ok d (c :: l) <->
  (c_id c ∉ c_id <$> l) /\ (c_sid c ∉ c_sid <$> l) /\ entry_ok d c /\ entries_ok d l.
Proof. unfold entries_ok. rewrite !fmap_cons, !NoDup_cons, Forall_cons. tauto. Qed.

Lemma lview_not_cached d l k : (k ∉ c_sid <$> l) -> lview d l k = block_read d k.
Proof. intros H. unfold lview. by apply find_sid_None in H as ->. Qed.

Lemma lview_elem d l c :
  NoDup (c_sid <$> l) -> c ∈ l -> lview d l (c_sid c) = c_data c.
Proof. intros Hn Hc. unfold lview. by rewrite (find_sid_elem l c). Qed.

(** Writing a sector behind the cache does not disturb the other entries. *)
Lemma entries_ok_write `{!BlockDevLaws D} d l sid b :
  (sid ∉ c_sid <$> l) -> entries_ok d l -> entries_ok (block_write d sid b) l.
Proof.
  intros Hn (H1 & H2 & H3). split_and!; [done..|].
  rewrite Forall_forall in *. intros c Hc. destruct (H3 c Hc) as (? & ? & ? & HD).
  split_and!; [done..|]. intros Hdb. rewrite block_read_write_ne; [by apply HD|].
  intros ->. apply Hn. by apply (list_elem_of_fmap_2 c_sid).
Qed.

(** Evicting an entry, written back if dirty, preserves the contents. *)
Lemma evict_entry_ok `{!BlockDevLaws D} d l1 c l2 d' :
  entries_ok d (l1 ++ c :: l2) ->
  d' = (if c_DB c then block_write d (c_sid c) (c_data c) else d) ->
  entries_ok d' (l1 ++ l2) /\
  forall k, lview d' (l1 ++ l2) k = lview d (l1 ++ c :: l2) k.
Proof.
  intros Hok ->. assert (Hp : l1 ++ c :: l2 ≡ₚ c :: (l1 ++ l2)) by (symmetry; apply Permutation_middle).
  assert (Hnd : NoDup (c_sid <$> l1 ++ c :: l2)) by apply Hok.
  rewrite Hp in Hok. apply entries_ok_cons in Hok as (_ & Hsid & Hc & Hok).
  destruct Hc as (Hv & Hlen & _ & Hclean). split.
  - destruct (c_DB c); [by apply entries_ok_write|done].
  - intros k. rewrite (lview_perm d _ _ k Hnd Hp), lview_cons.
    destruct (Z.eqb_spec (c_sid c) k) as [<-|Hne].
    + rewrite lview_not_cached by done. destruct (c_DB c).
      * by apply block_read_write_eq.
      * symmetry. by apply Hclean.
    + destruct (c_DB c); [|done]. unfold lview.
      destruct (find_sid k _); [done|]. by apply block_read_write_ne.
Qed.
End view.

(** ** The cache invariant and its preservation *)
Section invariant.
Context {D B : Type} {dev : BlockDev D}.
Abbreviation fs := (fs D B).
Implicit Types (s : fs) (c : cache) (h : nat).

Definition view s : Z -> list Z := lview (fs_device s) (cache_list s).

(** [used_cache] counts the entries and those dropped by [cache_remove]. *)
Record cache_inv s : Prop := {
  ci_entries : entries_ok (fs_device s) (cache_list s);
  ci_fresh : forall h, h ∈ c_id <$> cache_list s -> (h < next_cache s)%nat;
  ci_held : forall h, cache_io h ∈ held s -> (h < next_cache s)%nat;
  ci_used : Z.of_nat (length (cache_list s)) <= used_cache s
            < Z.of_nat (length (cache_list s)) + CACHE_SIZE;
}.

(** No entry's [io] lock is held. *)
Definition io_free s : Prop := forall h, h ∈ c_id <$> cache_list s -> cache_io h ∉ held s.

(** What the cache operations leave alone. *)
Record same_rest s s' : Prop := {
  sr_free_map : free_map s' = free_map s;
  sr_free_map_file : free_map_file s' = free_map_file s;
  sr_open_inodes : open_inodes s' = open_inodes s;
  sr_inodes : inodes s' = inodes s;
  sr_next_inode : next_inode s' = next_inode s;
  sr_held : held s' = held s;
}.

#[export] Instance same_rest_preorder : PreOrder same_rest.
Proof.
  split; [by intros s|]. intros s1 s2 s3 [] []. split; congruence.
Qed.

(** Sector [sid] has an entry. *)
Definition cached s (sid : Z) : Prop := sid ∈ c_sid <$> cache_list s.

(** The entry of sector [sid], if any, is not locked. *)
Definition io_ok (sid : Z) s : Prop :=
  forall c, c ∈ cache_list s -> c_sid c = sid -> cache_io (c_id c) ∉ held s.

(** [cache_step v' sid s s'] : an operation on sector [sid] leads from [s] to
    [s'], keeps the invariant, makes the logical contents [v'], and, while the
    cache is not full, evicts nothing, adds at most the entry of [sid] and leaves
    the other entries as they are. *)
Record cache_step (v' : Z -> list Z) (sid : Z) s s' : Prop := {
  cs_inv : cache_inv s';
  cs_view : forall k, view s' k = v' k;
  cs_rest : same_rest s s';
  cs_ids : forall h, h ∈ c_id <$> cache_list s' ->
    h ∈ c_id <$> cache_list s \/ (next_cache s <= h)%nat;
  cs_next : (next_cache s <= next_cache s')%nat;
  cs_cached : cached s' sid;
  cs_hit : cached s sid -> used_cache s' = used_cache s;
  cs_used : used_cache s < CACHE_SIZE -> used_cache s' <= used_cache s + 1;
  cs_only : forall k, cached s' k -> cached s k \/ k = sid;
  cs_keep : used_cache s < CACHE_SIZE \/ cached s sid ->
    forall h c, find_id h (cache_list s) = Some c -> c_sid c <> sid ->
      find_id h (cache_list s') = Some c;
}.

Lemma io_free_ok sid s : io_free s -> io_ok sid s.
Proof. intros Hio c Hc _. apply Hio. by apply (list_elem_of_fmap_2 c_id). Qed.

(** *** Lists of entries *)
Lemma find_id_Some h (l : list cache) c : find_id h l = Some c -> c ∈ l /\ c_id c = h.
Proof.
  intros H. apply List.find_some in H as [Hin Heq].
  split; [by apply list_elem_of_In|by apply Nat.eqb_eq].
Qed.

Lemma find_id_elem (l : list cache) c :
  NoDup (c_id <$> l) -> c ∈ l -> find_id (c_id c) l = Some c.
Proof.
  unfold find_id. induction l as [|x l IH]; simpl; [set_solver|].
  intros Hnd Hin. apply NoDup_cons in Hnd as [Hx Hnd].
  destruct (Nat.eqb_spec (c_id x) (c_id c)) as [He|Hne].
  - apply elem_of_cons in Hin as [->|Hin]; [done|].
    destruct Hx. rewrite He. by apply (list_elem_of_fmap_2 c_id).
  - apply IH; [done|]. apply elem_of_cons in Hin as [->|]; done.
Qed.

Lemma find_id_is_Some h (l : list cache) :
  h ∈ c_id <$> l -> exists c, find_id h l = Some c.
Proof.
  unfold find_id. induction l as [|x l IH]; simpl; [set_solver|].
  intros Hin. destruct (Nat.eqb_spec (c_id x) h); [eauto|].
  apply IH. apply elem_of_cons in Hin as [->|]; done.
Qed.

Lemma fmap_update_id {A} (p : cache -> A) h f (l : list cache) :
  (forall c, c ∈ l -> c_id c = h -> p (f c) = p c) -> p <$> update_id h f l = p <$> l.
Proof.
  intros Hp. unfold update_id. induction l as [|c l IH]; [done|]. simpl. f_equal.
  - destruct (Nat.eqb_spec (c_id c) h); [apply Hp; set_solver|done].
  - apply IH. intros; apply Hp; set_solver.
Qed.

Lemma find_id_update h h' f (l : list cache) c :
  find_id h l = Some c -> c_id (f c) = c_id c ->
  find_id h (update_id h f l) = Some (f c).
Proof.
  unfold find_id, update_id. induction l as [|x l IH]; [done|]. simpl.
  destruct (Nat.eqb_spec (c_id x) h) as [<-|Hne].
  - intros [= ->] Hf. by rewrite Hf, Nat.eqb_refl.
  - intros Hc Hf. apply Nat.eqb_neq in Hne. rewrite Hne. by apply IH.
Qed.

Lemma update_id_at f (l1 l2 : list cache) c :
  NoDup (c_id <$> l1 ++ c :: l2) ->
  update_id (c_id c) f (l1 ++ c :: l2) = l1 ++ f c :: l2 /\
  remove_id (c_id c) (l1 ++ c :: l2) = l1 ++ l2.
Proof.
  intros Hnd. rewrite fmap_app, fmap_cons in Hnd.
  apply NoDup_app in Hnd as (_ & H1 & Hnd). apply NoDup_cons in Hnd as [H2 _].
  assert (Hid : forall l, (c_id c ∉ c_id <$> l) ->
    update_id (c_id c) f l = l /\ remove_id (c_id c) l = l).
  { clear. intros l. unfold update_id, remove_id.
    induction l as [|x l IH]; [done|]. intros Hx. simpl.
    destruct (Nat.eqb_spec (c_id x) (c_id c)) as [He|]; [set_solver|]. simpl.
    destruct IH as [-> ->]; [set_solver|done]. }
  destruct (Hid l1) as [Hu1 Hr1]; [set_solver|]. destruct (Hid l2) as [Hu2 Hr2]; [done|].
  unfold update_id, remove_id in *. rewrite map_app, List.filter_app. simpl.
  rewrite Nat.eqb_refl. simpl. by rewrite Hu1, Hu2, Hr1, Hr2.
Qed.

Lemma find_id_update_ne h h' f (l : list cache) :
  h <> h' -> (forall c, c_id (f c) = c_id c) -> find_id h (update_id h' f l) = find_id h l.
Proof.
  intros Hne Hf. unfold find_id, update_id. induction l as [|x l IH]; [done|]. simpl.
  destruct (Nat.eqb_spec (c_id x) h') as [<-|Hx].
  - rewrite Hf. destruct (Nat.eqb_spec (c_id x) h); [congruence|]. exact IH.
  - by rewrite IH.
Qed.

Lemma find_id_app h (l l' : list cache) c :
  find_id h l = Some c -> find_id h (l ++ l') = Some c.
Proof.
  unfold find_id. induction l as [|x l IH]; [done|]. simpl. by destruct (Nat.eqb (c_id x) h).
Qed.

Lemma find_id_split h (l : list cache) c :
  find_id h l = Some c -> c_id c = h /\ exists l1 l2, l = l1 ++ c :: l2.
Proof.
  intros [Hin <-]%find_id_Some. apply list_elem_of_split in Hin as (l1 & l2 & ->). eauto.
Qed.

Lemma update_id_same h f (l : list cache) c :
  NoDup (c_id <$> l) -> find_id h l = Some c -> f c = c -> update_id h f l = l.
Proof.
  intros Hnd Hc Hf. apply find_id_split in Hc as (<- & l1 & l2 & ->).
  destruct (update_id_at f l1 l2 c Hnd) as [-> _]. by rewrite Hf.
Qed.

Lemma entries_ok_replace (d : D) (l1 l2 : list cache) c c' :
  entries_ok d (l1 ++ c :: l2) -> c_id c' = c_id c -> c_sid c' = c_sid c -> entry_ok d c' ->
  entries_ok d (l1 ++ c' :: l2) /\
 forall k, lview d (l1 ++ c' :: l2) k =
    if c_sid c =? k then c_data c' else lview d (l1 ++ c :: l2) k.
Proof.
  intros Hok Hi Hs Hc'.
  assert (Hp : forall x, l1 ++ x :: l2 ≡ₚ x :: (l1 ++ l2)) by (intros; symmetry; apply Permutation_middle).
  assert (Hnd : NoDup (c_sid <$> l1 ++ c :: l2)) by apply Hok.
  assert (Hok' : entries_ok d (l1 ++ c' :: l2)).
  { rewrite Hp in Hok |- *. apply entries_ok_cons in Hok as (H1 & H2 & _ & H3).
    apply entries_ok_cons. rewrite Hi, Hs. done. }
  split; [done|]. intros k. rewrite (lview_perm d _ _ k Hnd (Hp c)).
  rewrite (lview_perm d _ _ k (proj1 (proj2 Hok')) (Hp c')), !lview_cons, Hs.
  by destruct (c_sid c =? k).
Qed.

Lemma find_id_at (l1 l2 : list cache) c :
  NoDup (c_id <$> l1 ++ c :: l2) -> find_id (c_id c) (l1 ++ c :: l2) = Some c.
Proof. intros. apply find_id_elem; [done|set_solver]. Qed.

(** *** Rules for the primitive steps *)
Lemma wp_load_cache h c s (Q : cache -> fs -> Prop) :
  find_id h (cache_list s) = Some c -> Q c s -> wp (load_cache h) Q s.
Proof. intros Hc HQ. unfold load_cache. wp_steps. by apply (wp_deref _ c). Qed.

Lemma wp_store_cache h f c s (Q : unit -> fs -> Prop) :
  find_id h (cache_list s) = Some c ->
  Q tt (set_caches (update_id h f (cache_list s)) s) -> wp (store_cache h f) Q s.
Proof. intros Hc HQ. unfold store_cache. apply wp_bind. by eapply wp_load_cache. Qed.

Lemma wp_unlink_cache h c s (Q : unit -> fs -> Prop) :
  find_id h (cache_list s) = Some c ->
  Q tt (set_caches (remove_id h (cache_list s)) s) -> wp (unlink_cache h) Q s.
Proof. intros Hc HQ. unfold unlink_cache. apply wp_bind. by eapply wp_load_cache. Qed.

Lemma wp_dev_read sid s (Q : list Z -> fs -> Prop) :
  valid_sector sid = true -> Q (block_read (fs_device s) sid) s -> wp (dev_read sid) Q s.
Proof. intros Hv HQ. unfold dev_read. by wp_steps. Qed.

Lemma wp_dev_write sid b s (Q : unit -> fs -> Prop) :
  valid_sector sid = true -> Q tt (set_device (block_write (fs_device s) sid b) s) ->
  wp (dev_write sid b) Q s.
Proof. intros Hv HQ. unfold dev_write. by wp_steps. Qed.

(** *** Eviction *)

(** The policy of [cache_evict]: one pass clears the reference bits up to the
    first entry whose bit is clear already, which is the victim. *)
Fixpoint second_chance (l : list cache) : option (cache * list cache) :=
  match l with
  | [] => None
  | c :: r =>
    if c_AB c then '(v, r') ← second_chance r; Some (v, set_AB false c :: r')
    else Some (c, r)
  end.

(** If there is none, the second pass takes the first entry. *)
Definition clock_victim (l : list cache) : option (cache * list cache) :=
  match second_chance l with
  | Some x => Some x
  | None => second_chance (set_AB false <$> l)
  end.

(** The state after the eviction of [v], written back if dirty. *)
Definition evict_to (v : cache) (l : list cache) s : fs :=
  set_caches l (set_device (if c_DB v then block_write (fs_device s) (c_sid v) (c_data v)
                            else fs_device s) s).

Lemma second_chance_strip l v r :
  second_chance l = Some (v, r) ->
  exists l1 l2, set_AB false <$> l = l1 ++ set_AB false v :: l2 /\
                set_AB false <$> r = l1 ++ l2.
Proof.
  revert r. induction l as [|c l IH]; [done|]. intros r. cbn [second_chance]. destruct (c_AB c).
  - destruct (second_chance l) as [[v' r']|]; [|done]. cbn. intros [= -> <-].
    destruct (IH r' eq_refl) as (l1 & l2 & H1 & H2).
    exists (set_AB false c :: l1), l2. by rewrite !fmap_cons, H1, H2.
  - intros [= -> ->]. by exists [], (set_AB false <$> r).
Qed.

Lemma clock_victim_strip l v r :
  clock_victim l = Some (v, r) ->
  exists l1 l2, set_AB false <$> l = l1 ++ set_AB false v :: l2 /\
                set_AB false <$> r = l1 ++ l2.
Proof.
  unfold clock_victim. destruct (second_chance l) as [[v' r']|] eqn:H.
  - intros [= -> ->]. by apply second_chance_strip.
  - intros (l1 & l2 & H1 & H2)%second_chance_strip.
    rewrite <- list_fmap_compose in H1. by exists l1, l2.
Qed.

Lemma clock_victim_Some l : l <> [] -> exists v r, clock_victim l = Some (v, r).
Proof.
  intros Hne. unfold clock_victim. destruct (second_chance l) as [[v r]|]; [eauto|].
  destruct l as [|c l]; [done|]. simpl. eauto.
Qed.

(** One pass of the [for] loop. *)
Lemma wp_evict_pass (l2 l1 : list cache) s :
  cache_list s = l1 ++ l2 -> entries_ok (fs_device s) (l1 ++ l2) ->
  wp (evict_pass (c_id <$> l2))
     (fun b s' => match second_chance l2 with
                  | Some (v, r) => b = true /\ s' = evict_to v (l1 ++ r) s
                  | None => b = false /\ s' = set_caches (l1 ++ (set_AB false <$> l2)) s
                  end) s.
Proof.
  revert l1 s. induction l2 as [|c l2 IH]; intros l1 s Hl Hok.
  { simpl. apply wp_ret. split; [done|]. rewrite <- Hl. by destruct s. }
  assert (Hnd : NoDup (c_id <$> l1 ++ c :: l2)) by apply Hok.
  assert (Hf : find_id (c_id c) (cache_list s) = Some c)
    by (rewrite Hl; apply find_id_elem; [done|set_solver]).
  assert (Hc : entry_ok (fs_device s) c).
  { destruct Hok as (_ & _ & Hok). rewrite Forall_app, Forall_cons in Hok. apply Hok. }
  assert (Hok' : entries_ok (fs_device s) (l1 ++ set_AB false c :: l2))
    by exact (proj1 (entries_ok_replace (fs_device s) l1 l2 c (set_AB false c)
               Hok eq_refl eq_refl Hc)).
  destruct (update_id_at (set_AB false) l1 l2 c Hnd) as [Hu Hr].
  cbn [fmap list_fmap evict_pass second_chance]. apply wp_bind, wp_guarded. apply wp_bind.
  eapply wp_load_cache; [exact Hf|]. destruct (c_AB c) eqn:HAB.
  - apply wp_bind. eapply wp_store_cache; [exact Hf|].
    apply wp_ret. split; [done|]. simpl. rewrite Hl, Hu.
    replace (set_held _ _) with (set_caches (l1 ++ set_AB false c :: l2) s)
      by (by destruct s).
    eapply wp_mono.
    + apply (IH (l1 ++ [set_AB false c])); simpl; by rewrite <- app_assoc.
    + intros b s'. simpl. destruct (second_chance l2) as [[v r]|]; simpl;
        rewrite <- app_assoc; (intros [-> ->]; split; [done|by destruct s]).
  - apply wp_bind, wp_when; intros HDB; [apply wp_dev_write; [apply Hc|]|];
      (apply wp_ret; split; [done|]; apply wp_bind;
       eapply wp_unlink_cache; [exact Hf|]; apply wp_ret; simpl;
       rewrite Hl, Hr; split; [done|]; unfold evict_to; rewrite HDB; by destruct s).
Qed.

Record evicted s s' : Prop := {
  ev_lists : exists l1 c l2,
    set_AB false <$> cache_list s = l1 ++ c :: l2 /\
    set_AB false <$> cache_list s' = l1 ++ l2 /\
    fs_device s' = (if c_DB c then block_write (fs_device s) (c_sid c) (c_data c)
                    else fs_device s);
  ev_rest : same_rest s s';
  ev_next : next_cache s' = next_cache s;
  ev_used : used_cache s' = used_cache s;
}.

Lemma evict_to_evicted s v r :
  clock_victim (cache_list s) = Some (v, r) -> evicted s (evict_to v r s).
Proof.
  intros (l1 & l2 & H1 & H2)%clock_victim_strip. split; [|by split..].
  by exists l1, (set_AB false v), l2.
Qed.

Context {laws : BlockDevLaws D}.

Lemma evicted_ok s s' :
  entries_ok (fs_device s) (cache_list s) -> evicted s s' ->
  entries_ok (fs_device s') (cache_list s') /\ (forall k, view s' k = view s k) /\
  (forall h, h ∈ c_id <$> cache_list s' -> h ∈ c_id <$> cache_list s) /\
  (forall k, cached s' k -> cached s k) /\
  length (cache_list s) = S (length (cache_list s')).
Proof.
  intros Hok [(l1 & c & l2 & H1 & H2 & H3) _ _ _].
  apply entries_ok_strip in Hok. rewrite H1 in Hok.
  destruct (evict_entry_ok _ _ _ _ _ Hok H3) as [Hok' Hv].
  assert (Hids : forall s0 : fs, c_id <$> cache_list s0 = c_id <$> (set_AB false <$> cache_list s0))
    by (intros; by rewrite <- list_fmap_compose).
  assert (Hsids : forall s0 : fs, c_sid <$> cache_list s0 = c_sid <$> (set_AB false <$> cache_list s0))
    by (intros; by rewrite <- list_fmap_compose).
  split_and!.
  - apply entries_ok_strip. by rewrite H2.
  - intros k. unfold view. rewrite <- (lview_fmap _ _ (set_AB false)), H2, Hv by done.
    rewrite <- H1. by apply lview_fmap.
  - intros h. rewrite !Hids, H1, H2, !fmap_app, fmap_cons. set_solver.
  - intros k. unfold cached. rewrite !Hsids, H1, H2, !fmap_app, fmap_cons. set_solver.
  - apply (f_equal length) in H1, H2. rewrite length_fmap, length_app in H1, H2.
    simpl in *. lia.
Qed.

(** Two passes are enough when there is an entry. *)
Lemma wp_evict_loop s (Q : unit -> fs -> Prop) fuel :
  (2 <= fuel)%nat -> cache_list s <> [] -> entries_ok (fs_device s) (cache_list s) ->
  (forall v r, clock_victim (cache_list s) = Some (v, r) -> Q tt (evict_to v r s)) ->
  wp (evict_loop fuel) Q s.
Proof.
  intros Hfuel Hne Hok HQ. destruct fuel as [|[|fuel]]; [lia..|].
  assert (Hpass : forall s, entries_ok (fs_device s) (cache_list s) ->
    wp (evict_pass (c_id <$> cache_list s)) (fun b s' => match second_chance (cache_list s) with
       | Some (v, r) => b = true /\ s' = evict_to v r s
       | None => b = false /\ s' = set_caches (set_AB false <$> cache_list s) s end) s)
    by (intros; apply (wp_evict_pass _ []); done).
  unfold clock_victim in HQ. cbn [evict_loop]. apply wp_bind, wp_gets, wp_bind.
  eapply wp_mono; [by apply Hpass|]. intros b s1; cbn beta.
  destruct (second_chance (cache_list s)) as [[v r]|].
  { intros [-> ->]. by apply wp_ret, HQ. }
  intros [-> ->]. apply wp_bind, wp_gets, wp_bind.
  eapply wp_mono; [apply Hpass; by apply entries_ok_strip|].
  intros b s2; cbn beta. simpl. destruct (cache_list s) as [|c l]; [done|]. simpl.
  intros [-> ->]. apply wp_ret. exact (HQ _ _ eq_refl).
Qed.

(** Over an empty list [cache_evict] never ends. *)
Lemma evict_loop_empty fuel s : cache_list s = [] -> evict_loop fuel s = Fail Hang.
Proof.
  intros He. induction fuel as [|fuel IH]; [done|].
  cbn [evict_loop]. unfold mbind, M_bind, gets. rewrite He. simpl. exact IH.
Qed.

(** Making room: the contents stay, and the cache is not full any more. *)
Record room_made s s' : Prop := {
  rm_inv : cache_inv s';
  rm_view : forall k, view s' k = view s k;
  rm_rest : same_rest s s';
  rm_next : next_cache s' = next_cache s;
  rm_ids : forall h, h ∈ c_id <$> cache_list s' -> h ∈ c_id <$> cache_list s;
  rm_sids : forall k, cached s' k -> cached s k;
  rm_used : used_cache s' < CACHE_SIZE;
  rm_id : used_cache s < CACHE_SIZE -> s' = s;
}.

Lemma wp_make_room s fuel (Q : unit -> fs -> Prop) :
  cache_inv s -> used_cache s - CACHE_SIZE + 1 < Z.of_nat fuel -> 0 < Z.of_nat fuel ->
  (forall s', room_made s s' -> Q tt s') -> wp (make_room fuel) Q s.
Proof.
  revert s Q. induction fuel as [|fuel IH]; intros s Q Hinv Hf Hf0 HQ; [lia|].
  cbn [make_room]. apply wp_bind, wp_gets.
  destruct (Z.leb_spec CACHE_SIZE (used_cache s)) as [Hle|Hlt].
  - destruct Hinv as [Hok Hfr Hh Hu]. apply wp_bind. unfold cache_evict. apply wp_bind.
    apply wp_evict_loop; [done| |done|].
    { intros He. rewrite He in Hu. simpl in Hu. lia. }
    intros v r Hev%evict_to_evicted. set (s1 := evict_to v r s) in *. clearbody s1.
    destruct (evicted_ok _ _ Hok Hev) as (Hok1 & Hv1 & Hi1 & Hs1 & Hl1).
    destruct Hev as [_ Hr1 Hn1 Hu1]. apply wp_modify.
    apply IH.
    + split; simpl; [done|intros h ?; rewrite Hn1; by apply Hfr, Hi1| |lia].
      intros h. rewrite (sr_held _ _ Hr1), Hn1. apply Hh.
    + simpl. lia.
    + lia.
    + intros s2 [H1 H2 H3 H4 H5 H5' H6 H7]. apply HQ. split; [done| | | | | |done|lia].
      * intros k. rewrite H2. apply Hv1.
      * etransitivity; [exact Hr1|]. destruct H3. by split.
      * rewrite H4. simpl. done.
      * intros h Hin. by apply Hi1, H5.
      * intros k Hin. by apply Hs1, H5'.
  - apply wp_ret, HQ. by split.
Qed.

Lemma inv_set_held X s :
  cache_inv s -> (forall h, cache_io h ∈ X -> (h < next_cache s)%nat) -> cache_inv (set_held X s).
Proof. intros [] HX. by split. Qed.

(** A store into the entry at the end of the list. *)
Lemma wp_store_last s l c f (Q : unit -> fs -> Prop) :
  cache_list s = l ++ [c] -> (c_id c ∉ c_id <$> l) -> NoDup (c_id <$> l) ->
  Q tt (set_caches (l ++ [f c]) s) -> wp (store_cache (c_id c) f) Q s.
Proof.
  intros Hl Hn Hnd HQ.
  assert (Hnd' : NoDup (c_id <$> l ++ [c])).
  { rewrite fmap_app. apply NoDup_app. split_and!; [done|set_solver|apply NoDup_singleton]. }
  eapply wp_store_cache; [rewrite Hl; apply find_id_elem; [done|set_solver]|].
  rewrite Hl. by rewrite (proj1 (update_id_at f l [] c Hnd')).
Qed.

Definition new_entry h sid type (data : list Z) : cache := Cache h sid true type 0 data.

Lemma entries_ok_snoc d l c :
  (c_id c ∉ c_id <$> l) -> (c_sid c ∉ c_sid <$> l) -> entry_ok d c -> entries_ok d l ->
  entries_ok d (l ++ [c]) /\
  forall k, lview d (l ++ [c]) k = if c_sid c =? k then c_data c else lview d l k.
Proof.
  intros H1 H2 H3 H4. assert (Hok : entries_ok d (l ++ [c])).
  { rewrite <- Permutation_cons_append. by apply entries_ok_cons. }
  split; [done|]. intros k.
  rewrite (lview_perm d _ (c :: l) k); [|apply Hok|symmetry; apply Permutation_cons_append].
  apply lview_cons.
Qed.

Lemma wp_create_cache sid type s (Q : nat -> fs -> Prop) :
  cache_inv s -> ~ cached s sid -> valid_sector sid = true ->
  (forall h c s', cache_step (view s) sid s s' -> find_id h (cache_list s') = Some c ->
     c_sid c = sid -> cache_io h ∉ held s' -> c_DB c = type -> Q h s') ->
  wp (create_cache sid type) Q s.
Proof.
  intros Hinv Hnc Hv HQ. unfold create_cache. apply wp_guarded. apply wp_bind, wp_gets.
  apply wp_bind. apply wp_make_room.
  { apply inv_set_held; [done|]. intros h Hh. apply (ci_held _ Hinv). set_solver. }
  { simpl. unfold CACHE_SIZE. lia. }
  { lia. }
  intros s1 [Hinv1 Hv1 Hr1 Hn1 Hi1 Hs1 Hu1 Hid1].
  set (l := cache_list s1) in *. set (h := next_cache s1) in *.
  destruct Hinv1 as [Hok1 Hfr1 Hh1 Hus1].
  assert (Hfresh : h ∉ c_id <$> l) by (intros Hin; apply Hfr1 in Hin; lia).
  assert (Hnd : NoDup (c_id <$> l)) by apply Hok1.
  assert (Hheld : held s1 = {[cache_lock]} ∪ held s) by apply Hr1.
  assert (Hnio : cache_io h ∉ held s1) by (intros Hin; apply Hh1 in Hin; lia).
  unfold new_cache. wp_steps. fold h.
  set (upd f := fun c : cache => f c : cache).
  eapply (wp_store_last _ l (Cache h 0 false false 0 [])); [done|done|done|].
  apply wp_bind, wp_locked; [done|]. apply wp_bind.
  eapply (wp_store_last _ l (Cache h 0 false false 0 [])); [done|done|done|].
  wp_steps. apply wp_dev_read; [done|].
  eapply (wp_store_last _ l (Cache h sid true false 0 [])); [done|done|done|].
  split; [done|]. apply wp_bind.
  eapply (wp_store_last _ l (Cache h sid true false 0 _)); [done|done|done|].
  apply wp_ret. simpl. split; [done|].
  set (c := new_entry h sid type (block_read (fs_device s1) sid)).
  assert (Hnc1 : sid ∉ c_sid <$> l) by (intros Hin; apply Hnc, Hs1, Hin).
  assert (Hlen : Z.of_nat (length (block_read (fs_device s1) sid)) = SECTOR)
    by (by apply block_read_length).
  destruct (entries_ok_snoc (fs_device s1) l c) as [Hok2 Hv2]; [done|done|by split_and!|done|].
  eapply (HQ h c); [|apply (find_id_elem _ c); [apply Hok2|simpl; set_solver]|done|simpl; rewrite Hheld in Hnio; set_solver|done].
  assert (Hsame : same_rest s (set_held (held s) s1)) by (destruct Hr1; by split).
  split.
  - split; simpl; [done| | |].
    + intros i. rewrite fmap_app. simpl. intros [Hi|Hi]%elem_of_app; [apply Hfr1 in Hi; lia|].
      apply list_elem_of_singleton in Hi as ->. unfold h; lia.
    + intros i Hi. specialize (Hh1 i). rewrite Hheld in Hh1. set_solver by lia.
    + rewrite length_app. simpl. fold l in Hus1. lia.
  - intros k. change (lview (fs_device s1) (l ++ [c]) k = view s k). rewrite Hv2.
    etransitivity; [|exact (Hv1 k)]. unfold view. fold l. simpl.
    destruct (Z.eqb_spec sid k) as [<-|]; [|done]. symmetry. by apply lview_not_cached.
  - destruct Hsame. by split.
  - intros i. simpl. rewrite fmap_app. intros [Hi|Hi]%elem_of_app.
    + left. by apply Hi1.
    + apply list_elem_of_singleton in Hi as ->. right. subst h. by rewrite Hn1.
  - subst h. simpl. rewrite Hn1. simpl. lia.
  - unfold cached. simpl. rewrite fmap_app. apply elem_of_app. right.
    by apply list_elem_of_singleton.
  - done.
  - intros Hlt. simpl. specialize (Hid1 Hlt). rewrite Hid1. simpl. lia.
  - intros k. unfold cached. simpl. rewrite fmap_app. intros [Hk|Hk]%elem_of_app.
    + left. by apply Hs1.
    + right. by apply list_elem_of_singleton in Hk.
  - intros [Hlt|]; [|done]. intros i x Hx _. specialize (Hid1 Hlt). unfold l. simpl.
    rewrite Hid1. by apply find_id_app.
Qed.

(** *** [cache_block] is transparent *)
Lemma wp_cache_block sid type s (Q : nat -> fs -> Prop) :
  cache_inv s -> io_ok sid s -> valid_sector sid = true ->
  (forall h c s', cache_step (view s) sid s s' -> find_id h (cache_list s') = Some c ->
     c_sid c = sid -> cache_io h ∉ held s' -> (type = true -> c_DB c = true) -> Q h s') ->
  wp (cache_block sid type) Q s.
Proof.
  intros Hinv Hio Hv HQ. unfold cache_block, find_cache. apply wp_bind, wp_guarded, wp_gets.
  split; [done|]. cbn [cache_list set_held].
  replace (set_held (held s) (set_held _ s)) with s by (by destruct s).
  destruct (find_sid sid (cache_list s)) as [c|] eqn:Hf; cbn [fmap option_fmap option_map].
  - apply find_sid_Some in Hf as [Hin Hsid].
    pose proof Hinv as [Hok Hfr Hh Hu]. assert (Hnd : NoDup (c_id <$> cache_list s)) by apply Hok.
    apply list_elem_of_split in Hin as (l1 & l2 & Hl).
    assert (Hnio : cache_io (c_id c) ∉ held s).
    { apply Hio; [rewrite Hl; set_solver|done]. }
    apply wp_bind, wp_locked; [done|].
    eapply wp_store_cache; [apply find_id_elem; [done|simpl; rewrite Hl; set_solver]|].
    split; [done|]. simpl. apply wp_ret.
    rewrite Hl in Hnd, Hok. set (f := fun c : cache => _).
    rewrite Hl, (proj1 (update_id_at f l1 l2 c Hnd)).
    assert (Hc : entry_ok (fs_device s) c).
    { destruct Hok as (_ & _ & Hok). rewrite Forall_app, Forall_cons in Hok. apply Hok. }
    destruct (entries_ok_replace (fs_device s) l1 l2 c (f c) Hok eq_refl eq_refl) as [Hok' Hv'].
    { destruct Hc as (? & ? & ? & Hcl). split_and!; [done..|]. simpl.
      intros [Hd _]%orb_false_iff. by apply Hcl. }
    apply (HQ _ (f c)); [|simpl; apply (find_id_elem _ (f c)); [apply Hok'|set_solver]|done|done|].
    + assert (Hids : forall {A} (p : cache -> A), p (f c) = p c ->
        p <$> l1 ++ f c :: l2 = p <$> cache_list s)
        by (intros A p Hp; by rewrite Hl, !fmap_app, !fmap_cons, Hp).
      split; simpl.
      * split; simpl; [done|intros i; rewrite Hids by done; apply Hfr|done|].
        rewrite Hl in Hu. rewrite length_app in *. simpl in *. lia.
      * intros k. unfold view. simpl. rewrite Hv', Hl. simpl.
        destruct (Z.eqb_spec (c_sid c) k) as [<-|]; [|done]. symmetry.
        apply lview_elem; [apply Hok|set_solver].
      * by destruct s.
      * intros i. rewrite Hids by done. by left.
      * done.
      * unfold cached. simpl. rewrite Hids by done. rewrite Hl, fmap_app. set_solver.
      * done.
      * lia.
      * intros k. unfold cached. simpl. rewrite Hids by done. by left.
      * intros _ i x Hx Hxs. rewrite Hl in Hx.
        rewrite <- (proj1 (update_id_at f l1 l2 c Hnd)), find_id_update_ne; [done| |done].
        intros ->. rewrite find_id_at in Hx by done. congruence.
    + intros ->. simpl. apply orb_true_r.
  - apply wp_create_cache; [done|by apply find_sid_None|done|].
    intros h c s' H1 H2 H3 H4 H5. apply (HQ h c); [done|done|done|done|]. by rewrite H5.
Qed.

(** Reading the data of a block under the reader protocol. *)
Lemma wp_peek h c s (Q : list Z -> fs -> Prop) :
  NoDup (c_id <$> cache_list s) -> find_id h (cache_list s) = Some c -> c_read_cnt c = 0 ->
  cache_io h ∉ held s -> Q (c_data c) s ->
  wp (read_cache h;; c ← load_cache h; end_read h;; mret (c_data c)) Q s.
Proof.
  intros Hnd Hc Hrc Hio HQ. pose proof Hc as (Hid & l1 & l2 & Hl)%find_id_split. subst h.
  assert (Hnd1 : forall c', c_id c' = c_id c -> NoDup (c_id <$> l1 ++ c' :: l2))
    by (intros c' Hid; by rewrite fmap_app, fmap_cons, Hid, <- fmap_cons, <- fmap_app, <- Hl).
  set (c1 := set_read_cnt 1 c). apply wp_bind. unfold read_cache.
  apply wp_locked; [done|]. apply wp_bind. eapply wp_load_cache; [exact Hc|].
  eapply wp_store_cache; [exact Hc|]. split; [done|]. cbn [cache_list set_held set_caches].
  rewrite Hrc, Hl, (proj1 (update_id_at _ l1 l2 c (Hnd1 c eq_refl))).
  change (set_read_cnt (0 + 1) c) with c1.
  assert (Hf1 : find_id (c_id c) (l1 ++ c1 :: l2) = Some c1)
    by (apply (find_id_at l1 l2 c1), Hnd1; done).
  apply wp_bind. eapply wp_load_cache; [exact Hf1|].
  apply wp_bind. unfold end_read. apply wp_locked; [done|].
  apply wp_bind. eapply wp_load_cache; [exact Hf1|].
  apply wp_bind. eapply wp_store_cache; [exact Hf1|]. cbn [cache_list set_held set_caches].
  rewrite (proj1 (update_id_at _ l1 l2 c1 (Hnd1 c1 eq_refl))).
  apply wp_when; [|done]. intros _. apply wp_cond_signal; [simpl; set_solver|].
  split; [done|]. apply wp_ret.
  replace (set_read_cnt _ c1) with c by (destruct c; simpl in *; by subst).
  rewrite <- Hl. replace (set_held _ _) with s by (by destruct s). done.
Qed.

Lemma cache_step_io_free v' sid s s' :
  cache_inv s -> io_free s -> cache_step v' sid s s' -> io_free s'.
Proof.
  intros Hinv Hio Hs h Hh. rewrite (sr_held _ _ (cs_rest _ _ _ _ Hs)).
  apply (cs_ids _ _ _ _ Hs) in Hh as [Hh|Hh]; [by apply Hio|].
  intros Hin. apply (ci_held _ Hinv) in Hin. lia.
Qed.

Lemma cache_step_cached v' sid s s' k :
  cache_step v' sid s s' -> used_cache s < CACHE_SIZE \/ cached s sid -> NoDup (c_id <$> cache_list s) ->
  cached s k -> cached s' k.
Proof.
  intros Hs Hu Hnd Hk. destruct (Z.eq_dec k sid) as [->|Hne]; [apply Hs|].
  apply list_elem_of_fmap in Hk as (c & -> & Hc).
  assert (Hf := cs_keep _ _ _ _ Hs Hu _ c (find_id_elem _ _ Hnd Hc) Hne).
  apply find_id_Some in Hf as [Hf _]. by apply (list_elem_of_fmap_2 c_sid).
Qed.

(** *** Reading and changing a block through the cache *)
Lemma wp_fetch_block sid s (Q : list Z -> fs -> Prop) :
  cache_inv s -> io_ok sid s -> valid_sector sid = true ->
  (forall s', cache_step (view s) sid s s' -> Q (view s sid) s') ->
  wp (fetch_block sid) Q s.
Proof.
  intros Hinv Hio Hv HQ. unfold fetch_block. apply wp_bind.
  apply wp_cache_block; [done..|]. intros h c s' Hs Hc Hsid Hnio _.
  pose proof Hc as (Hin & Hid)%find_id_Some.
  pose proof (cs_inv _ _ _ _ Hs) as [Hok _ _ _].
  assert (Hin' : h ∈ c_id <$> cache_list s').
  { rewrite <- Hid. by apply (list_elem_of_fmap_2 c_id). }
  eapply wp_peek; [apply Hok|exact Hc| |done|].
  - destruct Hok as (_ & _ & Hok). rewrite Forall_forall in Hok. by apply Hok.
  - replace (c_data c) with (view s sid); [by apply HQ|].
    rewrite <- (cs_view _ _ _ _ Hs), <- Hsid. unfold view.
    by apply lview_elem; [apply Hok|].
Qed.

Definition view_upd (v : Z -> list Z) (sid : Z) (d : list Z) : Z -> list Z :=
  fun k => if sid =? k then d else v k.

Lemma wp_change_block sid f d s (Q : unit -> fs -> Prop) :
  cache_inv s -> io_ok sid s -> valid_sector sid = true ->
  f (view s sid) = Some d -> Z.of_nat (length d) = SECTOR ->
  (forall s', cache_step (view_upd (view s) sid d) sid s s' -> Q tt s') ->
  wp (change_block sid f) Q s.
Proof.
  intros Hinv Hio Hv Hf Hd HQ. unfold change_block. apply wp_bind.
  apply wp_cache_block; [done..|]. intros h c s' Hs Hc Hsid Hnio HDB.
  specialize (HDB eq_refl). destruct Hs as [[Hok Hfr Hh Hu] Hvw Hr Hi Hn Hca Hhit Hus Hon Hk].
  pose proof Hc as (<- & l1 & l2 & Hl)%find_id_split.
  assert (Hnd : NoDup (c_id <$> l1 ++ c :: l2)) by (rewrite <- Hl; apply Hok).
  assert (Hce : entry_ok (fs_device s') c).
  { destruct Hok as (_ & _ & Hok). rewrite Hl, Forall_app, Forall_cons in Hok. apply Hok. }
  assert (Hdata : c_data c = view s sid).
  { rewrite <- Hvw, <- Hsid. unfold view. symmetry. apply lview_elem; [apply Hok|].
    rewrite Hl. set_solver. }
  destruct Hce as (Hv1 & _ & Hrc & _).
  unfold write_cache. do 2 apply wp_bind. apply wp_lock_acquire; [done|].
  apply wp_bind. eapply wp_load_cache; [exact Hc|]. rewrite Hrc.
  apply wp_when; [done|]. intros _. apply wp_bind. eapply wp_load_cache; [exact Hc|].
  apply wp_bind. eapply wp_deref; [rewrite Hdata; exact Hf|].
  apply wp_bind. eapply wp_store_cache; [exact Hc|]. cbn [cache_list set_held].
  rewrite Hl, (proj1 (update_id_at _ l1 l2 c Hnd)). set (c' := set_data d c).
  destruct (entries_ok_replace (fs_device s') l1 l2 c c') as [Hok' Hv'];
    [by rewrite <- Hl|done|done| |].
  { split_and!; [done..|]. simpl. congruence. }
  unfold end_write. apply wp_bind.
  eapply wp_load_cache; [apply (find_id_at l1 l2 c'), Hok'|].
  apply wp_bind. apply wp_cond_signal; [simpl; set_solver|].
  apply wp_lock_release; [simpl; set_solver|]. apply HQ. simpl.
  assert (Hhe : ({[cache_io (c_id c)]} ∪ held s') ∖ {[cache_io (c_id c)]} = held s)
    by (rewrite (sr_held _ _ Hr) in *; set_solver).
  assert (Hids : forall {A} (p : cache -> A), p c' = p c ->
    p <$> l1 ++ c' :: l2 = p <$> cache_list s')
    by (intros A p Hp; by rewrite Hl, !fmap_app, !fmap_cons, Hp).
  rewrite Hhe. split; simpl.
  - split; simpl; [done| | |].
    + intros i. rewrite Hids by done. apply Hfr.
    + rewrite <- (sr_held _ _ Hr). apply Hh.
    + rewrite Hl in Hu. rewrite length_app in *. simpl in *. lia.
  - intros k. unfold view. simpl. rewrite Hv'. simpl. unfold view_upd. rewrite Hsid.
    destruct (Z.eqb_spec sid k); [done|]. rewrite <- Hl. apply Hvw.
  - destruct Hr. by split.
  - intros i. rewrite Hids by done. apply Hi.
  - done.
  - unfold cached. simpl. rewrite Hids by done. apply Hca.
  - done.
  - done.
  - intros k. unfold cached. simpl. rewrite Hids by done. apply Hon.
  - intros H i x Hx Hxs. specialize (Hk H i x Hx Hxs). rewrite Hl in Hk. unfold c'.
    rewrite <- (proj1 (update_id_at (set_data d) l1 l2 c Hnd)), find_id_update_ne; [done| |done].
    intros ->. rewrite find_id_at in Hk by done. congruence.
Qed.

(** *** Writing entries back *)

(** Writing an entry's data to the disk and marking it clean. *)
Lemma flush_entry_ok d (l1 l2 : list cache) c :
  entries_ok d (l1 ++ c :: l2) ->
  let d' := block_write d (c_sid c) (c_data c) in
  entries_ok d' (l1 ++ set_DB false c :: l2) /\
  forall k, lview d' (l1 ++ set_DB false c :: l2) k = lview d (l1 ++ c :: l2) k.
Proof.
  intros Hok d'. assert (Hp : forall x : cache, l1 ++ x :: l2 ≡ₚ x :: (l1 ++ l2))
    by (intros; symmetry; apply Permutation_middle).
  assert (Hnd : NoDup (c_sid <$> l1 ++ c :: l2)) by apply Hok.
  assert (Hok' : entries_ok d' (l1 ++ set_DB false c :: l2)).
  { rewrite Hp in Hok |- *. apply entries_ok_cons in Hok as (H1 & H2 & (H3 & H4 & H5 & _) & H6).
    apply entries_ok_cons. split_and!; [done|done| |by apply entries_ok_write].
    split_and!; [done..|]. intros _. simpl. symmetry. by apply block_read_write_eq. }
  split; [done|]. intros k. rewrite (lview_perm d _ _ k Hnd (Hp c)).
  rewrite (lview_perm d' _ _ k (proj1 (proj2 Hok')) (Hp (set_DB false c))), !lview_cons. simpl.
  destruct (Z.eqb_spec (c_sid c) k); [done|]. unfold lview.
  destruct (find_sid k _); [done|]. by apply block_read_write_ne.
Qed.

(** An invariant of the loops over all the entries: [s'] differs from [s] in the
    device and the entries only, with the same contents. *)
Record flushing s s' : Prop := {
  fl_entries : entries_ok (fs_device s') (cache_list s');
  fl_view : forall k, view s' k = view s k;
  fl_rest : same_rest s s';
  fl_next : next_cache s' = next_cache s;
}.

Lemma view_clean s k :
  Forall (fun c => c_DB c = false) (cache_list s) -> entries_ok (fs_device s) (cache_list s) ->
  view s k = block_read (fs_device s) k.
Proof.
  intros Hcl (_ & _ & Hok). unfold view, lview.
  destruct (find_sid k (cache_list s)) as [c|] eqn:Hf; [|done].
  apply find_sid_Some in Hf as [Hin <-]. rewrite Forall_forall in Hcl, Hok.
  by apply Hok; [|apply Hcl].
Qed.

Lemma wp_write_to_disk s (Q : unit -> fs -> Prop) :
  cache_inv s -> io_free s ->
  (forall s', cache_inv s' -> (forall k, view s' k = view s k) -> same_rest s s' -> io_free s' ->
     (forall k, block_read (fs_device s') k = view s k) -> Q tt s') ->
  wp write_to_disk Q s.
Proof.
  intros Hinv Hio HQ. destruct Hinv as [Hok Hfr Hh Hu].
  unfold write_to_disk. apply wp_bind, wp_gets.
  apply (wp_for_each (fun done rest s' => flushing s s' /\ used_cache s' = used_cache s /\
    exists l1 l2, cache_list s' = l1 ++ l2 /\ done = c_id <$> l1 /\ rest = c_id <$> l2 /\
      Forall (fun c => c_DB c = false) l1)).
  - split; [by split|]. split; [done|]. by exists [], (cache_list s).
  - intros l1 e l2 s' Hes (Hfl & Hus & k1 & k2 & Hl & -> & Hr & Hcl).
    destruct k2 as [|c k2]; [done|]. injection Hr as -> ->.
    destruct Hfl as [Hok1 Hv1 Hr1 Hn1].
    assert (Hnd : NoDup (c_id <$> k1 ++ c :: k2)) by (rewrite <- Hl; apply Hok1).
    assert (Hnio : cache_io (c_id c) ∉ held s').
    { rewrite (sr_held _ _ Hr1). apply Hio. rewrite Hes. set_solver. }
    assert (Hf : find_id (c_id c) (cache_list s') = Some c) by (rewrite Hl; by apply find_id_at).
    assert (Hce : entry_ok (fs_device s') c).
    { destruct Hok1 as (_ & _ & Hok1). rewrite Hl, Forall_app, Forall_cons in Hok1. apply Hok1. }
    apply wp_locked; [done|]. apply wp_bind. eapply wp_load_cache; [exact Hf|].
    apply wp_when; intros HDB.
    + apply wp_bind. apply wp_dev_write; [apply Hce|].
      eapply wp_store_cache; [exact Hf|]. split; [done|]. simpl.
      rewrite Hl in Hok1. destruct (flush_entry_ok _ _ _ _ Hok1) as [Hok2 Hv2].
      rewrite Hl, (proj1 (update_id_at _ k1 k2 c Hnd)).
      split; [split; simpl|]; [done| | |done|].
      * intros k. unfold view. simpl. rewrite Hv2, <- Hl. apply Hv1.
      * destruct Hr1. by split.
      * split; [done|]. exists (k1 ++ [set_DB false c]), k2.
        rewrite <- app_assoc, fmap_app. split_and!; [done..|].
        apply Forall_app. split; [done|]. by constructor.
    + split; [done|]. replace (set_held _ _) with s' by (by destruct s').
      split; [by split|]. split; [done|].
      exists (k1 ++ [c]), k2. rewrite <- app_assoc, fmap_app. split_and!; [done..|].
      apply Forall_app. split; [done|]. by constructor.
  - intros s' ([Hok1 Hv1 Hr1 Hn1] & Hus & k1 & k2 & Hl & Hk1 & Hk2 & Hcl).
    destruct k2; [|done]. rewrite app_nil_r in Hl. subst k1.
    apply HQ; [|done|done| |].
    + split; [done| | |].
      * intros h. rewrite <- Hk1, Hn1. apply Hfr.
      * intros h. rewrite (sr_held _ _ Hr1), Hn1. apply Hh.
      * apply (f_equal length) in Hk1. rewrite !length_fmap in Hk1. rewrite <- Hk1, Hus. done.
    + intros h. rewrite <- Hk1, (sr_held _ _ Hr1). apply Hio.
    + intros k. rewrite <- view_clean by done. apply Hv1.
Qed.

Lemma wp_free_cache s (Q : unit -> fs -> Prop) :
  cache_inv s -> io_free s -> cache_lock ∉ held s ->
  (forall s', cache_list s' = [] -> same_rest s s' ->
     used_cache s' = used_cache s - Z.of_nat (length (cache_list s)) ->
     (forall k, block_read (fs_device s') k = view s k) -> Q tt s') ->
  wp free_cache Q s.
Proof.
  intros [Hok Hfr Hh Hu] Hio Hcl HQ.
  unfold free_cache. apply wp_locked; [done|]. apply wp_bind, wp_gets. cbn [cache_list set_held].
  set (s0 := set_held _ s).
  apply (wp_for_each (fun _ rest s' => flushing s0 s' /\ rest = c_id <$> cache_list s' /\
    used_cache s' = used_cache s - Z.of_nat (length (cache_list s))
                    + Z.of_nat (length (cache_list s')))).
  - split; [by split|]. split; [done|]. simpl. lia.
  - intros l1 e l2 s' Hes (Hfl & Hr & Hus). destruct Hfl as [Hok1 Hv1 Hr1 Hn1].
    destruct (cache_list s') as [|c k2] eqn:Hl; [done|]. injection Hr as -> ->.
    assert (Hnd : NoDup (c_id <$> [] ++ c :: k2)) by apply Hok1.
    assert (Hf : find_id (c_id c) (cache_list s') = Some c)
      by (rewrite Hl; by apply (find_id_at [] k2)).
    assert (Hnio : cache_io (c_id c) ∉ held s').
    { rewrite (sr_held _ _ Hr1). simpl. assert (cache_io (c_id c) ∉ held s); [|set_solver].
      apply Hio. rewrite Hes. set_solver. }
    apply wp_bind, wp_locked; [done|]. apply wp_bind. eapply wp_load_cache; [exact Hf|].
    assert (Hce : entry_ok (fs_device s') c) by (destruct Hok1 as (_ & _ & Hok1);
      by apply Forall_cons in Hok1 as [? _]).
    apply wp_dev_write; [apply Hce|]. split; [done|].
    apply wp_bind. eapply wp_unlink_cache; [exact Hf|]. apply wp_modify.
    pose proof (proj2 (update_id_at id [] k2 c Hnd) : remove_id (c_id c) (c :: k2) = k2) as Hrm.
    cbn [cache_list set_held set_device set_caches]. rewrite Hl, Hrm. simpl in *.
    destruct (flush_entry_ok (fs_device s') [] k2 c Hok1) as [Hok2 Hv2].
    destruct (evict_entry_ok _ [] _ k2 _ Hok2 eq_refl) as [Hok3 Hv3].
    split; [split; simpl|]; [done| | |done|].
    + intros k. unfold view. simpl. rewrite Hv3, Hv2. etransitivity; [|exact (Hv1 k)].
      unfold view. by rewrite Hl.
    + destruct Hr1. by split.
    + split; [done|]. lia.
  - intros s' ([Hok1 Hv1 Hr1 Hn1] & Hr & Hus).
    assert (Hnil : cache_list s' = []) by (by destruct (cache_list s')).
    split; [apply Hr1|]. apply HQ; simpl; [done| |by rewrite Hnil in Hus; simpl in Hus; lia|].
    + destruct Hr1. by split.
    + intros k. rewrite <- (lview_not_cached (fs_device s') [] k) by set_solver.
      rewrite <- Hnil. exact (Hv1 k).
Qed.
End invariant.

(** ** Refinement: a cached device is a device

    Clients see the cache through three operations; the specification is a disk
    without a cache. *)
Inductive block_op :=
| OpRead (sid : Z)
| OpWrite (sid : Z) (b : list Z)
| OpFlush.                         (* a turn of the write-back thread *)

Definition spec_op (v : Z -> list Z) (o : block_op) : (Z -> list Z) * list (list Z) :=
  match o with
  | OpRead sid => (v, [v sid])
  | OpWrite sid b => (view_upd v sid b, [])
  | OpFlush => (v, [])
  end.

Fixpoint spec_ops (v : Z -> list Z) (ops : list block_op) : (Z -> list Z) * list (list Z) :=
  match ops with
  | [] => (v, [])
  | o :: rest =>
    let '(v1, out) := spec_op v o in
    let '(v2, outs) := spec_ops v1 rest in (v2, out ++ outs)
  end.

Definition op_ok {D} {dev : BlockDev D} (o : block_op) : Prop :=
  match o with
  | OpRead sid => valid_sector sid = true
  | OpWrite sid b => valid_sector sid = true /\ Z.of_nat (length b) = SECTOR
  | OpFlush => True
  end.

Section refinement.
Context {D B : Type} {dev : BlockDev D} {laws : BlockDevLaws D}.
Abbreviation fs := (fs D B).
Implicit Types (s : fs).

Definition run_op (o : block_op) : M fs (list (list Z)) :=
  match o with
  | OpRead sid => b ← fetch_block sid; mret [b]
  | OpWrite sid b => change_block sid (fun d => memcpy d 0 b);; mret []
  | OpFlush => cache_writeback_turn;; mret []
  end.

Fixpoint run_ops (ops : list block_op) : M fs (list (list Z)) :=
  match ops with
  | [] => mret []
  | o :: rest => out ← run_op o; outs ← run_ops rest; mret (out ++ outs)
  end.

(** The state between two operations. *)
Definition cache_idle s : Prop := cache_inv s /\ io_free s /\ cache_lock ∉ held s.

Lemma cache_step_idle v sid s s' : cache_idle s -> cache_step v sid s s' -> cache_idle s'.
Proof.
  intros (Hi & Ho & Hl) Hs. split_and!; [apply Hs|by eapply cache_step_io_free|].
  by rewrite (sr_held _ _ (cs_rest _ _ _ _ Hs)).
Qed.

Lemma view_length s sid :
  cache_inv s -> valid_sector sid = true -> Z.of_nat (length (view s sid)) = SECTOR.
Proof.
  intros [(_ & _ & Hok) _ _ _] Hv. unfold view, lview.
  destruct (find_sid sid (cache_list s)) as [c|] eqn:Hf; [|by apply block_read_length].
  apply find_sid_Some in Hf as [Hin _]. rewrite Forall_forall in Hok. by apply Hok.
Qed.

Lemma wp_run_op o s v :
  cache_idle s -> op_ok o -> (forall k, view s k = v k) ->
  wp (run_op o) (fun out s' => cache_idle s' /\
    out = (spec_op v o).2 /\ forall k, view s' k = (spec_op v o).1 k) s.
Proof.
  intros Hidle Ho Hv. pose proof Hidle as (Hinv & Hio & Hl). destruct o as [sid|sid b|]; simpl in *.
  - apply wp_bind, wp_fetch_block; [done|by apply io_free_ok|done|]. intros s' Hs. apply wp_ret.
    split; [by eapply cache_step_idle|]. split; [by rewrite Hv|].
    intros k. by rewrite (cs_view _ _ _ _ Hs).
  - destruct Ho as [Hvs Hb]. apply wp_bind.
    apply (wp_change_block sid _ b); [done|by apply io_free_ok|done| |done|].
    { assert (Hlen := view_length s sid Hinv Hvs).
      rewrite memcpy_ok by lia. f_equal. unfold splice. simpl.
      rewrite drop_ge by lia. apply app_nil_r. }
    intros s' Hs. apply wp_ret. split; [by eapply cache_step_idle|]. split; [done|].
    intros k. rewrite (cs_view _ _ _ _ Hs). unfold view_upd. by rewrite Hv.
  - apply wp_bind. unfold cache_writeback_turn. apply wp_locked; [done|].
    apply wp_write_to_disk.
    { apply inv_set_held; [done|]. intros h Hh. apply (ci_held _ Hinv). set_solver. }
    { intros h Hh. simpl. assert (cache_io h ∉ held s) by (by apply Hio). set_solver. }
    intros s' Hinv' Hv' Hr' Hio' _. split; [apply Hr'|].
    assert (Hhe : held s' = {[cache_lock]} ∪ held s) by apply Hr'. split_and!; [|done|].
    + split_and!; simpl; [|intros h Hh; specialize (Hio' h Hh); simpl; set_solver|done].
      apply inv_set_held; [done|]. intros h Hh. apply (ci_held _ Hinv'). set_solver.
    + intros k. rewrite <- Hv. apply Hv'.
Qed.

Lemma wp_run_ops ops s v :
  cache_idle s -> Forall op_ok ops -> (forall k, view s k = v k) ->
  wp (run_ops ops) (fun outs s' => cache_idle s' /\
    outs = (spec_ops v ops).2 /\ forall k, view s' k = (spec_ops v ops).1 k) s.
Proof.
  revert s v. induction ops as [|o ops IH]; intros s v Hidle Hok Hv; cbn [run_ops spec_ops].
  { by apply wp_ret. }
  apply Forall_cons in Hok as [Ho Hok]. apply wp_bind.
  eapply wp_mono; [by apply wp_run_op|]. intros out s1 (Hidle1 & -> & Hv1); cbn beta.
  destruct (spec_op v o) as [v1 out]. apply wp_bind. eapply wp_mono; [by apply (IH _ v1)|].
  intros outs s2 (Hidle2 & -> & Hv2); cbn beta. apply wp_ret.
  by destruct (spec_ops v1 ops) as [v2 outs].
Qed.

(** C1: Refinement.  Any sequence of block reads, block writes and write-back turns
    through the buffer cache, followed by [free_cache] at shutdown, ends without
    a fault, returns what a plain disk would return, and leaves on the device
    exactly the plain disk's final contents. *)
Theorem cache_refines_device ops s :
  cache_inv s -> io_free s -> cache_lock ∉ held s -> Forall op_ok ops ->
  wp (outs ← run_ops ops; free_cache;; mret outs)
     (fun outs s' => outs = (spec_ops (view s) ops).2 /\ cache_list s' = [] /\
        forall k, block_read (fs_device s') k = (spec_ops (view s) ops).1 k) s.
Proof.
  intros Hinv Hio Hl Hok. apply wp_bind.
  eapply wp_mono; [by apply (wp_run_ops _ _ (view s))|].
  intros outs s1 ((Hinv1 & Hio1 & Hl1) & -> & Hv1); cbn beta.
  apply wp_bind, wp_free_cache; [done..|]. intros s2 Hnil _ _ Hd. apply wp_ret.
  split_and!; [done|done|]. intros k. by rewrite Hd.
Qed.

(** Transparency and totality of [cache_block].  On an idle cache a call
    always returns (the eviction loops end), the logical contents of every
    sector are unchanged, the returned entry is the only one for the sector and
    holds its contents, and an entry obtained for writing is marked dirty. *)
Theorem cache_block_transparent sid type s :
  cache_inv s -> io_free s -> valid_sector sid = true ->
  wp (cache_block sid type)
     (fun h s' => cache_inv s' /\ io_free s' /\ held s' = held s /\
        (forall k, view s' k = view s k) /\
        exists c, find_id h (cache_list s') = Some c /\ c_sid c = sid /\
          c_data c = view s sid /\ (type = WRITE_BLOCK -> c_DB c = true) /\
          find_sid sid (cache_list s') = Some c) s.
Proof.
  intros Hinv Hio Hv. apply wp_cache_block; [done|by apply io_free_ok|done|].
  intros h c s' Hs Hc Hsid _ HDB. assert (Hio' := cache_step_io_free _ _ _ _ Hinv Hio Hs).
  destruct Hs as [[Hok Hfr Hh Hu] Hvw Hr _ _ _ _ _ _ _]. pose proof Hc as (Hin & _)%find_id_Some.
  assert (Hf : find_sid sid (cache_list s') = Some c)
    by (rewrite <- Hsid; apply find_sid_elem; [apply Hok|done]).
  split_and!; [by split|done|apply Hr|done|]. exists c. split_and!; [done..| |done|done].
  rewrite <- Hvw. unfold view, lview. by rewrite Hf.
Qed.

(** The replacement policy is the clock algorithm, and the [while (1)] of
    [cache_evict] ends after at most two passes over a non-empty list: the
    victim is the first entry with a clear reference bit, the bits before it
    are cleared, and if all bits are set they are all cleared and the first
    entry is the victim; the victim is written to the device iff it is dirty. *)
Theorem cache_evict_second_chance fuel s :
  (2 <= fuel)%nat -> cache_list s <> [] -> cache_inv s ->
  exists v r, clock_victim (cache_list s) = Some (v, r) /\
    cache_evict fuel s = Ok tt (set_used (used_cache s - 1) (evict_to v r s)).
Proof.
  intros Hfuel Hne Hinv. destruct (clock_victim_Some _ Hne) as (v & r & Hc).
  exists v, r. split; [done|].
  assert (H : wp (cache_evict fuel) (fun a s' => s' = set_used (used_cache s - 1) (evict_to v r s)) s).
  { unfold cache_evict. apply wp_bind, wp_evict_loop; [done|done|apply Hinv|].
    intros v' r' Hc'. rewrite Hc in Hc'. injection Hc' as <- <-. by apply wp_modify. }
  apply wp_ok in H as ([] & s' & H & ->). exact H.
Qed.

(** [cache_remove] leaks capacity.  It unlinks one entry but leaves
    [used_cache] alone, so the count drifts away from the list; once the list is
    empty while [used_cache] still reads [CACHE_SIZE], no number of passes of
    the eviction loop suffices, and bringing in any block hangs the kernel. *)
Theorem cache_remove_leaks_capacity :
  (forall h c s, cache_inv s -> cache_lock ∉ held s -> find_id h (cache_list s) = Some c ->
     wp (cache_remove h) (fun _ s' => used_cache s' = used_cache s /\
       length (cache_list s) = S (length (cache_list s'))) s) /\
  (forall fuel s, cache_list s = [] -> evict_loop fuel s = Fail Hang) /\
  (forall sid type s, cache_list s = [] -> CACHE_SIZE <= used_cache s ->
     cache_lock ∉ held s -> cache_block sid type s = Fail Hang).
Proof.
  split_and!.
  - intros h c s Hinv Hl Hc. unfold cache_remove. apply wp_locked; [done|].
    eapply wp_unlink_cache; [exact Hc|]. split; [done|]. simpl. split; [done|].
    pose proof Hc as (<- & l1 & l2 & Hs)%find_id_split.
    assert (Hnd : NoDup (c_id <$> l1 ++ c :: l2)) by (rewrite <- Hs; apply Hinv).
    rewrite Hs, (proj2 (update_id_at id l1 l2 c Hnd)), !length_app. simpl. lia.
  - apply evict_loop_empty.
  - intros sid type s Hnil Hu Hl. unfold cache_block, find_cache, create_cache, guarded, holds,
      when, lock_acquire, lock_release, gets. unfold mbind, M_bind, mret, M_ret.
    rewrite bool_decide_false by done. simpl. rewrite decide_False by done. simpl.
    rewrite decide_True by set_solver. rewrite Hnil. simpl.
    rewrite bool_decide_false by set_solver. simpl. rewrite decide_False by set_solver. simpl.
    cbn [make_room]. unfold mbind, M_bind, gets. simpl.
    destruct (Z.leb_spec CACHE_SIZE (used_cache s)); [|lia].
    unfold cache_evict, mbind, M_bind. by rewrite evict_loop_empty.
Qed.
End refinement.

(** ** Witnesses and interleavings on the concrete device *)
Definition ones : list Z := replicate 512 1.
Definition zeros : list Z := replicate 512 0.

Lemma fresh_idle n : cache_idle (fresh_fs n).
Proof.
  split_and!; [split|intros h Hh; by apply elem_of_nil in Hh|by apply not_elem_of_empty].
  - repeat split; constructor.
  - intros h Hh. by apply elem_of_nil in Hh.
  - intros h Hh. by apply elem_of_empty in Hh.
  - done.
Qed.

Lemma cache_refines_device_witness :
  op_ok (dev := disk_dev) (OpWrite 3 ones) /\
  wp (outs ← run_ops [OpWrite 3 ones; OpFlush; OpRead 3]; free_cache;; mret outs)
     (fun outs s' => outs = [ones] /\ block_read (fs_device s') 3 = ones) (fresh_fs 8).
Proof.
  split; [done|]. eapply wp_mono.
  - apply (cache_refines_device (D := disk) (B := bits)
      [OpWrite 3 ones; OpFlush; OpRead 3] (fresh_fs 8)).
    + apply fresh_idle.
    + apply fresh_idle.
    + apply fresh_idle.
    + repeat constructor.
  - intros outs s' (Ho & _ & Hd). split; [by rewrite Ho|by rewrite Hd].
Defined.

Lemma cache_block_transparent_witness :
  wp (cache_block 7 WRITE_BLOCK)
     (fun h s' => exists c, find_id h (cache_list s') = Some c /\ c_DB c = true) (fresh_fs 8).
Proof.
  eapply wp_mono.
  - apply (cache_block_transparent (D := disk) (B := bits) 7 WRITE_BLOCK (fresh_fs 8)).
    + apply fresh_idle.
    + apply fresh_idle.
    + done.
  - intros h s' (_ & _ & _ & _ & c & Hc & _ & _ & Hd & _). exists c. auto.
Defined.

Definition one_entry_fs : fs disk bits :=
  Fs ∅ [Cache 0 5 true true 0 ones] 1 1 [true; true; false] None [] ∅ 0 ∅.

Lemma cache_evict_second_chance_witness :
  cache_list one_entry_fs <> [] /\
  exists v r, clock_victim (cache_list one_entry_fs) = Some (v, r) /\
    cache_evict 2 one_entry_fs = Ok tt (set_used 0 (evict_to v r one_entry_fs)).
Proof.
  split; [done|]. apply (cache_evict_second_chance (D := disk) (B := bits) 2 one_entry_fs);
    [lia|done|].
  split.
  - split_and!; [apply NoDup_singleton|apply NoDup_singleton|]. constructor; [|constructor].
    by split_and!.
  - intros h Hh. apply list_elem_of_singleton in Hh as ->. simpl. lia.
  - intros h Hh. by apply elem_of_empty in Hh.
  - done.
Defined.

(** Bringing in a block and removing it again, [n] times. *)
Fixpoint churn (n : nat) : M (fs disk bits) unit :=
  match n with
  | O => mret tt
  | S n' => h ← cache_block (Z.of_nat n) READ_BLOCK; cache_remove h;; churn n'
  end.

(** Sixty-four removals are enough to hang the kernel. *)
Lemma cache_remove_leaks_capacity_witness :
  exists s', churn 64 (fresh_fs 8) = Ok tt s' /\ cache_list s' = [] /\
    used_cache s' = CACHE_SIZE /\ cache_block 3 READ_BLOCK s' = Fail Hang.
Proof.
  eexists. split; [vm_compute; reflexivity|]. split; [reflexivity|]. split; [reflexivity|].
  apply (proj2 (proj2 (cache_remove_leaks_capacity (D := disk) (B := bits))));
    [reflexivity|discriminate|apply (bool_decide_eq_true_1 _); vm_compute; reflexivity].
Defined.

(** A write through [change_block], with a turn of the write-back thread between
    [cache_block] and [write_cache]. *)
Definition racing_write (sid : Z) (d : list Z) : M (fs disk bits) unit :=
  h ← cache_block sid WRITE_BLOCK;
  cache_writeback_turn;;
  write_cache h;;
  store_cache h (set_data d);;
  end_write h.

(** A lost update.  [cache_block] marks an entry dirty before the caller writes
    into it, and no lock is held in between; if the write-back thread runs there
    it clears the mark, the later write leaves a clean entry that differs from the
    disk, and the next eviction drops the new data. *)
Theorem racing_write_lost :
  exists s1 s2, racing_write 5 ones (fresh_fs 8) = Ok tt s1 /\ view s1 5 = ones /\
    cache_evict 2 s1 = Ok tt s2 /\ view s2 5 = zeros.
Proof.
  do 2 eexists. split; [vm_compute; reflexivity|]. split; [vm_compute; reflexivity|].
  split; [vm_compute; reflexivity|]. vm_compute. reflexivity.
Qed.

(** Bringing in blocks [n], ..., 1. *)
Fixpoint fill (n : nat) : M (fs disk bits) unit :=
  match n with
  | O => mret tt
  | S n' => cache_block (Z.of_nat n) READ_BLOCK;; fill n'
  end.

(** A use after free.  [cache_evict] does not skip an entry whose [io] lock the
    caller itself holds: with a full cache, a thread that holds the first entry
    for writing and brings in another block has its entry freed, and its next
    store goes to freed memory. *)
Theorem evict_frees_entry_in_use :
  (h ← cache_block 100 WRITE_BLOCK;
   fill 63;;
   write_cache h;;
   cache_block 200 READ_BLOCK;;
   store_cache h (set_data ones)) (fresh_fs 8) = Fail BadAccess.
Proof. vm_compute. reflexivity. Qed.
