(* ===== verification/FreeMap.v ===== *)
(** * FreeMap: the sector allocator ([filesys/free-map.c]).

    [free_map_init], [free_map_allocate] and [free_map_release].  The functions
    that open, create and close the free map file are in Filesys, with the file
    layer they use. *)
From S2P Require Import Prelude Bytes State Instances Cache.
From Stdlib Require Import ZArith Lia.
From stdpp Require Import prelude gmap.

Open Scope Z_scope.

Definition FREE_MAP_SECTOR : Z := 0.
Definition ROOT_DIR_SECTOR : Z := 1.

(** ** Interface: reading and writing the bitmap's file

    [bitmap_write] and [bitmap_read] of the bitmap library go through [file_write_at]
    and [file_read_at]. *)
Class BitmapIO (D B : Type) := {
  bitmap_write : B -> file -> M (fs D B) bool;
  bitmap_read : B -> file -> M (fs D B) (bool * B);
  bitmap_file_size : B -> Z;
}.

Section room.
Context {D B : Type} {dev : BlockDev D}.
Abbreviation fs := (fs D B).
Implicit Types (s : fs) (X : list Z).

#[export] Instance cached_dec s k : Decision (cached s k).
Proof. unfold cached. apply _. Defined.

(** The cache has room for the sectors [X] and [n] more without an eviction. *)
Definition room X (n : Z) s : Prop :=
  used_cache s + Z.of_nat (length (filter (fun k => ~ cached s k) X)) + n <= CACHE_SIZE.

(** What rewriting the free map file in place does: only the sectors [X] of the
    file change, the other entries of the cache stay. *)
Record bitmap_written X s s' : Prop := {
  bw_inv : cache_inv s';
  bw_view : forall k, k ∉ X -> view s' k = view s k;
  bw_rest : same_rest s s';
  bw_ids : forall h, h ∈ c_id <$> cache_list s' ->
    h ∈ c_id <$> cache_list s \/ (next_cache s <= h)%nat;
  bw_next : (next_cache s <= next_cache s')%nat;
  bw_room : forall n, 0 <= n -> room X n s -> room X n s';
  bw_only : forall k, cached s' k -> cached s k \/ k ∈ X;
  bw_keep : forall h c, find_id h (cache_list s) = Some c -> c_sid c ∉ X ->
    find_id h (cache_list s') = Some c;
}.

Lemma room_hit X n v sid s s' :
  cache_inv s -> cache_step v sid s s' -> cached s sid -> room X n s -> room X n s'.
Proof.
  intros Hinv Hs Hc Hroom. unfold room in *. rewrite (cs_hit _ _ _ _ Hs Hc).
  assert (length (filter (fun k => ~ cached s' k) X) <= length (filter (fun k => ~ cached s k) X))%nat;
    [|lia].
  apply filter_len_le. intros k _ Hk Hk'. apply Hk.
  eapply cache_step_cached; [done|by right|apply Hinv|done].
Qed.

Lemma room_step X n v sid s s' :
  cache_inv s -> cache_step v sid s s' -> 0 <= n -> room X (n + 1) s -> room X n s'.
Proof.
  intros Hinv Hs Hn Hroom. unfold room in *.
  assert (Hu : used_cache s < CACHE_SIZE) by lia.
  assert (Hu' := cs_used _ _ _ _ Hs Hu).
  assert (length (filter (fun k => ~ cached s' k) X) <= length (filter (fun k => ~ cached s k) X))%nat;
    [|lia].
  apply filter_len_le. intros k _ Hk Hk'. apply Hk.
  eapply cache_step_cached; [done|by left|apply Hinv|done].
Qed.

Lemma room_area X n v sid s s' :
  cache_inv s -> cache_step v sid s s' -> 0 <= n -> sid ∈ X -> room X n s -> room X n s'.
Proof.
  intros Hinv Hs Hn HX Hroom. destruct (decide (cached s sid)) as [Hc|Hc].
  { by eapply room_hit. }
  unfold room in *.
  assert (Hlt : used_cache s < CACHE_SIZE).
  { assert (0 < length (filter (fun k => ~ cached s k) X))%nat; [|lia].
    eapply Nat.le_lt_trans; [apply Nat.le_0_l|].
    apply (filter_len_lt (fun _ => False) (fun k => ~ cached s k) X sid); naive_solver. }
  assert (Hu' := cs_used _ _ _ _ Hs Hlt).
  assert (length (filter (fun k => ~ cached s' k) X) < length (filter (fun k => ~ cached s k) X))%nat;
    [|lia].
  apply (filter_len_lt _ _ _ sid); [|done|done|intros Hn'; apply Hn', Hs].
  intros k _ Hk Hk'. apply Hk. eapply cache_step_cached; [done|by left|apply Hinv|done].
Qed.

Lemma room_mono X n m s : m <= n -> room X n s -> room X m s.
Proof. unfold room. lia. Qed.
End room.

(** [bitmap_write] "writes B to FILE" and "returns true if successful": with room
    in the cache it is, and it changes nothing but the file's sectors [X]. *)
Class BitmapIOLaws (D B : Type) {dev : BlockDev D} {io : BitmapIO D B} (X : list Z) := {
  area_valid : Forall (fun k => valid_sector k = true) X;
  bitmap_write_spec b f (s : fs D B) :
    cache_inv s -> free_map_file s = Some f -> room X 0 s -> (forall k, k ∈ X -> io_ok k s) ->
    wp (bitmap_write b f) (fun r s' => r = true /\ bitmap_written X s s') s;
}.

Section free_map.
Context {D B : Type} {dev : BlockDev D} {bm : Bitmap B} {io : BitmapIO D B}.
Abbreviation fs := (fs D B).
Abbreviation K := (M fs).
Implicit Types (s : fs).

Definition free_map_init : K unit :=
  b ← match bitmap_create dev_sectors with Some b => mret b | None => fail Panic end;
  modify (set_free_map (bitmap_mark (bitmap_mark b FREE_MAP_SECTOR) ROOT_DIR_SECTOR)).

(** The result is [*sectorp] when the function returns true. *)
Definition free_map_allocate (cnt : Z) : K (option Z) :=
  s ← get;
  let '(sector, b) := bitmap_scan_and_flip (free_map s) 0 cnt false in
  modify (set_free_map b);;
  match sector, free_map_file s with
  | Some n, Some f =>
    ok ← bitmap_write b f;
    if (ok : bool) then mret (Some n)
    else
      modify (fun s => set_free_map (bitmap_set_multiple (free_map s) n cnt false) s);;
      mret None
  | _, _ => mret sector
  end.

Definition free_map_release (sector cnt : Z) : K unit :=
  s ← get;
  assert (bitmap_all (free_map s) sector cnt);;
  let b := bitmap_set_multiple (free_map s) sector cnt false in
  modify (set_free_map b);;
  f ← deref (free_map_file s);
  bitmap_write b f;;
  mret tt.

Context {laws : BlockDevLaws D} {bml : BitmapLaws B}.

(** Bit [i] of the free map: sector [i] is in use. *)
Definition in_use s (i : Z) : bool := bitmap_test (free_map s) i.

Lemma set_multiple_undo b n cnt i :
  0 <= n -> 0 <= cnt -> n + cnt <= bitmap_size b -> 0 <= i < bitmap_size b ->
  (forall j, n <= j < n + cnt -> bitmap_test b j = false) ->
  bitmap_test (bitmap_set_multiple (bitmap_set_multiple b n cnt true) n cnt false) i
  = bitmap_test b i.
Proof.
  intros Hn Hc Hs Hi Hfree.
  rewrite bitmap_set_multiple_test; rewrite ?bitmap_set_multiple_size; [|lia..].
  rewrite bitmap_set_multiple_test by lia.
  destruct (Z.leb_spec n i), (Z.ltb_spec i (n + cnt)); simpl; try done.
  symmetry. apply Hfree. lia.
Qed.

(** What [free_map_allocate] promises about the free map. *)
Definition allocated cnt s (r : option Z) s' : Prop :=
  bitmap_size (free_map s') = bitmap_size (free_map s) /\
  match r with
  | Some n =>
    0 <= n /\ n + cnt <= bitmap_size (free_map s) /\
    (forall i, n <= i < n + cnt -> in_use s i = false) /\
    (forall i, 0 <= i < bitmap_size (free_map s) ->
       in_use s' i = ((n <=? i) && (i <? n + cnt)) || in_use s i)
  | None => forall i, 0 <= i < bitmap_size (free_map s) -> in_use s' i = in_use s i
  end.

Lemma wp_free_map_allocate cnt s (Q : option Z -> fs -> Prop) :
  0 < cnt ->
  (forall r s', allocated cnt s r s' -> Q r s') ->
  (forall n b f, bitmap_scan_and_flip (free_map s) 0 cnt false = (Some n, b) ->
     free_map_file s = Some f ->
     wp (bitmap_write b f) (fun _ s' => free_map s' = b) (set_free_map b s)) ->
  wp (free_map_allocate cnt) Q s.
Proof.
  intros Hc HQ Hio. unfold free_map_allocate. apply wp_bind, wp_get.
  destruct (bitmap_scan_and_flip (free_map s) 0 cnt false) as [[n|] b] eqn:Hsc.
  - pose proof (bitmap_scan_some _ _ _ _ _ _ (Z.le_refl 0) Hc Hsc) as (Hn & Hs & Hfree & Hb).
    simpl in Hb.
    assert (Hsome : forall s', free_map s' = b -> allocated cnt s (Some n) s').
    { intros s' Hs'. unfold allocated, in_use. rewrite Hs', Hb, bitmap_set_multiple_size.
      split_and!; [done|lia|lia|done|]. intros i Hi.
      rewrite bitmap_set_multiple_test by lia. by destruct (_ && _). }
    apply wp_bind, wp_modify. destruct (free_map_file s) as [f|] eqn:Hf.
    + apply wp_bind. eapply wp_mono; [exact (Hio n b f eq_refl eq_refl)|].
      intros ok s1 Hs1; cbn beta in *. destruct ok; [by apply wp_ret, HQ, Hsome|].
      apply wp_bind, wp_modify, wp_ret, HQ. unfold allocated, in_use. simpl.
      rewrite Hs1, Hb, !bitmap_set_multiple_size. split; [done|]. intros i Hi.
      apply set_multiple_undo; [lia..|done].
    + apply wp_ret, HQ, Hsome. done.
  - pose proof (bitmap_scan_none _ _ _ _ _ (Z.le_refl 0) Hc Hsc) as (-> & _).
    apply wp_bind, wp_modify. destruct (free_map_file s); by apply wp_ret, HQ.
Qed.

(** [free_map_allocate], every branch.  A successful call returns the start of a
    group of sectors that were all free and marks exactly that group; a failed call
    (no such group, or [bitmap_write] reports a failure and the marks are undone)
    leaves every bit of the free map as it was. *)
Theorem free_map_allocate_spec cnt s :
  0 < cnt ->
  (forall n b f, bitmap_scan_and_flip (free_map s) 0 cnt false = (Some n, b) ->
     free_map_file s = Some f ->
     wp (bitmap_write b f) (fun _ s' => free_map s' = b) (set_free_map b s)) ->
  wp (free_map_allocate cnt) (allocated cnt s) s.
Proof. intros Hc Hio. by apply wp_free_map_allocate. Qed.

(** [free_map_release].  Releasing a group that is not entirely in use fails
    the assertion; otherwise exactly that group becomes free, so a release after
    an allocation restores the free map. *)
Theorem free_map_release_spec sector cnt s f :
  0 <= sector -> 0 <= cnt -> sector + cnt <= bitmap_size (free_map s) ->
  free_map_file s = Some f ->
  let b := bitmap_set_multiple (free_map s) sector cnt false in
  wp (bitmap_write b f) (fun _ s' => free_map s' = b) (set_free_map b s) ->
  ((exists i, sector <= i < sector + cnt /\ in_use s i = false) ->
     free_map_release sector cnt s = Fail Panic) /\
  ((forall i, sector <= i < sector + cnt -> in_use s i = true) ->
     wp (free_map_release sector cnt)
        (fun _ s' => forall i, 0 <= i < bitmap_size (free_map s) ->
           in_use s' i = negb ((sector <=? i) && (i <? sector + cnt)) && in_use s i) s).
Proof.
  intros Hs Hc Hsz Hf b Hio. pose proof (bitmap_all_spec _ _ _ Hs Hc Hsz) as Hall. split.
  - intros (i & Hi & Hu). unfold free_map_release, mbind, M_bind, get, assert.
    destruct (bitmap_all _ _ _); [|done]. exfalso.
    unfold in_use in Hu. rewrite (proj1 Hall eq_refl i Hi) in Hu. done.
  - intros Hu. unfold free_map_release. apply wp_bind, wp_get, wp_bind, wp_assert.
    { by apply Hall. }
    apply wp_bind, wp_modify, wp_bind. eapply wp_deref; [exact Hf|].
    apply wp_bind. eapply wp_mono; [exact Hio|]. intros ok s' Hs'; cbn beta in *.
    apply wp_ret. intros i Hi. unfold in_use. rewrite Hs'. unfold b.
    rewrite bitmap_set_multiple_test by lia. by destruct (_ && _).
Qed.

(** The system sectors are safe.  [free_map_init] marks exactly sectors 0 (the
    free map) and 1 (the root directory), and an allocation from a free map that
    marks them never returns them. *)
Theorem system_sectors_reserved cnt s b :
  2 <= dev_sectors -> bitmap_create dev_sectors = Some b -> 0 < cnt ->
  free_map_file s = None ->
  wp (free_map_init;; free_map_allocate cnt)
     (fun r s' => in_use s' FREE_MAP_SECTOR = true /\ in_use s' ROOT_DIR_SECTOR = true /\
        match r with
        | Some n => 2 <= n /\ n + cnt <= dev_sectors
        | None => forall i, 2 <= i < dev_sectors -> in_use s' i = false
        end) s.
Proof.
  intros Hd Hb Hc Hf. destruct (bitmap_create_spec dev_sectors b) as [Hsz Hz]; [lia|done|].
  apply wp_bind. unfold free_map_init. rewrite Hb. apply wp_bind, wp_ret, wp_modify.
  set (s1 := set_free_map _ s).
  assert (Hsz1 : bitmap_size (free_map s1) = dev_sectors) by (simpl; by rewrite !bitmap_mark_size).
  assert (Hu1 : forall i, 0 <= i < dev_sectors -> in_use s1 i = (i <? 2)).
  { intros i Hi. unfold in_use. simpl. unfold FREE_MAP_SECTOR, ROOT_DIR_SECTOR.
    rewrite bitmap_mark_test; rewrite ?bitmap_mark_size; [|lia..].
    rewrite bitmap_mark_test by lia. rewrite Hz by lia.
    destruct (Z.eqb_spec 1 i), (Z.eqb_spec 0 i), (Z.ltb_spec i 2); try done; lia. }
  apply wp_free_map_allocate; [done| |simpl; congruence].
  unfold FREE_MAP_SECTOR, ROOT_DIR_SECTOR. intros [n|] s2 [Hs2 Ha]; rewrite Hsz1 in *.
  - destruct Ha as (Hn & Hn' & Hfree & Hu2).
    assert (2 <= n).
    { destruct (Z.ltb_spec n 2); [|done]. specialize (Hfree n ltac:(lia)).
      rewrite Hu1 in Hfree by lia. destruct (Z.ltb_spec n 2); [done|lia]. }
    rewrite !Hu2, !Hu1 by lia. rewrite !orb_true_r. split_and!; [done|done|lia|lia].
  - rewrite !Ha, !Hu1 by lia. split_and!; [done|done|]. intros i Hi.
    rewrite Ha, Hu1 by lia. destruct (Z.ltb_spec i 2); [lia|done].
Qed.

(** *** Allocating one sector while the free map file is open *)
Definition free_count (b : B) : nat :=
  length (filter (fun i => bitmap_test b i = false) (seqZ 0 (bitmap_size b))).

Lemma free_count_allocated s n s' :
  allocated 1 s (Some n) s' -> (free_count (free_map s) <= S (free_count (free_map s')))%nat.
Proof.
  intros (Hsz & Hn & Hn' & _ & Hu). unfold free_count. rewrite Hsz.
  apply (filter_len_remove _ _ _ n); [apply NoDup_seqZ|].
  intros x Hx%elem_of_seqZ Hf Hne. specialize (Hu x ltac:(lia)). unfold in_use in Hu.
  rewrite Hu, Hf. destruct (Z.leb_spec n x), (Z.ltb_spec x (n + 1)); simpl; try done; lia.
Qed.

Context {X : list Z} {iol : BitmapIOLaws D B X}.

Lemma wp_allocate_one s f (Q : option Z -> fs -> Prop) :
  cache_inv s -> free_map_file s = Some f -> room X 0 s -> (forall k, k ∈ X -> io_ok k s) ->
  (0 < free_count (free_map s))%nat ->
  (forall n s', allocated 1 s (Some n) s' ->
     bitmap_written X (set_free_map (free_map s') s) s' -> Q (Some n) s') ->
  wp (free_map_allocate 1) Q s.
Proof.
  intros Hinv Hf Hroom Hio Hfree HQ. unfold free_map_allocate. apply wp_bind, wp_get.
  destruct (bitmap_scan_and_flip (free_map s) 0 1 false) as [[n|] b] eqn:Hsc.
  - pose proof (bitmap_scan_some _ _ _ _ _ _ (Z.le_refl 0) Z.lt_0_1 Hsc) as (Hn & Hs & Hfr & Hb).
    simpl in Hb. apply wp_bind, wp_modify. rewrite Hf. apply wp_bind.
    eapply wp_mono; [apply (bitmap_write_spec (X := X) b f (set_free_map b s)); try done|].
    { destruct Hinv. by split. }
    intros ok s' [-> Hs']; cbn beta in *. apply wp_ret, HQ.
    + assert (Hb' : free_map s' = b) by apply Hs'. unfold allocated, in_use.
      rewrite Hb', Hb, bitmap_set_multiple_size. split_and!; [done|lia|lia|done|]. intros i Hi.
      rewrite bitmap_set_multiple_test by lia. by destruct (_ && _).
    + assert (Hb' : free_map s' = b) by apply Hs'. by rewrite Hb'.
  - exfalso. pose proof (bitmap_scan_none _ _ _ _ _ (Z.le_refl 0) Z.lt_0_1 Hsc) as (_ & Hno).
    unfold free_count in Hfree.
    destruct (filter _ _) as [|i l] eqn:Hl; [simpl in Hfree; lia|].
    assert (Hi : i ∈ filter (fun i => bitmap_test (free_map s) i = false)
                       (seqZ 0 (bitmap_size (free_map s)))) by (rewrite Hl; set_solver).
    apply list_elem_of_filter in Hi as [Hi Hin%elem_of_seqZ].
    destruct (Hno i ltac:(lia) ltac:(lia)) as (j & Hj & Ht).
    replace j with i in Ht by lia. simpl in Ht. congruence.
Qed.
End free_map.

(** ** A concrete free map file: one byte per bit, in sector 2 *)
Definition pack (b : bits) : list Z := map (fun x : bool => if x then 1 else 0) (take 512 b).

#[export] Instance disk_io : BitmapIO disk bits := {
  bitmap_write b f := change_block 2 (fun d => memcpy d 0 (pack b));; mret true;
  bitmap_read b f :=
    d ← fetch_block 2; mret (true, map (fun x => negb (x =? 0)) (take (length b) d));
  bitmap_file_size b := 512;
}.

Lemma cache_step_written (s s' : fs disk bits) v :
  cache_inv s -> room [2] 0 s -> cache_step v 2 s s' -> (forall k, k <> 2 -> v k = view s k) ->
  bitmap_written [2] s s'.
Proof.
  intros Hinv Hroom Hs Hv. split; [apply Hs| |apply Hs|apply Hs|apply Hs| | |].
  - intros k Hk. rewrite (cs_view _ _ _ _ Hs). apply Hv. set_solver.
  - intros n Hn Hr. eapply room_area; [done|done|done|set_solver|done].
  - intros k Hk. apply (cs_only _ _ _ _ Hs) in Hk. set_solver.
  - intros h c Hc Hk. apply (cs_keep _ _ _ _ Hs); [|done|set_solver].
    destruct (decide (cached s 2)); [by right|left].
    unfold room in Hroom. rewrite filter_cons, decide_True in Hroom by done. simpl in Hroom. lia.
Qed.

#[export] Instance disk_io_laws : BitmapIOLaws disk bits [2].
Proof.
  split; [by repeat constructor|]. intros b f s Hinv Hf Hroom Hio. simpl.
  assert (Hlen : Z.of_nat (length (view s 2)) = SECTOR) by (by apply view_length).
  assert (Hp : (length (pack b) <= 512)%nat)
    by (unfold pack; rewrite length_map, length_take; lia).
  unfold SECTOR in Hlen. apply wp_bind. apply (wp_change_block 2 _ (splice 0 (pack b) (view s 2))).
  - done.
  - apply Hio. set_solver.
  - done.
  - apply memcpy_ok; lia.
  - unfold SECTOR. rewrite length_splice; lia.
  - intros s' Hs. apply wp_ret. split; [done|]. eapply cache_step_written; [done|done|exact Hs|].
    intros k Hk. unfold view_upd. destruct (Z.eqb_spec 2 k); [congruence|done].
Qed.

(** ** Witnesses *)

(** A file system with [n] free sectors whose free map file is open. *)
Definition mounted_fs (n : nat) : fs disk bits :=
  Fs ∅ [] 0 0 ([true; true; true] ++ replicate n false) (Some (File 0 0 false)) [] ∅ 0 ∅.

Lemma mounted_inv n : cache_inv (mounted_fs n).
Proof. destruct (fresh_idle n) as ([] & _ & _). by split. Qed.

Lemma mounted_write n b :
  wp (bitmap_write b (File 0 0 false)) (fun _ s' => free_map s' = b) (set_free_map b (mounted_fs n)).
Proof.
  destruct (fresh_idle n) as ([] & Hio & _).
  eapply wp_mono; [apply (bitmap_write_spec (X := [2]))|].
  - by split.
  - reflexivity.
  - unfold room. simpl. unfold CACHE_SIZE. lia.
  - intros k _ c Hc. by apply elem_of_nil in Hc.
  - intros r s' [_ Hs]. apply Hs.
Qed.

Lemma free_map_allocate_spec_witness :
  0 < 2 /\ wp (free_map_allocate 2) (allocated 2 (mounted_fs 5)) (mounted_fs 5).
Proof.
  split; [lia|]. apply (free_map_allocate_spec 2 (mounted_fs 5)); [lia|].
  intros n b f _ [= <-]. apply mounted_write.
Defined.

Lemma free_map_release_spec_witness :
  free_map_release 3 1 (mounted_fs 5) = Fail Panic /\
  wp (free_map_release 0 1) (fun _ s' => in_use s' 0 = false) (mounted_fs 5).
Proof.
  split.
  - apply (free_map_release_spec 3 1 (mounted_fs 5) (File 0 0 false));
      [lia|lia|simpl; lia|reflexivity|apply mounted_write|].
    exists 3. split; [lia|reflexivity].
  - eapply wp_mono.
    + apply (free_map_release_spec 0 1 (mounted_fs 5) (File 0 0 false));
        [lia|lia|simpl; lia|reflexivity|apply mounted_write|].
      intros i Hi. replace i with 0 by lia. reflexivity.
    + intros [] s' Hs'; cbn beta in *. rewrite Hs' by (simpl; lia). reflexivity.
Defined.

Lemma system_sectors_reserved_witness :
  wp (free_map_init;; free_map_allocate 3)
     (fun r s' => in_use s' FREE_MAP_SECTOR = true) (fresh_fs 5).
Proof.
  eapply wp_mono.
  - eapply (system_sectors_reserved 3 (fresh_fs 5)); [done|reflexivity|lia|reflexivity].
  - intros r s' [Hs' _]. exact Hs'.
Defined.
