(* ===== verification/Inode.v ===== *)
(** * Inode: on-disk and in-memory inodes ([filesys/inode.c]).

    Definitions first: the codec of [struct inode_disk], the open-inode list, the
    index blocks, reading, writing, growing and deleting.  [file_growth] is cut into
    its phases, each mapped to its lines. *)
From S2P Require Import Prelude Bytes State Instances Cache FreeMap.
From Stdlib Require Import ZArith Lia.
From stdpp Require Import prelude gmap.

Open Scope Z_scope.

(** Interface of the allocator: whether [malloc] and [calloc] have memory.  Only the
    calls whose result the code tests consult it. *)
Class Memory := { malloc_ok : bool }.

Definition INODE_MAGIC : Z := 0x494e4f44.
Definition BLOCK_ERROR : Z := UINT32 - 1.      (* [(block_sector_t) -1] *)

(** ** [struct inode_disk] as the bytes of a sector *)
Definition inode_disk_bytes (d : inode_disk) : list Z :=
  le32 (id_length d) ++ le32 (id_sp d) ++ le32 (id_ind d) ++ le32 (id_din d) ++
  le32 (id_magic d) ++ [if id_isdir d then 1 else 0] ++ id_pad d ++
  le32 (id_parent d) ++ id_unused d.

Definition inode_disk_of (b : list Z) : inode_disk :=
  InodeDisk (s32 (word_at b 0)) (word_at b 1) (word_at b 2) (word_at b 3) (word_at b 4)
    (negb (byte_at b 20 =? 0)) (slice 21 3 b) (word_at b 6) (slice 28 484 b).

Definition set_length n d := InodeDisk n (id_sp d) (id_ind d) (id_din d) (id_magic d)
  (id_isdir d) (id_pad d) (id_parent d) (id_unused d).
Definition set_sp n d := InodeDisk (id_length d) n (id_ind d) (id_din d) (id_magic d)
  (id_isdir d) (id_pad d) (id_parent d) (id_unused d).
Definition set_idx n d := InodeDisk (id_length d) (id_sp d) n (id_din d) (id_magic d)
  (id_isdir d) (id_pad d) (id_parent d) (id_unused d).
Definition set_din n d := InodeDisk (id_length d) (id_sp d) (id_ind d) n (id_magic d)
  (id_isdir d) (id_pad d) (id_parent d) (id_unused d).
Definition set_parent n d := InodeDisk (id_length d) (id_sp d) (id_ind d) (id_din d) (id_magic d)
  (id_isdir d) (id_pad d) n (id_unused d).

Definition set_open_cnt n i := Inode (i_sector i) n (i_removed i) (i_deny_write_cnt i) (i_data i) (i_read_cnt i).
Definition set_removed b i := Inode (i_sector i) (i_open_cnt i) b (i_deny_write_cnt i) (i_data i) (i_read_cnt i).
Definition set_deny n i := Inode (i_sector i) (i_open_cnt i) (i_removed i) n (i_data i) (i_read_cnt i).
Definition set_idata d i := Inode (i_sector i) (i_open_cnt i) (i_removed i) (i_deny_write_cnt i) d (i_read_cnt i).
Definition set_iread n i := Inode (i_sector i) (i_open_cnt i) (i_removed i) (i_deny_write_cnt i) (i_data i) n.

(** [index->block[k]] of a [struct index] with bytes [idx]. *)
Definition index_block (idx : list Z) (k : Z) : option Z :=
  if (0 <=? k) && (k <? 128) then Some (word_at idx k) else None.

Section inode.
Context {D B : Type} {dev : BlockDev D} {bm : Bitmap B} {io : BitmapIO D B} {mem : Memory}.
Abbreviation fs := (fs D B).
Abbreviation K := (M fs).
Implicit Types (s : fs) (i : nat).

(** ** The objects behind [struct inode *] *)
Definition load_inode i : K inode := s ← get; deref (inodes s !! i).
Definition store_inode i (f : inode -> inode) : K unit :=
  n ← load_inode i; modify (fun s => set_inodes (<[i := f n]> (inodes s)) s).
Definition store_data i (f : inode_disk -> inode_disk) : K unit :=
  store_inode i (fun n => set_idata (f (i_data n)) n).
(** [malloc (sizeof *inode)]. *)
Definition new_inode (n : inode) : K nat :=
  i ← gets next_inode;
  modify (fun s => set_next_inode (S i) (set_inodes (<[i := n]> (inodes s)) s));;
  mret i.
Definition free_inode i : K unit :=
  load_inode i;; modify (fun s => set_inodes (delete i (inodes s)) s).

(** ** Readers and writers of one inode *)
Definition read_inode i : K unit :=
  locked (inode_io i) (n ← load_inode i; store_inode i (set_iread (i_read_cnt n + 1))).

Definition read_end i : K unit :=
  locked (inode_io i)
    (n ← load_inode i;
     store_inode i (set_iread (i_read_cnt n - 1));;
     when (i_read_cnt n - 1 =? 0) (cond_signal (inode_io i))).

Definition write_inode i : K unit :=
  h ← holds (inode_io i);
  assert (negb h);;
  lock_acquire (inode_io i);;
  n ← load_inode i;
  when (0 <? i_read_cnt n) (cond_wait (inode_io i)).

Definition write_end i : K unit := cond_signal (inode_io i);; lock_release (inode_io i).

(** ** Fields *)
Definition inode_isdir (o : option nat) : K bool :=
  match o with
  | Some i => locked (inode_io i) (n ← load_inode i; mret (id_isdir (i_data n)))
  | None => mret false
  end.

Definition inode_open_cnt i : K Z :=
  locked (inode_io i) (n ← load_inode i; mret (i_open_cnt n)).
Definition inode_parent i : K Z :=
  locked (inode_io i) (n ← load_inode i; mret (id_parent (i_data n))).
Definition inode_sid i : K Z :=
  locked (inode_io i) (n ← load_inode i; mret (i_sector n)).
Definition inode_get_inumber i : K Z :=
  locked (inode_io i) (n ← load_inode i; mret (i_sector n)).
Definition inode_length i : K Z :=
  locked (inode_io i) (n ← load_inode i; mret (id_length (i_data n))).

Definition inode_set_parent i (parent : Z) : K unit :=
  locked (inode_io i)
    (store_data i (set_parent parent);;
     n ← load_inode i;
     change_block (i_sector n) (fun d => memcpy d 0 (inode_disk_bytes (i_data n)))).

Definition inode_remove i : K unit :=
  locked (inode_io i) (store_inode i (set_removed true)).

Definition inode_deny_write i : K unit :=
  locked (inode_io i)
    (n ← load_inode i;
     store_inode i (set_deny (i_deny_write_cnt n + 1));;
     assert (i_deny_write_cnt n + 1 <=? i_open_cnt n)).

Definition inode_allow_write i : K unit :=
  locked (inode_io i)
    (n ← load_inode i;
     assert (0 <? i_deny_write_cnt n);;
     assert (i_deny_write_cnt n <=? i_open_cnt n);;
     store_inode i (set_deny (i_deny_write_cnt n - 1))).

Definition inode_reopen (o : option nat) : K (option nat) :=
  match o with
  | Some i =>
    locked (inode_io i) (n ← load_inode i; store_inode i (set_open_cnt (i_open_cnt n + 1)));;
    mret (Some i)
  | None => mret None
  end.

(** ** The sector that holds a byte *)
Definition byte_to_sector i (pos : Z) : K Z :=
  n ← load_inode i;
  let d := i_data n in
  if pos <? id_length d then
    let block := Z.quot pos SECTOR in
    if block <? 1 then mret (id_sp d)
    else if block <? 129 then
      idx ← fetch_block (id_ind d);
      deref (index_block idx (block - 1))
    else
      idx ← fetch_block (id_din d);
      let k := Z.quot (block - 129) 128 in
      let j := Z.rem (block - 129) 128 in
      b ← deref (index_block idx k);
      idx ← fetch_block b;
      deref (index_block idx j)
  else mret BLOCK_ERROR.

(** ** Reading *)
Fixpoint read_loop (fuel : nat) i (size offset : Z) (acc : list Z) : K (list Z) :=
  match fuel with
  | O => fail Hang
  | S fuel' =>
    if 0 <? size then
      sector_idx ← byte_to_sector i offset;
      n ← load_inode i;
      let sector_ofs := Z.rem offset SECTOR in
      let inode_left := id_length (i_data n) - offset in
      let sector_left := SECTOR - sector_ofs in
      let min_left := if inode_left <? sector_left then inode_left else sector_left in
      let chunk_size := if size <? min_left then size else min_left in
      if chunk_size <=? 0 then mret acc
      else
        c ← fetch_block sector_idx;
        b ← deref (memread c sector_ofs chunk_size);
        read_loop fuel' i (size - chunk_size) (offset + chunk_size) (acc ++ b)
    else mret acc
  end.

(** The result is the bytes stored into the buffer; their number is the value the
    function returns. *)
Definition inode_read_at i (size offset : Z) : K (list Z) :=
  read_inode i;;
  n ← load_inode i;
  if id_length (i_data n) <? offset then read_end i;; mret []
  else
    bytes ← read_loop (S (Z.to_nat size)) i size offset [];
    read_end i;;
    mret bytes.

(** ** Growth *)

(** [if (free_map_allocate (1, &x)) ...], the result ignored: [x] keeps its value
    when the allocation fails. *)
Definition allocate_into (old : Z) : K Z :=
  r ← free_map_allocate 1; mret (default old r).

(** Read the index block [ind] for writing, allocate [index->block[k]], store the
    index back; the result is [index->block[k]]. *)
Definition allocate_in_index (ind k : Z) : K Z :=
  h ← cache_block ind WRITE_BLOCK;
  write_cache h;;
  c ← load_cache h;
  old ← deref (index_block (c_data c) k);
  b ← allocate_into old;
  let index := set_word (c_data c) k b in
  store_cache h (set_data index);;
  end_write h;;
  mret b.

Definition clear_block (sid : Z) : K unit := change_block sid (fun d => memset d 0 0 SECTOR).

(** The first [if]: the file grows inside its last sector. *)
Definition growth_in_sector i (pos length : Z) : K unit :=
  let bytes_write := pos - length in
  sid ← byte_to_sector i length;
  change_block sid (fun d => memset d length 0 bytes_write).

(** The first sector; the result is the new [(length, block_current)]. *)
Definition growth_first i (length block_current : Z) : K (Z * Z) :=
  when (length =? 0)
    (n ← load_inode i;
     sp ← allocate_into (id_sp (i_data n));
     store_data i (set_sp sp));;
  if block_current <? 1 then
    let bytes_write := 512 - length in
    n ← load_inode i;
    change_block (id_sp (i_data n)) (fun d => memset d length 0 bytes_write);;
    mret (length + bytes_write, block_current + 1)
  else mret (length, block_current).

(** The rest of the sector [index->block[k]] is cleared; the result is the new
    [block_current].  [get_index] is the read of the index block, done here in one
    caller and before the test in the other. *)
Definition growth_clear_tail (get_index : K (list Z)) (k length block_current : Z) : K Z :=
  if negb (Z.rem length SECTOR =? 0) then
    index ← get_index;
    sid ← deref (index_block index k);
    let start := Z.rem length SECTOR in
    change_block sid (fun d => memset d start 0 (SECTOR - start));;
    mret (block_current + 1)
  else mret block_current.

(** [for (i = 0; i < blocks; i++)]: new sectors in the single index block. *)
Definition growth_single_loop (ind block_current blocks : Z) : K unit :=
  for_up 0 (Z.to_nat blocks) (fun j =>
    b ← allocate_in_index ind (block_current + j - 1);
    clear_block b).

(** [if (block < 129)]. *)
Definition growth_single i (length block block_current : Z) : K unit :=
  n ← load_inode i;
  let ind := id_ind (i_data n) in
  block_current ← growth_clear_tail (fetch_block ind) (block_current - 1) length block_current;
  growth_single_loop ind block_current (block - block_current + 1).

(** [if (length < 129 * 512)]: the single index block is filled up. *)
Definition growth_fill_single i (length block_current : Z) : K unit :=
  n ← load_inode i;
  let ind := id_ind (i_data n) in
  index ← fetch_block ind;
  block_current ← growth_clear_tail (mret index) (block_current - 1) length block_current;
  growth_single_loop ind block_current (129 - block_current).

(** One new sector in the second-level index [index->block[k]] of [din]. *)
Definition growth_double_sector (din k j : Z) : K unit :=
  index ← fetch_block din;
  b ← deref (index_block index k);
  b ← allocate_in_index b j;
  clear_block b.

(** The doubly indirect part. *)
Definition growth_double i (length block block_current : Z) : K unit :=
  n ← load_inode i;
  let din := id_din (i_data n) in
  block_current ←
    (if negb (Z.rem length SECTOR =? 0) then
       let k := Z.quot (block_current - 129) 128 in
       let j := Z.rem (block_current - 129) 128 in
       index ← fetch_block din;
       b ← deref (index_block index k);
       index ← fetch_block b;
       sid ← deref (index_block index j);
       change_block sid (fun d => memset d (Z.rem length SECTOR) 0 (512 - Z.rem length SECTOR));;
       mret (block_current + 1)
     else mret block_current);
  let mi := Z.quot (block - 129) 128 in
  let mj := Z.quot (block_current - 129) 128 in
  let ni := Z.rem (block - 129) 128 in
  let nj := Z.rem (block_current - 129) 128 in
  when (nj =? 0) (allocate_in_index din mj;; mret tt);;
  for_up 0 (Z.to_nat (mj - mi)) (fun k => allocate_in_index din (mj + k + 1);; mret tt);;
  for_up mj (Z.to_nat (mi + 1 - mj)) (fun k =>
    let low := if k =? mj then nj else 0 in
    let high := if k =? mi then ni + 1 else 128 in
    for_up low (Z.to_nat (high - low)) (fun j => growth_double_sector din k j)).

(** [file_growth], with the returns as nested conditionals. *)
Definition file_growth i (pos size : Z) : K Z :=
  new_length ← add_int pos size;
  n ← load_inode i;
  let block := Z.quot new_length SECTOR in
  let length := id_length (i_data n) in
  let block_current := Z.quot length SECTOR in
  let block_ofs := Z.rem new_length SECTOR in
  store_data i (set_length new_length);;
  if (block =? block_current) && negb (Z.rem length SECTOR =? 0) then
    growth_in_sector i pos length;; mret block
  else
    '(length, block_current) ← growth_first i length block_current;
    if (block =? 1) && (block_ofs =? 0) then mret block
    else
      when (length =? 512)
        (n ← load_inode i;
         ind ← allocate_into (id_ind (i_data n));
         store_data i (set_idx ind));;
      if block <? 129 then growth_single i length block block_current;; mret block
      else
        '(length, block_current) ←
          (if length <? 129 * 512 then
             growth_fill_single i length block_current;; mret (129 * SECTOR, 129)
           else mret (length, block_current));
        if (block =? 129) && (block_ofs =? 0) then mret block
        else
          when (length =? 512 * 129)
            (n ← load_inode i;
             din ← allocate_into (id_din (i_data n));
             store_data i (set_din din));;
          growth_double i length block block_current;;
          mret block.

(** ** Writing *)
Fixpoint write_loop (fuel : nat) i (buffer : list Z) (size offset written : Z) : K Z :=
  match fuel with
  | O => fail Hang
  | S fuel' =>
    if 0 <? size then
      sector_idx ← byte_to_sector i offset;
      n ← load_inode i;
      let sector_ofs := Z.rem offset SECTOR in
      let inode_left := id_length (i_data n) - offset in
      let sector_left := SECTOR - sector_ofs in
      let min_left := if inode_left <? sector_left then inode_left else sector_left in
      let chunk_size := if size <? min_left then size else min_left in
      if chunk_size <=? 0 then mret written
      else
        b ← deref (memread buffer written chunk_size);
        change_block sector_idx (fun d => memcpy d sector_ofs b);;
        write_loop fuel' i buffer (size - chunk_size) (offset + chunk_size) (written + chunk_size)
    else mret written
  end.

Definition inode_write_at i (buffer : list Z) (size offset : Z) : K Z :=
  h ← holds (inode_io i);
  when (negb h) (write_inode i);;
  n ← load_inode i;
  if negb (i_deny_write_cnt n =? 0) then
    when (negb h) (write_end i);; mret 0
  else
    e ← add_int offset size;
    when (id_length (i_data n) <? e) (file_growth i offset size;; mret tt);;
    w ← write_loop (S (Z.to_nat size)) i buffer size offset 0;
    when (negb h) (write_end i);;
    mret w.

(** ** Deletion *)

(** [c = find_cache (sid); if (c) cache_remove (c);] *)
Definition drop_cached (sid : Z) : K unit :=
  c ← find_cache sid;
  match c with Some h => cache_remove h | None => mret tt end.

(** [read_cache (cache); memcpy (index, ...); end_read (cache); cache_remove (cache);] *)
Definition take_index (h : nat) : K (list Z) :=
  read_cache h;;
  c ← load_cache h;
  end_read h;;
  cache_remove h;;
  mret (c_data c).

Definition inode_delete i : K unit :=
  locked (inode_io i)
    (n ← load_inode i;
     let d := i_data n in
     let length := id_length d in
     let block_current := Z.quot length SECTOR in
     free_map_release (id_sp d) 1;;
     drop_cached (id_sp d);;
     when ((1 <=? block_current) && negb (length =? 512))
       (h ← cache_block (id_ind d) READ_BLOCK;
        free_map_release (id_ind d) 1;;
        index ← take_index h;
        for_up 0 (Z.to_nat block_current) (fun k =>
          b ← deref (index_block index (block_current + k - 1));
          free_map_release b 1;;
          drop_cached b));;
     when ((129 <=? block_current) && negb (length =? 129 * 512))
       (free_map_release (id_din d) 1;;
        h ← cache_block (id_din d) READ_BLOCK;
        index ← take_index h;
        let m := Z.quot (block_current - 129) 128 in
        let n := Z.rem (block_current - 129) 128 in
        for_up 0 (Z.to_nat (m + 1)) (fun k =>
          b ← deref (index_block index k);
          hc ← cache_block b READ_BLOCK;
          read_cache h;;
          c ← load_cache hc;
          end_read h;;
          free_map_release b 1;;
          cache_remove hc;;
          let high := if k =? m then n + 1 else 128 in
          for_up 0 (Z.to_nat high) (fun j =>
            x ← deref (index_block (c_data c) j);
            free_map_release x 1;;
            y ← deref (index_block index j);
            drop_cached y)))).

(** ** Opening, creating and closing *)
Definition inode_init : K unit := modify (set_open_inodes []).

(** The open inode of [sector], in list order. *)
Definition open_inode_at (sector : Z) s : option nat :=
  List.find (fun i => match inodes s !! i with
                      | Some n => i_sector n =? sector | None => false end) (open_inodes s).

(** The tail of [inode_open] and [find_inode]: a fresh inode read from the disk. *)
Definition load_from_disk (sector open_cnt : Z) : K nat :=
  i ← new_inode (Inode 0 0 false 0 (inode_disk_of []) 0);
  modify (fun s => set_open_inodes (i :: open_inodes s) s);;
  locked (inode_io i)
    (store_inode i (fun n => Inode sector open_cnt false 0 (i_data n) 0);;
     h ← cache_block sector READ_BLOCK;
     write_cache h;;
     c ← load_cache h;
     store_data i (fun _ => inode_disk_of (c_data c));;
     end_write h);;
  mret i.

Definition find_inode (sector : Z) : K (option nat) :=
  locked file_lock
    (o ← gets (open_inode_at sector);
     match o with
     | Some i => mret (Some i)
     | None => if malloc_ok then i ← load_from_disk sector 0; mret (Some i) else mret None
     end).

Definition inode_open (sector : Z) : K (option nat) :=
  locked file_lock
    (o ← gets (open_inode_at sector);
     match o with
     | Some i => inode_reopen (Some i)
     | None => if malloc_ok then i ← load_from_disk sector 1; mret (Some i) else mret None
     end).

Definition inode_alloc (disk_inode : inode_disk) : K inode_disk :=
  i ← new_inode (Inode 0 0 false 0 (set_length 0 disk_inode) 0);
  file_growth i 0 (id_length disk_inode);;
  n ← load_inode i;
  free_inode i;;
  mret (i_data n).

Definition blank_inode (length : Z) (isdir : bool) : inode_disk :=
  InodeDisk length 0 0 0 INODE_MAGIC isdir (replicate 3 0) 0 (replicate 484 0).

Definition inode_create (sector length : Z) (isdir : bool) : K bool :=
  locked file_lock
    (assert (0 <=? length);;
     if malloc_ok then
       d ← inode_alloc (blank_inode length isdir);
       let d := set_parent ROOT_DIR_SECTOR d in
       change_block sector (fun b => memcpy b 0 (inode_disk_bytes d));;
       mret true
     else mret false).

Definition inode_close (o : option nat) : K unit :=
  match o with
  | None => mret tt
  | Some i =>
    guarded file_lock
      (n ← load_inode i;
       store_inode i (set_open_cnt (i_open_cnt n - 1));;
       when (i_open_cnt n - 1 =? 0)
         (modify (fun s => set_open_inodes (List.filter (fun k => negb (Nat.eqb k i)) (open_inodes s)) s);;
          n ← load_inode i;
          change_block (i_sector n) (fun b => memcpy b 0 (inode_disk_bytes (i_data n)));;
          when (i_removed n)
            (inode_delete i;;
             free_map_release (i_sector n) 1;;
             drop_cached (i_sector n));;
          free_inode i))
  end.

Definition inode_close_all : K unit :=
  es ← gets open_inodes;
  for_each es (fun i =>
    b ← inode_isdir (Some i);
    n ← load_inode i;
    when (b && negb (i_sector n =? 0))
      (store_inode i (set_open_cnt 1);;
       inode_close (Some i))).
End inode.

(** An allocator that never fails, for runs on concrete states. *)
Definition memory_available : Memory := {| malloc_ok := true |}.
