(* ===== verification/InodeData.v ===== *)
(** * InodeData: the contents of a file ([filesys/inode.c]).

    The map from the bytes of a file to the bytes of the device, and the theorems
    on [byte_to_sector], [inode_read_at] and [inode_write_at] inside the file. *)
From S2P Require Import Prelude Bytes State Instances Cache FreeMap Inode.
From Stdlib Require Import ZArith Lia.
From stdpp Require Import prelude gmap.

Open Scope Z_scope.

(** ** The codec *)
Definition words_ok (d : inode_disk) : Prop :=
  INT_MIN <= id_length d <= INT_MAX /\ 0 <= id_sp d < UINT32 /\ 0 <= id_ind d < UINT32 /\
  0 <= id_din d < UINT32 /\ 0 <= id_magic d < UINT32 /\ 0 <= id_parent d < UINT32 /\
  length (id_pad d) = 3%nat /\ length (id_unused d) = 484%nat.

Lemma u32_mod z : u32 (u32 z) = u32 z.
Proof. apply Z.mod_mod. done. Qed.

Lemma s32_u32 z : INT_MIN <= z <= INT_MAX -> s32 (u32 z) = z.
Proof.
  intros H. unfold s32. rewrite u32_mod. unfold u32, UINT32, INT_MAX, INT_MIN in *.
  destruct (Z.leb_spec (z mod 2 ^ 32) (2 ^ 31 - 1)); Z.div_mod_to_equations; lia.
Qed.

Lemma inode_disk_codec d :
  words_ok d ->
  Z.of_nat (length (inode_disk_bytes d)) = SECTOR /\ inode_disk_of (inode_disk_bytes d) = d.
Proof.
  intros (Hl & Hs & Hi & Hd & Hm & Hp & Hpad & Hun).
  destruct d as [n sp ind din magic isdir pad parent unused]. simpl in *.
  destruct pad as [|p0 [|p1 [|p2 [|]]]]; try done. split.
  - unfold inode_disk_bytes. simpl. rewrite Hun. done.
  - set (b := inode_disk_bytes _). unfold inode_disk_of.
    change (word_at b 0) with (of_le32 (le32 n)).
    change (word_at b 1) with (of_le32 (le32 sp)).
    change (word_at b 2) with (of_le32 (le32 ind)).
    change (word_at b 3) with (of_le32 (le32 din)).
    change (word_at b 4) with (of_le32 (le32 magic)).
    change (word_at b 6) with (of_le32 (le32 parent)).
    change (slice 21 3 b) with [p0; p1; p2].
    change (slice 28 484 b) with (take 484 unused).
    change (byte_at b 20) with (if isdir then 1 else 0).
    rewrite !of_le32_le32, s32_u32, !u32_small, take_ge by lia. by destruct isdir.
Qed.

Lemma inode_disk_bytes_of d : words_ok d -> inode_disk_of (inode_disk_bytes d) = d.
Proof. apply inode_disk_codec. Qed.

Lemma length_inode_disk_bytes d : words_ok d -> Z.of_nat (length (inode_disk_bytes d)) = SECTOR.
Proof. apply inode_disk_codec. Qed.

(** The inode codec.  [struct inode_disk] fills exactly one sector (the
    assertion of [inode_create]), and reading back the bytes written for an inode
    gives the inode. *)
Theorem inode_disk_round_trip d :
  words_ok d ->
  Z.of_nat (length (inode_disk_bytes d)) = SECTOR /\ inode_disk_of (inode_disk_bytes d) = d.
Proof. apply inode_disk_codec. Qed.

(** ** Where the bytes of a file are *)
Definition MAX_BLOCKS : Z := 129 + 128 * 128.
Definition blocks (d : inode_disk) : Z := (id_length d + 511) / 512.

(** The sector of block [blk] of a file, and the index sectors that lead to it. *)
Definition bmap (v : Z -> list Z) (d : inode_disk) (blk : Z) : Z :=
  if blk <? 1 then id_sp d
  else if blk <? 129 then word_at (v (id_ind d)) (blk - 1)
  else word_at (v (word_at (v (id_din d)) ((blk - 129) / 128))) ((blk - 129) mod 128).

Definition index_path (v : Z -> list Z) (d : inode_disk) (blk : Z) : list Z :=
  if blk <? 1 then []
  else if blk <? 129 then [id_ind d]
  else [id_din d; word_at (v (id_din d)) ((blk - 129) / 128)].

(** Byte [k] of a file, and all its bytes. *)
Definition fbyte (v : Z -> list Z) (d : inode_disk) (k : Z) : Z :=
  byte_at (v (bmap v d (k / 512))) (k mod 512).
Definition content (v : Z -> list Z) (d : inode_disk) : list Z :=
  fbyte v d <$> seqZ 0 (id_length d).

(** The blocks of a file are distinct sectors of the device, none of them an index. *)
Record file_wf {D} {dev : BlockDev D} (v : Z -> list Z) (d : inode_disk) : Prop := {
  fw_length : 0 <= id_length d;
  fw_max : blocks d <= MAX_BLOCKS;
  fw_valid : forall b, 0 <= b < blocks d -> valid_sector (bmap v d b) = true;
  fw_index_valid : forall b k, 0 <= b < blocks d -> k ∈ index_path v d b -> valid_sector k = true;
  fw_inj : forall a b, 0 <= a < blocks d -> 0 <= b < blocks d -> bmap v d a = bmap v d b -> a = b;
  fw_index : forall a b k, 0 <= a < blocks d -> 0 <= b < blocks d -> k ∈ index_path v d b ->
    bmap v d a <> k;
}.

Lemma block_range d k : 0 <= k < id_length d -> 0 <= k / 512 < blocks d.
Proof. intros. unfold blocks. Z.div_mod_to_equations. lia. Qed.

(** The map depends on the index sectors only. *)
Lemma index_path_ext v v' d b :
  (forall k, k ∈ index_path v d b -> v' k = v k) -> index_path v' d b = index_path v d b.
Proof.
  unfold index_path. intros H. destruct (b <? 1), (b <? 129); try done.
  rewrite H; [done|]. by left.
Qed.

Lemma bmap_ext v v' d b :
  (forall k, k ∈ index_path v d b -> v' k = v k) -> bmap v' d b = bmap v d b.
Proof.
  unfold index_path, bmap. intros H. destruct (b <? 1), (b <? 129); try done.
  - rewrite H; [done|]. by left.
  - rewrite (H (id_din d)) by by left. rewrite H; [done|]. right. by left.
Qed.

Lemma fbyte_ext v v' d k :
  (forall j, v' j = v j) -> fbyte v' d k = fbyte v d k.
Proof. intros H. unfold fbyte. rewrite (bmap_ext v v') by auto. by rewrite H. Qed.

Lemma fbyte_list_ext v v' d (l : list Z) :
  (forall j, v' j = v j) -> fbyte v' d <$> l = fbyte v d <$> l.
Proof. intros H. apply list_fmap_ext. intros ? ? _. by apply fbyte_ext. Qed.

Lemma content_ext v v' d : (forall j, v' j = v j) -> content v' d = content v d.
Proof. apply fbyte_list_ext. Qed.

Lemma length_content v d : Z.of_nat (length (content v d)) = Z.max 0 (id_length d).
Proof. unfold content. rewrite length_fmap, length_seqZ. lia. Qed.

Lemma slice_content v d off n :
  0 <= off <= id_length d ->
  slice off n (content v d) = fbyte v d <$> seqZ off (Z.min n (id_length d - off)).
Proof.
  intros Ho. apply list_eq. intros i. unfold slice, content.
  rewrite list_lookup_fmap. destruct (decide (Z.of_nat i < Z.min n (id_length d - off))).
  - rewrite lookup_take_lt, lookup_drop, list_lookup_fmap, !lookup_seqZ_lt by lia.
    simpl. do 2 f_equal. lia.
  - rewrite (lookup_seqZ_ge off) by lia. simpl. destruct (decide (Z.of_nat i < n)).
    + rewrite lookup_take_lt, lookup_drop, list_lookup_fmap, lookup_seqZ_ge by lia. done.
    + rewrite lookup_take_ge by lia. done.
Qed.

Lemma file_wf_ext {D} {dev : BlockDev D} v v' d :
  (forall b k, 0 <= b < blocks d -> k ∈ index_path v d b -> v' k = v k) ->
  file_wf v d -> file_wf v' d.
Proof.
  intros H [H1 H2 H3 H4 H5 H6].
  assert (Hp : forall b, 0 <= b < blocks d -> index_path v' d b = index_path v d b)
    by (intros b Hb; apply index_path_ext; eauto).
  assert (Hm : forall b, 0 <= b < blocks d -> bmap v' d b = bmap v d b)
    by (intros b Hb; apply bmap_ext; eauto).
  split; [done|done| | | |].
  - intros b Hb. rewrite Hm; auto.
  - intros b k Hb. rewrite Hp; eauto.
  - intros a b Ha Hb. rewrite !Hm; auto.
  - intros a b k Ha Hb. rewrite Hm, Hp by done. by apply H6.
Qed.

Lemma slice_sector v d pos n :
  0 <= pos -> 0 <= n -> pos mod 512 + n <= 512 ->
  Z.of_nat (length (v (bmap v d (pos / 512)))) = SECTOR ->
  slice (pos mod 512) n (v (bmap v d (pos / 512))) = fbyte v d <$> seqZ pos n.
Proof.
  unfold SECTOR. intros Hp Hn Hs Hl. assert (Hm := Z.mod_pos_bound pos 512 eq_refl).
  apply list_byte_eq; rewrite length_slice by lia.
  - by rewrite length_fmap, length_seqZ.
  - intros k Hk. rewrite byte_at_slice by lia. unfold byte_at at 2.
    rewrite nth_default_lookup, list_lookup_fmap, lookup_seqZ_lt by lia. simpl.
    unfold fbyte. rewrite Z2Nat.id by lia. f_equal; [|Z.div_mod_to_equations; lia].
    do 2 f_equal. Z.div_mod_to_equations; lia.
Qed.

(** ** Operations that change nothing but the cache *)
Section data.
Context {D B : Type} {dev : BlockDev D} {bm : Bitmap B} {io : BitmapIO D B} {mem : Memory}.
Abbreviation fs := (fs D B).
Abbreviation K := (M fs).
Implicit Types (s : fs) (i : nat).

Definition fs_ok s : Prop := cache_inv s /\ io_free s.

Lemma fs_ok_ext s s' :
  fs_device s' = fs_device s -> cache_list s' = cache_list s -> used_cache s' = used_cache s ->
  next_cache s' = next_cache s -> (forall h, cache_io h ∈ held s' -> cache_io h ∈ held s) ->
  fs_ok s -> fs_ok s'.
Proof.
  intros Hd Hc Hu Hn Hh [[H1 H2 H3 H4] Hio]. split; [split|].
  - by rewrite Hd, Hc.
  - rewrite Hc, Hn. done.
  - rewrite Hn. auto.
  - by rewrite Hc, Hu.
  - intros h. rewrite Hc. intros H Hin. by apply (Hio h), Hh.
Qed.

Lemma view_ext s s' k :
  fs_device s' = fs_device s -> cache_list s' = cache_list s -> view s' k = view s k.
Proof. unfold view. by intros -> ->. Qed.

(** [quiet s s'] : the contents and everything outside the cache are unchanged. *)
Record quiet s s' : Prop := {
  q_ok : fs_ok s';
  q_view : forall k, view s' k = view s k;
  q_rest : same_rest s s';
}.

Lemma quiet_refl s : fs_ok s -> quiet s s.
Proof. by split. Qed.
Lemma quiet_trans s1 s2 s3 : quiet s1 s2 -> quiet s2 s3 -> quiet s1 s3.
Proof.
  intros [] []. split; [done|congruence|by etransitivity].
Qed.

Lemma cache_step_quiet sid s s' : fs_ok s -> cache_step (view s) sid s s' -> quiet s s'.
Proof.
  intros [Hi Ho] Hs. split; [split; [apply Hs|by eapply cache_step_io_free]|apply Hs|apply Hs].
Qed.

Lemma wp_load_inode i n s (Q : inode -> fs -> Prop) :
  inodes s !! i = Some n -> Q n s -> wp (load_inode i) Q s.
Proof. intros H HQ. apply wp_bind, wp_get. by eapply wp_deref. Qed.

Lemma wp_store_inode i f n s (Q : unit -> fs -> Prop) :
  inodes s !! i = Some n -> Q tt (set_inodes (<[i := f n]> (inodes s)) s) ->
  wp (store_inode i f) Q s.
Proof. intros H HQ. apply wp_bind. eapply wp_load_inode; [exact H|]. by apply wp_modify. Qed.

Context {laws : BlockDevLaws D}.

Lemma wp_fetch_quiet sid s (Q : list Z -> fs -> Prop) :
  fs_ok s -> valid_sector sid = true -> (forall s', quiet s s' -> Q (view s sid) s') ->
  wp (fetch_block sid) Q s.
Proof.
  intros [Hi Ho] Hv HQ. apply wp_fetch_block; [done|by apply io_free_ok|done|].
  intros s' Hs. by eapply HQ, cache_step_quiet.
Qed.

Lemma index_block_ok idx k : 0 <= k < 128 -> index_block idx k = Some (word_at idx k).
Proof.
  intros. unfold index_block. destruct (Z.leb_spec 0 k), (Z.ltb_spec k 128); simpl; done || lia.
Qed.

Lemma wp_byte_to_sector i n pos s (Q : Z -> fs -> Prop) :
  fs_ok s -> inodes s !! i = Some n -> file_wf (view s) (i_data n) ->
  0 <= pos < id_length (i_data n) ->
  (forall s', quiet s s' -> Q (bmap (view s) (i_data n) (pos / 512)) s') ->
  wp (byte_to_sector i pos) Q s.
Proof.
  intros Hok Hn Hwf Hpos HQ. pose proof (block_range _ _ Hpos) as Hb.
  apply wp_bind. eapply wp_load_inode; [exact Hn|]. cbn beta zeta.
  destruct (Z.ltb_spec pos (id_length (i_data n))); [|lia].
  unfold SECTOR. rewrite Z.quot_div_nonneg by lia.
  pose proof (fun k => fw_index_valid _ _ Hwf (pos / 512) k Hb) as Hiv.
  pose proof (fw_max _ _ Hwf) as Hmax. unfold MAX_BLOCKS in Hmax.
  revert HQ Hiv. unfold bmap, index_path. generalize dependent (pos / 512). intros b Hb HQ Hiv.
  destruct (Z.ltb_spec b 1); [by apply wp_ret, HQ, quiet_refl|].
  destruct (Z.ltb_spec b 129).
  - apply wp_bind, wp_fetch_quiet; [done|apply Hiv; by left|]. intros s' Hs'.
    eapply wp_deref; [apply index_block_ok; lia|by apply HQ].
  - rewrite Z.quot_div_nonneg, Z.rem_mod_nonneg by lia.
    apply wp_bind, wp_fetch_quiet; [done|apply Hiv; by left|]. intros s1 Hs1. apply wp_bind.
    eapply wp_deref; [apply index_block_ok; Z.div_mod_to_equations; lia|].
    apply wp_bind, wp_fetch_quiet; [apply Hs1|apply Hiv; right; by left|]. intros s2 Hs2.
    eapply wp_deref; [apply index_block_ok; Z.div_mod_to_equations; lia|].
    rewrite (q_view _ _ Hs1). apply HQ. by eapply quiet_trans.
Qed.

(** ** Reading *)
Lemma wp_past_end i n pos s (Q : Z -> fs -> Prop) :
  inodes s !! i = Some n -> id_length (i_data n) <= pos -> Q BLOCK_ERROR s ->
  wp (byte_to_sector i pos) Q s.
Proof.
  intros Hn Hpos HQ. apply wp_bind. eapply wp_load_inode; [exact Hn|]. cbn beta zeta.
  destruct (Z.ltb_spec pos (id_length (i_data n))); [lia|]. by apply wp_ret.
Qed.

(** The size of one transfer. *)
Definition chunk (d : inode_disk) (size offset : Z) : Z :=
  let sector_left := SECTOR - Z.rem offset SECTOR in
  let inode_left := id_length d - offset in
  let min_left := if inode_left <? sector_left then inode_left else sector_left in
  if size <? min_left then size else min_left.

Lemma chunk_spec d size offset :
  0 <= offset <= id_length d -> 0 < size ->
  chunk d size offset <= size /\ chunk d size offset <= id_length d - offset /\
  offset mod 512 + chunk d size offset <= 512 /\
  (chunk d size offset <= 0 -> offset = id_length d) /\ 0 <= chunk d size offset.
Proof.
  intros Ho Hs. unfold chunk, SECTOR. rewrite Z.rem_mod_nonneg by lia. cbn zeta.
  pose proof (Z.mod_pos_bound offset 512 eq_refl).
  destruct (Z.ltb_spec (id_length d - offset) (512 - offset mod 512));
    destruct (Z.ltb_spec size (id_length d - offset));
    destruct (Z.ltb_spec size (512 - offset mod 512)); lia.
Qed.

Lemma fbyte_seqZ_app v d offset n m :
  0 <= n -> 0 <= m ->
  (fbyte v d <$> seqZ offset n) ++ (fbyte v d <$> seqZ (offset + n) m) = fbyte v d <$> seqZ offset (n + m).
Proof. intros. by rewrite seqZ_app, fmap_app by lia. Qed.

Lemma wp_read_loop fuel i n size offset acc s (Q : list Z -> fs -> Prop) :
  fs_ok s -> inodes s !! i = Some n -> file_wf (view s) (i_data n) ->
  0 <= offset <= id_length (i_data n) -> Z.max 0 size < Z.of_nat fuel ->
  (forall s', quiet s s' ->
     Q (acc ++ (fbyte (view s) (i_data n) <$>
                seqZ offset (Z.min size (id_length (i_data n) - offset)))) s') ->
  wp (read_loop fuel i size offset acc) Q s.
Proof.
  revert size offset acc s Q. induction fuel as [|fuel IH];
    intros size offset acc s Q Hok Hn Hwf Hoff Hfuel HQ; [simpl in Hfuel; lia|]. simpl.
  destruct (Z.ltb_spec 0 size) as [Hs|Hs].
  2:{ apply wp_ret. rewrite seqZ_nil, app_nil_r in HQ by lia. by apply HQ, quiet_refl. }
  fold (chunk (i_data n) size offset).
  pose proof (chunk_spec (i_data n) size offset Hoff Hs) as (Hc1 & Hc2 & Hc3 & Hc4 & Hc5).
  destruct (Z.eq_dec offset (id_length (i_data n))) as [He|Hne].
  { apply wp_bind. eapply wp_past_end; [exact Hn|lia|].
    apply wp_bind. eapply wp_load_inode; [exact Hn|]. cbn beta zeta.
    fold (chunk (i_data n) size offset). destruct (Z.leb_spec (chunk (i_data n) size offset) 0); [|lia].
    apply wp_ret. rewrite seqZ_nil, app_nil_r in HQ by lia. by apply HQ, quiet_refl. }
  apply wp_bind. eapply wp_byte_to_sector; [done|exact Hn|done|lia|]. intros s1 Hs1.
  assert (Hn1 : inodes s1 !! i = Some n) by (by rewrite (sr_inodes _ _ (q_rest _ _ Hs1))).
  apply wp_bind. eapply wp_load_inode; [exact Hn1|]. cbn beta zeta.
  fold (chunk (i_data n) size offset).
  destruct (Z.leb_spec (chunk (i_data n) size offset) 0); [lia|].
  assert (Hv : valid_sector (bmap (view s) (i_data n) (offset / 512)) = true)
    by (apply (fw_valid _ _ Hwf), block_range; lia).
  apply wp_bind, wp_fetch_quiet; [apply Hs1|exact Hv|]. intros s2 Hs2.
  assert (Hlen := view_length s _ (proj1 Hok) Hv).
  rewrite (q_view _ _ Hs1). unfold SECTOR. rewrite Z.rem_mod_nonneg by lia.
  pose proof (Z.mod_pos_bound offset 512 eq_refl).
  apply wp_bind. eapply wp_deref; [apply memread_ok; unfold SECTOR in Hlen; lia|].
  assert (Hq : quiet s s2) by (by eapply quiet_trans).
  rewrite slice_sector by (done || lia). apply IH.
  - apply Hs2.
  - by rewrite (sr_inodes _ _ (q_rest _ _ Hq)).
  - eapply file_wf_ext; [|exact Hwf]. intros; apply Hq.
  - lia.
  - lia.
  - intros s3 Hs3. rewrite <- app_assoc.
    rewrite (fbyte_list_ext (view s) (view s2)) by apply Hq.
    rewrite fbyte_seqZ_app by lia.
    replace (_ + Z.min _ _) with (Z.min size (id_length (i_data n) - offset)) by lia.
    by apply HQ, (quiet_trans _ s2).
Qed.

(** ** Writing inside the file *)

(** [file_update d off data s s'] : the bytes from [off] of the file [d] become
    [data], nothing else changes. *)
Record file_update (d : inode_disk) (off : Z) (data : list Z) s s' : Prop := {
  fu_ok : fs_ok s';
  fu_rest : same_rest s s';
  fu_frame : forall k, (forall b, 0 <= b < blocks d -> k <> bmap (view s) d b) -> view s' k = view s k;
  fu_bytes : forall k, 0 <= k < id_length d ->
    fbyte (view s') d k =
      if (off <=? k) && (k <? off + Z.of_nat (length data)) then byte_at data (k - off)
      else fbyte (view s) d k;
}.

Lemma file_update_index d off data s s' b k :
  file_wf (view s) d -> file_update d off data s s' -> 0 <= b < blocks d ->
  k ∈ index_path (view s) d b -> view s' k = view s k.
Proof.
  intros Hwf Hu Hb Hk. apply Hu. intros a Ha ->.
  by apply (fw_index _ _ Hwf a b (bmap (view s) d a)).
Qed.

Lemma file_update_wf d off data s s' :
  file_wf (view s) d -> file_update d off data s s' -> file_wf (view s') d.
Proof.
  intros Hwf Hu. eapply file_wf_ext; [|exact Hwf].
  intros b k Hb Hk. by eapply file_update_index.
Qed.

Lemma file_update_bmap d off data s s' b :
  file_wf (view s) d -> file_update d off data s s' -> 0 <= b < blocks d ->
  bmap (view s') d b = bmap (view s) d b.
Proof. intros Hwf Hu Hb. apply bmap_ext. intros k Hk. by eapply file_update_index. Qed.

Lemma file_update_nil d off s : fs_ok s -> file_update d off [] s s.
Proof.
  intros Hok. split; [done..|]. intros k Hk. simpl. zcase.
Qed.

Lemma file_update_app d off data data' s1 s2 s3 :
  file_wf (view s1) d -> 0 <= off -> file_update d off data s1 s2 ->
  file_update d (off + Z.of_nat (length data)) data' s2 s3 ->
  file_update d off (data ++ data') s1 s3.
Proof.
  intros Hwf Hoff H1 H2. split; [apply H2| | |].
  - etransitivity; [apply H1|apply H2].
  - intros k Hk. rewrite (fu_frame _ _ _ _ _ H2); [by apply H1|].
    intros b Hb. erewrite file_update_bmap by done. by apply Hk.
  - intros k Hk. rewrite (fu_bytes _ _ _ _ _ H2), (fu_bytes _ _ _ _ _ H1) by done.
    rewrite length_app, Nat2Z.inj_add.
    zcase; unfold byte_at.
    all: first [by rewrite app_nth1 by lia|rewrite app_nth2 by lia; f_equal; lia].
Qed.

Lemma file_update_quiet d off data s1 s2 s3 :
  quiet s1 s2 -> file_update d off data s2 s3 -> file_update d off data s1 s3.
Proof.
  intros Hq Hu. pose proof (q_view _ _ Hq) as Hv. split; [apply Hu| | |].
  - etransitivity; [apply Hq|apply Hu].
  - intros k Hk. rewrite <- Hv. apply Hu. intros b Hb.
    rewrite (bmap_ext (view s1)) by auto. by apply Hk.
  - intros k Hk. rewrite (fu_bytes _ _ _ _ _ Hu), (fbyte_ext (view s1)) by done. done.
Qed.

Lemma wp_change_data pos b d s (Q : unit -> fs -> Prop) :
  fs_ok s -> file_wf (view s) d -> 0 <= pos < id_length d ->
  pos mod 512 + Z.of_nat (length b) <= 512 ->
  (forall s', file_update d pos b s s' -> Q tt s') ->
  wp (change_block (bmap (view s) d (pos / 512)) (fun c => memcpy c (pos mod 512) b)) Q s.
Proof.
  intros Hok Hwf Hpos Hb HQ. pose proof (block_range _ _ Hpos) as Hr.
  set (sid := bmap (view s) d (pos / 512)).
  assert (Hv : valid_sector sid = true) by by apply (fw_valid _ _ Hwf).
  pose proof (view_length s sid (proj1 Hok) Hv) as Hlen. unfold SECTOR in Hlen.
  pose proof (Z.mod_pos_bound pos 512 eq_refl).
  eapply wp_change_block; [apply Hok|apply io_free_ok, Hok|exact Hv|apply memcpy_ok; lia| |].
  { unfold SECTOR. rewrite length_splice; lia. }
  intros s' Hs. apply HQ.
  assert (Hframe : forall k, k <> sid -> view s' k = view s k).
  { intros k Hk. rewrite (cs_view _ _ _ _ Hs). unfold view_upd.
    destruct (Z.eqb_spec sid k); [congruence|done]. }
  split.
  - split; [apply Hs|]. eapply cache_step_io_free; [apply Hok..|exact Hs].
  - apply Hs.
  - intros k Hk. by apply Hframe, Hk.
  - intros k Hk. pose proof (block_range _ _ Hk) as Hkr. unfold fbyte.
    rewrite (bmap_ext (view s) (view s')).
    2:{ intros j Hj. apply Hframe. intros ->. by apply (fw_index _ _ Hwf (pos / 512) (k / 512) sid). }
    pose proof (Z.mod_pos_bound k 512 eq_refl).
    destruct (decide (bmap (view s) d (k / 512) = sid)) as [He|Hne].
    + pose proof (fw_inj _ _ Hwf _ _ Hkr Hr He) as Hq. rewrite He.
      rewrite (cs_view _ _ _ _ Hs). unfold view_upd. rewrite Z.eqb_refl.
      rewrite byte_at_splice by lia.
      assert (k - pos = k mod 512 - pos mod 512) by (Z.div_mod_to_equations; lia).
      zcase. f_equal. lia.
    + rewrite Hframe by done.
      zcase. destruct Hne. unfold sid. f_equal. Z.div_mod_to_equations. lia.
Qed.

Lemma wp_write_loop fuel i n buffer size offset written s (Q : Z -> fs -> Prop) :
  fs_ok s -> inodes s !! i = Some n -> file_wf (view s) (i_data n) ->
  0 <= offset <= id_length (i_data n) -> 0 <= written -> 0 <= size ->
  written + size <= Z.of_nat (length buffer) -> size < Z.of_nat fuel ->
  (forall s', let m := Z.min size (id_length (i_data n) - offset) in
     file_update (i_data n) offset (slice written m buffer) s s' -> Q (written + m) s') ->
  wp (write_loop fuel i buffer size offset written) Q s.
Proof.
  revert size offset written s Q. induction fuel as [|fuel IH];
    intros size offset written s Q Hok Hn Hwf Hoff Hw Hs0 Hbuf Hfuel HQ; [simpl in Hfuel; lia|].
  simpl. cbn zeta in HQ. destruct (Z.ltb_spec 0 size) as [Hs|Hs].
  2:{ replace size with 0 in * by lia. apply wp_ret.
      rewrite Z.min_l in HQ by lia. rewrite <- (Z.add_0_r written) at 1.
      apply HQ. by apply file_update_nil. }
  pose proof (chunk_spec (i_data n) size offset Hoff Hs) as (Hc1 & Hc2 & Hc3 & Hc4 & Hc5).
  destruct (Z.eq_dec offset (id_length (i_data n))) as [He|Hne].
  { apply wp_bind. eapply wp_past_end; [exact Hn|lia|].
    apply wp_bind. eapply wp_load_inode; [exact Hn|]. cbn beta zeta.
    fold (chunk (i_data n) size offset). destruct (Z.leb_spec (chunk (i_data n) size offset) 0); [|lia].
    apply wp_ret. rewrite Z.min_r in HQ by lia. rewrite He, Z.sub_diag, Z.add_0_r in HQ.
    apply HQ. by apply file_update_nil. }
  apply wp_bind. eapply wp_byte_to_sector; [done|exact Hn|done|lia|]. intros s1 Hs1.
  assert (Hn1 : inodes s1 !! i = Some n) by (by rewrite (sr_inodes _ _ (q_rest _ _ Hs1))).
  apply wp_bind. eapply wp_load_inode; [exact Hn1|]. cbn beta zeta.
  fold (chunk (i_data n) size offset).
  destruct (Z.leb_spec (chunk (i_data n) size offset) 0); [lia|].
  set (ch := chunk (i_data n) size offset) in *.
  apply wp_bind. eapply wp_deref; [apply memread_ok; lia|].
  unfold SECTOR. rewrite Z.rem_mod_nonneg by lia.
  assert (Hwf1 : file_wf (view s1) (i_data n))
    by (eapply file_wf_ext; [|exact Hwf]; intros; apply Hs1).
  rewrite <- (bmap_ext (view s) (view s1)) by (intros; apply Hs1).
  assert (Hlb : Z.of_nat (length (slice written ch buffer)) = ch) by (rewrite length_slice; lia).
  apply wp_bind, wp_change_data; [apply Hs1|done|lia|lia|]. intros s2 Hs2.
  apply IH.
  - apply Hs2.
  - by rewrite (sr_inodes _ _ (fu_rest _ _ _ _ _ Hs2)).
  - by eapply file_update_wf.
  - lia.
  - lia.
  - lia.
  - lia.
  - lia.
  - intros s3 m Hs3. set (m' := Z.min size (id_length (i_data n) - offset)).
    replace (written + ch + m) with (written + m') by lia. apply HQ. fold m'.
    assert (Hu : file_update (i_data n) offset (slice written ch buffer) s s2)
      by by eapply file_update_quiet.
    replace (slice written m' buffer)
      with (slice written ch buffer ++ slice (written + ch) m buffer)
      by (rewrite slice_app by lia; f_equal; lia).
    eapply file_update_app; [done|lia|exact Hu|]. by rewrite Hlb.
Qed.

(** ** [inode_read_at] and [inode_write_at] *)
Lemma fs_ok_held X s :
  (forall h, cache_io h ∈ X -> cache_io h ∈ held s) -> fs_ok s -> fs_ok (set_held X s).
Proof. intros HX. by apply fs_ok_ext. Qed.

Lemma wp_read_inode i n s (Q : unit -> fs -> Prop) :
  inode_io i ∉ held s -> inodes s !! i = Some n ->
  Q tt (set_inodes (<[i := set_iread (i_read_cnt n + 1) n]> (inodes s)) s) -> wp (read_inode i) Q s.
Proof.
  intros Hh Hn HQ. apply wp_locked; [done|]. apply wp_bind. eapply wp_load_inode; [exact Hn|].
  eapply wp_store_inode; [exact Hn|]. split; [done|]. simpl.
  replace (set_held _ _) with (set_inodes (<[i:=set_iread (i_read_cnt n + 1) n]> (inodes s)) s)
    by by destruct s. done.
Qed.

Lemma wp_read_end i n s (Q : unit -> fs -> Prop) :
  inode_io i ∉ held s -> inodes s !! i = Some n ->
  Q tt (set_inodes (<[i := set_iread (i_read_cnt n - 1) n]> (inodes s)) s) -> wp (read_end i) Q s.
Proof.
  intros Hh Hn HQ. apply wp_locked; [done|]. apply wp_bind. eapply wp_load_inode; [exact Hn|].
  apply wp_bind. eapply wp_store_inode; [exact Hn|].
  assert (HQ' : Q tt (set_held (held s) (set_inodes (<[i:=set_iread (i_read_cnt n - 1) n]> (inodes s)) s)))
    by by destruct s.
  apply wp_when; intros _; [apply wp_cond_signal; [set_solver|]|]; by split.
Qed.

Lemma wp_inode_read_at i n size offset s :
  fs_ok s -> inodes s !! i = Some n -> inode_io i ∉ held s ->
  file_wf (view s) (i_data n) -> 0 <= offset ->
  wp (inode_read_at i size offset)
     (fun bytes s' =>
        bytes = slice offset size (content (view s) (i_data n)) /\ quiet s s') s.
Proof.
  intros Hok Hn Hh Hwf Hoff. set (d := i_data n) in *.
  set (n' := set_iread (i_read_cnt n + 1) n). set (s1 := set_inodes (<[i := n']> (inodes s)) s).
  assert (Hok1 : fs_ok s1) by by apply (fs_ok_ext s).
  assert (Hn1 : inodes s1 !! i = Some n') by (simpl; by rewrite lookup_insert_eq).
  assert (Hback : forall s2, quiet s1 s2 ->
    quiet s (set_inodes (<[i := set_iread (i_read_cnt n' - 1) n']> (inodes s2)) s2)).
  { intros s2 [Hq1 Hq2 Hq3]. split; [by apply (fs_ok_ext s2)|intros k; apply Hq2|].
    destruct Hq3 as [H1 H2 H3 H4 H5 H6]. split; simpl; try done. rewrite H4. simpl.
    rewrite insert_insert_eq. apply insert_id. rewrite Hn. f_equal. unfold n', set_iread. destruct n.
    simpl. f_equal. lia. }
  apply wp_bind. eapply wp_read_inode; [done|exact Hn|]. fold n' s1.
  apply wp_bind. eapply wp_load_inode; [exact Hn1|]. change (i_data n') with d.
  destruct (Z.ltb_spec (id_length d) offset).
  - apply wp_bind. eapply wp_read_end; [done|exact Hn1|]. apply wp_ret.
    split; [|by apply Hback, quiet_refl].
    unfold slice. rewrite drop_ge; [by rewrite take_nil|].
    pose proof (length_content (view s) d). lia.
  - apply wp_bind. eapply wp_read_loop; [done|exact Hn1|exact Hwf|change (i_data n') with d; lia|lia|].
    intros s2 Hs2. apply wp_bind.
    eapply wp_read_end; [by rewrite (sr_held _ _ (q_rest _ _ Hs2))|
      rewrite (sr_inodes _ _ (q_rest _ _ Hs2)); exact Hn1|].
    apply wp_ret. split; [|by apply Hback]. simpl. fold d.
    by rewrite slice_content by lia.
Qed.

(** C20: [inode_read_at] is correct and returns.  Reading [size] bytes from [offset]
    of a well-formed file stores exactly the bytes of the file from [offset] to the
    smaller of [offset + size] and the end, across sector and index boundaries;
    nothing is read from beyond the end, and the file system is unchanged (only the
    cache may hold other sectors). *)
Theorem inode_read_at_content i n size offset s :
  fs_ok s -> inodes s !! i = Some n -> inode_io i ∉ held s ->
  file_wf (view s) (i_data n) -> 0 <= offset ->
  wp (inode_read_at i size offset)
     (fun bytes s' =>
        bytes = slice offset size (content (view s) (i_data n)) /\ quiet s s') s.
Proof. apply wp_inode_read_at. Qed.


(** *** Entering and leaving [inode_write_at] *)
Lemma wp_write_inode i n s (Q : unit -> fs -> Prop) :
  inode_io i ∉ held s -> inodes s !! i = Some n -> i_read_cnt n = 0 ->
  Q tt (set_held ({[inode_io i]} ∪ held s) s) -> wp (write_inode i) Q s.
Proof.
  intros Hh Hn Hr HQ. apply wp_bind. unfold holds, wp at 1.
  rewrite bool_decide_eq_false_2 by done. apply wp_bind, wp_assert; [done|].
  apply wp_bind. apply wp_lock_acquire; [done|].
  apply wp_bind. eapply wp_load_inode; [exact Hn|]. rewrite Hr. by apply wp_when.
Qed.

Lemma wp_write_end i s (Q : unit -> fs -> Prop) :
  inode_io i ∈ held s -> Q tt (set_held (held s ∖ {[inode_io i]}) s) -> wp (write_end i) Q s.
Proof.
  intros Hh HQ. apply wp_bind, wp_cond_signal; [done|]. by apply wp_lock_release.
Qed.

(** The writer's lock is taken unless the caller holds it already; either way the
    body runs with it held and the set of held locks is restored. *)
Lemma wp_write_lock {A} i n (body : K A) s (Q : A -> fs -> Prop) :
  inodes s !! i = Some n -> i_read_cnt n = 0 ->
  wp body (fun a s' => held s' = {[inode_io i]} ∪ held s /\ Q a (set_held (held s) s'))
     (set_held ({[inode_io i]} ∪ held s) s) ->
  wp (h ← holds (inode_io i);
      when (negb h) (write_inode i);;
      r ← body;
      when (negb h) (write_end i);; mret r) Q s.
Proof.
  intros Hn Hr H. apply wp_bind. unfold holds, wp at 1. apply wp_bind.
  case_bool_decide as Hh; simpl.
  - replace ({[inode_io i]} ∪ held s) with (held s) in H by set_solver.
    rewrite set_held_id in H. apply wp_when; [done|intros _].
    apply wp_bind. eapply wp_mono; [exact H|]. intros a s' [Hs HQ]; cbn beta in *.
    apply wp_bind, wp_when; [done|intros _]. apply wp_ret. by rewrite <- Hs, set_held_id in HQ.
  - apply wp_when; [intros _|done]. eapply wp_write_inode; [done|exact Hn|done|].
    apply wp_bind. eapply wp_mono; [exact H|]. intros a s' [Hs HQ]; cbn beta in *.
    apply wp_bind, wp_when; [intros _|done]. apply wp_write_end; [set_solver|]. apply wp_ret.
    by replace (held s' ∖ {[inode_io i]}) with (held s) by set_solver.
Qed.

(** What [inode_write_at] does under the lock. *)
Definition write_body i (buffer : list Z) (size offset : Z) : K Z :=
  n ← load_inode i;
  if negb (i_deny_write_cnt n =? 0) then mret 0
  else
    e ← add_int offset size;
    when (id_length (i_data n) <? e) (file_growth i offset size;; mret tt);;
    write_loop (S (Z.to_nat size)) i buffer size offset 0.

Lemma inode_write_at_body i buffer size offset s :
  inode_write_at i buffer size offset s =
  (h ← holds (inode_io i);
   when (negb h) (write_inode i);;
   r ← write_body i buffer size offset;
   when (negb h) (write_end i);; mret r) s.
Proof.
  unfold inode_write_at, write_body, mbind, M_bind, mret, M_ret.
  destruct (holds _ s) as [h s1|]; [|done]. destruct (when _ _ s1) as [[] s2|]; [|done].
  destruct (load_inode i s2) as [n s3|]; [|done]. destruct (negb _) eqn:?; [done|].
  destruct (add_int _ _ s3) as [e s4|]; [|done].
  destruct (when (_ <? _) _ s4) as [[] s5|]; [|done].
  by destruct (write_loop _ _ _ _ _ _ s5).
Qed.

Lemma wp_inode_write_at i n buffer size offset s (Q : Z -> fs -> Prop) :
  inodes s !! i = Some n -> i_read_cnt n = 0 ->
  wp (write_body i buffer size offset)
     (fun r s' => held s' = {[inode_io i]} ∪ held s /\ Q r (set_held (held s) s'))
     (set_held ({[inode_io i]} ∪ held s) s) ->
  wp (inode_write_at i buffer size offset) Q s.
Proof.
  intros Hn Hr H. unfold wp at 1. rewrite inode_write_at_body.
  by apply (wp_write_lock i n (write_body i buffer size offset)).
Qed.

Lemma fs_ok_lock i s : fs_ok s -> fs_ok (set_held ({[inode_io i]} ∪ held s) s).
Proof. apply fs_ok_held. set_solver. Qed.

Lemma file_update_unlock d off data i s s' :
  file_update d off data (set_held ({[inode_io i]} ∪ held s) s) s' ->
  file_update d off data s (set_held (held s) s').
Proof.
  intros [H1 [R1 R2 R3 R4 R5 R6] H3 H4]. split.
  - apply (fs_ok_ext s'); try done. simpl in *. intros h Hh. rewrite R6. set_solver.
  - by split.
  - exact H3.
  - exact H4.
Qed.

Lemma content_update d off data s s' :
  0 <= off -> off + Z.of_nat (length data) <= id_length d -> file_update d off data s s' ->
  content (view s') d = splice off data (content (view s) d).
Proof.
  intros Ho Hl Hu. pose proof (length_content (view s) d). pose proof (length_content (view s') d).
  apply list_byte_eq; [rewrite length_splice; lia|]. intros k Hk.
  rewrite byte_at_splice by lia. unfold content, byte_at at 1 3.
  rewrite !nth_default_lookup, !list_lookup_fmap, !lookup_seqZ_lt by lia. simpl.
  rewrite !Z2Nat.id by lia. by apply Hu; lia.
Qed.

Lemma wp_inode_write_in_place i n buffer size offset s :
  fs_ok s -> inodes s !! i = Some n -> i_read_cnt n = 0 -> i_deny_write_cnt n = 0 ->
  file_wf (view s) (i_data n) -> id_length (i_data n) <= INT_MAX ->
  0 <= offset -> 0 <= size -> offset + size <= id_length (i_data n) ->
  size <= Z.of_nat (length buffer) ->
  wp (inode_write_at i buffer size offset)
     (fun r s' => r = size /\ fs_ok s' /\ same_rest s s' /\ file_wf (view s') (i_data n) /\
        content (view s') (i_data n) =
          splice offset (slice 0 size buffer) (content (view s) (i_data n)) /\
        (forall k, (forall b, 0 <= b < blocks (i_data n) -> k <> bmap (view s) (i_data n) b) ->
           view s' k = view s k)) s.
Proof.
  intros Hok Hn Hr Hd Hwf Hmax Hoff Hs Hend Hbuf.
  eapply wp_inode_write_at; [exact Hn|exact Hr|].
  apply wp_bind. eapply wp_load_inode; [exact Hn|]. rewrite Hd. cbn [negb Z.eqb].
  apply wp_bind, wp_add_int; [unfold INT_MIN; lia|].
  apply wp_bind, wp_when; [intros ?%Z.ltb_lt; lia|intros _].
  eapply wp_write_loop; [by apply fs_ok_lock|exact Hn|exact Hwf|lia|lia|lia|lia|lia|].
  intros s' m Hu. pose proof (file_update_unlock _ _ _ _ _ _ Hu) as Hu'.
  rewrite (sr_held _ _ (fu_rest _ _ _ _ _ Hu)). split; [done|].
  replace m with size in * by lia. split_and!; [done|apply Hu'|apply Hu'| | |].
  - by eapply file_update_wf.
  - eapply content_update; [done| |exact Hu']. rewrite length_slice; lia.
  - apply Hu'.
Qed.

(** C22: [inode_write_at] inside the file.  When nobody reads the inode and writes are
    not denied, writing [size] bytes inside a well-formed file returns [size] and
    replaces exactly these bytes of the file; the file keeps its length and its
    sectors, and no sector outside the file changes. *)
Theorem inode_write_at_in_place i n buffer size offset s :
  fs_ok s -> inodes s !! i = Some n -> i_read_cnt n = 0 -> i_deny_write_cnt n = 0 ->
  file_wf (view s) (i_data n) -> id_length (i_data n) <= INT_MAX ->
  0 <= offset -> 0 <= size -> offset + size <= id_length (i_data n) ->
  size <= Z.of_nat (length buffer) ->
  wp (inode_write_at i buffer size offset)
     (fun r s' => r = size /\ fs_ok s' /\ same_rest s s' /\ file_wf (view s') (i_data n) /\
        content (view s') (i_data n) =
          splice offset (slice 0 size buffer) (content (view s) (i_data n)) /\
        (forall k, (forall b, 0 <= b < blocks (i_data n) -> k <> bmap (view s) (i_data n) b) ->
           view s' k = view s k)) s.
Proof. apply wp_inode_write_in_place. Qed.

(** Denied writes.  While some opener denies writes, [inode_write_at] writes
    nothing, returns 0 and leaves the whole state as it was. *)
Theorem inode_write_at_denied i n buffer size offset s :
  inodes s !! i = Some n -> i_read_cnt n = 0 -> i_deny_write_cnt n <> 0 ->
  wp (inode_write_at i buffer size offset) (fun r s' => r = 0 /\ s' = s) s.
Proof.
  intros Hn Hr Hd. eapply wp_inode_write_at; [exact Hn|exact Hr|].
  apply wp_bind. eapply wp_load_inode; [exact Hn|]. zcase.
  apply wp_ret. split; [done|]. split; [done|]. by destruct s.
Qed.
End data.

(** ** A concrete file of 600 bytes

    Sector 3 holds its first 512 bytes, all 1, and sector 6 the others, all 2; the
    index is in sector 4. *)
Definition two_block_disk : disk :=
  <[3 := replicate 512 1]> (<[6 := replicate 512 2]> (<[4 := le32 6]> ∅)).
Definition two_block_inode (deny : Z) : inode :=
  Inode 5 1 false deny (InodeDisk 600 3 4 0 INODE_MAGIC false [0; 0; 0] 0 []) 0.
Definition two_block_fs (deny : Z) : fs disk bits :=
  set_device two_block_disk (set_inodes {[0%nat := two_block_inode deny]} (fresh_fs 20)).

Lemma two_block_ok deny : fs_ok (two_block_fs deny).
Proof.
  destruct (fresh_idle 20) as (H & Hio & _). split; [|done]. destruct H as [_ H1 H2 H3].
  split; try done. split_and!; by constructor.
Qed.

Lemma two_block_wf deny : file_wf (view (two_block_fs deny)) (i_data (two_block_inode deny)).
Proof.
  set (v := view _). set (d := i_data _).
  assert (Hr : forall b, 0 <= b < blocks d -> b = 0 \/ b = 1).
  { intros b. change (blocks d) with 2. lia. }
  assert (H0 : bmap v d 0 = 3) by reflexivity.
  assert (H1 : bmap v d 1 = 6) by (vm_compute; reflexivity).
  split.
  - done.
  - done.
  - by intros b [-> | ->]%Hr; rewrite ?H0, ?H1.
  - intros b k [-> | ->]%Hr Hk; [by apply elem_of_nil in Hk|].
    apply list_elem_of_singleton in Hk as ->. done.
  - by intros a b [-> | ->]%Hr [-> | ->]%Hr; rewrite ?H0, ?H1.
  - intros a b k [-> | ->]%Hr [-> | ->]%Hr Hk; try by apply elem_of_nil in Hk.
    all: apply list_elem_of_singleton in Hk as ->; rewrite ?H0, ?H1; done.
Qed.

Lemma inode_disk_round_trip_witness :
  inode_disk_of (inode_disk_bytes (blank_inode 600 true)) = blank_inode 600 true.
Proof.
  apply inode_disk_round_trip. unfold words_ok, INT_MAX, INT_MIN, UINT32. simpl.
  unfold INODE_MAGIC. repeat split; lia.
Defined.

Lemma inode_read_at_content_witness :
  wp (inode_read_at 0 200 510)
     (fun bytes s' => bytes = [1; 1] ++ replicate 88 2) (two_block_fs 0).
Proof.
  eapply wp_mono.
  - apply (inode_read_at_content 0 (two_block_inode 0) 200 510 (two_block_fs 0));
      [apply two_block_ok|reflexivity|by apply not_elem_of_empty|apply two_block_wf|lia].
  - intros bytes s' [-> _]. vm_compute. reflexivity.
Defined.

Lemma inode_write_at_in_place_witness :
  wp (inode_write_at 0 [7; 8; 9] 3 511)
     (fun r s' => r = 3 /\
        slice 509 6 (content (view s') (i_data (two_block_inode 0))) = [1; 1; 7; 8; 9; 2])
     (two_block_fs 0).
Proof.
  eapply wp_mono.
  - apply (inode_write_at_in_place 0 (two_block_inode 0) [7; 8; 9] 3 511 (two_block_fs 0));
      [apply two_block_ok|reflexivity|reflexivity|reflexivity|apply two_block_wf
      |unfold INT_MAX; simpl; lia|lia|lia|simpl; lia|simpl; lia].
  - intros r s' (-> & _ & _ & _ & -> & _). split; [reflexivity|]. vm_compute. reflexivity.
Defined.

Lemma inode_write_at_denied_witness :
  wp (inode_write_at 0 [7] 1 0) (fun r s' => r = 0 /\ s' = two_block_fs 1) (two_block_fs 1).
Proof.
  apply (inode_write_at_denied 0 (two_block_inode 1)); [reflexivity|reflexivity|done].
Defined.
