(* ===== verification/InodeGrowth.v ===== *)
(** * InodeGrowth: files that grow ([file_growth] of [filesys/inode.c]).

    Growth that stays below block 129, the range of the single index block: the
    sectors the growth allocates are fresh, the bytes of the file survive, the gap
    reads as zeros, and no other file changes. *)
From S2P Require Import Prelude Bytes State Instances Cache FreeMap Inode InodeData.
From Stdlib Require Import ZArith Lia.
From stdpp Require Import prelude gmap.

Open Scope Z_scope.

Section growth.
Context {D B : Type} {dev : BlockDev D} {bm : Bitmap B} {io : BitmapIO D B} {mem : Memory}.
Context {laws : BlockDevLaws D} {bml : BitmapLaws B} {X : list Z} {iol : BitmapIOLaws D B X}.
Abbreviation fs := (fs D B).
Abbreviation K := (M fs).
Implicit Types (s : fs) (i : nat).

(** ** Storing into an entry that is held for writing *)

(** What [store_cache (h, set_data d); end_write (h)] does. *)
Record stored h (sid : Z) (d : list Z) s s' : Prop := {
  st_inv : cache_inv s';
  st_view : forall k, view s' k = view_upd (view s) sid d k;
  st_rest : same_rest (set_held (held s ∖ {[cache_io h]}) s) s';
  st_ids : c_id <$> cache_list s' = c_id <$> cache_list s;
  st_sids : c_sid <$> cache_list s' = c_sid <$> cache_list s;
  st_used : used_cache s' = used_cache s;
  st_next : next_cache s' = next_cache s;
}.

Lemma wp_store_end h c d s (Q : unit -> fs -> Prop) :
  cache_inv s -> find_id h (cache_list s) = Some c -> c_DB c = true ->
  cache_io h ∈ held s -> Z.of_nat (length d) = SECTOR ->
  (forall s', stored h (c_sid c) d s s' -> Q tt s') ->
  wp (store_cache h (set_data d)) (fun _ => wp (end_write h) Q) s.
Proof.
  intros [Hok Hfr Hh Hu] Hc HDB Hheld Hd HQ.
  pose proof Hc as (<- & l1 & l2 & Hl)%find_id_split.
  assert (Hnd : NoDup (c_id <$> l1 ++ c :: l2)) by (rewrite <- Hl; apply Hok).
  assert (Hce : entry_ok (fs_device s) c).
  { destruct Hok as (_ & _ & Hok). rewrite Hl, Forall_app, Forall_cons in Hok. apply Hok. }
  destruct Hce as (Hv1 & _ & Hrc & _).
  eapply wp_store_cache; [exact Hc|]. rewrite Hl, (proj1 (update_id_at _ l1 l2 c Hnd)).
  set (c' := set_data d c).
  destruct (entries_ok_replace (fs_device s) l1 l2 c c') as [Hok' Hv'];
    [by rewrite <- Hl|done|done| |].
  { split_and!; [done..|]. simpl. congruence. }
  apply wp_bind. eapply wp_load_cache; [apply (find_id_at l1 l2 c'), Hok'|].
  apply wp_bind, wp_cond_signal; [done|]. apply wp_lock_release; [done|]. apply HQ.
  assert (Hids : forall {A} (p : cache -> A), p c' = p c ->
    p <$> l1 ++ c' :: l2 = p <$> cache_list s)
    by (intros A p Hp; by rewrite Hl, !fmap_app, !fmap_cons, Hp).
  split; simpl.
  - split; simpl; [done| | |].
    + intros i. rewrite Hids by done. apply Hfr.
    + intros i Hi. apply Hh. set_solver.
    + rewrite Hl in Hu. rewrite length_app in *. simpl in *. lia.
  - intros k. unfold view. simpl. rewrite Hv'. simpl. unfold view_upd.
    destruct (Z.eqb_spec (c_sid c) k); [done|]. by rewrite <- Hl.
  - by split.
  - by apply Hids.
  - by apply Hids.
  - done.
  - done.
Qed.

(** ** What a growing file may touch

    [W] is the set of sectors the growth may write: those free at the start, those
    of the file itself and the sectors [X] of the free map file.  [v0] is the
    contents of the device at the start. *)
Variables (f : file) (W : Z -> Prop) (v0 : Z -> list Z) (s0 : fs).

Record base s : Prop := {
  ba_ok : fs_ok s;
  ba_file : free_map_file s = Some f;
  ba_size : bitmap_size (free_map s) = dev_sectors;
  ba_area : forall k, k ∈ X -> in_use s k = true;
  ba_frame : forall k, (~ W k) -> view s k = v0 k;
  ba_free : forall k, valid_sector k = true -> in_use s k = false -> W k;
  ba_open : open_inodes s = open_inodes s0;
  ba_next : next_inode s = next_inode s0;
  ba_held : held s = held s0;
}.

(** Sector [k] belongs to the growing file. *)
Definition owned s k : Prop :=
  valid_sector k = true /\ in_use s k = true /\ (k ∉ X) /\ W k.

(** [gstep v' m a s s'] : the contents outside the free map file become [v'], at
    most [m] entries of the cache and [a] free sectors are taken. *)
Record gstep (v' : Z -> list Z) (m : Z) (a : nat) s s' : Prop := {
  gs_base : base s';
  gs_view : forall k, k ∉ X -> view s' k = v' k;
  gs_used : forall k, valid_sector k = true -> in_use s k = true -> in_use s' k = true;
  gs_inodes : inodes s' = inodes s;
  gs_room : forall r, 0 <= r -> room X (r + m) s -> room X r s';
  gs_count : (free_count (free_map s) <= free_count (free_map s') + a)%nat;
}.

Lemma owned_step v m a s s' k : gstep v m a s s' -> owned s k -> owned s' k.
Proof. intros Hs (Hv & Hu & HX & HW). split_and!; try done. by eapply gs_used. Qed.

Lemma base_inodes m s : base s -> base (set_inodes m s).
Proof. intros []. split; try done. by apply (fs_ok_ext s). Qed.

Lemma valid_spec k : valid_sector k = true <-> 0 <= k < dev_sectors.
Proof.
  unfold valid_sector. rewrite andb_true_iff, Z.leb_le, Z.ltb_lt. done.
Qed.

Hypothesis HXW : forall k, k ∈ X -> W k.
Hypothesis Hdev : dev_sectors <= UINT32.

(** Allocating one sector, in a state whose map of the free sectors is as in [s]. *)
Lemma alloc_used s n s' :
  bitmap_size (free_map s) = dev_sectors -> allocated 1 s (Some n) s' ->
  valid_sector n = true /\ in_use s n = false /\ in_use s' n = true /\
  bitmap_size (free_map s') = dev_sectors /\
  (forall k, valid_sector k = true -> in_use s k = true -> in_use s' k = true) /\
  (forall k, valid_sector k = true -> in_use s' k = false -> in_use s k = false).
Proof.
  intros Hsz (Hs & Hn & Hn' & Hfree & Hu). rewrite Hsz in *.
  assert (Hr : 0 <= n < dev_sectors) by lia.
  split_and!; [by apply valid_spec|apply Hfree; lia| |done| |].
  - rewrite Hu by done. zcase.
  - intros k Hk%valid_spec Hk'. rewrite Hu, Hk' by done. by rewrite orb_true_r.
  - intros k Hk%valid_spec Hk'. rewrite Hu in Hk' by done. by apply orb_false_iff in Hk' as [_ Hk'].
Qed.

Lemma wp_allocate_fresh s (Q : option Z -> fs -> Prop) :
  base s -> room X 0 s -> (0 < free_count (free_map s))%nat ->
  (forall n s', gstep (view s) 0 1 s s' -> in_use s n = false -> owned s' n -> Q (Some n) s') ->
  wp (free_map_allocate 1) Q s.
Proof.
  intros [Hok Hf Hsz HX Hfr Hfree Ho Hnx Hh] Hroom Hc HQ.
  eapply wp_allocate_one; [apply Hok|exact Hf|exact Hroom|intros k _; apply io_free_ok, Hok|done|].
  intros n s' Ha Hw. pose proof (free_count_allocated _ _ _ Ha) as Hcnt.
  destruct (alloc_used s n s' Hsz Ha) as (Hv & Hn0 & Hn1 & Hsz' & Hmono & Hmono').
  destruct Hw as [Hinv Hvw Hrest Hids Hnext Hrm Hon Hk].
  destruct Hrest as [R1 R2 R3 R4 R5 R6]. simpl in *.
  assert (HnX : n ∉ X) by (intros Hin; apply HX in Hin; congruence).
  apply HQ; [|done|split_and!; try done; by apply Hfree].
  split; [split| | | | |].
  - split; [done|]. intros h Hin. rewrite R6. apply Hids in Hin as [Hin|Hin].
    + by apply Hok.
    + intros Hin'. apply (ci_held _ (proj1 Hok)) in Hin'. lia.
  - congruence.
  - done.
  - intros k Hk'. destruct (Forall_forall (fun k => valid_sector k = true) X) as [Hval _].
    apply Hmono; [by apply Hval; [apply area_valid|]|by apply HX].
  - intros k Hk'. rewrite Hvw; [by apply Hfr|]. auto.
  - intros k Hk1 Hk2. apply Hfree; auto.
  - congruence.
  - congruence.
  - congruence.
  - intros k Hk'. by apply Hvw.
  - done.
  - done.
  - intros r Hr Hrr. apply Hrm; [done|]. by rewrite Z.add_0_r in Hrr.
  - lia.
Qed.

Lemma cached_ext s s' k :
  c_sid <$> cache_list s' = c_sid <$> cache_list s -> cached s' k <-> cached s k.
Proof. unfold cached. by intros ->. Qed.

Lemma room_ext r s s' :
  used_cache s' = used_cache s -> c_sid <$> cache_list s' = c_sid <$> cache_list s ->
  room X r s -> room X r s'.
Proof.
  unfold room. intros -> Hs H.
  assert (length (filter (fun k => ~ cached s' k) X) <= length (filter (fun k => ~ cached s k) X))%nat;
    [|lia].
  apply filter_len_le. intros k _ Hk Hk'. apply Hk. by apply (cached_ext s s').
Qed.

Lemma cache_step_gstep v' sid s s' :
  base s -> owned s sid -> cache_step v' sid s s' -> (forall k, k <> sid -> v' k = view s k) ->
  gstep v' 1 0 s s'.
Proof.
  intros [Hok Hf Hsz HX Hfr Hfree Ho Hnx Hh] (Hv & Hu & HnX & HW) Hs Hv'.
  pose proof (cs_rest _ _ _ _ Hs) as [R1 R2 R3 R4 R5 R6].
  assert (Hus : forall k, in_use s' k = in_use s k) by (intros; unfold in_use; by rewrite R1).
  split.
  - split; try congruence.
    + split; [apply Hs|]. eapply cache_step_io_free; [apply Hok..|exact Hs].
    + intros k Hk. rewrite Hus. auto.
    + intros k Hk. rewrite (cs_view _ _ _ _ Hs), Hv'; [by apply Hfr|]. by intros ->.
    + intros k. rewrite Hus. apply Hfree.
  - intros k _. apply Hs.
  - intros k _. by rewrite Hus.
  - done.
  - intros r Hr Hrm. eapply room_step; [apply Hok|exact Hs|done|exact Hrm].
  - rewrite R1. lia.
Qed.

Lemma wp_change_owned sid g d s (Q : unit -> fs -> Prop) :
  base s -> owned s sid -> g (view s sid) = Some d -> Z.of_nat (length d) = SECTOR ->
  (forall s', gstep (view_upd (view s) sid d) 1 0 s s' -> Q tt s') ->
  wp (change_block sid g) Q s.
Proof.
  intros Hb Ho Hg Hd HQ. pose proof (ba_ok _ Hb) as Hok.
  eapply wp_change_block; [apply Hok|apply io_free_ok, Hok|apply Ho|exact Hg|done|].
  intros s' Hs. apply HQ. apply (cache_step_gstep _ sid); [done..|].
  intros k Hk. unfold view_upd. zcase.
Qed.

Lemma wp_fetch_owned sid s (Q : list Z -> fs -> Prop) :
  base s -> owned s sid -> (forall s', gstep (view s) 1 0 s s' -> Q (view s sid) s') ->
  wp (fetch_block sid) Q s.
Proof.
  intros Hb Ho HQ. pose proof (ba_ok _ Hb) as Hok.
  apply wp_fetch_block; [apply Hok|apply io_free_ok, Hok|apply Ho|].
  intros s' Hs. apply HQ. by apply (cache_step_gstep _ sid).
Qed.

(** [allocate_in_index] stores a fresh sector into word [k] of the index block. *)
Lemma wp_allocate_in_index ind k s (Q : Z -> fs -> Prop) :
  base s -> owned s ind -> 0 <= k < 128 -> room X 1 s -> (0 < free_count (free_map s))%nat ->
  (forall n s', gstep (view_upd (view s) ind (set_word (view s ind) k n)) 1 1 s s' ->
     in_use s n = false -> owned s' n -> Q n s') ->
  wp (allocate_in_index ind k) Q s.
Proof.
  intros [Hok Hf Hsz HX Hfr Hfree Ho Hnx Hh] (Hv & Hu & HnX & HW) Hk Hroom Hcnt HQ.
  assert (Hlen := view_length s ind (proj1 Hok) Hv).
  apply wp_bind. apply wp_cache_block; [apply Hok|apply io_free_ok, Hok|done|].
  intros h c s1 Hs Hc Hsid Hnio HDB. specialize (HDB eq_refl).
  pose proof (cs_rest _ _ _ _ Hs) as [R1 R2 R3 R4 R5 R6].
  assert (Hinv1 := cs_inv _ _ _ _ Hs).
  assert (Hio1 := cache_step_io_free _ _ _ _ (proj1 Hok) (proj2 Hok) Hs).
  assert (Hroom1 : forall r, 0 <= r -> room X (r + 1) s -> room X r s1)
    by (intros; eapply room_step; [apply Hok|exact Hs|done..]).
  pose proof Hc as (Hin & Hid)%find_id_Some.
  assert (Hdata : c_data c = view s ind).
  { rewrite <- (cs_view _ _ _ _ Hs), <- Hsid. unfold view. symmetry.
    apply lview_elem; [apply Hinv1|done]. }
  assert (Hce : entry_ok (fs_device s1) c).
  { destruct Hinv1 as [(_ & _ & H) _ _ _]. rewrite Forall_forall in H. auto. }
  destruct Hce as (_ & _ & Hrc & _).
  apply wp_bind, wp_bind, wp_lock_acquire; [done|].
  apply wp_bind. eapply wp_load_cache; [exact Hc|]. rewrite Hrc.
  apply wp_when; [done|intros _]. apply wp_bind. eapply wp_load_cache; [exact Hc|].
  apply wp_bind. eapply wp_deref; [by apply index_block_ok|].
  apply wp_bind, wp_bind. set (sL := set_held _ s1).
  assert (HinvL : cache_inv sL).
  { apply inv_set_held; [done|]. intros j [Heq%elem_of_singleton|Hj]%elem_of_union.
    - injection Heq as ->. apply (ci_fresh _ Hinv1). rewrite <- Hid.
      by apply (list_elem_of_fmap_2 c_id).
    - by apply (ci_held _ Hinv1). }
  assert (Hu1 : forall j, in_use sL j = in_use s j) by (intros; unfold in_use; simpl; by rewrite R1).
  eapply (wp_allocate_one (X := X) sL f); [done|simpl; congruence|by apply (Hroom1 0)| |by simpl; rewrite R1|].
  { intros j Hj c' Hc' Hs'. simpl. intros [Heq%elem_of_singleton|Hin']%elem_of_union.
    - injection Heq as Heq. pose proof (find_id_elem _ _ (proj1 (ci_entries _ Hinv1)) Hc') as Hf'.
      rewrite Heq, Hc in Hf'. injection Hf' as <-. apply HnX. by rewrite <- Hsid, Hs'.
    - revert Hin'. apply Hio1. by apply (list_elem_of_fmap_2 c_id). }
  intros n s2 Ha Hw. apply wp_ret. cbn [default from_option].
  pose proof (free_count_allocated _ _ _ Ha) as Hcnt2. simpl in Hcnt2. rewrite R1 in Hcnt2.
  destruct (alloc_used sL n s2) as (Hvn & Hn0 & Hn1 & Hsz2 & Hm & Hm'); [simpl; congruence|done|].
  rewrite Hu1 in Hn0. destruct Hw as [Hinv2 Hvw Hrest Hids Hnext Hrm Hon Hkeep].
  destruct Hrest as [S1 S2 S3 S4 S5 S6]. simpl in *.
  specialize (Hkeep h c Hc). rewrite Hsid in Hkeep. specialize (Hkeep HnX).
  set (idx := set_word (c_data c) k n).
  assert (Hidx : Z.of_nat (length idx) = SECTOR).
  { unfold idx, SECTOR in *. rewrite length_set_word; rewrite ?Hdata; lia. }
  apply wp_bind. eapply wp_mono.
  { eapply (wp_store_end h c idx s2 (fun _ s' => Q n s')); [done|exact Hkeep|done|
      rewrite S6; set_solver|exact Hidx|].
    intros s3 [T1 T2 [U1 U2 U3 U4 U5 U6] T4 T5 T6 T7]. simpl in *.
    assert (HnX' : n ∉ X) by (intros Hj; apply HX in Hj; congruence).
    assert (Hheld3 : held s3 = held s) by (rewrite U6, S6, <- R6; set_solver).
    assert (Hu3 : forall j, in_use s3 j = in_use s2 j) by (intros; unfold in_use; by rewrite U1).
    assert (Hv3 : forall j, j ∉ X -> view s3 j = view_upd (view s) ind (set_word (view s ind) k n) j).
    { intros j Hj. rewrite T2, Hsid. unfold view_upd, idx. rewrite Hdata.
      destruct (Z.eqb_spec ind j); [done|]. rewrite Hvw by done. apply Hs. }
    assert (Hfree2 : forall j, valid_sector j = true -> in_use s3 j = false -> W j).
    { intros j Hj Hj'. rewrite Hu3 in Hj'. apply Hfree; [done|]. rewrite <- Hu1. by apply Hm'. }
    apply HQ; [|done|split_and!; [done|by rewrite Hu3|done|by apply Hfree]].
    split.
    - split; try congruence.
      + split; [done|]. intros j Hj. rewrite Hheld3, <- R6. rewrite T4 in Hj.
        apply Hids in Hj as [Hj|Hj]; [by apply Hio1|].
        intros Hin'. apply (ci_held _ Hinv1) in Hin'. lia.
      + intros j Hj. rewrite Hu3. apply Hm; [|rewrite Hu1; by apply HX].
        pose proof area_valid as Hav. rewrite Forall_forall in Hav. by apply Hav.
      + intros j Hj. rewrite Hv3 by auto. unfold view_upd.
        destruct (Z.eqb_spec ind j) as [->|]; [done|]. by apply Hfr.
      + done.
    - done.
    - intros j Hj Hj'. rewrite Hu3. apply Hm; [done|]. by rewrite Hu1.
    - congruence.
    - intros r Hr Hrr. apply (room_ext r s2); [done|done|]. apply Hrm; [done|].
      by apply (Hroom1 r).
    - rewrite U1. lia. }
  intros [] s3 H; cbn beta in *. apply wp_bind. eapply wp_mono; [exact H|].
  intros [] s4 H4; cbn beta in *. by apply wp_ret.
Qed.


(** ** Blocks of the growing file *)

(** The first [c] blocks of the file [d], at most 129, are distinct sectors of its
    own; the index block is another one, as soon as there are two blocks. *)
Record gmap s (d : inode_disk) (c : Z) : Prop := {
  gm_owned : forall b, 0 <= b < c -> owned s (bmap (view s) d b);
  gm_inj : forall a b, 0 <= a < c -> 0 <= b < c ->
    bmap (view s) d a = bmap (view s) d b -> a = b;
}.
Record gind s (d : inode_disk) (c : Z) : Prop := {
  gi_owned : owned s (id_ind d);
  gi_ne : forall b, 0 <= b < c -> bmap (view s) d b <> id_ind d;
}.

Lemma gstep_trans m a m' a' s1 s2 s3 :
  0 <= m' -> gstep (view s2) m a s1 s2 -> gstep (view s3) m' a' s2 s3 ->
  gstep (view s3) (m + m') (a + a') s1 s3.
Proof.
  intros Hm' [H1 H2 H3 H4 H5 H6] [G1 G2 G3 G4 G5 G6]. split; try done; auto.
  - congruence.
  - intros r Hr Hrm. apply G5; [done|]. apply H5; [lia|]. by replace (r + m' + m) with (r + (m + m')) by lia.
  - lia.
Qed.

Lemma gstep_weaken v m a s s' : gstep v m a s s' -> gstep (view s') m a s s'.
Proof. intros []. by split. Qed.

Lemma gstep_refl s : base s -> gstep (view s) 0 0 s s.
Proof. intros H. split; try done; [intros r _; by rewrite Z.add_0_r|lia]. Qed.

Lemma gstep_more m a m' a' s s' :
  m <= m' -> (a <= a')%nat -> gstep (view s') m a s s' -> gstep (view s') m' a' s s'.
Proof.
  intros Hm Ha [H1 H2 H3 H4 H5 H6]. split; try done; auto.
  - intros r Hr Hrm. apply H5; [done|]. eapply room_mono; [|exact Hrm]. lia.
  - lia.
Qed.

Lemma bmap_small v v' d b :
  b < 129 -> (1 <= b -> v' (id_ind d) = v (id_ind d)) -> bmap v' d b = bmap v d b.
Proof. intros Hb H. unfold bmap. zcase. by rewrite H. Qed.

Lemma gfile_step v' m a s s' d c :
  c <= 129 -> gmap s d c -> (c <= 1 \/ gind s d c) -> gstep v' m a s s' ->
  (1 < c -> v' (id_ind d) = view s (id_ind d)) ->
  (forall b, 0 <= b < c -> bmap (view s') d b = bmap (view s) d b) /\
  gmap s' d c /\ (c <= 1 \/ gind s' d c) /\
  (forall k, 0 <= k < 512 * c ->
     fbyte (view s') d k = byte_at (v' (bmap (view s) d (k / 512))) (k mod 512)).
Proof.
  intros Hc [Ho Hi] Hg Hs Hind.
  assert (Hb : forall b, 0 <= b < c -> bmap (view s') d b = bmap (view s) d b).
  { intros b Hb. apply bmap_small; [lia|]. intros Hb1. destruct Hg as [Hg|[(_ & _ & HX & _) _]]; [lia|].
    rewrite (gs_view _ _ _ _ _ Hs) by done. apply Hind. lia. }
  split_and!; [done| | |].
  - split.
    + intros b Hb'. rewrite Hb by done. eapply owned_step; [exact Hs|auto].
    + intros x y Hx Hy. rewrite !Hb by done. auto.
  - destruct Hg as [Hg|[G1 G2]]; [by left|right]. split; [by eapply owned_step|].
    intros b Hb'. rewrite Hb by done. auto.
  - intros k Hk. assert (Hr : 0 <= k / 512 < c) by (Z.div_mod_to_equations; lia).
    unfold fbyte. rewrite Hb by done. rewrite (gs_view _ _ _ _ _ Hs); [done|]. by apply Ho.
Qed.

(** A sector of the file is overwritten. *)
Lemma wp_change_file g data s d c b (Q : unit -> fs -> Prop) :
  base s -> c <= 129 -> gmap s d c -> (c <= 1 \/ gind s d c) -> 0 <= b < c ->
  g (view s (bmap (view s) d b)) = Some data -> Z.of_nat (length data) = SECTOR ->
  (forall s', gstep (view s') 1 0 s s' -> gmap s' d c -> (c <= 1 \/ gind s' d c) ->
     (forall k, 0 <= k < 512 * c ->
        fbyte (view s') d k = if k / 512 =? b then byte_at data (k mod 512) else fbyte (view s) d k) ->
     Q tt s') ->
  wp (change_block (bmap (view s) d b) g) Q s.
Proof.
  intros Hb Hc Hm Hg Hr Hd Hlen HQ. eapply wp_change_owned; [done|by apply Hm|exact Hd|done|].
  intros s' Hs. destruct (gfile_step _ _ _ _ _ _ _ Hc Hm Hg Hs) as (H1 & H2 & H3 & H4).
  { intros Hc1. destruct Hg as [|Hg]; [lia|]. unfold view_upd.
    destruct (Z.eqb_spec (bmap (view s) d b) (id_ind d)) as [He|]; [|done].
    by destruct (gi_ne _ _ _ Hg b Hr). }
  apply HQ; [by eapply gstep_weaken|done..|]. intros k Hk. rewrite H4 by done. unfold view_upd.
  assert (Hk' : 0 <= k / 512 < c) by (Z.div_mod_to_equations; lia).
  destruct (Z.eqb_spec (bmap (view s) d b) (bmap (view s) d (k / 512))) as [He|Hne].
  - apply Hm in He; [|done..]. by rewrite He, Z.eqb_refl.
  - destruct (Z.eqb_spec (k / 512) b) as [He|]; [by rewrite He in Hne|done].
Qed.

(** The bytes of a block from [start] on are cleared. *)
Lemma wp_clear_from start n s d c b (Q : unit -> fs -> Prop) :
  base s -> c <= 129 -> gmap s d c -> (c <= 1 \/ gind s d c) -> 0 <= b < c ->
  0 <= start -> 0 <= n -> start + n = 512 ->
  (forall s', gstep (view s') 1 0 s s' -> gmap s' d c -> (c <= 1 \/ gind s' d c) ->
     (forall k, 0 <= k < 512 * c ->
        fbyte (view s') d k =
          if (k / 512 =? b) && (start <=? k mod 512) then 0 else fbyte (view s) d k) ->
     Q tt s') ->
  wp (change_block (bmap (view s) d b) (fun x => memset x start 0 n)) Q s.
Proof.
  intros Hb Hc Hm Hg Hr Hs0 Hn0 Hsn HQ.
  assert (Hv : valid_sector (bmap (view s) d b) = true) by by apply Hm.
  pose proof (view_length s _ (proj1 (ba_ok _ Hb)) Hv) as Hlen. unfold SECTOR in Hlen.
  destruct (memset_ok (view s (bmap (view s) d b)) start 0 n) as (x & Hx & Hxl & Hxb);
    [lia|lia|lia|unfold UINT32; lia|].
  eapply wp_change_file; [done..|exact Hx|unfold SECTOR; lia|]. intros s' H1 H2 H3 H4.
  apply HQ; [done..|]. intros k Hk. rewrite H4 by done.
  pose proof (Z.mod_pos_bound k 512 eq_refl). rewrite Hxb by lia.
  zcase; unfold fbyte; subst; done.
Qed.


(** A fresh, cleared block is appended to the file. *)
Lemma wp_new_block s d c (Q : unit -> fs -> Prop) :
  base s -> 1 <= c < 129 -> gmap s d c -> gind s d c -> room X 2 s ->
  (0 < free_count (free_map s))%nat ->
  (forall s', gstep (view s') 2 1 s s' -> gmap s' d (c + 1) -> gind s' d (c + 1) ->
     (forall k, 0 <= k < 512 * (c + 1) ->
        fbyte (view s') d k = if k <? 512 * c then fbyte (view s) d k else 0) -> Q tt s') ->
  wp (b ← allocate_in_index (id_ind d) (c - 1); clear_block b) Q s.
Proof.
  intros Hb Hc Hm Hg Hroom Hcnt HQ. pose proof Hg as [Hgo Hgn].
  apply wp_bind. apply wp_allocate_in_index; [done|done|lia|by apply (room_mono X 2)|done|].
  intros n s1 Hs1 Hn0 Hn1. pose proof Hn1 as (Hnv & Hnu & HnX & _).
  pose proof (owned_step _ _ _ _ _ _ Hs1 Hgo) as Hgo1.
  assert (Hlen := view_length s _ (proj1 (ba_ok _ Hb)) (proj1 Hgo)). unfold SECTOR in Hlen.
  assert (Hind1 : view s1 (id_ind d) = set_word (view s (id_ind d)) (c - 1) n).
  { rewrite (gs_view _ _ _ _ _ Hs1) by apply Hgo. unfold view_upd. by rewrite Z.eqb_refl. }
  assert (Hnew : bmap (view s1) d c = n).
  { unfold bmap. zcase. rewrite Hind1, word_at_set_word by lia. apply u32_small.
    apply valid_spec in Hnv. lia. }
  assert (Hold : forall b, 0 <= b < c -> bmap (view s1) d b = bmap (view s) d b).
  { intros b Hb'. unfold bmap. zcase. rewrite Hind1, word_at_set_word_ne by lia. done. }
  assert (Hne : forall k, owned s k -> k <> n) by (intros k (_ & Hu & _) ->; congruence).
  assert (Hm1 : gmap s1 d (c + 1)).
  { split.
    - intros b Hb'. destruct (decide (b = c)) as [->|]; [by rewrite Hnew|].
      rewrite Hold by lia. eapply owned_step; [exact Hs1|]. apply Hm. lia.
    - assert (Hlt : forall a, 0 <= a < c -> bmap (view s1) d a <> n).
      { intros a Ha. rewrite Hold by done. by apply Hne, Hm. }
      intros a b Ha Hb' He. destruct (decide (a = c)) as [->|], (decide (b = c)) as [->|]; [done| | |].
      + rewrite Hnew in He. by destruct (Hlt b ltac:(lia)).
      + rewrite Hnew in He. by destruct (Hlt a ltac:(lia)).
      + rewrite !Hold in He by lia. apply Hm in He; [done|lia..]. }
  assert (Hg1 : gind s1 d (c + 1)).
  { split; [done|]. intros b Hb'. destruct (decide (b = c)) as [->|].
    - rewrite Hnew. intros ->. by apply (Hne (id_ind d)).
    - rewrite Hold by lia. apply Hgn. lia. }
  unfold clear_block. rewrite <- Hnew at 1.
  apply (wp_clear_from 0 512 s1 d (c + 1) c); [apply Hs1|lia|done|by right|lia|lia|lia|lia|].
  intros s2 H1 H2 H3 H4. apply HQ; [|done|by destruct H3; [lia|]|].
  - apply (gstep_trans 1 1 1 0 s s1); [lia|by eapply gstep_weaken|done].
  - intros k Hk. rewrite H4 by done. pose proof (Z.mod_pos_bound k 512 eq_refl).
    assert (k / 512 = c <-> 512 * c <= k) by (Z.div_mod_to_equations; lia).
    zcase. unfold fbyte. assert (0 <= k / 512 < c) by (Z.div_mod_to_equations; lia).
    rewrite Hold by done. rewrite (gs_view _ _ _ _ _ Hs1) by (by apply Hm). unfold view_upd.
    zcase. by destruct (Hgn (k / 512)).
Qed.

Lemma wp_single_loop s d c n (Q : unit -> fs -> Prop) :
  base s -> 1 <= c -> c + Z.of_nat n <= 129 -> gmap s d c -> gind s d c ->
  room X (2 * Z.of_nat n) s -> (n <= free_count (free_map s))%nat ->
  (forall s', gstep (view s') (2 * Z.of_nat n) n s s' -> gmap s' d (c + Z.of_nat n) ->
     gind s' d (c + Z.of_nat n) ->
     (forall k, 0 <= k < 512 * (c + Z.of_nat n) ->
        fbyte (view s') d k = if k <? 512 * c then fbyte (view s) d k else 0) -> Q tt s') ->
  wp (growth_single_loop (id_ind d) c (Z.of_nat n)) Q s.
Proof.
  intros Hb Hc Hcn Hm Hg Hroom Hcnt HQ. unfold growth_single_loop. rewrite Nat2Z.id.
  apply (wp_for_up (fun j s' => gstep (view s') (2 * j) (Z.to_nat j) s s' /\ gmap s' d (c + j) /\
    gind s' d (c + j) /\ (forall k, 0 <= k < 512 * (c + j) ->
        fbyte (view s') d k = if k <? 512 * c then fbyte (view s) d k else 0))).
  - rewrite Z.add_0_r. split_and!; [by apply gstep_refl|done|done|]. intros k Hk. zcase.
  - intros j s1 Hj (H1 & H2 & H3 & H4).
    replace (c + j - 1) with ((c + j) - 1) by lia.
    apply wp_new_block; [apply H1|lia|done|done| | |].
    + apply (gs_room _ _ _ _ _ H1); [lia|]. eapply room_mono; [|exact Hroom]. lia.
    + pose proof (gs_count _ _ _ _ _ H1). lia.
    + intros s2 G1 G2 G3 G4. rewrite Z.add_assoc. split_and!; [|done|done|].
      * replace (2 * (j + 1)) with (2 * j + 2) by lia.
        replace (Z.to_nat (j + 1)) with (Z.to_nat j + 1)%nat by lia.
        by apply (gstep_trans _ _ _ _ s s1).
      * intros k Hk. rewrite G4 by lia.
        destruct (Z.ltb_spec k (512 * (c + j))); [apply H4; lia|zcase].
  - intros s1 (H1 & H2 & H3 & H4). rewrite Z.add_0_l in *. rewrite Nat2Z.id in H1. by apply HQ.
Qed.


(** ** The phases of [file_growth] *)
Lemma gmap_inodes m s d c : gmap s d c -> gmap (set_inodes m s) d c.
Proof. intros [H1 H2]. split; [exact H1|exact H2]. Qed.
Lemma gind_inodes m s d c : gind s d c -> gind (set_inodes m s) d c.
Proof. intros [H1 H2]. split; [exact H1|exact H2]. Qed.

(** The file [d], stored in the inode [n] at [i], as far as its [c] blocks. *)
Record growing i (n : inode) d c s : Prop := {
  gr_base : base s;
  gr_inode : inodes s !! i = Some n;
  gr_data : i_data n = d;
  gr_map : gmap s d c;
  gr_ind : c <= 1 \/ gind s d c;
}.

Lemma growing_step i n d c c' m a s s' :
  growing i n d c s -> gstep (view s') m a s s' -> gmap s' d c' -> (c' <= 1 \/ gind s' d c') ->
  growing i n d c' s'.
Proof.
  intros [H1 H2 H3 H4 H5] Hs Hm Hg. split; [apply Hs| |done..].
  by rewrite (gs_inodes _ _ _ _ _ Hs).
Qed.

(** Growth by whole sectors, with the index block in place. *)
Lemma wp_growth_single i n d L blk s (Q : unit -> fs -> Prop) :
  growing i n d ((L + 511) / 512) s -> gind s d ((L + 511) / 512) ->
  512 <= L -> L / 512 - 1 <= blk < 129 -> (L mod 512 = 0 \/ L / 512 < blk) ->
  room X (2 * (blk - L / 512) + 2) s ->
  (Z.to_nat (blk - L / 512 + 1) <= free_count (free_map s))%nat ->
  (forall s', growing i n d (blk + 1) s' -> inodes s' = inodes s ->
     (forall k, valid_sector k = true -> in_use s k = true -> in_use s' k = true) ->
     (forall k, 0 <= k < 512 * (blk + 1) ->
        fbyte (view s') d k = if k <? L then fbyte (view s) d k else 0) -> Q tt s') ->
  wp (growth_single i L blk (L / 512)) Q s.
Proof.
  intros [Hb Hi Hd Hm _] Hg HL Hblk Hgap Hroom Hcnt HQ. set (c := (L + 511) / 512) in *.
  assert (HL1 : 1 <= L / 512) by (Z.div_mod_to_equations; lia).
  apply wp_bind. eapply wp_load_inode; [exact Hi|]. rewrite Hd. cbn beta zeta.
  pose proof (Z.mod_pos_bound L 512 eq_refl).
  unfold growth_clear_tail. unfold SECTOR. rewrite Z.rem_mod_nonneg by lia.
  assert (Hloop : forall s1 c1 m, growing i n d c1 s1 -> gind s1 d c1 ->
    inodes s1 = inodes s -> c <= c1 <= blk + 1 -> L <= 512 * c1 ->
    gstep (view s1) m 0 s s1 -> 0 <= m <= 2 -> m + 2 * (blk + 1 - c1) <= 2 * (blk - L / 512) + 2 ->
    (forall k, 0 <= k < 512 * c1 -> fbyte (view s1) d k = if k <? L then fbyte (view s) d k else 0) ->
    wp (growth_single_loop (id_ind d) c1 (blk - c1 + 1)) Q s1).
  { intros s1 c1 m [G1 G2 _ G3 G4] Gi Hi1 Hc1 HLc Hs1 Hm0 Hm2 Hbytes.
    replace (blk - c1 + 1) with (Z.of_nat (Z.to_nat (blk + 1 - c1))) by lia.
    assert (Hc1' : 1 <= c1) by (unfold c in *; Z.div_mod_to_equations; lia).
    assert (Hcc : L / 512 <= c) by (unfold c; Z.div_mod_to_equations; lia).
    pose proof (gs_count _ _ _ _ _ Hs1).
    apply wp_single_loop; [done|done|lia|done|done| |lia|].
    { apply (gs_room _ _ _ _ _ Hs1); [lia|]. eapply room_mono; [|exact Hroom]. lia. }
    replace (c1 + Z.of_nat (Z.to_nat (blk + 1 - c1))) with (blk + 1) by lia.
    intros s2 K1 K2 K3 K4. apply HQ.
    - eapply growing_step; [split; done|exact K1|done|by right].
    - by rewrite (gs_inodes _ _ _ _ _ K1).
    - intros k Hk Hk'. eapply gs_used; [exact K1|done|]. by eapply gs_used.
    - intros k Hk. rewrite K4 by done. destruct (Z.ltb_spec k (512 * c1)); [apply Hbytes; lia|zcase]. }
  destruct (Z.eqb_spec (L mod 512) 0) as [He|Hne]; cbn [negb].
  - apply wp_bind, wp_ret.
    assert (Hc : c = L / 512) by (unfold c; Z.div_mod_to_equations; lia). rewrite <- Hc.
    assert (HLc : L = 512 * c) by (unfold c; Z.div_mod_to_equations; lia).
    apply (Hloop s c 0); [split; try done; by right|done|done|lia|lia|by apply gstep_refl|lia|lia|].
    intros k Hk. zcase.
  - assert (Hc : c = L / 512 + 1) by (unfold c; Z.div_mod_to_equations; lia).
    assert (HLc : L <= 512 * c) by (unfold c; Z.div_mod_to_equations; lia).
    apply wp_bind, wp_bind. pose proof (gi_owned _ _ _ Hg) as Hgo.
    apply wp_fetch_owned; [done..|]. intros s1 Hs1.
    destruct (gfile_step _ _ _ _ _ d c ltac:(lia) Hm (or_intror Hg) Hs1) as (K1 & K2 & K3 & K4);
      [done|].
    apply wp_bind. eapply wp_deref; [apply index_block_ok; lia|].
    assert (Hbm : word_at (view s (id_ind d)) (L / 512 - 1) = bmap (view s1) d (L / 512)).
    { rewrite K1 by lia. unfold bmap. zcase. }
    rewrite Hbm. apply wp_bind, (wp_clear_from _ _ s1 d c (L / 512));
      [apply Hs1|lia|done|done|lia|lia|lia|lia|].
    intros s2 G1 G2 G3 G4. apply wp_ret. rewrite <- Hc.
    assert (Hs2 : gstep (view s2) 2 0 s s2)
      by (apply (gstep_trans 1 0 1 0 s s1 s2); [lia|by eapply gstep_weaken|done]).
    apply (Hloop s2 c 2); [|by destruct G3; [lia|]| |lia|lia|done|lia|lia|].
    + eapply growing_step; [split; [done..|by right]|exact Hs2|done|done].
    + by rewrite (gs_inodes _ _ _ _ _ Hs2).
    + intros k Hk. rewrite G4 by done. rewrite K4 by done.
      assert ((k / 512 = L / 512 /\ L mod 512 <= k mod 512) <-> L <= k)
        by (Z.div_mod_to_equations; lia).
      zcase.
Qed.


Lemma set_sp_id d : set_sp (id_sp d) d = d.
Proof. by destruct d. Qed.
Lemma set_idata_id n : set_idata (i_data n) n = n.
Proof. by destruct n. Qed.

Lemma wp_allocate_into old s (Q : Z -> fs -> Prop) :
  base s -> room X 0 s -> (0 < free_count (free_map s))%nat ->
  (forall n s', gstep (view s) 0 1 s s' -> in_use s n = false -> owned s' n -> Q n s') ->
  wp (allocate_into old) Q s.
Proof.
  intros Hb Hr Hc HQ. apply wp_bind, wp_allocate_fresh; [done..|].
  intros n s' H1 H2 H3. by apply wp_ret, HQ.
Qed.

Lemma wp_store_data i n g s (Q : unit -> fs -> Prop) :
  inodes s !! i = Some n ->
  Q tt (set_inodes (<[i := set_idata (g (i_data n)) n]> (inodes s)) s) ->
  wp (store_data i g) Q s.
Proof. intros Hi HQ. by eapply wp_store_inode. Qed.

(** What a phase that may allocate leaves behind: the caller's state [s], the new
    inode [n'], and [m] cache entries and [a] sectors spent. *)
Record phase i (n' : inode) (m : Z) (a : nat) s s' : Prop := {
  ph_inodes : inodes s' = <[i := n']> (inodes s);
  ph_used : forall k, valid_sector k = true -> in_use s k = true -> in_use s' k = true;
  ph_room : forall r, 0 <= r -> room X (r + m) s -> room X r s';
  ph_count : (free_count (free_map s) <= free_count (free_map s') + a)%nat;
}.

Lemma gstep_phase i n v m a s s' :
  inodes s !! i = Some n -> gstep v m a s s' -> phase i n m a s s'.
Proof.
  intros Hi [H1 H2 H3 H4 H5 H6]. split; try done. rewrite H4. symmetry. by apply insert_id.
Qed.

Lemma phase_trans i n1 n2 m1 a1 m2 a2 s1 s2 s3 :
  0 <= m2 -> phase i n1 m1 a1 s1 s2 -> phase i n2 m2 a2 s2 s3 ->
  phase i n2 (m1 + m2) (a1 + a2) s1 s3.
Proof.
  intros Hm [H1 H2 H3 H4] [G1 G2 G3 G4]. split; auto.
  - by rewrite G1, H1, insert_insert_eq.
  - intros r Hr Hrm. apply G3; [done|]. apply H3; [lia|]. by replace (r + m2 + m1) with (r + (m1 + m2)) by lia.
  - lia.
Qed.

(** Allocate a sector and store its number in the inode. *)
Lemma phase_store i n n' v m a s s' :
  inodes s !! i = Some n -> gstep v m a s s' ->
  phase i n' m a s (set_inodes (<[i := n']> (inodes s')) s').
Proof.
  intros Hi [H1 H2 H3 H4 H5 H6]. split; try done. simpl. by rewrite H4.
Qed.

Lemma wp_growth_first i n d L s (Q : Z * Z -> fs -> Prop) :
  growing i n d ((L + 511) / 512) s -> 0 <= L < 512 -> room X 1 s ->
  (0 < free_count (free_map s))%nat ->
  (forall sp' s', let d' := set_sp sp' d in let n' := set_idata d' n in
     growing i n' d' 1 s' -> phase i n' 1 1 s s' ->
     (forall k, 0 <= k < 512 ->
        fbyte (view s') d' k = if k <? L then fbyte (view s) d k else 0) -> Q (512, 1) s') ->
  wp (growth_first i L 0) Q s.
Proof.
  intros Hg HL Hroom Hcnt HQ. cbn zeta in HQ.
  assert (Hclear : forall sp' s1, growing i (set_idata (set_sp sp' d) n) (set_sp sp' d) 1 s1 ->
    phase i (set_idata (set_sp sp' d) n) 0 1 s s1 ->
    (forall k, 0 <= k < L -> fbyte (view s1) (set_sp sp' d) k = fbyte (view s) d k) ->
    wp (n ← load_inode i;
        change_block (id_sp (i_data n)) (fun x => memset x L 0 (512 - L));;
        mret (L + (512 - L), 0 + 1)) Q s1).
  { intros sp' s1 Hg1 Hp1 Hbytes. pose proof Hg1 as [G1 G2 G3 G4 G5].
    apply wp_bind. eapply wp_load_inode; [exact G2|]. cbn [i_data set_idata].
    apply wp_bind. change (id_sp (set_sp sp' d)) with (bmap (view s1) (set_sp sp' d) 0).
    apply (wp_clear_from _ _ s1 (set_sp sp' d) 1 0); [done|lia|done|done|lia|lia|lia|lia|].
    intros s2 K1 K2 K3 K4. apply wp_ret. replace (L + (512 - L)) with 512 by lia.
    apply (HQ sp').
    - by eapply growing_step.
    - apply (phase_trans i (set_idata (set_sp sp' d) n) _ 0 1 1 0 s s1); [lia|done|].
      by eapply gstep_phase.
    - intros k Hk. rewrite K4 by lia. rewrite Z.div_small, Z.mod_small by lia. zcase.
      apply Hbytes. lia. }
  unfold growth_first. cbn [Z.ltb Z.compare]. apply wp_bind.
  pose proof Hg as [Hb Hi Hd Hm Hgi]. apply wp_when.
  - intros ->%Z.eqb_eq. apply wp_bind. eapply wp_load_inode; [exact Hi|].
    apply wp_bind, wp_allocate_into; [done|by apply (room_mono X 1)|done|].
    intros sp' s1 Hs1 _ Hown.
    eapply wp_store_data; [rewrite (gs_inodes _ _ _ _ _ Hs1); exact Hi|]. rewrite Hd.
    apply (Hclear sp').
    + split; [apply base_inodes, Hs1|simpl; by rewrite lookup_insert_eq|done| |by left].
      split; [intros b Hb'; replace b with 0 by lia; exact Hown|intros; lia].
    + by eapply phase_store.
    + intros k Hk. lia.
  - intros Hne%Z.eqb_neq. assert (Hc : (L + 511) / 512 = 1) by (Z.div_mod_to_equations; lia).
    rewrite Hc in Hg. apply (Hclear (id_sp d)); rewrite set_sp_id, <- Hd, ?set_idata_id; [by rewrite Hd| |done].
    eapply gstep_phase; [exact Hi|]. apply (gstep_more 0 0); [lia|lia|by apply gstep_refl].
Qed.


Lemma growing_wf i n d c s :
  growing i n d c s -> 0 <= id_length d -> blocks d <= c -> c <= 129 -> file_wf (view s) d.
Proof.
  intros [Hb Hi Hd Hm Hg] HL Hc Hc'.
  assert (Hp : forall b k, 0 <= b < blocks d -> k ∈ index_path (view s) d b ->
    k = id_ind d /\ gind s d c).
  { intros b k Hb' Hk. unfold index_path in Hk. revert Hk.
    destruct (Z.ltb_spec b 1); [by intros ?%elem_of_nil|].
    destruct (Z.ltb_spec b 129); [|lia]. intros ->%list_elem_of_singleton.
    split; [done|]. destruct Hg as [|Hg]; [lia|done]. }
  split.
  - done.
  - unfold MAX_BLOCKS. lia.
  - intros b Hb'. apply Hm. lia.
  - intros b k Hb' Hk. destruct (Hp b k Hb' Hk) as [-> Hgi]. apply Hgi.
  - intros a b Ha Hb'. apply Hm; lia.
  - intros a b k Ha Hb' Hk. destruct (Hp b k Hb' Hk) as [-> Hgi]. apply Hgi. lia.
Qed.

Lemma growing_le i n d c c' s : growing i n d c s -> c' <= c -> growing i n d c' s.
Proof.
  intros [H1 H2 H3 [M1 M2] H5] Hc. split; [done..| |].
  - split; [intros b Hb; apply M1; lia|intros a b Ha Hb; apply M2; lia].
  - destruct H5 as [H5|[G1 G2]]; [left; lia|right]. split; [done|]. intros b Hb. apply G2. lia.
Qed.

Lemma growing_quiet i n d c s s' :
  growing i n d c s -> quiet s s' -> c <= 129 -> growing i n d c s'.
Proof.
  intros [[B1 B2 B3 B4 B5 B6 B7 B8 B9] H2 H3 [M1 M2] H5] [Q1 Q2 [R1 R2 R3 R4 R5 R6]] Hc.
  assert (Hu : forall k, in_use s' k = in_use s k) by (intros; unfold in_use; by rewrite R1).
  assert (Ho : forall k, owned s k -> owned s' k).
  { intros k (O1 & O2 & O3 & O4). split_and!; try done. by rewrite Hu. }
  assert (Hm : forall b, b < c -> bmap (view s') d b = bmap (view s) d b)
    by (intros b Hb; apply bmap_small; [lia|auto]).
  split; try congruence.
  - split; try congruence.
    + intros k Hk. rewrite Hu. auto.
    + intros k Hk. rewrite Q2. auto.
    + intros k. rewrite Hu. auto.
  - split.
    + intros b Hb. rewrite Hm by lia. auto.
    + intros a b Ha Hb. rewrite !Hm by lia. auto.
  - destruct H5 as [H5|[G1 G2]]; [by left|right]. split; [auto|].
    intros b Hb. rewrite Hm by lia. auto.
Qed.

(** Growth inside the last sector, at the end of the file: nothing is cleared. *)
Lemma wp_growth_in_sector i n d c L s (Q : unit -> fs -> Prop) :
  growing i n d c s -> c <= 129 -> blocks d <= c -> 0 <= L < id_length d ->
  (forall s', growing i n d c s' -> inodes s' = inodes s ->
     (forall k, valid_sector k = true -> in_use s k = true -> in_use s' k = true) ->
     (forall k, 0 <= k < 512 * c -> fbyte (view s') d k = fbyte (view s) d k) -> Q tt s') ->
  wp (growth_in_sector i L L) Q s.
Proof.
  intros Hg Hc Hbc HL HQ. pose proof (gr_data _ _ _ _ _ Hg) as Hd. subst d.
  assert (Hwf : file_wf (view s) (i_data n)) by (eapply growing_wf; [exact Hg|lia..]).
  unfold growth_in_sector. rewrite Z.sub_diag. apply wp_bind.
  eapply wp_byte_to_sector; [apply Hg|apply Hg|done|lia|]. intros s1 Hs1.
  pose proof (growing_quiet _ _ _ _ _ _ Hg Hs1 Hc) as Hg1.
  pose proof (block_range (i_data n) L ltac:(lia)) as Hr.
  assert (Hf1 : forall k, fbyte (view s1) (i_data n) k = fbyte (view s) (i_data n) k)
    by (intros; apply fbyte_ext, Hs1).
  rewrite <- (bmap_ext (view s) (view s1)) by (intros; apply Hs1).
  assert (Hlen := view_length s1 _ (proj1 (ba_ok _ (gr_base _ _ _ _ _ Hg1)))
    (proj1 (gm_owned _ _ _ (gr_map _ _ _ _ _ Hg1) (L / 512) ltac:(lia)))).
  eapply (wp_change_file _ _ s1 (i_data n) c (L / 512));
    [apply Hg1|done|apply Hg1|exact (gr_ind _ _ _ _ _ Hg1)|lia|apply memset_zero_count|done|].
  intros s2 G1 G2 G3 G4. apply HQ.
  - by eapply growing_step.
  - rewrite (gs_inodes _ _ _ _ _ G1). apply Hs1.
  - intros k Hk Hk'. eapply gs_used; [exact G1|done|]. unfold in_use.
    by rewrite (sr_free_map _ _ (q_rest _ _ Hs1)).
  - intros k Hk. rewrite G4 by done. rewrite <- Hf1. zcase. unfold fbyte. congruence.
Qed.


(** What [file_growth] leaves behind: a file of [N] bytes that begins with the old
    one and reads as zero up to [pos]. *)
Definition grown i (n : inode) (pos N : Z) s s' : Prop :=
  exists sp ind, let d := i_data n in
  let d' := set_idx ind (set_sp sp (set_length N d)) in
  growing i (set_idata d' n) d' ((N + 511) / 512) s' /\
  inodes s' = <[i := set_idata d' n]> (inodes s) /\
  (forall k, valid_sector k = true -> in_use s k = true -> in_use s' k = true) /\
  (forall k, 0 <= k < id_length d -> fbyte (view s') d' k = fbyte (view s) d k) /\
  (forall k, id_length d <= k < pos -> fbyte (view s') d' k = 0) /\
  (id_length d mod 512 = 0 -> forall k, id_length d <= k < N -> fbyte (view s') d' k = 0) /\
  (sp = id_sp d \/ valid_sector sp = true) /\ (ind = id_ind d \/ valid_sector ind = true).

Lemma set_idx_id d : set_idx (id_ind d) d = d.
Proof. by destruct d. Qed.

(** After the first sector: the index block is allocated if the file had none. *)
Lemma wp_growth_rest i n d L blk s (Q : Z -> fs -> Prop) :
  growing i n d ((L + 511) / 512) s -> 512 <= L -> L / 512 - 1 <= blk < 129 ->
  (L mod 512 = 0 \/ L / 512 < blk) ->
  room X (2 * (blk - L / 512) + 2) s ->
  (Z.to_nat (blk - L / 512 + 2) <= free_count (free_map s))%nat ->
  (forall ind s', let d' := set_idx ind d in let n' := set_idata d' n in
     growing i n' d' (blk + 1) s' -> inodes s' = <[i := n']> (inodes s) ->
     (forall k, valid_sector k = true -> in_use s k = true -> in_use s' k = true) ->
     (forall k, 0 <= k < 512 * (blk + 1) ->
        fbyte (view s') d' k = if k <? L then fbyte (view s) d k else 0) ->
     ind = id_ind d \/ valid_sector ind = true -> Q blk s') ->
  wp (when (L =? 512)
        (n ← load_inode i;
         ind ← allocate_into (id_ind (i_data n));
         store_data i (set_idx ind));;
      growth_single i L blk (L / 512);; mret blk) Q s.
Proof.
  intros Hg HL Hblk Hgap Hroom Hcnt HQ. cbn zeta in HQ. pose proof Hg as [Hb Hi Hd Hm Hgi].
  apply wp_bind, wp_when.
  - intros ->%Z.eqb_eq. change ((512 + 511) / 512) with 1 in *. change (512 / 512) with 1 in *.
    apply wp_bind. eapply wp_load_inode; [exact Hi|]. apply wp_bind.
    apply wp_allocate_into; [done|apply (room_mono X (2 * (blk - 1) + 2)); [lia|done]|lia|].
    intros ind s1 Hs1 Hfree Hown.
    eapply wp_store_data; [rewrite (gs_inodes _ _ _ _ _ Hs1); exact Hi|]. rewrite Hd.
    set (d' := set_idx ind d). set (n' := set_idata d' n). set (s2 := set_inodes _ s1).
    pose proof (gs_count _ _ _ _ _ Hs1) as Hc1.
    assert (Hsp : owned s (id_sp d)) by (apply (gm_owned _ _ _ Hm 0); lia).
    assert (Hm2 : gmap s2 d' 1).
    { apply gmap_inodes. split; [|intros; lia]. intros b Hb'. replace b with 0 by lia.
      eapply owned_step; [exact Hs1|exact Hsp]. }
    assert (Hg2 : gind s2 d' 1).
    { apply gind_inodes. split; [done|]. intros b Hb'. replace b with 0 by lia.
      change (id_sp d <> ind). intros He. destruct Hsp as (_ & Hu & _). congruence. }
    apply wp_bind, (wp_growth_single i n' d' 512 blk s2).
    + split; [apply base_inodes, Hs1|simpl; by rewrite lookup_insert_eq|done|done|by left].
    + done.
    + lia.
    + done.
    + by left.
    + apply (gs_room _ _ _ _ _ Hs1); [change (512 / 512) with 1; lia|].
      change (512 / 512) with 1. by rewrite Z.add_0_r.
    + change (512 / 512) with 1. change (free_map s2) with (free_map s1). lia.
    + intros s3 K1 K2 K3 K4. apply wp_ret, (HQ ind); [done| | | |right; apply Hown].
      * rewrite K2. simpl. by rewrite (gs_inodes _ _ _ _ _ Hs1).
      * intros k Hk Hk'. apply K3; [done|]. change (in_use s1 k = true). by eapply gs_used.
      * intros k Hk. rewrite K4 by done. zcase.
        unfold fbyte. rewrite Z.div_small by lia. change (bmap _ d' 0) with (id_sp d).
        change (view s2 (id_sp d)) with (view s1 (id_sp d)).
        rewrite (gs_view _ _ _ _ _ Hs1) by apply Hsp. done.
  - intros HL'%Z.eqb_neq. assert (Hgi' : gind s d ((L + 511) / 512)).
    { destruct Hgi as [Hc|]; [|done]. exfalso. Z.div_mod_to_equations. lia. }
    apply wp_bind, (wp_growth_single i n d L blk s); [done..|lia|].
    intros s' K1 K2 K3 K4. apply wp_ret, (HQ (id_ind d)); rewrite ?set_idx_id, <- ?Hd, ?set_idata_id;
      rewrite ?Hd; [done| |done|done|by left].
    rewrite K2. symmetry. by apply insert_id.
Qed.


Lemma wp_file_growth i n pos size s (Q : Z -> fs -> Prop) :
  let d := i_data n in let L := id_length d in let blk := (pos + size) / 512 in
  growing i n d ((L + 511) / 512) s ->
  0 <= L <= pos -> 0 <= size -> L < pos + size \/ L = 0 -> pos + size <= INT_MAX -> blk < 129 ->
  (blk = L / 512 -> L mod 512 <> 0 -> pos = L) ->
  room X (2 * (blk - L / 512) + 2) s ->
  (Z.to_nat (blk - L / 512 + 2) <= free_count (free_map s))%nat ->
  (forall s', grown i n pos (pos + size) s s' -> Q blk s') ->
  wp (file_growth i pos size) Q s.
Proof.
  intros d L blk Hg HL Hsz Hpos HN Hblk Hgap Hroom Hcnt HQ. set (N := pos + size) in *.
  pose proof Hg as [Hb Hi Hd Hm Hgi].
  assert (Hbl : 0 <= L / 512 <= blk) by (unfold blk; Z.div_mod_to_equations; lia).
  set (d1 := set_length N d). set (n1 := set_idata d1 n). set (s1 := set_inodes (<[i := n1]> (inodes s)) s).
  assert (Hg1 : growing i n1 d1 ((L + 511) / 512) s1).
  { split; [by apply base_inodes|simpl; by rewrite lookup_insert_eq|done| |].
    - apply gmap_inodes. destruct Hm as [M1 M2]. split; [exact M1|exact M2].
    - destruct Hgi as [|Hgi]; [by left|right]. apply gind_inodes. destruct Hgi as [G1 G2].
      split; [exact G1|exact G2]. }
  assert (Hn1 : set_idx (id_ind d) (set_sp (id_sp d) d1) = d1) by (by destruct d).
  apply wp_bind, wp_add_int; [unfold INT_MIN; lia|].
  apply wp_bind. eapply wp_load_inode; [exact Hi|]. cbn beta zeta. fold d. fold L. fold N.
  unfold SECTOR. rewrite !Z.quot_div_nonneg, !Z.rem_mod_nonneg by lia. fold blk.
  apply wp_bind. eapply wp_store_data; [exact Hi|]. fold d. fold d1. fold n1. fold s1.
  destruct (decide (blk = L / 512 /\ L mod 512 <> 0)) as [[He Hnz]|Hwhole].
  - replace ((blk =? L / 512) && negb (L mod 512 =? 0)) with true by zcase.
    rewrite (Hgap He Hnz) at 1. apply wp_bind.
    assert (HLN : L < N) by (destruct Hpos as [|H0]; [done|]; rewrite H0 in Hnz; done).
    assert (Hbb : blocks d1 = (L + 511) / 512).
    { change (blocks d1) with ((N + 511) / 512). unfold blk in He. Z.div_mod_to_equations. lia. }
    eapply (wp_growth_in_sector i n1 d1 ((L + 511) / 512) L s1);
      [exact Hg1|unfold blk in *; Z.div_mod_to_equations; lia|lia|simpl; lia|].
    intros s2 K1 K2 K3 K4. apply wp_ret, HQ. exists (id_sp d), (id_ind d). cbn zeta.
    fold d. fold d1. rewrite Hn1. fold n1. split_and!; [|by rewrite K2|done| | |done|by left|by left].
    + change ((N + 511) / 512) with (blocks d1). by rewrite Hbb.
    + intros k Hk. apply K4. fold L in Hk. Z.div_mod_to_equations; lia.
    + intros k Hk. rewrite (Hgap He Hnz) in Hk. fold L in Hk. lia.
  - replace ((blk =? L / 512) && negb (L mod 512 =? 0)) with false by zcase.
    assert (HcN : (N + 511) / 512 <= blk + 1) by (unfold blk; Z.div_mod_to_equations; lia).
    assert (HNb : N < 512 * (blk + 1)) by (unfold blk; Z.div_mod_to_equations; lia).
    apply wp_bind. destruct (Z.ltb_spec L 512) as [Hlt|Hge].
    + assert (HL0 : L / 512 = 0) by (Z.div_mod_to_equations; lia).
      rewrite HL0 in *. apply (wp_growth_first i n1 d1 L s1);
        [done|lia|by apply (room_mono X (2 * (blk - 0) + 2)); [lia|]
        |change (free_map s1) with (free_map s); lia|].
      intros sp s2 d2 n2 G1 [G2 G3 G4 G5] G6.
      assert (Hi2 : inodes s2 = <[i := n2]> (inodes s)) by (rewrite G2; simpl; by rewrite insert_insert_eq).
      destruct ((blk =? 1) && (N mod 512 =? 0)) eqn:Hone.
      * apply andb_true_iff in Hone as [H1%Z.eqb_eq H2%Z.eqb_eq].
        apply wp_ret, HQ. exists sp, (id_ind d). cbn zeta. fold d.
        change (set_idx (id_ind d) (set_sp sp (set_length N d))) with (set_idx (id_ind d2) d2).
        rewrite set_idx_id. split_and!.
        -- eapply growing_le; [exact G1|]. unfold blk in H1. Z.div_mod_to_equations. lia.
        -- done.
        -- done.
        -- intros k Hk. fold L in Hk. rewrite G6 by lia. zcase.
        -- intros k Hk. fold L in Hk. rewrite G6 by (unfold blk in H1; Z.div_mod_to_equations; lia). zcase.
        -- intros _ k Hk. fold L in Hk. rewrite G6 by (unfold blk in H1; Z.div_mod_to_equations; lia). zcase.
        -- right. by apply (gm_owned _ _ _ (gr_map _ _ _ _ _ G1) 0).
        -- by left.
      * replace (blk <? 129) with true by zcase.
        apply (wp_growth_rest i n2 d2 512 blk s2); [done|lia|change (512 / 512) with 1; lia|by left| | |].
        -- change (512 / 512) with 1. apply G4; [lia|]. eapply room_mono; [|exact Hroom]. lia.
        -- change (512 / 512) with 1. change (free_map s1) with (free_map s) in G5. lia.
        -- intros ind s3 d3 n3 K1 K2 K3 K4 K5. apply HQ. exists sp, ind. cbn zeta. fold d.
           split_and!.
           ++ by eapply growing_le.
           ++ rewrite K2, Hi2. by rewrite insert_insert_eq.
           ++ intros k Hk Hk'. apply K3; [done|]. by apply G3.
           ++ intros k Hk. fold L in Hk. rewrite K4 by lia. zcase. rewrite G6 by lia. zcase.
           ++ intros k Hk. fold L in Hk. rewrite K4 by lia. zcase. rewrite G6 by lia. zcase.
           ++ intros _ k Hk. fold L in Hk. rewrite K4 by lia. zcase. rewrite G6 by lia. zcase.
           ++ right. by apply (gm_owned _ _ _ (gr_map _ _ _ _ _ G1) 0).
           ++ done.
    + unfold growth_first at 1. apply wp_bind, wp_when; [intros ->%Z.eqb_eq; lia|intros _].
      assert (HL1 : 1 <= L / 512) by (Z.div_mod_to_equations; lia).
      destruct (Z.ltb_spec (L / 512) 1); [lia|]. apply wp_ret.
      replace ((blk =? 1) && (N mod 512 =? 0)) with false
        by (zcase; exfalso; unfold blk in *; Z.div_mod_to_equations; lia).
      replace (blk <? 129) with true by zcase.
      apply (wp_growth_rest i n1 d1 L blk s1); [done|done|lia|lia|done|done|].
      intros ind s2 d' n' K1 K2 K3 K4 K5. apply HQ. exists (id_sp d), ind. cbn zeta. fold d.
      replace (set_sp (id_sp d) (set_length N d)) with d1 by by destruct d.
      split_and!.
      * by eapply growing_le.
      * rewrite K2. simpl. by rewrite insert_insert_eq.
      * done.
      * intros k Hk. fold L in Hk. rewrite K4 by lia. zcase.
      * intros k Hk. fold L in Hk. rewrite K4 by lia. zcase.
      * intros _ k Hk. fold L in Hk. rewrite K4 by lia. zcase.
      * by left.
      * done.
Qed.
End growth.

(** ** Writing at or after the end of a file *)
Section append.
Context {D B : Type} {dev : BlockDev D} {bm : Bitmap B} {io : BitmapIO D B} {mem : Memory}.
Context {laws : BlockDevLaws D} {bml : BitmapLaws B} {X : list Z} {iol : BitmapIOLaws D B X}.
Abbreviation fs := (fs D B).
Implicit Types (s : fs) (i : nat).

(** Sector [k] is a block or an index block of the file [d]. *)
Definition of_file s (d : inode_disk) (k : Z) : Prop :=
  exists b, 0 <= b < blocks d /\ (k = bmap (view s) d b \/ k ∈ index_path (view s) d b).

(** The mounted file system around the file [d]: the free map file is open in the
    sectors [X], and the free map knows the sectors in use. *)
Record mounted (f : file) (d : inode_disk) s : Prop := {
  mo_ok : fs_ok s;
  mo_file : free_map_file s = Some f;
  mo_size : bitmap_size (free_map s) = dev_sectors;
  mo_area : forall k, k ∈ X -> in_use s k = true;
  mo_wf : file_wf (view s) d;
  mo_used : forall k, of_file s d k -> in_use s k = true /\ k ∉ X;
}.

(** The sectors a write to [d] may change. *)
Definition writable (d : inode_disk) s (k : Z) : Prop :=
  in_use s k = false \/ k ∈ X \/ of_file s d k.

Lemma mounted_growing f d s i n :
  mounted f d s -> inodes s !! i = Some n -> i_data n = d -> blocks d <= 129 ->
  growing (X := X) f (writable d s) (view s) s i n d (blocks d) s.
Proof.
  intros [M1 M2 M3 M4 M5 M6] Hi Hd Hb. split; [|done|done| |].
  - split; try done. intros k Hv Hk. by left.
  - split; [|by apply M5]. intros b Hb'.
    assert (Hof : of_file s d (bmap (view s) d b)) by (exists b; auto).
    destruct (M6 _ Hof). split_and!; [by apply M5|done|done|by right; right].
  - destruct (Z.leb_spec (blocks d) 1); [by left|right].
    assert (Hp : index_path (view s) d 1 = [id_ind d]) by done.
    assert (Hin : id_ind d ∈ index_path (view s) d 1) by (rewrite Hp; by left).
    assert (Hof : of_file s d (id_ind d)) by (exists 1; split; [lia|by right]).
    destruct (M6 _ Hof). split.
    + split_and!; [|done|done|by right; right]. eapply (fw_index_valid _ _ M5 1); [lia|done].
    + intros b Hb'. eapply (fw_index _ _ M5 b 1); [lia|lia|done].
Qed.

Lemma content_grown v v' d d' pos N :
  0 <= id_length d <= pos -> pos <= N -> id_length d' = N ->
  (forall k, 0 <= k < id_length d -> fbyte v' d' k = fbyte v d k) ->
  (forall k, id_length d <= k < pos -> fbyte v' d' k = 0) ->
  take (Z.to_nat pos) (content v' d') =
    content v d ++ replicate (Z.to_nat (pos - id_length d)) 0.
Proof.
  intros HL Hp HN Hold Hzero. apply list_eq. intros j. unfold content. rewrite HN.
  destruct (decide (Z.of_nat j < pos)).
  - rewrite lookup_take_lt, list_lookup_fmap, lookup_seqZ_lt by lia. simpl.
    destruct (decide (Z.of_nat j < id_length d)).
    + rewrite lookup_app_l by (rewrite length_fmap, length_seqZ; lia).
      rewrite list_lookup_fmap, lookup_seqZ_lt by lia. simpl. rewrite Hold by lia. done.
    + rewrite lookup_app_r by (rewrite length_fmap, length_seqZ; lia).
      rewrite length_fmap, length_seqZ, lookup_replicate_2 by lia. rewrite Hzero by lia. done.
  - rewrite lookup_take_ge by lia. symmetry. apply lookup_ge_None_2.
    rewrite length_app, length_replicate, length_fmap, length_seqZ. lia.
Qed.

Lemma wp_inode_write_append f i n buffer size offset s :
  let d := i_data n in let blk := (offset + size) / 512 in let cur := id_length d / 512 in
  mounted f d s -> dev_sectors <= UINT32 -> inodes s !! i = Some n ->
  i_read_cnt n = 0 -> i_deny_write_cnt n = 0 ->
  id_length d <= offset -> 0 < size <= Z.of_nat (length buffer) -> offset + size <= INT_MAX ->
  blk < 129 -> (blk = cur -> id_length d mod 512 <> 0 -> offset = id_length d) ->
  room X (2 * (blk - cur) + 2) s -> (Z.to_nat (blk - cur + 2) <= free_count (free_map s))%nat ->
  wp (inode_write_at i buffer size offset)
     (fun r s' => r = size /\ exists d', inodes s' = <[i := set_idata d' n]> (inodes s) /\
        file_wf (view s') d' /\ fs_ok s' /\
        content (view s') d' =
          content (view s) d ++ replicate (Z.to_nat (offset - id_length d)) 0 ++ slice 0 size buffer /\
        (forall k, in_use s k = true -> k ∉ X -> ~ of_file s d k ->
           view s' k = view s k /\ forall b, 0 <= b < blocks d' -> bmap (view s') d' b <> k)) s.
Proof.
  intros d blk cur Hmo Hdev Hi Hr Hd HL Hs HN Hblk Hgap Hroom Hcnt.
  assert (HL0 := fw_length _ _ (mo_wf _ _ _ Hmo)).
  eapply wp_inode_write_at; [exact Hi|exact Hr|].
  set (sl := set_held _ s).
  assert (Hmo' : mounted f d sl).
  { destruct Hmo as [M1 M2 M3 M4 M5 M6]. split; try done. by apply fs_ok_lock. }
  assert (Hcb : (id_length d + 511) / 512 <= 129)
    by (unfold blk in Hblk; Z.div_mod_to_equations; lia).
  pose proof (mounted_growing f d sl i n Hmo' Hi eq_refl Hcb) as Hg.
  apply wp_bind. eapply wp_load_inode; [exact Hi|]. rewrite Hd. cbn [negb Z.eqb].
  apply wp_bind, wp_add_int; [unfold INT_MIN; lia|].
  apply wp_bind, wp_when; [intros _|intros ?%Z.ltb_ge; fold d in H; lia].
  apply wp_bind.
  eapply (wp_file_growth f (writable d sl) (view sl) sl); [by right; left|done|exact Hg|
    fold d; lia|lia|left; fold d; lia|fold d; lia|done|done|done|done|].
  intros s1 (sp & ind & G1 & G2 & G3 & G4 & G5 & _). apply wp_ret. cbn zeta in *. fold d in G1, G2, G4, G5.
  set (d' := set_idx _ _) in *. set (n' := set_idata d' n) in *.
  pose proof (gr_base _ _ _ _ _ _ _ _ _ G1) as B1.
  assert (Hwf1 : file_wf (view s1) d').
  { eapply growing_wf; [exact G1|simpl; lia|done|unfold blk in Hblk; Z.div_mod_to_equations; lia]. }
  eapply (wp_write_loop _ i n'); [apply B1|apply G1|exact Hwf1|simpl; lia|lia|lia|lia|lia|].
  intros s2 m Hu. replace m with size in * by (unfold m; simpl; lia). clear m.
  pose proof (fu_rest _ _ _ _ _ Hu) as [R1 R2 R3 R4 R5 R6].
  assert (Hh : held s2 = {[inode_io i]} ∪ held s) by (rewrite R6, (ba_held _ _ _ _ _ B1); done).
  split; [done|]. split; [done|]. exists d'.
  assert (Hwf2 : file_wf (view s2) d') by (by eapply file_update_wf).
  assert (Hbm : forall b, 0 <= b < blocks d' -> bmap (view s2) d' b = bmap (view s1) d' b)
    by (intros b Hb; by eapply file_update_bmap).
  split_and!; [by simpl; rewrite R4|exact Hwf2| | |].
  - apply (fs_ok_ext s2); try done. simpl. rewrite Hh. set_solver.
    apply Hu.
  - change (view (set_held (held s) s2)) with (view s2).
    assert (Hl : Z.of_nat (length (slice 0 size buffer)) = size) by (rewrite length_slice; lia).
    rewrite (content_update d' offset (slice 0 size buffer) s1 s2 ltac:(lia) ltac:(simpl; lia) Hu).
    pose proof (length_content (view s1) d') as Hlc. simpl in Hlc.
    unfold splice. rewrite (drop_ge (content _ _)), app_nil_r by lia.
    rewrite (content_grown (view sl) (view s1) d d' offset (offset + size)); [|lia|lia|done..].
    by rewrite <- app_assoc.
  - intros k Hk HkX Hkf.
    assert (Hnw : ~ writable d sl k) by (unfold writable; change (in_use sl k) with (in_use s k);
      intros [?|[?|?]]; [congruence|done|done]).
    assert (Hnb : forall b, 0 <= b < blocks d' -> bmap (view s1) d' b <> k).
    { intros b Hb <-. apply Hnw. 
      by apply (gm_owned _ _ _ _ (gr_map _ _ _ _ _ _ _ _ _ G1) b). }
    split; [|intros b Hb; rewrite Hbm by done; by apply Hnb].
    change (view (set_held (held s) s2) k) with (view s2 k).
    rewrite (fu_frame _ _ _ _ _ Hu); [|intros b Hb ->; by eapply Hnb].
    by apply (ba_frame _ _ _ _ _ B1).
Qed.

End append.

(** ** The file of 600 bytes on a mounted device *)
Definition grow_fs : fs disk bits :=
  Fs two_block_disk [] 0 0 (replicate 7 true ++ replicate 1017 false) (Some (File 0 0 false))
    [] {[0%nat := two_block_inode 0]} 1 ∅.

Lemma grow_mounted : mounted (X := [2]) (File 0 0 false) (i_data (two_block_inode 0)) grow_fs.
Proof.
  split.
  - split; [|intros h Hh; by apply elem_of_nil in Hh]. split; try done.
    + split_and!; by constructor.
    + intros h Hh. by apply elem_of_nil in Hh.
  - done.
  - done.
  - by intros k ->%list_elem_of_singleton.
  - exact (two_block_wf 0).
  - intros k (b & Hb & Hk). change (blocks _) with 2 in Hb.
    assert (k = 3 \/ k = 4 \/ k = 6) as [-> | [-> | ->]].
    { assert (b = 0 \/ b = 1) as [-> | ->] by lia; destruct Hk as [-> | Hk].
      - by left.
      - by apply elem_of_nil in Hk.
      - right; right. vm_compute. reflexivity.
      - right; left. by apply list_elem_of_singleton in Hk. }
    all: split; [reflexivity|by intros ?%list_elem_of_singleton].
Qed.

