(* ===== verification/InodeLife.v ===== *)
(** * InodeLife: opening and closing inodes ([filesys/inode.c]).

    The table of open inodes, its invariant, and the life of an inode from
    [inode_open] over [inode_reopen] to [inode_close]. *)
From S2P Require Import Prelude Bytes State Instances Cache FreeMap Inode InodeData.
From Stdlib Require Import ZArith Lia.
From stdpp Require Import prelude gmap.

Open Scope Z_scope.

Section life.
Context {D B : Type} {dev : BlockDev D} {bm : Bitmap B} {io : BitmapIO D B} {mem : Memory}.
Context {laws : BlockDevLaws D}.
Abbreviation fs := (fs D B).
Abbreviation K := (M fs).
Implicit Types (s : fs) (i : nat).

(** The open inodes are allocated, have distinct sectors and at least one opener, and
    no thread is inside them. *)
Record table_inv s : Prop := {
  ti_nodup : NoDup (open_inodes s);
  ti_alive : forall i, i ∈ open_inodes s -> exists n, inodes s !! i = Some n /\
    valid_sector (i_sector n) = true /\ 1 <= i_open_cnt n;
  ti_sector : forall i j n m, i ∈ open_inodes s -> j ∈ open_inodes s ->
    inodes s !! i = Some n -> inodes s !! j = Some m -> i_sector n = i_sector m -> i = j;
  ti_next : forall i n, inodes s !! i = Some n -> (i < next_inode s)%nat;
  ti_locks : forall i, inode_io i ∉ held s;
}.

Lemma open_inode_at_Some sector s i :
  open_inode_at sector s = Some i ->
  i ∈ open_inodes s /\ exists n, inodes s !! i = Some n /\ i_sector n = sector.
Proof.
  intros H. apply List.find_some in H as [Hin Hb]. split; [by apply list_elem_of_In|].
  destruct (inodes s !! i) as [n|]; [|done]. exists n. by apply Z.eqb_eq in Hb.
Qed.

Lemma open_inode_at_None sector s i n :
  open_inode_at sector s = None -> i ∈ open_inodes s -> inodes s !! i = Some n ->
  i_sector n <> sector.
Proof.
  intros H Hi Hn. eapply List.find_none in H; [|by apply list_elem_of_In]. cbn beta in H.
  rewrite Hn in H. by apply Z.eqb_neq.
Qed.

(** What opening and closing leave alone: the free map and the contents of every
    sector but those in [P]. *)
Record life_step (v' : Z -> list Z) s s' : Prop := {
  ls_ok : fs_ok s';
  ls_view : forall k, view s' k = v' k;
  ls_free_map : free_map s' = free_map s;
  ls_free_map_file : free_map_file s' = free_map_file s;
  ls_held : held s' = held s;
}.

(** [cache_block (sector, READ_BLOCK); write_cache; memcpy out; end_write]. *)
Lemma wp_exclusive_fetch i g sector s (Q : unit -> fs -> Prop) n :
  fs_ok s -> valid_sector sector = true -> inodes s !! i = Some n ->
  (forall s', quiet s s' ->
     Q tt (set_inodes (<[i := set_idata (g (view s sector)) n]> (inodes s')) s')) ->
  wp (h ← cache_block sector READ_BLOCK;
      write_cache h;;
      c ← load_cache h;
      store_data i (fun _ => g (c_data c));;
      end_write h) Q s.
Proof.
  intros [Hinv Hio] Hv Hn HQ. apply wp_bind, wp_cache_block; [done|by apply io_free_ok|done|].
  intros h c s' Hs Hc Hsid Hnio _. pose proof (cs_inv _ _ _ _ Hs) as Hinv'.
  pose proof Hc as (Hin & _)%find_id_Some.
  assert (Hdata : c_data c = view s sector).
  { rewrite <- (cs_view _ _ _ _ Hs), <- Hsid. unfold view. symmetry.
    apply lview_elem; [apply Hinv'|done]. }
  assert (Hrc : c_read_cnt c = 0).
  { destruct Hinv' as [(_ & _ & H) _ _ _]. rewrite Forall_forall in H. by apply H. }
  assert (Hn' : inodes s' !! i = Some n) by (by rewrite (sr_inodes _ _ (cs_rest _ _ _ _ Hs))).
  apply wp_bind, wp_bind, wp_lock_acquire; [done|].
  apply wp_bind. eapply wp_load_cache; [exact Hc|]. rewrite Hrc. apply wp_when; [done|intros _].
  apply wp_bind. eapply wp_load_cache; [exact Hc|].
  apply wp_bind. unfold store_data. eapply wp_store_inode; [exact Hn'|].
  apply wp_bind. eapply wp_load_cache; [exact Hc|].
  apply wp_bind, wp_cond_signal; [simpl; set_solver|].
  apply wp_lock_release; [simpl; set_solver|]. rewrite Hdata.
  pose proof (cache_step_quiet _ _ _ (conj Hinv Hio) Hs) as Hq. specialize (HQ s' Hq).
  replace (set_held _ _) with (set_inodes (<[i:=set_idata (g (view s sector)) n]> (inodes s')) s'); [done|].
  unfold set_inodes, set_held. simpl.
  replace (({[cache_io h]} ∪ held s') ∖ {[cache_io h]}) with (held s') by set_solver. done.
Qed.

Lemma wp_load_from_disk sector cnt s (Q : nat -> fs -> Prop) :
  fs_ok s -> table_inv s -> valid_sector sector = true ->
  (forall s', let i := next_inode s in
     fs_ok s' -> (forall k, view s' k = view s k) -> free_map s' = free_map s ->
     free_map_file s' = free_map_file s -> held s' = held s ->
     open_inodes s' = i :: open_inodes s -> next_inode s' = S i ->
     inodes s' = <[i := Inode sector cnt false 0 (inode_disk_of (view s sector)) 0]> (inodes s) ->
     Q i s') ->
  wp (load_from_disk sector cnt) Q s.
Proof.
  intros Hok Ht Hv HQ. set (i := next_inode s) in *. cbn zeta in HQ.
  apply wp_bind. apply wp_bind, wp_gets. apply wp_bind, wp_modify, wp_ret. fold i.
  apply wp_bind, wp_modify, wp_bind. apply wp_locked; [simpl; apply Ht|].
  set (n0 := Inode 0 0 false 0 (inode_disk_of []) 0).
  apply wp_bind. eapply wp_store_inode; [simpl; by rewrite lookup_insert_eq|].
  cbn [inodes set_inodes set_held set_open_inodes set_next_inode]. rewrite insert_insert_eq.
  set (n1 := Inode sector cnt false 0 (i_data n0) 0).
  match goal with |- wp _ _ ?x => set (s1 := x) end.
  assert (Hok1 : fs_ok s1) by (apply (fs_ok_ext s); try done; simpl; set_solver).
  eapply (wp_exclusive_fetch i inode_disk_of sector s1 _ n1); [done|done|simpl; by rewrite lookup_insert_eq|].
  intros s2 [Q1 Q2 [R1 R2 R3 R4 R5 R6]]. simpl in R1, R2, R3, R4, R5, R6. split; [done|].
  apply wp_ret, HQ; simpl.
  - apply (fs_ok_ext s2); try done. simpl. rewrite R6. set_solver.
  - intros k. apply Q2.
  - done.
  - done.
  - done.
  - done.
  - done.
  - rewrite R4, insert_insert_eq. done.
Qed.


Lemma inode_next_fresh s i : table_inv s -> inodes s !! (next_inode s + i)%nat = None.
Proof.
  intros Ht. destruct (inodes s !! _) as [n|] eqn:H; [|done]. apply (ti_next _ Ht) in H. lia.
Qed.

Lemma table_inv_insert s i n n' :
  table_inv s -> inodes s !! i = Some n -> i_sector n' = i_sector n -> 1 <= i_open_cnt n' ->
  table_inv (set_inodes (<[i := n']> (inodes s)) s).
Proof.
  intros [T1 T2 T3 T4 T5] Hn Hsec Hcnt. split; simpl; [done| | | |done].
  - intros j Hj. destruct (decide (j = i)) as [->|].
    + exists n'. rewrite lookup_insert_eq, Hsec. destruct (T2 i Hj) as (m & Hm & Hv & _).
      rewrite Hn in Hm. injection Hm as <-. done.
    + rewrite lookup_insert_ne by done. by apply T2.
  - assert (Hold : forall j m, <[i := n']> (inodes s) !! j = Some m ->
      exists m', inodes s !! j = Some m' /\ i_sector m' = i_sector m).
    { intros j m. destruct (decide (j = i)) as [->|].
      - rewrite lookup_insert_eq. intros [= <-]. eauto.
      - rewrite lookup_insert_ne by done. eauto. }
    intros j k m m' Hj Hk Hm Hm' He. destruct (Hold _ _ Hm) as (x & Hx & Ex), (Hold _ _ Hm') as (y & Hy & Ey).
    eapply T3; [exact Hj|exact Hk|exact Hx|exact Hy|congruence].
  - intros j m. destruct (decide (j = i)) as [->|]; [intros _; by eapply T4|].
    rewrite lookup_insert_ne by done. apply T4.
Qed.

Lemma table_inv_ext s s' :
  table_inv s -> open_inodes s' = open_inodes s -> inodes s' = inodes s ->
  next_inode s' = next_inode s -> held s' = held s -> table_inv s'.
Proof. intros [] H1 H2 H3 H4. split; by rewrite ?H1, ?H2, ?H3, ?H4. Qed.

(** What [inode_open] gives: the struct the sector already has, with one opener more,
    or a new one read from the device. *)
Definition opened (sector : Z) s (o : option nat) s' : Prop :=
  exists i n', o = Some i /\ inodes s' = <[i := n']> (inodes s) /\ i_sector n' = sector /\
  i ∈ open_inodes s' /\
  match open_inode_at sector s with
  | Some j => i = j /\ open_inodes s' = open_inodes s /\
      exists n, inodes s !! i = Some n /\ n' = set_open_cnt (i_open_cnt n + 1) n
  | None => inodes s !! i = None /\ open_inodes s' = i :: open_inodes s /\
      n' = Inode sector 1 false 0 (inode_disk_of (view s sector)) 0
  end.

Lemma wp_inode_open sector s :
  fs_ok s -> table_inv s -> file_lock ∉ held s -> valid_sector sector = true -> malloc_ok = true ->
  wp (inode_open sector)
     (fun o s' => opened sector s o s' /\ table_inv s' /\ life_step (view s) s s') s.
Proof.
  intros Hok Ht Hl Hv Hm. pose proof Ht as [T1 T2 T3 T4 T5].
  apply wp_locked; [done|]. apply wp_bind, wp_gets. set (sl := set_held _ s).
  assert (Hokl : fs_ok sl) by (apply fs_ok_held; [set_solver|done]).
  change (open_inode_at sector sl) with (open_inode_at sector s).
  destruct (open_inode_at sector s) as [i|] eqn:Hat.
  - destruct (open_inode_at_Some _ _ _ Hat) as (Hin & n & Hn & Hs).
    apply wp_bind, wp_locked; [simpl; set_solver|]. apply wp_bind.
    eapply wp_load_inode; [exact Hn|]. eapply wp_store_inode; [exact Hn|]. split; [done|].
    apply wp_ret. split; [done|].
    set (n' := set_open_cnt (i_open_cnt n + 1) n). simpl.
    destruct (T2 i Hin) as (m & Hm' & _ & Hc). rewrite Hn in Hm'. injection Hm' as <-.
    split_and!.
    + exists i, n'. simpl. split_and!; try done. rewrite Hat.
      split_and!; [done|done|]. by exists n.
    + eapply (table_inv_ext (set_inodes (<[i := n']> (inodes s)) s)); [|done..].
      eapply table_inv_insert; [done|exact Hn|done|]. simpl. lia.
    + split; try done. by apply (fs_ok_ext s).
  - rewrite Hm. apply wp_bind, wp_load_from_disk; [done| |done|].
    { split; try done. simpl. set_solver. }
    intros s' i L1 L2 L3 L4 L5 L6 L7 L8. cbn [open_inodes inodes next_inode held set_held sl] in *.
    assert (Hfresh : inodes s !! i = None).
    { replace i with (next_inode s + 0)%nat by (unfold i; simpl; lia). by apply inode_next_fresh. }
    apply wp_ret. split; [done|]. split_and!.
    + exists i. eexists. simpl. split_and!; [done|exact L8|done| |].
      * rewrite L6. by left.
      * rewrite Hat. done.
    + split; simpl; rewrite ?L6, ?L7, ?L8.
      * apply NoDup_cons. split; [|done]. intros Hin. destruct (T2 _ Hin) as (x & Hx & _). congruence.
      * intros j Hj. apply elem_of_cons in Hj as [->|Hj].
        -- eexists. rewrite lookup_insert_eq. split_and!; [done|done|simpl; lia].
        -- rewrite lookup_insert_ne; [by apply T2|]. intros <-. destruct (T2 _ Hj) as (x & Hx & _). congruence.
      * intros j k x y Hj Hk. destruct (decide (j = i)) as [->|Hji], (decide (k = i)) as [->|Hki]; [done| | |].
        -- rewrite lookup_insert_eq, lookup_insert_ne by done. intros [= <-] Hy He. simpl in He.
           apply elem_of_cons in Hk as [|Hk]; [done|].
           by destruct (open_inode_at_None _ _ _ _ Hat Hk Hy).
        -- rewrite lookup_insert_eq, lookup_insert_ne by done. intros Hx [= <-] He. simpl in He.
           apply elem_of_cons in Hj as [|Hj]; [done|].
           by destruct (open_inode_at_None _ _ _ _ Hat Hj Hx).
        -- rewrite !lookup_insert_ne by done. apply elem_of_cons in Hj as [|Hj]; [done|].
           apply elem_of_cons in Hk as [|Hk]; [done|]. by apply T3.
      * intros j m. destruct (decide (j = i)) as [->|]; [intros _; unfold i; simpl; lia|].
        rewrite lookup_insert_ne by done. intros Hj%T4. unfold i. simpl. lia.
      * done.
    + split; simpl; try done. apply (fs_ok_ext s'); try done. simpl. rewrite L5. set_solver.
Qed.

(** [inode_open] opens every sector once.  It returns the struct of the sector if
    one is open, with its count of openers increased, and otherwise a fresh struct
    holding the inode stored in the sector; the table of open inodes stays well-formed
    (distinct sectors, each opened), and the contents of the device do not change. *)
Theorem inode_open_spec sector s :
  fs_ok s -> table_inv s -> file_lock ∉ held s -> valid_sector sector = true -> malloc_ok = true ->
  wp (inode_open sector)
     (fun o s' => opened sector s o s' /\ table_inv s' /\ life_step (view s) s s') s.
Proof. apply wp_inode_open. Qed.

(** What [inode_close] gives: one opener less, or, at the last one, the inode written
    to its sector, unlinked and freed. *)
Definition closed i (n : inode) s s' : Prop :=
  if i_open_cnt n =? 1
  then open_inodes s' = List.filter (fun k => negb (Nat.eqb k i)) (open_inodes s) /\
       inodes s' = delete i (inodes s) /\
       life_step (view_upd (view s) (i_sector n) (inode_disk_bytes (i_data n))) s s'
  else open_inodes s' = open_inodes s /\
       inodes s' = <[i := set_open_cnt (i_open_cnt n - 1) n]> (inodes s) /\
       life_step (view s) s s'.

Lemma table_inv_close s s' i n :
  table_inv s -> i ∈ open_inodes s -> inodes s !! i = Some n -> closed i n s s' ->
  next_inode s' = next_inode s -> table_inv s'.
Proof.
  intros Ht Hi Hn Hc Hnx. pose proof Ht as [T1 T2 T3 T4 T5]. unfold closed in Hc.
  destruct (T2 i Hi) as (m & Hm & _ & Hcnt). rewrite Hn in Hm. injection Hm as <-.
  destruct (Z.eqb_spec (i_open_cnt n) 1).
  - destruct Hc as (Ho & Hin & [_ _ _ _ Hh]).
    assert (Hmem : forall j, j ∈ List.filter (fun k => negb (Nat.eqb k i)) (open_inodes s) ->
      j ∈ open_inodes s /\ j <> i).
    { intros j Hj. apply list_elem_of_In, List.filter_In in Hj as [Hj Hne].
      split; [by apply list_elem_of_In|]. by destruct (Nat.eqb_spec j i). }
    split; rewrite ?Ho, ?Hin, ?Hh, ?Hnx.
    + apply NoDup_ListNoDup, List.NoDup_filter. by apply NoDup_ListNoDup.
    + intros j [Hj Hne]%Hmem. rewrite lookup_delete_ne by done. by apply T2.
    + intros j k x y [Hj Hne]%Hmem [Hk Hne']%Hmem. rewrite !lookup_delete_ne by done. by apply T3.
    + intros j x [_ Hj]%lookup_delete_Some. by eapply T4.
    + done.
  - destruct Hc as (Ho & Hin & [_ _ _ _ Hh]).
    eapply (table_inv_ext (set_inodes (<[i := set_open_cnt (i_open_cnt n - 1) n]> (inodes s)) s));
      [|done..]. eapply table_inv_insert; [done|exact Hn|done|]. simpl. lia.
Qed.

Lemma wp_inode_close i n s :
  fs_ok s -> table_inv s -> i ∈ open_inodes s -> inodes s !! i = Some n ->
  i_removed n = false -> words_ok (i_data n) ->
  wp (inode_close (Some i)) (fun _ s' => closed i n s s' /\ table_inv s') s.
Proof.
  intros Hok Ht Hi Hn Hrm Hw.
  assert (H : wp (inode_close (Some i)) (fun _ s' => closed i n s s' /\ next_inode s' = next_inode s) s).
  2:{ eapply wp_mono; [exact H|]. intros [] s' [Hc Hnx]. split; [done|]. by eapply table_inv_close. }
  apply wp_guarded. set (sl := set_held _ s).
  assert (Hokl : fs_ok sl) by (apply fs_ok_held; [set_solver|done]).
  apply wp_bind. eapply wp_load_inode; [exact Hn|]. apply wp_bind. eapply wp_store_inode; [exact Hn|].
  cbn [inodes sl set_held]. set (n1 := set_open_cnt (i_open_cnt n - 1) n).
  match goal with |- wp _ _ ?x => set (s1 := x) end. unfold closed.
  assert (Hfin : forall s', fs_ok s' -> held s' = held sl -> fs_ok (set_held (held s) s')).
  { intros s' Hs' Hh. apply (fs_ok_ext s'); try done. rewrite Hh. simpl. set_solver. }
  destruct (Z.eqb_spec (i_open_cnt n) 1) as [Hc|Hc].
  - apply wp_when; [intros _|intros H%Z.eqb_neq; lia]. apply wp_bind, wp_modify, wp_bind.
    assert (Hn1 : inodes s1 !! i = Some n1) by (simpl; by rewrite lookup_insert_eq).
    eapply wp_load_inode; [exact Hn1|]. cbn [i_sector i_data i_removed n1 set_open_cnt].
    assert (Hlen := length_inode_disk_bytes _ Hw).
    pose proof Ht as [_ T2 _ _ _]. destruct (T2 i Hi) as (m & Hm & Hv & _).
    rewrite Hn in Hm. injection Hm as <-.
    match goal with |- wp _ _ ?x => set (s2 := x) end.
    assert (Hok2 : fs_ok s2) by (by apply (fs_ok_ext sl)).
    assert (Hvl := view_length s2 _ (proj1 Hok2) Hv).
    apply wp_bind. eapply (wp_change_block _ _ (inode_disk_bytes (i_data n)));
      [apply Hok2|apply io_free_ok, Hok2|done| |done|].
    { rewrite memcpy_ok by lia. unfold splice. f_equal. change (Z.to_nat 0) with 0%nat.
      rewrite take_0, drop_ge by lia. by rewrite app_nil_r. }
    intros s3 Hs3. pose proof (cs_rest _ _ _ _ Hs3) as [R1 R2 R3 R4 R5 R6]. simpl in R1, R2, R3, R4, R5, R6.
    assert (Hok3 : fs_ok s3).
    { split; [apply Hs3|]. eapply cache_step_io_free; [apply Hok2..|exact Hs3]. }
    rewrite Hrm. apply wp_bind, wp_when; [done|intros _].
    apply wp_bind. eapply wp_load_inode; [rewrite R4; exact Hn1|]. apply wp_modify.
    simpl. rewrite R6. split; [done|]. split_and!; [done| | |done].
    + rewrite R4. by rewrite delete_insert_eq.
    + split; simpl; try done. { by apply (Hfin (set_inodes (delete i (inodes s3)) s3)); [apply (fs_ok_ext s3)|]. }
      intros k. change (view s3 k = view_upd (view s) (i_sector n) (inode_disk_bytes (i_data n)) k).
      by rewrite (cs_view _ _ _ _ Hs3).
  - apply wp_when; [intros H%Z.eqb_eq; lia|intros _]. simpl. split; [done|]. split_and!; try done.
    split; try done. apply (Hfin s1); [by apply (fs_ok_ext sl)|done].
Qed.

(** [inode_close].  A close that is not the last only counts the opener out; the
    last one of an inode that is not removed stores the inode in its sector, byte for
    byte, takes it off the list of open inodes and frees it.  No other sector changes,
    and the table stays well-formed. *)
Theorem inode_close_spec i n s :
  fs_ok s -> table_inv s -> i ∈ open_inodes s -> inodes s !! i = Some n ->
  i_removed n = false -> words_ok (i_data n) ->
  wp (inode_close (Some i)) (fun _ s' => closed i n s s' /\ table_inv s') s.
Proof. apply wp_inode_close. Qed.

(** A close that is not the last. *)
Lemma wp_inode_close_more i n s (Q : unit -> fs -> Prop) :
  inodes s !! i = Some n -> i_open_cnt n <> 1 ->
  Q tt (set_inodes (<[i := set_open_cnt (i_open_cnt n - 1) n]> (inodes s)) s) ->
  wp (inode_close (Some i)) Q s.
Proof.
  intros Hn Hc HQ. apply wp_guarded. apply wp_bind. eapply wp_load_inode; [exact Hn|].
  apply wp_bind. eapply wp_store_inode; [exact Hn|]. apply wp_when; [intros H%Z.eqb_eq; lia|intros _].
  split; [done|]. by destruct s.
Qed.

Lemma wp_inode_isdir i n s (Q : bool -> fs -> Prop) :
  inodes s !! i = Some n -> inode_io i ∉ held s -> Q (id_isdir (i_data n)) s ->
  wp (inode_isdir (Some i)) Q s.
Proof.
  intros Hn Hl HQ. apply wp_locked; [done|]. apply wp_bind. eapply wp_load_inode; [exact Hn|].
  apply wp_ret. split; [done|]. by destruct s.
Qed.

Lemma wp_inode_remove i n s (Q : unit -> fs -> Prop) :
  inodes s !! i = Some n -> inode_io i ∉ held s ->
  Q tt (set_inodes (<[i := set_removed true n]> (inodes s)) s) -> wp (inode_remove i) Q s.
Proof.
  intros Hn Hl HQ. apply wp_locked; [done|]. eapply wp_store_inode; [exact Hn|].
  split; [done|]. by destruct s.
Qed.

(** An inode survives closing and opening: when the last opener closes an inode
    that is not removed and its sector is opened again, the new struct holds the same
    [inode_disk], one opener, and no denied writes. *)
Theorem close_open_round_trip i n s :
  fs_ok s -> table_inv s -> i ∈ open_inodes s -> inodes s !! i = Some n -> i_open_cnt n = 1 ->
  i_removed n = false -> words_ok (i_data n) -> file_lock ∉ held s -> malloc_ok = true ->
  wp (inode_close (Some i);; inode_open (i_sector n))
     (fun o s' => exists j, o = Some j /\
        inodes s' !! j = Some (Inode (i_sector n) 1 false 0 (i_data n) 0)) s.
Proof.
  intros Hok Ht Hi Hn Hc Hrm Hw Hl Hm. apply wp_bind.
  eapply wp_mono; [by eapply wp_inode_close|]. intros [] s1 [Hcl Ht1]. unfold closed in Hcl.
  rewrite Hc in Hcl. destruct Hcl as (Ho & Hin & [L1 L2 L3 L4 L5]).
  destruct (ti_alive _ Ht i Hi) as (m & Hn' & Hv & _). rewrite Hn in Hn'. injection Hn' as <-.
  eapply wp_mono; [apply wp_inode_open; [done|done|by rewrite L5|exact Hv|done]|].
  intros o s2 [(j & n' & -> & Hj & Hsec & Hjo & Hcase) _]. exists j. split; [done|].
  rewrite Hj, lookup_insert_eq. f_equal.
  destruct (open_inode_at (i_sector n) s1) as [k|] eqn:Hat.
  - exfalso. destruct (open_inode_at_Some _ _ _ Hat) as (Hk & y & Hy & Hys).
    rewrite Ho in Hk. apply list_elem_of_In, List.filter_In in Hk as [Hk%list_elem_of_In Hne].
    rewrite Hin in Hy. apply lookup_delete_Some in Hy as [Hne' Hy].
    by apply Hne', (ti_sector _ Ht i k n y).
  - destruct Hcase as (_ & _ & ->). rewrite L2. unfold view_upd. rewrite Z.eqb_refl.
    by rewrite inode_disk_bytes_of.
Qed.
End life.

(** ** A table with one open inode *)
#[local] Existing Instance memory_available.

Definition open_inode : inode := Inode 5 1 false 0 (blank_inode 7 true) 0.
Definition open_fs : fs disk bits :=
  Fs ∅ [] 0 0 (replicate 8 true) None [0%nat] {[0%nat := open_inode]} 1 ∅.

Lemma open_fs_ok : fs_ok open_fs.
Proof.
  split; [|intros h Hh; by apply elem_of_nil in Hh]. split; try done.
  - split_and!; by constructor.
  - intros h Hh. by apply elem_of_nil in Hh.
Qed.

Lemma open_fs_table : table_inv open_fs.
Proof.
  split.
  - apply NoDup_singleton.
  - intros i ->%list_elem_of_singleton. exists open_inode. split_and!; [reflexivity..|simpl; lia].
  - by intros i j n m ->%list_elem_of_singleton ->%list_elem_of_singleton.
  - intros i n H. change (({[0%nat := open_inode]} : gmap nat inode) !! i = Some n) in H.
    apply lookup_singleton_Some in H as [<- _]. simpl. lia.
  - intros i. by apply not_elem_of_empty.
Qed.

Lemma open_inode_words : words_ok (i_data open_inode).
Proof. repeat split; try reflexivity; vm_compute; discriminate. Qed.

Lemma inode_open_spec_witness :
  wp (inode_open 5) (fun o s' => o = Some 0%nat) open_fs.
Proof.
  eapply wp_mono.
  - apply (inode_open_spec 5 open_fs); [exact open_fs_ok|exact open_fs_table|
      by apply not_elem_of_empty|reflexivity|reflexivity].
  - intros o s' [(i & n' & -> & _ & _ & _ & [-> _]) _]. reflexivity.
Defined.

Lemma inode_close_spec_witness :
  wp (inode_close (Some 0%nat)) (fun _ s' => open_inodes s' = []) open_fs.
Proof.
  eapply wp_mono.
  - apply (inode_close_spec 0 open_inode open_fs); [exact open_fs_ok|exact open_fs_table|
      by left|reflexivity|reflexivity|exact open_inode_words].
  - intros [] s' [[Ho _] _]. rewrite Ho. reflexivity.
Defined.

Lemma close_open_round_trip_witness :
  wp (inode_close (Some 0%nat);; inode_open 5)
     (fun o s' => exists j, o = Some j /\ inodes s' !! j = Some open_inode) open_fs.
Proof.
  apply (close_open_round_trip 0 open_inode open_fs); [exact open_fs_ok|exact open_fs_table|
    by left|reflexivity|reflexivity|reflexivity|exact open_inode_words|
    by apply not_elem_of_empty|reflexivity].
Defined.
