(* ===== verification/InodeFaults.v ===== *)
(** * InodeFaults: where [filesys/inode.c] does not do what it means to.

    Each theorem runs the functions of Inode on an ordinary file and states what
    goes wrong. *)
From S2P Require Import Prelude Bytes State Instances Cache FreeMap Inode InodeData InodeGrowth.
From Stdlib Require Import ZArith Lia.
From stdpp Require Import prelude gmap.

Open Scope Z_scope.

(** [m] stops with the fault [f]. *)
Definition faults {S A} (f : fault) (m : M S A) (s : S) : Prop := m s = Fail f.

Lemma faults_bind {S A B} f (m : M S A) (k : A -> M S B) s :
  wp m (fun a s' => faults f (k a) s') s -> faults f (m ≫= k) s.
Proof. unfold wp, faults, mbind, M_bind. by destruct (m s). Qed.

Lemma faults_bind_l {S A B} f (m : M S A) (k : A -> M S B) s :
  faults f m s -> faults f (m ≫= k) s.
Proof. unfold faults, mbind, M_bind. by intros ->. Qed.

(** [m] never returns, whatever the state. *)
Definition never {S A} (m : M S A) : Prop := forall s a s', m s <> Ok a s'.

Lemma never_fail {S A} f : never (S := S) (A := A) (fail f).
Proof. done. Qed.

Lemma never_bind_l {S A B} (m : M S A) (k : A -> M S B) : never m -> never (m ≫= k).
Proof.
  intros H s b s'. unfold mbind, M_bind. destruct (m s) as [a s1|f] eqn:He; [|done].
  by destruct (H s a s1).
Qed.

Lemma never_bind_r {S A B} (m : M S A) (k : A -> M S B) :
  (forall a, never (k a)) -> never (m ≫= k).
Proof.
  intros H s b s'. unfold mbind, M_bind. destruct (m s) as [a s1|f]; [|done]. apply H.
Qed.

Lemma never_when {S} c (m : M S unit) : c = true -> never m -> never (when c m).
Proof. by intros ->. Qed.

Lemma never_for_up {S} lo n (body : Z -> M S unit) j :
  lo <= j < lo + Z.of_nat n -> never (body j) -> never (for_up lo n body).
Proof.
  revert lo. induction n as [|n IH]; intros lo Hj Hb; [lia|]. simpl.
  destruct (Z.eq_dec j lo) as [->|].
  - by apply never_bind_l.
  - apply never_bind_r. intros []. apply IH; [lia|done].
Qed.

Section faults.
Context {D B : Type} {dev : BlockDev D} {bm : Bitmap B} {io : BitmapIO D B} {mem : Memory}.
Context {laws : BlockDevLaws D}.
Abbreviation fs := (fs D B).
Implicit Types (s : fs) (i : nat).

Lemma faults_change_block sid g s :
  fs_ok s -> valid_sector sid = true -> g (view s sid) = None ->
  faults BadAccess (change_block sid g) s.
Proof.
  intros [Hi Ho] Hv Hg. apply faults_bind. apply wp_cache_block; [done|by apply io_free_ok|done|].
  intros h c s' Hs Hc Hsid Hnio _.
  assert (Hdata : c_data c = view s sid).
  { rewrite <- (cs_view _ _ _ _ Hs), <- Hsid. unfold view. symmetry.
    apply lview_elem; [apply Hs|]. by apply find_id_Some in Hc as [? _]. }
  assert (Hce : entry_ok (fs_device s') c).
  { destruct (cs_inv _ _ _ _ Hs) as [(_ & _ & H) _ _ _]. rewrite Forall_forall in H.
    apply H. by apply find_id_Some in Hc as [? _]. }
  apply faults_bind, wp_bind, wp_lock_acquire; [done|].
  apply wp_bind. eapply wp_load_cache; [exact Hc|].
  destruct Hce as (_ & _ & -> & _). apply wp_when; [done|intros _].
  apply faults_bind. eapply wp_load_cache; [exact Hc|]. rewrite Hdata, Hg.
  by apply faults_bind_l.
Qed.


(** Large files cannot be deleted.  [inode_delete] walks the index block with
    subscripts that start at the number of the last block instead of 0; from 65 full
    sectors on they leave the 128 entries of the block, whatever the state of the
    rest of the file system. *)
Theorem inode_delete_large i n s :
  inodes s !! i = Some n -> 65 * 512 <= id_length (i_data n) -> forall s', inode_delete i s <> Ok tt s'.
Proof.
  intros Hi HL s'. assert (Hb : 65 <= id_length (i_data n) / 512)
    by (Z.div_mod_to_equations; lia).
  unfold inode_delete, locked, mbind, M_bind, lock_acquire.
  case_decide; [done|]. unfold load_inode at 1, mbind, M_bind, get, deref. cbn [inodes set_held].
  rewrite Hi. cbn beta zeta. unfold SECTOR. rewrite Z.quot_div_nonneg by lia.
  destruct (free_map_release _ _ _) as [[] s1|]; [|done].
  destruct (drop_cached _ _) as [[] s2|]; [|done].
  match goal with |- context [when ?c ?m s2] =>
    assert (Hnv : never (when c m)); [|destruct (when c m s2) as [[] s3|] eqn:He; [|done]] end.
  { apply never_when; [zcase|]. apply never_bind_r. intros h. apply never_bind_r. intros [].
    apply never_bind_r. intros index.
    apply (never_for_up _ _ _ (Z.max 0 (129 - id_length (i_data n) / 512))); [lia|].
    apply never_bind_l. unfold index_block. zcase. }
  by destruct (Hnv s2 tt s3).
Qed.
End faults.


(** ** Runs on small file systems *)
#[local] Existing Instance memory_available.

(** A file of 1200 bytes: blocks 3, 6 and 7, index 4, inode 5. *)
Definition three_block_fs : fs disk bits :=
  Fs (<[4 := le32 6 ++ le32 7]> ∅) [] 0 0 (replicate 8 true ++ replicate 1016 false)
    (Some (File 0 0 false)) []
    {[0%nat := Inode 5 0 true 0 (InodeDisk 1200 3 4 0 INODE_MAGIC false [0; 0; 0] 0 []) 0]} 1 ∅.

Lemma inode_delete_large_witness :
  65 * 512 <= 40000 /\
  forall s', inode_delete 0 (set_inodes {[0%nat := Inode 5 0 true 0
    (InodeDisk 40000 3 4 0 INODE_MAGIC false [0; 0; 0] 0 []) 0]} three_block_fs) <> Ok tt s'.
Proof. split; [lia|]. intros s'. eapply inode_delete_large; [reflexivity|simpl; lia]. Defined.

(** [inode_delete] releases the wrong sectors.  Deleting a file of three blocks
    leaves its second block allocated for ever and releases sector 0, the inode of the
    free map, because the subscripts of the index block start at 2. *)
Theorem inode_delete_wrong_sectors :
  match inode_delete 0 three_block_fs with
  | Ok _ s' => in_use s' 6 = true /\ in_use three_block_fs FREE_MAP_SECTOR = true /\
      in_use s' FREE_MAP_SECTOR = false
  | Fail _ => False
  end.
Proof. vm_compute. repeat split. Qed.

(** A disk with 1024 sectors, [used] of them in use, sector 0 not blank. *)
Definition used_fs (used : nat) : fs disk bits :=
  Fs {[0 := replicate 512 9]} [] 0 0 (replicate used true ++ replicate (1024 - used) false)
    (Some (File 0 0 false)) [] ∅ 0 ∅.

(** A full disk is not noticed.  With no free sector [inode_create] still returns
    true, although it promises false when disk allocation fails: the inode keeps
    sector number 0 for its first sector, so that creating an empty file clears the
    inode of the free map. *)
Theorem inode_create_full_disk :
  match inode_create 5 0 false (used_fs 1024) with
  | Ok r s' => r = true /\ view (used_fs 1024) FREE_MAP_SECTOR = replicate 512 9 /\
      view s' FREE_MAP_SECTOR = replicate 512 0
  | Fail _ => False
  end.
Proof. vm_compute. repeat split. Qed.

(** An empty file loses two sectors at its first write.  [inode_create] gives an
    empty file a first sector and an index block; the first write, finding length 0,
    allocates both again, and the old ones (4 and 5) stay in use outside the file. *)
Theorem first_write_leaks :
  match (inode_create 3 0 false;; o ← inode_open 3; i ← deref o;
         w ← inode_write_at i [7] 1 0; n ← load_inode i; mret (w, i_data n)) (used_fs 4) with
  | Ok (w, d) s' => w = 1 /\ content (view s') d = [7] /\
      in_use s' 4 = true /\ in_use s' 5 = true /\ id_sp d = 6 /\ id_ind d = 7
  | Fail _ => False
  end.
Proof. vm_compute. repeat split. Qed.
