(* ===== verification/File.v ===== *)
(** * File: open files ([filesys/file.c]).

    The objects behind [struct file *] and [struct dir *] and the operations on open
    files.  [filesys_open] casts a [struct dir *] to [struct file *]: the two structs
    share their first two fields, and [deny_write] lies in the list element of the
    directory, which the code does not use.  One heap of [file] records serves both. *)
From S2P Require Import Prelude Bytes State Instances Cache FreeMap Inode InodeData.
From Stdlib Require Import ZArith Lia.
From stdpp Require Import prelude gmap.

Open Scope Z_scope.

(** The state of the layers above the inodes: the file system, the open files and
    directories, the pointer [free_map_file] and the current directory of the running
    thread. *)
Record os (D B : Type) := Os {
  os_fs : fs D B;
  os_files : gmap nat file;
  os_next : nat;
  os_free_map_file : option nat;
  os_cur_dir : option nat;
}.
Arguments Os {D B}. Arguments os_fs {D B}. Arguments os_files {D B}. Arguments os_next {D B}.
Arguments os_free_map_file {D B}. Arguments os_cur_dir {D B}.

Definition set_pos (n : Z) (f : file) : file := File (f_inode f) n (f_deny_write f).
Definition set_deny_write (b : bool) (f : file) : file := File (f_inode f) (f_pos f) b.

Section file.
Context {D B : Type} {dev : BlockDev D} {bm : Bitmap B} {io : BitmapIO D B} {mem : Memory}.
Abbreviation os := (os D B).
Abbreviation K := (M os).
Implicit Types (s : os) (p i : nat).

Definition set_fs x s : os := Os x (os_files s) (os_next s) (os_free_map_file s) (os_cur_dir s).
Definition set_files x s : os := Os (os_fs s) x (os_next s) (os_free_map_file s) (os_cur_dir s).
Definition set_next x s : os := Os (os_fs s) (os_files s) x (os_free_map_file s) (os_cur_dir s).
Definition set_fmf x s : os := Os (os_fs s) (os_files s) (os_next s) x (os_cur_dir s).
Definition set_cur_dir x s : os := Os (os_fs s) (os_files s) (os_next s) (os_free_map_file s) x.

(** An operation of the inode layer. *)
Definition lift {A} (m : M (fs D B) A) : K A := fun s =>
  match m (os_fs s) with Ok a x => Ok a (set_fs x s) | Fail f => Fail f end.

Definition load_file p : K file := s ← get; deref (os_files s !! p).
Definition store_file p (g : file -> file) : K unit :=
  f ← load_file p; modify (fun s => set_files (<[p := g f]> (os_files s)) s).
(** [calloc (1, sizeof *file)], of which the inode is set at once. *)
Definition new_file i : K nat :=
  p ← gets os_next;
  modify (fun s => set_next (S p) (set_files (<[p := File i 0 false]> (os_files s)) s));;
  mret p.
Definition free_file p : K unit :=
  load_file p;; modify (fun s => set_files (delete p (os_files s)) s).

Definition file_open (inode : option nat) : K (option nat) :=
  match inode, malloc_ok with
  | Some i, true => p ← new_file i; mret (Some p)
  | _, _ => lift (inode_close inode);; mret None
  end.

Definition file_reopen p : K (option nat) :=
  f ← load_file p; o ← lift (inode_reopen (Some (f_inode f))); file_open o.

Definition file_allow_write p : K unit :=
  f ← load_file p;
  when (f_deny_write f)
    (store_file p (set_deny_write false);; lift (inode_allow_write (f_inode f))).

Definition file_deny_write p : K unit :=
  f ← load_file p;
  when (negb (f_deny_write f))
    (store_file p (set_deny_write true);; lift (inode_deny_write (f_inode f))).

Definition file_close (o : option nat) : K unit :=
  match o with
  | None => mret tt
  | Some p =>
    file_allow_write p;;
    f ← load_file p;
    lift (inode_close (Some (f_inode f)));;
    free_file p
  end.

Definition file_get_inode p : K nat := f ← load_file p; mret (f_inode f).

(** Reads return the bytes, whose number the code returns. *)
Definition file_read p (size : Z) : K (list Z) :=
  f ← load_file p;
  bytes ← lift (inode_read_at (f_inode f) size (f_pos f));
  pos ← add_int (f_pos f) (Z.of_nat (length bytes));
  store_file p (set_pos pos);;
  mret bytes.

Definition file_read_at p (size file_ofs : Z) : K (list Z) :=
  f ← load_file p; lift (inode_read_at (f_inode f) size file_ofs).

Definition file_write p (buffer : list Z) (size : Z) : K Z :=
  f ← load_file p;
  n ← lift (inode_write_at (f_inode f) buffer size (f_pos f));
  pos ← add_int (f_pos f) n;
  store_file p (set_pos pos);;
  mret n.

Definition file_write_at p (buffer : list Z) (size file_ofs : Z) : K Z :=
  f ← load_file p; lift (inode_write_at (f_inode f) buffer size file_ofs).

Definition file_length p : K Z := f ← load_file p; lift (inode_length (f_inode f)).

Definition file_seek p (new_pos : Z) : K unit :=
  assert (0 <=? new_pos);; store_file p (set_pos new_pos).

Definition file_tell p : K Z := f ← load_file p; mret (f_pos f).

(** ** Rules *)
Lemma wp_lift {A} (m : M (fs D B) A) s (Q : A -> os -> Prop) :
  wp m (fun a x => Q a (set_fs x s)) (os_fs s) -> wp (lift m) Q s.
Proof. unfold wp, lift. by destruct (m (os_fs s)). Qed.

Lemma wp_load_file p f s (Q : file -> os -> Prop) :
  os_files s !! p = Some f -> Q f s -> wp (load_file p) Q s.
Proof. intros H HQ. apply wp_bind, wp_get. by eapply wp_deref. Qed.

Lemma wp_store_file p f g s (Q : unit -> os -> Prop) :
  os_files s !! p = Some f -> Q tt (set_files (<[p := g f]> (os_files s)) s) ->
  wp (store_file p g) Q s.
Proof. intros H HQ. apply wp_bind. eapply wp_load_file; [exact H|]. by apply wp_modify. Qed.

Context {laws : BlockDevLaws D}.

(** An open file [f] at [p], on the inode [n] that nobody has locked. *)
Record file_at p (f : file) (n : inode) s : Prop := {
  fa_file : os_files s !! p = Some f;
  fa_inode : inodes (os_fs s) !! f_inode f = Some n;
  fa_ok : fs_ok (os_fs s);
  fa_wf : file_wf (view (os_fs s)) (i_data n);
  fa_max : id_length (i_data n) <= INT_MAX;
  fa_pos : 0 <= f_pos f <= INT_MAX;
  fa_lock : inode_io (f_inode f) ∉ held (os_fs s);
}.

Definition file_bytes (n : inode) s : list Z := content (view (os_fs s)) (i_data n).

Lemma file_at_quiet p f n s x pos :
  file_at p f n s -> quiet (os_fs s) x -> 0 <= pos <= INT_MAX ->
  file_at p (set_pos pos f) n (set_files (<[p := set_pos pos f]> (os_files s)) (set_fs x s)) /\
  content (view x) (i_data n) = file_bytes n s.
Proof.
  intros [H1 H2 H3 H4 H5 H6 H7] [Q1 Q2 [R1 R2 R3 R4 R5 R6]] Hp. split; [split|]; simpl; try done.
  - by rewrite lookup_insert_eq.
  - by rewrite R4.
  - eapply file_wf_ext; [|exact H4]. intros; apply Q2.
  - by rewrite R6.
  - by apply content_ext.
Qed.

Lemma wp_file_read p f n size s (Q : list Z -> os -> Prop) :
  file_at p f n s ->
  (forall s', let bytes := slice (f_pos f) size (file_bytes n s) in
     let f' := set_pos (f_pos f + Z.of_nat (length bytes)) f in
     file_at p f' n s' -> file_bytes n s' = file_bytes n s ->
     os_files s' = <[p := f']> (os_files s) -> quiet (os_fs s) (os_fs s') -> Q bytes s') ->
  wp (file_read p size) Q s.
Proof.
  intros Hf HQ. pose proof Hf as [H1 H2 H3 H4 H5 H6 H7]. cbn zeta in HQ.
  apply wp_bind. eapply wp_load_file; [exact H1|]. apply wp_bind, wp_lift.
  eapply wp_mono; [apply (wp_inode_read_at (f_inode f) n); [done..|lia]|].
  intros bytes x [-> Hq]; cbn beta in *. fold (file_bytes n s).
  assert (Hlen : f_pos f + Z.of_nat (length (slice (f_pos f) size (file_bytes n s))) <= INT_MAX).
  { unfold slice, file_bytes. rewrite length_take, length_drop.
    pose proof (length_content (view (os_fs s)) (i_data n)). lia. }
  apply wp_bind, wp_add_int; [unfold INT_MIN; lia|].
  apply wp_bind. eapply wp_store_file; [exact H1|]. apply wp_ret.
  edestruct (file_at_quiet p f n s x) as [Hf' Hc']; [done|exact Hq| |].
  2:{ apply HQ; [exact Hf'|exact Hc'|done|exact Hq]. }
  split; [lia|done].
Qed.

Lemma wp_file_write p f n buffer size s (Q : Z -> os -> Prop) :
  file_at p f n s -> i_read_cnt n = 0 -> i_deny_write_cnt n = 0 -> 0 <= size ->
  f_pos f + size <= id_length (i_data n) -> size <= Z.of_nat (length buffer) ->
  (forall s', let f' := set_pos (f_pos f + size) f in
     file_at p f' n s' -> file_bytes n s' = splice (f_pos f) (slice 0 size buffer) (file_bytes n s) ->
     held (os_fs s') = held (os_fs s) -> Q size s') ->
  wp (file_write p buffer size) Q s.
Proof.
  intros [H1 H2 H3 H4 H5 H6 H7] Hr Hd Hs Hl Hb HQ. cbn zeta in HQ.
  apply wp_bind. eapply wp_load_file; [exact H1|]. apply wp_bind, wp_lift.
  eapply wp_mono; [apply (wp_inode_write_in_place (f_inode f) n buffer size (f_pos f)); try done; lia|].
  intros w x (-> & Hok & [R1 R2 R3 R4 R5 R6] & Hwf & Hc & _); cbn beta in *.
  apply wp_bind, wp_add_int; [unfold INT_MIN; lia|].
  apply wp_bind. eapply wp_store_file; [exact H1|]. apply wp_ret, HQ; [|done|done].
  split; simpl; try done.
  - by rewrite lookup_insert_eq.
  - by rewrite R4.
  - lia.
  - by rewrite R6.
Qed.

(** Sequential reads.  Two reads in a row return together what one read of both
    sizes returns, and leave the position where that read leaves it, wherever the end
    of the file falls. *)
Theorem file_read_sequential p f n size1 size2 s :
  file_at p f n s -> 0 <= size1 -> 0 <= size2 ->
  wp (b1 ← file_read p size1; b2 ← file_read p size2; pos ← file_tell p; mret (b1 ++ b2, pos))
     (fun r s' => r.1 = slice (f_pos f) (size1 + size2) (file_bytes n s) /\
        r.2 = f_pos f + Z.of_nat (length (slice (f_pos f) (size1 + size2) (file_bytes n s))) /\
        file_bytes n s' = file_bytes n s) s.
Proof.
  intros Hf H1 H2. pose proof (fa_pos _ _ _ _ Hf) as Hp.
  apply wp_bind, (wp_file_read p f n); [done|]. intros s1 b1 f1 Hf1 Hb1 _ _.
  apply wp_bind, (wp_file_read p f1 n); [done|]. intros s2 b2 f2 Hf2 Hb2 _ _.
  apply wp_bind, wp_bind. eapply wp_load_file; [apply Hf2|]. apply wp_ret, wp_ret. simpl.
  assert (Hs : b1 ++ b2 = slice (f_pos f) (size1 + size2) (file_bytes n s))
    by (unfold b2; rewrite Hb1; apply slice_slice_app; lia).
  rewrite <- Hs, length_app. split_and!; [done| |by rewrite Hb2].
  unfold f1. simpl. fold b1. lia.
Qed.

(** Denying writes through an open file is idempotent and undone by one
    [file_allow_write]: the state, with the count in the inode, is the old one. *)
Theorem file_deny_allow p f n s :
  os_files s !! p = Some f -> f_deny_write f = false ->
  inodes (os_fs s) !! f_inode f = Some n -> 0 <= i_deny_write_cnt n < i_open_cnt n ->
  inode_io (f_inode f) ∉ held (os_fs s) ->
  wp (file_deny_write p;; file_deny_write p)
     (fun _ s' => exists f' n', os_files s' !! p = Some f' /\ f_deny_write f' = true /\
        inodes (os_fs s') !! f_inode f = Some n' /\
        i_deny_write_cnt n' = i_deny_write_cnt n + 1 /\
        wp (file_allow_write p) (fun _ s'' => s'' = s) s') s.
Proof.
  intros Hf Hd Hn Hc Hl.
  set (f' := set_deny_write true f). set (n' := set_deny (i_deny_write_cnt n + 1) n).
  set (s' := set_files (<[p := f']> (os_files s))
    (set_fs (set_inodes (<[f_inode f := n']> (inodes (os_fs s))) (os_fs s)) s)).
  assert (Hf' : os_files s' !! p = Some f') by (simpl; by rewrite lookup_insert_eq).
  apply wp_bind. apply wp_bind. eapply wp_load_file; [exact Hf|]. rewrite Hd.
  apply wp_when; [intros _|done]. apply wp_bind. eapply wp_store_file; [exact Hf|].
  apply wp_lift, wp_locked; [done|]. apply wp_bind. eapply wp_load_inode; [exact Hn|].
  apply wp_bind. eapply wp_store_inode; [exact Hn|]. apply wp_assert; [zcase|].
  split; [done|].
  match goal with |- wp _ _ ?x => replace x with s' end.
  2:{ unfold s', set_fs, set_files, set_inodes, set_held. simpl. done. }
  apply wp_bind. eapply wp_load_file; [exact Hf'|]. apply wp_when; [done|intros _].
  exists f', n'. split_and!; [done|done|simpl; by rewrite lookup_insert_eq|done|].
  apply wp_bind. eapply wp_load_file; [exact Hf'|]. apply wp_when; [intros _|done].
  apply wp_bind. eapply wp_store_file; [exact Hf'|].
  apply wp_lift, wp_locked; [done|].
  assert (Hn' : inodes (os_fs s') !! f_inode f = Some n') by (simpl; by rewrite lookup_insert_eq).
  apply wp_bind. eapply wp_load_inode; [exact Hn'|]. apply wp_bind, wp_assert; [simpl; zcase|].
  apply wp_bind, wp_assert; [simpl; zcase|]. eapply wp_store_inode; [exact Hn'|].
  split; [done|]. unfold s', set_fs, set_files, set_inodes, set_held. simpl.
  rewrite !insert_insert_eq.
  replace (set_deny_write false f') with f by (destruct f; simpl in *; by subst).
  replace (set_deny (i_deny_write_cnt n + 1 - 1) n') with n
    by (unfold n', set_deny; destruct n; simpl; f_equal; lia).
  rewrite !insert_id by done. by destruct s as [[]].
Qed.

(** What is written can be read: after a write inside an open file, a read of the
    same place returns the bytes written. *)
Theorem file_write_read_back p f n buffer size ofs s :
  file_at p f n s -> i_read_cnt n = 0 -> i_deny_write_cnt n = 0 -> 0 <= ofs -> 0 <= size ->
  ofs + size <= id_length (i_data n) -> size <= Z.of_nat (length buffer) ->
  wp (w ← file_write_at p buffer size ofs; b ← file_read_at p size ofs; mret (w, b))
     (fun r s' => r = (size, slice 0 size buffer)) s.
Proof.
  intros [H1 H2 H3 H4 H5 H6 H7] Hr Hd Ho Hs Hl Hb.
  apply wp_bind, wp_bind. eapply wp_load_file; [exact H1|]. apply wp_lift.
  eapply wp_mono; [apply (wp_inode_write_in_place (f_inode f) n buffer size ofs); done|].
  intros w x (-> & Hok & [R1 R2 R3 R4 R5 R6] & Hwf & Hc & _); cbn beta in *.
  apply wp_bind, wp_bind. eapply wp_load_file; [exact H1|]. apply wp_lift.
  eapply wp_mono; [apply (wp_inode_read_at (f_inode f) n size ofs); [done|simpl; by rewrite R4|simpl; by rewrite R6|done|done]|].
  intros b y [-> _]; cbn beta. apply wp_ret. f_equal. simpl. rewrite Hc.
  pose proof (length_content (view (os_fs s)) (i_data n)).
  assert (Hsl : Z.of_nat (length (slice 0 size buffer)) = size) by (rewrite length_slice; lia).
  rewrite <- Hsl at 1. apply slice_splice_same; lia.
Qed.
End file.

(** ** An open file on the 600 bytes of InodeData *)
Definition open_file_os (pos : Z) : os disk bits :=
  Os (two_block_fs 0) {[0%nat := File 0 pos false]} 1 None None.

Lemma open_file_at pos :
  0 <= pos <= INT_MAX -> file_at 0 (File 0 pos false) (two_block_inode 0) (open_file_os pos).
Proof.
  intros Hp. split; [done|done|apply two_block_ok|apply two_block_wf|vm_compute; discriminate|done|].
  by apply not_elem_of_empty.
Qed.

Lemma file_read_sequential_witness :
  wp (b1 ← file_read 0 4; b2 ← file_read 0 100; pos ← file_tell 0; mret (b1 ++ b2, pos))
     (fun r s' => r = ([1; 1] ++ replicate 88 2, 600)) (open_file_os 510).
Proof.
  eapply wp_mono.
  - apply (file_read_sequential 0 (File 0 510 false) (two_block_inode 0) 4 100 (open_file_os 510));
      [apply open_file_at; unfold INT_MAX; lia|lia|lia].
  - intros [b pos] s' (H1 & H2 & _). simpl in H1, H2. rewrite H1, H2. vm_compute. reflexivity.
Defined.

Lemma file_deny_allow_witness :
  wp (file_deny_write 0;; file_deny_write 0)
     (fun _ s' => wp (file_allow_write 0) (fun _ s'' => s'' = open_file_os 0) s') (open_file_os 0).
Proof.
  eapply wp_mono.
  - apply (file_deny_allow 0 (File 0 0 false) (two_block_inode 0) (open_file_os 0));
      [reflexivity|reflexivity|reflexivity|simpl; lia|by apply not_elem_of_empty].
  - intros [] s' (f' & n' & _ & _ & _ & _ & H). exact H.
Defined.

Lemma file_write_read_back_witness :
  wp (w ← file_write_at 0 [7; 8; 9] 3 510; b ← file_read_at 0 3 510; mret (w, b))
     (fun r s' => r = (3, [7; 8; 9])) (open_file_os 0).
Proof.
  apply (file_write_read_back 0 (File 0 0 false) (two_block_inode 0) [7; 8; 9] 3 510 (open_file_os 0));
    [apply open_file_at; unfold INT_MAX; lia|reflexivity|reflexivity|lia|lia|simpl; lia|simpl; lia].
Defined.
