(* ===== verification/Directory.v ===== *)
(** * Directory: directories and path resolution ([filesys/directory.c]). *)
From S2P Require Import Prelude Bytes State Instances Cache FreeMap Inode InodeData InodeGrowth InodeLife File.
From Stdlib Require Import ZArith Lia.
From stdpp Require Import prelude gmap.

Open Scope Z_scope.

Definition NAME_MAX : Z := 14.
Definition DIRENT : Z := 20.                      (* [sizeof (struct dir_entry)] *)

(** ** C strings: lists of bytes, none of them 0, without the terminator *)
Definition SLASH : Z := 47.
Definition DOT : list Z := [46].
Definition DOTDOT : list Z := [46; 46].

(** [!strcmp (a, b)] for the string [a] and a pointer to the bytes [b]; [None] when
    the comparison runs out of the object. *)
Fixpoint str_eq (a b : list Z) : option bool :=
  match a, b with
  | _, [] => None
  | [], y :: _ => Some (y =? 0)
  | x :: a', y :: b' => if x =? y then str_eq a' b' else Some false
  end.

(** The string at a pointer to the bytes [b]. *)
Fixpoint c_string (b : list Z) : option (list Z) :=
  match b with
  | [] => None
  | x :: b' => if x =? 0 then Some [] else (fun r => x :: r) <$> c_string b'
  end.

(** The tokens [strtok_r (name, "/", ...)] produces. *)
Fixpoint strtok_loop (cur : list Z) (name : list Z) : list (list Z) :=
  match name with
  | [] => match cur with [] => [] | _ => [cur] end
  | x :: rest =>
    if x =? SLASH
    then match cur with [] => strtok_loop [] rest | _ => cur :: strtok_loop [] rest end
    else strtok_loop (cur ++ [x]) rest
  end.
Definition strtok (name : list Z) : list (list Z) := strtok_loop [] name.

(** ** [struct dir_entry] as 20 bytes: sector, name, in_use *)
Definition e_sector (e : list Z) : Z := word_at e 0.
Definition e_name (e : list Z) : list Z := drop 4 e.      (* a pointer into the object *)
Definition e_in_use (e : list Z) : bool := negb (byte_at e 19 =? 0).
Definition set_in_use (b : bool) (e : list Z) : list Z := splice 19 [if b then 1 else 0] e.
Definition set_sector (n : Z) (e : list Z) : list Z := splice 0 (le32 n) e.
(** [strlcpy (e.name, name, sizeof e.name)] *)
Definition set_name (name : list Z) (e : list Z) : list Z :=
  splice 4 (take (Z.to_nat NAME_MAX) name ++ [0]) e.

Section directory.
Context {D B : Type} {dev : BlockDev D} {bm : Bitmap B} {io : BitmapIO D B} {mem : Memory}.
Abbreviation os := (os D B).
Abbreviation K := (M os).
Implicit Types (p i : nat).

(** [for (ofs = 0; inode_read_at (dir->inode, &e, sizeof e, ofs) == sizeof e;
    ofs += sizeof e) if (stop (e)) break;]: whether the loop was left by [stop], the
    bytes of [e] and [ofs]. *)
Fixpoint scan (fuel : nat) i (stop : list Z -> M (fs D B) bool) (e : list Z) (ofs : Z) :
    M (fs D B) (bool * list Z * Z) :=
  match fuel with
  | O => fail Hang
  | S fuel' =>
    b ← inode_read_at i DIRENT ofs;
    let e := splice 0 b e in
    if Z.of_nat (length b) =? DIRENT then
      x ← stop e;
      if (x : bool) then mret (true, e, ofs) else scan fuel' i stop e (ofs + DIRENT)
    else mret (false, e, ofs)
  end.

(** The loop ends at the end of the file, whose length bounds the passes. *)
Definition scan_all i stop (e : list Z) : M (fs D B) (bool * list Z * Z) :=
  n ← load_inode i;
  scan (S (Z.to_nat (id_length (i_data n)))) i stop e 0.

(** [e.in_use && !strcmp (name, e.name)] *)
Definition named (name e : list Z) : M (fs D B) bool :=
  if e_in_use e then deref (str_eq name (e_name e)) else mret false.

(** The entry and its offset. *)
Definition lookup i (name : list Z) : M (fs D B) (option (list Z * Z)) :=
  '(found, e, ofs) ← scan_all i (named name) (replicate 20 0);
  mret (if (found : bool) then Some (e, ofs) else None).

Definition dir_create (sector entry_cnt : Z) : K bool :=
  lift (inode_create sector (s32 (u32 (entry_cnt * DIRENT))) true).

Definition dir_open (inode : option nat) : K (option nat) :=
  match inode, malloc_ok with
  | Some i, true => p ← new_file i; mret (Some p)
  | _, _ => lift (inode_close inode);; mret None
  end.

Definition dir_open_root : K (option nat) := o ← lift (inode_open ROOT_DIR_SECTOR); dir_open o.

Definition dir_reopen p : K (option nat) :=
  f ← load_file p; o ← lift (inode_reopen (Some (f_inode f))); dir_open o.

Definition dir_close (o : option nat) : K unit :=
  match o with
  | None => mret tt
  | Some p => f ← load_file p; lift (inode_close (Some (f_inode f)));; free_file p
  end.

Definition dir_get_inode p : K nat := f ← load_file p; mret (f_inode f).

(** [*inode] on return; [NULL] stands for a result of false. *)
Definition dir_lookup (dir : option nat) (name : list Z) : K (option nat) :=
  p ← (match dir with Some p => mret p | None => fail Panic end);
  f ← load_file p;
  r ← lift (lookup (f_inode f) name);
  match r with
  | Some (e, _) => lift (inode_open (e_sector e))
  | None => mret None
  end.

Definition dir_is_empty p : K bool :=
  f ← load_file p;
  '(found, _, _) ← lift (scan_all (f_inode f) (fun e => mret (e_in_use e)) (replicate 20 0));
  mret (negb found).

(** [e0]: the bytes of the uninitialised local [e]. *)
Definition dir_add (e0 : list Z) p (name : list Z) (inode_sector : Z) : K bool :=
  if bool_decide (name = []) || (NAME_MAX <? Z.of_nat (length name)) then mret false
  else
    f ← load_file p;
    r ← lift (lookup (f_inode f) name);
    match r with
    | Some _ => mret false
    | None =>
      '(_, e, ofs) ← lift (scan_all (f_inode f) (fun e => mret (negb (e_in_use e))) e0);
      let e := set_sector inode_sector (set_name name (set_in_use true e)) in
      w ← lift (inode_write_at (f_inode f) e DIRENT ofs);
      mret (w =? DIRENT)
    end.

(** The code from the label [done] of [dir_remove] on. *)
Definition dir_remove_done (inode : option nat) (success : bool) : K bool :=
  lift (inode_close inode);; mret success.

Definition dir_remove p (name : list Z) : K bool :=
  f ← load_file p;
  r ← lift (lookup (f_inode f) name);
  match r with
  | None => dir_remove_done None false
  | Some (e, ofs) =>
    o ← lift (inode_open (e_sector e));
    match o with
    | None => dir_remove_done None false
    | Some i =>
      isdir ← lift (inode_isdir (Some i));
      busy ←
        (if (isdir : bool) then
           d ← dir_open (Some i);
           d ← deref d;
           empty ← dir_is_empty d;
           if negb empty then mret true
           else c ← lift (inode_open_cnt i); mret (2 <? c)
         else mret false);
      if (busy : bool) then dir_remove_done (Some i) false
      else
        w ← lift (inode_write_at (f_inode f) (set_in_use false e) DIRENT ofs);
        if negb (w =? DIRENT) then dir_remove_done (Some i) false
        else lift (inode_remove i);; dir_remove_done (Some i) true
    end
  end.

(** The name copied out, when the result is true. *)
Fixpoint readdir_loop (fuel : nat) p : K (option (list Z)) :=
  match fuel with
  | O => fail Hang
  | S fuel' =>
    f ← load_file p;
    e ← lift (inode_read_at (f_inode f) DIRENT (f_pos f));
    if Z.of_nat (length e) =? DIRENT then
      store_file p (set_pos (f_pos f + DIRENT));;
      if e_in_use e then
        name ← deref (c_string (e_name e));
        mret (Some (take (Z.to_nat NAME_MAX) name))
      else readdir_loop fuel' p
    else mret None
  end.

Definition dir_readdir p : K (option (list Z)) :=
  f ← load_file p;
  n ← lift (load_inode (f_inode f));
  readdir_loop (S (Z.to_nat (id_length (i_data n)))) p.

(** ** Path resolution

    The [for] of [true_dir] over the tokens: [token] is the current one, [rest] those
    [strtok_r] has not returned yet, [inode] the variable of that name.  [None] is the
    result [NULL]. *)
Fixpoint true_dir_loop (rest : list (list Z)) (token : list Z) (cur_dir inode : option nat) :
    K (option (option nat * option (list Z))) :=
  match rest with
  | [] => mret (Some (cur_dir, Some token))
  | next_token :: rest' =>
    if bool_decide (token = DOT) then true_dir_loop rest' token cur_dir inode
    else
      (** [Some inode] to go on, [None] to return [NULL] *)
      r ← (if bool_decide (token = DOTDOT) then
             match inode with
             | None => mret None
             | Some i =>
               parent ← lift (inode_parent i);
               if parent =? 0 then mret None
               else parent ← lift (inode_parent i); o ← lift (inode_open parent); mret (Some o)
             end
           else
             o ← dir_lookup cur_dir token;
             match o with None => mret None | Some i => mret (Some (Some i)) end);
      match r with
      | None => mret None
      | Some inode =>
        isdir ← lift (inode_isdir inode);
        cur_dir ← (if (isdir : bool) then dir_close cur_dir;; dir_open inode
                   else lift (inode_close inode);; mret cur_dir);
        true_dir_loop rest' next_token cur_dir inode
      end
  end.

Definition true_dir (name : list Z) : K (option (option nat * option (list Z))) :=
  match name with
  | [] => mret None
  | first_byte :: _ =>
    cwd ← gets os_cur_dir;
    cur_dir ← (match (first_byte =? SLASH), cwd with
               | false, Some d => dir_reopen d
               | _, _ => dir_open_root
               end);
    d ← deref cur_dir;
    i ← dir_get_inode d;
    match strtok name with
    | [] => mret (Some (cur_dir, None))
    | token :: rest => true_dir_loop rest token cur_dir (Some i)
    end
  end.


(** ** The entries of a directory *)
Definition slot (c : list Z) (k : Z) : list Z := slice (20 * k) 20 c.
Definition nslots (c : list Z) : Z := Z.of_nat (length c) / 20.

(** The first entry that satisfies [P]. *)
Definition find_slot (P : list Z -> bool) (c : list Z) : option Z :=
  List.find (fun k => P (slot c k)) (seqZ 0 (nslots c)).

(** The string in the name field of an entry, and its bytes. *)
Definition entry_name (e : list Z) : option (list Z) := c_string (slice 4 15 e).
Definition entry_named (name e : list Z) : bool :=
  e_in_use e && bool_decide (entry_name e = Some name).

(** The names of the entries in use are terminated. *)
Definition dir_wf (c : list Z) : Prop :=
  forall k, 0 <= k < nslots c -> e_in_use (slot c k) = true -> is_Some (entry_name (slot c k)).

Lemma length_slot c k : 0 <= k < nslots c -> length (slot c k) = 20%nat.
Proof. unfold nslots. intros Hk. unfold slot. rewrite length_slice; Z.div_mod_to_equations; lia. Qed.

Lemma str_eq_c_string a b r :
  0 ∉ a -> c_string b = Some r -> str_eq a b = Some (bool_decide (r = a)).
Proof.
  revert b r. induction a as [|x a IH]; intros [|y b] r Ha Hb; simpl in *; try done.
  - destruct (Z.eqb_spec y 0); [by injection Hb as <-|].
    destruct (c_string b) as [r'|]; [|done]. by injection Hb as <-.
  - apply not_elem_of_cons in Ha as [Hx Ha]. destruct (Z.eqb_spec y 0) as [->|Hy].
    + injection Hb as <-. destruct (Z.eqb_spec x 0); [done|]. by rewrite bool_decide_eq_false_2.
    + destruct (c_string b) as [r'|] eqn:Hr; [|done]. injection Hb as <-.
      destruct (Z.eqb_spec x y) as [->|Hne].
      * rewrite (IH b r') by done. f_equal. apply bool_decide_ext. split; congruence.
      * rewrite bool_decide_eq_false_2; [done|]. congruence.
Qed.

Lemma c_string_length b r : c_string b = Some r -> (length r < length b)%nat.
Proof.
  revert r. induction b as [|x b IH]; intros r; simpl; [done|]. destruct (x =? 0).
  - intros [= <-]. simpl. lia.
  - destruct (c_string b) as [r'|]; [|done]. intros [= <-]. specialize (IH r' eq_refl). simpl. lia.
Qed.

Lemma c_string_app b b' r : c_string b = Some r -> c_string (b ++ b') = Some r.
Proof.
  revert r. induction b as [|x b IH]; intros r; simpl; [done|]. destruct (x =? 0); [done|].
  destruct (c_string b) as [r'|]; [|done]. intros [= <-]. by rewrite (IH r').
Qed.

Lemma e_name_split e : length e = 20%nat -> e_name e = slice 4 15 e ++ drop 19 e.
Proof.
  intros He. unfold e_name, slice. change (Z.to_nat 4) with 4%nat. change (Z.to_nat 15) with 15%nat.
  rewrite <- (take_drop 15 (drop 4 e)) at 1. by rewrite drop_drop.
Qed.

Lemma named_entry name e s :
  length e = 20%nat -> 0 ∉ name -> (e_in_use e = true -> is_Some (entry_name e)) ->
  named name e s = Ok (entry_named name e) s.
Proof.
  intros He Hn Hw. unfold named, entry_named. destruct (e_in_use e); [|done]. simpl.
  destruct (Hw eq_refl) as [r Hr]. rewrite Hr. unfold deref.
  rewrite (str_eq_c_string name (e_name e) r); [|done|rewrite e_name_split by done; by apply c_string_app].
  f_equal. apply bool_decide_ext. split; congruence.
Qed.

Context {laws : BlockDevLaws D}.

(** The directory [n] at [i], with contents [c]. *)
Record dir_at i (n : inode) (c : list Z) (s : fs D B) : Prop := {
  da_inode : inodes s !! i = Some n;
  da_ok : fs_ok s;
  da_wf : file_wf (view s) (i_data n);
  da_lock : inode_io i ∉ held s;
  da_content : content (view s) (i_data n) = c;
}.

Lemma dir_at_quiet i n c (s s' : fs D B) : dir_at i n c s -> quiet s s' -> dir_at i n c s'.
Proof.
  intros [H1 H2 H3 H4 H5] [Q1 Q2 [R1 R2 R3 R4 R5 R6]]. split; [by rewrite R4|done| |by rewrite R6|].
  - eapply file_wf_ext; [|exact H3]. intros; apply Q2.
  - rewrite <- H5. by apply content_ext.
Qed.

Lemma dir_at_length i n c s : dir_at i n c s -> Z.of_nat (length c) = id_length (i_data n).
Proof.
  intros [_ _ Hw _ <-]. rewrite length_content. pose proof (fw_length _ _ Hw). lia.
Qed.

Lemma wp_scan fuel i n c stop P e k0 (s : fs D B) Q :
  dir_at i n c s -> length e = 20%nat -> 0 <= k0 <= nslots c -> nslots c - k0 < Z.of_nat fuel ->
  (forall k s', 0 <= k < nslots c -> stop (slot c k) s' = Ok (P (slot c k)) s') ->
  (forall s', quiet s s' ->
     match List.find (fun k => P (slot c k)) (seqZ k0 (nslots c - k0)) with
     | Some k => Q (true, slot c k, 20 * k) s'
     | None => forall e', length e' = 20%nat -> Q (false, e', 20 * nslots c) s'
     end) ->
  wp (scan fuel i stop e (20 * k0)) Q s.
Proof.
  revert e k0 s. induction fuel as [|fuel IH]; intros e k0 s Hd He Hk Hfuel Hstop HQ; [simpl in Hfuel; lia|].
  pose proof Hd as [D1 D2 D3 D4 D5]. simpl.
  apply wp_bind. eapply wp_mono; [apply (wp_inode_read_at i n DIRENT (20 * k0)); [done..|lia]|].
  intros b s1 [-> Hq]; cbn beta zeta in *. rewrite D5. unfold DIRENT. fold (slot c k0).
  assert (Hn : 20 * nslots c <= Z.of_nat (length c) < 20 * nslots c + 20)
    by (unfold nslots; Z.div_mod_to_equations; lia).
  destruct (Z.eq_dec k0 (nslots c)) as [->|Hne].
  - assert (Hl : Z.of_nat (length (slot c (nslots c))) < 20)
      by (unfold slot, slice; rewrite length_take, length_drop; lia).
    destruct (Z.eqb_spec (Z.of_nat (length (slot c (nslots c)))) 20); [lia|].
    apply wp_ret. specialize (HQ s1 Hq). rewrite seqZ_nil in HQ by lia. simpl in HQ.
    apply HQ. rewrite length_splice; lia.
  - assert (Hl := length_slot c k0 ltac:(lia)).
    destruct (Z.eqb_spec (Z.of_nat (length (slot c k0))) 20); [|lia].
    replace (splice 0 (slot c k0) e) with (slot c k0)
      by (unfold splice; rewrite drop_ge, app_nil_r by lia; done).
    apply wp_bind. unfold wp at 1. rewrite Hstop by lia.
    rewrite (seqZ_cons k0) in HQ by lia. cbn [List.find] in HQ.
    destruct (P (slot c k0)); [by apply wp_ret, HQ|].
    replace (20 * k0 + 20) with (20 * Z.succ k0) by lia.
    apply IH; [by eapply dir_at_quiet|done|lia|lia|done|].
    intros s2 Hq2. replace (nslots c - Z.succ k0) with (Z.pred (nslots c - k0)) by lia.
    apply HQ. by eapply quiet_trans.
Qed.

Lemma wp_scan_all i n c stop P e (s : fs D B) Q :
  dir_at i n c s -> length e = 20%nat ->
  (forall k s', 0 <= k < nslots c -> stop (slot c k) s' = Ok (P (slot c k)) s') ->
  (forall s', quiet s s' ->
     match find_slot P c with
     | Some k => Q (true, slot c k, 20 * k) s'
     | None => forall e', length e' = 20%nat -> Q (false, e', 20 * nslots c) s'
     end) ->
  wp (scan_all i stop e) Q s.
Proof.
  intros Hd He Hstop HQ. apply wp_bind. eapply wp_load_inode; [apply Hd|].
  pose proof (dir_at_length _ _ _ _ Hd).
  assert (0 <= nslots c <= Z.of_nat (length c)) by (unfold nslots; Z.div_mod_to_equations; lia).
  change 0 with (20 * 0). eapply wp_scan; [done|done|lia|lia|exact Hstop|].
  intros s' Hq. specialize (HQ s' Hq). unfold find_slot in HQ. by rewrite Z.sub_0_r.
Qed.

Lemma wp_lookup i n c name (s : fs D B) Q :
  dir_at i n c s -> dir_wf c -> 0 ∉ name ->
  (forall s', quiet s s' ->
     Q ((fun k => (slot c k, 20 * k)) <$> find_slot (entry_named name) c) s') ->
  wp (lookup i name) Q s.
Proof.
  intros Hd Hw Hn HQ. apply wp_bind. eapply (wp_scan_all i n c _ (entry_named name)); [done|done| |].
  - intros k s' Hk. apply named_entry; [by apply length_slot|done|by apply Hw].
  - intros s' Hq. specialize (HQ s' Hq). destruct (find_slot _ _); [by apply wp_ret|].
    intros e' _. by apply wp_ret.
Qed.


(** ** A directory as a map from names to sectors *)
Definition dir_map (c : list Z) (name : list Z) : option Z :=
  (fun k => e_sector (slot c k)) <$> find_slot (entry_named name) c.

(** The names in use are terminated and distinct. *)
Definition dir_inv (c : list Z) : Prop :=
  dir_wf c /\ forall j k name, 0 <= j < nslots c -> 0 <= k < nslots c ->
    entry_named name (slot c j) = true -> entry_named name (slot c k) = true -> j = k.

Lemma find_slot_Some P c k :
  find_slot P c = Some k -> 0 <= k < nslots c /\ P (slot c k) = true.
Proof.
  intros H. apply List.find_some in H as [H1 H2]. apply list_elem_of_In, elem_of_seqZ in H1.
  split; [lia|done].
Qed.

Lemma find_slot_None P c :
  find_slot P c = None <-> forall k, 0 <= k < nslots c -> P (slot c k) = false.
Proof.
  split.
  - intros H k Hk. eapply List.find_none in H; [exact H|].
    apply list_elem_of_In, elem_of_seqZ. lia.
  - intros H. destruct (find_slot P c) as [k|] eqn:He; [|done].
    apply find_slot_Some in He as [Hk Hp]. rewrite H in Hp; done.
Qed.

Lemma find_slot_unique name c k :
  dir_inv c -> 0 <= k < nslots c -> entry_named name (slot c k) = true ->
  find_slot (entry_named name) c = Some k.
Proof.
  intros [_ Hu] Hk Hn. destruct (find_slot (entry_named name) c) as [j|] eqn:Hj.
  - apply find_slot_Some in Hj as [Hj Hn']. f_equal. by eapply Hu.
  - rewrite find_slot_None in Hj. rewrite Hj in Hn; done.
Qed.

Lemma entry_named_name name e : entry_named name e = true <-> e_in_use e = true /\ entry_name e = Some name.
Proof. unfold entry_named. by rewrite andb_true_iff, bool_decide_eq_true. Qed.

(** Two contents whose entries agree except at [k]. *)
Lemma dir_inv_update c c' k ne :
  dir_inv c -> nslots c <= nslots c' -> 0 <= k < nslots c' -> slot c' k = ne ->
  (forall j, 0 <= j < nslots c' -> j <> k -> 0 <= j < nslots c /\ slot c' j = slot c j) ->
  (e_in_use ne = true -> exists name, entry_name ne = Some name /\
     forall j, 0 <= j < nslots c -> j <> k -> entry_named name (slot c j) = false) ->
  dir_inv c'.
Proof.
  intros [Hw Hu] Hn Hk Hne Hold Hnew. split.
  - intros j Hj Hin. destruct (Z.eq_dec j k) as [->|Hjk].
    + rewrite Hne in *. destruct (Hnew Hin) as (name & -> & _). done.
    + destruct (Hold j Hj Hjk) as [Hj' He]. rewrite He in *. by apply Hw.
  - assert (Hcon : forall j name, 0 <= j < nslots c' -> j <> k ->
      entry_named name (slot c' j) = true -> entry_named name (slot c' k) = true -> False).
    { intros j name Hj Hjk Hnj Hnk. destruct (Hold j Hj Hjk) as [Hj' He]. rewrite He in Hnj.
      rewrite Hne in Hnk. pose proof Hnk as [Hin Hnm]%entry_named_name.
      destruct (Hnew Hin) as (name' & Hn' & Hfresh). rewrite Hnm in Hn'. injection Hn' as <-.
      rewrite Hfresh in Hnj; done. }
    intros j j' name Hj Hj' Hnj Hnj'.
    destruct (Z.eq_dec j k) as [->|Hjk], (Z.eq_dec j' k) as [->|Hjk']; [done| | |].
    + exfalso. by eapply (Hcon j').
    + exfalso. by eapply (Hcon j).
    + destruct (Hold j Hj Hjk) as [H1 E1], (Hold j' Hj' Hjk') as [H2 E2].
      rewrite E1 in Hnj. rewrite E2 in Hnj'. by eapply Hu.
Qed.

Lemma dir_map_spec c name n :
  dir_inv c ->
  (dir_map c name = Some n <-> exists k, 0 <= k < nslots c /\ entry_named name (slot c k) = true /\
     e_sector (slot c k) = n).
Proof.
  intros Hd. unfold dir_map. split.
  - intros (k & Hk & ->)%fmap_Some. apply find_slot_Some in Hk as [Hk Hn]. eauto.
  - intros (k & Hk & Hn & <-). by rewrite (find_slot_unique name c k).
Qed.

Lemma dir_map_ext c c' (name : list Z) :
  dir_inv c -> dir_inv c' ->
  (forall n, (exists k, 0 <= k < nslots c /\ entry_named name (slot c k) = true /\ e_sector (slot c k) = n) <->
     (exists k, 0 <= k < nslots c' /\ entry_named name (slot c' k) = true /\ e_sector (slot c' k) = n)) ->
  dir_map c' name = dir_map c name.
Proof.
  intros Hd Hd' H. apply option_eq. intros n. rewrite !dir_map_spec by done. by rewrite H.
Qed.

(** *** Entries *)
Lemma word_splice_other e off new :
  length e = 20%nat -> 4 <= off -> off + Z.of_nat (length new) <= 20 ->
  word_at (splice off new e) 0 = word_at e 0.
Proof.
  intros He Ho Hl. unfold word_at. rewrite slice_splice_other; done || lia.
Qed.

Lemma set_in_use_entry b e :
  length e = 20%nat -> length (set_in_use b e) = 20%nat /\ e_in_use (set_in_use b e) = b /\
  entry_name (set_in_use b e) = entry_name e /\ e_sector (set_in_use b e) = e_sector e.
Proof.
  intros He. unfold set_in_use, e_in_use, entry_name, e_sector. split_and!.
  - rewrite length_splice; simpl; lia.
  - rewrite byte_at_splice by (simpl; lia). by destruct b.
  - rewrite slice_splice_other; simpl; try lia. done.
  - apply word_splice_other; simpl; lia.
Qed.

Lemma new_entry_fields e name sector :
  length e = 20%nat -> 0 ∉ name -> (length name <= 14)%nat -> 0 <= sector < UINT32 ->
  let ne := set_sector sector (set_name name (set_in_use true e)) in
  length ne = 20%nat /\ e_in_use ne = true /\ entry_name ne = Some name /\ e_sector ne = sector.
Proof.
  intros He Hn Hl Hs. destruct (set_in_use_entry true e He) as (H1 & H2 & _ & _).
  set (e1 := set_in_use true e) in *. unfold set_sector, set_name.
  rewrite take_ge by (change (Z.to_nat NAME_MAX) with 14%nat; lia).
  set (w := name ++ [0]). assert (Hw : (length w <= 15)%nat) by (unfold w; rewrite length_app; simpl; lia).
  set (e2 := splice 4 w e1). assert (H3 : length e2 = 20%nat) by (unfold e2; rewrite length_splice; lia).
  cbn zeta. split_and!.
  - rewrite length_splice; simpl; lia.
  - unfold e_in_use in *. rewrite byte_at_splice by (simpl; lia). simpl.
    unfold e2. rewrite byte_at_splice by lia. zcase.
  - unfold entry_name. rewrite slice_splice_other; [|simpl; lia..].
    unfold e2, slice, splice. change (Z.to_nat 4) with 4%nat. change (Z.to_nat 15) with 15%nat.
    rewrite drop_app_le by (rewrite length_take; lia).
    rewrite drop_ge by (rewrite length_take; lia). simpl.
    rewrite take_app_ge by lia. apply c_string_app. unfold w. clear -Hn.
    induction name as [|x l IH]; [done|]. apply not_elem_of_cons in Hn as [Hx Hn]. simpl.
    destruct (Z.eqb_spec x 0); [congruence|]. by rewrite IH.
  - unfold e_sector. unfold word_at. change 4 with (Z.of_nat (length (le32 sector))) at 2.
    change (4 * 0) with 0. rewrite slice_splice_same by (simpl; lia).
    rewrite of_le32_le32. by apply u32_small.
Qed.

(** *** Contents with one entry replaced or appended *)
Lemma slot_splice c k e j :
  0 <= k < nslots c -> length e = 20%nat -> 0 <= j < nslots c ->
  slot (splice (20 * k) e c) j = if j =? k then e else slot c j.
Proof.
  intros Hk He Hj. unfold slot. assert (20 * nslots c <= Z.of_nat (length c))
    by (unfold nslots; Z.div_mod_to_equations; lia).
  destruct (Z.eqb_spec j k) as [->|].
  - replace 20 with (Z.of_nat (length e)) at 2 by lia. apply slice_splice_same; lia.
  - apply slice_splice_other; lia.
Qed.

Lemma nslots_splice c k e :
  0 <= k < nslots c -> length e = 20%nat -> nslots (splice (20 * k) e c) = nslots c.
Proof.
  intros Hk He. assert (20 * nslots c <= Z.of_nat (length c))
    by (unfold nslots; Z.div_mod_to_equations; lia).
  unfold nslots. rewrite length_splice; lia.
Qed.

Lemma slot_app c e :
  Z.of_nat (length c) = 20 * nslots c -> length e = 20%nat ->
  nslots (c ++ e) = nslots c + 1 /\ slot (c ++ e) (nslots c) = e /\
  forall j, 0 <= j < nslots c -> slot (c ++ e) j = slot c j.
Proof.
  intros Hc He. split_and!.
  - unfold nslots at 1. rewrite length_app. Z.div_mod_to_equations. lia.
  - unfold slot, slice. rewrite drop_app_ge by lia.
    replace (Z.to_nat (20 * nslots c) - length c)%nat with 0%nat by lia.
    rewrite drop_0, take_ge; [done|]. rewrite He. done.
  - intros j Hj. unfold slot, slice. rewrite drop_app_le by lia.
    rewrite take_app_le; [done|]. rewrite length_drop. lia.
Qed.


(** ** Adding an entry *)

(** [c'] is [c] with [name] bound to [sector]. *)
Definition bound (c : list Z) (name : list Z) (sector : Z) (c' : list Z) : Prop :=
  dir_inv c' /\
  forall name', dir_map c' name' = if bool_decide (name' = name) then Some sector else dir_map c name'.

Lemma bound_update c c' k ne name sector :
  dir_inv c -> dir_map c name = None -> nslots c <= nslots c' -> 0 <= k < nslots c' ->
  slot c' k = ne -> e_in_use ne = true -> entry_name ne = Some name -> e_sector ne = sector ->
  (forall j, 0 <= j < nslots c' -> j <> k -> 0 <= j < nslots c /\ slot c' j = slot c j) ->
  (k < nslots c -> e_in_use (slot c k) = false) -> bound c name sector c'.
Proof.
  intros Hd Hno Hn Hk Hs Hu He Hsec Hold Hfree.
  assert (Hnone : forall j, 0 <= j < nslots c -> entry_named name (slot c j) = false).
  { apply find_slot_None. unfold dir_map in Hno. by destruct (find_slot _ c). }
  assert (Hd' : dir_inv c').
  { eapply (dir_inv_update c c' k ne); [done..|]. intros _. exists name. auto. }
  split; [done|]. intros name'. case_bool_decide as Hnm.
  - subst name'. apply dir_map_spec; [done|]. exists k. rewrite Hs. split_and!; [lia|lia| |done].
    by apply entry_named_name.
  - apply dir_map_ext; [done..|]. intros m. split.
    + intros (j & Hj & Hnj & Hm). exists j.
      assert (j <> k).
      { intros ->. rewrite entry_named_name, Hfree in Hnj by lia. by destruct Hnj. }
      destruct (Hold j) as [_ E]; [lia|done|]. rewrite E. split_and!; try done; lia.
    + intros (j & Hj & Hnj & Hm). destruct (Z.eq_dec j k) as [->|Hjk].
      * exfalso. rewrite Hs, entry_named_name, He in Hnj. destruct Hnj as [_ [=]]. congruence.
      * destruct (Hold j Hj Hjk) as [Hj' E]. rewrite E in *. by exists j.
Qed.

(** [name] can name an entry. *)
Definition good_name (name : list Z) : Prop :=
  name <> [] /\ (length name <= 14)%nat /\ 0 ∉ name.

Lemma wp_dir_add_slot p f i n c name sector e0 (s : os) Q :
  os_files s !! p = Some f -> f_inode f = i -> dir_at i n c (os_fs s) -> dir_inv c ->
  good_name name -> dir_map c name = None -> length e0 = 20%nat ->
  (forall x e k, quiet (os_fs s) x -> length e = 20%nat ->
     (find_slot (fun e => negb (e_in_use e)) c = Some k \/
      (find_slot (fun e => negb (e_in_use e)) c = None /\ k = nslots c)) ->
     wp (inode_write_at i (set_sector sector (set_name name (set_in_use true e))) DIRENT (20 * k))
        (fun w y => Q (w =? DIRENT) (set_fs y s)) x) ->
  wp (dir_add e0 p name sector) Q s.
Proof.
  intros Hf <- Hd Hi (Hn1 & Hn2 & Hn3) Hno He0 HQ. unfold dir_add.
  replace (bool_decide (name = []) || (NAME_MAX <? Z.of_nat (length name))) with false.
  2:{ rewrite bool_decide_eq_false_2 by done. unfold NAME_MAX. simpl. zcase. }
  assert (Hnone : find_slot (entry_named name) c = None)
    by (unfold dir_map in Hno; by destruct (find_slot _ c)).
  apply wp_bind. eapply wp_load_file; [exact Hf|]. apply wp_bind, wp_lift.
  eapply wp_lookup; [exact Hd|apply Hi|done|]. intros x Hq. rewrite Hnone. cbn [fmap option_fmap option_map].
  pose proof (dir_at_quiet _ _ _ _ _ Hd Hq) as Hd1.
  apply wp_bind, wp_lift.
  eapply (wp_scan_all (f_inode f) n c _ (fun e => negb (e_in_use e))); [exact Hd1|done|done|].
  intros y Hq'. assert (Hqq : quiet (os_fs s) y) by (by eapply quiet_trans).
  destruct (find_slot (fun e => negb (e_in_use e)) c) as [k|] eqn:Hk; [|intros e' He'];
    apply wp_bind, wp_lift; (eapply wp_mono; [apply HQ; [exact Hqq| |]|]).
  - apply length_slot. by apply find_slot_Some in Hk as [? _].
  - by left.
  - intros w z Hw; cbn beta in *. by apply wp_ret.
  - done.
  - by right.
  - intros w z Hw; cbn beta in *. by apply wp_ret.
Qed.

Lemma wp_dir_add_inserts p f n c name sector e0 (s : os) :
  os_files s !! p = Some f -> dir_at (f_inode f) n c (os_fs s) -> dir_inv c ->
  i_read_cnt n = 0 -> i_deny_write_cnt n = 0 -> id_length (i_data n) <= INT_MAX ->
  good_name name -> dir_map c name = None -> 0 <= sector < UINT32 -> length e0 = 20%nat ->
  find_slot (fun e => negb (e_in_use e)) c <> None ->
  wp (dir_add e0 p name sector)
     (fun r s' => r = true /\ (exists y, s' = set_fs y s /\ fs_ok y /\ same_rest (os_fs s) y) /\ exists c', dir_at (f_inode f) n c' (os_fs s') /\ bound c name sector c' /\
        (forall k, (forall b, 0 <= b < blocks (i_data n) -> k <> bmap (view (os_fs s)) (i_data n) b) ->
           view (os_fs s') k = view (os_fs s) k)) s.
Proof.
  intros Hf Hd Hi Hr Hdn Hm Hg Hno Hs He0 Hfree. pose proof Hg as (Hg1 & Hg2 & Hg3).
  eapply wp_dir_add_slot; [exact Hf|done|exact Hd|done|done|done|done|].
  intros x e k Hq He Hk. destruct Hk as [Hk|[Hk _]]; [|done].
  pose proof (find_slot_Some _ _ _ Hk) as [Hkr Hku].
  pose proof (dir_at_quiet _ _ _ _ _ Hd Hq) as Hx. pose proof (dir_at_length _ _ _ _ Hx) as Hlen.
  destruct (new_entry_fields e name sector He Hg3 Hg2 Hs) as (N1 & N2 & N3 & N4).
  set (ne := set_sector sector (set_name name (set_in_use true e))) in *.
  assert (Hin : 20 * nslots c <= Z.of_nat (length c)) by (unfold nslots; Z.div_mod_to_equations; lia).
  eapply wp_mono; [apply (wp_inode_write_in_place (f_inode f) n ne DIRENT (20 * k));
    [apply Hx|apply Hx|done|done|apply Hx|done|lia|done|unfold DIRENT; lia|unfold DIRENT; lia]|].
  intros w y (-> & Hok & Hsr & Hwf & Hc & Hfr); cbn beta. pose proof Hsr as [R1 R2 R3 R4 R5 R6].
  split; [done|]. split; [exists y; split_and!; [done|done|]; by etransitivity; [apply Hq|]|].
  replace (slice 0 DIRENT ne) with ne in Hc.
  2:{ unfold slice, DIRENT. change (Z.to_nat 0) with 0%nat. rewrite drop_0, take_ge; [done|].
      rewrite N1. done. }
  rewrite (da_content _ _ _ _ Hx) in Hc. exists (splice (20 * k) ne c).
  split_and!.
  - split; simpl; [rewrite R4; apply Hx|done|done|rewrite R6; apply Hx|done].
  - eapply (bound_update c _ k ne); try done; rewrite ?nslots_splice by done; try lia.
    + rewrite slot_splice by done. zcase.
    + intros j Hj Hjk. split; [done|]. rewrite slot_splice by done. zcase.
    + intros _. by apply negb_true_iff.
  - intros j Hj. simpl. rewrite Hfr; [apply Hq|]. intros b Hb.
    rewrite (bmap_ext (view (os_fs s))) by (intros; apply Hq). by apply Hj.
Qed.

(** C27: [dir_add] into a free entry implements insertion.  When some entry of the
    directory is free and no entry has the name, [dir_add] succeeds, the directory
    becomes the map with the name bound to the sector, its names stay terminated and
    distinct, and only sectors of the directory change. *)
Theorem dir_add_inserts p f n c name sector e0 (s : os) :
  os_files s !! p = Some f -> dir_at (f_inode f) n c (os_fs s) -> dir_inv c ->
  i_read_cnt n = 0 -> i_deny_write_cnt n = 0 -> id_length (i_data n) <= INT_MAX ->
  good_name name -> dir_map c name = None -> 0 <= sector < UINT32 -> length e0 = 20%nat ->
  find_slot (fun e => negb (e_in_use e)) c <> None ->
  wp (dir_add e0 p name sector)
     (fun r s' => r = true /\ exists c', dir_at (f_inode f) n c' (os_fs s') /\ bound c name sector c' /\
        (forall k, (forall b, 0 <= b < blocks (i_data n) -> k <> bmap (view (os_fs s)) (i_data n) b) ->
           view (os_fs s') k = view (os_fs s) k)) s.
Proof.
  intros. eapply wp_mono; [by eapply (wp_dir_add_inserts p f n c name sector e0 s)|].
  intros r s' (-> & _ & H'). by split.
Qed.

(** [dir_add] refuses an empty name, a name of more than 14 bytes and a name the
    directory has already: it returns false and changes nothing. *)
Theorem dir_add_refuses p f n c name sector e0 (s : os) :
  os_files s !! p = Some f -> dir_at (f_inode f) n c (os_fs s) -> dir_inv c -> 0 ∉ name ->
  name = [] \/ (14 < length name)%nat \/ dir_map c name <> None ->
  wp (dir_add e0 p name sector) (fun r s' => r = false /\ quiet (os_fs s) (os_fs s') /\
        os_files s' = os_files s) s.
Proof.
  intros Hf Hd Hi Hn Hcase. unfold dir_add.
  destruct (bool_decide (name = []) || (NAME_MAX <? Z.of_nat (length name))) eqn:Hb.
  { apply wp_ret. split_and!; [done|by apply quiet_refl, Hd|done]. }
  apply orb_false_iff in Hb as [Hb1%bool_decide_eq_false Hb2]. unfold NAME_MAX in Hb2.
  destruct Hcase as [|[Hl|Hm]]; [done|revert Hb2; zcase|].
  apply wp_bind. eapply wp_load_file; [exact Hf|]. apply wp_bind, wp_lift.
  eapply wp_lookup; [exact Hd|apply Hi|done|]. intros x Hq. unfold dir_map in Hm.
  destruct (find_slot (entry_named name) c) as [k|]; [|done]. by apply wp_ret.
Qed.


(** ** Looking up *)

Lemma opened_quiet sector (s x y : fs D B) o :
  quiet s x -> opened sector x o y -> opened sector s o y.
Proof.
  intros [Q1 Q2 [R1 R2 R3 R4 R5 R6]] (j & n' & H1 & H2 & H3 & H4 & H5).
  assert (Ha : open_inode_at sector x = open_inode_at sector s)
    by (unfold open_inode_at; by rewrite R3, R4).
  rewrite Ha in H5. exists j, n'. rewrite R3, R4, ?Q2 in *. done.
Qed.

Lemma wp_dir_lookup p f n c name (s : os) :
  os_files s !! p = Some f -> dir_at (f_inode f) n c (os_fs s) -> dir_inv c -> 0 ∉ name ->
  table_inv (os_fs s) -> file_lock ∉ held (os_fs s) -> malloc_ok = true ->
  (forall sector, dir_map c name = Some sector -> valid_sector sector = true) ->
  wp (dir_lookup (Some p) name)
     (fun o s' => (exists x, s' = set_fs x s) /\ table_inv (os_fs s') /\
        life_step (view (os_fs s)) (os_fs s) (os_fs s') /\
        match dir_map c name with
        | Some sector => opened sector (os_fs s) o (os_fs s')
        | None => o = None /\ quiet (os_fs s) (os_fs s')
        end) s.
Proof.
  intros Hf Hd Hi Hn Ht Hl Hm Hv. unfold dir_map in *.
  apply wp_bind, wp_ret, wp_bind. eapply wp_load_file; [exact Hf|]. apply wp_bind, wp_lift.
  eapply wp_lookup; [exact Hd|apply Hi|done|]. intros x Hq. pose proof Hq as [Q1 Q2 [R1 R2 R3 R4 R5 R6]].
  assert (Htx : table_inv x) by (by apply (table_inv_ext (os_fs s))).
  destruct (find_slot (entry_named name) c) as [k|]; cbn [fmap option_fmap option_map].
  - apply wp_lift. specialize (Hv _ eq_refl). simpl.
    eapply wp_mono; [apply wp_inode_open; [done|done|by rewrite R6|exact Hv|done]|].
    intros o y (Hop & Hty & [L1 L2 L3 L4 L5]); cbn beta. split_and!; [by exists y|done| |].
    + split; simpl; try congruence.
    + by eapply opened_quiet.
  - apply wp_ret. split_and!; [by exists x|done|by split|done|done].
Qed.

(** C29: [dir_lookup] implements the lookup of the map.  It opens the inode of the
    sector the name is bound to, with every guarantee of [inode_open], and returns a
    null pointer, changing nothing, when the name is not bound. *)
Theorem dir_lookup_refines p f n c name (s : os) :
  os_files s !! p = Some f -> dir_at (f_inode f) n c (os_fs s) -> dir_inv c -> 0 ∉ name ->
  table_inv (os_fs s) -> file_lock ∉ held (os_fs s) -> malloc_ok = true ->
  (forall sector, dir_map c name = Some sector -> valid_sector sector = true) ->
  wp (dir_lookup (Some p) name)
     (fun o s' => os_files s' = os_files s /\ table_inv (os_fs s') /\
        life_step (view (os_fs s)) (os_fs s) (os_fs s') /\
        match dir_map c name with
        | Some sector => opened sector (os_fs s) o (os_fs s')
        | None => o = None
        end) s.
Proof.
  intros. eapply wp_mono; [by eapply wp_dir_lookup|].
  intros o s' ([x ->] & Ht & Hl & Hc). split_and!; try done.
  destruct (dir_map c name); [done|]. apply Hc.
Qed.

(** [dir_is_empty] decides whether the map of the directory is empty. *)
Theorem dir_is_empty_refines p f n c (s : os) :
  os_files s !! p = Some f -> dir_at (f_inode f) n c (os_fs s) -> dir_inv c ->
  wp (dir_is_empty p)
     (fun r s' => (r = true <-> forall name, dir_map c name = None) /\ quiet (os_fs s) (os_fs s')) s.
Proof.
  intros Hf Hd Hi. apply wp_bind. eapply wp_load_file; [exact Hf|]. apply wp_bind, wp_lift.
  eapply (wp_scan_all (f_inode f) n c _ e_in_use); [exact Hd|done|done|]. intros x Hq.
  destruct (find_slot e_in_use c) as [k|] eqn:Hk; [|intros e' _]; apply wp_ret; (split; [|done]).
  - split; [done|]. intros Hall. exfalso. pose proof (find_slot_Some _ _ _ Hk) as [Hkr Hku].
    destruct (proj1 Hi k Hkr Hku) as [name Hname]. specialize (Hall name).
    unfold dir_map in Hall. rewrite (find_slot_unique name c k) in Hall; [done|done|done|].
    by apply entry_named_name.
  - split; [|done]. intros _ name. unfold dir_map.
    replace (find_slot (entry_named name) c) with (@None Z); [done|]. symmetry.
    apply find_slot_None. intros j Hj. unfold entry_named. by rewrite (proj1 (find_slot_None _ _) Hk).
Qed.

(** [dir_readdir] returns the name of the next entry in use and moves behind it,
    and returns false, at the end, when no more entry is in use; no entry is skipped
    or reported twice. *)
Theorem dir_readdir_next p f n c k0 (s : os) :
  os_files s !! p = Some f -> f_pos f = 20 * k0 -> 0 <= k0 <= nslots c ->
  dir_at (f_inode f) n c (os_fs s) -> dir_inv c ->
  wp (dir_readdir p)
     (fun r s' => quiet (os_fs s) (os_fs s') /\
        match List.find (fun k => e_in_use (slot c k)) (seqZ k0 (nslots c - k0)) with
        | Some k => r = entry_name (slot c k) /\ r <> None /\
            os_files s' !! p = Some (set_pos (20 * (k + 1)) f)
        | None => r = None /\ os_files s' !! p = Some (set_pos (20 * nslots c) f)
        end) s.
Proof.
  intros Hf Hp Hk Hd Hi. apply wp_bind. eapply wp_load_file; [exact Hf|].
  apply wp_bind, wp_lift. eapply wp_load_inode; [apply Hd|].
  pose proof (dir_at_length _ _ _ _ Hd) as Hlen.
  assert (Hn : 20 * nslots c <= Z.of_nat (length c) < 20 * nslots c + 20)
    by (unfold nslots; Z.div_mod_to_equations; lia).
  replace (set_fs (os_fs s) s) with s by by destruct s.
  assert (Hfuel : nslots c - k0 < Z.of_nat (S (Z.to_nat (id_length (i_data n))))) by lia.
  revert Hfuel. generalize (S (Z.to_nat (id_length (i_data n)))). intros fuel Hfuel.
  enough (Hgo : forall k0 (s1 : os) f1, quiet (os_fs s) (os_fs s1) -> os_files s1 !! p = Some f1 ->
    f1 = set_pos (20 * k0) f -> 0 <= k0 <= nslots c -> nslots c - k0 < Z.of_nat fuel ->
    wp (readdir_loop fuel p) (fun r s' => quiet (os_fs s) (os_fs s') /\
        match List.find (fun k => e_in_use (slot c k)) (seqZ k0 (nslots c - k0)) with
        | Some k => r = entry_name (slot c k) /\ r <> None /\
            os_files s' !! p = Some (set_pos (20 * (k + 1)) f)
        | None => r = None /\ os_files s' !! p = Some (set_pos (20 * nslots c) f)
        end) s1).
  { apply (Hgo k0 s f); [by apply quiet_refl, Hd|done| |done|done]. destruct f. simpl in *. by subst. }
  clear k0 Hp Hk Hfuel. induction fuel as [|fuel IH]; intros k0 s1 f1 Hq Hf1 -> Hk Hfuel; [simpl in Hfuel; lia|].
  pose proof (dir_at_quiet _ _ _ _ _ Hd Hq) as [D1 D2 D3 D4 D5]. simpl.
  apply wp_bind. eapply wp_load_file; [exact Hf1|]. apply wp_bind, wp_lift. simpl.
  eapply wp_mono; [apply (wp_inode_read_at (f_inode f) n DIRENT (20 * k0)); [done..|lia]|].
  intros e x [-> Hqx]; cbn beta. rewrite D5. unfold DIRENT. fold (slot c k0).
  assert (Hqq : quiet (os_fs s) x) by (by eapply quiet_trans).
  destruct (Z.eq_dec k0 (nslots c)) as [->|Hne].
  - assert (Hl : Z.of_nat (length (slot c (nslots c))) < 20)
      by (unfold slot, slice; rewrite length_take, length_drop; lia).
    destruct (Z.eqb_spec (Z.of_nat (length (slot c (nslots c)))) 20); [lia|].
    apply wp_ret. rewrite seqZ_nil by lia. simpl. done.
  - assert (Hl := length_slot c k0 ltac:(lia)).
    destruct (Z.eqb_spec (Z.of_nat (length (slot c k0))) 20); [|lia].
    apply wp_bind. eapply wp_store_file; [exact Hf1|].
    rewrite (seqZ_cons k0) by lia. cbn [List.find].
    destruct (e_in_use (slot c k0)) eqn:Hu.
    + destruct (proj1 Hi k0 ltac:(lia) Hu) as [name Hname].
      apply wp_bind. eapply wp_deref; [rewrite e_name_split by done; by apply c_string_app|].
      apply wp_ret. simpl. rewrite Hname, lookup_insert_eq.
      assert (length name <= 14)%nat.
      { unfold entry_name in Hname. apply c_string_length in Hname.
        rewrite length_slice in Hname by lia. lia. }
      rewrite take_ge by done. split_and!; [done|done|done|]. f_equal. unfold set_pos. simpl. f_equal. lia.
    + replace (nslots c - Z.succ k0) with (Z.pred (nslots c - k0)) in IH by lia.
      replace (Z.pred (nslots c - k0)) with (nslots c - Z.succ k0) by lia.
      eapply IH; [done|simpl; by rewrite lookup_insert_eq| |lia|lia].
      unfold set_pos. simpl. f_equal. lia.
Qed.


(** ** Removing an entry *)

(** [c'] is [c] without [name]. *)
Definition unbound (c : list Z) (name : list Z) (c' : list Z) : Prop :=
  dir_inv c' /\
  forall name', dir_map c' name' = if bool_decide (name' = name) then None else dir_map c name'.

Lemma unbound_update c c' k e name :
  dir_inv c -> nslots c' = nslots c -> find_slot (entry_named name) c = Some k ->
  slot c' k = e -> e_in_use e = false ->
  (forall j, 0 <= j < nslots c -> j <> k -> slot c' j = slot c j) -> unbound c name c'.
Proof.
  intros Hd Hn Hk He Hu Hold. apply find_slot_Some in Hk as [Hk Hnk].
  assert (Hd' : dir_inv c').
  { eapply (dir_inv_update c c' k e); [done|lia|lia|done| |congruence].
    intros j Hj Hjk. rewrite Hn in Hj. auto. }
  split; [done|]. intros name'. case_bool_decide as Hnm.
  - subst name'. unfold dir_map. replace (find_slot (entry_named name) c') with (@None Z); [done|].
    symmetry. apply find_slot_None. rewrite Hn. intros j Hj.
    destruct (Z.eq_dec j k) as [->|Hjk]; [unfold entry_named; by rewrite He, Hu|].
    rewrite Hold by done. destruct (entry_named name (slot c j)) eqn:Hj'; [|done].
    destruct Hjk. by eapply Hd.
  - apply dir_map_ext; [done..|]. intros m. rewrite Hn. split; intros (j & Hj & Hnj & Hm).
    + exists j. assert (j <> k).
      { intros ->. rewrite entry_named_name in Hnk, Hnj. destruct Hnk, Hnj. congruence. }
      by rewrite Hold.
    + destruct (Z.eq_dec j k) as [->|Hjk].
      * exfalso. rewrite He, entry_named_name, Hu in Hnj. by destruct Hnj.
      * rewrite Hold in Hnj, Hm by done. by exists j.
Qed.

(** C30: [dir_remove] of a file that is still open elsewhere implements removal from the
    map: the name is not bound any more, every other name keeps its sector, and the
    inode, marked removed, stays open with the same openers and the same contents, so
    that its openers can go on using it. *)
Theorem dir_remove_open_file p f n c name sector j nj (s : os) :
  os_files s !! p = Some f -> dir_at (f_inode f) n c (os_fs s) -> dir_inv c -> 0 ∉ name ->
  i_read_cnt n = 0 -> i_deny_write_cnt n = 0 -> id_length (i_data n) <= INT_MAX ->
  table_inv (os_fs s) -> file_lock ∉ held (os_fs s) -> malloc_ok = true ->
  dir_map c name = Some sector -> valid_sector sector = true ->
  open_inode_at sector (os_fs s) = Some j -> inodes (os_fs s) !! j = Some nj ->
  j <> f_inode f -> id_isdir (i_data nj) = false -> 1 <= i_open_cnt nj ->
  wp (dir_remove p name)
     (fun r s' => r = true /\ exists c', dir_at (f_inode f) n c' (os_fs s') /\ unbound c name c' /\
        inodes (os_fs s') !! j = Some (set_removed true nj) /\
        (forall k, (forall b, 0 <= b < blocks (i_data n) -> k <> bmap (view (os_fs s)) (i_data n) b) ->
           view (os_fs s') k = view (os_fs s) k)) s.
Proof.
  intros Hf Hd Hi Hn Hr Hdn Hmax Ht Hl Hmm Hmap Hv Hat Hj Hji Hnd Hcnt.
  unfold dir_map in Hmap. apply fmap_Some in Hmap as (k & Hk & Hsec).
  pose proof (find_slot_Some _ _ _ Hk) as [Hkr Hkn].
  apply wp_bind. eapply wp_load_file; [exact Hf|]. apply wp_bind, wp_lift.
  eapply wp_lookup; [exact Hd|apply Hi|done|]. intros x Hq. rewrite Hk. cbn [fmap option_fmap option_map].
  pose proof (dir_at_quiet _ _ _ _ _ Hd Hq) as Hdx. pose proof Hq as [Q1 Q2 [R1 R2 R3 R4 R5 R6]].
  rewrite <- Hsec. apply wp_bind, wp_lift. simpl.
  eapply wp_mono; [apply wp_inode_open; [done| |by rewrite R6|exact Hv|done]|].
  { by apply (table_inv_ext (os_fs s)). }
  intros o y [(j' & n' & -> & Hy & Hsj & Hjo & Hcase) [Hty [L1 L2 L3 L4 L5]]]; cbn beta.
  assert (Hatx : open_inode_at sector x = Some j)
    by (unfold open_inode_at in *; by rewrite R3, R4).
  rewrite Hatx in Hcase. destruct Hcase as (-> & Hoy & nj' & Hnj' & ->).
  rewrite R4, Hj in Hnj'. injection Hnj' as <-. set (nj1 := set_open_cnt (i_open_cnt nj + 1) nj) in *.
  assert (Hyj : inodes y !! j = Some nj1) by (rewrite Hy; by rewrite lookup_insert_eq).
  assert (Hnolock : forall i, inode_io i ∉ held y) by (apply Hty).
  cbn iota. apply wp_bind, wp_lift. eapply wp_inode_isdir; [exact Hyj|apply Hnolock|].
  cbn [i_data nj1 set_open_cnt]. rewrite Hnd. apply wp_bind, wp_ret.
  assert (Hdy : dir_at (f_inode f) n c y).
  { destruct Hdx as [D1 D2 D3 D4 D5]. split; [by rewrite Hy, lookup_insert_ne|done| |by rewrite L5|].
    - eapply file_wf_ext; [|exact D3]. intros; apply L2.
    - rewrite <- D5. by apply content_ext. }
  assert (Hes : length (slot c k) = 20%nat) by by apply length_slot.
  destruct (set_in_use_entry false _ Hes) as (E1 & E2 & _ & _).
  set (e := set_in_use false (slot c k)) in *.
  pose proof (dir_at_length _ _ _ _ Hdy) as Hlen.
  assert (Hin : 20 * nslots c <= Z.of_nat (length c)) by (unfold nslots; Z.div_mod_to_equations; lia).
  apply wp_bind, wp_lift. simpl.
  eapply wp_mono; [apply (wp_inode_write_in_place (f_inode f) n e DIRENT (20 * k));
    [apply Hdy|apply Hdy|done|done|apply Hdy|done|lia|done|unfold DIRENT; lia|unfold DIRENT; lia]|].
  intros w z (-> & Hok & [S1 S2 S3 S4 S5 S6] & Hwf & Hc & Hfr); cbn beta. simpl.
  assert (Hzj : inodes z !! j = Some nj1) by by rewrite S4.
  apply wp_bind, wp_lift. simpl. eapply wp_inode_remove; [exact Hzj|rewrite S6; apply Hnolock|].
  apply wp_bind, wp_lift. simpl.
  eapply wp_inode_close_more; [simpl; by rewrite lookup_insert_eq|simpl; lia|].
  apply wp_ret. split; [done|]. simpl.
  replace (slice 0 DIRENT e) with e in Hc.
  2:{ unfold slice, DIRENT. change (Z.to_nat 0) with 0%nat. rewrite drop_0, take_ge; [done|].
      rewrite E1. done. }
  rewrite (da_content _ _ _ _ Hdy) in Hc. exists (splice (20 * k) e c). split_and!.
  - split; simpl; [| |done|rewrite S6; apply Hnolock|done].
    + rewrite !lookup_insert_ne by done. rewrite S4. apply Hdy.
    + by apply (fs_ok_ext z).
  - eapply (unbound_update c _ k e); [done|by apply nslots_splice|done| |done|].
    + rewrite slot_splice by done. zcase.
    + intros i Hi' Hik. rewrite slot_splice by done. zcase.
  - rewrite lookup_insert_eq. f_equal. unfold nj1. destruct nj. unfold set_open_cnt, set_removed. simpl.
    f_equal. lia.
  - intros i Hi'. change (view z i = view (os_fs s) i). rewrite Hfr; [by rewrite L2, Q2|].
    intros b Hb. rewrite (bmap_ext (view (os_fs s)) (view y)); [by apply Hi'|].
    intros q _. by rewrite L2, Q2.
Qed.


(** ** Paths *)

Lemma strtok_loop_app cur a b :
  strtok_loop cur (a ++ SLASH :: b) = strtok_loop cur a ++ strtok_loop [] b.
Proof.
  revert cur. induction a as [|x a IH]; intros cur; simpl.
  - by destruct cur.
  - destruct (Z.eqb_spec x SLASH); [|apply IH]. destruct cur; [apply IH|]. simpl. by rewrite IH.
Qed.

(** A path splits at its slashes: its components are those of the part before a
    slash followed by those of the part after it, repeated, leading and trailing
    slashes count for nothing, and no component is empty or contains a slash. *)
Theorem strtok_splits a b :
  strtok (a ++ SLASH :: b) = strtok a ++ strtok b /\
  Forall (fun t => t <> [] /\ SLASH ∉ t) (strtok a) /\
  (SLASH ∉ a -> strtok a = if bool_decide (a = []) then [] else [a]).
Proof.
  split; [apply strtok_loop_app|]. unfold strtok. split.
  - assert (H : forall cur, SLASH ∉ cur ->
      Forall (fun t => t <> [] /\ SLASH ∉ t) (strtok_loop cur a)).
    { induction a as [|x a IH]; intros cur Hc; simpl.
      - destruct cur; [by constructor|]. by repeat constructor.
      - destruct (Z.eqb_spec x SLASH) as [->|Hx].
        + destruct cur; [by apply IH, not_elem_of_nil|]. constructor; [done|]. by apply IH, not_elem_of_nil.
        + apply IH. rewrite elem_of_app, list_elem_of_singleton. intros [?|?]; congruence. }
    by apply H, not_elem_of_nil.
  - assert (H : forall cur, SLASH ∉ a ->
      strtok_loop cur a = if bool_decide (cur ++ a = []) then [] else [cur ++ a]).
    { induction a as [|x a IH]; intros cur Ha; simpl.
      - rewrite app_nil_r. by destruct cur.
      - apply not_elem_of_cons in Ha as [Hx Ha]. destruct (Z.eqb_spec x SLASH); [congruence|].
        rewrite IH by done. by rewrite <- app_assoc. }
    apply (H []).
Qed.

(** A component [.] swallows the rest of the path.  The [continue] of the loop of
    [true_dir] leaves [token] at [.] while [strtok_r] moves on, so that a path like
    [./a] or [./a/b] resolves to the name [.] in the current directory. *)
Theorem dot_component_swallows rest cur_dir inode s :
  true_dir_loop rest DOT cur_dir inode s = Ok (Some (cur_dir, Some DOT)) s.
Proof.
  induction rest as [|next rest IH]; [done|exact IH].
Qed.
End directory.

(** ** A root directory with the file [a], which is open, and a free entry *)
#[local] Existing Instance memory_available.

Definition entry_bytes (sector : Z) (name : list Z) (in_use : bool) : list Z :=
  le32 sector ++ (name ++ replicate (15 - length name) 0) ++ [if in_use then 1 else 0].
Definition root_content : list Z := entry_bytes 7 [97] true ++ replicate 20 0.
Definition root_inode : inode :=
  Inode 1 1 false 0 (set_length 40 (set_sp 3 (blank_inode 40 true))) 0.
Definition a_inode : inode := Inode 7 1 false 0 (blank_inode 0 false) 0.
Definition root_fs : fs disk bits :=
  Fs (<[3 := root_content]> ∅) [] 0 0 (replicate 8 true ++ replicate 1016 false)
    (Some (File 9 0 false)) [0%nat; 1%nat] (<[0%nat := root_inode]> {[1%nat := a_inode]}) 2 ∅.
Definition root_os (pos : Z) : os disk bits :=
  Os root_fs {[0%nat := File 0 pos false]} 1 None None.

Lemma root_fs_ok : fs_ok root_fs.
Proof.
  split; [|intros h Hh; by apply elem_of_nil in Hh]. split; try done.
  - split_and!; by constructor.
  - intros h Hh. by apply elem_of_nil in Hh.
Qed.

Lemma root_dir_at : dir_at 0 root_inode root_content root_fs.
Proof.
  split; [reflexivity|exact root_fs_ok| |by apply not_elem_of_empty|vm_compute; reflexivity].
  set (d := i_data root_inode).
  assert (Hr : forall b, 0 <= b < blocks d -> b = 0) by (intros b; change (blocks d) with 1; lia).
  split.
  - done.
  - done.
  - by intros b ->%Hr.
  - by intros b k ->%Hr Hk%elem_of_nil.
  - by intros a b ->%Hr ->%Hr.
  - by intros a b k _ ->%Hr Hk%elem_of_nil.
Qed.

Lemma root_dir_inv : dir_inv root_content.
Proof.
  assert (Hr : forall k, 0 <= k < nslots root_content -> k = 0 \/ k = 1)
    by (intros k; change (nslots root_content) with 2; lia).
  assert (H1 : e_in_use (slot root_content 1) = false) by reflexivity.
  split.
  - intros k [-> | ->]%Hr Hu; [by exists [97]|congruence].
  - intros j k name [-> | ->]%Hr [-> | ->]%Hr Hj Hk; try done;
      rewrite entry_named_name in Hj, Hk; destruct Hj, Hk; congruence.
Qed.

Lemma root_table : table_inv root_fs.
Proof.
  assert (Hr : forall i, i ∈ open_inodes root_fs -> i = 0%nat \/ i = 1%nat) by set_solver.
  split.
  - repeat constructor; set_solver.
  - intros i [-> | ->]%Hr; [exists root_inode|exists a_inode]; split_and!; reflexivity || (simpl; lia).
  - intros i j n m [-> | ->]%Hr [-> | ->]%Hr [= <-] [= <-]; done.
  - intros i n Hn. change (<[0%nat := root_inode]> ({[1%nat := a_inode]} : gmap nat inode) !! i = Some n) in Hn.
    apply lookup_insert_Some in Hn as [[<- _]|[_ [<- _]%lookup_singleton_Some]]; simpl; lia.
  - intros i. by apply not_elem_of_empty.
Qed.

Lemma dir_add_inserts_witness :
  wp (dir_add (replicate 20 0) 0 [98] 9)
     (fun r s' => r = true /\ exists c', dir_map c' [98] = Some 9 /\ dir_map c' [97] = Some 7)
     (root_os 0).
Proof.
  eapply wp_mono.
  - apply (dir_add_inserts 0 (File 0 0 false) root_inode root_content [98] 9 (replicate 20 0) (root_os 0));
      [reflexivity|exact root_dir_at|exact root_dir_inv|reflexivity|reflexivity|vm_compute; discriminate
      |split_and!; [done|simpl; lia|set_solver]|reflexivity|unfold UINT32; lia|reflexivity|
       vm_compute; discriminate].
  - intros r s' (-> & c' & _ & [_ Hm] & _). split; [reflexivity|]. exists c'. by rewrite !Hm.
Defined.

Lemma dir_add_refuses_witness :
  wp (dir_add (replicate 20 0) 0 [97] 9) (fun r s' => r = false) (root_os 0).
Proof.
  eapply wp_mono.
  - apply (dir_add_refuses 0 (File 0 0 false) root_inode root_content [97] 9 (replicate 20 0) (root_os 0));
      [reflexivity|exact root_dir_at|exact root_dir_inv|set_solver|right; right; vm_compute; discriminate].
  - by intros r s' [-> _].
Defined.

Lemma dir_lookup_refines_witness :
  wp (dir_lookup (Some 0%nat) [97]) (fun o s' => o = Some 1%nat) (root_os 0) /\
  wp (dir_lookup (Some 0%nat) [98]) (fun o s' => o = None) (root_os 0).
Proof.
  split.
  - eapply wp_mono.
    + apply (dir_lookup_refines 0 (File 0 0 false) root_inode root_content [97] (root_os 0));
        [reflexivity|exact root_dir_at|exact root_dir_inv|set_solver|exact root_table
        |by apply not_elem_of_empty|reflexivity|by intros sector [= <-]].
    + intros o s' (_ & _ & _ & j & n' & -> & _ & _ & _ & [-> _]). reflexivity.
  - eapply wp_mono.
    + apply (dir_lookup_refines 0 (File 0 0 false) root_inode root_content [98] (root_os 0));
        [reflexivity|exact root_dir_at|exact root_dir_inv|set_solver|exact root_table
        |by apply not_elem_of_empty|reflexivity|by intros sector [=]].
    + by intros o s' (_ & _ & _ & ->).
Defined.

Lemma dir_is_empty_refines_witness :
  wp (dir_is_empty 0) (fun r s' => r = false) (root_os 0).
Proof.
  eapply wp_mono.
  - apply (dir_is_empty_refines 0 (File 0 0 false) root_inode root_content (root_os 0));
      [reflexivity|exact root_dir_at|exact root_dir_inv].
  - intros [] s' [[H _] _]; [|reflexivity]. specialize (H eq_refl [97]). vm_compute in H. discriminate.
Defined.

Lemma dir_readdir_next_witness :
  wp (dir_readdir 0) (fun r s' => r = Some [97]) (root_os 0) /\
  wp (dir_readdir 0) (fun r s' => r = None) (root_os 20).
Proof.
  split.
  - eapply wp_mono.
    + apply (dir_readdir_next 0 (File 0 0 false) root_inode root_content 0 (root_os 0));
        [reflexivity|reflexivity|split; vm_compute; discriminate|exact root_dir_at|exact root_dir_inv].
    + intros r s' [_ H]. vm_compute in H. apply H.
  - eapply wp_mono.
    + apply (dir_readdir_next 0 (File 0 20 false) root_inode root_content 1 (root_os 20));
        [reflexivity|reflexivity|split; vm_compute; discriminate|exact root_dir_at|exact root_dir_inv].
    + intros r s' [_ H]. vm_compute in H. apply H.
Defined.

Lemma dir_remove_open_file_witness :
  wp (dir_remove 0 [97])
     (fun r s' => r = true /\ inodes (os_fs s') !! 1%nat = Some (set_removed true a_inode))
     (root_os 0).
Proof.
  eapply wp_mono.
  - apply (dir_remove_open_file 0 (File 0 0 false) root_inode root_content [97] 7 1 a_inode (root_os 0));
      [reflexivity|exact root_dir_at|exact root_dir_inv|set_solver|reflexivity|reflexivity
      |vm_compute; discriminate|exact root_table|by apply not_elem_of_empty|reflexivity|reflexivity
      |reflexivity|reflexivity|reflexivity|done|reflexivity|simpl; lia].
  - intros r s' (-> & c' & _ & _ & H & _). split; [reflexivity|exact H].
Defined.

(** A regular file in the middle of a path is skipped.  The path [/a/b], where [a]
    is a regular file, resolves to the name [b] in the root directory instead of
    failing: [true_dir] closes the inode of [a] and goes on in the same directory. *)
Theorem file_component_skipped :
  match (o ← true_dir [SLASH; 97; SLASH; 98]; r ← deref o; d ← deref r.1;
         i ← dir_get_inode d; n ← lift (load_inode i); mret (i_sector n, r.2)) (root_os 0) with
  | Ok r _ => r = (ROOT_DIR_SECTOR, Some [98])
  | Fail _ => False
  end.
Proof. vm_compute. reflexivity. Qed.
