(* ===== verification/Filesys.v ===== *)
(** * Filesys: the file system module ([filesys/filesys.c]) and the part of
    [filesys/free-map.c] that works on the file of the free map. *)
From S2P Require Import Prelude Bytes State Instances Cache FreeMap Inode InodeData InodeGrowth InodeLife File Directory InodeFaults.
From Stdlib Require Import ZArith Lia.
From stdpp Require Import prelude gmap.

Open Scope Z_scope.

Section filesys.
Context {D B : Type} {dev : BlockDev D} {bm : Bitmap B} {io : BitmapIO D B} {mem : Memory}.
Abbreviation os := (os D B).
Abbreviation K := (M os).
Implicit Types (s : os) (p i : nat).

(** ** The file of the free map

    [free_map_file] is a pointer; the allocator of FreeMap uses the struct behind it,
    of which a copy is kept in the state of the file system. *)
Definition open_free_map_file : K unit :=
  o ← lift (inode_open FREE_MAP_SECTOR);
  p ← file_open o;
  match p with
  | None => fail Panic
  | Some p =>
    f ← load_file p;
    modify (set_fmf (Some p));;
    lift (modify (set_free_map_file (Some f)))
  end.

Definition free_map_open : K unit :=
  open_free_map_file;;
  x ← gets os_fs;
  f ← deref (free_map_file x);
  '(ok, b) ← lift (bitmap_read (free_map x) f);
  lift (modify (set_free_map b));;
  assert ok.

Definition free_map_close : K unit := p ← gets os_free_map_file; file_close p.

Definition free_map_create : K unit :=
  x ← gets os_fs;
  ok ← lift (inode_create FREE_MAP_SECTOR (bitmap_file_size (free_map x)) false);
  assert ok;;
  open_free_map_file;;
  x ← gets os_fs;
  f ← deref (free_map_file x);
  ok ← lift (bitmap_write (free_map x) f);
  assert ok.

(** ** The module *)
Definition do_format : K unit :=
  free_map_create;;
  ok ← dir_create ROOT_DIR_SECTOR 16;
  assert ok;;
  free_map_close.

(** [device] is the result of [block_get_role (BLOCK_FILESYS)]. *)
Definition filesys_init (device : option D) (format : bool) : K unit :=
  d ← (match device with Some d => mret d | None => fail Panic end);
  lift (modify (set_device d));;
  lift inode_init;;
  lift cache_system_init;;
  lift free_map_init;;
  when format do_format;;
  free_map_open.

Definition filesys_done : K unit :=
  lift inode_close_all;; free_map_close;; lift free_cache.

(** The [&&] chain of [filesys_create]: whether it succeeds, and [inode_sector]. *)
Definition create_chain (e0 : list Z) (dir : option nat) (exec_name : list Z)
    (initial_size : Z) (isdir : bool) : K (bool * Z) :=
  match dir with
  | None => mret (false, 0)
  | Some d =>
    a ← lift (free_map_allocate 1);
    match a with
    | None => mret (false, 0)
    | Some sector =>
      ok ← lift (inode_create sector initial_size isdir);
      if (ok : bool) then r ← dir_add e0 d exec_name sector; mret (r, sector)
      else mret (false, sector)
    end
  end.

(** [e0]: the uninitialised entry of [dir_add]. *)
Definition filesys_create (e0 : list Z) (name : list Z) (initial_size : Z) (isdir : bool) : K bool :=
  if bool_decide (name = []) then mret false
  else
    nid ← true_dir name;
    match nid with
    | None => mret false
    | Some (dir, exec_name) =>
      exec_name ← deref exec_name;
      if negb (bool_decide (exec_name = DOT)) && negb (bool_decide (exec_name = DOTDOT)) then
        '(success, inode_sector) ← create_chain e0 dir exec_name initial_size isdir;
        when (negb success && negb (inode_sector =? 0)) (lift (free_map_release inode_sector 1));;
        match dir, isdir with
        | Some d, true =>
          inode ← lift (inode_open inode_sector);
          match inode with
          | None => dir_close dir;; mret false
          | Some i =>
            di ← dir_get_inode d;
            n ← lift (inode_get_inumber di);
            lift (inode_set_parent i n);;
            lift (inode_close (Some i));;
            dir_close dir;; mret success
          end
        | _, _ => dir_close dir;; mret success
        end
      else dir_close dir;; mret false
    end.

(** [(struct file * ) dir; file->deny_write = false] *)
Definition dir_as_file (dir : option nat) : K (option nat) :=
  d ← deref dir; store_file d (set_deny_write false);; mret (Some d).

Definition filesys_open (name : list Z) : K (option nat) :=
  if bool_decide (name = []) then mret None
  else
    nid ← true_dir name;
    match nid with
    | None => mret None
    | Some (dir, exec_name) =>
      (** [inl] is the value of an early return, [inr] the variable [inode] *)
      r ← (match dir with
           | None => mret (inr None)
           | Some d =>
             match exec_name with
             | None => f ← dir_as_file dir; mret (inl f)
             | Some exec =>
               if bool_decide (exec = DOT) then f ← dir_as_file dir; mret (inl f)
               else if bool_decide (exec = DOTDOT) then
                 di ← dir_get_inode d;
                 parent ← lift (inode_parent di);
                 if parent =? 0 then dir_close dir;; mret (inl None)
                 else
                   di ← dir_get_inode d;
                   parent ← lift (inode_parent di);
                   o ← lift (inode_open parent); mret (inr o)
               else o ← dir_lookup dir exec; mret (inr o)
             end
           end);
      match r with
      | inl f => mret f
      | inr inode =>
        dir_close dir;;
        match inode with
        | None => mret None
        | Some i =>
          isdir ← lift (inode_isdir (Some i));
          if (isdir : bool) then d ← dir_open (Some i); dir_as_file d else file_open (Some i)
        end
      end
    end.

Definition filesys_remove (name : list Z) : K bool :=
  if bool_decide (name = []) then mret false
  else
    nid ← true_dir name;
    match nid with
    | None => mret false
    | Some (dir, None) => dir_close dir;; mret false
    | Some (dir, Some exec_name) =>
      success ← (match dir with None => mret false | Some d => dir_remove d exec_name end);
      dir_close dir;;
      mret success
    end.


(** ** Paths that start at the root *)
Context {laws : BlockDevLaws D}.

(** [name] is resolved from the root directory. *)
Definition from_root (name : list Z) s : Prop :=
  exists x rest, name = x :: rest /\ (x = SLASH \/ os_cur_dir s = None).

Lemma true_dir_root name s :
  from_root name s ->
  true_dir name s =
    (cur_dir ← dir_open_root;
     d ← deref cur_dir;
     i ← dir_get_inode d;
     match strtok name with
     | [] => mret (Some (cur_dir, None))
     | token :: rest => true_dir_loop rest token cur_dir (Some i)
     end) s.
Proof.
  intros (x & rest & -> & [-> | Hc]); unfold true_dir, gets, mbind, M_bind.
  - done.
  - rewrite Hc. by destruct (x =? SLASH).
Qed.

Lemma true_dir_locked name s :
  from_root name s -> file_lock ∈ held (os_fs s) -> faults Panic (true_dir name) s.
Proof.
  intros Hr Hl. unfold faults. rewrite true_dir_root by done.
  unfold dir_open_root, lift, inode_open, locked, lock_acquire, mbind, M_bind. by rewrite decide_True.
Qed.
Lemma filesys_open_locked name s :
  from_root name s -> file_lock ∈ held (os_fs s) -> faults Panic (filesys_open name) s.
Proof.
  intros Hr Hl. unfold filesys_open. rewrite bool_decide_eq_false_2 by (by destruct Hr as (x & rest & -> & _)).
  by apply faults_bind_l, true_dir_locked.
Qed.

(** Every operation on a path from the root needs [file_lock] to be free.  A thread
    that holds it when it calls [filesys_open], [filesys_create] or [filesys_remove]
    fails the assertion of [lock_acquire] in [inode_open]. *)
Theorem path_operations_take_file_lock name e0 size isdir s :
  from_root name s -> file_lock ∈ held (os_fs s) ->
  faults Panic (filesys_open name) s /\ faults Panic (filesys_remove name) s /\
  faults Panic (filesys_create e0 name size isdir) s.
Proof.
  intros Hr Hl. split; [by apply filesys_open_locked|].
  pose proof (true_dir_locked name s Hr Hl) as Ht.
  assert (Hn : bool_decide (name = []) = false)
    by (destruct Hr as (x & rest & -> & _); by apply bool_decide_eq_false_2).
  unfold filesys_remove, filesys_create. rewrite Hn. split; by apply faults_bind_l.
Qed.

(** The root directory [n], with contents [c], open at [r]. *)
Record root_at r (n : inode) (c : list Z) s : Prop := {
  ra_open : open_inode_at ROOT_DIR_SECTOR (os_fs s) = Some r;
  ra_dir : dir_at r n c (os_fs s);
  ra_inv : dir_inv c;
  ra_table : table_inv (os_fs s);
  ra_lock : file_lock ∉ held (os_fs s);
  ra_isdir : id_isdir (i_data n) = true;
}.

(** Opening a sector whose inode is open only counts a further opener. *)
Lemma wp_inode_open_again sector i n (x : fs D B) (Q : option nat -> fs D B -> Prop) :
  open_inode_at sector x = Some i -> inodes x !! i = Some n -> file_lock ∉ held x -> inode_io i ∉ held x ->
  Q (Some i) (set_inodes (<[i := set_open_cnt (i_open_cnt n + 1) n]> (inodes x)) x) ->
  wp (inode_open sector) Q x.
Proof.
  intros Ho Hn Hl Hi HQ. apply wp_locked; [done|]. apply wp_bind, wp_gets.
  change (open_inode_at sector (set_held _ x)) with (open_inode_at sector x). rewrite Ho.
  apply wp_bind, wp_locked; [simpl; set_solver|]. apply wp_bind. eapply wp_load_inode; [exact Hn|].
  eapply wp_store_inode; [exact Hn|]. split; [done|]. apply wp_ret. split; [done|]. by destruct x.
Qed.

Lemma wp_open_root r n c s (Q : option nat -> os -> Prop) :
  root_at r n c s -> malloc_ok = true ->
  (let x := set_inodes (<[r := set_open_cnt (i_open_cnt n + 1) n]> (inodes (os_fs s))) (os_fs s) in
   fs_ok x -> table_inv x ->
   Q (Some (os_next s))
     (set_next (S (os_next s)) (set_files (<[os_next s := File r 0 false]> (os_files s)) (set_fs x s)))) ->
  wp dir_open_root Q s.
Proof.
  intros [R1 R2 R3 R4 R5 R6] Hm HQ. apply wp_bind, wp_lift.
  eapply wp_inode_open_again; [exact R1|apply R2|done|apply R2|].
  unfold dir_open. rewrite Hm. apply wp_bind, wp_bind, wp_gets, wp_bind, wp_modify, wp_ret, wp_ret.
  apply HQ; [by apply (fs_ok_ext (os_fs s)), R2|].
  destruct (open_inode_at_Some _ _ _ R1) as (Hin & _). destruct (ti_alive _ R4 r Hin) as (m & Hm' & _ & Hc).
  eapply table_inv_insert; [done|apply R2|done|]. simpl.
  rewrite (da_inode _ _ _ _ R2) in Hm'. injection Hm' as <-. lia.
Qed.

Lemma dir_at_reopened r n n' c (x y : fs D B) :
  dir_at r n c x -> fs_ok y -> (forall k, view y k = view x k) -> held y = held x ->
  inodes y !! r = Some n' -> i_data n' = i_data n -> dir_at r n' c y.
Proof.
  intros [D1 D2 D3 D4 D5] Hok Hv Hh Hn Hd. split; [done|done|rewrite Hd|by rewrite Hh|rewrite Hd].
  - eapply file_wf_ext; [|exact D3]. auto.
  - rewrite <- D5. by apply content_ext.
Qed.

Lemma wp_true_dir_root name token r n c s (Q : option (option nat * option (list Z)) -> os -> Prop) :
  from_root name s -> strtok name = [token] -> root_at r n c s -> malloc_ok = true ->
  (let n1 := set_open_cnt (i_open_cnt n + 1) n in
   let x := set_inodes (<[r := n1]> (inodes (os_fs s))) (os_fs s) in
     table_inv x -> dir_at r n1 c x ->
     Q (Some (Some (os_next s), Some token))
       (set_next (S (os_next s)) (set_files (<[os_next s := File r 0 false]> (os_files s)) (set_fs x s)))) ->
  wp (true_dir name) Q s.
Proof.
  intros Hr Hs Hra Hm HQ. unfold wp at 1. rewrite true_dir_root by done. rewrite Hs.
  match goal with |- match ?m s with _ => _ end => change (wp m Q s) end.
  apply wp_bind. eapply wp_open_root; [exact Hra|done|].
  intros x Hok Ht. apply wp_bind, wp_ret.
  apply wp_bind, wp_bind. eapply wp_load_file; [simpl; by rewrite lookup_insert_eq|].
  apply wp_ret. apply HQ; [done|].
  eapply dir_at_reopened; [apply Hra|done|done|done|simpl; by rewrite lookup_insert_eq|done].
Qed.

(** [dir_close] of a handle on an inode with more openers. *)
Lemma wp_dir_close_more p i n s (Q : unit -> os -> Prop) :
  os_files s !! p = Some (File i 0 false) -> inodes (os_fs s) !! i = Some n -> i_open_cnt n <> 1 ->
  Q tt (set_files (delete p (os_files s))
    (set_fs (set_inodes (<[i := set_open_cnt (i_open_cnt n - 1) n]> (inodes (os_fs s))) (os_fs s)) s)) ->
  wp (dir_close (Some p)) Q s.
Proof.
  intros Hp Hi Hc HQ. apply wp_bind. eapply wp_load_file; [exact Hp|]. apply wp_bind, wp_lift.
  eapply wp_inode_close_more; [exact Hi|done|]. apply wp_bind. eapply wp_load_file; [exact Hp|].
  by apply wp_modify.
Qed.

(** The inode stored for [sector]: that of the open struct, if any, or else the one on
    the device. *)
Definition stored (sector : Z) (x : fs D B) : inode_disk :=
  match open_inode_at sector x with
  | Some j => match inodes x !! j with Some n => i_data n | None => inode_disk_of (view x sector) end
  | None => inode_disk_of (view x sector)
  end.

Lemma opened_stored sector (x y : fs D B) o :
  opened sector x o y ->
  exists j n', o = Some j /\ inodes y = <[j := n']> (inodes x) /\ i_sector n' = sector /\
    i_data n' = stored sector x /\
    (forall k m, inodes x !! k = Some m -> k = j -> i_sector m = sector).
Proof.
  intros (j & n' & H1 & H2 & H3 & H4 & H5). exists j, n'. split_and!; try done; unfold stored in *.
  - destruct (open_inode_at sector x) as [i|].
    + destruct H5 as (-> & _ & m & Hm & ->). by rewrite Hm.
    + by destruct H5 as (_ & _ & ->).
  - intros k m Hm ->. destruct (open_inode_at sector x) as [i|].
    + destruct H5 as (-> & _ & m' & Hm' & ->). rewrite Hm in Hm'. by injection Hm' as <-.
    + destruct H5 as (Hn & _). congruence.
Qed.

Lemma wp_filesys_open_in_root name token r n c s :
  from_root name s -> strtok name = [token] -> token <> DOT -> token <> DOTDOT -> 0 ∉ token ->
  root_at r n c s -> malloc_ok = true -> valid_sector ROOT_DIR_SECTOR = true ->
  (forall sector, dir_map c token = Some sector -> valid_sector sector = true /\
     sector <> ROOT_DIR_SECTOR /\ id_isdir (stored sector (os_fs s)) = false) ->
  wp (filesys_open name)
     (fun o s' => table_inv (os_fs s') /\ life_step (view (os_fs s)) (os_fs s) (os_fs s') /\
        inodes (os_fs s') !! r = Some n /\
        match dir_map c token with
        | None => o = None
        | Some sector => exists p j nj, o = Some p /\ os_files s' !! p = Some (File j 0 false) /\
            inodes (os_fs s') !! j = Some nj /\ i_sector nj = sector /\
            i_data nj = stored sector (os_fs s)
        end) s.
Proof.
  intros Hfr Hst Hd1 Hd2 H0 Hra Hm Hvr Hbound. pose proof Hra as [R1 R2 R3 R4 R5 R6].
  destruct (ti_alive _ R4 r) as (n0 & Hn0 & _ & Hcnt).
  { by destruct (open_inode_at_Some _ _ _ R1). }
  rewrite (da_inode _ _ _ _ R2) in Hn0. injection Hn0 as <-.
  destruct (open_inode_at_Some _ _ _ R1) as (_ & n0 & Hn0 & Hsec).
  rewrite (da_inode _ _ _ _ R2) in Hn0. injection Hn0 as <-.
  unfold filesys_open. rewrite bool_decide_eq_false_2 by (by destruct Hfr as (? & ? & -> & _)).
  apply wp_bind. eapply wp_true_dir_root; [done..|]. intros n1 x X3 X9.
  assert (X1 : inodes x = <[r := n1]> (inodes (os_fs s))) by done.
  assert (X2 : open_inodes x = open_inodes (os_fs s)) by done.
  assert (Hlx : life_step (view (os_fs s)) (os_fs s) x) by (split; try done; apply X9).
  pose proof Hlx as [X4 X5 X6 X7 X8]. assert (X10 : file_lock ∉ held x) by exact R5. clearbody x.
  set (p0 := os_next s) in *. cbn iota beta. apply wp_bind.
  rewrite bool_decide_eq_false_2 by done. rewrite bool_decide_eq_false_2 by done.
  set (s1 := set_next _ _).
  apply wp_bind. eapply wp_mono.
  { apply (wp_dir_lookup p0 (File r 0 false) n1 c token s1); [simpl; by rewrite lookup_insert_eq|
      exact X9|done|done|exact X3|exact X10|done|]. intros sector Hs. by apply Hbound. }
  intros o s2 ([y ->] & Ty & [Y1 Y2 Y3 Y4 Y5] & Hcase); cbn beta. simpl in Ty, Y1, Y2, Y3, Y4, Y5.
  apply wp_ret. cbn iota beta.
  assert (Hfile : os_files (set_fs y s1) !! p0 = Some (File r 0 false))
    by (simpl; by rewrite lookup_insert_eq).
  assert (Hback : set_open_cnt (i_open_cnt n1 - 1) n1 = n)
    by (unfold n1; destruct n; unfold set_open_cnt; simpl; f_equal; lia).
  assert (Hls : forall m, life_step (view (os_fs s)) (os_fs s) (set_inodes m y)).
  { intros m. split; simpl; try congruence; [by apply (fs_ok_ext y)|].
    intros k. rewrite <- X5, <- Y2. done. }
  assert (Hclose : forall m (R : unit -> os -> Prop), inodes y = m -> m !! r = Some n1 ->
    (table_inv (set_inodes (<[r := n]> m) y) -> R tt (set_files (delete p0 (os_files s1))
      (set_fs (set_inodes (<[r := n]> m) y) s1))) -> wp (dir_close (Some p0)) R (set_fs y s1)).
  { intros m R <- Hy HR. eapply wp_dir_close_more; [exact Hfile|exact Hy|simpl; lia|].
    rewrite Hback. apply HR. eapply table_inv_insert; [done|exact Hy|done|done]. }
  destruct (dir_map c token) as [sector|] eqn:Hmap.
  - destruct (Hbound _ eq_refl) as (_ & Hne & Hreg).
    destruct (opened_stored _ _ _ _ Hcase) as (j & nj & -> & Hy & Hsj & Hdj & Hjr). simpl in Hy, Hjr, Hdj.
    assert (Hrx : inodes x !! r = Some n1) by (rewrite X1; by rewrite lookup_insert_eq).
    assert (Hrj : r <> j) by (intros ->; by apply Hne; rewrite <- (Hjr j n1), <- Hsec).
    assert (Hsame : stored sector x = stored sector (os_fs s)).
    { unfold stored, open_inode_at. rewrite X2, X5.
      assert (Hins : forall k, (match inodes x !! k with Some m => i_sector m =? sector | None => false end)
        = (match inodes (os_fs s) !! k with Some m => i_sector m =? sector | None => false end)).
      { intros k. rewrite X1. destruct (decide (k = r)) as [->|Hk].
        - by rewrite lookup_insert_eq, (da_inode _ _ _ _ R2).
        - by rewrite lookup_insert_ne. }
      assert (Hf : forall l, List.find (fun k => match inodes x !! k with Some m => i_sector m =? sector | None => false end) l
        = List.find (fun k => match inodes (os_fs s) !! k with Some m => i_sector m =? sector | None => false end) l).
      { induction l as [|k l IH]; [done|]. simpl. by rewrite Hins, IH. }
      rewrite Hf. destruct (List.find _ _) as [k|]; [|done]. rewrite X1.
      destruct (decide (k = r)) as [->|Hk].
      - by rewrite lookup_insert_eq, (da_inode _ _ _ _ R2).
      - by rewrite lookup_insert_ne. }
    apply wp_bind. apply (Hclose (<[j := nj]> (inodes x))); [done|by rewrite lookup_insert_ne|].
    intros Ht3. apply wp_bind, wp_lift. simpl.
    eapply wp_inode_isdir; [simpl; by rewrite lookup_insert_ne, lookup_insert_eq|apply Ht3|].
    rewrite Hdj, Hsame, Hreg. unfold file_open. rewrite Hm.
    apply wp_bind, wp_bind, wp_gets, wp_bind, wp_modify, wp_ret, wp_ret. simpl.
    split_and!; [done|apply Hls|by rewrite lookup_insert_eq|].
    exists (S p0), j, nj. rewrite lookup_insert_eq, lookup_insert_ne, lookup_insert_eq by done.
    split_and!; try done. by rewrite Hdj.
  - destruct Hcase as [-> [Q1 Q2 [S1 S2 S3 S4 S5 S6]]]. simpl in S4.
    apply wp_bind. apply (Hclose (inodes x)); [done|rewrite X1; by rewrite lookup_insert_eq|].
    intros Ht3. apply wp_ret. simpl. split_and!; [done|apply Hls|by rewrite lookup_insert_eq|done].
Qed.

(** [filesys_open] of a name in the root directory.  For a path from the root with
    the single component [token], [filesys_open] returns a null pointer if the root
    does not bind the name; if it binds the name to a regular file it returns a new
    open file at position 0 on the inode of that sector.  The handle on the root
    directory is closed again, the table of open inodes is well-formed and the
    contents of the device are unchanged. *)
Theorem filesys_open_in_root name token r n c s :
  from_root name s -> strtok name = [token] -> token <> DOT -> token <> DOTDOT -> 0 ∉ token ->
  root_at r n c s -> malloc_ok = true -> valid_sector ROOT_DIR_SECTOR = true ->
  (forall sector, dir_map c token = Some sector -> valid_sector sector = true /\
     sector <> ROOT_DIR_SECTOR /\ id_isdir (stored sector (os_fs s)) = false) ->
  wp (filesys_open name)
     (fun o s' => table_inv (os_fs s') /\ life_step (view (os_fs s)) (os_fs s) (os_fs s') /\
        inodes (os_fs s') !! r = Some n /\
        match dir_map c token with
        | None => o = None
        | Some sector => exists p j nj, o = Some p /\ os_files s' !! p = Some (File j 0 false) /\
            inodes (os_fs s') !! j = Some nj /\ i_sector nj = sector /\
            i_data nj = stored sector (os_fs s)
        end) s.
Proof. apply wp_filesys_open_in_root. Qed.

Lemma wp_true_dir_slashes name r n c s :
  from_root name s -> strtok name = [] -> root_at r n c s -> malloc_ok = true ->
  valid_sector ROOT_DIR_SECTOR = true ->
  wp (true_dir name) (fun nid _ => nid = Some (Some (os_next s), None)) s.
Proof.
  intros Hfr Hs Hra Hm Hv. unfold wp at 1. rewrite true_dir_root, Hs by done.
  match goal with |- match ?m s with Ok a s' => @?Q a s' | _ => _ end => change (wp m Q s) end.
  apply wp_bind. eapply wp_open_root; [exact Hra|done|]. intros x _ _.
  apply wp_bind, wp_ret, wp_bind, wp_bind. eapply wp_load_file; [simpl; by rewrite lookup_insert_eq|].
  by apply wp_ret, wp_ret.
Qed.

(** Creating the root directory crashes.  For a path of slashes only [true_dir]
    leaves the name null, and [filesys_create] compares it with [strcmp] without the
    test [filesys_open] and [filesys_remove] have. *)
Theorem create_of_slashes_faults name e0 size isdir r n c s :
  from_root name s -> strtok name = [] -> root_at r n c s -> malloc_ok = true ->
  valid_sector ROOT_DIR_SECTOR = true ->
  faults BadAccess (filesys_create e0 name size isdir) s.
Proof.
  intros Hfr Hs Hra Hm Hv. unfold filesys_create.
  rewrite bool_decide_eq_false_2 by (by destruct Hfr as (? & ? & -> & _)).
  apply faults_bind. eapply wp_mono; [by eapply wp_true_dir_slashes|].
  intros nid s' ->; cbn beta iota. by apply faults_bind_l.
Qed.
End filesys.

#[local] Existing Instance memory_available.

Lemma filesys_open_in_root_witness :
  wp (filesys_open [SLASH; 97])
     (fun o s' => exists p j, o = Some p /\ os_files s' !! p = Some (File j 0 false)) (root_os 0).
Proof.
  eapply wp_mono.
  - apply (filesys_open_in_root [SLASH; 97] [97] 0 root_inode root_content (root_os 0));
      [exists SLASH, [97]; split; [reflexivity|by left]|reflexivity|done|done|set_solver| |reflexivity
      |reflexivity|].
    + split; [reflexivity|exact root_dir_at|exact root_dir_inv|exact root_table|
        by apply not_elem_of_empty|reflexivity].
    + intros sector [= <-]. split_and!; [reflexivity|done|reflexivity].
  - intros o s' (_ & _ & _ & p & j & nj & -> & H & _). eauto.
Defined.

Lemma path_operations_take_file_lock_witness :
  faults Panic (filesys_open [SLASH; 97]) (set_fs (set_held {[file_lock]} root_fs) (root_os 0)).
Proof.
  apply (path_operations_take_file_lock [SLASH; 97] [] 0 false
    (set_fs (set_held {[file_lock]} root_fs) (root_os 0))).
  - exists SLASH, [97]. split; [reflexivity|by left].
  - simpl. set_solver.
Defined.

(** ** A whole life of the file system

    The bitmap library writes the free map through [file_write_at], eight sectors to a
    byte; for 1024 sectors the file has 128 bytes. *)
Fixpoint pack_bits (n : nat) (b : bits) : list Z :=
  match n with
  | O => []
  | S n' =>
    foldr (fun (x : bool) acc => 2 * acc + (if x then 1 else 0)) 0 (take 8 b) :: pack_bits n' (drop 8 b)
  end.
Definition unpack_bits (l : list Z) : bits :=
  x ← l; (fun i => Z.testbit x (Z.of_nat i)) <$> seq 0 8.

#[local] Instance file_io : BitmapIO disk bits := {
  bitmap_write b f := w ← inode_write_at (f_inode f) (pack_bits 128 b) 128 0; mret (w =? 128);
  bitmap_read b f := l ← inode_read_at (f_inode f) 128 0; mret (true, unpack_bits l);
  bitmap_file_size b := 128;
}.

(** Format a disk, create and write a file, shut down; start again, read the file. *)
Definition first_boot (device : disk) (data : list Z) : M (os disk bits) bool :=
  filesys_init (Some device) true;;
  ok ← filesys_create (replicate 20 0) [SLASH; 97] 0 false;
  o ← filesys_open [SLASH; 97];
  p ← deref o;
  w ← file_write p data (Z.of_nat (length data));
  file_close (Some p);;
  filesys_done;;
  mret (ok && (w =? Z.of_nat (length data))).

Definition second_boot (device : disk) : M (os disk bits) (list Z) :=
  filesys_init (Some device) false;;
  o ← filesys_open [SLASH; 97];
  p ← deref o;
  file_read p 2000.

Definition power_on : os disk bits := Os (fresh_fs 0) ∅ 0 None None.

Definition after_first (device : disk) (data : list Z) : option (bool * list Z) :=
  match first_boot device data power_on with
  | Ok ok s =>
    match second_boot (fs_device (os_fs s)) power_on with
    | Ok bytes _ => Some (ok, bytes)
    | Fail _ => None
    end
  | Fail _ => None
  end.


(** A refused [filesys_create] loses two sectors.  Creating a name that exists
    returns false and gives back the sector of the new inode, but not the first sector
    and the index block that [inode_create] allocated for it. *)
Theorem create_existing_leaks :
  match (filesys_init (Some ∅) true;;
         _ ← filesys_create (replicate 20 0) [SLASH; 97] 0 false;
         x ← gets os_fs;
         ok ← filesys_create (replicate 20 0) [SLASH; 97] 0 false;
         y ← gets os_fs;
         mret (ok, free_count (free_map x), free_count (free_map y))) power_on with
  | Ok (ok, before, after) _ => ok = false /\ before = (after + 2)%nat
  | Fail _ => False
  end.
Proof. vm_compute. split; reflexivity. Qed.

Lemma create_of_slashes_faults_witness :
  faults BadAccess (filesys_create (replicate 20 0) [SLASH] 0 false) (root_os 0).
Proof.
  apply (create_of_slashes_faults [SLASH] (replicate 20 0) 0 false 0 root_inode root_content (root_os 0)).
  - exists SLASH, []. split; [reflexivity|by left].
  - reflexivity.
  - split; [reflexivity|exact root_dir_at|exact root_dir_inv|exact root_table|
      by apply not_elem_of_empty|reflexivity].
  - reflexivity.
  - reflexivity.
Defined.
