(* ===== verification/Create.v ===== *)
(** * Create: new files ([filesys_create] of [filesys/filesys.c] over [inode_create]).

    The chain of [filesys_create] takes a sector from the free map, lays out an inode there
    and binds the name to it.  [vstep] says what such steps leave alone: the sectors in use
    outside the free map file keep their bytes and stay in use. *)
From S2P Require Import Prelude Bytes State Instances Cache FreeMap Inode InodeData InodeGrowth InodeLife File Directory Filesys.
From Stdlib Require Import ZArith Lia.
From stdpp Require Import prelude gmap.

Open Scope Z_scope.

(** ** Files that a change does not touch *)
Lemma of_file_bmap {D B} {dev : BlockDev D} (s : fs D B) d b : 0 <= b < blocks d -> of_file s d (bmap (view s) d b).
Proof. intros Hb. exists b. auto. Qed.
Lemma of_file_path {D B} {dev : BlockDev D} (s : fs D B) d b k :
  0 <= b < blocks d -> k ∈ index_path (view s) d b -> of_file s d k.
Proof. intros Hb Hk. exists b. auto. Qed.

Lemma bmap_frame {D B} {dev : BlockDev D} (s s' : fs D B) d b :
  (forall k, of_file s d k -> view s' k = view s k) -> 0 <= b < blocks d ->
  bmap (view s') d b = bmap (view s) d b /\ index_path (view s') d b = index_path (view s) d b.
Proof.
  intros H Hb. split; [apply bmap_ext|apply index_path_ext]; intros k Hk; by eapply H, of_file_path.
Qed.
Lemma of_file_frame {D B} {dev : BlockDev D} (s s' : fs D B) d k :
  (forall k, of_file s d k -> view s' k = view s k) -> of_file s' d k -> of_file s d k.
Proof.
  intros H (b & Hb & Hk). destruct (bmap_frame s s' d b H Hb) as [E1 E2]. rewrite E1, E2 in Hk.
  exists b. auto.
Qed.
Lemma file_wf_frame {D B} {dev : BlockDev D} (s s' : fs D B) d :
  (forall k, of_file s d k -> view s' k = view s k) -> file_wf (view s) d -> file_wf (view s') d.
Proof. intros H. apply file_wf_ext. intros b k Hb Hk. by eapply H, of_file_path. Qed.
Lemma content_frame {D B} {dev : BlockDev D} (s s' : fs D B) d :
  (forall k, of_file s d k -> view s' k = view s k) -> content (view s') d = content (view s) d.
Proof.
  intros H. apply list_fmap_ext. intros j k [-> Hj]%lookup_seqZ. unfold fbyte.
  pose proof (block_range d (0 + Z.of_nat j) ltac:(lia)) as Hb.
  destruct (bmap_frame s s' d _ H Hb) as [-> _]. by rewrite H by by apply of_file_bmap.
Qed.

Section create.
Context {D B : Type} {dev : BlockDev D} {bm : Bitmap B} {io : BitmapIO D B} {mem : Memory}.
Context {laws : BlockDevLaws D} {bml : BitmapLaws B} {X : list Z} {iol : BitmapIOLaws D B X}.
Abbreviation fs := (fs D B).
Implicit Types (s : fs) (i : nat) (f : file) (d : inode_disk).

(** ** Steps that allocate *)

(** The free map file is open in the sectors [X], and the free map knows that. *)
Record volume f s : Prop := {
  vo_ok : fs_ok s;
  vo_file : free_map_file s = Some f;
  vo_size : bitmap_size (free_map s) = dev_sectors;
  vo_area : forall k, k ∈ X -> in_use s k = true;
}.

(** The sectors that may change: those of the free map file and those not in use. *)
Definition spare s (k : Z) : Prop := k ∈ X \/ (valid_sector k = true /\ in_use s k = false).
Record vstep f s s' : Prop := {
  vs_volume : volume f s';
  vs_frame : forall k, (~ spare s k) -> view s' k = view s k;
  vs_used : forall k, valid_sector k = true -> in_use s k = true -> in_use s' k = true;
}.
(** The tables that an allocation does not touch. *)
Record same_tables s s' : Prop := {
  st_open : open_inodes s' = open_inodes s;
  st_inodes : inodes s' = inodes s;
  st_held : held s' = held s;
}.
(** The sectors of the file [d] were not in use in [s]; now they are. *)
Definition taken s s' d : Prop :=
  forall k, of_file s' d k -> valid_sector k = true /\ in_use s k = false /\ in_use s' k = true /\ k ∉ X.

Lemma spare_step f s s' k : vstep f s s' -> spare s' k -> spare s k.
Proof.
  intros Hs [Hk|[Hv Hk]]; [by left|right]. split; [done|].
  destruct (in_use s k) eqn:Hu; [|done]. by rewrite (vs_used _ _ _ Hs) in Hk.
Qed.
Lemma vstep_refl f s : volume f s -> vstep f s s.
Proof. by split. Qed.
Lemma vstep_trans f s1 s2 s3 : vstep f s1 s2 -> vstep f s2 s3 -> vstep f s1 s3.
Proof.
  intros H1 H2. split; [apply H2| |].
  - intros k Hk. rewrite (vs_frame _ _ _ H2); [by apply H1|]. by intros ?%(spare_step f s1 s2).
  - intros k Hv Hk. apply (vs_used _ _ _ H2 k Hv), (vs_used _ _ _ H1 k Hv Hk).
Qed.

(** The steps of [file_growth], from inside and from outside. *)
Lemma vstep_base f s s' : vstep f s s' -> base (X := X) f (spare s) (view s) s' s'.
Proof.
  intros Hs. pose proof Hs as [[V1 V2 V3 V4] Hf Hu]. split; try done.
  intros k Hv Hk. apply (spare_step f s s'); [done|]. by right.
Qed.
Lemma base_vstep f s s0 s' :
  base (X := X) f (spare s) (view s) s0 s' ->
  (forall k, valid_sector k = true -> in_use s k = true -> in_use s' k = true) -> vstep f s s'.
Proof. intros [B1 B2 B3 B4 B5 B6 B7 B8 B9] Hu. split; [by split|done|done]. Qed.
Lemma volume_ext f s s' :
  volume f s -> fs_ok s' -> free_map s' = free_map s -> free_map_file s' = free_map_file s -> volume f s'.
Proof.
  intros [V1 V2 V3 V4] Hok Hm Hf. split; [done|congruence|congruence|].
  intros k Hk. unfold in_use. rewrite Hm. by apply V4.
Qed.
(** What does not touch the free map nor the contents. *)
Lemma vstep_ext f s s1 s' :
  vstep f s s1 -> fs_ok s' -> free_map s' = free_map s1 -> free_map_file s' = free_map_file s1 ->
  (forall k, view s' k = view s1 k) -> vstep f s s'.
Proof.
  intros [V1 V2 V3] Hok Hm Hf Hv. split; [by eapply volume_ext| |].
  - intros k Hk. rewrite Hv. by apply V2.
  - intros k Hk Hk'. unfold in_use. rewrite Hm. by apply V3.
Qed.
Lemma spare_X s k : k ∈ X -> spare s k.
Proof. by left. Qed.

(** [free_map_allocate (1, ...)] *)
Lemma wp_allocate_step f s (Q : option Z -> fs -> Prop) :
  volume f s -> room X 0 s -> (0 < free_count (free_map s))%nat ->
  (forall n s', vstep f s s' -> same_tables s s' -> next_inode s' = next_inode s ->
     valid_sector n = true -> in_use s n = false -> in_use s' n = true -> n ∉ X ->
     (forall r, 0 <= r -> room X r s -> room X r s') ->
     (free_count (free_map s) <= free_count (free_map s') + 1)%nat -> Q (Some n) s') ->
  wp (free_map_allocate 1) Q s.
Proof.
  intros Hv Hr Hc HQ.
  eapply (wp_allocate_fresh f (spare s) (view s) s); [by apply spare_X|
    by apply vstep_base, vstep_refl|done|done|].
  intros n s' [G1 G2 G3 G4 G5 G6] Hn (O1 & O2 & O3 & _). pose proof G1 as [_ _ _ _ _ _ B7 B8 B9].
  apply HQ; try done.
  - by eapply base_vstep.
  - intros r H0 Hr'. apply G5; [done|]. by rewrite Z.add_0_r.
Qed.

(** ** [inode_alloc] *)

(** A new file [d'], laid out from [d]: its bytes are zeros and its sectors were free. *)
Record laid_out f (d d' : inode_disk) s s' : Prop := {
  lo_step : vstep f s s';
  lo_shape : exists sp ind, d' = set_idx ind (set_sp sp d) /\
    (sp = id_sp d \/ valid_sector sp = true) /\ (ind = id_ind d \/ valid_sector ind = true);
  lo_wf : file_wf (view s') d';
  lo_zeros : content (view s') d' = replicate (Z.to_nat (id_length d)) 0;
  lo_taken : taken s s' d';
}.

Lemma growing_taken f s s0 i n d c s' :
  growing (X := X) f (spare s) (view s) s0 i n d c s' -> blocks d <= c -> c <= 129 -> taken s s' d.
Proof.
  intros [G1 G2 G3 [M1 M2] G5] Hc Hc' k (b & Hb & Hk).
  assert (Ho : forall k, owned (X := X) (spare s) s' k ->
    valid_sector k = true /\ in_use s k = false /\ in_use s' k = true /\ k ∉ X).
  { intros j (O1 & O2 & O3 & [?|[_ O4]]); [done|]. done. }
  apply Ho. destruct Hk as [-> | Hk]; [apply M1; lia|]. unfold index_path in Hk.
  destruct (Z.ltb_spec b 1); [by apply elem_of_nil in Hk|].
  destruct (Z.ltb_spec b 129); [|lia]. apply list_elem_of_singleton in Hk as ->.
  destruct G5 as [?|[G5 _]]; [lia|done].
Qed.

Lemma wp_inode_alloc f d s (Q : inode_disk -> fs -> Prop) :
  let len := id_length d in
  volume f s -> dev_sectors <= UINT32 -> inodes s !! next_inode s = None ->
  0 <= len <= INT_MAX -> len / 512 < 129 ->
  room X (2 * (len / 512) + 2) s -> (Z.to_nat (len / 512 + 2) <= free_count (free_map s))%nat ->
  (forall d' s', laid_out f d d' s s' -> same_tables s s' -> next_inode s' = S (next_inode s) -> Q d' s') ->
  wp (inode_alloc d) Q s.
Proof.
  intros len Hv Hdev Hnone Hlen Hblk Hroom Hcnt HQ.
  set (i := next_inode s) in *. set (n0 := Inode 0 0 false 0 (set_length 0 d) 0).
  set (s1 := set_next_inode (S i) (set_inodes (<[i := n0]> (inodes s)) s)).
  pose proof (vstep_base f s s (vstep_refl f s Hv)) as [B1 B2 B3 B4 B5 B6 B7 B8 B9].
  assert (Hg : growing (X := X) f (spare s) (view s) s1 i n0 (set_length 0 d) ((0 + 511) / 512) s1).
  { split; [| by simpl; rewrite lookup_insert_eq|done| |left; done].
    - split; try done. by apply (fs_ok_ext s).
    - split; intros a; intros; exfalso; revert H; change ((0 + 511) / 512) with 0; lia. }
  apply wp_bind, wp_bind, wp_gets, wp_bind, wp_modify, wp_ret. fold i. fold s1.
  apply wp_bind. eapply (wp_file_growth f (spare s) (view s) s1); [by apply spare_X|done|exact Hg|..];
    rewrite ?Z.add_0_l; fold len; change (id_length (i_data n0)) with 0; change (0 / 512) with 0;
    rewrite ?Z.sub_0_r; [lia|lia|by right|lia|done|done|done|done|].
  intros s2 (sp & ind & K1 & K2 & K3 & K4 & K5 & K6 & K7 & K8). cbv zeta in *.
  change (i_data n0) with (set_length 0 d) in *.
  set (d' := set_idx ind (set_sp sp (set_length len (set_length 0 d)))) in *.
  pose proof (gr_base _ _ _ _ _ _ _ _ _ K1) as KB.
  apply wp_bind. eapply wp_load_inode; [apply K1|]. apply wp_bind, wp_bind.
  eapply wp_load_inode; [apply K1|]. apply wp_modify, wp_ret. simpl.
  set (s3 := set_inodes _ s2).
  assert (Hc129 : (len + 511) / 512 <= 129) by (Z.div_mod_to_equations; lia).
  assert (Hd' : d' = set_idx ind (set_sp sp d)) by (unfold d', len; by destruct d).
  apply HQ.
  - split.
    + apply (vstep_ext f s s2); try done.
      * by apply (base_vstep f s s1).
      * apply (fs_ok_ext s2); try done. apply KB.
    + exists sp, ind. split_and!; [done|done|done].
    + change (file_wf (view s2) d').
      eapply (growing_wf f (spare s) (view s) s1); [exact K1|simpl; lia|done|done].
    + change (content (view s2) d' = replicate (Z.to_nat len) 0). apply list_eq. intros j.
      unfold content. rewrite list_lookup_fmap. change (id_length d') with len.
      destruct (decide (Z.of_nat j < len)).
      * rewrite lookup_seqZ_lt, lookup_replicate_2 by lia. simpl. f_equal. apply K6; [done|]. change (id_length (set_length 0 d)) with 0. lia.
      * rewrite lookup_seqZ_ge by lia. symmetry. apply lookup_replicate_None. lia.
    + change (taken s s2 d'). eapply (growing_taken f s s1 i _ d'); [exact K1|done|done].
  - split; simpl.
    + by rewrite (ba_open _ _ _ _ _ KB).
    + rewrite K2. simpl. by rewrite insert_insert_eq, delete_insert_id.
    + by rewrite (ba_held _ _ _ _ _ KB).
  - simpl. by rewrite (ba_next _ _ _ _ _ KB).
Qed.

(** ** [inode_create] *)

(** The sector was taken since [s0]. *)
Record reserved f s0 s (sector : Z) : Prop := {
  rs_step : vstep f s0 s;
  rs_valid : valid_sector sector = true;
  rs_free : in_use s0 sector = false;
  rs_used : in_use s sector = true;
  rs_X : sector ∉ X;
}.
(** Since [s0] the inode [d] was laid out in the sector: a file of [len] zeros, in sectors
    that were free. *)
Record new_file f (len : Z) (isdir : bool) s0 s (sector : Z) d : Prop := {
  nf_reserved : reserved f s0 s sector;
  nf_stored : view s sector = inode_disk_bytes d;
  nf_words : words_ok d;
  nf_wf : file_wf (view s) d;
  nf_taken : taken s0 s d;
  nf_length : id_length d = len;
  nf_isdir : id_isdir d = isdir;
  nf_zeros : content (view s) d = replicate (Z.to_nat len) 0;
}.

Lemma reserved_step f s0 s s' sector :
  reserved f s0 s sector -> vstep f s s' -> reserved f s0 s' sector.
Proof.
  intros [R1 R2 R3 R4 R5] Hs. split; try done; [by eapply vstep_trans|].
  by apply (vs_used _ _ _ Hs).
Qed.

Lemma reserved_owned f s0 s sector :
  reserved f s0 s sector -> owned (X := X) (spare s0) s sector.
Proof. intros [R1 R2 R3 R4 R5]. split_and!; try done. by right. Qed.

Lemma laid_out_words f len isdir d s s' :
  0 <= len <= INT_MAX -> dev_sectors <= UINT32 ->
  laid_out f (blank_inode len isdir) d s s' -> words_ok (set_parent ROOT_DIR_SECTOR d).
Proof.
  intros Hl Hd [_ (sp & ind & -> & Hsp & Hind) _ _ _].
  assert (Hw : forall k, k = 0 \/ valid_sector k = true -> 0 <= k < UINT32).
  { intros k [-> |Hk]; [by unfold UINT32|]. apply valid_spec in Hk. lia. }
  assert (Hs : 0 <= sp < UINT32) by (apply Hw; destruct Hsp as [->|]; auto).
  assert (Hi : 0 <= ind < UINT32) by (apply Hw; destruct Hind as [->|]; auto).
  unfold words_ok, INT_MIN, INT_MAX, UINT32, ROOT_DIR_SECTOR, INODE_MAGIC in *. simpl in *.
  split_and!; try done; lia.
Qed.

(** Storing the inode in its sector. *)
Lemma wp_store_new f len isdir s0 s s1 sector d (Q : unit -> fs -> Prop) :
  dev_sectors <= UINT32 -> 0 <= len <= INT_MAX ->
  reserved f s0 s sector -> laid_out f (blank_inode len isdir) d s s1 ->
  (forall s2, new_file f len isdir s0 s2 sector (set_parent ROOT_DIR_SECTOR d) ->
     same_tables s1 s2 -> next_inode s2 = next_inode s1 -> Q tt s2) ->
  wp (change_block sector (fun b => memcpy b 0 (inode_disk_bytes (set_parent ROOT_DIR_SECTOR d)))) Q s1.
Proof.
  intros Hdev Hlen Hr Hlo HQ. pose proof (laid_out_words _ _ _ _ _ _ Hlen Hdev Hlo) as Hw.
  pose proof (reserved_step _ _ _ s1 _ Hr (lo_step _ _ _ _ _ Hlo)) as Hr1.
  set (d' := set_parent ROOT_DIR_SECTOR d) in *. pose proof (length_inode_disk_bytes _ Hw) as Hbl.
  pose proof (rs_step _ _ _ _ Hr1) as Hs1.
  assert (Hvl : Z.of_nat (length (view s1 sector)) = SECTOR).
  { apply view_length; [apply Hs1|apply Hr]. }
  eapply (wp_change_owned f (spare s0) (view s0) s1 sector _ (inode_disk_bytes d'));
    [by apply vstep_base|by eapply reserved_owned| |done|].
  { rewrite memcpy_ok by lia. unfold splice. f_equal. change (Z.to_nat 0) with 0%nat.
    rewrite take_0, drop_ge, app_nil_r by lia. done. }
  intros s2 [G1 G2 G3 G4 _ _]. pose proof G1 as [_ _ _ _ _ _ B7 B8 B9].
  pose proof Hlo as [L1 L2 L3 L4 L5].
  assert (Hsector : view s2 sector = inode_disk_bytes d').
  { rewrite G2 by apply Hr. unfold view_upd. by rewrite Z.eqb_refl. }
  assert (Hsame : forall k, of_file s1 d' k -> view s2 k = view s1 k).
  { intros k Hk. destruct (L5 k Hk) as (T1 & T2 & T3 & T4). rewrite G2 by done. unfold view_upd.
    destruct (Z.eqb_spec sector k) as [<-|]; [|done]. pose proof (rs_used _ _ _ _ Hr). congruence. }
  assert (Hs2 : vstep f s0 s2).
  { apply (base_vstep f s0 s1); [done|]. intros k Hk Hk'. apply G3; [done|]. by apply (vs_used _ _ _ Hs1). }
  apply HQ; [|by split|done].
  destruct L2 as (sp & ind & Hd & _ & _).
  split; [|done|done| | | | |].
  - pose proof Hr1 as [R1 R2 R3 R4 R5]. split; try done. by apply G3.
  - apply (file_wf_frame s1 s2 d' Hsame). destruct L3. by split.
  - intros k Hk%(of_file_frame s1 s2); [|done]. destruct (L5 k Hk) as (T1 & T2 & T3 & T4).
    split_and!; try done; [|by apply G3].
    destruct (in_use s0 k) eqn:Hu; [|done].
    by rewrite (vs_used _ _ _ (rs_step _ _ _ _ Hr)) in T2.
  - unfold d'. by rewrite Hd.
  - unfold d'. by rewrite Hd.
  - rewrite (content_frame s1 s2 d' Hsame). exact L4.
Qed.

Lemma new_file_held f len isdir s0 s sector d h :
  (forall x, cache_io x ∈ h -> cache_io x ∈ held s) ->
  new_file f len isdir s0 s sector d -> new_file f len isdir s0 (set_held h s) sector d.
Proof.
  intros Hh [[R1 R2 R3 R4 R5] N2 N3 N4 N5 N6 N7 N8]. split; try done. split; try done.
  apply (vstep_ext f s0 s); try done. apply fs_ok_held; [done|]. apply R1.
Qed.

Lemma wp_inode_create f s0 s sector len isdir (Q : bool -> fs -> Prop) :
  reserved f s0 s sector -> dev_sectors <= UINT32 -> inodes s !! next_inode s = None ->
  file_lock ∉ held s -> malloc_ok = true -> 0 <= len <= INT_MAX -> len / 512 < 129 ->
  room X (2 * (len / 512) + 2) s -> (Z.to_nat (len / 512 + 2) <= free_count (free_map s))%nat ->
  (forall d s', new_file f len isdir s0 s' sector d -> same_tables s s' ->
     next_inode s' = S (next_inode s) -> Q true s') ->
  wp (inode_create sector len isdir) Q s.
Proof.
  intros Hr Hdev Hnone Hl Hm Hlen Hblk Hroom Hcnt HQ. apply wp_locked; [done|].
  set (sl := set_held _ s).
  assert (Hsl : vstep f s sl).
  { pose proof (vs_volume _ _ _ (rs_step _ _ _ _ Hr)) as Hv.
    apply (vstep_ext f s s); try done. apply fs_ok_held; [set_solver|apply Hv]. }
  apply wp_bind, wp_assert; [lia|]. rewrite Hm. apply wp_bind.
  apply (wp_inode_alloc f); try done; [apply Hsl|].
  intros d s1 Hlo [T1 T2 T3] Hnx. simpl in *. apply wp_bind.
  apply (wp_store_new f len isdir s0 sl); [done|done|by eapply reserved_step|done|].
  intros s2 Hn [U1 U2 U3] Hnx2. apply wp_ret.
  assert (Hh : held s2 = {[file_lock]} ∪ held s) by (rewrite U3, T3; done).
  split; [done|]. apply (HQ (set_parent ROOT_DIR_SECTOR d)).
  - apply new_file_held; [|done]. rewrite Hh. set_solver.
  - split; simpl; congruence.
  - simpl. congruence.
Qed.
End create.

Section paths.
Context {D B : Type} {dev : BlockDev D} {bm : Bitmap B} {io : BitmapIO D B} {mem : Memory}.
Context {laws : BlockDevLaws D} {bml : BitmapLaws B} {X : list Z} {iol : BitmapIOLaws D B X}.
Abbreviation fs := (fs D B).
Abbreviation os := (os D B).
Implicit Types (x y : fs) (s : os) (p r : nat) (f : file) (d : inode_disk).

(** The name is bound to a new inode [d] in [sector]: a file of [len] zeros, in sectors that
    were free.  Other than free sectors and the free map file, only the directory changed. *)
Record created f (len : Z) (isdir : bool) r (n : inode) (c : list Z) (name : list Z)
    x y (sector : Z) d (c' : list Z) : Prop := {
  cr_volume : volume (X := X) f y;
  cr_valid : valid_sector sector = true;
  cr_free : in_use x sector = false;
  cr_used : in_use y sector = true;
  cr_stored : view y sector = inode_disk_bytes d;
  cr_words : words_ok d;
  cr_wf : file_wf (view y) d;
  cr_taken : taken (X := X) x y d;
  cr_length : id_length d = len;
  cr_isdir : id_isdir d = isdir;
  cr_zeros : content (view y) d = replicate (Z.to_nat len) 0;
  cr_dir : dir_at r n c' y;
  cr_bound : bound c name sector c';
  cr_frame : forall k, (~ spare (X := X) x k) -> (~ of_file x (i_data n) k) -> view y k = view x k;
  cr_mono : forall k, valid_sector k = true -> in_use x k = true -> in_use y k = true;
}.

(** The sectors of the directory are in use, and not those of the free map. *)
Definition kept x d : Prop := forall k, of_file x d k -> in_use x k = true /\ k ∉ X.

Lemma kept_spare x d k : kept x d -> of_file x d k -> ~ spare (X := X) x k.
Proof. intros H Hk [?|[_ ?]]; destruct (H k Hk); [done|congruence]. Qed.

Lemma dir_at_vstep f r n c x y :
  dir_at r n c x -> kept x (i_data n) -> vstep (X := X) f x y -> same_tables x y -> dir_at r n c y.
Proof.
  intros [D1 D2 D3 D4 D5] Hk Hs [T1 T2 T3].
  assert (Hf : forall k, of_file x (i_data n) k -> view y k = view x k)
    by (intros k Hk'; apply (vs_frame _ _ _ Hs); by eapply kept_spare).
  split; [by rewrite T2|apply Hs|by apply (file_wf_frame x y)|by rewrite T3|].
  by rewrite (content_frame x y).
Qed.

(** [dir_add] after [inode_create]. *)
Lemma created_bound f len isdir r n c name x y z sector d c' :
  dir_at r n c x -> kept x (i_data n) ->
  new_file (X := X) f len isdir x y sector d ->
  fs_ok z -> same_rest y z -> dir_at r n c' z -> bound c name sector c' ->
  (forall k, (forall b, 0 <= b < blocks (i_data n) -> k <> bmap (view y) (i_data n) b) ->
     view z k = view y k) ->
  created f len isdir r n c name x z sector d c'.
Proof.
  intros Hd Hk [[R1 R2 R3 R4 R5] N2 N3 N4 N5 N6 N7 N8] Hok [Q1 Q2 Q3 Q4 Q5 Q6] Hdz Hb Hfr.
  assert (Hdf : forall k, of_file x (i_data n) k -> view y k = view x k)
    by (intros k Hk'; apply (vs_frame _ _ _ R1); by eapply kept_spare).
  assert (Hfr' : forall k, (~ of_file x (i_data n) k) -> view z k = view y k).
  { intros k Hn. apply Hfr. intros b Hb' ->. apply Hn. eapply of_file_frame; [exact Hdf|].
    by apply of_file_bmap. }
  assert (Hu : forall k, in_use z k = in_use y k) by (intros; unfold in_use; by rewrite Q1).
  assert (Hnew : forall k, in_use x k = false -> view z k = view y k).
  { intros k Hf. apply Hfr'. intros Hk'. destruct (Hk k Hk'). congruence. }
  assert (Hfile : forall k, of_file y d k -> view z k = view y k)
    by (intros k Hk'; apply Hnew; by apply N5).
  split; try done.
  - by eapply volume_ext; [apply R1|..].
  - by rewrite Hu.
  - by rewrite Hnew.
  - by apply (file_wf_frame y z).
  - intros k Hk'%(of_file_frame y z); [|done]. rewrite Hu. by apply N5.
  - by rewrite (content_frame y z).
  - intros k Hs Hn. rewrite Hfr' by done. by apply (vs_frame _ _ _ R1).
  - intros k Hv Hk'. rewrite Hu. by apply (vs_used _ _ _ R1).
Qed.

Lemma wp_create_chain f e0 p r n c name len isdir s (Q : bool * Z -> os -> Prop) :
  let x := os_fs s in
  os_files s !! p = Some (File r 0 false) -> dir_at r n c x -> dir_inv c ->
  i_read_cnt n = 0 -> i_deny_write_cnt n = 0 -> id_length (i_data n) <= INT_MAX ->
  good_name name -> dir_map c name = None -> length e0 = 20%nat ->
  find_slot (fun e => negb (e_in_use e)) c <> None -> kept x (i_data n) ->
  volume (X := X) f x -> dev_sectors <= UINT32 -> inodes x !! next_inode x = None ->
  file_lock ∉ held x -> malloc_ok = true -> 0 <= len <= INT_MAX -> len / 512 < 129 ->
  room X (2 * (len / 512) + 2) x -> (Z.to_nat (len / 512 + 3) <= free_count (free_map x))%nat ->
  (forall sector d c' y, created f len isdir r n c name x y sector d c' -> same_tables x y ->
     next_inode y = S (next_inode x) -> Q (true, sector) (set_fs y s)) ->
  wp (create_chain e0 (Some p) name len isdir) Q s.
Proof.
  intros x Hp Hd Hi Hr Hdn Hmax Hg Hno He0 Hfree Hk Hv Hdev Hnone Hl Hm Hlen Hblk Hroom Hcnt HQ. subst x.
  apply wp_bind, wp_lift. assert (Hq : 0 <= len / 512) by (apply Z.div_pos; lia).
  apply (wp_allocate_step (X := X) f); [done|by apply (room_mono X (2 * (len / 512) + 2)); [lia|]|
    lia|].
  intros sector x1 S1 [T1 T2 T3] Hnx1 A1 A2 A3 A4 A5 A6. apply wp_bind, wp_lift. simpl.
  apply (wp_inode_create (X := X) f (os_fs s) x1); try done; [by rewrite T2, Hnx1|by rewrite T3|
    apply A5; [lia|done]|lia|].
  intros d x2 Hn [U1 U2 U3] Hnx2. apply wp_bind.
  assert (Ht : same_tables (os_fs s) x2) by (split; congruence).
  pose proof (dir_at_vstep f r n c (os_fs s) x2 Hd Hk (rs_step _ _ _ _ (nf_reserved _ _ _ _ _ _ _ Hn)) Ht) as Hd2.
  pose proof Hn as [[_ Hvs _ _ _] _ _ _ _ _ _ _]. apply valid_spec in Hvs.
  eapply wp_mono; [apply (wp_dir_add_inserts p (File r 0 false) n c name sector e0);
    [exact Hp|exact Hd2|done|done|done|done|done|done|lia|done|done]|].
  intros b s' (-> & (z & -> & Hok & Hsr) & c' & Hdz & Hb & Hfr); cbn beta. apply wp_ret.
  apply (HQ sector d c').
  - by eapply created_bound.
  - destruct Hsr as [Q1 Q2 Q3 Q4 Q5 Q6]. destruct Ht. split; simpl in *; congruence.
  - destruct Hsr as [Q1 Q2 Q3 Q4 Q5 Q6]. simpl in *. congruence.
Qed.

(** What [filesys_create] needs: the root directory is open, has a free entry and not the
    name; the volume has room for the file. *)
Record creatable f (len : Z) r (n : inode) (c token : list Z) s : Prop := {
  ct_root : root_at r n c s;
  ct_volume : volume (X := X) f (os_fs s);
  ct_kept : kept (os_fs s) (i_data n);
  ct_readers : i_read_cnt n = 0;
  ct_deny : i_deny_write_cnt n = 0;
  ct_max : id_length (i_data n) <= INT_MAX;
  ct_slot : find_slot (fun e => negb (e_in_use e)) c <> None;
  ct_name : good_name token;
  ct_dot : token <> DOT /\ token <> DOTDOT;
  ct_unbound : dir_map c token = None;
  ct_len : 0 <= len <= INT_MAX;
  ct_blocks : len / 512 < 129;
  ct_room : room X (2 * (len / 512) + 2) (os_fs s);
  ct_count : (Z.to_nat (len / 512 + 3) <= free_count (free_map (os_fs s)))%nat;
}.

(** Counting the opener of the directory out again. *)
Lemma created_reopened f len isdir r n n1 c name x y sector d c' m m' :
  created f len isdir r n1 c name (set_inodes m x) y sector d c' -> i_data n1 = i_data n ->
  m' !! r = Some n -> created f len isdir r n c name x (set_inodes m' y) sector d c'.
Proof.
  intros [C1 C2 C3 C4 C5 C6 C7 C8 C9 C10 C11 C12 C13 C14 C15] Hn Hm.
  assert (Hok : fs_ok (set_inodes m' y)) by (apply (fs_ok_ext y); try done; apply C1).
  split; try done.
  - by apply (volume_ext f y).
  - eapply (dir_at_reopened r n1 n c' y); try done.
  - rewrite Hn in C14. exact C14.
Qed.

Lemma table_inv_taller x y m :
  table_inv x -> open_inodes y = open_inodes x -> inodes y = m -> inodes x = m -> held y = held x ->
  next_inode y = S (next_inode x) -> table_inv y.
Proof.
  intros [T1 T2 T3 T4 T5] H1 H2 H3 H4 H5. rewrite <- H3 in H2. split; rewrite ?H1, ?H2, ?H4, ?H5; try done.
  intros i n Hi. specialize (T4 i n Hi). lia.
Qed.

Lemma wp_filesys_create f len r n c name token e0 s (Q : bool -> os -> Prop) :
  creatable f len r n c token s -> from_root name s -> strtok name = [token] ->
  length e0 = 20%nat -> dev_sectors <= UINT32 -> malloc_ok = true ->
  (forall sector d c' y, created f len false r n c token (os_fs s) y sector d c' ->
     same_tables (os_fs s) y -> table_inv y ->
     Q true (set_next (S (os_next s)) (set_files (delete (os_next s) (os_files s)) (set_fs y s)))) ->
  wp (filesys_create e0 name len false) Q s.
Proof.
  intros [C1 C2 C3 C4 C5 C6 C7 C8 [C9 C9'] C10 C11 C12 C13 C14] Hfr Hst He0 Hdev Hm HQ.
  pose proof C1 as [R1 R2 R3 R4 R5 R6]. unfold filesys_create.
  rewrite bool_decide_eq_false_2 by (by destruct Hfr as (? & ? & -> & _)).
  apply wp_bind. eapply (wp_true_dir_root name token r n c s); [done..|]. intros n1 x X1 X2.
  cbn iota beta. apply wp_bind, wp_deref with (a := token); [done|].
  rewrite !bool_decide_eq_false_2 by done. cbn [negb andb]. apply wp_bind.
  set (p0 := os_next s). set (s1 := set_next _ _).
  assert (Hnone : inodes x !! next_inode x = None).
  { destruct (inodes x !! next_inode x) as [m|] eqn:Hx; [|done]. apply X1 in Hx. lia. }
  apply (wp_create_chain f e0 p0 r n1 c token len false s1); try done;
    [simpl; by rewrite lookup_insert_eq| |].
  { apply (volume_ext f (os_fs s)); try done. apply X2. }
  intros sector d c' y Hc [T1 T2 T3] Hnx. simpl in Hc, T1, T2, T3, Hnx.
  assert (Hr : inodes y !! r = Some n1) by (rewrite T2; by rewrite lookup_insert_eq).
  assert (Hcnt : 1 <= i_open_cnt n).
  { destruct (open_inode_at_Some _ _ _ R1) as (Hin & _). destruct (ti_alive _ R4 r Hin) as (m & Hm' & _ & Hc').
    rewrite (da_inode _ _ _ _ R2) in Hm'. by injection Hm' as <-. }
  apply wp_bind, wp_when; [done|intros _].
  apply wp_bind. eapply (wp_dir_close_more p0 r n1); [simpl; by rewrite lookup_insert_eq|exact Hr|simpl; lia|].
  apply wp_ret. replace (set_open_cnt (i_open_cnt n1 - 1) n1) with n
    by (unfold n1; destruct n; unfold set_open_cnt; simpl; f_equal; lia).
  set (m := <[r := n]> (inodes y)).
  assert (Hmm : m = inodes (os_fs s)).
  { unfold m. rewrite T2. rewrite insert_insert_eq. apply insert_id, R2. }
  simpl. rewrite delete_insert_eq. apply (HQ sector d c' (set_inodes m y)).
  - eapply created_reopened; [exact Hc|done|]. unfold m. by rewrite lookup_insert_eq.
  - by split.
  - by eapply (table_inv_taller (os_fs s)).
Qed.

Lemma created_life f len isdir r n c name x y z sector d c' :
  created f len isdir r n c name x y sector d c' -> life_step (view y) y z -> inodes z !! r = Some n ->
  created f len isdir r n c name x z sector d c'.
Proof.
  intros [C1 C2 C3 C4 C5 C6 C7 C8 C9 C10 C11 C12 C13 C14 C15] [L1 L2 L3 L4 L5] Hr.
  assert (Hu : forall k, in_use z k = in_use y k) by (intros; unfold in_use; by rewrite L3).
  split; try done.
  - by apply (volume_ext f y).
  - by rewrite Hu.
  - by rewrite L2.
  - by apply (file_wf_frame y z).
  - intros k Hk%(of_file_frame y z); [|done]. rewrite Hu. by apply C8.
  - by rewrite (content_frame y z).
  - by eapply dir_at_reopened.
  - intros k H1 H2. rewrite L2. by apply C14.
  - intros k H1 H2. rewrite Hu. by apply C15.
Qed.

(** No open inode is in the new sector, so that it is read from the device. *)
Lemma created_stored f len isdir r n c name s y sector d c' :
  created f len isdir r n c name (os_fs s) y sector d c' -> same_tables (os_fs s) y ->
  (forall i m, i ∈ open_inodes (os_fs s) -> inodes (os_fs s) !! i = Some m ->
     in_use (os_fs s) (i_sector m) = true) ->
  stored sector y = d.
Proof.
  intros Hc [T1 T2 T3] Ho. unfold stored.
  assert (Hn : open_inode_at sector y = None).
  { destruct (open_inode_at sector y) as [i|] eqn:Hi; [|done].
    destruct (open_inode_at_Some _ _ _ Hi) as (Hin & m & Hm & <-). rewrite T1 in Hin. rewrite T2 in Hm.
    pose proof (Ho i m Hin Hm). pose proof (cr_free _ _ _ _ _ _ _ _ _ _ _ _ Hc). congruence. }
  rewrite Hn, (cr_stored _ _ _ _ _ _ _ _ _ _ _ _ Hc). apply inode_disk_bytes_of, Hc.
Qed.

(** C19: [filesys_create] and [filesys_open] of a name in the root directory that it does not
    bind yet.  With a free entry in the directory, room in the cache and enough free sectors,
    for a file below 129 sectors: the create returns true; the open then returns a new open
    file at position 0 on the inode of a sector that was free.  The file has [len] bytes, all
    of them zero; its blocks and index block are distinct, were free before and are not of
    the free map file; the directory is the old map with the name bound to the sector, its
    names still distinct; and no other sector that was in use changed or became free. *)
Theorem create_then_open f len r n c name token e0 s :
  creatable f len r n c token s -> from_root name s -> strtok name = [token] ->
  length e0 = 20%nat -> dev_sectors <= UINT32 -> malloc_ok = true ->
  valid_sector ROOT_DIR_SECTOR = true ->
  (forall i m, i ∈ open_inodes (os_fs s) -> inodes (os_fs s) !! i = Some m ->
     in_use (os_fs s) (i_sector m) = true) ->
  wp (ok ← filesys_create e0 name len false; o ← filesys_open name; mret (ok, o))
     (fun a s' => exists p j nj sector c', a = (true, Some p) /\
        os_files s' !! p = Some (File j 0 false) /\ inodes (os_fs s') !! j = Some nj /\
        i_sector nj = sector /\ table_inv (os_fs s') /\
        created f len false r n c token (os_fs s) (os_fs s') sector (i_data nj) c') s.
Proof.
  intros Hct Hfr Hst He0 Hdev Hm Hvr Ho. apply wp_bind.
  eapply wp_filesys_create; [exact Hct|done..|]. intros sector d c' y Hc Ht Hty.
  pose proof Hct as [[R1 R2 R3 R4 R5 R6] _ _ _ _ _ _ (_ & _ & C8) [C9 C9'] _ _ _ _ _].
  pose proof (created_stored _ _ _ _ _ _ _ _ _ _ _ _ Hc Ht Ho) as Hsd. pose proof Ht as [T1 T2 T3].
  destruct (open_inode_at_Some _ _ _ R1) as (Hin & m & Hmm & Hroot).
  pose proof (Ho r m Hin Hmm) as Hru. rewrite Hroot in Hru.
  apply wp_bind. set (s1 := set_next _ _).
  assert (Hra : root_at r n c' s1).
  { split; [|apply Hc|apply Hc|exact Hty| |exact R6].
    - unfold open_inode_at in *. simpl. by rewrite T1, T2.
    - simpl. by rewrite T3. }
  assert (Hmap : dir_map c' token = Some sector).
  { destruct (cr_bound _ _ _ _ _ _ _ _ _ _ _ _ Hc) as [_ ->]. by rewrite bool_decide_eq_true_2. }
  eapply wp_mono; [apply (wp_filesys_open_in_root name token r n c' s1); try done|].
  - intros sector' Hs'. rewrite Hmap in Hs'. injection Hs' as <-. simpl. rewrite Hsd. split_and!.
    + apply Hc.
    + intros ->. pose proof (cr_free _ _ _ _ _ _ _ _ _ _ _ _ Hc). congruence.
    + apply Hc.
  - intros o s' (Ht' & Hls & Hr & Hcase); cbn beta. rewrite Hmap in Hcase.
    destruct Hcase as (p & j & nj & -> & Hp & Hj & Hsj & Hdj). apply wp_ret.
    exists p, j, nj, sector, c'. split_and!; try done. simpl in Hdj. rewrite Hdj, Hsd.
    by eapply created_life.
Qed.
End paths.

(** ** A second file in the root directory of [root_os] *)
#[local] Existing Instance memory_available.

Lemma root_kept : kept (X := [2]) root_fs (i_data root_inode).
Proof.
  intros k (b & Hb & Hk). change (blocks (i_data root_inode)) with 1 in Hb.
  assert (b = 0) as -> by lia. destruct Hk as [-> |Hk%elem_of_nil]; [|done].
  split; [vm_compute; reflexivity|]. by intros ?%list_elem_of_singleton.
Qed.

Lemma root_volume : volume (X := [2]) (File 9 0 false) root_fs.
Proof.
  split; [exact root_fs_ok|reflexivity|vm_compute; reflexivity|].
  by intros k ->%list_elem_of_singleton.
Qed.

Lemma root_creatable :
  creatable (X := [2]) (File 9 0 false) 600 0 root_inode root_content [98] (root_os 0).
Proof.
  split; try done.
  - split; [reflexivity|exact root_dir_at|exact root_dir_inv|exact root_table|by apply not_elem_of_empty|reflexivity].
  - exact root_volume.
  - exact root_kept.
  - split_and!; [done|simpl; lia|set_solver].
  - vm_compute. lia.
Qed.

Lemma create_then_open_witness :
  wp (ok ← filesys_create (replicate 20 0) [47; 98] 600 false; o ← filesys_open [47; 98]; mret (ok, o))
     (fun a s' => exists p j nj, a = (true, Some p) /\ os_files s' !! p = Some (File j 0 false) /\
        inodes (os_fs s') !! j = Some nj /\ content (view (os_fs s')) (i_data nj) = replicate 600 0)
     (root_os 0).
Proof.
  eapply wp_mono.
  - apply (create_then_open (X := [2]) (File 9 0 false) 600 0 root_inode root_content [47; 98] [98]
      (replicate 20 0) (root_os 0)); [exact root_creatable| |reflexivity|reflexivity|
      vm_compute; discriminate|reflexivity|vm_compute; reflexivity|].
    + exists 47, [98]. split; [reflexivity|]. left. reflexivity.
    + intros i m Hi Hm. assert (Hc : i = 0%nat \/ i = 1%nat) by set_solver.
      destruct Hc as [-> | ->]; injection Hm as <-; vm_compute; reflexivity.
  - intros a s' (p & j & nj & sector & c' & H1 & H2 & H3 & _ & _ & Hc).
    exists p, j, nj. split; [exact H1|]. split; [exact H2|]. split; [exact H3|].
    exact (cr_zeros _ _ _ _ _ _ _ _ _ _ _ _ Hc).
Defined.
