(* ===== verification/Fsutil.v ===== *)
(** * Fsutil: the console utilities ([filesys/fsutil.c]).

    [ls] prints the names that the root directory binds ([ls_lists_root]), [cat] the bytes
    of a file ([cat_prints_file]).  [append] extends a ustar archive on the scratch device
    by a file ([append_makes_archive]), and [extract] puts the files of such an archive into
    the file system ([extract_puts_archive]). *)
From S2P Require Import Prelude Bytes State Instances Cache FreeMap Inode InodeData InodeLife File Directory Filesys.
From Stdlib Require Import ZArith Lia.
From stdpp Require Import prelude gmap.

Open Scope Z_scope.

(** ** Interface: ustar archives ([lib/ustar.h]) *)
Inductive ustar_type := USTAR_REGULAR | USTAR_DIRECTORY | USTAR_EOF | USTAR_OTHER.
Class Ustar := {
  (** [None] when the name is too long. *)
  ustar_make_header : list Z -> ustar_type -> Z -> option (list Z);
  (** [None] stands for an error message. *)
  ustar_parse_header : list Z -> option (list Z * ustar_type * Z);
  (** Prefixes such as "/" are not stored. *)
  ustar_strip : list Z -> list Z;
}.
Definition empty_sector : list Z := replicate (Z.to_nat SECTOR) 0.
Class UstarLaws {us : Ustar} := {
  make_length name t size h : ustar_make_header name t size = Some h -> Z.of_nat (length h) = SECTOR;
  parse_make name t size h : 0 <= size <= INT_MAX -> ustar_make_header name t size = Some h ->
    ustar_parse_header h = Some (ustar_strip name, t, size);
  parse_empty : exists name size, ustar_parse_header empty_sector = Some (name, USTAR_EOF, size);
}.

(** What is printed. *)
Inductive line :=
| Listing | Listed (name : list Z) | End_of_listing
| Printing (name : list Z) | Hex (pos : Z) (bytes : list Z)
| Deleting (name : list Z)
| Extracting | Ignoring (name : list Z) | Putting (name : list Z) | Erasing
| Appending (name : list Z).

(** The file system, the console, the scratch device and the static [sector] of
    [fsutil_extract] and of [fsutil_append]. *)
Record fsu (D B W : Type) := Fsu {
  u_os : os D B;
  u_console : list line;
  u_scratch : option W;
  u_extract : Z;
  u_append : Z;
}.
Arguments Fsu {D B W}. Arguments u_os {D B W}. Arguments u_console {D B W}. Arguments u_scratch {D B W}.
Arguments u_extract {D B W}. Arguments u_append {D B W}.

Section fsutil.
Context {D B W : Type} {dev : BlockDev D} {bm : Bitmap B} {io : BitmapIO D B} {mem : Memory}
  {wdev : BlockDev W} {us : Ustar}.
Abbreviation fsu := (fsu D B W).
Abbreviation K := (M fsu).

(** Whether the page allocator has a page. *)
Context (page_ok : bool).

Definition set_u_os x (s : fsu) : fsu := Fsu x (u_console s) (u_scratch s) (u_extract s) (u_append s).
Definition set_u_console x (s : fsu) : fsu := Fsu (u_os s) x (u_scratch s) (u_extract s) (u_append s).
Definition set_u_scratch x (s : fsu) : fsu := Fsu (u_os s) (u_console s) x (u_extract s) (u_append s).
Definition set_u_extract x (s : fsu) : fsu := Fsu (u_os s) (u_console s) (u_scratch s) x (u_append s).
Definition set_u_append x (s : fsu) : fsu := Fsu (u_os s) (u_console s) (u_scratch s) (u_extract s) x.

Definition on_os {A} (m : M (os D B) A) : K A := fun s =>
  match m (u_os s) with Ok a x => Ok a (set_u_os x s) | Fail f => Fail f end.
Definition say (l : line) : K unit := modify (fun s => set_u_console (u_console s ++ [l]) s).
(** [argv[1]]. *)
Definition argument (argv : list (list Z)) : K (list Z) := deref (argv !! 1%nat).
(** [PANIC] on a null pointer. *)
Definition non_null {A} (o : option A) : K A := match o with Some a => mret a | None => fail Panic end.

(** ** The scratch device *)
Definition read_scratch (sector : Z) : K (list Z) :=
  o ← gets u_scratch;
  d ← non_null o;
  assert (valid_sector (D := W) sector);;
  mret (block_read d sector).
Definition write_scratch (sector : Z) (b : list Z) : K unit :=
  o ← gets u_scratch;
  d ← non_null o;
  assert (valid_sector (D := W) sector);;
  modify (set_u_scratch (Some (block_write d sector b))).

(** ** [ls], [cat], [rm] *)

(** [while (dir_readdir (dir, name))]; every turn finds a further entry of the directory. *)
Fixpoint ls_loop (fuel : nat) (dir : nat) : K unit :=
  match fuel with
  | O => fail Hang
  | S fuel =>
    o ← on_os (dir_readdir dir);
    match o with
    | Some name => say (Listed name);; ls_loop fuel dir
    | None => mret tt
    end
  end.
Definition fsutil_ls (argv : list (list Z)) : K unit :=
  say Listing;;
  o ← on_os dir_open_root;
  dir ← non_null o;
  i ← on_os (dir_get_inode dir);
  n ← on_os (lift (load_inode i));
  ls_loop (S (Z.to_nat (id_length (i_data n)))) dir;;
  say End_of_listing.

(** The loop of [fsutil_cat], with its fuel; every turn but the last reads a byte at least. *)
Fixpoint cat_loop (fuel : nat) (file : nat) : K unit :=
  match fuel with
  | O => fail Hang
  | S fuel =>
    pos ← on_os (file_tell file);
    buffer ← on_os (file_read file 4096);
    if Z.of_nat (length buffer) =? 0 then mret tt
    else say (Hex pos buffer);; cat_loop fuel file
  end.
Definition cat_file (file : nat) : K unit :=
  f ← on_os (load_file file);
  n ← on_os (lift (load_inode (f_inode f)));
  cat_loop (S (Z.to_nat (id_length (i_data n)))) file.
Definition fsutil_cat (argv : list (list Z)) : K unit :=
  file_name ← argument argv;
  say (Printing file_name);;
  o ← on_os (filesys_open file_name);
  file ← non_null o;
  assert page_ok;;
  cat_file file;;
  on_os (file_close (Some file)).

Definition fsutil_rm (argv : list (list Z)) : K unit :=
  file_name ← argument argv;
  say (Deleting file_name);;
  ok ← on_os (filesys_remove file_name);
  assert ok.

(** ** [extract] *)
Definition chunk_of (size : Z) : Z := if SECTOR <? size then SECTOR else size.
Definition next_extract : K Z :=
  sector ← gets u_extract; modify (set_u_extract (u32 (sector + 1)));; mret sector.

(** [while (size > 0)]: a unit of fuel for every byte, and a turn copies one at least. *)
Fixpoint copy_loop (fuel : nat) (dst : nat) (size : Z) : K unit :=
  if 0 <? size then
    match fuel with
    | O => fail Hang
    | S fuel =>
      let chunk_size := chunk_of size in
      sector ← next_extract;
      data ← read_scratch sector;
      n ← on_os (file_write dst data chunk_size);
      assert (n =? chunk_size);;
      copy_loop fuel dst (size - chunk_size)
    end
  else mret tt.

(** The loop over the headers; [e0] is the uninitialised entry of [dir_add].  Every turn
    reads a further sector of the device. *)
Fixpoint extract_loop (fuel : nat) (e0 : list Z) : K unit :=
  match fuel with
  | O => fail Hang
  | S fuel =>
    sector ← next_extract;
    header ← read_scratch sector;
    h ← non_null (ustar_parse_header header);
    let '(file_name, type, size) := h in
    match type with
    | USTAR_EOF => mret tt
    | USTAR_DIRECTORY => say (Ignoring file_name);; extract_loop fuel e0
    | USTAR_REGULAR =>
      say (Putting file_name);;
      ok ← on_os (filesys_create e0 file_name size false);
      assert ok;;
      o ← on_os (filesys_open file_name);
      dst ← non_null o;
      copy_loop (Z.to_nat size) dst size;;
      on_os (file_close (Some dst));;
      extract_loop fuel e0
    | USTAR_OTHER => extract_loop fuel e0
    end
  end.
Definition fsutil_extract (e0 : list Z) (argv : list (list Z)) : K unit :=
  assert malloc_ok;;
  o ← gets u_scratch;
  non_null o;;
  say Extracting;;
  extract_loop (S (Z.to_nat (dev_sectors (D := W)))) e0;;
  say Erasing;;
  write_scratch 0 empty_sector;;
  write_scratch 1 empty_sector.

(** ** [append] *)
Definition next_append : K Z :=
  sector ← gets u_append; modify (set_u_append (u32 (sector + 1)));; mret sector.
Fixpoint append_loop (fuel : nat) (src : nat) (size : Z) : K unit :=
  if 0 <? size then
    match fuel with
    | O => fail Hang
    | S fuel =>
      let chunk_size := chunk_of size in
      sector ← gets u_append;
      assert (negb (dev_sectors (D := W) <=? sector));;
      buffer ← on_os (file_read src chunk_size);
      assert (Z.of_nat (length buffer) =? chunk_size);;
      sector ← next_append;
      write_scratch sector (buffer ++ replicate (Z.to_nat (SECTOR - chunk_size)) 0);;
      append_loop fuel src (size - chunk_size)
    end
  else mret tt.

(** From [file_length] on, up to the end of the copy; then the mark of the end: the second
    write is of [buffer + 1], whose last byte, [after], lies behind the buffer. *)
Definition append_file (file_name : list Z) (src : nat) : K unit :=
  size ← on_os (file_length src);
  o ← gets u_scratch;
  non_null o;;
  header ← non_null (ustar_make_header file_name USTAR_REGULAR size);
  sector ← next_append;
  write_scratch sector header;;
  append_loop (Z.to_nat size) src size.
Definition append_end (after : Z) : K unit :=
  sector ← gets u_append;
  write_scratch sector empty_sector;;
  write_scratch sector (drop 1 empty_sector ++ [after]).
Definition fsutil_append (after : Z) (argv : list (list Z)) : K unit :=
  file_name ← argument argv;
  say (Appending file_name);;
  assert malloc_ok;;
  o ← on_os (filesys_open file_name);
  src ← non_null o;
  append_file file_name src;;
  append_end after;;
  on_os (file_close (Some src)).
End fsutil.

(** ** Rules *)
Section rules.
Context {D B W : Type} {dev : BlockDev D} {bm : Bitmap B} {io : BitmapIO D B} {mem : Memory}
  {wdev : BlockDev W} {us : Ustar}.
Abbreviation fsu := (fsu D B W).
Implicit Types (s : fsu).

Lemma wp_on_os {A} (m : M (os D B) A) s (Q : A -> fsu -> Prop) :
  wp m (fun a x => Q a (set_u_os x s)) (u_os s) -> wp (on_os m) Q s.
Proof. unfold wp, on_os. by destruct (m (u_os s)). Qed.

Lemma set_u_os_id s : set_u_os (u_os s) s = s.
Proof. by destruct s. Qed.

Lemma wp_length_at {laws : BlockDevLaws D} p f n s (Q : Z -> fsu -> Prop) :
  file_at p f n (u_os s) -> Q (id_length (i_data n)) s -> wp (on_os (file_length p)) Q s.
Proof.
  intros [H1 H2 H3 H4 H5 H6 H7] HQ. apply wp_on_os, wp_bind. eapply wp_load_file; [exact H1|].
  apply wp_lift, wp_locked; [done|]. apply wp_bind. eapply wp_load_inode; [exact H2|]. apply wp_ret.
  split; [done|]. cbn [set_held]. change (set_held _ (set_held _ ?x)) with (set_held (held x) x).
  rewrite set_held_id. replace (set_fs (os_fs (u_os s)) (u_os s)) with (u_os s) by (by destruct (u_os s)).
  by rewrite set_u_os_id.
Qed.

Lemma wp_say l s (Q : unit -> fsu -> Prop) :
  Q tt (set_u_console (u_console s ++ [l]) s) -> wp (say l) Q s.
Proof. apply wp_modify. Qed.

Lemma wp_non_null {A} (a : A) s (Q : A -> fsu -> Prop) : Q a s -> wp (non_null (Some a)) Q s.
Proof. done. Qed.

Lemma wp_write_scratch d sector b s (Q : unit -> fsu -> Prop) :
  u_scratch s = Some d -> valid_sector (D := W) sector = true ->
  Q tt (set_u_scratch (Some (block_write d sector b)) s) -> wp (write_scratch sector b) Q s.
Proof.
  intros Hd Hv HQ. apply wp_bind, wp_gets, wp_bind. rewrite Hd. apply wp_non_null.
  apply wp_bind, wp_assert; [done|]. by apply wp_modify.
Qed.

Lemma wp_next_append a s (Q : Z -> fsu -> Prop) :
  u_append s = a -> 0 <= a + 1 < UINT32 -> Q a (set_u_append (a + 1) s) -> wp next_append Q s.
Proof.
  intros Ha Hr HQ. apply wp_bind, wp_gets, wp_bind, wp_modify, wp_ret. by rewrite Ha, u32_small.
Qed.

Context {laws : BlockDevLaws D} {wlaws : BlockDevLaws W} {ulaws : UstarLaws}.

(** ** Listing *)

(** The names bound by the slots of the directory contents [c] from the slot [k0] on. *)
Definition names_from (c : list Z) (k0 : Z) : list (list Z) :=
  omap (fun k => if e_in_use (slot c k) then entry_name (slot c k) else None) (seqZ k0 (nslots c - k0)).

Lemma names_from_cons c k :
  0 <= k < nslots c ->
  names_from c k =
    (if e_in_use (slot c k) then option_list (entry_name (slot c k)) else []) ++ names_from c (k + 1).
Proof.
  intros Hk. unfold names_from at 1. rewrite (seqZ_cons k) by lia. cbn [omap list_omap].
  replace (Z.pred (nslots c - k)) with (nslots c - (k + 1)) by lia.
  change (Z.succ k) with (k + 1). fold (names_from c (k + 1)).
  destruct (e_in_use _); [|done]. by destruct (entry_name _).
Qed.

Lemma names_from_find c k0 :
  0 <= k0 <= nslots c ->
  match List.find (fun k => e_in_use (slot c k)) (seqZ k0 (nslots c - k0)) with
  | Some k => k0 <= k < nslots c /\
      names_from c k0 = option_list (entry_name (slot c k)) ++ names_from c (k + 1)
  | None => names_from c k0 = []
  end.
Proof.
  intros Hk. remember (Z.to_nat (nslots c - k0)) as m eqn:Hm. revert k0 Hk Hm.
  induction m as [|m IH]; intros k0 Hk Hm.
  { unfold names_from. by rewrite seqZ_nil by lia. }
  rewrite (seqZ_cons k0) by lia. cbn [List.find]. rewrite names_from_cons by lia.
  specialize (IH (k0 + 1) ltac:(lia) ltac:(lia)). change (Z.succ k0) with (k0 + 1).
  replace (Z.pred (nslots c - k0)) with (nslots c - (k0 + 1)) by lia.
  destruct (e_in_use (slot c k0)); [by split; [lia|]|].
  destruct (List.find _ _); [|done]. destruct IH. by split; [lia|].
Qed.

Lemma wp_ls_loop fuel p f n c k0 (s0 : os D B) s :
  let names := names_from c k0 in
  quiet (os_fs s0) (os_fs (u_os s)) -> dir_at (f_inode f) n c (os_fs s0) -> dir_inv c ->
  os_files (u_os s) !! p = Some f -> f_pos f = 20 * k0 -> 0 <= k0 <= nslots c ->
  nslots c - k0 < Z.of_nat fuel ->
  wp (ls_loop fuel p)
     (fun _ s' => u_console s' = u_console s ++ (Listed <$> names) /\
        quiet (os_fs s0) (os_fs (u_os s')) /\ u_scratch s' = u_scratch s) s.
Proof.
  intros names Hq Hd Hi. revert f k0 s names Hq Hd.
  induction fuel as [|fuel IH]; intros f k0 s names Hq Hd Hf Hp Hk Hfu; [lia|].
  cbn [ls_loop]. apply wp_bind, wp_on_os.
  eapply wp_mono; [apply (dir_readdir_next p f n c k0); [done..|by eapply dir_at_quiet|done]|].
  intros o x [Hx Hcase]; cbn beta in *. pose proof (names_from_find c k0 Hk) as Hn. fold names in Hn.
  assert (Hqx : quiet (os_fs s0) (os_fs x)) by (by eapply quiet_trans).
  destruct (List.find _ _) as [k|].
  - destruct Hcase as (-> & Hne & Hf'), Hn as [Hk' Hn]. destruct (entry_name (slot c k)) as [name|]; [|done].
    apply wp_bind, wp_say. eapply wp_mono.
    + apply (IH (set_pos (20 * (k + 1)) f) (k + 1)); [done|done|exact Hf'|done|lia|lia].
    + intros [] s' (-> & ? & ?). split_and!; [|done|done]. simpl. rewrite Hn, <- app_assoc. done.
  - destruct Hcase as [-> _]. apply wp_ret. rewrite Hn. simpl. by rewrite app_nil_r.
Qed.

(** [fsutil_ls].  Between its two lines, [ls] prints the name of every entry in use
    of the root directory, once and in the order of the slots, and leaves the contents of
    the file system as they are; the handle on the root directory stays open. *)
Theorem ls_lists_root r n c argv s :
  root_at r n c (u_os s) -> malloc_ok = true -> valid_sector (D := D) ROOT_DIR_SECTOR = true ->
  wp (fsutil_ls argv)
     (fun _ s' => u_console s' = u_console s ++ [Listing] ++ (Listed <$> names_from c 0) ++ [End_of_listing] /\
        (forall k, view (os_fs (u_os s')) k = view (os_fs (u_os s)) k) /\
        inodes (os_fs (u_os s')) !! r = Some (set_open_cnt (i_open_cnt n + 1) n)) s.
Proof.
  intros Hr Hm Hv. apply wp_bind, wp_say, wp_bind, wp_on_os.
  eapply wp_open_root; [exact Hr|done|]. intros x X1 X3.
  set (p := os_next _). set (n' := set_open_cnt (i_open_cnt n + 1) n).
  assert (X2 : inodes x = <[r := n']> (inodes (os_fs (u_os s)))) by done.
  assert (X5 : life_step (view (os_fs (u_os s))) (os_fs (u_os s)) x) by (split; done). clearbody x.
  assert (Hd : dir_at r n' c x).
  { eapply dir_at_reopened; [apply Hr|done|apply X5|apply X5|by rewrite X2, lookup_insert_eq|done]. }
  apply wp_bind, wp_non_null, wp_bind, wp_on_os, wp_bind.
  eapply wp_load_file; [simpl; by rewrite lookup_insert_eq|]. apply wp_ret.
  apply wp_bind, wp_on_os, wp_lift. eapply wp_load_inode; [apply Hd|]. apply wp_bind.
  pose proof (dir_at_length _ _ _ _ Hd) as Hlen.
  assert (Hns : 0 <= nslots c <= Z.of_nat (length c)) by (unfold nslots; Z.div_mod_to_equations; lia).
  eapply wp_mono.
  - apply (wp_ls_loop _ p (File r 0 false) n' c 0 (set_fs x (u_os s))); simpl;
      [apply quiet_refl, Hd|exact Hd|apply Hr|by rewrite lookup_insert_eq|done|lia|simpl in Hlen; lia].
  - intros [] s' (H1 & H2 & _). apply wp_say. simpl. rewrite H1. simpl. split_and!.
    + by rewrite <- !app_assoc.
    + intros k. rewrite (q_view _ _ H2). apply X5.
    + destruct H2 as [_ _ [_ _ _ R4 _ _]]. simpl in R4. by rewrite R4, X2, lookup_insert_eq.
Qed.

(** ** Printing *)

(** The lines that show [bytes]: a page at a time, each with its position, from the page
    [k] on. *)
Definition pages_in (bytes : list Z) : Z := (Z.of_nat (length bytes) + 4095) / 4096.
Definition dump_from (bytes : list Z) (k : Z) : list line :=
  (fun j => Hex (4096 * j) (slice (4096 * j) 4096 bytes)) <$> seqZ k (pages_in bytes - k).

Lemma length_slice_min off n (l : list Z) :
  0 <= off <= Z.of_nat (length l) -> 0 <= n ->
  Z.of_nat (length (slice off n l)) = Z.min n (Z.of_nat (length l) - off).
Proof. intros. unfold slice. rewrite length_take, length_drop. lia. Qed.

Lemma wp_cat_loop fuel p f n k s :
  let bytes := file_bytes n (u_os s) in
  file_at p f n (u_os s) -> 0 <= k <= pages_in bytes ->
  f_pos f = Z.min (4096 * k) (Z.of_nat (length bytes)) -> pages_in bytes - k < Z.of_nat fuel ->
  wp (cat_loop fuel p)
     (fun _ s' => u_console s' = u_console s ++ dump_from bytes k /\
        exists f', file_at p f' n (u_os s') /\ f_pos f' = Z.of_nat (length bytes) /\
          file_bytes n (u_os s') = bytes /\ f_inode f' = f_inode f) s.
Proof.
  intros bytes. subst bytes. revert f k s.
  induction fuel as [|fuel IH]; intros f k s Hf Hk Hp Hfu; [lia|].
  set (bytes := file_bytes n (u_os s)) in *. set (len := Z.of_nat (length bytes)) in *.
  assert (Hm : 4096 * pages_in bytes - 4096 < len <= 4096 * pages_in bytes)
    by (unfold pages_in; fold len; Z.div_mod_to_equations; lia).
  cbn [cat_loop]. apply wp_bind, wp_on_os. apply wp_bind. eapply wp_load_file; [apply Hf|]. apply wp_ret.
  rewrite set_u_os_id. apply wp_bind, wp_on_os. eapply wp_file_read; [exact Hf|]. cbn zeta. fold bytes. intros x Hx Hb _ _.
  pose proof (length_slice_min (f_pos f) 4096 bytes ltac:(lia) ltac:(lia)) as Hl. fold len in Hl.
  destruct (Z.eq_dec k (pages_in bytes)) as [->|Hne].
  - destruct (Z.eqb_spec (Z.of_nat (length (slice (f_pos f) 4096 bytes))) 0) as [_|]; [|lia].
    apply wp_ret. unfold dump_from. rewrite Z.sub_diag. simpl. split; [by rewrite app_nil_r|].
    eexists. split_and!; [exact Hx|simpl; lia|exact Hb|done].
  - destruct (Z.eqb_spec (Z.of_nat (length (slice (f_pos f) 4096 bytes))) 0) as [|_]; [lia|].
    apply wp_bind, wp_say. eapply wp_mono.
    + eapply (IH _ (k + 1)); [exact Hx|..]; simpl; rewrite ?Hb; fold bytes; fold len; lia.
    + intros [] s' [H1 (f' & F1 & F2 & F3 & F4)]. simpl in *. rewrite Hb in H1, F2, F3. split.
      * rewrite H1, <- app_assoc. f_equal. unfold dump_from at 2. rewrite (seqZ_cons k) by lia.
        replace (f_pos f) with (4096 * k) by lia. simpl. do 2 f_equal. unfold dump_from. do 2 f_equal; lia.
      * by exists f'.
Qed.

(** C37: the loop of [fsutil_cat].  From the start of the open file [cat] prints the
    bytes of the file page by page, each page with its position in the file, up to the
    end of the file and no further; the fuel taken from the length of the file suffices. *)
Theorem cat_prints_file p f n s :
  file_at p f n (u_os s) -> f_pos f = 0 ->
  let bytes := file_bytes n (u_os s) in
  wp (cat_file p)
     (fun _ s' => u_console s' = u_console s ++ dump_from bytes 0 /\
        file_bytes n (u_os s') = bytes /\
        exists f', file_at p f' n (u_os s') /\ f_pos f' = Z.of_nat (length bytes)) s.
Proof.
  intros Hf Hp bytes. pose proof Hf as [H1 H2 H3 H4 H5 H6 H7].
  assert (Hlen : Z.of_nat (length bytes) = Z.max 0 (id_length (i_data n)))
    by (unfold bytes, file_bytes; rewrite length_content; lia).
  assert (Hm : 0 <= pages_in bytes <= Z.of_nat (length bytes))
    by (unfold pages_in; Z.div_mod_to_equations; lia).
  apply wp_bind, wp_on_os. eapply wp_load_file; [exact H1|]. apply wp_bind, wp_on_os, wp_lift.
  eapply wp_load_inode; [exact H2|]. rewrite set_u_os_id.
  replace (set_u_os _ s) with s by (by destruct s as [[]]). eapply wp_mono.
  - eapply (wp_cat_loop _ p f n 0 s Hf); fold bytes; lia.
  - intros [] s' [E (f' & F1 & F2 & F3 & _)]. split_and!; [exact E|exact F3|by exists f'].
Qed.

(** ** Archives *)

(** The sectors that [size] bytes take. *)
Definition ustar_sectors (size : Z) : Z := (size + SECTOR - 1) / SECTOR.
Definition scratch_bytes (d : W) (from n : Z) : list Z := concat (block_read d <$> seqZ from n).

(** The bytes filled up with zeros. *)
Definition padded (bytes : list Z) : list Z :=
  let size := Z.of_nat (length bytes) in bytes ++ replicate (Z.to_nat (SECTOR * ustar_sectors size - size)) 0.

(** The sectors [from, to) of [d] are the files [l], each a header and the padded
    contents. *)
Fixpoint archive (l : list (list Z * list Z)) (d : W) (from to : Z) : Prop :=
  match l with
  | [] => from = to
  | (name, bytes) :: l' =>
    let size := Z.of_nat (length bytes) in
    ustar_parse_header (block_read d from) = Some (name, USTAR_REGULAR, size) /\
    scratch_bytes d (from + 1) (ustar_sectors size) = padded bytes /\
    archive l' d (from + 1 + ustar_sectors size) to
  end.

(** [d'] is [d] but for the sectors [from, to). *)
Definition same_outside (from to : Z) (d d' : W) : Prop :=
  forall k, k < from \/ to <= k -> block_read d' k = block_read d k.

Lemma ustar_sectors_next size : 0 < size -> ustar_sectors size = ustar_sectors (size - chunk_of size) + 1.
Proof.
  intros H. unfold ustar_sectors, chunk_of, SECTOR. destruct (Z.ltb_spec 512 size); Z.div_mod_to_equations; lia.
Qed.
Lemma ustar_sectors_0 : ustar_sectors 0 = 0.
Proof. done. Qed.
Lemma ustar_sectors_nonneg size : 0 <= size -> 0 <= ustar_sectors size.
Proof. intros. unfold ustar_sectors, SECTOR. Z.div_mod_to_equations; lia. Qed.
Lemma scratch_bytes_cons d from n : 0 < n -> scratch_bytes d from n = block_read d from ++ scratch_bytes d (from + 1) (n - 1).
Proof. intros. unfold scratch_bytes. by rewrite seqZ_cons. Qed.

(** The sector for the first bytes of a file. *)
Definition first_block (bytes : list Z) : list Z :=
  let c := chunk_of (Z.of_nat (length bytes)) in
  take (Z.to_nat c) bytes ++ replicate (Z.to_nat (SECTOR - c)) 0.
Lemma padded_next bytes :
  0 < Z.of_nat (length bytes) ->
  padded bytes = first_block bytes ++ padded (drop (Z.to_nat (chunk_of (Z.of_nat (length bytes)))) bytes).
Proof.
  intros H. unfold padded, first_block. rewrite (ustar_sectors_next _ H), length_drop.
  set (size := Z.of_nat (length bytes)) in *. set (c := chunk_of size).
  assert (Hc : 0 < c <= SECTOR /\ c <= size /\ (c = SECTOR \/ c = size))
    by (unfold c, chunk_of, SECTOR; destruct (Z.ltb_spec 512 size); lia).
  replace (Z.of_nat (length bytes - Z.to_nat c)) with (size - c) by lia.
  rewrite <- (take_drop (Z.to_nat c) bytes) at 1. rewrite <- !app_assoc. f_equal.
  destruct Hc as (H1 & H2 & [E|E]).
  - rewrite E at 3. rewrite Z.sub_diag. simpl. do 2 f_equal. lia.
  - rewrite drop_ge by lia. simpl. rewrite <- replicate_add. f_equal. rewrite E, Z.sub_diag.
    change (ustar_sectors 0) with 0. lia.
Qed.

Lemma wp_append_loop fuel p f n size a d s :
  let bytes := file_bytes n (u_os s) in
  file_at p f n (u_os s) -> 0 <= size <= Z.of_nat fuel -> f_pos f + size = Z.of_nat (length bytes) ->
  u_scratch s = Some d -> u_append s = a -> 0 <= a -> a + ustar_sectors size <= dev_sectors (D := W) ->
  a + ustar_sectors size < UINT32 ->
  wp (append_loop fuel p size)
     (fun _ s' => exists d', u_scratch s' = Some d' /\ u_append s' = a + ustar_sectors size /\
        scratch_bytes d' a (ustar_sectors size) = padded (drop (Z.to_nat (f_pos f)) bytes) /\
        same_outside a (a + ustar_sectors size) d d' /\ u_console s' = u_console s /\
        exists f', file_at p f' n (u_os s') /\ file_bytes n (u_os s') = bytes) s.
Proof.
  intros bytes. subst bytes. revert f size a d s.
  induction fuel as [|fuel IH]; intros f size a d s Hf Hs Hp Hd Ha H0 Hv Hu;
    set (bytes := file_bytes n (u_os s)) in *; pose proof (fa_pos _ _ _ _ Hf) as Hpos;
    cbn [append_loop]; destruct (Z.ltb_spec 0 size) as [Hlt|Hge]; try lia.
  1, 3: replace size with 0 in * by lia; apply wp_ret; exists d; rewrite ustar_sectors_0 in *;
    split_and!; [done|lia|by rewrite drop_ge by lia|done|done|by exists f].
  pose proof (ustar_sectors_next size Hlt) as Hn. set (chunk := chunk_of size) in *.
  assert (Hc : 0 < chunk <= SECTOR /\ chunk <= size)
    by (unfold chunk, chunk_of, SECTOR; destruct (Z.ltb_spec 512 size); lia).
  pose proof (ustar_sectors_nonneg (size - chunk) ltac:(lia)) as Hnn.
  apply wp_bind, wp_gets. rewrite Ha. apply wp_bind, wp_assert; [zcase|].
  apply wp_bind, wp_on_os. eapply wp_file_read; [exact Hf|]. cbn zeta. fold bytes. intros x Hx Hb _ _.
  pose proof (length_slice_min (f_pos f) chunk bytes ltac:(lia) ltac:(lia)) as Hl.
  apply wp_bind, wp_assert; [zcase|].
  apply wp_bind. eapply wp_next_append; [exact Ha|lia|]. apply wp_bind.
  set (b := slice _ _ _ ++ _). eapply wp_write_scratch; [exact Hd|unfold valid_sector; zcase|].
  eapply wp_mono; [eapply (IH _ (size - chunk) (a + 1)); [exact Hx|..]; simpl; rewrite ?Hb; fold bytes; try done; lia|].
  intros [] s' (d' & D1 & D2 & D3 & D4 & D5 & f' & F1 & F2). exists d'. simpl in *. rewrite Hb in *.
  fold bytes in D3, F2. split_and!; [done|lia| | |done|by exists f'].
  - assert (Hb1 : block_read d' a = b).
    { rewrite D4 by lia. apply block_read_write_eq; [unfold valid_sector; zcase|].
      unfold b. rewrite length_app, length_replicate. lia. }
    rewrite Hn, scratch_bytes_cons, Hb1, Z.add_simpl_r, D3 by lia.
    rewrite (padded_next (drop (Z.to_nat (f_pos f)) bytes)); rewrite length_drop; [|lia].
    replace (Z.of_nat (length bytes - Z.to_nat (f_pos f))) with size by lia. unfold first_block.
    rewrite length_drop. replace (Z.of_nat (length bytes - Z.to_nat (f_pos f))) with size by lia. fold chunk.
    rewrite drop_drop. replace (Z.to_nat (f_pos f + _)) with (Z.to_nat (f_pos f) + Z.to_nat chunk)%nat by lia. done.
  - intros k Hk. rewrite D4 by lia. by rewrite block_read_write_ne by lia.
Qed.

Lemma archive_le l d from to : archive l d from to -> from <= to.
Proof.
  revert from. induction l as [|[name bytes] l IH]; intros from; simpl; [lia|]. intros (_ & _ & H%IH).
  pose proof (ustar_sectors_nonneg (Z.of_nat (length bytes))). lia.
Qed.

Lemma scratch_bytes_ext d d' from n :
  (forall k, from <= k < from + n -> block_read d' k = block_read d k) ->
  scratch_bytes d' from n = scratch_bytes d from n.
Proof.
  intros H. unfold scratch_bytes. f_equal. apply list_fmap_ext. intros i k Hk.
  apply lookup_seqZ in Hk. apply H. lia.
Qed.

Lemma archive_ext l d d' from to :
  archive l d from to -> (forall k, from <= k < to -> block_read d' k = block_read d k) -> archive l d' from to.
Proof.
  revert from. induction l as [|[name bytes] l IH]; intros from; [done|]. simpl. intros (H1 & H2 & H3) He.
  pose proof (archive_le _ _ _ _ H3) as Hto. pose proof (ustar_sectors_nonneg (Z.of_nat (length bytes)) ltac:(lia)).
  split_and!.
  - by rewrite He by lia.
  - rewrite (scratch_bytes_ext d d'); [done|]. intros. apply He. lia.
  - apply IH; [done|]. intros. apply He. lia.
Qed.

Lemma archive_app l l' d from mid to :
  archive l d from mid -> archive l' d mid to -> archive (l ++ l') d from to.
Proof.
  revert from. induction l as [|[name bytes] l IH]; intros from; simpl; [by intros ->|].
  intros (H1 & H2 & H3) H. split_and!; [done|done|by apply IH].
Qed.

(** C35: [fsutil_append], from the open file to the mark of the end.  If the scratch device
    holds an archive of some files up to the sector of the static counter, then afterwards
    it holds the archive of these files and of the new one, under its stripped name and
    with all its bytes, and the counter stands behind it, so that a later call continues the
    archive.  The sector there ends up as the last 511 zeros of the buffer and the byte of
    memory behind the buffer: only if this byte is zero does a reader find the end mark. *)
Theorem append_makes_archive name h p f n after l a d s :
  let bytes := file_bytes n (u_os s) in
  let size := Z.of_nat (length bytes) in
  file_at p f n (u_os s) -> f_pos f = 0 -> u_scratch s = Some d -> u_append s = a ->
  archive l d 0 a -> ustar_make_header name USTAR_REGULAR size = Some h ->
  a + 1 + ustar_sectors size < dev_sectors (D := W) -> dev_sectors (D := W) < UINT32 ->
  wp (append_file name p;; append_end after)
     (fun _ s' => let a' := a + 1 + ustar_sectors size in
        u_append s' = a' /\ exists d', u_scratch s' = Some d' /\
        archive (l ++ [(ustar_strip name, bytes)]) d' 0 a' /\
        block_read d' a' = drop 1 empty_sector ++ [after] /\
        (after = 0 -> exists x y, ustar_parse_header (block_read d' a') = Some (x, USTAR_EOF, y))) s.
Proof.
  intros bytes size Hf Hp Hd Ha Hl Hh Hv Hu. pose proof Hf as [H1 H2 H3 [H4 _ _ _ _ _] H5 H6 H7].
  pose proof (archive_le _ _ _ _ Hl) as H0. pose proof (ustar_sectors_nonneg size ltac:(lia)) as Hn.
  assert (Hlen : id_length (i_data n) = size)
    by (unfold size, bytes, file_bytes; rewrite length_content; lia).
  assert (Hhl := make_length _ _ _ _ Hh).
  apply wp_bind, wp_bind. eapply wp_length_at; [exact Hf|]. rewrite Hlen.
  apply wp_bind, wp_gets, wp_bind. rewrite Hd. apply wp_non_null, wp_bind. rewrite Hh. apply wp_non_null.
  apply wp_bind. eapply wp_next_append; [exact Ha|lia|]. apply wp_bind.
  eapply wp_write_scratch; [exact Hd|unfold valid_sector; zcase|].
  eapply wp_mono; [eapply (wp_append_loop _ p f n size (a + 1)); [exact Hf|simpl; lia|simpl; fold bytes; lia|
    simpl; reflexivity|reflexivity|lia|lia|lia]|].
  intros [] s' (d' & D1 & D2 & D3 & D4 & _); cbn beta in *. simpl in D3. fold bytes in D3.
  rewrite Hp in D3. simpl in D3. rewrite drop_0 in D3. fold size in D3.
  set (a' := a + 1 + ustar_sectors size) in *.
  assert (Hva : valid_sector (D := W) a' = true) by (unfold valid_sector; zcase).
  apply wp_bind, wp_gets. rewrite D2. apply wp_bind. eapply wp_write_scratch; [exact D1|done|].
  eapply wp_write_scratch; [reflexivity|done|].
  set (d2 := block_write d' a' empty_sector). set (b := drop 1 empty_sector ++ [after]).
  assert (Hb : block_read (block_write d2 a' b) a' = b) by (by apply block_read_write_eq).
  assert (Hold : forall k, k < a' -> block_read (block_write d2 a' b) k = block_read d' k)
    by (intros k Hk; unfold d2; by rewrite !block_read_write_ne by lia).
  split; [exact D2|]. exists (block_write d2 a' b). split_and!; [done| |done|].
  - apply archive_app with a.
    + eapply archive_ext; [exact Hl|]. intros k Hk. rewrite Hold, D4 by lia. by rewrite block_read_write_ne by lia.
    + simpl. fold size. split_and!; [|..|done].
      * rewrite Hold, D4 by lia. rewrite block_read_write_eq; [|unfold valid_sector; zcase|done].
        apply (parse_make _ _ _ h); [lia|done].
      * rewrite (scratch_bytes_ext d') by (intros; apply Hold; unfold a'; lia). done.
  - intros ->. rewrite Hb. change b with empty_sector. apply parse_empty.
Qed.

(** ** Extraction *)

(** A computation that neither looks at the counter of [fsutil_extract] nor touches the
    scratch device. *)
Record off_device {A} (m : M fsu A) : Prop := {
  od_counter : forall a s, m (set_u_extract a s) =
    match m s with Ok x s' => Ok x (set_u_extract a s') | Fail f => Fail f end;
  od_scratch : forall s x s', m s = Ok x s' -> u_scratch s' = u_scratch s;
}.
Lemma off_ret {A} (x : A) : off_device (mret x : M fsu A).
Proof. split; [done|]. by intros s y s' [= _ <-]. Qed.
Lemma off_fail {A} f : off_device (fail f : M fsu A).
Proof. by split. Qed.
Lemma off_bind {A C} (m : M fsu A) (k : A -> M fsu C) :
  off_device m -> (forall x, off_device (k x)) -> off_device (m ≫= k).
Proof.
  intros [M1 M2] Hk. split; unfold mbind, M_bind.
  - intros a s. rewrite M1. destruct (m s) as [x s1|]; [apply Hk|done].
  - intros s y s'. destruct (m s) as [x s1|] eqn:E; [|done]. intros H. apply (od_scratch _ (Hk x)) in H.
    rewrite H. by eapply M2.
Qed.
Lemma off_on_os {A} (m : M (os D B) A) : off_device (on_os m).
Proof. split; intros; unfold on_os in *; simpl; destruct (m (u_os s)); naive_solver. Qed.
Lemma off_say l : off_device (say l).
Proof. split; [done|]. by intros s x s' [= _ <-]. Qed.
Lemma off_assert c : off_device (assert c : M fsu unit).
Proof. destruct c; [apply off_ret|apply off_fail]. Qed.
Lemma off_non_null {A} (o : option A) : off_device (non_null o : M fsu A).
Proof. destruct o; [apply off_ret|apply off_fail]. Qed.

(** Writing [bytes] to a file sector by sector. *)
Fixpoint put_bytes (fuel : nat) (dst : nat) (bytes : list Z) : M fsu unit :=
  let size := Z.of_nat (length bytes) in
  if 0 <? size then
    match fuel with
    | O => fail Hang
    | S fuel =>
      let c := chunk_of size in
      n ← on_os (file_write dst (first_block bytes) c);
      assert (n =? c);;
      put_bytes fuel dst (drop (Z.to_nat c) bytes)
    end
  else mret tt.
(** Putting one file into the file system. *)
Definition put_file (e0 : list Z) (p : list Z * list Z) : M fsu unit :=
  let '(name, bytes) := p in
  say (Putting name);;
  ok ← on_os (filesys_create e0 name (Z.of_nat (length bytes)) false);
  assert ok;;
  o ← on_os (filesys_open name);
  dst ← non_null o;
  put_bytes (length bytes) dst bytes;;
  on_os (file_close (Some dst)).

Lemma off_put_bytes fuel dst bytes : off_device (put_bytes fuel dst bytes).
Proof.
  revert bytes. induction fuel as [|fuel IH]; intros bytes; simpl; destruct (0 <? _);
    auto using off_ret, off_fail. apply off_bind; [apply off_on_os|intros n].
  apply off_bind; [apply off_assert|intros _]. apply IH.
Qed.

Lemma read_scratch_run d k s :
  u_scratch s = Some d -> valid_sector (D := W) k = true -> read_scratch k s = Ok (block_read d k) s.
Proof. intros Hd Hv. unfold read_scratch, mbind, M_bind, gets. by rewrite Hd, Hv. Qed.

(** The sectors of a file, one after the other. *)
Lemma scratch_first d a bytes n :
  scratch_bytes d a n = padded bytes -> n = ustar_sectors (Z.of_nat (length bytes)) ->
  (forall k, a <= k < a + n -> valid_sector (D := W) k = true) -> 0 < Z.of_nat (length bytes) ->
  block_read d a = first_block bytes /\
  scratch_bytes d (a + 1) (n - 1) = padded (drop (Z.to_nat (chunk_of (Z.of_nat (length bytes)))) bytes).
Proof.
  intros Hb -> Hv Hpos. pose proof (ustar_sectors_next _ Hpos) as Hn.
  set (c := chunk_of (Z.of_nat (length bytes))) in *.
  assert (Hc : 0 < c <= SECTOR /\ c <= Z.of_nat (length bytes))
    by (unfold c, chunk_of, SECTOR; destruct (Z.ltb_spec 512 (Z.of_nat (length bytes))); lia).
  pose proof (ustar_sectors_nonneg (Z.of_nat (length bytes) - c) ltac:(lia)).
  rewrite scratch_bytes_cons, padded_next in Hb by lia. apply app_inj_1 in Hb as [H1 H2]; [by split|].
  pose proof (block_read_length d a (Hv a ltac:(lia))).
  unfold first_block. fold c. rewrite length_app, length_take, length_replicate. unfold SECTOR in *. lia.
Qed.

Lemma copy_loop_run fuel d dst bytes a n s :
  u_scratch s = Some d -> u_extract s = a -> 0 <= a -> n = ustar_sectors (Z.of_nat (length bytes)) ->
  scratch_bytes d a n = padded bytes -> (forall k, a <= k < a + n -> valid_sector (D := W) k = true) ->
  a + n < UINT32 ->
  copy_loop fuel dst (Z.of_nat (length bytes)) s = (put_bytes fuel dst bytes;; modify (set_u_extract (a + n))) s.
Proof.
  revert bytes a n s. induction fuel as [|fuel IH]; intros bytes a n s Hd Ha H0 Hn Hb Hv Hu;
    cbn [copy_loop put_bytes]; destruct (Z.ltb_spec 0 (Z.of_nat (length bytes))) as [Hpos|Hz]; try done.
  1, 3: replace (Z.of_nat (length bytes)) with 0 in Hn by lia; change (ustar_sectors 0) with 0 in Hn; subst n;
    unfold mbind, M_bind, mret, M_ret, modify; rewrite Z.add_0_r, <- Ha; by destruct s.
  destruct (scratch_first d a bytes n Hb Hn Hv Hpos) as [B1 B2].
  pose proof (ustar_sectors_next _ Hpos) as Hs. set (c := chunk_of (Z.of_nat (length bytes))) in *.
  assert (Hc : 0 < c /\ c <= Z.of_nat (length bytes))
    by (unfold c, chunk_of, SECTOR; destruct (Z.ltb_spec 512 (Z.of_nat (length bytes))); lia).
  pose proof (ustar_sectors_nonneg (Z.of_nat (length bytes) - c) ltac:(lia)).
  assert (E : next_extract s = Ok a (set_u_extract (a + 1) s)).
  { unfold next_extract, mbind, M_bind, gets, modify, mret, M_ret. by rewrite Ha, u32_small by lia. }
  unfold mbind at 1, M_bind at 1. rewrite E.
  unfold mbind at 1, M_bind at 1. rewrite (read_scratch_run d), B1 by (done || apply Hv; lia).
  unfold mbind, M_bind. rewrite (od_counter _ (off_on_os _)).
  destruct (on_os (file_write dst (first_block bytes) c) s) as [w s1|] eqn:Hw; [|done].
  unfold assert. destruct (w =? c); [|done].
  replace (Z.of_nat (length bytes) - c) with (Z.of_nat (length (drop (Z.to_nat c) bytes)))
    by (rewrite length_drop; lia).
  rewrite (IH _ (a + 1) (n - 1)); try done.
  - unfold mbind, M_bind. rewrite (od_counter _ (off_put_bytes _ _ _)).
    destruct (put_bytes fuel dst _ s1) as [[] s2|]; [|done]. unfold modify.
    by replace (a + 1 + (n - 1)) with (a + n) by lia.
  - simpl. apply (od_scratch _ (off_on_os _)) in Hw. congruence.
  - lia.
  - rewrite length_drop. replace (Z.of_nat (length bytes - Z.to_nat c)) with (Z.of_nat (length bytes) - c) by lia. lia.
  - intros k Hk. apply Hv. lia.
  - lia.
Qed.

Lemma off_put_file e0 p : off_device (put_file e0 p).
Proof.
  destruct p as [name bytes]. unfold put_file.
  repeat (apply off_bind; [auto using off_say, off_on_os, off_assert, off_non_null, off_put_bytes|intros ?]).
  apply off_on_os.
Qed.
Lemma off_for_each {A} (l : list A) (f : A -> M fsu unit) :
  (forall x, off_device (f x)) -> off_device (for_each l f).
Proof. intros Hf. induction l as [|x l IH]; simpl; [apply off_ret|]. by apply off_bind. Qed.

(** One turn of the loop over the headers. *)
Lemma extract_loop_file fuel e0 name bytes a n d s :
  u_scratch s = Some d -> u_extract s = a -> 0 <= a -> n = ustar_sectors (Z.of_nat (length bytes)) ->
  ustar_parse_header (block_read d a) = Some (name, USTAR_REGULAR, Z.of_nat (length bytes)) ->
  scratch_bytes d (a + 1) n = padded bytes ->
  (forall k, a <= k < a + 1 + n -> valid_sector (D := W) k = true) -> a + 1 + n < UINT32 ->
  extract_loop (S fuel) e0 s =
    (put_file e0 (name, bytes);; modify (set_u_extract (a + 1 + n));; extract_loop fuel e0) s.
Proof.
  intros Hd Ha H0 Hn Hp Hb Hv Hu. pose proof (ustar_sectors_nonneg (Z.of_nat (length bytes)) ltac:(lia)) as Hn0.
  cbn [extract_loop]. unfold next_extract, put_file.
  unfold mbind at 1, M_bind at 1, mbind at 1, M_bind at 1, gets at 1, mbind at 1, M_bind at 1, modify at 1, mret at 1, M_ret at 1.
  rewrite Ha, u32_small by lia. unfold mbind at 1, M_bind at 1.
  rewrite (read_scratch_run d) by (done || apply Hv; lia). rewrite Hp. cbn beta iota.
  unfold mbind, M_bind, non_null at 1, mret at 1, M_ret at 1, say, modify.
  set (s1 := set_u_console _ s). change (set_u_console _ (set_u_extract (a + 1) s)) with (set_u_extract (a + 1) s1).
  rewrite (od_counter _ (off_on_os _)).
  destruct (on_os (filesys_create _ _ _ _) s1) as [ok s2|] eqn:E2; [|done].
  unfold assert. destruct ok; [|done]. rewrite (od_counter _ (off_on_os _)).
  destruct (on_os (filesys_open name) s2) as [o s3|] eqn:E3; [|done].
  destruct o as [dst|]; [|done]. unfold non_null, mret, M_ret. rewrite Nat2Z.id.
  apply (od_scratch _ (off_on_os _)) in E2, E3.
  rewrite (copy_loop_run _ d _ _ (a + 1) n); [|simpl; by rewrite E3, E2|done|lia|done|done|intros; apply Hv; lia|lia].
  unfold mbind, M_bind, modify. rewrite (od_counter _ (off_put_bytes _ _ _)).
  destruct (put_bytes _ _ _ s3) as [[] s4|]; [|done].
  change (set_u_extract (a + 1 + n) (set_u_extract (a + 1) s4)) with (set_u_extract (a + 1 + n) s4).
  rewrite (od_counter _ (off_on_os _)). by destruct (on_os (file_close _) s4) as [[] s5|].
Qed.

Lemma extract_loop_run fuel e0 l a to d s name size :
  u_scratch s = Some d -> u_extract s = a -> 0 <= a -> archive l d a to ->
  ustar_parse_header (block_read d to) = Some (name, USTAR_EOF, size) ->
  to < dev_sectors (D := W) -> dev_sectors (D := W) < UINT32 -> (length l < fuel)%nat ->
  extract_loop fuel e0 s = (for_each l (put_file e0);; modify (set_u_extract (to + 1))) s.
Proof.
  intros Hd Ha H0 Hl He Hto Hw. revert fuel a s Hd Ha H0 Hl.
  induction l as [|[nm bytes] l IH]; intros fuel a s Hd Ha H0 Hl Hf; destruct fuel as [|fuel]; try (simpl in Hf; lia).
  - simpl in Hl. subst to. cbn [extract_loop for_each]. unfold next_extract, mbind, M_bind, gets, modify, mret, M_ret.
    rewrite Ha, u32_small by lia. rewrite (read_scratch_run d); [|done|unfold valid_sector; zcase].
    by rewrite He.
  - destruct Hl as (L1 & L2 & L3). pose proof (archive_le _ _ _ _ L3) as Hle.
    pose proof (ustar_sectors_nonneg (Z.of_nat (length bytes)) ltac:(lia)).
    rewrite (extract_loop_file fuel e0 nm bytes a _ d s Hd Ha H0 eq_refl L1 L2);
      [|intros k Hk; unfold valid_sector; zcase|lia].
    cbn [for_each]. unfold mbind, M_bind, modify.
    destruct (put_file e0 (nm, bytes) s) as [[] s1|] eqn:E; [|done].
    apply (od_scratch _ (off_put_file _ _)) in E.
    rewrite (IH fuel (a + 1 + ustar_sectors (Z.of_nat (length bytes)))); [|simpl; by rewrite E|done|lia|exact L3|simpl in Hf; lia].
    unfold mbind, M_bind, modify. rewrite (od_counter _ (off_for_each _ _ (off_put_file e0))).
    by destruct (for_each l _ s1) as [[] s2|].
Qed.

Lemma archive_length l d from to : archive l d from to -> Z.of_nat (length l) <= to - from.
Proof.
  revert from. induction l as [|[name bytes] l IH]; intros from; simpl; [lia|]. intros (_ & _ & H%IH).
  pose proof (ustar_sectors_nonneg (Z.of_nat (length bytes)) ltac:(lia)). lia.
Qed.

(** C36: [fsutil_extract].  If the scratch device holds an archive from the sector of the
    static counter on, up to an end mark, then [extract] puts the files of the archive into
    the file system, in their order, each under its name and with exactly its bytes, leaves
    the counter behind the end mark and erases the first two sectors: the sectors of the
    device, their padding and the headers do not matter beyond this. *)
Theorem extract_puts_archive e0 argv l a to d s name size :
  malloc_ok = true -> u_scratch s = Some d -> u_extract s = a -> 0 <= a -> archive l d a to ->
  ustar_parse_header (block_read d to) = Some (name, USTAR_EOF, size) ->
  to < dev_sectors (D := W) -> dev_sectors (D := W) < UINT32 ->
  fsutil_extract e0 argv s =
    (say Extracting;; for_each l (put_file e0);; modify (set_u_extract (to + 1));;
     say Erasing;; write_scratch 0 empty_sector;; write_scratch 1 empty_sector) s.
Proof.
  intros Hm Hd Ha H0 Hl He Hto Hw. pose proof (archive_length _ _ _ _ Hl) as Hn.
  unfold fsutil_extract. rewrite Hm. unfold mbind at 1, M_bind at 1, assert at 1.
  unfold mbind at 1, M_bind at 1, gets at 1. rewrite Hd.
  unfold mbind at 1, M_bind at 1, non_null at 1, mret at 1, M_ret at 1.
  unfold mbind at 1, M_bind at 1, say at 1, modify at 1.
  unfold mbind at 1, M_bind at 1. set (s1 := set_u_console _ s).
  rewrite (extract_loop_run _ e0 l a to d s1 name size); try done; [|lia].
  unfold mbind, M_bind, say, modify. unfold s1. by destruct (for_each l _ _) as [[] s2|].
Qed.
End rules.

(** ** A toy header format, with the tag, the size and the length of the name in front *)
Definition tag_of (t : ustar_type) : Z :=
  match t with USTAR_REGULAR => 1 | USTAR_DIRECTORY => 2 | USTAR_OTHER => 3 | USTAR_EOF => 4 end.
Definition toy_header (name : list Z) (t : ustar_type) (size : Z) : option (list Z) :=
  if (length name <=? 99)%nat
  then Some (resize 512 0 ([tag_of t; size; Z.of_nat (length name)] ++ name)) else None.
Definition toy_parse (h : list Z) : option (list Z * ustar_type * Z) :=
  match h with
  | 0 :: _ => Some ([], USTAR_EOF, 0)
  | tag :: size :: len :: rest =>
    let name := take (Z.to_nat len) rest in
    match tag with
    | 1 => Some (name, USTAR_REGULAR, size) | 2 => Some (name, USTAR_DIRECTORY, size)
    | 3 => Some (name, USTAR_OTHER, size) | 4 => Some (name, USTAR_EOF, size) | _ => None
    end
  | _ => None
  end.
#[local] Instance toy_ustar : Ustar :=
  {| ustar_make_header := toy_header; ustar_parse_header := toy_parse; ustar_strip name := name |}.
#[local] Instance toy_ustar_laws : UstarLaws.
Proof.
  split; simpl.
  - intros name t size h. unfold toy_header. destruct (Nat.leb_spec (length name) 99); [|done].
    intros [= <-]. simpl. by rewrite length_resize.
  - intros name t size h _. unfold toy_header. destruct (Nat.leb_spec (length name) 99) as [Hl|]; [|done].
    intros [= <-]. simpl. rewrite Nat2Z.id. rewrite resize_ge by lia. rewrite take_app_length.
    by destruct t.
  - by exists [], 0.
Qed.

(** Two sectors of an archive of no file, and the console empty. *)
Definition utilities (x : os disk bits) : fsu disk bits disk := Fsu x [] (Some ∅) 0 0.

Section witnesses.
#[local] Existing Instance memory_available.

Lemma ls_lists_root_witness :
  wp (fsutil_ls []) (fun _ s' => u_console s' = [Listing; Listed [97]; End_of_listing]) (utilities (root_os 0)).
Proof.
  eapply wp_mono.
  - refine (ls_lists_root 0 root_inode root_content [] (utilities (root_os 0)) _ _ _); [|reflexivity..].
    split; [reflexivity|exact root_dir_at|exact root_dir_inv|exact root_table|
      by apply not_elem_of_empty|reflexivity].
  - intros [] s' (H & _). rewrite H. vm_compute. reflexivity.
Defined.

Lemma cat_prints_file_witness :
  wp (cat_file 0)
     (fun _ s' => u_console s' = [Hex 0 (replicate 512 1 ++ replicate 88 2)]) (utilities (open_file_os 0)).
Proof.
  pose proof (cat_prints_file 0 (File 0 0 false) (two_block_inode 0) (utilities (open_file_os 0))
    (open_file_at 0 ltac:(unfold INT_MAX; lia)) eq_refl) as Hcat. cbv zeta in Hcat.
  eapply wp_mono; [exact Hcat|].
  - intros [] s' (H & _). rewrite H. vm_compute. reflexivity.
Defined.

Lemma append_makes_archive_witness :
  wp (append_file [97] 0;; append_end 0)
     (fun _ s' => u_append s' = 3 /\ exists d', u_scratch s' = Some d' /\
        archive [([97], replicate 512 1 ++ replicate 88 2)] d' 0 3) (utilities (open_file_os 0)).
Proof.
  pose proof (append_makes_archive (us := toy_ustar) [97] (default [] (toy_header [97] USTAR_REGULAR 600)) 0 (File 0 0 false)
    (two_block_inode 0) 0 [] 0 ∅ (utilities (open_file_os 0)) (open_file_at 0 ltac:(unfold INT_MAX; lia))
    eq_refl eq_refl eq_refl eq_refl ltac:(vm_compute; reflexivity) ltac:(vm_compute; reflexivity) eq_refl)
    as Happ. cbv zeta in Happ.
  eapply wp_mono; [exact Happ|].
  - intros [] s' (H & d' & H1 & H2 & _). split; [exact H|]. exists d'. split; [exact H1|exact H2].
Defined.

(** An archive of one file of three bytes in the sectors 0 and 1. *)
Definition one_file : disk :=
  <[0 := default [] (toy_header [97] USTAR_REGULAR 3)]> (<[1 := [7; 8; 9] ++ replicate 509 0]> ∅).

Lemma extract_puts_archive_witness :
  fsutil_extract (replicate 20 0) [] (Fsu (root_os 0) [] (Some one_file) 0 0) =
    (say Extracting;; for_each [([97], [7; 8; 9])] (put_file (replicate 20 0));;
     modify (set_u_extract 3);; say Erasing;; write_scratch 0 empty_sector;; write_scratch 1 empty_sector)
    (Fsu (root_os 0) [] (Some one_file) 0 0).
Proof.
  refine (extract_puts_archive (us := toy_ustar) (replicate 20 0) [] [([97], [7; 8; 9])] 0 2 one_file
    (Fsu (root_os 0) [] (Some one_file) 0 0) [] 0 eq_refl eq_refl eq_refl _ _ _ _ _).
  - lia.
  - split; [vm_compute; reflexivity|]. split; [vm_compute; reflexivity|reflexivity].
  - vm_compute. reflexivity.
  - vm_compute. reflexivity.
  - vm_compute. reflexivity.
Defined.
End witnesses.
