(* ===== verification/Thread.v ===== *)
(** * Thread: threads, the scheduler and priorities ([threads/thread.c]) and the
    synchronization primitives ([threads/synch.c]).

    One processor runs one thread at a time.  A function of the kernel runs up to the
    point where [schedule] switches to another thread; what a switched-out thread has
    still to do is recorded in its [t_op], and [resume] goes on with it when the thread
    runs again.  The scheduler and the semaphores run with interrupts off, so that
    nothing happens between two switches; [lock_acquire], [lock_release] and the
    conditions have them on between their semaphore operations, and a timer interrupt at
    those points is not modelled. *)
From S2P Require Import Prelude.
From Stdlib Require Import ZArith Lia Sorting.Sorted.
From stdpp Require Import prelude gmap sorting.

Open Scope Z_scope.

(** ** Interface: the lists of [lib/kernel/list.h] *)
Class KernelLists := {
  list_insert_ordered : forall {A}, (A -> A -> bool) -> A -> list A -> list A;
  list_sort : forall {A}, (A -> A -> bool) -> list A -> list A;
}.

(** [l] is in order: no element is less than one before it. *)
Definition ordered {A} (less : A -> A -> bool) (l : list A) : Prop :=
  StronglySorted (fun x y => less y x = false) l.

Class KernelListsLaws {kl : KernelLists} := {
  list_insert_ordered_perm {A} (less : A -> A -> bool) x l :
    list_insert_ordered less x l ≡ₚ x :: l;
  list_insert_ordered_sorted {A} (less : A -> A -> bool) x l :
    (forall x y z, less y x = false -> less z y = false -> less z x = false) ->
    (forall x y, less x y = true -> less y x = false) ->
    ordered less l -> ordered less (list_insert_ordered less x l);
  list_sort_perm {A} (less : A -> A -> bool) l : list_sort less l ≡ₚ l;
  list_sort_sorted {A} (less : A -> A -> bool) l :
    (forall x y z, less y x = false -> less z y = false -> less z x = false) ->
    (forall x y, less x y = true -> less y x = false) -> ordered less (list_sort less l);
}.

(** ** Data *)
Inductive thread_status :=
| THREAD_RUNNING | THREAD_READY | THREAD_SLEEPING | THREAD_BLOCKED | THREAD_DYING.
#[export] Instance thread_status_eq_dec : EqDecision thread_status.
Proof. solve_decision. Defined.

(** What a switched-out thread has still to do. *)
Inductive pending :=
| In_sema_down (sema : nat)                (* the loop of [sema_down] *)
| In_lock_acquire (lock : nat)             (* [sema_down] in [lock_acquire] *)
| In_cond_wait (sema lock : nat)           (* [sema_down] in [cond_wait] *)
| In_cond_broadcast (cond lock : nat).     (* the loop of [cond_broadcast] *)

(** [struct thread]; [t_locks] is [lock_list] and [t_waits] is [wait_lock_list]. *)
Record thread := Thread {
  t_tid : Z;
  t_status : thread_status;
  t_priority : Z;
  t_original : Z;
  t_wake : Z;
  t_locks : list nat;
  t_waits : list nat;
  t_op : option pending;
}.

Record semaphore := Semaphore { s_value : Z; s_waiters : list nat }.
Record lock := Lock { l_holder : option nat; l_priority : Z; l_sema : nat }.

(** The waiters of a condition: their semaphore and priority. *)
Definition condition : Type := list (nat * Z).

Record sys := Sys {
  threads : gmap nat thread;
  ready_list : list nat;
  sleeping_list : list nat;
  all_list : list nat;
  cur : nat;
  idle_thread : option nat;
  initial_thread : nat;
  timer_ticks : Z;
  thread_ticks : Z;
  next_tid : Z;
  semas : gmap nat semaphore;
  locks : gmap nat lock;
  conds : gmap nat condition;
  intr_context : bool;
  yield_on_return : bool;
}.

Definition PRI_MIN : Z := 0.
Definition PRI_MAX : Z := 63.
Definition TIME_SLICE : Z := 4.

Definition set_status x t := Thread (t_tid t) x (t_priority t) (t_original t) (t_wake t) (t_locks t) (t_waits t) (t_op t).
Definition set_priority x t := Thread (t_tid t) (t_status t) x (t_original t) (t_wake t) (t_locks t) (t_waits t) (t_op t).
Definition set_original x t := Thread (t_tid t) (t_status t) (t_priority t) x (t_wake t) (t_locks t) (t_waits t) (t_op t).
Definition set_wake x t := Thread (t_tid t) (t_status t) (t_priority t) (t_original t) x (t_locks t) (t_waits t) (t_op t).
Definition set_locks x t := Thread (t_tid t) (t_status t) (t_priority t) (t_original t) (t_wake t) x (t_waits t) (t_op t).
Definition set_waits x t := Thread (t_tid t) (t_status t) (t_priority t) (t_original t) (t_wake t) (t_locks t) x (t_op t).
Definition set_op x t := Thread (t_tid t) (t_status t) (t_priority t) (t_original t) (t_wake t) (t_locks t) (t_waits t) x.

Definition set_threads x s := Sys x (ready_list s) (sleeping_list s) (all_list s) (cur s) (idle_thread s) (initial_thread s) (timer_ticks s) (thread_ticks s) (next_tid s) (semas s) (locks s) (conds s) (intr_context s) (yield_on_return s).
Definition set_ready x s := Sys (threads s) x (sleeping_list s) (all_list s) (cur s) (idle_thread s) (initial_thread s) (timer_ticks s) (thread_ticks s) (next_tid s) (semas s) (locks s) (conds s) (intr_context s) (yield_on_return s).
Definition set_sleeping x s := Sys (threads s) (ready_list s) x (all_list s) (cur s) (idle_thread s) (initial_thread s) (timer_ticks s) (thread_ticks s) (next_tid s) (semas s) (locks s) (conds s) (intr_context s) (yield_on_return s).
Definition set_all x s := Sys (threads s) (ready_list s) (sleeping_list s) x (cur s) (idle_thread s) (initial_thread s) (timer_ticks s) (thread_ticks s) (next_tid s) (semas s) (locks s) (conds s) (intr_context s) (yield_on_return s).
Definition set_cur x s := Sys (threads s) (ready_list s) (sleeping_list s) (all_list s) x (idle_thread s) (initial_thread s) (timer_ticks s) (thread_ticks s) (next_tid s) (semas s) (locks s) (conds s) (intr_context s) (yield_on_return s).
Definition set_idle x s := Sys (threads s) (ready_list s) (sleeping_list s) (all_list s) (cur s) x (initial_thread s) (timer_ticks s) (thread_ticks s) (next_tid s) (semas s) (locks s) (conds s) (intr_context s) (yield_on_return s).
Definition set_thread_ticks x s := Sys (threads s) (ready_list s) (sleeping_list s) (all_list s) (cur s) (idle_thread s) (initial_thread s) (timer_ticks s) x (next_tid s) (semas s) (locks s) (conds s) (intr_context s) (yield_on_return s).
Definition set_next_tid x s := Sys (threads s) (ready_list s) (sleeping_list s) (all_list s) (cur s) (idle_thread s) (initial_thread s) (timer_ticks s) (thread_ticks s) x (semas s) (locks s) (conds s) (intr_context s) (yield_on_return s).
Definition set_semas x s := Sys (threads s) (ready_list s) (sleeping_list s) (all_list s) (cur s) (idle_thread s) (initial_thread s) (timer_ticks s) (thread_ticks s) (next_tid s) x (locks s) (conds s) (intr_context s) (yield_on_return s).
Definition set_lock_map x s := Sys (threads s) (ready_list s) (sleeping_list s) (all_list s) (cur s) (idle_thread s) (initial_thread s) (timer_ticks s) (thread_ticks s) (next_tid s) (semas s) x (conds s) (intr_context s) (yield_on_return s).
Definition set_conds x s := Sys (threads s) (ready_list s) (sleeping_list s) (all_list s) (cur s) (idle_thread s) (initial_thread s) (timer_ticks s) (thread_ticks s) (next_tid s) (semas s) (locks s) x (intr_context s) (yield_on_return s).
Definition set_intr x s := Sys (threads s) (ready_list s) (sleeping_list s) (all_list s) (cur s) (idle_thread s) (initial_thread s) (timer_ticks s) (thread_ticks s) (next_tid s) (semas s) (locks s) (conds s) x (yield_on_return s).
Definition set_yield x s := Sys (threads s) (ready_list s) (sleeping_list s) (all_list s) (cur s) (idle_thread s) (initial_thread s) (timer_ticks s) (thread_ticks s) (next_tid s) (semas s) (locks s) (conds s) (intr_context s) x.

Section thread.
Context {kl : KernelLists}.
Abbreviation K := (M sys).
Implicit Types (s : sys) (t : nat) (x y : thread).

(** ** Access to the objects *)
Definition load_thread t : K thread := s ← get; deref (threads s !! t).
Definition store_thread t (f : thread -> thread) : K unit :=
  x ← load_thread t; modify (fun s => set_threads (<[t := f x]> (threads s)) s).
Definition load_sema k : K semaphore := s ← get; deref (semas s !! k).
Definition store_sema k (se : semaphore) : K unit :=
  load_sema k;; modify (fun s => set_semas (<[k := se]> (semas s)) s).
Definition load_lock l : K lock := s ← get; deref (locks s !! l).
Definition store_lock l (f : lock -> lock) : K unit :=
  x ← load_lock l; modify (fun s => set_lock_map (<[l := f x]> (locks s)) s).

(** The comparison functions, on the elements of the lists in a state. *)
Definition priority_of s t : Z := match threads s !! t with Some x => t_priority x | None => 0 end.
Definition wake_of s t : Z := match threads s !! t with Some x => t_wake x | None => 0 end.
Definition lock_priority_of s l : Z := match locks s !! l with Some x => l_priority x | None => 0 end.
Definition small s t u : bool := wake_of s t <? wake_of s u.
Definition big s t u : bool := priority_of s u <? priority_of s t.
Definition lock_big s l m : bool := lock_priority_of s m <? lock_priority_of s l.
Definition cond_big (a b : nat * Z) : bool := b.2 <? a.2.

(** ** The scheduler *)
Definition thread_current : K nat :=
  t ← gets cur; x ← load_thread t;
  assert (bool_decide (t_status x = THREAD_RUNNING));;
  mret t.

Definition ready_insert t : K unit :=
  modify (fun s => set_ready (list_insert_ordered (big s) t (ready_list s)) s).

Definition next_thread_to_run : K (option nat) :=
  r ← gets ready_list;
  match r with
  | [] => gets idle_thread
  | t :: rest => modify (set_ready rest);; mret (Some t)
  end.

(** [prev]: the thread switched from, if another one. *)
Definition thread_schedule_tail (prev : option nat) : K unit :=
  t ← gets cur;
  store_thread t (set_status THREAD_RUNNING);;
  modify (set_thread_ticks 0);;
  match prev with
  | Some p =>
    x ← load_thread p;
    i ← gets initial_thread;
    when (bool_decide (t_status x = THREAD_DYING) && negb (Nat.eqb p i))
      (assert (negb (Nat.eqb p t));; modify (fun s => set_threads (delete p (threads s)) s))
  | None => mret tt
  end.

(** The first part of [schedule]: the thread that sleeps in front is made ready if its
    time has come. *)
Definition wake_front : K unit :=
  s ← get;
  match sleeping_list s with
  | [] => mret tt
  | e :: rest =>
    x ← load_thread e;
    when (t_wake x <=? timer_ticks s)
      (modify (set_sleeping rest);; ready_insert e;; store_thread e (set_status THREAD_READY))
  end.

Definition schedule : K unit :=
  c ← gets cur;
  wake_front;;
  next ← next_thread_to_run;
  x ← load_thread c;
  assert (negb (bool_decide (t_status x = THREAD_RUNNING)));;
  n ← (match next with Some n => mret n | None => fail Panic end);
  modify (set_cur n);;
  thread_schedule_tail (if Nat.eqb c n then None else Some c).

Definition thread_block : K unit :=
  i ← gets intr_context; assert (negb i);;
  c ← thread_current;
  store_thread c (set_status THREAD_BLOCKED);;
  schedule.

Definition thread_unblock t : K unit :=
  x ← load_thread t;
  assert (bool_decide (t_status x = THREAD_BLOCKED));;
  ready_insert t;;
  store_thread t (set_status THREAD_READY).

Definition thread_yield : K unit :=
  c ← thread_current;
  i ← gets intr_context; assert (negb i);;
  idle ← gets idle_thread;
  when (negb (bool_decide (idle = Some c))) (ready_insert c);;
  store_thread c (set_status THREAD_READY);;
  schedule.

Definition if_yield : K unit :=
  modify (fun s => set_ready (list_sort (big s) (ready_list s)) s);;
  s ← get;
  match ready_list s with
  | [] => mret tt
  | f :: _ =>
    c ← thread_current;
    let less := priority_of s c <? priority_of s f in
    if intr_context s then
      if less then modify (set_yield true)
      else
        modify (set_thread_ticks (u32 (thread_ticks s + 1)));;
        when (TIME_SLICE <=? u32 (thread_ticks s + 1)) (modify (set_yield true))
    else when less thread_yield
  end.

Definition thread_tick : K unit :=
  thread_current;;
  modify (fun s => set_thread_ticks (u32 (thread_ticks s + 1)) s);;
  n ← gets thread_ticks;
  when (TIME_SLICE <=? n) (modify (set_yield true)).

Definition thread_set_priority (new_priority : Z) : K unit :=
  c ← thread_current;
  x ← load_thread c;
  (if (new_priority <? t_priority x) && negb (bool_decide (t_locks x = [])) then
     when (t_priority x =? t_original x) (store_thread c (set_priority new_priority))
   else store_thread c (set_priority new_priority));;
  store_thread c (set_original new_priority);;
  if_yield.

Definition thread_get_priority : K Z := c ← thread_current; x ← load_thread c; mret (t_priority x).

(** The busy wait on [sleep_sema], whose value is 1 whenever another thread runs, is
    left out. *)
Definition thread_sleep (ticks : Z) : K unit :=
  c ← thread_current;
  idle ← gets idle_thread;
  when (negb (bool_decide (idle = Some c)))
    (now ← gets timer_ticks;
     store_thread c (fun x => set_wake (now + ticks) (set_status THREAD_SLEEPING x));;
     modify (fun s => set_sleeping (list_insert_ordered (small s) c (sleeping_list s)) s);;
     schedule).

Definition init_thread t (priority : Z) : K unit :=
  assert ((PRI_MIN <=? priority) && (priority <=? PRI_MAX));;
  modify (fun s => set_all (all_list s ++ [t])
    (set_threads (<[t := Thread 0 THREAD_BLOCKED priority priority 0 [] [] None]> (threads s)) s)).

(** [static tid_t next_tid = 1; tid = next_tid++], under [tid_lock]. *)
Definition allocate_tid : K Z :=
  n ← gets next_tid; n' ← add_int n 1; modify (set_next_tid n');; mret n.

(** The result of [palloc_get_page] is a parameter; [None] is [TID_ERROR]. *)
Definition thread_create (page : option nat) (priority : Z) : K (option Z) :=
  match page with
  | None => mret None
  | Some t =>
    init_thread t priority;;
    tid ← allocate_tid;
    store_thread t (fun x => Thread tid (t_status x) (t_priority x) (t_original x) (t_wake x)
      (t_locks x) (t_waits x) (t_op x));;
    thread_unblock t;;
    if_yield;;
    mret (Some tid)
  end.

(** [thread_exit], after [process_exit] and for a thread that holds no lock. *)
Definition thread_exit_tail : K unit :=
  c ← thread_current;
  modify (fun s => set_all (List.filter (fun u => negb (Nat.eqb u c)) (all_list s)) s);;
  store_thread c (set_status THREAD_DYING);;
  schedule.

Definition thread_exist (tid : Z) : K bool :=
  s ← get;
  mret (existsb (fun t => match threads s !! t with Some x => t_tid x =? tid | None => false end)
          (all_list s)).

(** ** Semaphores *)

(** One pass of the loop of [sema_down]: false if the thread had to wait. *)
Definition sema_down_pass k : K bool :=
  i ← gets intr_context; assert (negb i);;
  se ← load_sema k;
  if s_value se =? 0 then
    c ← thread_current;
    s ← get;
    store_sema k (Semaphore (s_value se) (list_insert_ordered (big s) c (s_waiters se)));;
    thread_block;;
    mret false
  else store_sema k (Semaphore (s_value se - 1) (s_waiters se));; mret true.

Definition sema_try_down k : K bool :=
  se ← load_sema k;
  if 0 <? s_value se
  then store_sema k (Semaphore (s_value se - 1) (s_waiters se));; mret true
  else mret false.

Definition sema_up k : K unit :=
  se ← load_sema k;
  s ← get;
  (match list_sort (big s) (s_waiters se) with
   | [] => mret tt
   | t :: rest => store_sema k (Semaphore (s_value se) rest);; thread_unblock t
   end);;
  se ← load_sema k;
  store_sema k (Semaphore (u32 (s_value se + 1)) (s_waiters se));;
  if_yield.

(** ** Locks *)

(** The recursion follows the holders of the locks a thread waits for. *)
Fixpoint donate_lock (fuel : nat) (l : nat) (c : nat) : K unit :=
  match fuel with
  | O => fail Hang
  | S fuel' =>
    lk ← load_lock l;
    match l_holder lk with
    | None => mret tt
    | Some t =>
      x ← load_thread c;
      when (l_priority lk <? t_priority x)
        (store_lock l (fun lk => Lock (l_holder lk) (t_priority x) (l_sema lk)));;
      y ← load_thread t;
      when (t_priority y <? t_priority x)
        (store_thread t (set_priority (t_priority x));;
         for_each (t_waits y) (fun l' => donate_lock fuel' l' t))
    end
  end.

Definition lock_held_by_current_thread l : K bool :=
  lk ← load_lock l; c ← thread_current; mret (bool_decide (l_holder lk = Some c)).

(** [lock_acquire] up to [sema_down]; the chain of donations is no longer than the
    number of threads. *)
Definition lock_acquire_begin l : K unit :=
  c ← thread_current;
  i ← gets intr_context; assert (negb i);;
  h ← lock_held_by_current_thread l;
  assert (negb h);;
  store_thread c (fun x => set_waits (t_waits x ++ [l]) x);;
  n ← gets (fun s => size (threads s));
  donate_lock (S n) l c.

(** [lock_acquire] after [sema_down]. *)
Definition lock_acquire_end l : K unit :=
  c ← thread_current;
  store_lock l (fun lk => Lock (Some c) (l_priority lk) (l_sema lk));;
  store_thread c (fun x => set_waits (List.filter (fun m => negb (Nat.eqb m l)) (t_waits x)) x);;
  x ← load_thread c;
  store_lock l (fun lk => Lock (l_holder lk) (t_original x) (l_sema lk));;
  s ← get;
  store_thread c (fun x => set_locks (list_insert_ordered (lock_big s) l (t_locks x)) x).

Definition lock_try_acquire l : K bool :=
  h ← lock_held_by_current_thread l;
  assert (negb h);;
  lk ← load_lock l;
  c ← thread_current;
  x ← load_thread c;
  (match l_holder lk with
   | Some t =>
     y ← load_thread t;
     when (t_priority y <? t_priority x) (store_thread t (set_priority (t_priority x)))
   | None => mret tt
   end);;
  ok ← sema_try_down (l_sema lk);
  when ok (store_lock l (fun lk => Lock (Some c) (l_priority lk) (l_sema lk)));;
  mret ok.

(** Removing an element that is in no list is outside the contract of [list_remove]. *)
Definition lock_release l : K unit :=
  h ← lock_held_by_current_thread l;
  assert h;;
  t ← gets cur;
  x ← load_thread t;
  (if bool_decide (l ∈ t_locks x) then mret tt else fail BadAccess);;
  s ← get;
  let rest := list_sort (lock_big s) (List.filter (fun m => negb (Nat.eqb m l)) (t_locks x)) in
  store_thread t (set_locks rest);;
  store_thread t (set_priority
    (match rest with
     | [] => t_original x
     | m :: _ => if lock_priority_of s m <=? t_original x then t_original x else lock_priority_of s m
     end));;
  lk ← load_lock l;
  store_lock l (fun lk => Lock None (l_priority lk) (l_sema lk));;
  sema_up (l_sema lk).

(** ** Conditions *)
Definition cond_signal c l : K unit :=
  i ← gets intr_context; assert (negb i);;
  h ← lock_held_by_current_thread l;
  assert h;;
  s ← get;
  ws ← deref (conds s !! c);
  match list_sort cond_big ws with
  | [] => mret tt
  | (w, _) :: rest => modify (fun s => set_conds (<[c := rest]> (conds s)) s);; sema_up w
  end.

(** [fuel]: more than the number of waiters, one of which each pass removes.  The loop
    stops here when [cond_signal] has switched to another thread. *)
Fixpoint broadcast_loop (fuel : nat) c l : K unit :=
  match fuel with
  | O => fail Hang
  | S fuel' =>
    t ← thread_current;
    s ← get;
    ws ← deref (conds s !! c);
    match ws with
    | [] => store_thread t (set_op None)
    | _ =>
      cond_signal c l;;
      t' ← gets cur;
      if Nat.eqb t t' then broadcast_loop fuel' c l else mret tt
    end
  end.

(** ** Going on after a switch *)
Definition run_op (o : pending) : K unit :=
  match o with
  | In_sema_down k =>
    ok ← sema_down_pass k;
    when ok (c ← thread_current; store_thread c (set_op None))
  | In_lock_acquire l =>
    lk ← load_lock l;
    ok ← sema_down_pass (l_sema lk);
    when ok (c ← thread_current; store_thread c (set_op None);; lock_acquire_end l)
  | In_cond_wait w l =>
    ok ← sema_down_pass w;
    when ok
      (lock_acquire_begin l;;
       c ← thread_current;
       store_thread c (set_op (Some (In_lock_acquire l)));;
       lk ← load_lock l;
       ok ← sema_down_pass (l_sema lk);
       when ok (c ← thread_current; store_thread c (set_op None);; lock_acquire_end l))
  | In_cond_broadcast c l =>
    s ← get;
    ws ← deref (conds s !! c);
    broadcast_loop (S (length ws)) c l
  end.

Definition begin_op (o : pending) : K unit :=
  c ← thread_current; store_thread c (set_op (Some o));; run_op o.

Definition resume : K unit :=
  c ← thread_current; x ← load_thread c;
  match t_op x with Some o => run_op o | None => mret tt end.

Definition sema_down k : K unit := begin_op (In_sema_down k).
Definition lock_acquire l : K unit := lock_acquire_begin l;; begin_op (In_lock_acquire l).

(** [w]: the address of [waiter.semaphore], on the stack of the caller. *)
Definition cond_wait (w : nat) c l : K unit :=
  i ← gets intr_context; assert (negb i);;
  h ← lock_held_by_current_thread l;
  assert h;;
  t ← gets cur;
  x ← load_thread t;
  modify (fun s => set_semas (<[w := Semaphore 0 []]> (semas s)) s);;
  s ← get;
  ws ← deref (conds s !! c);
  modify (fun s => set_conds (<[c := list_insert_ordered cond_big (w, t_priority x) ws]> (conds s)) s);;
  store_thread t (set_op (Some (In_cond_wait w l)));;
  lock_release l;;
  t' ← gets cur;
  when (Nat.eqb t t') (run_op (In_cond_wait w l)).

Definition cond_broadcast c l : K unit := begin_op (In_cond_broadcast c l).
End thread.

(** ** An implementation of the list interface

    Insertion before the first element that is greater, and the sort made of it. *)
Fixpoint insert_before {A} (less : A -> A -> bool) (x : A) (l : list A) : list A :=
  match l with
  | [] => [x]
  | e :: rest => if less x e then x :: l else e :: insert_before less x rest
  end.
Definition insertion_sort {A} (less : A -> A -> bool) (l : list A) : list A :=
  foldr (insert_before less) [] l.

Definition kernel_lists : KernelLists :=
  {| list_insert_ordered := @insert_before; list_sort := @insertion_sort |}.

Lemma insert_before_perm {A} (less : A -> A -> bool) x l : insert_before less x l ≡ₚ x :: l.
Proof.
  induction l as [|e l IH]; simpl; [done|]. destruct (less x e); [done|]. rewrite IH. constructor.
Qed.

Lemma insert_before_sorted {A} (less : A -> A -> bool) x l :
  (forall x y z, less y x = false -> less z y = false -> less z x = false) ->
  (forall x y, less x y = true -> less y x = false) ->
  ordered less l -> ordered less (insert_before less x l).
Proof.
  intros Ht Ha. unfold ordered. induction l as [|e l IH]; intros Hs; simpl.
  { repeat constructor. }
  apply StronglySorted_inv in Hs as [Hs He].
  destruct (less x e) eqn:Hx.
  - constructor; [by constructor|]. constructor; [by apply Ha|].
    eapply Forall_impl; [exact He|]. intros y Hy. eapply Ht; [by apply Ha|done].
  - constructor; [by apply IH|]. rewrite Forall_forall in He |- *. intros y.
    rewrite insert_before_perm. intros [->|Hy]%elem_of_cons; [done|by apply He].
Qed.

Lemma insertion_sort_perm {A} (less : A -> A -> bool) l : insertion_sort less l ≡ₚ l.
Proof. induction l as [|e l IH]; simpl; [done|]. by rewrite insert_before_perm, IH. Qed.

Lemma kernel_lists_laws : KernelListsLaws (kl := kernel_lists).
Proof.
  split; simpl.
  - intros. apply insert_before_perm.
  - intros A less x l. apply insert_before_sorted.
  - intros. apply insertion_sort_perm.
  - intros A less l Ht Ha. induction l as [|e l IH]; simpl; [constructor|].
    by apply insert_before_sorted.
Qed.

(** ** Symbolic execution *)
Section wp_thread.
Context {kl : KernelLists}.
Implicit Types (s : sys).

Lemma wp_load_thread t x Q s : threads s !! t = Some x -> Q x s -> wp (load_thread t) Q s.
Proof. intros H HQ. apply wp_bind, wp_get. by eapply wp_deref. Qed.
Lemma wp_store_thread t f x Q s :
  threads s !! t = Some x -> Q tt (set_threads (<[t := f x]> (threads s)) s) ->
  wp (store_thread t f) Q s.
Proof. intros H HQ. apply wp_bind. by eapply wp_load_thread. Qed.
Lemma wp_load_lock l x Q s : locks s !! l = Some x -> Q x s -> wp (load_lock l) Q s.
Proof. intros H HQ. apply wp_bind, wp_get. by eapply wp_deref. Qed.
Lemma wp_store_lock l f x Q s :
  locks s !! l = Some x -> Q tt (set_lock_map (<[l := f x]> (locks s)) s) ->
  wp (store_lock l f) Q s.
Proof. intros H HQ. apply wp_bind. by eapply wp_load_lock. Qed.
Lemma wp_load_sema k x Q s : semas s !! k = Some x -> Q x s -> wp (load_sema k) Q s.
Proof. intros H HQ. apply wp_bind, wp_get. by eapply wp_deref. Qed.
Lemma wp_store_sema k se x Q s :
  semas s !! k = Some x -> Q tt (set_semas (<[k := se]> (semas s)) s) ->
  wp (store_sema k se) Q s.
Proof. intros H HQ. apply wp_bind. by eapply wp_load_sema. Qed.
Lemma wp_thread_current x Q s :
  threads s !! cur s = Some x -> t_status x = THREAD_RUNNING -> Q (cur s) s ->
  wp thread_current Q s.
Proof.
  intros Hx Hr HQ. apply wp_bind, wp_gets, wp_bind. eapply wp_load_thread; [done|].
  apply wp_bind, wp_assert; [by apply bool_decide_eq_true|]. done.
Qed.
End wp_thread.
