(* ===== verification/Sync.v ===== *)
(** * Sync: what the locks and semaphores guarantee ([threads/synch.c]).

    The kernel as a transition system: the running thread calls an operation, or goes on
    with one that had to wait.  The invariant of the locks holds in every reachable
    state, whatever the scheduler does. *)
From S2P Require Import Prelude Thread.
From Stdlib Require Import ZArith Lia.
From stdpp Require Import prelude gmap.

Open Scope Z_scope.

(** ** What the scheduler leaves alone *)
Definition lock_core (lk : lock) : option nat * nat := (l_holder lk, l_sema lk).

(** The locks up to their priorities, the semaphores, the conditions and the pending
    operations are the same; new threads have none. *)
Record same_sync (s s' : sys) : Prop := {
  ss_locks : lock_core <$> locks s' = lock_core <$> locks s;
  ss_semas : semas s' = semas s;
  ss_conds : conds s' = conds s;
  ss_ops : forall t x, threads s' !! t = Some x ->
    t_op x = None \/ exists y, threads s !! t = Some y /\ t_op y = t_op x;
}.

#[export] Instance same_sync_preorder : PreOrder same_sync.
Proof.
  split.
  - intros s. split; eauto.
  - intros s1 s2 s3 [A1 A2 A3 A4] [B1 B2 B3 B4]. split; try congruence.
    intros t x Hx. destruct (B4 t x Hx) as [|(y & Hy & He)]; [by left|].
    destruct (A4 t y Hy) as [Hn|(z & Hz & He')]; [left; congruence|right]. exists z. split; [done|congruence].
Qed.

(** [m] keeps the synchronization state. *)
Abbreviation keeps := (preserves same_sync).

(** Changes of the state outside the synchronization part. *)
Lemma same_sync_other s s' :
  locks s' = locks s -> semas s' = semas s -> conds s' = conds s -> threads s' = threads s ->
  same_sync s s'.
Proof. intros H1 H2 H3 H4. split; rewrite ?H1, ?H2, ?H3, ?H4; eauto. Qed.

Section keeps.
Context {kl : KernelLists}.

Lemma keeps_store_thread t f : (forall x, t_op (f x) = t_op x) -> keeps (store_thread t f).
Proof.
  intros Hf s a s'. unfold store_thread, load_thread, mbind, M_bind, get, deref, modify.
  destruct (threads s !! t) as [x|] eqn:Hx; [|done]. intros [= _ <-]. split; simpl; try done.
  intros u y. destruct (decide (u = t)) as [->|Hu].
  - rewrite lookup_insert_eq. intros [= <-]. right. exists x. by rewrite Hf.
  - rewrite lookup_insert_ne by done. eauto.
Qed.

Lemma keeps_store_lock l f : (forall lk, lock_core (f lk) = lock_core lk) -> keeps (store_lock l f).
Proof.
  intros Hf s a s'. unfold store_lock, load_lock, mbind, M_bind, get, deref, modify.
  destruct (locks s !! l) as [x|] eqn:Hx; [|done]. intros [= _ <-]. split; simpl; eauto.
  rewrite fmap_insert, Hf. apply insert_id. by rewrite lookup_fmap, Hx.
Qed.
End keeps.

(** One step of a proof that a computation keeps a relation. *)
Ltac keeps_step :=
  first
    [ solve [auto with keeps]
    | apply keeps_store_thread; by intros []
    | apply keeps_store_lock; by intros []
    | apply preserves_modify; solve [intros []; by apply same_sync_other]
    | apply preserves_modify; solve [by intros []]
    | preserves_step ].
Ltac keeps_all := repeat keeps_step.

(** The same thread goes on running. *)
Definition same_cur (s s' : sys) : Prop := cur s' = cur s.
#[export] Instance same_cur_preorder : PreOrder same_cur.
Proof. split; [done|]. intros s1 s2 s3. unfold same_cur. congruence. Qed.
Abbreviation stays := (preserves same_cur).

Section keeps_ops.
Context {kl : KernelLists}.

Lemma keeps_thread_current : keeps thread_current.
Proof. unfold thread_current. keeps_all. Qed.
Hint Resolve keeps_thread_current : keeps.

Lemma keeps_schedule_tail p : keeps (thread_schedule_tail p).
Proof.
  unfold thread_schedule_tail. keeps_all.
  intros s a' s' [= _ <-]. split; try done. simpl. intros t x [_ Hx]%lookup_delete_Some. eauto.
Qed.
Hint Resolve keeps_schedule_tail : keeps.

Lemma keeps_schedule : keeps schedule.
Proof. unfold schedule, wake_front, next_thread_to_run, ready_insert. keeps_all. Qed.
Hint Resolve keeps_schedule : keeps.
Lemma keeps_thread_block : keeps thread_block.
Proof. unfold thread_block. keeps_all. Qed.
Lemma keeps_thread_unblock t : keeps (thread_unblock t).
Proof. unfold thread_unblock, ready_insert. keeps_all. Qed.
Lemma keeps_thread_yield : keeps thread_yield.
Proof. unfold thread_yield, ready_insert. keeps_all. Qed.
Hint Resolve keeps_thread_block keeps_thread_unblock keeps_thread_yield : keeps.
Lemma keeps_if_yield : keeps if_yield.
Proof. unfold if_yield. keeps_all. Qed.
Hint Resolve keeps_if_yield : keeps.
Lemma keeps_thread_tick : keeps thread_tick.
Proof. unfold thread_tick. keeps_all. Qed.
Lemma keeps_thread_set_priority n : keeps (thread_set_priority n).
Proof. unfold thread_set_priority. keeps_all. Qed.
Lemma keeps_thread_sleep n : keeps (thread_sleep n).
Proof. unfold thread_sleep. keeps_all. Qed.
Lemma keeps_thread_exit : keeps thread_exit_tail.
Proof. unfold thread_exit_tail. keeps_all. Qed.
Lemma keeps_donate fuel l c : keeps (donate_lock fuel l c).
Proof.
  revert l c. induction fuel as [|fuel IH]; intros l c; simpl; [apply preserves_fail|].
  keeps_all.
Qed.
Hint Resolve keeps_donate : keeps.
Lemma keeps_held l : keeps (lock_held_by_current_thread l).
Proof. unfold lock_held_by_current_thread. keeps_all. Qed.
Hint Resolve keeps_held : keeps.
Lemma keeps_acquire_begin l : keeps (lock_acquire_begin l).
Proof. unfold lock_acquire_begin. keeps_all. Qed.
Lemma keeps_thread_create page p : keeps (thread_create page p).
Proof.
  unfold thread_create, init_thread, allocate_tid. keeps_all.
  intros s a' s' [= _ <-]. split; try done. simpl. intros t x.
  destruct (decide (t = n)) as [->|]; [rewrite lookup_insert_eq; intros [= <-]; by left|].
  rewrite lookup_insert_ne by done. eauto.
Qed.
End keeps_ops.
#[export] Hint Resolve keeps_thread_current keeps_schedule keeps_thread_block keeps_thread_unblock
  keeps_thread_yield keeps_if_yield keeps_thread_tick keeps_thread_set_priority keeps_thread_sleep
  keeps_thread_exit keeps_donate keeps_held keeps_acquire_begin keeps_thread_create : keeps.

Section stays.
Context {kl : KernelLists}.

Lemma stays_load_thread t : stays (load_thread t).
Proof. unfold load_thread. keeps_all. Qed.
Lemma stays_load_lock l : stays (load_lock l).
Proof. unfold load_lock. keeps_all. Qed.
Lemma stays_load_sema k : stays (load_sema k).
Proof. unfold load_sema. keeps_all. Qed.
Hint Resolve stays_load_thread stays_load_lock stays_load_sema : keeps.
Lemma stays_store_thread t f : stays (store_thread t f).
Proof. unfold store_thread. keeps_all. Qed.
Lemma stays_store_lock l f : stays (store_lock l f).
Proof. unfold store_lock. keeps_all. Qed.
Lemma stays_store_sema k se : stays (store_sema k se).
Proof. unfold store_sema. keeps_all. Qed.
Lemma stays_thread_current : stays thread_current.
Proof. unfold thread_current. keeps_all. Qed.
Hint Resolve stays_store_thread stays_store_lock stays_store_sema stays_thread_current : keeps.
Lemma stays_donate fuel l c : stays (donate_lock fuel l c).
Proof.
  revert l c. induction fuel as [|fuel IH]; intros l c; simpl; [apply preserves_fail|].
  keeps_all.
Qed.
Lemma stays_held l : stays (lock_held_by_current_thread l).
Proof. unfold lock_held_by_current_thread. keeps_all. Qed.
Hint Resolve stays_donate stays_held : keeps.
Lemma stays_acquire_begin l : stays (lock_acquire_begin l).
Proof. unfold lock_acquire_begin. keeps_all. Qed.
Lemma stays_acquire_end l : stays (lock_acquire_end l).
Proof. unfold lock_acquire_end. keeps_all. Qed.
End stays.
#[export] Hint Resolve stays_load_thread stays_load_lock stays_load_sema stays_store_thread
  stays_store_lock stays_store_sema stays_thread_current stays_held stays_acquire_begin
  stays_acquire_end : keeps.

(** ** The invariant of locks and semaphores *)
Section invariant.
Context {kl : KernelLists} {kll : KernelListsLaws}.
Implicit Types (s : sys) (l k t : nat).

(** [LS] gives the semaphore inside each lock. *)
Variable LS : gmap nat nat.
Hypothesis LS_inj : forall l m k, LS !! l = Some k -> LS !! m = Some k -> l = m.

(** A semaphore outside the locks. *)
Definition plain k : Prop := forall l, LS !! l <> Some k.

Definition op_plain (o : pending) : Prop :=
  match o with In_sema_down k | In_cond_wait k _ => plain k | _ => True end.

(** A lock is free exactly when the value of its semaphore is 1, and held exactly when
    it is 0.  [X]: the lock between the change of its semaphore and that of its
    holder, if any. *)
Record sync_inv (X : option nat) s : Prop := {
  si_sema : l_sema <$> locks s = LS;
  si_value : forall l lk, locks s !! l = Some lk ->
    s_value <$> semas s !! l_sema lk =
      Some (if decide (X = Some l) then 0 else match l_holder lk with Some _ => 0 | None => 1 end);
  si_moving : forall l lk, X = Some l -> locks s !! l = Some lk -> l_holder lk = None;
  si_ops : forall t x o, threads s !! t = Some x -> t_op x = Some o -> op_plain o;
  si_conds : forall c ws w p, conds s !! c = Some ws -> (w, p) ∈ ws -> plain w;
}.

(** The step of the thread [c0] under way, in a state where [t0] held [l0]. *)
Variable tracked : option (nat * nat * nat).
Definition own_ok s : Prop :=
  match tracked with
  | None => True
  | Some (c0, l0, t0) => exists lk, locks s !! l0 = Some lk /\
      (l_holder lk = Some t0 \/ (t0 = c0 /\ l_holder lk = None))
  end.
Definition cur_is s : Prop := match tracked with None => True | Some (c0, _, _) => cur s = c0 end.

Definition Inv X s : Prop := sync_inv X s /\ own_ok s.

Lemma core_lookup s s' l lk :
  lock_core <$> locks s' = lock_core <$> locks s -> locks s' !! l = Some lk ->
  exists lk', locks s !! l = Some lk' /\ l_holder lk' = l_holder lk /\ l_sema lk' = l_sema lk.
Proof.
  intros H Hl. assert (Hc : (lock_core <$> locks s) !! l = Some (lock_core lk))
    by (rewrite <- H, lookup_fmap, Hl; done).
  rewrite lookup_fmap in Hc. apply fmap_Some in Hc as (lk' & Hlk' & He).
  exists lk'. unfold lock_core in He. injection He as H1 H2. done.
Qed.

Lemma core_sema (m : gmap nat lock) : l_sema <$> m = snd <$> (lock_core <$> m).
Proof. by rewrite <- map_fmap_compose. Qed.

Lemma Inv_same X s s' : same_sync s s' -> Inv X s -> Inv X s'.
Proof.
  intros [H1 H2 H3 H4] [[I1 I2 I3 I4 I5] Ho]. split; [split|].
  - by rewrite core_sema, H1, <- core_sema.
  - intros l lk Hl. destruct (core_lookup _ _ _ _ H1 Hl) as (lk' & Hl' & Eh & Es).
    rewrite H2, <- Es, <- Eh. by apply I2.
  - intros l lk HX Hl. destruct (core_lookup _ _ _ _ H1 Hl) as (lk' & Hl' & Eh & Es).
    rewrite <- Eh. by eapply I3.
  - intros t x o Hx Hop. destruct (H4 t x Hx) as [|(y & Hy & He)]; [congruence|].
    eapply I4; [exact Hy|congruence].
  - intros c ws w p. rewrite H3. apply I5.
  - unfold own_ok in *. destruct tracked as [[[c0 l0] t0]|]; [|done].
    destruct Ho as (lk & Hl & Hc). symmetry in H1.
    destruct (core_lookup _ _ _ _ H1 Hl) as (lk' & Hl' & Eh & _). exists lk'. by rewrite Eh.
Qed.

Lemma hoare_keeps {A} X (m : M sys A) : keeps m -> hoare (Inv X) m (fun _ => Inv X).
Proof. intros Hm s a s' Hi He. eapply Inv_same; [by eapply Hm|done]. Qed.

(** *** Single changes *)
Lemma value_at s l lk k :
  l_sema <$> locks s = LS -> locks s !! l = Some lk -> LS !! l = Some k <-> l_sema lk = k.
Proof.
  intros <- Hl. rewrite lookup_fmap, Hl. simpl. split; [by intros [= ->]|by intros ->].
Qed.

Lemma Inv_sema X k se s :
  Inv X s -> (forall l lk, locks s !! l = Some lk -> l_sema lk = k ->
     s_value <$> semas s !! k = Some (s_value se)) ->
  Inv X (set_semas (<[k := se]> (semas s)) s).
Proof.
  intros [[I1 I2 I3 I4 I5] Ho] H. split; [split; simpl; try done|exact Ho].
  intros l lk Hl. destruct (decide (l_sema lk = k)) as [<-|Hne].
  - rewrite lookup_insert_eq. rewrite <- (I2 l lk Hl), (H l lk) by done. done.
  - rewrite lookup_insert_ne by done. by apply I2.
Qed.

Lemma Inv_plain X k se s : plain k -> Inv X s -> Inv X (set_semas (<[k := se]> (semas s)) s).
Proof.
  intros Hp Hi. apply Inv_sema; [done|]. intros l lk Hl Hk. destruct (Hp l).
  by apply (value_at s l lk k (si_sema _ _ (proj1 Hi)) Hl).
Qed.

Lemma Inv_take l k v ws s :
  LS !! l = Some k -> Inv None s -> semas s !! k = Some (Semaphore v ws) -> v <> 0 ->
  Inv (Some l) (set_semas (<[k := Semaphore (v - 1) ws]> (semas s)) s) .
Proof.
  intros Hk [[I1 I2 I3 I4 I5] Ho] Hs Hv. split; [|exact Ho].
  assert (Hl : forall m lk, locks s !! m = Some lk -> (l_sema lk = k <-> m = l)).
  { intros m lk Hm. rewrite <- (value_at s m lk k I1 Hm). split; [|by intros ->].
    intros Hm'. by eapply LS_inj. }
  assert (Hfree : forall lk, locks s !! l = Some lk -> l_holder lk = None /\ v = 1).
  { intros lk Hlk. specialize (I2 l lk Hlk). rewrite (proj2 (Hl l lk Hlk) eq_refl), Hs in I2.
    simpl in I2. destruct (l_holder lk); injection I2 as ->; [done|done]. }
  split; simpl; try done.
  - intros m lk Hm. destruct (decide (m = l)) as [->|Hml].
    + rewrite (proj2 (Hl l lk Hm) eq_refl), lookup_insert_eq, decide_True by done. simpl.
      destruct (Hfree lk Hm) as [_ ->]. done.
    + rewrite lookup_insert_ne by (intros He; apply Hml, (Hl m lk Hm); done).
      rewrite decide_False by congruence. specialize (I2 m lk Hm). by rewrite decide_False in I2.
  - intros m lk [= ->] Hm. by apply Hfree.
Qed.

Lemma Inv_give l k v ws s :
  LS !! l = Some k -> Inv (Some l) s -> semas s !! k = Some (Semaphore v ws) ->
  Inv None (set_semas (<[k := Semaphore (u32 (v + 1)) ws]> (semas s)) s).
Proof.
  intros Hk [[I1 I2 I3 I4 I5] Ho] Hs. split; [|exact Ho].
  assert (Hl : forall m lk, locks s !! m = Some lk -> (l_sema lk = k <-> m = l)).
  { intros m lk Hm. rewrite <- (value_at s m lk k I1 Hm). split; [|by intros ->].
    intros Hm'. by eapply LS_inj. }
  split; cbn [locks semas threads conds set_semas]; try done.
  intros m lk Hm. rewrite decide_False by done. specialize (I2 m lk Hm).
  destruct (decide (m = l)) as [->|Hml].
  - rewrite (proj2 (Hl l lk Hm) eq_refl) in I2 |- *. rewrite lookup_insert_eq. simpl.
    rewrite Hs, decide_True in I2 by done. injection I2 as ->. by rewrite (I3 l lk).
  - rewrite lookup_insert_ne by (intros He; apply Hml, (Hl m lk Hm); done).
    rewrite decide_False in I2 by congruence. done.
Qed.

Lemma Inv_lock X X' l lk lk' s :
  Inv X s -> locks s !! l = Some lk -> l_sema lk' = l_sema lk ->
  (X = Some l \/ X = None) -> (X' = Some l \/ X' = None) ->
  (s_value <$> semas s !! l_sema lk =
     Some (if decide (X' = Some l) then 0 else match l_holder lk' with Some _ => 0 | None => 1 end)) ->
  (X' = Some l -> l_holder lk' = None) -> own_ok (set_lock_map (<[l := lk']> (locks s)) s) ->
  Inv X' (set_lock_map (<[l := lk']> (locks s)) s).
Proof.
  intros [[I1 I2 I3 I4 I5] Ho] Hl Hs HX HX' Hv Hm Hown. split; [split; simpl|]; try done.
  - rewrite <- I1, fmap_insert, Hs. apply insert_id. by rewrite lookup_fmap, Hl.
  - intros m lm. destruct (decide (m = l)) as [->|Hml].
    + rewrite lookup_insert_eq. intros [= <-]. by rewrite Hs.
    + rewrite lookup_insert_ne by done. intros Hm'. specialize (I2 m lm Hm').
      rewrite decide_False in I2 by naive_solver. rewrite decide_False by naive_solver. done.
  - intros m lm He. destruct (decide (m = l)) as [->|Hml].
    + rewrite lookup_insert_eq. intros [= <-]. auto.
    + exfalso. naive_solver.
Qed.

(** The thread [c] becomes the holder. *)
Lemma Inv_hold l lk p s :
  Inv (Some l) s -> cur_is s -> locks s !! l = Some lk ->
  Inv None (set_lock_map (<[l := Lock (Some (cur s)) p (l_sema lk)]> (locks s)) s).
Proof.
  intros Hi Hc Hl. pose proof Hi as [[I1 I2 I3 I4 I5] Ho].
  eapply (Inv_lock (Some l)); [done|exact Hl|done|by left|by right| |done|].
  - rewrite decide_False by done. rewrite (I2 l lk Hl), decide_True by done. done.
  - unfold own_ok, cur_is in *. destruct tracked as [[[c0 l0] t0]|]; [|done].
    destruct Ho as (lk0 & Hl0 & Hcase). simpl. destruct (decide (l0 = l)) as [->|Hne].
    + rewrite lookup_insert_eq. eexists. split; [done|]. simpl. left.
      rewrite Hl in Hl0. injection Hl0 as <-. rewrite (I3 l lk) in Hcase by done.
      destruct Hcase as [|[-> _]]; [done|]. by rewrite Hc.
    + rewrite lookup_insert_ne by done. eauto.
Qed.

(** The running thread, the holder, gives the lock up. *)
Lemma Inv_drop l lk p s :
  Inv None s -> cur_is s -> locks s !! l = Some lk -> l_holder lk = Some (cur s) ->
  Inv (Some l) (set_lock_map (<[l := Lock None p (l_sema lk)]> (locks s)) s).
Proof.
  intros Hi Hc Hl Hh. pose proof Hi as [[I1 I2 I3 I4 I5] Ho].
  eapply (Inv_lock None); [done|exact Hl|done|by right|by left| |done|].
  - rewrite decide_True by done. rewrite (I2 l lk Hl), decide_False, Hh by done. done.
  - unfold own_ok, cur_is in *. destruct tracked as [[[c0 l0] t0]|]; [|done].
    destruct Ho as (lk0 & Hl0 & Hcase). simpl. destruct (decide (l0 = l)) as [->|Hne].
    + rewrite lookup_insert_eq. eexists. split; [done|]. simpl. right. split; [|done].
      rewrite Hl in Hl0. injection Hl0 as <-. rewrite Hh in Hcase.
      destruct Hcase as [[= <-]|[_ [=]]]. done.
    + rewrite lookup_insert_ne by done. eauto.
Qed.


(** *** Semaphore operations *)
Lemma set_semas_same m s s' : same_sync s s' -> same_sync (set_semas m s) (set_semas m s').
Proof. by intros []. Qed.

Lemma store_sema_ok k se s a s' :
  store_sema k se s = Ok a s' -> s' = set_semas (<[k := se]> (semas s)) s.
Proof. unfold store_sema, load_sema. intros H. ok_split H. done. Qed.

Lemma store_lock_ok l f s a s' :
  store_lock l f s = Ok a s' ->
  exists lk, locks s !! l = Some lk /\ s' = set_lock_map (<[l := f lk]> (locks s)) s.
Proof. unfold store_lock, load_lock. intros H. ok_split H. eauto. Qed.

Lemma held_ok l s h s' :
  lock_held_by_current_thread l s = Ok h s' ->
  s' = s /\ exists lk, locks s !! l = Some lk /\ h = bool_decide (l_holder lk = Some (cur s)).
Proof.
  unfold lock_held_by_current_thread, load_lock, thread_current, load_thread. intros H.
  ok_split H. eauto.
Qed.

Lemma current_ok s c s' : thread_current s = Ok c s' -> s' = s /\ c = cur s.
Proof. unfold thread_current, load_thread. intros H. ok_split H. done. Qed.

Lemma sema_down_pass_ok k s ok s' :
  sema_down_pass k s = Ok ok s' ->
  exists v ws, semas s !! k = Some (Semaphore v ws) /\
    if ok then v <> 0 /\ s' = set_semas (<[k := Semaphore (v - 1) ws]> (semas s)) s
    else v = 0 /\ exists ws', same_sync (set_semas (<[k := Semaphore v ws']> (semas s)) s) s'.
Proof.
  unfold sema_down_pass, load_sema. intros H. ok_split H. destruct a0 as [v ws].
  exists v, ws. split; [done|]. simpl in H. destruct (Z.eqb_spec v 0) as [->|Hv].
  - ok_split H. apply current_ok in R as [-> ->]. apply store_sema_ok in R0 as ->.
    split; [done|]. eexists. eapply keeps_thread_block. done.
  - ok_split H. apply store_sema_ok in R as ->. done.
Qed.

Lemma sema_up_ok k s a s' :
  sema_up k s = Ok a s' ->
  exists v ws ws', semas s !! k = Some (Semaphore v ws) /\
    same_sync (set_semas (<[k := Semaphore (u32 (v + 1)) ws']> (semas s)) s) s'.
Proof.
  unfold sema_up, load_sema. intros H. ok_split H. destruct a0 as [v ws]. simpl in R.
  assert (Hs : exists ws', same_sync (set_semas (<[k := Semaphore v ws']> (semas s)) s) s0 \/
     s0 = s).
  { destruct (list_sort (big s) ws) as [|t rest]; ok_split R; [exists []; by right|].
    apply store_sema_ok in R1 as ->. exists rest. left. by eapply keeps_thread_unblock. }
  exists v, ws. apply store_sema_ok in R0 as ->.
  pose proof (keeps_if_yield _ _ _ H) as Hy.
  destruct Hs as [ws' [Hs| ->]].
  - rewrite (ss_semas _ _ Hs) in Hd0, Hy. simpl in Hd0, Hy. rewrite lookup_insert_eq in Hd0.
    injection Hd0 as <-. rewrite insert_insert_eq in Hy. eexists. split; [done|].
    etransitivity; [|exact Hy].
    exact (set_semas_same (<[k := Semaphore (u32 (v + 1)) ws']> (semas s)) _ _ Hs).
  - rewrite Hd in Hd0. injection Hd0 as <-. eauto.
Qed.

Lemma hoare_sema_down_plain k s ok s' :
  plain k -> Inv None s -> sema_down_pass k s = Ok ok s' ->
  Inv None s' /\ (ok = true -> cur s' = cur s).
Proof.
  intros Hp Hi (v & ws & Hk & H)%sema_down_pass_ok. destruct ok.
  - destruct H as [_ ->]. split; [by apply Inv_plain|done].
  - destruct H as [_ (ws' & H)]. split; [|done]. eapply Inv_same; [done|]. by apply Inv_plain.
Qed.

Lemma hoare_sema_down_lock l k s ok s' :
  LS !! l = Some k -> Inv None s -> sema_down_pass k s = Ok ok s' ->
  if ok then Inv (Some l) s' /\ cur s' = cur s else Inv None s'.
Proof.
  intros Hl Hi (v & ws & Hk & H)%sema_down_pass_ok. destruct ok.
  - destruct H as [Hv ->]. split; [by apply Inv_take|done].
  - destruct H as [Hv (ws' & H)]. eapply Inv_same; [done|]. apply Inv_sema; [done|].
    intros. by rewrite Hk.
Qed.

Lemma hoare_sema_up_plain k s a s' : plain k -> Inv None s -> sema_up k s = Ok a s' -> Inv None s'.
Proof.
  intros Hp Hi (v & ws & ws' & Hk & H)%sema_up_ok. eapply Inv_same; [done|]. by apply Inv_plain.
Qed.


Lemma hoare_sema_up_lock l k s a s' :
  LS !! l = Some k -> Inv (Some l) s -> sema_up k s = Ok a s' -> Inv None s'.
Proof.
  intros Hl Hi (v & ws & ws' & Hk & H)%sema_up_ok. eapply Inv_same; [done|].
  assert (Hg := Inv_give l k v ws s Hl Hi Hk).
  apply (Inv_sema _ k (Semaphore (u32 (v + 1)) ws')) in Hg;
    [|intros m lk Hm _; simpl; by rewrite lookup_insert_eq].
  simpl in Hg. rewrite insert_insert_eq in Hg. exact Hg.
Qed.

(** *** Locks *)
Lemma cur_is_same s s' : same_cur s s' -> cur_is s -> cur_is s'.
Proof. unfold same_cur, cur_is. intros ->. by destruct tracked as [[[? ?] ?]|]. Qed.

Lemma run_keeps {A} (m : M sys A) X s a s' : m s = Ok a s' -> keeps m -> Inv X s -> Inv X s'.
Proof. intros He Hm. apply Inv_same. by eapply Hm. Qed.
Lemma run_same {A} (m : M sys A) s a s' : m s = Ok a s' -> keeps m -> same_sync s s'.
Proof. intros He Hm. by eapply Hm. Qed.
Lemma run_stays {A} (m : M sys A) s a s' : m s = Ok a s' -> stays m -> cur s' = cur s.
Proof. intros He Hm. by eapply Hm. Qed.

Lemma lock_sema_known X l lk s :
  Inv X s -> locks s !! l = Some lk -> LS !! l = Some (l_sema lk).
Proof. intros [[I1 _ _ _ _] _] Hl. by apply (value_at s l lk). Qed.

Lemma hoare_acquire_end l s a s' :
  Inv (Some l) s -> cur_is s -> lock_acquire_end l s = Ok a s' -> Inv None s'.
Proof.
  unfold lock_acquire_end. intros Hi Hc H. apply bind_ok in H as (c & s1 & H1 & H).
  apply current_ok in H1 as [-> ->].
  apply bind_ok in H as ([] & s2 & H2 & H). apply store_lock_ok in H2 as (lk & Hl & ->).
  eapply (run_keeps _ _ _ _ _ H); [keeps_all|]. by apply Inv_hold.
Qed.

Lemma try_down_ok k s ok s' :
  sema_try_down k s = Ok ok s' ->
  exists v ws, semas s !! k = Some (Semaphore v ws) /\
    if ok then v <> 0 /\ s' = set_semas (<[k := Semaphore (v - 1) ws]> (semas s)) s else s' = s.
Proof.
  unfold sema_try_down, load_sema. intros H. ok_split H. destruct a as [v ws]. simpl in H.
  exists v, ws. split; [done|]. destruct (Z.ltb_spec 0 v); ok_split H; [|done].
  apply store_sema_ok in R as ->. split; [lia|done].
Qed.

Lemma hoare_try_down_plain k s ok s' :
  plain k -> Inv None s -> sema_try_down k s = Ok ok s' -> Inv None s'.
Proof.
  intros Hp Hi (v & ws & Hk & H)%try_down_ok. destruct ok; [|by subst].
  destruct H as [_ ->]. by apply Inv_plain.
Qed.

Lemma hoare_try_down_lock l k s ok s' :
  LS !! l = Some k -> Inv None s -> sema_try_down k s = Ok ok s' ->
  (if ok then Inv (Some l) s' else Inv None s') /\ cur s' = cur s.
Proof.
  intros Hl Hi (v & ws & Hk & H)%try_down_ok. destruct ok; [|by subst].
  destruct H as [Hv ->]. split; [by apply Inv_take|done].
Qed.

Lemma hoare_try_acquire l s ok s' :
  Inv None s -> cur_is s -> lock_try_acquire l s = Ok ok s' -> Inv None s'.
Proof.
  unfold lock_try_acquire, load_lock. intros Hi Hc H. ok_split H.
  apply held_ok in R as [-> (lk & Hl & ->)]. rewrite Hl in Hd. injection Hd as <-.
  apply current_ok in R0 as [-> ->]. unfold load_thread in R1. ok_split R1.
  assert (Hi3 : Inv None s3).
  { eapply run_keeps; [exact R2| |done]. keeps_all. }
  assert (Hcur : cur s3 = cur s) by (eapply run_stays; [exact R2|]; keeps_all).
  apply hoare_try_down_lock with (l := l) in R3;
    [|by apply (lock_sema_known None l lk s)|done].
  apply when_ok in R4 as [[-> H]|[-> ->]]; [|by destruct R3].
  destruct R3 as [Hi4 Hc4]. apply store_lock_ok in H as (lk4 & Hl4 & ->).
  rewrite <- Hcur, <- Hc4. apply Inv_hold; [done| |done].
  by apply (cur_is_same s), Hc; unfold same_cur; rewrite Hc4.
Qed.

Lemma hoare_release l s a s' :
  Inv None s -> cur_is s -> lock_release l s = Ok a s' -> Inv None s'.
Proof.
  unfold lock_release, load_thread, load_lock. intros Hi Hc H. ok_split H.
  apply held_ok in R as [-> (lk & Hl & ->)]. apply bool_decide_eq_true in Hc0.
  assert (Hsame : s1 = s) by (destruct (bool_decide (l ∈ t_locks a2)); by ok_split R0).
  subst s1.
  assert (K : same_sync s s3).
  { etransitivity; (eapply run_same; [eassumption|keeps_all]). }
  assert (Hcur : cur s3 = cur s).
  { etransitivity; (eapply run_stays; [eassumption|keeps_all]). }
  apply store_lock_ok in R3 as (lk' & Hl' & ->). rewrite Hl' in Hd0. injection Hd0 as <-.
  assert (Hi3 : Inv None s3) by by eapply Inv_same.
  destruct (core_lookup _ _ _ _ (ss_locks _ _ K) Hl') as (lk0 & Hl0 & Eh & _).
  eapply hoare_sema_up_lock; [|apply (Inv_drop _ lk'); [exact Hi3|..]|exact H].
  - by eapply lock_sema_known.
  - by apply (cur_is_same s).
  - done.
  - congruence.
Qed.

(** *** Operations that wait *)
Lemma keeps_op_none t : keeps (store_thread t (set_op None)).
Proof.
  intros s a s'. unfold store_thread, load_thread. intros H. ok_split H. split; simpl; try done.
  intros u y. destruct (decide (u = t)) as [->|Hu].
  - rewrite lookup_insert_eq. intros [= <-]. by left.
  - rewrite lookup_insert_ne by done. eauto.
Qed.
Hint Resolve keeps_op_none : keeps.

Lemma Inv_op X t o s a s' :
  op_plain o -> Inv X s -> store_thread t (set_op (Some o)) s = Ok a s' -> Inv X s'.
Proof.
  intros Hp [[I1 I2 I3 I4 I5] Ho]. unfold store_thread, load_thread. intros H. ok_split H.
  split; [split; simpl; try done|exact Ho].
  intros u y o'. destruct (decide (u = t)) as [->|Hu].
  - rewrite lookup_insert_eq. by intros [= <-] [= <-].
  - rewrite lookup_insert_ne by done. apply I4.
Qed.

(** [sema_down] on the semaphore of [l], and the end of [lock_acquire]. *)
Lemma hoare_acquire_rest l lk s a s' :
  Inv None s -> cur_is s -> locks s !! l = Some lk ->
  (ok ← sema_down_pass (l_sema lk);
   when ok (c ← thread_current; store_thread c (set_op None);; lock_acquire_end l)) s = Ok a s' ->
  Inv None s'.
Proof.
  intros Hi Hc Hl H. ok_split H. apply hoare_sema_down_lock with (l := l) in R;
    [|by apply (lock_sema_known None l lk s)|done].
  apply when_ok in H as [[-> H]|[-> ->]]; [|done]. destruct R as [R Hcur].
  ok_split H. apply current_ok in R0 as [-> ->].
  eapply hoare_acquire_end; [| |exact H].
  - eapply run_keeps; [exact R1|keeps_all|done].
  - apply (cur_is_same s); [|done]. etransitivity; [exact Hcur|]. by eapply run_stays; [exact R1|keeps_all].
Qed.

Lemma Inv_cond X c ws s :
  (forall w p, (w, p) ∈ ws -> plain w) -> Inv X s ->
  Inv X (set_conds (<[c := ws]> (conds s)) s).
Proof.
  intros Hp [[I1 I2 I3 I4 I5] Ho]. split; [split; try done|exact Ho].
  simpl. intros c' ws' w p. destruct (decide (c' = c)) as [->|Hne].
  - rewrite lookup_insert_eq. intros [= <-] ?. by eapply Hp.
  - rewrite lookup_insert_ne by done. apply I5.
Qed.

Lemma hoare_signal c l s a s' : Inv None s -> cond_signal c l s = Ok a s' -> Inv None s'.
Proof.
  unfold cond_signal. intros Hi H. ok_split H. apply held_ok in R as [-> _].
  destruct (list_sort cond_big a3) as [|[w p] rest] eqn:He; ok_split H; [done|].
  assert (Hp : forall w' p', (w', p') ∈ (w, p) :: rest -> plain w').
  { intros w' p'. rewrite <- He, (list_sort_perm cond_big a3). by apply (si_conds _ _ (proj1 Hi) c). }
  eapply hoare_sema_up_plain; [|..|exact H]; [eapply Hp; by left|].
  apply Inv_cond; [|done]. intros w' p' ?. eapply Hp. by right.
Qed.

Lemma hoare_broadcast fuel c l s a s' :
  Inv None s -> broadcast_loop fuel c l s = Ok a s' -> Inv None s'.
Proof.
  revert s. induction fuel as [|fuel IH]; intros s Hi H; simpl in H; [done|].
  ok_split H. apply current_ok in R as [-> ->]. destruct a1 as [|w ws].
  - eapply run_keeps; [exact H|keeps_all|done].
  - ok_split H. apply hoare_signal in R; [|done]. destruct (Nat.eqb _ _); [by eapply IH|].
    by ok_split H.
Qed.

Lemma hoare_run_op o s a s' :
  op_plain o -> Inv None s -> cur_is s -> run_op o s = Ok a s' -> Inv None s'.
Proof.
  intros Hp Hi Hc H. destruct o as [k|l|w l|c l]; simpl in Hp; cbn [run_op] in H.
  - ok_split H. apply hoare_sema_down_plain in R as [R _]; [|done..].
    eapply run_keeps; [exact H|keeps_all|done].
  - apply bind_ok in H as (lk & s1 & R & H). unfold load_lock in R. ok_split R.
    by eapply hoare_acquire_rest.
  - apply bind_ok in H as (ok & s1 & R & H). apply hoare_sema_down_plain in R as [R Hcur]; [|done..].
    apply when_ok in H as [[-> H]|[-> ->]]; [|done].
    apply bind_ok in H as ([] & s2 & R2 & H). apply bind_ok in H as (c & s3 & R3 & H).
    apply current_ok in R3 as [-> ->]. apply bind_ok in H as ([] & s4 & R4 & H).
    apply bind_ok in H as (lk & s5 & R5 & H). unfold load_lock in R5. ok_split R5.
    eapply hoare_acquire_rest; [..|exact H]; [|..|done].
    + eapply (Inv_op _ _ (In_lock_acquire l)); [done| |exact R4].
      eapply run_keeps; [exact R2|keeps_all|done].
    + apply (cur_is_same s); [|done]. unfold same_cur.
      rewrite (run_stays _ _ _ _ R4), (run_stays _ _ _ _ R2) by keeps_all. auto.
  - ok_split H. by eapply hoare_broadcast.
Qed.

Lemma hoare_begin_op o s a s' :
  op_plain o -> Inv None s -> cur_is s -> begin_op o s = Ok a s' -> Inv None s'.
Proof.
  unfold begin_op. intros Hp Hi Hc H. ok_split H. apply current_ok in R as [-> ->].
  eapply hoare_run_op; [done| | |exact H].
  - by eapply Inv_op.
  - apply (cur_is_same s); [|done]. by eapply run_stays; [exact R0|keeps_all].
Qed.

Lemma hoare_cond_wait w c l s a s' :
  plain w -> Inv None s -> cur_is s -> cond_wait w c l s = Ok a s' -> Inv None s'.
Proof.
  unfold cond_wait, load_thread. intros Hp Hi Hc H. ok_split H. apply held_ok in R as [-> _].
  assert (Hcur : cur s1 = cur s).
  { etransitivity; [eapply run_stays; [exact R0|keeps_all]|done]. }
  assert (Hi2 : Inv None s1).
  { eapply (Inv_op _ _ (In_cond_wait w l)); [done| |exact R0]. apply (Inv_cond _ _ _ (set_semas _ s)); [|by apply Inv_plain].
    intros w' p'. rewrite list_insert_ordered_perm.
    intros [[= -> ->]|Hin]%elem_of_cons; [done|]. by eapply (si_conds _ _ (proj1 Hi) c). }
  apply hoare_release in R1; [|done|by apply (cur_is_same s)].
  apply when_ok in H as [[Ht H]|[_ ->]]; [|done]. apply Nat.eqb_eq in Ht.
  eapply (hoare_run_op (In_cond_wait w l)); [done|exact R1| |exact H]. by apply (cur_is_same s).
Qed.
End invariant.

(** ** The kernel as a transition system *)

(** What the running thread asks for: an operation of [thread.c] or [synch.c], or to go
    on with one that had to wait; [Intr] stands for the begin and the end of an external
    interrupt. *)
Inductive request :=
| Sema_down (k : nat) | Sema_up (k : nat) | Sema_try_down (k : nat)
| Acquire (l : nat) | Try_acquire (l : nat) | Release (l : nat)
| Cond_wait (w c l : nat) | Cond_signal (c l : nat) | Cond_broadcast (c l : nat)
| Yield | Block | Unblock (t : nat) | Set_priority (p : Z) | Sleep (n : Z)
| Create (page : option nat) (p : Z) | Exit | Tick | Intr (b : bool)
| Resume.

Section system.
Context {kl : KernelLists}.

Definition perform (r : request) : M sys unit :=
  match r with
  | Sema_down k => sema_down k
  | Sema_up k => sema_up k
  | Sema_try_down k => sema_try_down k;; mret tt
  | Acquire l => lock_acquire l
  | Try_acquire l => lock_try_acquire l;; mret tt
  | Release l => lock_release l
  | Cond_wait w c l => cond_wait w c l
  | Cond_signal c l => cond_signal c l
  | Cond_broadcast c l => cond_broadcast c l
  | Yield => thread_yield
  | Block => thread_block
  | Unblock t => thread_unblock t
  | Set_priority p => thread_set_priority p
  | Sleep n => thread_sleep n
  | Create page p => thread_create page p;; mret tt
  | Exit => thread_exit_tail
  | Tick => thread_tick
  | Intr b => modify (set_intr b)
  | Resume => resume
  end.

(** The semaphore inside a lock is left to the lock; the one of [cond_wait] is a local
    variable. *)
Definition allowed (LS : gmap nat nat) (r : request) : Prop :=
  match r with
  | Sema_down k | Sema_up k | Sema_try_down k | Cond_wait k _ _ => plain LS k
  | _ => True
  end.

(** A thread with an operation under way goes on with it, unless a timer interrupt
    makes it yield. *)
Definition idle_or_resume (s : sys) (r : request) : Prop :=
  match r with
  | Resume => exists x o, threads s !! cur s = Some x /\ t_op x = Some o
  | Yield | Tick | Intr _ => True
  | _ => forall x, threads s !! cur s = Some x -> t_op x = None
  end.

Inductive step (LS : gmap nat nat) (s : sys) : sys -> Prop :=
| step_exec r s' : allowed LS r -> idle_or_resume s r -> perform r s = Ok tt s' -> step LS s s'.

Definition run_steps LS : relation sys := rtc (step LS).
End system.

Section reachable.
Context {kl : KernelLists} {kll : KernelListsLaws}.
Variable LS : gmap nat nat.
Hypothesis LS_inj : forall l m k, LS !! l = Some k -> LS !! m = Some k -> l = m.

Lemma hoare_exec tracked r s s' :
  allowed LS r -> Inv LS tracked None s -> cur_is tracked s -> perform r s = Ok tt s' ->
  Inv LS tracked None s'.
Proof using All.
  intros Ha Hi Hc H. destruct r; simpl in Ha, H;
    try (eapply run_keeps; [exact H|keeps_all|done]; fail).
  - by eapply (hoare_begin_op LS LS_inj tracked (In_sema_down k)).
  - by eapply hoare_sema_up_plain.
  - ok_split H. by eapply hoare_try_down_plain.
  - unfold lock_acquire in H. ok_split H.
    eapply (hoare_begin_op LS LS_inj tracked (In_lock_acquire l)); [done| | |exact H].
    + eapply run_keeps; [exact R|keeps_all|done].
    + eapply cur_is_same; [|done]. eapply run_stays; [exact R|keeps_all].
  - ok_split H. by eapply hoare_try_acquire.
  - by eapply hoare_release.
  - by eapply hoare_cond_wait.
  - by eapply hoare_signal.
  - by eapply (hoare_begin_op LS LS_inj tracked (In_cond_broadcast c l)).
  - unfold resume, load_thread in H. ok_split H. apply current_ok in R as [-> ->].
    destruct (t_op a0) as [o|] eqn:Ho; [|by ok_split H].
    eapply hoare_run_op; [done| |done..|exact H]. by eapply (si_ops _ _ _ (proj1 Hi)).
Qed.

Lemma run_steps_inv s s' :
  sync_inv LS None s -> run_steps LS s s' -> sync_inv LS None s'.
Proof using All.
  intros Hi Hr. induction Hr as [s|s s1 s' Hst _ IH]; [done|]. apply IH. destruct Hst as [r s1 Ha _ He].
  by apply (hoare_exec None r s s1 Ha (conj Hi I) I He).
Qed.
End reachable.

(** C13: the lock invariant.  Whatever the threads do, in whatever order they are switched
    and interrupted between their operations, the semaphore of every lock stays in place,
    has the value 0 while a thread holds the lock and 1 while nobody does. *)
Theorem locks_stay_consistent `{KernelListsLaws} (LS : gmap nat nat) s s' l lk
    (LS_inj : forall l m k, LS !! l = Some k -> LS !! m = Some k -> l = m)
    (Hi : sync_inv LS None s) (Hr : run_steps LS s s') (Hl : locks s' !! l = Some lk) :
  LS !! l = Some (l_sema lk) /\
  exists ws, semas s' !! l_sema lk =
    Some (Semaphore (match l_holder lk with Some _ => 0 | None => 1 end) ws).
Proof.
  destruct (run_steps_inv LS LS_inj s s' Hi Hr) as [I1 I2 _ _ _].
  split; [by apply (value_at LS LS_inj s' l lk)|].
  specialize (I2 l lk Hl). apply fmap_Some in I2 as ([v ws] & Hs & Hv). simpl in Hv. subst.
  exists ws. exact Hs.
Qed.

(** C17: nobody takes a lock from its holder.  After a step of the kernel a lock that [t]
    held is still held by [t], or [t] is the thread that took the step and the lock is
    free. *)
Theorem lock_not_stolen `{KernelListsLaws} (LS : gmap nat nat) s0 s s' l lk t
    (LS_inj : forall l m k, LS !! l = Some k -> LS !! m = Some k -> l = m)
    (Hi : sync_inv LS None s0) (Hr : run_steps LS s0 s) (Hs : step LS s s')
    (Hl : locks s !! l = Some lk) (Ht : l_holder lk = Some t) :
  exists lk', locks s' !! l = Some lk' /\
    (l_holder lk' = Some t \/ (t = cur s /\ l_holder lk' = None)).
Proof.
  apply (run_steps_inv LS LS_inj s0 s Hi) in Hr as Hi'. destruct Hs as [r s' Ha _ He].
  assert (Ho : own_ok (Some (cur s, l, t)) s) by (exists lk; auto).
  destruct (hoare_exec LS LS_inj (Some (cur s, l, t)) r s s' Ha (conj Hi' Ho) eq_refl He) as [_ Hf].
  exact Hf.
Qed.

(** ** A concrete kernel

    Thread 0 runs with priority 31, thread 1 is the idle thread.  Lock 0 has the
    semaphore 10; semaphore 20 is outside the locks. *)
Definition boot : sys :=
  let idle := Thread 2 THREAD_BLOCKED PRI_MIN PRI_MIN 0 [] [] None in
  let main := Thread 1 THREAD_RUNNING 31 31 0 [] [] None in
  Sys {[0%nat := main; 1%nat := idle]} [] [] [0%nat; 1%nat] 0 (Some 1%nat) 0 0 0 3
    {[10%nat := Semaphore 1 []; 20%nat := Semaphore 0 []]} {[0%nat := Lock None 0 10]}
    {[0%nat := []]} false false.
Definition boot_locks : gmap nat nat := {[0%nat := 10%nat]}.

Lemma boot_locks_inj l m k : boot_locks !! l = Some k -> boot_locks !! m = Some k -> l = m.
Proof. unfold boot_locks. by intros [<- _]%lookup_singleton_Some [<- _]%lookup_singleton_Some. Qed.

(** Decides the invariant in a concrete state without pending operations and waiters. *)
Lemma boot_inv : sync_inv boot_locks None boot.
Proof.
  split.
  - reflexivity.
  - simpl. intros l lk [<- <-]%lookup_singleton_Some. reflexivity.
  - done.
  - intros t x o Hx Ho. exfalso. revert Ho. simpl in Hx.
    apply lookup_insert_Some in Hx as [[_ <-]|[_ Hx]]; [done|].
    by apply lookup_singleton_Some in Hx as [_ <-].
  - simpl. intros c ws w p [<- <-]%lookup_singleton_Some. by intros ?%elem_of_nil.
Qed.

(** The state after a list of requests, if they all succeed. *)
Section run.
Context {kl : KernelLists}.
Definition perform_all (rs : list request) (s : sys) : res sys unit := for_each rs perform s.
End run.

(** The main thread takes lock 0 and starts thread 2, of priority 40, which runs at once
    and wants the lock; the main thread goes on with the donated priority. *)
Definition contended : sys := Eval vm_compute in
  match perform_all (kl := kernel_lists) [Acquire 0; Create (Some 2%nat) 40; Acquire 0] boot with
  | Ok _ s => s
  | Fail _ => boot
  end.

Lemma contended_reachable : run_steps (kl := kernel_lists) boot_locks boot contended.
Proof.
  pose (s1 := match perform (kl := kernel_lists) (Acquire 0) boot with Ok _ s => s | _ => boot end).
  pose (s2 := match perform (kl := kernel_lists) (Create (Some 2%nat) 40) s1 with Ok _ s => s | _ => boot end).
  apply (rtc_l _ _ s1).
  { apply (step_exec _ _ (Acquire 0)); [exact I| |by vm_compute].
    intros x [= <-]. done. }
  apply (rtc_l _ _ s2).
  { apply (step_exec _ _ (Create (Some 2%nat) 40)); [exact I| |by vm_compute].
    intros x. vm_compute. by intros [= <-]. }
  eapply rtc_once, (step_exec _ _ (Acquire 0)); [exact I| |by vm_compute].
  intros x. vm_compute. by intros [= <-].
Qed.

Example contended_state :
  cur contended = 0%nat /\ priority_of contended 0 = 40 /\
  (t_waits <$> threads contended !! 2%nat) = Some [0%nat].
Proof. by vm_compute. Qed.

Lemma locks_stay_consistent_witness :
  boot_locks !! 0%nat = Some 10%nat /\
  exists ws, semas contended !! 10%nat = Some (Semaphore 0 ws).
Proof.
  apply (locks_stay_consistent (H := kernel_lists_laws) boot_locks boot contended 0
    (Lock (Some 0%nat) 40 10) boot_locks_inj boot_inv contended_reachable).
  by vm_compute.
Defined.

(** The main thread releases the lock; thread 2 runs, but does not hold it yet. *)
Definition released : sys := Eval vm_compute in
  match perform (kl := kernel_lists) (Release 0) contended with Ok _ s => s | _ => boot end.

Lemma lock_not_stolen_witness :
  (exists lk', locks released !! 0%nat = Some lk' /\
    (l_holder lk' = Some 0%nat \/ (0%nat = cur contended /\ l_holder lk' = None))) /\
  cur released = 2%nat.
Proof.
  split; [|by vm_compute].
  apply (lock_not_stolen (H := kernel_lists_laws) boot_locks boot contended released 0
    (Lock (Some 0%nat) 40 10) 0 boot_locks_inj boot_inv contended_reachable);
    [|by vm_compute..].
  apply (step_exec _ _ (Release 0)); [exact I| |by vm_compute].
  intros x. vm_compute. by intros [= <-].
Defined.

(** The rest of the acquisition gives the lock to thread 2. *)
Example lock_passed_on :
  match perform (kl := kernel_lists) Resume released with
  | Ok _ s => l_holder <$> locks s !! 0%nat = Some (Some 2%nat)
  | Fail _ => False
  end.
Proof. by vm_compute. Qed.
