(* ===== verification/Donation.v ===== *)
(** * Donation: priority donation along chains of locks ([donate_lock] in
    [threads/synch.c]).

    A thread that waits for a lock gives its priority to the holder, and through the locks
    the holder waits for to the holders of those.  [donated] says that no holder has a
    lower priority than a thread that waits for its lock. *)
From S2P Require Import Prelude Thread Sync.
From Stdlib Require Import ZArith Lia.
From stdpp Require Import prelude gmap.

Open Scope Z_scope.

(** [t] waits for [l], which [h] holds. *)
Definition waits_for (s : sys) (t l h : nat) : Prop :=
  exists x lk, threads s !! t = Some x /\ l ∈ t_waits x /\
    locks s !! l = Some lk /\ l_holder lk = Some h.

(** Every holder has at least the priority of the threads that wait for its locks,
    [E] apart. *)
Definition donated_but (E : list (nat * nat)) (s : sys) : Prop :=
  forall t l h, waits_for s t l h -> (t, l) ∈ E \/ priority_of s t <= priority_of s h.
Definition donated : sys -> Prop := donated_but [].

(** The locks a thread waits for and their holders exist. *)
Record linked (s : sys) : Prop := {
  lk_waits : forall t x l, threads s !! t = Some x -> l ∈ t_waits x -> is_Some (locks s !! l);
  lk_holder : forall l lk h, locks s !! l = Some lk -> l_holder lk = Some h ->
    is_Some (threads s !! h);
}.

(** From [s] to [s'] only priorities below [p] have changed, to [p], and the priorities
    of locks. *)
Record raised (p : Z) (s s' : sys) : Prop := {
  ra_thread : forall t x, threads s !! t = Some x ->
    exists q, threads s' !! t = Some (set_priority q x) /\
      (q = t_priority x \/ (t_priority x < p /\ q = p));
  ra_none : forall t, threads s !! t = None -> threads s' !! t = None;
  ra_locks : lock_core <$> locks s' = lock_core <$> locks s;
  ra_rest : s' = set_threads (threads s') (set_lock_map (locks s') s);
}.

Lemma raised_refl p s : raised p s s.
Proof.
  split; [|done|done|by destruct s]. intros t x Hx. exists (t_priority x). destruct x. eauto.
Qed.

Lemma raised_trans p s1 s2 s3 : raised p s1 s2 -> raised p s2 s3 -> raised p s1 s3.
Proof.
  intros [A1 A2 A3 A4] [B1 B2 B3 B4]. split.
  - intros t x Hx. destruct (A1 t x Hx) as (q & Hq & Cq). destruct (B1 _ _ Hq) as (r & Hr & Cr).
    exists r. split; [by destruct x|]. simpl in Cr. lia.
  - eauto.
  - congruence.
  - rewrite B4, A4. by destruct s1.
Qed.

(** The threads whose priority is below [p]. *)
Definition lower (p : Z) (s : sys) : gset nat := filter (fun t => priority_of s t < p) (dom (threads s)).

Lemma priority_raised p s s' t x :
  raised p s s' -> threads s !! t = Some x ->
  priority_of s' t = priority_of s t \/ (priority_of s t < p /\ priority_of s' t = p).
Proof.
  intros Hr Hx. destruct (ra_thread _ _ _ Hr t x Hx) as (q & Hq & C).
  unfold priority_of. rewrite Hx, Hq. simpl. lia.
Qed.

Lemma waits_raised p s s' t l h : raised p s s' -> waits_for s' t l h -> waits_for s t l h.
Proof.
  intros Hr (x & lk & Hx & Hw & Hl & Hh).
  destruct (threads s !! t) as [y|] eqn:Hy; [|rewrite (ra_none _ _ _ Hr t Hy) in Hx; done].
  destruct (ra_thread _ _ _ Hr t y Hy) as (q & Hq & _). rewrite Hq in Hx. injection Hx as <-.
  destruct (core_lookup _ _ _ _ (ra_locks _ _ _ Hr) Hl) as (lk' & Hl' & Eh & _).
  exists y, lk'. by rewrite Eh.
Qed.

Lemma lower_raised p s s' : raised p s s' -> lower p s' ⊆ lower p s.
Proof.
  intros Hr t. unfold lower. rewrite !elem_of_filter, !elem_of_dom. intros [Hp [x' Hx']].
  destruct (threads s !! t) as [y|] eqn:Hy; [|rewrite (ra_none _ _ _ Hr t Hy) in Hx'; done].
  split; [|by eexists]. destruct (priority_raised _ _ _ _ _ Hr Hy); lia.
Qed.

Lemma linked_raised p s s' : raised p s s' -> linked s -> linked s'.
Proof.
  intros Hr [L1 L2].
  assert (Hd : forall t, is_Some (threads s !! t) -> is_Some (threads s' !! t)).
  { intros t [x Hx]. destruct (ra_thread _ _ _ Hr t x Hx) as (q & Hq & _). eauto. }
  split.
  - intros t x l Hx Hw.
    destruct (threads s !! t) as [y|] eqn:Hy; [|rewrite (ra_none _ _ _ Hr t Hy) in Hx; done].
    destruct (ra_thread _ _ _ Hr t y Hy) as (q & Hq & _). rewrite Hq in Hx. injection Hx as <-.
    destruct (L1 t y l Hy Hw) as [lk Hlk].
    destruct (core_lookup _ _ _ _ (eq_sym (ra_locks _ _ _ Hr)) Hlk) as (lk' & -> & _). eauto.
  - intros l lk h Hl Hh.
    destruct (core_lookup _ _ _ _ (ra_locks _ _ _ Hr) Hl) as (lk' & Hl' & Eh & _).
    apply Hd. eapply L2; [done|congruence].
Qed.

Section donate.
Context {kl : KernelLists}.

Lemma raised_lock p l lk q s :
  locks s !! l = Some lk ->
  raised p s (set_lock_map (<[l := Lock (l_holder lk) q (l_sema lk)]> (locks s)) s).
Proof.
  intros Hl. split; simpl; [|done| |by destruct s].
  - intros t x Hx. exists (t_priority x). destruct x. eauto.
  - rewrite fmap_insert. apply insert_id. by rewrite lookup_fmap, Hl.
Qed.

Lemma raised_thread p t y s :
  threads s !! t = Some y -> t_priority y < p ->
  raised p s (set_threads (<[t := set_priority p y]> (threads s)) s).
Proof.
  intros Hy Hp. split; simpl; [| |done|by destruct s].
  - intros u x Hx. destruct (decide (u = t)) as [->|Hu].
    + rewrite lookup_insert_eq. rewrite Hy in Hx. injection Hx as <-. eauto.
    + rewrite lookup_insert_ne by done. exists (t_priority x). destruct x. eauto.
  - intros u Hu. rewrite lookup_insert_ne; [done|]. by intros ->; rewrite Hy in Hu.
Qed.

Lemma donated_lock E l lk q s :
  locks s !! l = Some lk -> donated_but E s ->
  donated_but E (set_lock_map (<[l := Lock (l_holder lk) q (l_sema lk)]> (locks s)) s).
Proof.
  intros Hl Hd t m h Hw. destruct (Hd t m h) as [|]; [|by left|by right].
  exact (waits_raised 0 _ _ _ _ _ (raised_lock 0 l lk q s Hl) Hw).
Qed.

(** Raising [t] leaves the locks it waits for to pay. *)
Lemma donated_thread E p t y s :
  threads s !! t = Some y -> t_priority y < p -> donated_but E s ->
  donated_but (((fun l => (t, l)) <$> t_waits y) ++ E)
    (set_threads (<[t := set_priority p y]> (threads s)) s).
Proof.
  intros Hy Hp Hd u m h Hw. pose proof Hw as (x & lk & Hx & Hm & Hl & Hh).
  apply (waits_raised p s) in Hw; [|by apply raised_thread]. simpl in Hx.
  destruct (decide (u = t)) as [->|Hu].
  - rewrite lookup_insert_eq in Hx. injection Hx as <-. left.
    apply elem_of_app. left. apply list_elem_of_fmap. eauto.
  - destruct (Hd u m h Hw) as [|Hle]; [left; apply elem_of_app; by right|]. right.
    revert Hle. unfold priority_of. simpl. rewrite (lookup_insert_ne _ t u) by done.
    destruct (decide (h = t)) as [->|Hht]; [rewrite lookup_insert_eq, Hy; simpl; lia|].
    by rewrite lookup_insert_ne.
Qed.

Lemma donated_paid E c l s :
  donated_but ((c, l) :: E) s ->
  (forall h, waits_for s c l h -> priority_of s c <= priority_of s h) -> donated_but E s.
Proof.
  intros Hd Hp t m h Hw. destruct (Hd t m h Hw) as [[[= -> ->]|]%elem_of_cons|]; eauto.
Qed.

Lemma lower_raise p t y s :
  threads s !! t = Some y -> t_priority y < p ->
  (size (lower p (set_threads (<[t := set_priority p y]> (threads s)) s)) < size (lower p s))%nat.
Proof.
  intros Hy Hp. apply subset_size. split; [by eapply lower_raised, raised_thread|].
  intros Hsub. specialize (Hsub t). unfold lower in Hsub. rewrite !elem_of_filter in Hsub.
  destruct Hsub as [Hlt _].
  - split; [unfold priority_of; by rewrite Hy|]. by apply elem_of_dom_2 in Hy.
  - unfold priority_of in Hlt. simpl in Hlt. rewrite lookup_insert_eq in Hlt. simpl in Hlt. lia.
Qed.

Lemma donated_weaken E E' s :
  (forall e, e ∈ E -> e ∈ E') -> donated_but E s -> donated_but E' s.
Proof. intros HE Hd t l h Hw. destruct (Hd t l h Hw); auto. Qed.

(** The holder of [l] is [t]. *)
Lemma holder_unique s s' c l lk t h :
  locks s !! l = Some lk -> l_holder lk = Some t ->
  lock_core <$> locks s' = lock_core <$> locks s -> waits_for s' c l h -> h = t.
Proof.
  intros Hl Hh Hc (x' & lk' & _ & _ & Hl' & Hh').
  destruct (core_lookup _ _ _ _ Hc Hl') as (lk2 & Hl2 & Eh & _). congruence.
Qed.

(** The first part of [donate_lock]: the priority of the lock. *)
Lemma wp_donate_to_lock p l lk s (Q : unit -> sys -> Prop) :
  locks s !! l = Some lk -> linked s ->
  (forall q, let s1 := set_lock_map (<[l := Lock (l_holder lk) q (l_sema lk)]> (locks s)) s in
     raised p s s1 -> linked s1 -> Q tt s1) ->
  wp (when (l_priority lk <? p) (store_lock l (fun lk => Lock (l_holder lk) p (l_sema lk)))) Q s.
Proof.
  intros Hl Hw HQ. apply wp_when; intros _.
  - eapply wp_store_lock; [done|]. pose proof (raised_lock p l lk p s Hl) as Hr.
    apply HQ; [done|by eapply linked_raised].
  - specialize (HQ (l_priority lk)).
    replace (set_lock_map _ s) with s in HQ; [apply HQ; [apply raised_refl|done]|].
    rewrite (insert_id (locks s) l); [by destruct s|]. by destruct lk.
Qed.

(** The last part: the holder [t], raised, passes the priority on. *)
Lemma wp_donate_on fuel E t y p s :
  threads s !! t = Some y -> t_priority y < p -> linked s -> donated_but E s ->
  (forall E l s', linked s' -> threads s' !! t = Some (set_priority p y) ->
     is_Some (locks s' !! l) -> donated_but ((t, l) :: E) s' ->
     (size (lower p s') < size (lower p s))%nat ->
     wp (donate_lock fuel l t) (fun _ s'' => raised p s' s'' /\ donated_but E s'') s') ->
  wp (store_thread t (set_priority p);; for_each (t_waits y) (fun l' => donate_lock fuel l' t))
    (fun _ s' => raised p s s' /\ donated_but E s' /\ priority_of s' t = p) s.
Proof.
  intros Hy Hlt Hw Hd IH. apply wp_bind. eapply wp_store_thread; [done|].
  set (s2 := set_threads _ s). pose proof (raised_thread p t y s Hy Hlt : raised p s s2) as R2.
  pose proof (lower_raise p t y s Hy Hlt : (size (lower p s2) < _)%nat) as Hm.
  assert (Ht2 : threads s2 !! t = Some (set_priority p y)) by (simpl; by rewrite lookup_insert_eq).
  apply (wp_for_each (fun _ rest s' => raised p s2 s' /\
     donated_but (((fun l => (t, l)) <$> rest) ++ E) s')).
  - split; [apply raised_refl|]. by apply donated_thread.
  - intros done l' rest s3 Hsplit [R3 Hd3].
    destruct (ra_thread _ _ _ R3 t _ Ht2) as (q & Hq & Cq). simpl in Cq.
    assert (q = p) as -> by lia.
    assert (Hw3 : linked s3) by (eapply linked_raised; [exact R3|by eapply linked_raised]).
    eapply wp_mono; [apply (IH (((fun l => (t, l)) <$> rest) ++ E))|].
    + done.
    + by rewrite Hq.
    + eapply (lk_waits _ Hw3 t); [exact Hq|]. simpl. rewrite Hsplit. set_solver.
    + exact Hd3.
    + pose proof (subseteq_size _ _ (lower_raised _ _ _ R3)). lia.
    + intros [] s4 [R4 Hd4]. split; [by eapply raised_trans|done].
  - intros s3 [R3 Hd3]. split; [by eapply raised_trans|]. split; [done|].
    destruct (priority_raised _ _ _ _ _ R3 Ht2) as [->|[_ ->]]; [|done].
    unfold priority_of. by rewrite Ht2.
Qed.

(** [donate_lock], with fuel for one more than the threads it may raise, pays what [c]
    owes for the lock [l]. *)
Lemma wp_donate fuel E l c x s :
  threads s !! c = Some x -> is_Some (locks s !! l) -> linked s ->
  donated_but ((c, l) :: E) s -> (size (lower (t_priority x) s) < fuel)%nat ->
  wp (donate_lock fuel l c)
    (fun _ s' => raised (t_priority x) s s' /\ donated_but E s') s.
Proof.
  revert E l c x s. induction fuel as [|fuel IH]; intros E l c x s Hx [lk Hl] Hw Hd Hf; [lia|].
  simpl. apply wp_bind. eapply wp_load_lock; [done|]. destruct (l_holder lk) as [t|] eqn:Hh.
  2:{ apply wp_ret. split; [apply raised_refl|]. eapply donated_paid; [done|].
      intros h (x' & lk' & _ & _ & Hl' & Hh'). congruence. }
  apply wp_bind. eapply wp_load_thread; [done|]. apply wp_bind.
  apply (wp_donate_to_lock _ l lk); [done..|]. intros q s1 R1 Hw1.
  assert (Hd1 : donated_but ((c, l) :: E) s1) by (by apply donated_lock).
  destruct (lk_holder _ Hw l lk t Hl Hh) as [y Hy].
  apply wp_bind. apply (wp_load_thread t y); [done|]. apply wp_when; intros Hlt.
  2:{ apply Z.ltb_ge in Hlt. split; [done|]. eapply donated_paid; [done|]. intros h Hwh.
      assert (h = t) as -> by (by apply (holder_unique s s1 c l lk); [..|apply R1|]).
      unfold priority_of. simpl. by rewrite Hx, Hy. }
  apply Z.ltb_lt in Hlt. eapply wp_mono; [apply (wp_donate_on fuel ((c, l) :: E)); [done..|]|].
  - intros E' l' s' Hw' Ht' Hl' Hd' Hm. apply (IH E' l' t (set_priority (t_priority x) y)); try done.
    simpl. change (lower (t_priority x) s1) with (lower (t_priority x) s) in Hm. lia.
  - intros [] s' (R' & Hd' & Hp'). assert (R : raised (t_priority x) s s') by (by eapply raised_trans).
    split; [done|]. eapply donated_paid; [done|]. intros h Hwh.
    assert (h = t) as -> by (by apply (holder_unique s s' c l lk); [..|apply R|]).
    destruct (ra_thread _ _ _ R c x Hx) as (qc & Hqc & Cc).
    rewrite Hp'. unfold priority_of. rewrite Hqc. simpl. lia.
Qed.
End donate.

(** [a] waits for a lock that [b] holds. *)
Definition blocked_by (s : sys) (a b : nat) : Prop := exists l, waits_for s a l b.

Lemma donated_chain s a b : donated s -> tc (blocked_by s) a b -> priority_of s a <= priority_of s b.
Proof.
  intros Hd Hc.
  assert (H1 : forall a b, blocked_by s a b -> priority_of s a <= priority_of s b).
  { intros u v [l Hw]. destruct (Hd u l v Hw) as [?%elem_of_nil|]; done. }
  induction Hc as [a b Hab|a b c Hab _ IH]; [by apply H1|]. specialize (H1 _ _ Hab). lia.
Qed.

Section enqueue.
Variables (s : sys) (c l : nat) (x : thread).
Hypothesis Hx : threads s !! c = Some x.
Let y : thread := set_waits (t_waits x ++ [l]) x.
Let s1 : sys := set_threads (<[c := y]> (threads s)) s.

Lemma enqueue_linked : is_Some (locks s !! l) -> linked s -> linked s1.
Proof using All.
  intros Hl Hw. split; simpl.
  - intros t z m. destruct (decide (t = c)) as [->|Ht].
    + rewrite lookup_insert_eq. intros [= <-]. simpl. intros [Hm|Hm]%elem_of_app.
      * by eapply (lk_waits _ Hw).
      * by apply list_elem_of_singleton in Hm as ->.
    + rewrite lookup_insert_ne by done. apply (lk_waits _ Hw).
  - intros m lm h Hm Hhm. destruct (lk_holder _ Hw m lm h Hm Hhm) as [z Hz].
    destruct (decide (h = c)) as [->|]; [rewrite lookup_insert_eq|rewrite lookup_insert_ne by done]; eauto.
Qed.

Lemma enqueue_donated : donated s -> donated_but [(c, l)] s1.
Proof using All.
  intros Hd. assert (Hpri : forall t, priority_of s1 t = priority_of s t).
  { intros t. unfold priority_of. simpl. destruct (decide (t = c)) as [->|].
    - by rewrite lookup_insert_eq, Hx.
    - by rewrite lookup_insert_ne. }
  intros t m h (z & lm & Hz & Hm & Hlm & Hhm). rewrite !Hpri. simpl in Hz, Hlm.
  destruct (decide (t = c)) as [->|Ht].
  - rewrite lookup_insert_eq in Hz. injection Hz as <-. simpl in Hm.
    apply elem_of_app in Hm as [Hm|Hm]; [|left; set_solver].
    right. destruct (Hd c m h) as [?%elem_of_nil|]; [by exists x, lm|done..].
  - rewrite lookup_insert_ne in Hz by done.
    right. destruct (Hd t m h) as [?%elem_of_nil|]; [by exists z, lm|done..].
Qed.
End enqueue.

(** C18: donation.  [lock_acquire], up to the point where it waits, always returns,
    however long the chain of holders or even if it is a cycle; only priorities below
    that of the caller have been raised, to that priority; and no thread that waits for a
    lock has a higher priority than the holder.  In particular every thread that the
    caller depends on, directly or through other locks, has at least its priority. *)
Theorem lock_acquire_donates l lk x s
    (Hw : linked s) (Hd : donated s) (Hx : threads s !! cur s = Some x)
    (Hr : t_status x = THREAD_RUNNING) (Hi : intr_context s = false)
    (Hl : locks s !! l = Some lk) (Hh : l_holder lk <> Some (cur s)) :
  wp (lock_acquire_begin l) (fun _ s' =>
    raised (t_priority x)
      (set_threads (<[cur s := set_waits (t_waits x ++ [l]) x]> (threads s)) s) s' /\
    donated s' /\ linked s' /\
    forall h, tc (blocked_by s') (cur s) h -> t_priority x <= priority_of s' h) s.
Proof.
  unfold lock_acquire_begin. apply wp_bind. eapply wp_thread_current; [done..|].
  apply wp_bind, wp_gets, wp_bind, wp_assert; [by rewrite Hi|].
  apply wp_bind. unfold lock_held_by_current_thread. apply wp_bind.
  eapply wp_load_lock; [done|]. apply wp_bind. eapply wp_thread_current; [done..|].
  apply wp_ret, wp_bind, wp_assert; [by rewrite bool_decide_false|].
  apply wp_bind. eapply wp_store_thread; [done|]. apply wp_bind, wp_gets.
  set (s1 := set_threads _ s). set (y := set_waits _ x) in s1.
  assert (Hy : threads s1 !! cur s = Some y) by (simpl; by rewrite lookup_insert_eq).
  assert (Hw1 : linked s1) by by apply enqueue_linked.
  eapply wp_mono; [apply (wp_donate _ [] l (cur s) y s1); try done|].
  - by apply enqueue_donated.
  - unfold lower. rewrite <- size_dom. apply Nat.lt_succ_r, subseteq_size. intros t. set_solver.
  - intros [] s' [R Hd']. split; [done|]. split; [done|]. split; [by eapply linked_raised|].
    intros h Hc. etransitivity; [|by apply donated_chain].
    destruct (ra_thread _ _ _ R _ _ Hy) as (q & Hq & Cq). unfold priority_of. rewrite Hq.
    simpl in *. lia.
Qed.

(** ** A concrete chain

    Thread 3, of priority 31, holds lock 0 and waits for lock 1, which thread 4
    holds, so that it has the priority 31 too.  Thread 0, of priority 63, wants lock 0. *)
Definition chain : sys :=
  let th p st ls ws := Thread 1 st p p 0 ls ws None in
  Sys {[0%nat := th 63 THREAD_RUNNING [] []; 1%nat := th 0 THREAD_BLOCKED [] [];
        3%nat := th 31 THREAD_BLOCKED [0%nat] [1%nat]; 4%nat := th 31 THREAD_READY [1%nat] []]}
    [] [] [0%nat; 1%nat] 0 (Some 1%nat) 0 0 0 3
    {[10%nat := Semaphore 0 []; 11%nat := Semaphore 0 [3%nat]]}
    {[0%nat := Lock (Some 3%nat) 31 10; 1%nat := Lock (Some 4%nat) 31 11]} ∅ false false.

(** The entries of a concrete map. *)
Ltac map_cases H :=
  repeat (apply lookup_insert_Some in H as [[<- <-]|[_ H]]);
  try (apply lookup_singleton_Some in H as [<- <-]).

Lemma chain_linked : linked chain.
Proof.
  split.
  - intros t x l Hx Hl. simpl in Hx. map_cases Hx; simpl in Hl;
      repeat (apply elem_of_cons in Hl as [->|Hl]); try (by apply elem_of_nil in Hl); by eexists.
  - intros l lk h Hl Hh. simpl in Hl. map_cases Hl; simplify_eq/=; by eexists.
Qed.

Lemma chain_donated : donated chain.
Proof.
  intros t l h (x & lk & Hx & Hm & Hl & Hh). right. simpl in Hx, Hl.
  map_cases Hx; map_cases Hl; simplify_eq/=; try (by vm_compute);
    repeat (apply elem_of_cons in Hm as [?|Hm]; [done|]); by apply elem_of_nil in Hm.
Qed.

Lemma lock_acquire_donates_witness :
  wp (lock_acquire_begin 0) (fun _ s' =>
    raised 63 (set_threads (<[0%nat := Thread 1 THREAD_RUNNING 63 63 0 [] [0%nat] None]> (threads chain)) chain) s' /\
    donated s' /\ linked s' /\
    forall h, tc (blocked_by s') 0%nat h -> 63 <= priority_of s' h) chain.
Proof.
  exact (lock_acquire_donates 0 (Lock (Some 3%nat) 31 10)
    (Thread 1 THREAD_RUNNING 63 63 0 [] [] None) chain chain_linked chain_donated
    eq_refl eq_refl eq_refl eq_refl ltac:(discriminate)).
Defined.

Example chain_raised :
  match lock_acquire_begin 0 chain with
  | Ok _ s => priority_of s 3 = 63 /\ priority_of s 4 = 63
  | Fail _ => False
  end.
Proof. by vm_compute. Qed.
