(* ===== verification/Scheduler.v ===== *)
(** * Scheduler: which thread runs ([threads/thread.c], and [sema_up] and [lock_release]
    in [threads/synch.c]).

    [queues_ok] is the invariant of the scheduler's lists.  The functions that may switch
    threads always return from such a state, keep it, and leave the processor to a thread
    of highest priority where they put the ready list in order first. *)
From S2P Require Import Prelude Thread Sync.
From Stdlib Require Import ZArith Lia Sorting.Sorted.
From stdpp Require Import prelude gmap sorting.

Open Scope Z_scope.

(** ** The invariant of the queues *)
Definition has_status (s : sys) (st : thread_status) (t : nat) : Prop :=
  exists x, threads s !! t = Some x /\ t_status x = st.

Record queues_ok (s : sys) : Prop := {
  qo_ready : forall t, t ∈ ready_list s -> has_status s THREAD_READY t;
  qo_sleeping : forall t, t ∈ sleeping_list s -> has_status s THREAD_SLEEPING t;
  qo_ready_nodup : NoDup (ready_list s);
  qo_sleeping_nodup : NoDup (sleeping_list s);
  qo_idle : exists i x, idle_thread s = Some i /\ threads s !! i = Some x /\
    t_status x <> THREAD_SLEEPING /\ t_status x <> THREAD_DYING;
}.
Definition running (s : sys) : Prop := has_status s THREAD_RUNNING (cur s).

(** From [s] to [s'] threads change nothing but their status, and none is new. *)
Definition statuses (s s' : sys) : Prop :=
  forall t y, threads s' !! t = Some y ->
    exists x, threads s !! t = Some x /\ y = set_status (t_status y) x.

(** No thread that is ready has a higher priority than the running one. *)
Definition highest (s : sys) : Prop :=
  forall t, t ∈ ready_list s -> priority_of s t <= priority_of s (cur s).

#[export] Instance statuses_preorder : PreOrder statuses.
Proof.
  split.
  - intros s t y Hy. exists y. split; [done|]. by destruct y.
  - intros s1 s2 s3 H12 H23 t z Hz. destruct (H23 t z Hz) as (y & Hy & ->).
    destruct (H12 t y Hy) as (x & Hx & ->). exists x. by destruct x.
Qed.

Lemma statuses_priority s s' t :
  statuses s s' -> is_Some (threads s' !! t) -> priority_of s' t = priority_of s t.
Proof.
  intros H [y Hy]. destruct (H t y Hy) as (x & Hx & He). unfold priority_of. rewrite Hx, Hy, He.
  by destruct x.
Qed.

Lemma statuses_status st t x s s' :
  threads s' = <[t := set_status st x]> (threads s) -> threads s !! t = Some x -> statuses s s'.
Proof.
  intros Hs Hx u y. rewrite Hs. destruct (decide (u = t)) as [->|Hu].
  - rewrite lookup_insert_eq. intros [= <-]. exists x. by destruct x.
  - rewrite lookup_insert_ne by done. intros Hy. exists y. by destruct y.
Qed.

Lemma has_status_other s s' t x st u :
  threads s' = <[t := x]> (threads s) -> u <> t -> has_status s st u -> has_status s' st u.
Proof. intros Hs Hu (y & Hy & Hst). exists y. by rewrite Hs, lookup_insert_ne. Qed.
Lemma has_status_insert s m t x : threads s = <[t := x]> m -> has_status s (t_status x) t.
Proof. intros Hs. exists x. by rewrite Hs, lookup_insert_eq. Qed.
Lemma has_status_fun s st st' t : has_status s st t -> has_status s st' t -> st = st'.
Proof. intros (x & Hx & <-) (y & Hy & <-). congruence. Qed.

(** ** Orders on threads *)
Lemma big_trans s x y z : big s y x = false -> big s z y = false -> big s z x = false.
Proof. unfold big. rewrite !Z.ltb_ge. lia. Qed.
Lemma big_asym s x y : big s x y = true -> big s y x = false.
Proof. unfold big. rewrite Z.ltb_lt, Z.ltb_ge. lia. Qed.
Lemma ordered_front s t l u : ordered (big s) (t :: l) -> u ∈ t :: l -> priority_of s u <= priority_of s t.
Proof.
  intros Ho [->|Hu]%elem_of_cons; [done|]. apply StronglySorted_inv in Ho as [_ Hf].
  rewrite Forall_forall in Hf. specialize (Hf u Hu). unfold big in Hf. by apply Z.ltb_ge in Hf.
Qed.

Section scheduler.
Context {kl : KernelLists} {kll : KernelListsLaws}.
Implicit Types (s : sys) (t u : nat).

Lemma insert_ordered s t l :
  ordered (big s) l -> ordered (big s) (list_insert_ordered (big s) t l).
Proof. apply list_insert_ordered_sorted; [apply big_trans|apply big_asym]. Qed.
Lemma sort_ordered s l : ordered (big s) (list_sort (big s) l).
Proof. apply list_sort_sorted; [apply big_trans|apply big_asym]. Qed.

Lemma elem_insert_ordered {A} (less : A -> A -> bool) x l y :
  y ∈ list_insert_ordered less x l <-> y = x \/ y ∈ l.
Proof. by rewrite list_insert_ordered_perm, elem_of_cons. Qed.
Lemma elem_sort {A} (less : A -> A -> bool) l y : y ∈ list_sort less l <-> y ∈ l.
Proof. by rewrite list_sort_perm. Qed.

(** ** [schedule] *)

(** The sleeping thread whose time has come, in front of the others. *)
Definition due s : option nat :=
  match sleeping_list s with
  | e :: _ => if wake_of s e <=? timer_ticks s then Some e else None
  | [] => None
  end.
(** The ready list after it has woken up. *)
Definition awakened s : list nat :=
  match due s with Some e => list_insert_ordered (big s) e (ready_list s) | None => ready_list s end.

(** [e] moves from the sleeping list to the ready list. *)
Lemma woken_ok s e rest x :
  queues_ok s -> sleeping_list s = e :: rest -> threads s !! e = Some x ->
  t_status x = THREAD_SLEEPING ->
  queues_ok (set_threads (<[e := set_status THREAD_READY x]> (threads s))
    (set_ready (list_insert_ordered (big s) e (ready_list s)) (set_sleeping rest s))).
Proof.
  intros [Q1 Q2 Q3 Q4 Q5] Hs Hx Hst. rewrite Hs in Q2, Q4. apply NoDup_cons in Q4 as [He Q4].
  assert (Her : e ∉ ready_list s).
  { intros Hin. by assert (Hf := has_status_fun _ _ _ _ (Q1 e Hin) (Q2 e ltac:(by left))). }
  split; simpl.
  - intros t [->|Ht]%elem_insert_ordered.
    + by apply (has_status_insert _ (threads s) e (set_status THREAD_READY x)).
    + eapply (has_status_other s); [done|by intros ->|auto].
  - intros t Ht. eapply (has_status_other s); [done|by intros ->|]. apply Q2. by right.
  - rewrite list_insert_ordered_perm. by constructor.
  - done.
  - destruct Q5 as (i & y & Hi & Hy & Hn1 & Hn2). exists i, y. split; [done|].
    rewrite lookup_insert_ne by congruence. done.
Qed.

(** Everything of the state that waking up leaves alone. *)
Record same_rest s s' : Prop := {
  sr_statuses : statuses s s';
  sr_semas : semas s' = semas s;
  sr_locks : locks s' = locks s;
  sr_conds : conds s' = conds s;
  sr_idle : idle_thread s' = idle_thread s;
  sr_initial : initial_thread s' = initial_thread s;
  sr_intr : intr_context s' = intr_context s;
  sr_yield : yield_on_return s' = yield_on_return s;
  sr_ticks : timer_ticks s' = timer_ticks s;
}.
#[local] Instance same_rest_preorder : PreOrder same_rest.
Proof.
  split; [by split|]. intros s1 s2 s3 [] []. split; try congruence. by etransitivity.
Qed.

Lemma same_rest_ready s l : same_rest s (set_ready l s).
Proof. split; try done. exact (reflexivity (R := statuses) s). Qed.

Record woken s s' : Prop := {
  wo_ok : queues_ok s';
  wo_rest : same_rest s s';
  wo_ready : ready_list s' = awakened s;
  wo_sleeping : sleeping_list s' = match due s with Some _ => tail (sleeping_list s) | None => sleeping_list s end;
  wo_cur : cur s' = cur s;
  wo_status : forall t st, has_status s st t ->
    has_status s' st t \/ (st = THREAD_SLEEPING /\ has_status s' THREAD_READY t);
}.

Lemma wp_wake_front s : queues_ok s -> wp wake_front (fun _ s' => woken s s') s.
Proof.
  intros Q. unfold wake_front. apply wp_bind, wp_get.
  assert (Hno : due s = None -> woken s s).
  { intros Hd. split; unfold awakened; rewrite ?Hd; auto. reflexivity. }
  unfold due, wake_of in Hno. destruct (sleeping_list s) as [|e rest] eqn:Hs; [by apply wp_ret, Hno|].
  destruct (qo_sleeping _ Q e) as (x & Hx & Hst); [rewrite Hs; by left|].
  rewrite Hx in Hno. apply wp_bind. eapply wp_load_thread; [done|].
  apply wp_when; intros Ht; [|apply Hno; by rewrite Ht].
  apply wp_bind, wp_modify, wp_bind, wp_modify. eapply wp_store_thread; [done|].
  assert (Hdue : due s = Some e) by (unfold due, wake_of; by rewrite Hs, Hx, Ht).
  split; unfold awakened; rewrite ?Hdue; try done.
  - by apply (woken_ok s).
  - split; try done. by apply (statuses_status THREAD_READY e x).
  - simpl. by rewrite Hs.
  - intros t st Hh. destruct (decide (t = e)) as [->|Hte].
    + right. split; [|by apply (has_status_insert _ (threads s) e (set_status THREAD_READY x))].
      eapply has_status_fun; [done|]. by exists x.
    + left. by eapply (has_status_other s).
Qed.

(** The switch to [n], which waits in no queue. *)
Record switched n s s' : Prop := {
  sw_ok : queues_ok s';
  sw_running : running s';
  sw_rest : same_rest s s';
  sw_ready : ready_list s' = ready_list s;
  sw_sleeping : sleeping_list s' = sleeping_list s;
  sw_cur : cur s' = n;
  sw_status : forall t st, has_status s st t -> t <> n -> st <> THREAD_DYING -> has_status s' st t;
}.

Lemma switched_run n y s :
  queues_ok s -> threads s !! n = Some y -> n ∉ ready_list s -> t_status y <> THREAD_SLEEPING ->
  t_status y <> THREAD_DYING ->
  switched n s (set_thread_ticks 0
    (set_threads (<[n := set_status THREAD_RUNNING y]> (threads s)) (set_cur n s))).
Proof.
  intros [Q1 Q2 Q3 Q4 Q5] Hy Hn Hs1 Hs2.
  assert (Hrun : forall s', threads s' = <[n := set_status THREAD_RUNNING y]> (threads s) ->
    has_status s' THREAD_RUNNING n).
  { intros s' Ht. by apply (has_status_insert s' (threads s) n (set_status THREAD_RUNNING y)). }
  assert (Hother : forall s' t st, threads s' = <[n := set_status THREAD_RUNNING y]> (threads s) ->
    t <> n -> has_status s st t -> has_status s' st t) by (intros; by eapply has_status_other).
  split; simpl; try done.
  - split; simpl; try done.
    + intros t Ht. apply Hother; [done|by intros ->|auto].
    + intros t Ht. apply Hother; [done| |auto]. intros ->.
      destruct (Q2 n Ht) as (y' & Hy' & Hst). rewrite Hy in Hy'. injection Hy' as <-. done.
    + destruct Q5 as (i & x & Hi & Hx & H1 & H2). exists i.
      destruct (decide (i = n)) as [->|]; [rewrite lookup_insert_eq|rewrite lookup_insert_ne by done]; eauto.
  - by apply Hrun.
  - split; try done. by apply (statuses_status THREAD_RUNNING n y).
  - intros t st Hst Ht _. by apply Hother.
Qed.

(** The dying thread [p] is gone. *)
Lemma switched_destroy n p x s s' :
  switched n s s' -> threads s' !! p = Some x -> t_status x = THREAD_DYING -> p <> n ->
  switched n s (set_threads (delete p (threads s')) s').
Proof.
  intros [[Q1 Q2 Q3 Q4 Q5] W2 W3 W4 W5 W6 W7] Hx Hd Hp.
  assert (Hkeep : forall t st, st <> THREAD_DYING -> has_status s' st t ->
    has_status (set_threads (delete p (threads s')) s') st t).
  { intros t st Hst (y & Hy & He). exists y. split; [|done]. simpl.
    rewrite lookup_delete_ne; [done|]. intros ->. congruence. }
  split; try done.
  - split; simpl; try done; [auto..|].
    destruct Q5 as (i & y & Hi & Hy & H1 & H2). exists i, y. split; [done|].
    rewrite lookup_delete_ne; [done|]. intros ->. congruence.
  - by apply Hkeep.
  - destruct W3. split; try done. intros t y Hy. simpl in Hy.
    apply lookup_delete_Some in Hy as [_ Hy]. auto.
  - intros t st Hst Hn Hdy. apply Hkeep; auto.
Qed.

Lemma wp_switch n c x y s :
  queues_ok s -> threads s !! n = Some y -> n ∉ ready_list s -> t_status y <> THREAD_SLEEPING ->
  t_status y <> THREAD_DYING -> threads s !! c = Some x ->
  wp (modify (set_cur n);; thread_schedule_tail (if Nat.eqb c n then None else Some c))
    (fun _ s' => switched n s s') s.
Proof.
  intros Q Hy Hn Hs1 Hs2 Hx. apply wp_bind, wp_modify. unfold thread_schedule_tail.
  apply wp_bind, wp_gets, wp_bind. eapply wp_store_thread; [done|]. apply wp_bind, wp_modify.
  pose proof (switched_run n y s Q Hy Hn Hs1 Hs2) as W. simpl in *.
  destruct (Nat.eqb_spec c n) as [->|Hcn]; [by apply wp_ret|].
  set (s1 := set_thread_ticks _ _) in *.
  assert (Hx1 : threads s1 !! c = Some x) by (simpl; by rewrite lookup_insert_ne).
  apply wp_bind. eapply wp_load_thread; [done|]. apply wp_bind, wp_gets, wp_when; intros Hd; [|done].
  apply andb_true_iff in Hd as [Hd _]. apply bool_decide_eq_true in Hd.
  apply wp_bind, wp_assert; [by apply negb_true_iff, Nat.eqb_neq|].
  apply wp_modify. by apply (switched_destroy n c x s s1).
Qed.

(** The thread [schedule] switches to. *)
Definition chosen s : option nat :=
  match awakened s with t :: _ => Some t | [] => idle_thread s end.

Record scheduled s s' : Prop := {
  sc_ok : queues_ok s';
  sc_running : running s';
  sc_rest : same_rest s s';
  sc_ready : ready_list s' = tail (awakened s);
  sc_sleeping : sleeping_list s' = match due s with Some _ => tail (sleeping_list s) | None => sleeping_list s end;
  sc_cur : Some (cur s') = chosen s;
  sc_status : forall t st, has_status s st t -> t <> cur s' -> st <> THREAD_DYING ->
    has_status s' st t \/ (st = THREAD_SLEEPING /\ has_status s' THREAD_READY t);
}.

Lemma wp_schedule x s :
  queues_ok s -> threads s !! cur s = Some x -> t_status x <> THREAD_RUNNING ->
  wp schedule (fun _ s' => scheduled s s') s.
Proof.
  intros Q Hx Hst. unfold schedule. apply wp_bind, wp_gets, wp_bind.
  eapply wp_mono; [by apply wp_wake_front|]. intros [] s1 W. pose proof (wo_ok _ _ W) as Q1.
  assert (Hx1 : exists x1, threads s1 !! cur s = Some x1 /\ t_status x1 <> THREAD_RUNNING).
  { destruct (wo_status _ _ W (cur s) (t_status x)) as [(x1 & Hx1 & E)|[_ (x1 & Hx1 & E)]];
      [by exists x|..]; exists x1; rewrite E; auto. }
  destruct Hx1 as (x1 & Hx1 & Hn1).
  apply wp_bind. eapply (wp_mono _ (fun o s2 => o = chosen s /\
    s2 = set_ready (tail (awakened s)) s1)).
  { unfold next_thread_to_run, chosen. apply wp_bind, wp_gets. rewrite (wo_ready _ _ W).
    destruct (awakened s) as [|t r] eqn:Ha.
    - apply wp_gets. rewrite (sr_idle _ _ (wo_rest _ _ W)). split; [done|].
      pose proof (wo_ready _ _ W) as Hr. rewrite Ha in Hr. destruct s1. simpl in *. by subst.
    - apply wp_bind, wp_modify, wp_ret. done. }
  intros o s2 [-> ->]. apply wp_bind. eapply wp_load_thread; [exact Hx1|].
  apply wp_bind, wp_assert; [by apply negb_true_iff, bool_decide_eq_false|].
  assert (Hc : exists n y, chosen s = Some n /\ threads s1 !! n = Some y /\
    t_status y <> THREAD_SLEEPING /\ t_status y <> THREAD_DYING /\ n ∉ tail (awakened s)).
  { unfold chosen. rewrite <- (wo_ready _ _ W). pose proof (qo_ready_nodup _ Q1) as Hnd.
    pose proof (qo_ready _ Q1) as Hr. destruct (ready_list s1) as [|n r].
    - destruct (qo_idle _ Q1) as (i & y & Hi & Hy & H1 & H2). rewrite (sr_idle _ _ (wo_rest _ _ W)) in Hi.
      exists i, y. repeat split; auto. simpl. by intros ?%elem_of_nil.
    - apply NoDup_cons in Hnd as [Hn _]. destruct (Hr n) as (y & Hy & Hs); [by left|].
      exists n, y. rewrite Hs. done. }
  destruct Hc as (n & y & Hch & Hy & Hs1 & Hs2 & Hn). rewrite Hch. apply wp_bind, wp_ret.
  eapply wp_mono; [apply (wp_switch n (cur s) x1 y); try done|].
  - destruct Q1 as [A1 A2 A3 A4 A5]. rewrite <- (wo_ready _ _ W).
    split; simpl; try done.
    + intros t Ht. apply A1. destruct (ready_list s1); [by apply elem_of_nil in Ht|by right].
    + destruct (ready_list s1); [done|]. by apply NoDup_cons in A3 as [_ ?].
  - intros [] s' [W1 W2 W3 W4 W5 W6 W7]. split; try done.
    + etransitivity; [exact (wo_rest _ _ W)|]. destruct W3. by split.
    + rewrite W5. by rewrite <- (wo_sleeping _ _ W).
    + by rewrite W6, Hch.
    + intros t st Ht Hne Hd. destruct (wo_status _ _ W t st Ht) as [H1|[-> H1]].
      * left. apply W7; [done|congruence|done].
      * right. split; [done|]. apply W7; [done|congruence|done].
Qed.

Lemma awakened_ordered s : ordered (big s) (ready_list s) -> ordered (big s) (awakened s).
Proof. unfold awakened. destruct (due s); [apply insert_ordered|done]. Qed.

Lemma scheduled_highest s s' : scheduled s s' -> ordered (big s) (ready_list s) -> highest s'.
Proof.
  intros W Ho%awakened_ordered t Ht. pose proof (sc_cur _ _ W) as Hc. unfold chosen in Hc.
  destruct (qo_ready _ (sc_ok _ _ W) t Ht) as (x & Hx & _).
  destruct (sc_running _ _ W) as (y & Hy & _).
  rewrite !(statuses_priority s s') by (eauto; apply (sr_statuses _ _ (sc_rest _ _ W))).
  rewrite (sc_ready _ _ W) in Ht. destruct (awakened s) as [|n r]; [by apply elem_of_nil in Ht|].
  injection Hc as ->. apply (ordered_front s n r); [done|by right].
Qed.

Lemma scheduled_ready s s' t :
  scheduled s s' -> t ∈ ready_list s -> t ∈ ready_list s' \/ t = cur s'.
Proof.
  intros W Ht. assert (Ha : t ∈ awakened s).
  { unfold awakened. destruct (due s); [|done]. apply elem_insert_ordered. by right. }
  rewrite (sc_ready _ _ W). pose proof (sc_cur _ _ W) as Hc. unfold chosen in Hc.
  destruct (awakened s) as [|n r]; [by apply elem_of_nil in Ha|]. injection Hc as ->.
  apply elem_of_cons in Ha as [->|Ha]; [by right|by left].
Qed.

Lemma scheduled_alive s s' t x :
  scheduled s s' -> threads s !! t = Some x -> t_status x <> THREAD_DYING -> is_Some (threads s' !! t).
Proof.
  intros W Hx Hd. destruct (decide (t = cur s')) as [->|Hne].
  - destruct (sc_running _ _ W) as (y & Hy & _). eauto.
  - destruct (sc_status _ _ W t (t_status x)) as [(y & Hy & _)|[_ (y & Hy & _)]];
      [by exists x|done|done|eauto..].
Qed.

(** ** Yielding *)

(** What holds after a call that may give up the processor. *)
Record yielded s s' : Prop := {
  yl_ok : queues_ok s';
  yl_running : running s';
  yl_rest : same_rest s s';
  yl_highest : highest s';
  yl_ready : forall t, t ∈ ready_list s -> t ∈ ready_list s' \/ t = cur s';
  yl_alive : forall t x, threads s !! t = Some x -> t_status x <> THREAD_DYING ->
    is_Some (threads s' !! t);
}.

(** The running thread back in the ready list. *)
Lemma ready_again s x :
  queues_ok s -> threads s !! cur s = Some x -> t_status x = THREAD_RUNNING ->
  forall b : bool, b = negb (bool_decide (idle_thread s = Some (cur s))) ->
  queues_ok (set_threads (<[cur s := set_status THREAD_READY x]> (threads s))
    (if b then set_ready (list_insert_ordered (big s) (cur s) (ready_list s)) s else s)).
Proof.
  intros [Q1 Q2 Q3 Q4 Q5] Hx Hr b Hb.
  assert (Hnr : forall st t, has_status s st t -> st <> THREAD_RUNNING -> t <> cur s).
  { intros st t (y & Hy & <-) Hne ->. congruence. }
  assert (Hkeep : forall s' st t, threads s' = <[cur s := set_status THREAD_READY x]> (threads s) ->
    has_status s st t -> st <> THREAD_RUNNING -> has_status s' st t).
  { intros s' st t Hs Ht Hne. eapply has_status_other; eauto. }
  assert (Hidle : exists i y, idle_thread s = Some i /\
    <[cur s := set_status THREAD_READY x]> (threads s) !! i = Some y /\
    t_status y <> THREAD_SLEEPING /\ t_status y <> THREAD_DYING).
  { destruct Q5 as (i & y & Hi & Hy & H1 & H2). exists i. destruct (decide (i = cur s)) as [->|].
    - rewrite lookup_insert_eq. by exists (set_status THREAD_READY x).
    - rewrite lookup_insert_ne by done. eauto. }
  destruct b; split; try done.
  - intros t. simpl. intros [->|Ht]%elem_insert_ordered; [|by eapply Hkeep; [..|apply Q1|]].
    by apply (has_status_insert _ (threads s) (cur s) (set_status THREAD_READY x)).
  - intros t Ht. by eapply Hkeep; [..|apply Q2|].
  - simpl. rewrite list_insert_ordered_perm. constructor; [|done].
    intros Hin. by apply (Hnr _ _ (Q1 _ Hin)).
  - intros t Ht. by eapply Hkeep; [..|apply Q1|].
  - intros t Ht. by eapply Hkeep; [..|apply Q2|].
Qed.

Lemma big_status s s' t x st :
  threads s !! t = Some x -> threads s' = <[t := set_status st x]> (threads s) ->
  forall u v, big s' u v = big s u v.
Proof.
  intros Hx Hs. assert (H : forall u, priority_of s' u = priority_of s u).
  { intros u. unfold priority_of. rewrite Hs. destruct (decide (u = t)) as [->|].
    - by rewrite lookup_insert_eq, Hx.
    - by rewrite lookup_insert_ne. }
  intros u v. unfold big. by rewrite !H.
Qed.

Lemma ordered_ext {A} (f g : A -> A -> bool) l :
  (forall x y, f x y = g x y) -> ordered f l -> ordered g l.
Proof.
  intros H. unfold ordered. induction 1 as [|x l Hs IH Hf]; constructor; [done|].
  eapply Forall_impl; [exact Hf|]. intros y. simpl. by rewrite H.
Qed.

Lemma wp_thread_yield s :
  queues_ok s -> running s -> intr_context s = false -> ordered (big s) (ready_list s) ->
  wp thread_yield (fun _ s' => yielded s s') s.
Proof.
  intros Q (x & Hx & Hr) Hi Ho. unfold thread_yield. apply wp_bind. eapply wp_thread_current; [done..|].
  apply wp_bind, wp_gets, wp_bind, wp_assert; [by rewrite Hi|]. apply wp_bind, wp_gets, wp_bind.
  pose proof (ready_again s x Q Hx Hr _ eq_refl) as Q1.
  eapply (wp_mono _ (fun _ s1 => s1 = if negb (bool_decide (idle_thread s = Some (cur s)))
    then set_ready (list_insert_ordered (big s) (cur s) (ready_list s)) s else s)).
  { unfold ready_insert, when. by destruct (negb _). }
  intros [] s1 Hs1. rewrite <- Hs1 in Q1.
  assert (Hth : threads s1 = threads s /\ cur s1 = cur s /\ ordered (big s) (ready_list s1) /\
    same_rest s s1).
  { subst s1. destruct (negb _); (split; [done|split; [done|split]]).
    - by apply insert_ordered.
    - apply same_rest_ready.
    - done.
    - done. }
  destruct Hth as (Ht & Hc & Ho1 & Hrest). apply wp_bind.
  eapply wp_store_thread; [by rewrite Ht|]. rewrite Ht.
  set (s2 := set_threads _ s1) in *.
  assert (Hx2 : threads s2 !! cur s2 = Some (set_status THREAD_READY x)).
  { simpl. by rewrite Hc, lookup_insert_eq. }
  eapply wp_mono; [by apply (wp_schedule (set_status THREAD_READY x) s2)|].
  intros [] s' W. split; try apply W.
  - assert (same_rest s s2) by (split; try apply Hrest; by apply (statuses_status THREAD_READY (cur s) x)).
    etransitivity; [done|apply W].
  - apply (scheduled_highest s2); [done|]. eapply ordered_ext; [|exact Ho1].
    intros u v. symmetry. by eapply big_status.
  - intros u Hu. apply (scheduled_ready s2); [done|]. simpl. subst s1.
    destruct (negb _); [|done]. apply elem_insert_ordered. by right.
  - intros u y Hu Hd.
    destruct (decide (u = cur s)) as [->|Hne].
    + apply (scheduled_alive s2 s' (cur s) (set_status THREAD_READY x) W); [|done].
      by rewrite <- Hc.
    + apply (scheduled_alive s2 s' u y W); [|done]. simpl. by rewrite lookup_insert_ne.
Qed.


Lemma queues_ok_perm s l : l ≡ₚ ready_list s -> queues_ok s -> queues_ok (set_ready l s).
Proof.
  intros Hl [Q1 Q2 Q3 Q4 Q5]. split; simpl; try done.
  - intros t Ht. apply Q1. by rewrite <- Hl.
  - by rewrite Hl.
Qed.

(** [if_yield] in a thread. *)
Lemma wp_if_yield s :
  queues_ok s -> running s -> intr_context s = false -> wp if_yield (fun _ s' => yielded s s') s.
Proof.
  intros Q Hr Hi. unfold if_yield. apply wp_bind, wp_modify, wp_bind, wp_get.
  set (s1 := set_ready _ s).
  assert (Q1 : queues_ok s1) by (apply queues_ok_perm; [apply list_sort_perm|done]).
  assert (Hrest : same_rest s s1) by apply same_rest_ready.
  assert (Ho : ordered (big s1) (ready_list s1)) by exact (sort_ordered s (ready_list s)).
  assert (Hin : forall t, t ∈ ready_list s -> t ∈ ready_list s1) by (intros t; apply elem_sort).
  simpl ready_list. destruct (list_sort (big s) (ready_list s)) as [|f r] eqn:Hs.
  { apply wp_ret. split; try done; [|by eauto].
    intros t Ht. simpl in Ht. by apply elem_of_nil in Ht. }
  destruct Hr as (x & Hx & Hst). apply wp_bind. eapply wp_thread_current; [done..|]. cbn zeta.
  simpl intr_context. rewrite Hi. apply wp_when; intros Hlt.
  - eapply wp_mono; [apply (wp_thread_yield s1)|]; try done.
    + by exists x.
    + intros [] s' [Y1 Y2 Y3 Y4 Y5 Y6]. split; try done; [by etransitivity|auto].
  - apply Z.ltb_ge in Hlt. split; try done; [by exists x| |by eauto]. intros t Ht. simpl in Ht.
    transitivity (priority_of s f); [|done]. by apply (ordered_front s f r).
Qed.

(** [if_yield] in an interrupt handler asks for a yield on return instead. *)
Lemma wp_if_yield_interrupt s :
  queues_ok s -> running s -> intr_context s = true ->
  wp if_yield (fun _ s' => queues_ok s' /\ running s' /\ cur s' = cur s /\
    statuses s s' /\ (highest s' \/ yield_on_return s' = true)) s.
Proof.
  intros Q Hr Hi. unfold if_yield. apply wp_bind, wp_modify, wp_bind, wp_get.
  set (s1 := set_ready _ s).
  assert (Q1 : queues_ok s1) by (apply queues_ok_perm; [apply list_sort_perm|done]).
  assert (Hst : statuses s s1) by exact (reflexivity (R := statuses) s).
  assert (Ho : ordered (big s1) (ready_list s1)) by exact (sort_ordered s (ready_list s)).
  simpl ready_list. destruct (list_sort (big s) (ready_list s)) as [|f r] eqn:Hs.
  { apply wp_ret. split_and!; try done. left. intros t Ht. simpl in Ht. by apply elem_of_nil in Ht. }
  destruct Hr as (x & Hx & Hxr). apply wp_bind. eapply wp_thread_current; [done..|]. cbn zeta.
  simpl intr_context. rewrite Hi.
  assert (Hfields : forall s2, threads s2 = threads s1 -> ready_list s2 = ready_list s1 ->
    sleeping_list s2 = sleeping_list s1 -> idle_thread s2 = idle_thread s1 -> cur s2 = cur s1 ->
    queues_ok s2 /\ running s2 /\ cur s2 = cur s /\ statuses s s2).
  { intros s2 E1 E2 E3 E4 E5. unfold running, statuses, has_status. rewrite E5, E1.
    split_and!; [|by exists x|done|exact Hst].
    destruct Q1 as [A1 A2 A3 A4 A5]. unfold has_status in *.
    split; unfold has_status; rewrite ?E1, ?E2, ?E3, ?E4; done. }
  destruct (priority_of s1 (cur s1) <? priority_of s1 f) eqn:Hlt.
  - apply wp_modify. destruct (Hfields (set_yield true s1)) as (?&?&?&?); try done. split_and!; auto.
  - apply wp_bind, wp_modify. set (s2 := set_thread_ticks _ s1). apply wp_when; intros _.
    + apply wp_modify. destruct (Hfields (set_yield true s2)) as (?&?&?&?); try done.
      split_and!; auto.
    + destruct (Hfields s2) as (?&?&?&?); try done. split_and!; try done. left. intros t Ht. simpl in Ht. apply Z.ltb_ge in Hlt.
      transitivity (priority_of s f); [|done]. by apply (ordered_front s f r).
Qed.


(** ** [sema_up] *)

(** [t], blocked, becomes ready. *)
Lemma unblocked_ok s t x :
  queues_ok s -> threads s !! t = Some x -> t_status x = THREAD_BLOCKED ->
  queues_ok (set_threads (<[t := set_status THREAD_READY x]> (threads s))
    (set_ready (list_insert_ordered (big s) t (ready_list s)) s)).
Proof.
  intros [Q1 Q2 Q3 Q4 Q5] Hx Hst.
  assert (Hne : forall st u, has_status s st u -> st <> THREAD_BLOCKED -> u <> t).
  { intros st u (y & Hy & <-) Hne ->. congruence. }
  split; simpl; try done.
  - intros u [->|Hu]%elem_insert_ordered.
    + by apply (has_status_insert _ (threads s) t (set_status THREAD_READY x)).
    + eapply (has_status_other s); [done| |auto]. by eapply Hne; [apply Q1|].
  - intros u Hu. eapply (has_status_other s); [done| |auto]. by eapply Hne; [apply Q2|].
  - rewrite list_insert_ordered_perm. constructor; [|done].
    intros Hin. by apply (Hne _ _ (Q1 _ Hin)).
  - destruct Q5 as (i & y & Hi & Hy & H1 & H2). exists i. destruct (decide (i = t)) as [->|].
    + rewrite lookup_insert_eq. by exists (set_status THREAD_READY x).
    + rewrite lookup_insert_ne by done. eauto.
Qed.

Lemma wp_thread_unblock s t :
  queues_ok s -> has_status s THREAD_BLOCKED t ->
  wp (thread_unblock t) (fun _ s' => queues_ok s' /\ same_rest s s' /\ cur s' = cur s /\
    t ∈ ready_list s' /\ (forall st u, has_status s st u -> u <> t -> has_status s' st u) /\
    has_status s' THREAD_READY t) s.
Proof.
  intros Q (x & Hx & Hst). unfold thread_unblock. apply wp_bind. eapply wp_load_thread; [done|].
  apply wp_bind, wp_assert; [by apply bool_decide_eq_true|]. apply wp_bind, wp_modify.
  eapply wp_store_thread; [done|]. split_and!.
  - by apply (unblocked_ok s).
  - split; try done. by apply (statuses_status THREAD_READY t x).
  - done.
  - simpl. apply elem_insert_ordered. by left.
  - intros st u Hu Hne. by eapply (has_status_other s).
  - by apply (has_status_insert _ (threads s) t (set_status THREAD_READY x)).
Qed.

(** Threads that are not dying stay. *)
Definition alive s s' : Prop :=
  forall t x, threads s !! t = Some x -> t_status x <> THREAD_DYING ->
    exists y, threads s' !! t = Some y /\ t_status y <> THREAD_DYING.

(** The waiters of a semaphore are blocked threads. *)
Definition waiters_ok s (ws : list nat) : Prop := forall t, t ∈ ws -> has_status s THREAD_BLOCKED t.

(** The waiter that [sema_up] makes ready, and the others. *)
Definition wakes s (ws rest : list nat) (s' : sys) : Prop :=
  match ws with
  | [] => rest = []
  | _ => exists t, t :: rest ≡ₚ ws /\ (forall u, u ∈ rest -> priority_of s u <= priority_of s t) /\
      (t ∈ ready_list s' \/ t = cur s')
  end.

Lemma queues_ok_semas s m : queues_ok s -> queues_ok (set_semas m s).
Proof. by intros []. Qed.

Lemma wp_sema_up k v ws s :
  queues_ok s -> running s -> intr_context s = false ->
  semas s !! k = Some (Semaphore v ws) -> waiters_ok s ws ->
  wp (sema_up k) (fun _ s' => exists rest s1,
    semas s1 = <[k := Semaphore (u32 (v + 1)) rest]> (semas s) /\ statuses s s1 /\
    locks s1 = locks s /\ alive s s1 /\ yielded s1 s' /\ wakes s ws rest s') s.
Proof.
  intros Q Hr Hi Hk Hw. unfold sema_up. apply wp_bind. eapply wp_load_sema; [done|].
  apply wp_bind, wp_get, wp_bind. simpl s_waiters. simpl s_value.
  eapply (wp_mono _ (fun _ s1 => exists rest, semas s1 !! k = Some (Semaphore v rest) /\
    <[k := Semaphore (u32 (v + 1)) rest]> (semas s1) = <[k := Semaphore (u32 (v + 1)) rest]> (semas s) /\
    queues_ok s1 /\ running s1 /\ statuses s s1 /\ locks s1 = locks s /\ intr_context s1 = false /\
    alive s s1 /\ (forall s', (forall t, t ∈ ready_list s1 -> t ∈ ready_list s' \/ t = cur s') -> wakes s ws rest s'))).
  - pose proof (list_sort_perm (big s) ws) as Hp. pose proof (sort_ordered s ws) as Ho.
    destruct (list_sort (big s) ws) as [|t rest].
    { apply Permutation_nil_l in Hp as <-. apply wp_ret. exists []. split_and!; try done. intros t x. eauto. }
    apply wp_bind. eapply wp_store_sema; [done|].
    eapply wp_mono; [apply wp_thread_unblock; [by apply queues_ok_semas|]|].
    { destruct (Hw t) as (x & Hx); [rewrite <- Hp; by left|]. by exists x. }
    intros [] s1 (Q1 & R1 & C1 & T1 & K1 & U1). exists rest. rewrite (sr_semas _ _ R1). simpl.
    rewrite lookup_insert_eq, insert_insert_eq. split_and!; try done.
    + unfold running. rewrite C1. apply K1; [done|]. intros <-.
      assert (Hb : has_status s THREAD_BLOCKED (cur s)) by (apply Hw; rewrite <- Hp; by left).
      by pose proof (has_status_fun _ _ _ _ Hr Hb).
    + apply R1.
    + apply R1.
    + by rewrite (sr_intr _ _ R1).
    + intros u x Hx Hd. destruct (decide (u = t)) as [->|Hne].
      * destruct U1 as (y & Hy & Hs). exists y. by rewrite Hs.
      * destruct (K1 (t_status x) u) as (y & Hy & Hs); [by exists x|done|]. exists y. by rewrite Hs.
    + intros s' Hs'. unfold wakes. destruct ws as [|w ws']; [by apply Permutation_nil_r in Hp|].
      exists t. split; [done|]. split; [|auto].
      intros u Hu. apply (ordered_front s t rest); [done|by right].
  - intros [] s1 (rest & H1 & H2 & H3 & H4 & H5 & H6 & H7 & Hal & H8).
    apply wp_bind. eapply wp_load_sema; [done|]. apply wp_bind. eapply wp_store_sema; [done|].
    eapply wp_mono; [apply wp_if_yield; [by apply queues_ok_semas|done|done]|].
    intros [] s' Y. exists rest. exists (set_semas (<[k := Semaphore (u32 (v + 1)) rest]> (semas s1)) s1). split; [exact H2|]. split_and!; [done..|exact Y|].
    apply H8, Y.
Qed.


(** ** Priorities of the running thread *)

(** Same queues, and the same threads with the same status. *)
Record same_queues s s' : Prop := {
  sq_ready : ready_list s' = ready_list s;
  sq_sleeping : sleeping_list s' = sleeping_list s;
  sq_idle : idle_thread s' = idle_thread s;
  sq_cur : cur s' = cur s;
  sq_status : forall st t, has_status s st t -> has_status s' st t;
}.

Lemma same_queues_ok s s' : same_queues s s' -> queues_ok s -> queues_ok s'.
Proof.
  intros [E1 E2 E3 E4 E5] [Q1 Q2 Q3 Q4 (i & x & Hi & Hx & Q5)]. split; rewrite ?E1, ?E2, ?E3; auto.
  destruct (E5 (t_status x) i) as (y & Hy & Hs); [by exists x|]. exists i, y. by rewrite Hs.
Qed.

Lemma same_queues_running s s' : same_queues s s' -> running s -> running s'.
Proof. intros E. unfold running. rewrite (sq_cur _ _ E). apply E. Qed.

Lemma same_queues_update s s' c x y :
  threads s !! c = Some x -> threads s' = <[c := y]> (threads s) -> t_status y = t_status x ->
  ready_list s' = ready_list s -> sleeping_list s' = sleeping_list s ->
  idle_thread s' = idle_thread s -> cur s' = cur s -> same_queues s s'.
Proof.
  intros Hx Ht Hst H1 H2 H3 H4. split; try done. intros st t Hs. destruct (decide (t = c)) as [->|Hne].
  - assert (st = t_status x) as -> by (eapply has_status_fun; [done|by exists x]).
    rewrite <- Hst. by eapply has_status_insert.
  - by eapply has_status_other.
Qed.

(** The highest of [p] and the priorities of the locks [ls]. *)
Definition highest_of s (p : Z) (ls : list nat) : Z := foldr (fun l q => Z.max (lock_priority_of s l) q) p ls.

Lemma highest_of_perm s p ls ls' : ls ≡ₚ ls' -> highest_of s p ls = highest_of s p ls'.
Proof.
  intros H. unfold highest_of. induction H; simpl in *; lia.
Qed.

Lemma highest_of_below s p b ls :
  (forall n, n ∈ ls -> lock_priority_of s n <= b) -> p <= b -> highest_of s p ls <= b.
Proof.
  intros H Hp. unfold highest_of. induction ls as [|n ls IH]; simpl; [done|].
  assert (lock_priority_of s n <= b) by (apply H; by left).
  specialize (IH (fun k Hk => H k ltac:(by right))). lia.
Qed.
Lemma highest_of_base s p ls : p <= highest_of s p ls.
Proof. unfold highest_of. induction ls; simpl; lia. Qed.

(** The priority [lock_release] computes. *)
Lemma front_is_highest s p ls :
  match list_sort (lock_big s) ls with
  | [] => p
  | m :: _ => if lock_priority_of s m <=? p then p else lock_priority_of s m
  end = highest_of s p ls.
Proof.
  rewrite <- (highest_of_perm s p _ _ (list_sort_perm (lock_big s) ls)).
  assert (Ho : ordered (lock_big s) (list_sort (lock_big s) ls)).
  { apply list_sort_sorted; unfold lock_big; [intros x y z|intros x y];
      rewrite ?Z.ltb_ge, ?Z.ltb_lt; lia. }
  destruct (list_sort (lock_big s) ls) as [|m r]; [done|].
  apply StronglySorted_inv in Ho as [_ Hf]. rewrite Forall_forall in Hf.
  assert (Hb : forall n, n ∈ r -> lock_priority_of s n <= lock_priority_of s m).
  { intros n Hn. specialize (Hf n Hn). by apply Z.ltb_ge in Hf. }
  pose proof (highest_of_base s p r) as H1.
  pose proof (highest_of_below s p (Z.max p (lock_priority_of s m)) r) as H2.
  specialize (H2 ltac:(intros n Hn; specialize (Hb n Hn); lia) ltac:(lia)).
  unfold highest_of in *. simpl. destruct (Z.leb_spec (lock_priority_of s m) p); lia.
Qed.


Lemma wp_held l lk x s (Q : bool -> sys -> Prop) :
  locks s !! l = Some lk -> threads s !! cur s = Some x -> t_status x = THREAD_RUNNING ->
  Q (bool_decide (l_holder lk = Some (cur s))) s -> wp (lock_held_by_current_thread l) Q s.
Proof.
  intros Hl Hx Hr HQ. unfold lock_held_by_current_thread. apply wp_bind.
  eapply wp_load_lock; [done|]. apply wp_bind. by eapply wp_thread_current.
Qed.

(** The locks the running thread keeps when it releases [l]. *)
Definition kept l x : list nat := List.filter (fun m => negb (Nat.eqb m l)) (t_locks x).

(** [lock_release] up to [sema_up]. *)
Lemma wp_release l lk x v ws s (Q : unit -> sys -> Prop) :
  queues_ok s -> threads s !! cur s = Some x -> t_status x = THREAD_RUNNING ->
  intr_context s = false -> locks s !! l = Some lk -> l_holder lk = Some (cur s) ->
  l ∈ t_locks x -> semas s !! l_sema lk = Some (Semaphore v ws) -> waiters_ok s ws ->
  (forall s' s2 y rest,
     threads s2 !! cur s = Some y -> t_priority y = highest_of s (t_original x) (kept l x) ->
     t_original y = t_original x -> t_locks y ≡ₚ kept l x ->
     (forall t, t <> cur s -> priority_of s2 t = priority_of s t) ->
     locks s' = <[l := Lock None (l_priority lk) (l_sema lk)]> (locks s) ->
     semas s' = <[l_sema lk := Semaphore (u32 (v + 1)) rest]> (semas s) ->
     statuses s2 s' -> is_Some (threads s' !! cur s) -> queues_ok s' -> running s' -> highest s' ->
     wakes s2 ws rest s' -> Q tt s') ->
  wp (lock_release l) Q s.
Proof.
  intros Qs Hx Hr Hi Hl Hh Hin Hk Hw HQ. unfold lock_release. apply wp_bind.
  eapply wp_held; [done..|]. rewrite bool_decide_true by done. apply wp_bind, wp_assert; [done|].
  apply wp_bind, wp_gets, wp_bind. eapply wp_load_thread; [done|]. apply wp_bind.
  rewrite bool_decide_true by done. apply wp_ret, wp_bind, wp_get.
  fold (kept l x). rewrite front_is_highest. cbn zeta. apply wp_bind.
  eapply wp_store_thread; [done|]. apply wp_bind.
  eapply wp_store_thread; [simpl; by rewrite lookup_insert_eq|]. simpl threads. rewrite insert_insert_eq.
  apply wp_bind. eapply wp_load_lock; [done|]. apply wp_bind. eapply wp_store_lock; [done|].
  set (y := set_priority _ _). set (s1 := set_lock_map _ _).
  assert (Hsq : same_queues s s1) by (by apply (same_queues_update s s1 (cur s) x y)).
  assert (Hy : threads s1 !! cur s = Some y) by (simpl; by rewrite lookup_insert_eq).
  eapply wp_mono; [apply (wp_sema_up (l_sema lk) v ws s1)|].
  - by eapply same_queues_ok.
  - eapply same_queues_running; [done|by exists x].
  - done.
  - done.
  - intros t Ht. apply Hsq. auto.
  - intros [] s' (rest & s2 & Hs2 & Hst & Hlk & Hal & Y & Hwk).
    destruct (yl_running _ _ Y) as (z & Hz & Hzr). pose proof (yl_rest _ _ Y) as R.
    assert (Hst' : statuses s1 s') by (etransitivity; [exact Hst|apply R]).
    apply (HQ s' s1 y rest); try done.
    + apply list_sort_perm.
    + intros t Ht. unfold priority_of. simpl. by rewrite lookup_insert_ne.
    + by rewrite (sr_locks _ _ R), Hlk.
    + by rewrite (sr_semas _ _ R), Hs2.
    + destruct (Hal _ _ Hy) as (y2 & Hy2 & Hd2); [simpl; by rewrite Hr|]. by eapply (yl_alive _ _ Y).
    + apply Y.
    + apply Y.
    + apply Y.
Qed.
End scheduler.

Section claims.
Context {kl : KernelLists} {kll : KernelListsLaws}.

(** C25: [schedule].  Called for a thread that is no longer running, with the ready list in
    order of priority, it returns with the queues well formed; it has moved at most one
    sleeping thread to the ready list, only if its time had come; the running thread is
    the front of that list, or the idle thread if it is empty, has left it, and no ready
    thread has a higher priority. *)
Theorem schedule_runs_front x s
    (Q : queues_ok s) (Hx : threads s !! cur s = Some x) (Hst : t_status x <> THREAD_RUNNING)
    (Ho : ordered (big s) (ready_list s)) :
  wp schedule (fun _ s' =>
    queues_ok s' /\ running s' /\ highest s' /\ statuses s s' /\
    ready_list s' = tail (awakened s) /\
    Some (cur s') = match awakened s with t :: _ => Some t | [] => idle_thread s end /\
    match sleeping_list s with
    | e :: rest => (wake_of s e <= timer_ticks s /\ sleeping_list s' = rest) \/
        (timer_ticks s < wake_of s e /\ sleeping_list s' = e :: rest)
    | [] => sleeping_list s' = []
    end) s.
Proof.
  eapply wp_mono; [by apply (wp_schedule x)|]. intros [] s' W. split_and!; try apply W.
  - by eapply scheduled_highest.
  - pose proof (sc_sleeping _ _ W) as Hs. unfold due in Hs. destruct (sleeping_list s) as [|e rest]; [done|].
    destruct (Z.leb_spec (wake_of s e) (timer_ticks s)); auto.
Qed.

(** preemption.  [if_yield] returns with the queues well formed.  In a thread, no
    ready thread has a higher priority than the running one afterwards; in an interrupt
    handler the running thread stays, but if a ready thread has a higher priority a
    yield is requested for the end of the interrupt. *)
Theorem if_yield_preempts s (Q : queues_ok s) (Hr : running s) :
  wp if_yield (fun _ s' => queues_ok s' /\ running s' /\ statuses s s' /\
    if intr_context s then cur s' = cur s /\ (highest s' \/ yield_on_return s' = true)
    else highest s') s.
Proof.
  destruct (intr_context s) eqn:Hi.
  - eapply wp_mono; [by apply wp_if_yield_interrupt|]. intros [] s' (?&?&?&?&?). done.
  - eapply wp_mono; [by apply wp_if_yield|]. intros [] s' Y. by split_and!; try apply Y.
Qed.

(** [sema_up] makes the waiter of highest priority ready, adds one to the value, and
    leaves the processor to a thread of highest priority. *)
Theorem sema_up_wakes_highest k v ws s
    (Q : queues_ok s) (Hr : running s) (Hi : intr_context s = false)
    (Hk : semas s !! k = Some (Semaphore v ws)) (Hw : waiters_ok s ws) :
  wp (sema_up k) (fun _ s' => exists rest,
    semas s' = <[k := Semaphore (u32 (v + 1)) rest]> (semas s) /\
    match ws with
    | [] => rest = []
    | _ => exists t, t :: rest ≡ₚ ws /\
        (forall u, u ∈ rest -> priority_of s u <= priority_of s t) /\
        (t ∈ ready_list s' \/ t = cur s')
    end /\ locks s' = locks s /\ queues_ok s' /\ running s' /\ highest s') s.
Proof.
  eapply wp_mono; [by apply (wp_sema_up k v ws)|].
  intros [] s' (rest & s1 & Hs1 & Hst & Hlk & Hal & Y & Hwk). exists rest.
  pose proof (yl_rest _ _ Y) as R. rewrite (sr_semas _ _ R), (sr_locks _ _ R).
  split_and!; try done; apply Y.
Qed.

(** the end of a donation.  [lock_release] by the holder always returns, frees the
    lock, wakes the waiter of highest priority, and sets the priority of the releasing
    thread to the highest of its own priority and those of the locks it still holds. *)
Theorem lock_release_restores_priority l lk x v ws s
    (Q : queues_ok s) (Hx : threads s !! cur s = Some x) (Hr : t_status x = THREAD_RUNNING)
    (Hi : intr_context s = false) (Hl : locks s !! l = Some lk) (Hh : l_holder lk = Some (cur s))
    (Hin : l ∈ t_locks x) (Hk : semas s !! l_sema lk = Some (Semaphore v ws))
    (Hw : waiters_ok s ws) :
  wp (lock_release l) (fun _ s' =>
    (exists y, threads s' !! cur s = Some y /\
       t_priority y = foldr (fun m q => Z.max (lock_priority_of s m) q) (t_original x)
                        (List.filter (fun m => negb (Nat.eqb m l)) (t_locks x)) /\
       t_original y = t_original x) /\
    locks s' = <[l := Lock None (l_priority lk) (l_sema lk)]> (locks s) /\
    (exists rest, semas s' = <[l_sema lk := Semaphore (u32 (v + 1)) rest]> (semas s) /\
       wakes s ws rest s') /\
    queues_ok s' /\ running s' /\ highest s') s.
Proof.
  eapply (wp_release l lk x v ws); try done.
  intros s' s2 y rest Hy Hp Ho Hlks Hsame Hls Hss Hst [z Hz] Q' R' H' Hwk.
  destruct (Hst _ _ Hz) as (y' & Hy' & Hez). rewrite Hy in Hy'. injection Hy' as <-.
  split_and!; try done.
  - exists z. split; [done|]. rewrite Hez. by destruct y.
  - exists rest. split; [done|]. unfold wakes in *. destruct ws as [|w ws']; [done|].
    destruct Hwk as (t & Hperm & Hmax & Hready). exists t. split; [done|]. split; [|done].
    assert (Hne : forall u, u ∈ t :: rest -> u <> cur s).
    { intros u Hu ->. rewrite Hperm in Hu. destruct (Hw _ Hu) as (b & Hb & Hbs). congruence. }
    intros u Hu. rewrite <- !Hsame; [auto|apply Hne; by left|apply Hne; by right].
Qed.

(** [thread_set_priority] always sets the base priority.  The effective one follows,
    unless the thread holds locks, runs with a priority other than its own, and the new
    priority is lower: then it is kept.  Afterwards no ready thread has a higher priority
    than the running one. *)
Theorem thread_set_priority_keeps_donation new x s
    (Q : queues_ok s) (Hx : threads s !! cur s = Some x) (Hr : t_status x = THREAD_RUNNING)
    (Hi : intr_context s = false) :
  wp (thread_set_priority new) (fun _ s' =>
    (exists y, threads s' !! cur s = Some y /\ t_original y = new /\
       (t_priority y = new \/
        (t_priority y = t_priority x /\ new < t_priority x /\ t_locks x <> [] /\
         t_priority x <> t_original x))) /\
    queues_ok s' /\ running s' /\ highest s') s.
Proof.
  unfold thread_set_priority. apply wp_bind. eapply wp_thread_current; [done..|].
  apply wp_bind. eapply wp_load_thread; [done|]. apply wp_bind.
  eapply (wp_mono _ (fun _ s1 => exists q,
    s1 = set_threads (<[cur s := set_priority q x]> (threads s)) s /\
    (q = new \/ (q = t_priority x /\ new < t_priority x /\ t_locks x <> [] /\
       t_priority x <> t_original x)))).
  { destruct ((new <? t_priority x) && negb (bool_decide (t_locks x = []))) eqn:Hc;
      [apply wp_when; intros He|]; try (eapply wp_store_thread; [done|]; exists new; auto).
    apply andb_true_iff in Hc as [Hlt%Z.ltb_lt Hl%negb_true_iff]. apply bool_decide_eq_false in Hl.
    apply Z.eqb_neq in He. exists (t_priority x). split; [|auto].
    replace (set_priority (t_priority x) x) with x by by destruct x. rewrite insert_id by done.
    by destruct s. }
  intros [] s1 (q & -> & Hq). apply wp_bind.
  eapply wp_store_thread; [simpl; by rewrite lookup_insert_eq|]. simpl threads. rewrite insert_insert_eq.
  set (y := set_original new _). set (s2 := set_threads _ _).
  assert (Hsq : same_queues s s2) by (by apply (same_queues_update s s2 (cur s) x y)).
  eapply wp_mono; [apply (wp_if_yield s2)|].
  - by eapply same_queues_ok.
  - eapply same_queues_running; [done|by exists x].
  - done.
  - intros [] s' Y. split_and!; try apply Y.
    destruct (yl_alive _ _ Y (cur s) y) as [z Hz]; [simpl; by rewrite lookup_insert_eq|simpl; by rewrite Hr|].
    exists z. split; [done|]. destruct (sr_statuses _ _ (yl_rest _ _ Y) _ _ Hz) as (y' & Hy' & ->).
    simpl in Hy'. rewrite lookup_insert_eq in Hy'. injection Hy' as <-. done.
Qed.
End claims.

(** ** Concrete states *)
#[local] Existing Instance kernel_lists.
#[local] Existing Instance kernel_lists_laws.

(** Thread 0 has just blocked, 3 and 4 are ready, and the time of 5 has come. *)
Definition switching : sys :=
  let th st p w := Thread 1 st p p w [] [] None in
  Sys {[0%nat := th THREAD_BLOCKED 31 0; 1%nat := th THREAD_BLOCKED 0 0;
        3%nat := th THREAD_READY 40 0; 4%nat := th THREAD_READY 31 0; 5%nat := th THREAD_SLEEPING 50 7]}
    [3%nat; 4%nat] [5%nat] [0%nat; 1%nat; 3%nat; 4%nat; 5%nat] 0 (Some 1%nat) 0 10 0 6
    ∅ ∅ ∅ false false.

(** The idle thread and the members of two short lists decide [queues_ok]. *)
Ltac queues_concrete :=
  split; simpl;
    [ intros ? Ht; repeat (apply elem_of_cons in Ht as [->|Ht]; [by eexists|]); by apply elem_of_nil in Ht
    | intros ? Ht; repeat (apply elem_of_cons in Ht as [->|Ht]; [by eexists|]); by apply elem_of_nil in Ht
    | apply (bool_decide_eq_true_1 _); by vm_compute
    | apply (bool_decide_eq_true_1 _); by vm_compute
    | eexists _, _; by split_and! ].

Lemma switching_ok : queues_ok switching.
Proof. queues_concrete. Qed.

Lemma schedule_runs_front_witness :
  ordered (big switching) (ready_list switching) /\
  wp schedule (fun _ s' => cur s' = 5%nat /\ highest s' /\ ready_list s' = [3%nat; 4%nat]) switching.
Proof.
  assert (Ho : ordered (big switching) (ready_list switching)) by (repeat constructor).
  split; [exact Ho|].
  eapply wp_mono; [apply (schedule_runs_front (Thread 1 THREAD_BLOCKED 31 31 0 [] [] None) switching
    switching_ok eq_refl ltac:(discriminate) Ho)|].
  intros [] s' (_ & _ & Hh & _ & Hl & Hc & _). split_and!; [|done|exact Hl].
  by injection Hc.
Defined.

(** The main thread runs with priority 31; thread 3, of priority 40, is ready. *)
Definition outranked (intr : bool) : sys :=
  let th st p := Thread 1 st p p 0 [] [] None in
  Sys {[0%nat := th THREAD_RUNNING 31; 1%nat := th THREAD_BLOCKED 0; 3%nat := th THREAD_READY 40;
        4%nat := th THREAD_READY 45]}
    [3%nat; 4%nat] [] [0%nat; 1%nat; 3%nat; 4%nat] 0 (Some 1%nat) 0 10 0 6 ∅ ∅ ∅ intr false.

Lemma outranked_ok i : queues_ok (outranked i).
Proof. queues_concrete. Qed.

Lemma if_yield_preempts_witness :
  wp if_yield (fun _ s' => highest s') (outranked false) /\
  match if_yield (outranked false) with Ok _ s' => cur s' = 4%nat | Fail _ => False end.
Proof.
  split; [|by vm_compute].
  eapply wp_mono; [apply (if_yield_preempts (outranked false) (outranked_ok false)); by eexists|].
  intros [] s' (_ & _ & _ & Hh). exact Hh.
Defined.

Lemma contended_ok : queues_ok contended.
Proof. queues_concrete. Qed.
Lemma contended_waiters : waiters_ok contended [2%nat].
Proof. intros t ->%list_elem_of_singleton. by eexists. Qed.

Lemma sema_up_wakes_highest_witness :
  wp (sema_up 10) (fun _ s' => exists rest,
    semas s' = <[10%nat := Semaphore 1 rest]> (semas contended) /\
    (exists t, t :: rest ≡ₚ [2%nat] /\
      (forall u, u ∈ rest -> priority_of contended u <= priority_of contended t) /\
      (t ∈ ready_list s' \/ t = cur s')) /\
    locks s' = locks contended /\ queues_ok s' /\ running s' /\ highest s') contended.
Proof.
  exact (sema_up_wakes_highest 10 0 [2%nat] contended contended_ok ltac:(by eexists) eq_refl eq_refl
    contended_waiters).
Defined.

Lemma lock_release_restores_priority_witness :
  exists x, threads contended !! cur contended = Some x /\ t_priority x = 40 /\
  wp (lock_release 0) (fun _ s' => exists y, threads s' !! 0%nat = Some y /\ t_priority y = 31) contended.
Proof.
  eexists. split; [by vm_compute|]. split; [done|].
  eapply wp_mono; [eapply (lock_release_restores_priority 0 _ _ 0 [2%nat] contended contended_ok);
    try (by vm_compute); [by left|exact contended_waiters]|].
  intros [] s' ((y & Hy & Hp & _) & _). by exists y.
Defined.

Lemma thread_set_priority_keeps_donation_witness :
  wp (thread_set_priority 20) (fun _ s' => exists y, threads s' !! 0%nat = Some y /\
    t_original y = 20 /\ (t_priority y = 20 \/ t_priority y = 40)) contended /\
  match thread_set_priority 20 contended with
  | Ok _ s' => priority_of s' 0 = 40 | Fail _ => False end.
Proof.
  split; [|by vm_compute].
  eapply wp_mono; [eapply (thread_set_priority_keeps_donation 20 _ contended contended_ok); by vm_compute|].
  intros [] s' ((y & Hy & Ho & Hp) & _). exists y. split_and!; [done|done|].
  destruct Hp as [->|[-> _]]; [by left|by right].
Defined.
