(* ===== verification/Boot.v ===== *)
(** * Boot: the start of the thread system ([thread_init], [thread_start] and [idle] of
    [threads/thread.c], and the initialisation of the objects of [threads/synch.c]).

    The theorems about threads are for states that satisfy the invariants [queues_ok] and
    [sync_inv]; [boot_reaches_invariants] shows that the kernel gets there from memory that
    holds no thread and no semaphore. *)
From S2P Require Import Prelude Thread Sync Scheduler.
From Stdlib Require Import ZArith Lia.
From stdpp Require Import prelude gmap sorting.

Open Scope Z_scope.

Definition PRI_DEFAULT : Z := 31.

Section boot.
Context {kl : KernelLists}.
Abbreviation K := (M sys).

(** ** Initialisation of semaphores, locks and conditions *)
Definition sema_init (k : nat) (value : Z) : K unit :=
  modify (fun s => set_semas (<[k := Semaphore value []]> (semas s)) s).

(** [lock_init] leaves the priority of the lock as it is in memory. *)
Definition lock_init (l : nat) : K unit :=
  store_lock l (fun lk => Lock None (l_priority lk) (l_sema lk));;
  lk ← load_lock l;
  sema_init (l_sema lk) 1.

Definition cond_init (c : nat) : K unit := modify (fun s => set_conds (<[c := []]> (conds s)) s).

(** ** The first thread *)
Definition set_initial (t : nat) (s : sys) : sys :=
  Sys (threads s) (ready_list s) (sleeping_list s) (all_list s) (cur s) (idle_thread s) t (timer_ticks s)
    (thread_ticks s) (next_tid s) (semas s) (locks s) (conds s) (intr_context s) (yield_on_return s).

(** [tid_lock] and [sleep_sema]: the addresses of the two static objects.
    [frame_table_init] belongs to the frame table. *)
Definition thread_init (tid_lock sleep_sema : nat) : K unit :=
  lock_init tid_lock;;
  modify (set_ready []);;
  modify (set_all []);;
  modify (set_sleeping []);;
  sema_init sleep_sema 1;;
  t ← gets cur;
  modify (set_initial t);;
  init_thread t PRI_DEFAULT;;
  store_thread t (set_status THREAD_RUNNING);;
  tid ← allocate_tid;
  store_thread t (fun x => Thread tid (t_status x) (t_priority x) (t_original x) (t_wake x)
    (t_locks x) (t_waits x) (t_op x)).

(** ** The idle thread *)

(** [thread_start] creates the idle thread and waits for it on the semaphore at
    [idle_started]; [page] is the result of [palloc_get_page] in [thread_create]. *)
Definition thread_start (page : option nat) (idle_started : nat) : K unit :=
  sema_init idle_started 0;;
  thread_create page PRI_MIN;;
  sema_down idle_started.

(** [idle] up to its loop, and one turn of the loop. *)
Definition idle (idle_started : nat) : K unit :=
  c ← thread_current;
  modify (set_idle (Some c));;
  sema_up idle_started.
Definition idle_turn : K unit := thread_block.

(** ** Other small functions *)
Definition thread_tid : K Z := c ← thread_current; x ← load_thread c; mret (t_tid x).
(** [func] is called for the threads of [all_list], which it does not change. *)
Definition thread_foreach (func : nat -> K unit) : K unit := l ← gets all_list; for_each l func.
End boot.

(** ** The boot *)
Section boot_rules.
Context {kl : KernelLists} {kll : KernelListsLaws}.

Lemma insert_one {A} (less : A -> A -> bool) x : list_insert_ordered less x [] = [x].
Proof. apply Permutation_singleton_r. by rewrite list_insert_ordered_perm. Qed.
Lemma sort_one {A} (less : A -> A -> bool) x : list_sort less [x] = [x].
Proof. apply Permutation_singleton_r. by rewrite list_sort_perm. Qed.
Lemma sort_none {A} (less : A -> A -> bool) : list_sort less [] = [].
Proof. apply Permutation_nil_r. by rewrite list_sort_perm. Qed.

(** Memory at the start: no thread and no semaphore, one lock, [l]. *)
Record blank s l lk : Prop := {
  bk_threads : threads s = ∅;
  bk_semas : semas s = ∅;
  bk_locks : locks s = {[l := lk]};
  bk_conds : conds s = ∅;
  bk_tid : next_tid s = 1;
  bk_intr : intr_context s = false;
}.

Definition main_thread (st : thread_status) (o : option pending) : thread :=
  Thread 1 st PRI_DEFAULT PRI_DEFAULT 0 [] [] o.
Definition idle_thread_of (st : thread_status) : thread := Thread 2 st PRI_MIN PRI_MIN 0 [] [] None.

(** After [thread_init]. *)
Definition initialised s l lk ss : sys :=
  Sys {[cur s := main_thread THREAD_RUNNING None]} [] [] [cur s] (cur s) (idle_thread s) (cur s) (timer_ticks s)
    (thread_ticks s) 2 (<[ss := Semaphore 1 []]> {[l_sema lk := Semaphore 1 []]})
    {[l := Lock None (l_priority lk) (l_sema lk)]} ∅ false (yield_on_return s).

Ltac lookups := simpl; repeat (rewrite lookup_insert_eq || rewrite lookup_singleton_eq || rewrite lookup_insert_ne by congruence).
Ltac look := lookups; reflexivity.
Ltac go1 := lazymatch goal with
  | |- wp (mbind _ _) _ _ => apply wp_bind
  | |- wp (gets _) _ _ => apply wp_gets
  | |- wp get _ _ => apply wp_get
  | |- wp (modify _) _ _ => apply wp_modify
  | |- wp (mret _) _ _ => apply wp_ret
  | |- wp (assert _) _ _ => apply wp_assert; [reflexivity|]
  | |- wp (load_thread _) _ _ => eapply wp_load_thread; [look|]
  | |- wp (store_thread _ _) _ _ => eapply wp_store_thread; [look|]
  | |- wp (load_lock _) _ _ => eapply wp_load_lock; [look|]
  | |- wp (store_lock _ _) _ _ => eapply wp_store_lock; [look|]
  | |- wp (load_sema _) _ _ => eapply wp_load_sema; [look|]
  | |- wp (store_sema _ _) _ _ => eapply wp_store_sema; [look|]
  | |- wp (add_int _ _) _ _ => apply wp_add_int; [unfold INT_MIN, INT_MAX; simpl; lia|]
  | |- wp thread_current _ _ => eapply wp_thread_current; [look|reflexivity|]
  end.
Ltac go := repeat (go1; cbn beta iota zeta).

Lemma sys_eq (s s' : sys) :
  threads s = threads s' -> semas s = semas s' -> locks s = locks s' -> conds s = conds s' ->
  ready_list s = ready_list s' /\ sleeping_list s = sleeping_list s' /\ all_list s = all_list s' /\
  cur s = cur s' /\ idle_thread s = idle_thread s' /\ initial_thread s = initial_thread s' /\
  timer_ticks s = timer_ticks s' /\ thread_ticks s = thread_ticks s' /\ next_tid s = next_tid s' /\
  intr_context s = intr_context s' /\ yield_on_return s = yield_on_return s' -> s = s'.
Proof. destruct s, s'. simpl. intros -> -> -> -> (-> & -> & -> & -> & -> & -> & -> & -> & -> & -> & ->). done. Qed.

Ltac maps := apply map_eq; intros i; rewrite ?lookup_insert, ?lookup_singleton;
  repeat (rewrite ?lookup_insert, ?lookup_singleton; case_decide; simplify_eq; try reflexivity).

Lemma wp_thread_init s l lk ss (Q : unit -> sys -> Prop) :
  blank s l lk -> ss <> l_sema lk -> Q tt (initialised s l lk ss) -> wp (thread_init l ss) Q s.
Proof.
  intros [B1 B2 B3 B4 B5 B6] Hss HQ. destruct s as [th rl sl al c it ini now tk nt sm lo co ic yr]. simpl in *. subst.
  unfold thread_init, lock_init, sema_init, init_thread, allocate_tid.
  go. revert HQ. unfold initialised, singletonM, map_singleton. simpl. by rewrite !insert_insert_eq.
Qed.

(** After [thread_start]: the main thread waits for the idle thread [t], which runs. *)
Definition started s l lk ss (t k : nat) : sys :=
  Sys (<[t := idle_thread_of THREAD_RUNNING]> {[cur s := main_thread THREAD_BLOCKED (Some (In_sema_down k))]})
    [] [] [cur s; t] t (idle_thread s) (cur s) (timer_ticks s) 0 3
    (<[k := Semaphore 0 [cur s]]> (<[ss := Semaphore 1 []]> {[l_sema lk := Semaphore 1 []]}))
    {[l := Lock None (l_priority lk) (l_sema lk)]} ∅ false (yield_on_return s).

Lemma wp_thread_start s l lk ss t k (Q : unit -> sys -> Prop) :
  cur s <> t -> k <> ss -> k <> l_sema lk ->
  Q tt (started s l lk ss t k) -> wp (thread_start (Some t) k) Q (initialised s l lk ss).
Proof.
  intros Hne Hk1 Hk2 HQ. destruct s as [th rl sl al c it ini now tk nt sm lo co ic yr]. simpl in *.
  unfold thread_start, sema_init, thread_create, init_thread, allocate_tid, thread_unblock, ready_insert, if_yield.
  unfold initialised. simpl. go. simpl. rewrite !insert_insert_eq, insert_one, sort_one. cbv iota. go.
  unfold priority_of. lookups. simpl. apply wp_when; [done|intros _]. go.
  unfold sema_down, begin_op, run_op, sema_down_pass, thread_block. go. simpl. rewrite ?insert_one. go.
  unfold schedule, wake_front. go. simpl. go. unfold next_thread_to_run. go. simpl. go.
  apply Nat.eqb_neq in Hne as Hct. rewrite Hct.
  unfold thread_schedule_tail. go. simpl. apply wp_when; [done|intros _]. go. apply wp_when; [done|intros _].
  match goal with |- Q tt ?x => replace x with (started (Sys th rl sl al c it ini now tk nt sm lo co ic yr) l lk ss t k); [done|] end.
  apply sys_eq; simpl; rewrite ?insert_one; [maps|maps|done..].
Qed.

(** After the first turn of the idle thread: it has given the processor back. *)
Definition idled s l lk ss (t k : nat) : sys :=
  Sys (<[t := idle_thread_of THREAD_READY]> {[cur s := main_thread THREAD_RUNNING (Some (In_sema_down k))]})
    [] [] [cur s; t] (cur s) (Some t) (cur s) (timer_ticks s) 0 3
    (<[k := Semaphore 1 []]> (<[ss := Semaphore 1 []]> {[l_sema lk := Semaphore 1 []]}))
    {[l := Lock None (l_priority lk) (l_sema lk)]} ∅ false (yield_on_return s).

Lemma wp_idle s l lk ss t k (Q : unit -> sys -> Prop) :
  t <> cur s -> k <> ss -> k <> l_sema lk ->
  Q tt (idled s l lk ss t k) -> wp (idle k) Q (started s l lk ss t k).
Proof.
  intros Ht Hk1 Hk2 HQ. destruct s as [th rl sl al c it ini now tk nt sm lo co ic yr]. simpl in *.
  unfold idle, started. simpl. go. unfold sema_up. go. simpl. rewrite sort_one. cbv iota.
  unfold thread_unblock, ready_insert. go. simpl. rewrite insert_one. unfold if_yield. go. simpl. rewrite sort_one. go.
  unfold priority_of. lookups. simpl. apply wp_when; [intros _|done]. unfold thread_yield. go.
  simpl. rewrite bool_decide_true by done. apply wp_when; [done|intros _]. go.
  unfold schedule, wake_front. go. simpl. go. unfold next_thread_to_run. go. simpl. go.
  apply Nat.eqb_neq in Ht as Hct. rewrite Hct.
  unfold thread_schedule_tail. go. simpl. apply wp_when; [done|intros _].
  match goal with |- Q tt ?x => replace x with (idled (Sys th rl sl al c it ini now tk nt sm lo co ic yr) l lk ss t k); [done|] end.
  apply sys_eq; simpl; rewrite ?insert_one; [maps|maps|done..].
Qed.

(** The main thread goes on: the boot of the threads is complete. *)
Definition rejoined s l lk ss (t k : nat) : sys :=
  Sys (<[t := idle_thread_of THREAD_READY]> {[cur s := main_thread THREAD_RUNNING None]})
    [] [] [cur s; t] (cur s) (Some t) (cur s) (timer_ticks s) 0 3
    (<[k := Semaphore 0 []]> (<[ss := Semaphore 1 []]> {[l_sema lk := Semaphore 1 []]}))
    {[l := Lock None (l_priority lk) (l_sema lk)]} ∅ false (yield_on_return s).

Lemma wp_resume_main s l lk ss t k (Q : unit -> sys -> Prop) :
  t <> cur s -> k <> ss -> k <> l_sema lk ->
  Q tt (rejoined s l lk ss t k) -> wp resume Q (idled s l lk ss t k).
Proof.
  intros Ht Hk1 Hk2 HQ. destruct s as [th rl sl al c it ini now tk nt sm lo co ic yr]. simpl in *.
  unfold resume, idled. simpl. go. simpl. unfold sema_down_pass. go. simpl. go. apply wp_when; [intros _|done]. go.
  match goal with |- Q tt ?x => replace x with (rejoined (Sys th rl sl al c it ini now tk nt sm lo co ic yr) l lk ss t k); [done|] end.
  apply sys_eq; simpl; rewrite ?insert_one; [maps|maps|done..].
Qed.

(** The whole start: [thread_init] and [thread_start] by the main thread, the first turn of
    the idle thread, and the end of [thread_start]. *)
Definition boot_threads (l ss t k : nat) : M sys unit :=
  thread_init l ss;; thread_start (Some t) k;; idle k;; resume.

Lemma wp_boot_threads s l lk ss t k (Hb : blank s l lk)
    (Ht : cur s <> t) (Hss : ss <> l_sema lk) (Hk1 : k <> ss) (Hk2 : k <> l_sema lk) :
  wp (boot_threads l ss t k) (fun _ s' =>
    queues_ok s' /\ running s' /\ highest s' /\ sync_inv {[l := l_sema lk]} None s' /\
    cur s' = cur s /\ idle_thread s' = Some t /\ all_list s' = [cur s; t]) s.
Proof.
  apply wp_bind, wp_thread_init with lk; [done..|]. apply wp_bind, wp_thread_start; [done..|].
  apply wp_bind, wp_idle; [done..|]. apply wp_resume_main; [done..|].
  split; [|split; [|split; [|split; [|done]]]].
  - split; simpl; try by intros u ?%elem_of_nil.
    + apply NoDup_nil_2.
    + apply NoDup_nil_2.
    + exists t, (idle_thread_of THREAD_READY). by rewrite lookup_insert_eq.
  - exists (main_thread THREAD_RUNNING None). simpl. by rewrite lookup_insert_ne, lookup_singleton_eq by done.
  - by intros u ?%elem_of_nil.
  - split; simpl.
    + by rewrite map_fmap_singleton.
    + intros m x [<- <-]%lookup_singleton_Some. simpl.
      by rewrite !lookup_insert_ne, lookup_singleton_eq by done.
    + done.
    + intros u x o [[<- <-]|[_ [<- <-]%lookup_singleton_Some]]%lookup_insert_Some; done.
    + done.
Qed.

(** C15: The thread system starts.  From memory without threads and semaphores the start
    comes to its end, with the two switches between the main thread and the idle thread:
    the main thread runs, no other thread is ready, the idle thread is known, and the state
    satisfies the invariants of the scheduler's queues and of the locks. *)
Theorem boot_reaches_invariants s l lk ss t k (Hb : blank s l lk)
    (Ht : cur s <> t) (Hss : ss <> l_sema lk) (Hk1 : k <> ss) (Hk2 : k <> l_sema lk) :
  wp (boot_threads l ss t k) (fun _ s' =>
    queues_ok s' /\ running s' /\ highest s' /\ sync_inv {[l := l_sema lk]} None s' /\
    cur s' = cur s /\ idle_thread s' = Some t /\ all_list s' = [cur s; t]) s.
Proof. by apply wp_boot_threads. Qed.

Ltac fgo := apply fails_rest; unfold sema_init; go; simpl; go; simpl.

(** Without memory for the idle thread [thread_start] waits for a thread that is not there:
    the scheduler finds no thread to run. *)
Theorem boot_without_idle s l lk ss k (Hb : blank s l lk) (Hss : ss <> l_sema lk)
    (Hi : idle_thread s = None) : (thread_init l ss;; thread_start None k) s = Fail Panic.
Proof.
  apply fails_rest, wp_thread_init with lk; [done..|].
  destruct s as [th rl sl al c it ini now tk nt sm lo co ic yr]. simpl in *. subst it. unfold initialised, thread_start. simpl.
  fgo. unfold thread_create. fgo. unfold sema_down, begin_op. do 2 fgo.
  unfold run_op. apply fails_head.
  unfold sema_down_pass. do 3 fgo. do 3 fgo. apply fails_head. unfold thread_block. do 4 fgo.
  unfold schedule. fgo. unfold wake_front. fgo. unfold next_thread_to_run. fgo. do 2 fgo. by apply fails_head.
Qed.
End boot_rules.

(** ** A concrete start *)
Definition dark : sys := Sys ∅ [] [] [] 7 None 0 0 0 1 ∅ {[0%nat := Lock (Some 9%nat) 5 10]} ∅ false false.
Lemma boot_reaches_invariants_witness :
  wp (boot_threads (kl := kernel_lists) 0 20 8 30) (fun _ s' =>
    queues_ok s' /\ sync_inv {[0%nat := 10%nat]} None s' /\ idle_thread s' = Some 8%nat) dark.
Proof.
  eapply wp_mono.
  - refine (boot_reaches_invariants (kl := kernel_lists) (kll := kernel_lists_laws) dark 0 (Lock (Some 9%nat) 5 10) 20 8 30 _ _ _ _ _);
      [split; reflexivity|by vm_compute..].
  - intros u s' (H1 & _ & _ & H2 & _ & H3 & _). split; [exact H1|split; [exact H2|exact H3]].
Defined.
