(* ===== verification/Pagedir.v ===== *)
(** * Pagedir: page directories ([userprog/pagedir.c]).

    A page directory is a page of 1024 words that lead to page tables, pages of 1024
    entries.  The address and entry formats ([threads/vaddr.h], [threads/pte.h]) and the
    page allocator ([threads/palloc.h]) are not part of the sources: they are parameters
    with their documented laws.  The theorems say that the directory is a map from user
    pages to entries. *)
From S2P Require Import Prelude.
From Stdlib Require Import ZArith Lia.
From stdpp Require Import prelude gmap.

Open Scope Z_scope.

(** ** Pages of memory *)
Inductive page :=
| Table (ws : list Z)      (* a page directory or a page table: its words *)
| Data (bs : list Z).      (* any other page: its bytes *)

Record vmem := VMem {
  pages : gmap Z page;     (* the pages that are allocated, by address *)
  init_page_dir : Z;
  init_ram_pages : Z;
  cr3 : Z;                 (* the page directory base register *)
  cr3_loads : list Z;      (* the values stored into it, the last one first *)
}.
Definition set_pages x m := VMem x (init_page_dir m) (init_ram_pages m) (cr3 m) (cr3_loads m).
Definition load_cr3 x m := VMem (pages m) (init_page_dir m) (init_ram_pages m) x (x :: cr3_loads m).

Definition PGSIZE : Z := 4096.
Definition zero_table : page := Table (replicate 1024 0).

(** ** Interface: addresses, entries and the page allocator *)
Class Paging := {
  PHYS_BASE : Z;
  is_user_vaddr : Z -> bool;
  pd_no : Z -> nat;
  pt_no : Z -> nat;
  pg_ofs : Z -> Z;
  pg_round_down : Z -> Z;
  vtop : Z -> Z;
  ptov : Z -> Z;
  PTSHIFT : Z;
  bit_P : Z; bit_W : Z; bit_A : Z; bit_D : Z;      (* the positions of the flags *)
  pde_create : Z -> Z;
  pde_get_pt : Z -> Z;
  pte_create_user : Z -> bool -> Z;
  pte_get_page : Z -> Z;
  is_kernel_vaddr : Z -> bool;
  (** The allocator has a kernel pool and a user pool ([true]); [palloc_next] is the page
      that it hands out next, [stale] what a page that is not zeroed holds. *)
  PAL_ZERO : Z; PAL_USER : Z;                      (* flags of an allocation *)
  in_pool : bool -> Z -> bool;
  palloc_next : bool -> gmap Z page -> option Z;
  stale : gmap Z page -> Z -> list Z;
}.

Section flags.
Context {pg : Paging}.
Definition PTE_P : Z := 2 ^ bit_P.
Definition PTE_W : Z := 2 ^ bit_W.
Definition PTE_A : Z := 2 ^ bit_A.
Definition PTE_D : Z := 2 ^ bit_D.
(** [(e & flag) != 0], [e | flag] and [e & ~flag]. *)
Definition has (flag e : Z) : bool := negb (Z.land e flag =? 0).
Definition with_flag (flag e : Z) : Z := Z.lor e flag.
Definition without_flag (flag e : Z) : Z := Z.land e (Z.lnot flag).
End flags.

Class PagingLaws {pg : Paging} := {
  user_pd v : is_user_vaddr v = true -> (pd_no v < pd_no PHYS_BASE)%nat;
  pd_base : (pd_no PHYS_BASE <= 1024)%nat;
  user_below v : 0 <= v -> is_user_vaddr v = true <-> v < PHYS_BASE;
  base_page : pg_ofs PHYS_BASE = 0 /\ PGSIZE <= PHYS_BASE < 2 ^ 32;
  round_down v : v = pg_round_down v + pg_ofs v /\ pg_ofs (pg_round_down v) = 0 /\ 0 <= pg_ofs v < PGSIZE;
  pg_ofs_mod v : 0 <= v -> pg_ofs v = v mod PGSIZE;
  pt_range v : (pt_no v < 1024)%nat;
  (** Addresses of the same page. *)
  page_offset u o : pg_ofs u = 0 -> 0 <= o < PGSIZE ->
    pd_no (u + o) = pd_no u /\ pt_no (u + o) = pt_no u /\ pg_ofs (u + o) = o /\
    is_user_vaddr (u + o) = is_user_vaddr u;
  page_inj u v : pg_ofs u = 0 -> pg_ofs v = 0 -> is_user_vaddr u = true -> is_user_vaddr v = true ->
    pd_no u = pd_no v -> pt_no u = pt_no v -> u = v;
  ptov_vtop v : ptov (vtop v) = v;
  flag_bits : NoDup [bit_P; bit_W; bit_A; bit_D] /\
    Forall (fun b => 0 <= b < 12) [bit_P; bit_W; bit_A; bit_D];
  pde_get_create p : pg_ofs p = 0 -> pde_get_pt (pde_create p) = p;
  pde_nonzero p : pg_ofs p = 0 -> pde_create p <> 0;
  pte_get_create k w : pg_ofs k = 0 -> pte_get_page (pte_create_user k w) = k;
  pte_create_flags k w : pg_ofs k = 0 -> has PTE_P (pte_create_user k w) = true /\
    has PTE_W (pte_create_user k w) = w /\ has PTE_A (pte_create_user k w) = false /\
    has PTE_D (pte_create_user k w) = false;
  (** The page depends on the bits above the flags. *)
  pte_page_bits e e' : Z.shiftr e 12 = Z.shiftr e' 12 -> pte_get_page e = pte_get_page e';
  null_page : is_kernel_vaddr 0 = false;
  pal_flags : Z.land PAL_USER PAL_USER <> 0 /\ Z.land PAL_USER PAL_ZERO = 0 /\
    Z.land (Z.lor PAL_USER PAL_ZERO) PAL_USER <> 0 /\ Z.land (Z.lor PAL_USER PAL_ZERO) PAL_ZERO <> 0;
  pool_page u a : in_pool u a = true -> pg_ofs a = 0 /\ is_kernel_vaddr a = true;
  palloc_some u m a : palloc_next u m = Some a -> m !! a = None /\ in_pool u a = true;
  palloc_none u m a : palloc_next u m = None -> in_pool u a = true -> is_Some (m !! a);
  stale_length m a : Z.of_nat (length (stale m a)) = PGSIZE;
}.

Section pagedir.
Context {pg : Paging}.
Abbreviation K := (M vmem).
Implicit Types (m : vmem) (pd : Z).

(** A page of the kernel pool that holds [c], or [None]. *)
Definition palloc_table (c : page) : K (option Z) :=
  m ← get;
  match palloc_next false (pages m) with
  | Some a => modify (set_pages (<[a := c]> (pages m)));; mret (Some a)
  | None => mret None
  end.
Definition palloc_free_page (a : Z) : K unit :=
  m ← get; deref (pages m !! a);; modify (set_pages (delete a (pages m))).

(** The word [i] of the table at [a]. *)
Definition load_word (a : Z) (i : nat) : K Z :=
  m ← get;
  match pages m !! a with Some (Table ws) => deref (ws !! i) | _ => fail BadAccess end.
Definition store_word (a : Z) (i : nat) (w : Z) : K unit :=
  m ← get;
  match pages m !! a with
  | Some (Table ws) => deref (ws !! i);; modify (set_pages (<[a := Table (<[i := w]> ws)]> (pages m)))
  | _ => fail BadAccess
  end.

Definition pagedir_create : K (option Z) :=
  m ← get;
  c ← deref (pages m !! init_page_dir m);
  palloc_table c.

Definition pagedir_activate (pd : option Z) : K unit :=
  m ← get;
  modify (load_cr3 (vtop (default (init_page_dir m) pd))).
Definition active_pd : K Z := m ← get; mret (ptov (cr3 m)).
Definition invalidate_pagedir pd : K unit :=
  a ← active_pd; when (a =? pd) (pagedir_activate (Some pd)).

(** The result is a pointer to the entry: its table and its index. *)
Definition lookup_page pd (vaddr : Z) (create : bool) : K (option (Z * nat)) :=
  assert (negb create || is_user_vaddr vaddr);;
  pde ← load_word pd (pd_no vaddr);
  if pde =? 0 then
    if create then
      pt ← palloc_table zero_table;
      match pt with
      | None => mret None
      | Some pt =>
        store_word pd (pd_no vaddr) (pde_create pt);;
        pde ← load_word pd (pd_no vaddr);
        mret (Some (pde_get_pt pde, pt_no vaddr))
      end
    else mret None
  else mret (Some (pde_get_pt pde, pt_no vaddr)).

Definition pagedir_set_page pd (upage kpage : Z) (writable : bool) : K bool :=
  m ← get;
  assert (pg_ofs upage =? 0);;
  assert (pg_ofs kpage =? 0);;
  assert (is_user_vaddr upage);;
  assert (Z.shiftr (vtop kpage) PTSHIFT <? init_ram_pages m);;
  assert (negb (pd =? init_page_dir m));;
  p ← lookup_page pd upage true;
  match p with
  | Some (pt, i) =>
    pte ← load_word pt i;
    assert (negb (has PTE_P pte));;
    store_word pt i (pte_create_user kpage writable);;
    mret true
  | None => mret false
  end.

Definition pagedir_get_page pd (uaddr : Z) : K (option Z) :=
  assert (is_user_vaddr uaddr);;
  p ← lookup_page pd uaddr false;
  match p with
  | Some (pt, i) =>
    pte ← load_word pt i;
    mret (if has PTE_P pte then Some (pte_get_page pte + pg_ofs uaddr) else None)
  | None => mret None
  end.

Definition pagedir_clear_page pd (upage : Z) : K unit :=
  assert (pg_ofs upage =? 0);;
  assert (is_user_vaddr upage);;
  p ← lookup_page pd upage false;
  match p with
  | Some (pt, i) =>
    pte ← load_word pt i;
    when (has PTE_P pte) (store_word pt i (without_flag PTE_P pte);; invalidate_pagedir pd)
  | None => mret tt
  end.

(** [pte != NULL && ( *pte & flag) != 0] *)
Definition pte_test (flag pd vpage : Z) : K bool :=
  p ← lookup_page pd vpage false;
  match p with Some (pt, i) => pte ← load_word pt i; mret (has flag pte) | None => mret false end.
Definition pte_change (flag pd vpage : Z) (b : bool) : K unit :=
  p ← lookup_page pd vpage false;
  match p with
  | Some (pt, i) =>
    pte ← load_word pt i;
    if b then store_word pt i (with_flag flag pte)
    else store_word pt i (without_flag flag pte);; invalidate_pagedir pd
  | None => mret tt
  end.

Definition pagedir_is_dirty pd vpage : K bool := pte_test PTE_D pd vpage.
Definition pagedir_set_dirty pd vpage (dirty : bool) : K unit := pte_change PTE_D pd vpage dirty.
Definition pagedir_set_writable pd vpage (writable : bool) : K unit := pte_change PTE_W pd vpage writable.
Definition pagedir_is_accessed pd vpage : K bool := pte_test PTE_A pd vpage.
Definition pagedir_set_accessed pd vpage (accessed : bool) : K unit := pte_change PTE_A pd vpage accessed.

(** [for (pte = pt; pte < pt + 1024; pte++)] and the loop over the user part of the
    directory. *)
Definition pagedir_destroy (pd : option Z) : K unit :=
  match pd with
  | None => mret tt
  | Some pd =>
    m ← get;
    assert (negb (pd =? init_page_dir m));;
    for_each (seq 0 (pd_no PHYS_BASE)) (fun k =>
      pde ← load_word pd k;
      when (has PTE_P pde)
        (let pt := pde_get_pt pde in
         for_each (seq 0 1024) (fun i =>
           pte ← load_word pt i;
           when (has PTE_P pte) (palloc_free_page (pte_get_page pte)));;
         palloc_free_page pt));;
    palloc_free_page pd
  end.

(** ** The map a page directory stands for *)

(** The pointer to the entry of an address, and the entry. *)
Definition slot m pd va : option (Z * nat) :=
  match pages m !! pd with
  | Some (Table d) => pde ← d !! pd_no va; if pde =? 0 then None else Some (pde_get_pt pde, pt_no va)
  | _ => None
  end.
Definition word m (p : Z * nat) : option Z :=
  match pages m !! p.1 with Some (Table t) => t !! p.2 | _ => None end.
Definition pte_of m pd va : option Z := p ← slot m pd va; word m p.

(** The directory has 1024 words, the tables of its user part 1024 entries, and no table
    is used twice. *)
Record pd_wf m pd : Prop := {
  pw_dir : exists d, pages m !! pd = Some (Table d) /\ length d = 1024%nat;
  pw_table : forall d k pde, pages m !! pd = Some (Table d) -> (k < pd_no PHYS_BASE)%nat ->
    d !! k = Some pde -> pde <> 0 ->
    pde_get_pt pde <> pd /\
    exists t, pages m !! pde_get_pt pde = Some (Table t) /\ length t = 1024%nat;
  pw_inj : forall d j k a b, pages m !! pd = Some (Table d) ->
    (j < pd_no PHYS_BASE)%nat -> (k < pd_no PHYS_BASE)%nat ->
    d !! j = Some a -> d !! k = Some b -> a <> 0 -> b <> 0 -> pde_get_pt a = pde_get_pt b -> j = k;
}.

(** The page an address is mapped to. *)
Definition mapping m pd va : option Z :=
  pte ← pte_of m pd va; if has PTE_P pte then Some (pte_get_page pte) else None.
Definition flag_of (flag : Z) m pd va : bool :=
  match pte_of m pd va with Some pte => has flag pte | None => false end.

(** The bytes of a page that is not a table. *)
Definition data m (a : Z) : option (list Z) :=
  match pages m !! a with Some (Data c) => Some c | _ => None end.

(** What changes of tables leave alone. *)
Record mem_keep m m' : Prop := {
  mk_init : init_page_dir m' = init_page_dir m;
  mk_ram : init_ram_pages m' = init_ram_pages m;
  mk_data : forall a, data m' a = data m a;
  mk_alloc : forall a, is_Some (pages m !! a) -> is_Some (pages m' !! a);
}.
#[export] Instance mem_keep_preorder : PreOrder mem_keep.
Proof. split; [by split|]. intros m1 m2 m3 [] []. split; [congruence|congruence|intros a; congruence|auto]. Qed.
End pagedir.

(** ** Flags *)
Lemma has_testbit b e : 0 <= b -> has (2 ^ b) e = Z.testbit e b.
Proof.
  intros Hb. unfold has. destruct (Z.eqb_spec (Z.land e (2 ^ b)) 0) as [H|H]; simpl.
  - assert (Ht : Z.testbit (Z.land e (2 ^ b)) b = false) by (rewrite H; apply Z.testbit_0_l).
    rewrite Z.land_spec, Z.pow2_bits_true, andb_true_r in Ht by done. done.
  - destruct (Z.testbit e b) eqn:Ht; [done|]. exfalso. apply H, Z.bits_inj'. intros j Hj.
    rewrite Z.land_spec, Z.pow2_bits_eqb, Z.testbit_0_l by done.
    destruct (Z.eqb_spec b j) as [->|]; [by rewrite Ht|apply andb_false_r].
Qed.

Lemma testbit_with b e j : 0 <= b -> Z.testbit (with_flag (2 ^ b) e) j = Z.testbit e j || (b =? j).
Proof. intros Hb. unfold with_flag. by rewrite Z.lor_spec, Z.pow2_bits_eqb. Qed.
Lemma testbit_without b e j :
  0 <= b -> 0 <= j -> Z.testbit (without_flag (2 ^ b) e) j = Z.testbit e j && negb (b =? j).
Proof. intros Hb Hj. unfold without_flag. by rewrite Z.land_spec, Z.lnot_spec, Z.pow2_bits_eqb. Qed.

(** Changing a flag to [v]. *)
Definition change_flag (v : bool) (flag e : Z) : Z := if v then with_flag flag e else without_flag flag e.

Lemma has_change v b e : 0 <= b -> has (2 ^ b) (change_flag v (2 ^ b) e) = v.
Proof.
  intros Hb. rewrite has_testbit by done. destruct v; simpl.
  - rewrite testbit_with, Z.eqb_refl by done. apply orb_true_r.
  - rewrite testbit_without, Z.eqb_refl by done. apply andb_false_r.
Qed.
Lemma has_change_ne v b c e : 0 <= b -> 0 <= c -> b <> c ->
  has (2 ^ c) (change_flag v (2 ^ b) e) = has (2 ^ c) e.
Proof.
  intros Hb Hc Hne. rewrite !has_testbit by done. apply Z.eqb_neq in Hne. destruct v; simpl.
  - rewrite testbit_with, Hne by done. apply orb_false_r.
  - rewrite testbit_without, Hne by done. apply andb_true_r.
Qed.
Lemma change_high v b e : 0 <= b < 12 -> Z.shiftr (change_flag v (2 ^ b) e) 12 = Z.shiftr e 12.
Proof.
  intros Hb. apply Z.bits_inj'. intros j Hj. rewrite !Z.shiftr_spec by done.
  assert (Hne : (b =? j + 12) = false) by (apply Z.eqb_neq; lia). destruct v; simpl.
  - rewrite testbit_with, Hne by lia. apply orb_false_r.
  - rewrite testbit_without, Hne by lia. apply andb_true_r.
Qed.

Section laws.
Context {pg : Paging} {pl : PagingLaws}.
Implicit Types (m : vmem) (pd : Z).

(** A flag of an entry. *)
Definition a_flag (b : Z) : Prop := b ∈ [bit_P; bit_W; bit_A; bit_D].
Lemma flag_range b : a_flag b -> 0 <= b < 12.
Proof. intros Hb. destruct flag_bits as [_ Hf]. rewrite Forall_forall in Hf. by apply Hf. Qed.

Lemma page_change v b e : a_flag b -> pte_get_page (change_flag v (2 ^ b) e) = pte_get_page e.
Proof. intros Hb. apply pte_page_bits, change_high. by apply flag_range. Qed.

(** ** Access to the tables *)
Lemma wp_load_word a i w m (Q : Z -> vmem -> Prop) :
  word m (a, i) = Some w -> Q w m -> wp (load_word a i) Q m.
Proof.
  unfold word. simpl. intros Hw HQ. unfold load_word. apply wp_bind, wp_get.
  destruct (pages m !! a) as [[t|]|]; [|done..]. by eapply wp_deref.
Qed.

Definition store_slot (p : Z * nat) (w : Z) m : vmem :=
  match pages m !! p.1 with
  | Some (Table t) => set_pages (<[p.1 := Table (<[p.2 := w]> t)]> (pages m)) m
  | _ => m
  end.

Lemma wp_store_word a i w w0 m (Q : unit -> vmem -> Prop) :
  word m (a, i) = Some w0 -> Q tt (store_slot (a, i) w m) -> wp (store_word a i w) Q m.
Proof.
  unfold word, store_slot. simpl. intros Hw HQ. unfold store_word. apply wp_bind, wp_get.
  destruct (pages m !! a) as [[t|]|]; [|done..]. apply wp_bind. eapply wp_deref; [done|]. by apply wp_modify.
Qed.

(** The entry of a user page is in a table of its own. *)
Lemma slot_word m pd va p :
  pd_wf m pd -> is_user_vaddr va = true -> slot m pd va = Some p ->
  p.1 <> pd /\ (exists t, pages m !! p.1 = Some (Table t) /\ length t = 1024%nat) /\
  p.2 = pt_no va /\ exists w, word m p = Some w.
Proof.
  intros [[d [Hd Hlen]] W2 W3] Hu. unfold slot. rewrite Hd. intros (pde & Hpde & Hp)%bind_Some.
  destruct (Z.eqb_spec pde 0) as [|Hne]; [done|]. injection Hp as <-. simpl.
  destruct (W2 d (pd_no va) pde Hd (user_pd _ Hu) Hpde Hne) as (Hn & t & Ht & Htl).
  split; [done|]. split; [eauto|]. split; [done|]. unfold word. simpl. rewrite Ht.
  apply lookup_lt_is_Some_2. rewrite Htl. apply pt_range.
Qed.

Lemma slot_pte m pd va p w : slot m pd va = Some p -> word m p = Some w -> pte_of m pd va = Some w.
Proof. unfold pte_of. by intros ->. Qed.
Lemma pte_slot m pd va w : pte_of m pd va = Some w -> exists p, slot m pd va = Some p /\ word m p = Some w.
Proof. unfold pte_of. by intros (p & ? & ?)%bind_Some; eauto. Qed.

(** Entries of different user pages are different words. *)
Lemma slot_inj m pd u v p :
  pd_wf m pd -> pg_ofs u = 0 -> pg_ofs v = 0 -> is_user_vaddr u = true -> is_user_vaddr v = true ->
  slot m pd u = Some p -> slot m pd v = Some p -> u = v.
Proof.
  intros [[d [Hd _]] _ W3] Hu Hv Hus Hvs. unfold slot. rewrite Hd.
  intros (a & Ha & Hp)%bind_Some (b & Hb & Hq)%bind_Some.
  destruct (Z.eqb_spec a 0) as [|Hna]; [done|]. destruct (Z.eqb_spec b 0) as [|Hnb]; [done|].
  injection Hp as <-. injection Hq as Hab Hpt.
  apply page_inj; auto. symmetry in Hab.
  apply (W3 d (pd_no u) (pd_no v) a b); auto using user_pd.
Qed.


(** *** Storing an entry *)
Lemma pages_store p w t m :
  pages m !! p.1 = Some (Table t) ->
  pages (store_slot p w m) = <[p.1 := Table (<[p.2 := w]> t)]> (pages m).
Proof. unfold store_slot. by intros ->. Qed.

Lemma slot_store m pd u v p w :
  pd_wf m pd -> is_user_vaddr u = true -> slot m pd u = Some p ->
  slot (store_slot p w m) pd v = slot m pd v.
Proof.
  intros W Hu Hs. destruct (slot_word m pd u p W Hu Hs) as (Hne & (t & Ht & _) & _).
  unfold slot. rewrite (pages_store p w t) by done. by rewrite lookup_insert_ne.
Qed.

Lemma pte_store m pd u v p w :
  pd_wf m pd -> pg_ofs u = 0 -> pg_ofs v = 0 -> is_user_vaddr u = true -> is_user_vaddr v = true ->
  slot m pd u = Some p ->
  pte_of (store_slot p w m) pd v = if decide (v = u) then Some w else pte_of m pd v.
Proof.
  intros W Hu Hv Hus Hvs Hs. unfold pte_of. rewrite (slot_store m pd u v p w) by done.
  destruct (slot_word m pd u p W Hus Hs) as (Hne & (t & Ht & Htl) & Hp2 & _).
  destruct (decide (v = u)) as [->|Hvu].
  - rewrite Hs. simpl. unfold word. rewrite (pages_store p w t), lookup_insert_eq by done.
    apply list_lookup_insert_eq. rewrite Htl, Hp2. apply pt_range.
  - destruct (slot m pd v) as [q|] eqn:Hq; [|done]. simpl. unfold word.
    rewrite (pages_store p w t) by done. destruct (decide (q.1 = p.1)) as [He|He].
    + rewrite He, lookup_insert_eq, Ht. apply list_lookup_insert_ne. intros H2. apply Hvu.
      apply (slot_inj m pd v u p); try done. rewrite Hq. f_equal. destruct p, q. simpl in *. by subst.
    + by rewrite lookup_insert_ne.
Qed.

Lemma wf_store m pd u p w :
  pd_wf m pd -> is_user_vaddr u = true -> slot m pd u = Some p -> pd_wf (store_slot p w m) pd.
Proof.
  intros W Hu Hs. destruct (slot_word m pd u p W Hu Hs) as (Hne & (t & Ht & Htl) & _).
  destruct W as [W1 W2 W3]. rewrite <- (lookup_insert_ne (pages m) p.1 pd (Table (<[p.2 := w]> t))) in W1 by done.
  rewrite <- (pages_store p w t m Ht) in W1. split; [done|..].
  - intros d k pde. rewrite (pages_store p w t m Ht), lookup_insert_ne by done. intros Hd Hk Hp Hn.
    destruct (W2 d k pde Hd Hk Hp Hn) as (Hn' & t' & Ht' & Hl'). split; [done|].
    destruct (decide (p.1 = pde_get_pt pde)) as [<-|He].
    + rewrite lookup_insert_eq. eexists. split; [done|]. by rewrite length_insert.
    + rewrite lookup_insert_ne by done. eauto.
  - intros d j k a b. rewrite (pages_store p w t m Ht), lookup_insert_ne by done. apply W3.
Qed.

Lemma keep_store p w m : mem_keep m (store_slot p w m).
Proof.
  unfold store_slot. destruct (pages m !! p.1) as [[t|c]|] eqn:Ht; [|done..].
  split; simpl; [done|done| |].
  - intros a. unfold data. simpl. destruct (decide (p.1 = a)) as [<-|].
    + by rewrite lookup_insert_eq, Ht.
    + by rewrite lookup_insert_ne.
  - intros a Ha. destruct (decide (p.1 = a)) as [<-|].
    + by rewrite lookup_insert_eq.
    + by rewrite lookup_insert_ne.
Qed.
Lemma keep_same m m' :
  pages m' = pages m -> init_ram_pages m' = init_ram_pages m -> init_page_dir m' = init_page_dir m -> mem_keep m m'.
Proof. intros Hp Hr Hi. split; [done|done|..]; intros a; unfold data; by rewrite Hp. Qed.

(** What a change of the entry of the page [u] to [w] does. *)
Record entry_set (u w : Z) m m' pd : Prop := {
  es_wf : pd_wf m' pd;
  es_entry : pte_of m' pd u = Some w;
  es_other : forall v, v <> u -> pg_ofs v = 0 -> is_user_vaddr v = true -> pte_of m' pd v = pte_of m pd v;
  es_keep : mem_keep m m';
}.

Lemma store_entry m pd u p w :
  pd_wf m pd -> pg_ofs u = 0 -> is_user_vaddr u = true -> slot m pd u = Some p ->
  entry_set u w m (store_slot p w m) pd.
Proof.
  intros W Hu Hus Hs. split.
  - by eapply wf_store.
  - rewrite (pte_store m pd u u) by done. by rewrite decide_True.
  - intros v Hv Hvo Hvs. rewrite (pte_store m pd u v) by done. by rewrite decide_False.
  - apply keep_store.
Qed.

(** *** [lookup_page] *)
Lemma wf_pde m pd va :
  pd_wf m pd -> is_user_vaddr va = true ->
  exists d pde, pages m !! pd = Some (Table d) /\ length d = 1024%nat /\ d !! pd_no va = Some pde /\
    word m (pd, pd_no va) = Some pde.
Proof.
  intros [[d [Hd Hl]] _ _] Hu. assert (Hlt : (pd_no va < length d)%nat).
  { rewrite Hl. pose proof (user_pd _ Hu). pose proof pd_base. lia. }
  destruct (lookup_lt_is_Some_2 _ _ Hlt) as [pde Hp]. exists d, pde. split_and!; try done.
  unfold word. simpl. by rewrite Hd.
Qed.

Lemma wp_lookup_page m pd va (Q : option (Z * nat) -> vmem -> Prop) :
  pd_wf m pd -> is_user_vaddr va = true -> Q (slot m pd va) m -> wp (lookup_page pd va false) Q m.
Proof.
  intros W Hu HQ. destruct (wf_pde m pd va W Hu) as (d & pde & Hd & Hl & Hp & Hw).
  unfold lookup_page. apply wp_bind, wp_assert; [done|]. apply wp_bind. eapply wp_load_word; [done|].
  unfold slot in HQ. rewrite Hd in HQ. simpl in HQ. rewrite Hp in HQ. simpl in HQ.
  by destruct (pde =? 0); apply wp_ret.
Qed.

(** The state with a new, empty table [a] for the address [va]. *)
Definition with_table m pd va a : vmem :=
  store_slot (pd, pd_no va) (pde_create a) (set_pages (<[a := zero_table]> (pages m)) m).

Lemma pages_with_table m pd va a d :
  pages m !! pd = Some (Table d) -> pages m !! a = None ->
  pages (with_table m pd va a) =
    <[pd := Table (<[pd_no va := pde_create a]> d)]> (<[a := zero_table]> (pages m)).
Proof.
  intros Hd Ha. unfold with_table. rewrite (pages_store _ _ d); [done|]. simpl.
  rewrite lookup_insert_ne; [done|]. intros ->. congruence.
Qed.

Lemma slot_with_table m pd va v a d :
  pd_wf m pd -> is_user_vaddr va = true -> pages m !! pd = Some (Table d) -> d !! pd_no va = Some 0 ->
  pages m !! a = None -> pg_ofs a = 0 ->
  slot (with_table m pd va a) pd v = if decide (pd_no v = pd_no va) then Some (a, pt_no v) else slot m pd v.
Proof.
  intros W Hu Hd Hz Ha Hao. unfold slot. rewrite (pages_with_table m pd va a d), lookup_insert_eq, Hd by done.
  destruct (decide (pd_no v = pd_no va)) as [->|Hne].
  - rewrite list_lookup_insert_eq by (by eapply lookup_lt_Some). simpl.
    destruct (Z.eqb_spec (pde_create a) 0) as [He|_]; [by apply pde_nonzero in He|].
    by rewrite pde_get_create.
  - by rewrite list_lookup_insert_ne by done.
Qed.

Lemma wf_with_table m pd va a d :
  pd_wf m pd -> is_user_vaddr va = true -> pages m !! pd = Some (Table d) -> d !! pd_no va = Some 0 ->
  pages m !! a = None -> pg_ofs a = 0 -> pd_wf (with_table m pd va a) pd.
Proof.
  intros [(d' & Hd' & Hl) W2 W3] Hu Hd Hz Ha Hao. rewrite Hd in Hd'. injection Hd' as <-.
  assert (Hpd : a <> pd) by congruence.
  assert (Hfresh : forall k pde, (k < pd_no PHYS_BASE)%nat -> d !! k = Some pde -> pde <> 0 -> pde_get_pt pde <> a).
  { intros k pde Hk Hp Hn <-. destruct (W2 d k pde Hd Hk Hp Hn) as (_ & t & Ht & _). congruence. }
  assert (Hnew : forall k pde, <[pd_no va := pde_create a]> d !! k = Some pde ->
    (k = pd_no va /\ pde = pde_create a) \/ (k <> pd_no va /\ d !! k = Some pde)).
  { intros k pde [(<- & <- & _)|[Hne Hp]]%list_lookup_insert_Some; [by left|by right]. }
  split.
  - exists (<[pd_no va := pde_create a]> d). rewrite (pages_with_table m pd va a d), lookup_insert_eq by done.
    by rewrite length_insert.
  - intros d1 k pde. rewrite (pages_with_table m pd va a d), lookup_insert_eq by done. intros [= <-] Hk Hp Hn.
    destruct (Hnew k pde Hp) as [[-> ->]|[Hne Hp']].
    + rewrite pde_get_create by done. split; [done|]. rewrite lookup_insert_ne, lookup_insert_eq by done.
      eexists. split; [done|]. apply length_replicate.
    + destruct (W2 d k pde Hd Hk Hp' Hn) as (Hn' & t & Ht & Htl). split; [done|].
      exists t. split; [|done].
      rewrite !lookup_insert_ne; [done|intros He; by apply (Hfresh k pde)|done].
  - intros d1 j k x y. rewrite (pages_with_table m pd va a d), lookup_insert_eq by done.
    intros [= <-] Hj Hk Hx Hy Hnx Hny He.
    destruct (Hnew j x Hx) as [[-> ->]|[Hne1 Hx']], (Hnew k y Hy) as [[-> ->]|[Hne2 Hy']].
    + done.
    + exfalso. rewrite pde_get_create in He by done. by apply (Hfresh k y).
    + exfalso. rewrite pde_get_create in He by done. by apply (Hfresh j x).
    + by apply (W3 d j k x y).
Qed.


(** The page and the flags of every user page but those in [X] are the same. *)
Definition same_but (X : list Z) m m' pd : Prop :=
  forall v, v ∉ X -> pg_ofs v = 0 -> is_user_vaddr v = true ->
    mapping m' pd v = mapping m pd v /\ forall flag, flag_of flag m' pd v = flag_of flag m pd v.

Lemma entry_set_same u w m m' pd : entry_set u w m m' pd -> same_but [u] m m' pd.
Proof.
  intros [_ _ H _] v Hv Hvo Hvs. unfold mapping, flag_of.
  rewrite (H v); [done| |done|done]. intros ->. apply Hv. by left.
Qed.

Lemma same_but_trans X m1 m2 m3 pd : same_but [] m1 m2 pd -> same_but X m2 m3 pd -> same_but X m1 m3 pd.
Proof.
  intros H1 H2 v Hv Ho Hu. destruct (H1 v) as [E1 F1]; [by intros ?%elem_of_nil|done..|].
  destruct (H2 v Hv Ho Hu) as [E2 F2]. split; [congruence|]. intros f. by rewrite F2.
Qed.

Lemma has_zero flag : has flag 0 = false.
Proof. unfold has. by rewrite Z.land_0_l. Qed.

Lemma pte_with_table m pd va a d v :
  pd_wf m pd -> is_user_vaddr va = true -> pages m !! pd = Some (Table d) -> d !! pd_no va = Some 0 ->
  pages m !! a = None -> pg_ofs a = 0 -> is_user_vaddr v = true ->
  pte_of (with_table m pd va a) pd v = pte_of m pd v \/
  (pte_of (with_table m pd va a) pd v = Some 0 /\ pte_of m pd v = None).
Proof.
  intros W Hu Hd Hz Ha Hao Hvs. unfold pte_of. rewrite (slot_with_table m pd va v a d) by done.
  assert (Hne : a <> pd) by congruence. destruct (decide (pd_no v = pd_no va)) as [He|Hne'].
  - right. split.
    + unfold word. simpl. rewrite (pages_with_table m pd va a d) by done.
      rewrite lookup_insert_ne, lookup_insert_eq by done. apply lookup_replicate_2, pt_range.
    + unfold slot. rewrite Hd, He. simpl. by rewrite Hz.
  - left. destruct (slot m pd v) as [p|] eqn:Hs; [|done]. simpl.
    destruct (slot_word m pd v p W Hvs Hs) as (Hpd & (t & Ht & _) & _). unfold word.
    rewrite (pages_with_table m pd va a d) by done.
    rewrite !lookup_insert_ne; [done|congruence|done].
Qed.

Lemma keep_with_table m pd va a d :
  pages m !! pd = Some (Table d) -> pages m !! a = None -> mem_keep m (with_table m pd va a).
Proof.
  intros Hd Ha. transitivity (set_pages (<[a := zero_table]> (pages m)) m); [|apply keep_store].
  split; simpl; [done|done|..]; intros b; unfold data; simpl; (destruct (decide (a = b)) as [<-|];
    [rewrite lookup_insert_eq|by rewrite lookup_insert_ne]); [by rewrite Ha|done].
Qed.

(** A change of the tables in which only the pages in [X] get another entry. *)
Record pte_step (X : list Z) m m' pd : Prop := {
  ps_wf : pd_wf m' pd;
  ps_same : same_but X m m' pd;
  ps_slots : forall v, pg_ofs v = 0 -> is_user_vaddr v = true ->
    is_Some (pte_of m pd v) -> is_Some (pte_of m' pd v);
  ps_keep : mem_keep m m';
}.

Lemma pte_step_refl X m pd : pd_wf m pd -> pte_step X m m pd.
Proof. by split; [|intros v _ _ _|..]. Qed.
Lemma pte_step_trans X m1 m2 m3 pd : pte_step X m1 m2 pd -> pte_step X m2 m3 pd -> pte_step X m1 m3 pd.
Proof.
  intros [W1 S1 L1 K1] [W2 S2 L2 K2]. split; [done| |auto|by etransitivity].
  intros v Hv Ho Hu. destruct (S1 v Hv Ho Hu) as [E1 F1], (S2 v Hv Ho Hu) as [E2 F2].
  split; [congruence|]. intros f. by rewrite F2.
Qed.
Lemma pte_step_weaken X m m' pd : pte_step [] m m' pd -> pte_step X m m' pd.
Proof.
  intros [W1 S1 L1 K1]. split; [done| |done|done]. intros v _. apply S1. by intros ?%elem_of_nil.
Qed.
Lemma entry_set_step u w m m' pd : is_Some (pte_of m pd u) -> entry_set u w m m' pd -> pte_step [u] m m' pd.
Proof.
  intros Hs He. split; [apply He|by eapply entry_set_same| |apply He].
  intros v Ho Hu Hv. destruct (decide (v = u)) as [->|Hne].
  - rewrite (es_entry _ _ _ _ _ He). eauto.
  - by rewrite (es_other _ _ _ _ _ He).
Qed.

Lemma with_table_step m pd va a d :
  pd_wf m pd -> is_user_vaddr va = true -> pages m !! pd = Some (Table d) -> d !! pd_no va = Some 0 ->
  pages m !! a = None -> pg_ofs a = 0 -> pte_step [] m (with_table m pd va a) pd.
Proof.
  intros W Hu Hd Hz Ha Hao. split; [by eapply wf_with_table|..|by eapply keep_with_table].
  - intros v _ _ Hvs. unfold mapping, flag_of.
    destruct (pte_with_table m pd va a d v) as [->|[-> ->]]; [done..|]. simpl. split; intros; by rewrite ?has_zero.
  - intros v _ Hvs [w Hw]. destruct (pte_with_table m pd va a d v) as [->|[-> _]]; eauto.
Qed.

Lemma wp_lookup_create m pd va (Q : option (Z * nat) -> vmem -> Prop) :
  pd_wf m pd -> is_user_vaddr va = true ->
  (forall p, slot m pd va = Some p -> Q (Some p) m) ->
  (slot m pd va = None -> palloc_next false (pages m) = None -> Q None m) ->
  (forall p m', slot m pd va = None -> pte_step [] m m' pd -> slot m' pd va = Some p -> Q (Some p) m') ->
  wp (lookup_page pd va true) Q m.
Proof.
  intros W Hu H1 H2 H3. destruct (wf_pde m pd va W Hu) as (d & pde & Hd & Hl & Hp & Hw).
  assert (Hslot : slot m pd va = if pde =? 0 then None else Some (pde_get_pt pde, pt_no va)).
  { unfold slot. by rewrite Hd; simpl; rewrite Hp. }
  unfold lookup_page. apply wp_bind, wp_assert; [by rewrite Hu|]. apply wp_bind.
  eapply wp_load_word; [done|]. destruct (Z.eqb_spec pde 0) as [->|Hn]; [|by apply wp_ret, H1].
  apply wp_bind. unfold palloc_table. apply wp_bind, wp_get.
  destruct (palloc_next false (pages m)) as [a|] eqn:Ha; [|by apply wp_ret, wp_ret, H2].
  destruct (palloc_some _ _ _ Ha) as [Hfresh [Hao _]%pool_page]. apply wp_bind, wp_modify, wp_ret, wp_bind.
  set (m1 := set_pages _ m). assert (Hpd : a <> pd) by congruence.
  assert (Hw1 : word m1 (pd, pd_no va) = Some 0).
  { unfold word. simpl. by rewrite lookup_insert_ne, Hd. }
  eapply wp_store_word; [exact Hw1|]. change (store_slot (pd, pd_no va) (pde_create a) m1) with (with_table m pd va a).
  assert (Hw2 : word (with_table m pd va a) (pd, pd_no va) = Some (pde_create a)).
  { unfold word. simpl. rewrite (pages_with_table m pd va a d), lookup_insert_eq by done.
    apply list_lookup_insert_eq. by eapply lookup_lt_Some. }
  apply wp_bind. eapply wp_load_word; [exact Hw2|]. apply wp_ret. rewrite pde_get_create by done.
  apply H3; [done|by eapply with_table_step|].
  - rewrite (slot_with_table m pd va va a d) by done. by rewrite decide_True.
Qed.

(** *** The operations *)
Lemma wp_pagedir_get_page m pd u o (Q : option Z -> vmem -> Prop) :
  pd_wf m pd -> is_user_vaddr u = true -> pg_ofs u = 0 -> 0 <= o < PGSIZE ->
  Q ((fun k => k + o) <$> mapping m pd u) m -> wp (pagedir_get_page pd (u + o)) Q m.
Proof.
  intros W Hu Ho Hr HQ. destruct (page_offset u o Ho Hr) as (E1 & E2 & E3 & E4).
  unfold pagedir_get_page. apply wp_bind, wp_assert; [by rewrite E4|]. apply wp_bind.
  apply wp_lookup_page; [done|by rewrite E4|].
  assert (Es : slot m pd (u + o) = slot m pd u) by (unfold slot; by rewrite E1, E2).
  rewrite Es. unfold mapping, pte_of in HQ. destruct (slot m pd u) as [[pt i]|] eqn:Hs; [|by apply wp_ret].
  destruct (slot_word m pd u _ W Hu Hs) as (_ & _ & _ & w & Hw). simpl in HQ. rewrite Hw in HQ. simpl in HQ.
  apply wp_bind. eapply wp_load_word; [done|]. apply wp_ret. rewrite E3. by destruct (has PTE_P w).
Qed.

Lemma wp_invalidate m pd (Q : unit -> vmem -> Prop) :
  (forall m', pages m' = pages m -> init_ram_pages m' = init_ram_pages m ->
     init_page_dir m' = init_page_dir m -> cr3_loads m' = (if ptov (cr3 m) =? pd then [vtop pd] else []) ++ cr3_loads m -> Q tt m') ->
  wp (invalidate_pagedir pd) Q m.
Proof.
  intros HQ. unfold invalidate_pagedir, active_pd. apply wp_bind, wp_bind, wp_get, wp_ret.
  apply wp_when; intros Ha; rewrite Ha in HQ; [|by apply HQ].
  unfold pagedir_activate. apply wp_bind, wp_get, wp_modify. by apply HQ.
Qed.


(** The change of the entry of a mapped page, with the other flags kept. *)
Lemma change_entry b v m pd u w m' :
  a_flag b -> pd_wf m pd -> pte_of m pd u = Some w ->
  entry_set u (change_flag v (2 ^ b) w) m m' pd ->
  flag_of (2 ^ b) m' pd u = v /\
  (forall c, a_flag c -> c <> b -> flag_of (2 ^ c) m' pd u = flag_of (2 ^ c) m pd u) /\
  (b <> bit_P -> mapping m' pd u = mapping m pd u).
Proof.
  intros Hb W Hw [_ He _ _]. pose proof (flag_range b Hb) as Hr.
  unfold flag_of, mapping. rewrite He, Hw. simpl. split; [|split].
  - apply has_change. lia.
  - intros c Hc Hne. pose proof (flag_range c Hc). apply has_change_ne; lia.
  - intros Hne. assert (HP : 0 <= bit_P < 12) by (apply flag_range; by left).
    unfold PTE_P. rewrite has_change_ne, page_change by (done || lia). done.
Qed.

(** The end of [pagedir_set_page]: the entry at [p] is written. *)
Lemma wp_put_pte m m1 pd u k w p :
  is_user_vaddr u = true -> pg_ofs u = 0 -> mapping m pd u = None ->
  pte_step [] m m1 pd -> slot m1 pd u = Some p ->
  wp (pte ← load_word p.1 p.2; assert (negb (has PTE_P pte));; store_word p.1 p.2 (pte_create_user k w);; mret true)
    (fun r m' => r = true /\ pte_step [u] m m' pd /\ pte_of m' pd u = Some (pte_create_user k w)) m1.
Proof.
  intros Hu Ho Hn Hs Hp. destruct (slot_word m1 pd u p (ps_wf _ _ _ _ Hs) Hu Hp) as (_ & _ & _ & x & Hx).
  destruct p as [pt i]. apply wp_bind. eapply wp_load_word; [exact Hx|].
  assert (Hnp : has PTE_P x = false).
  { destruct (ps_same _ _ _ _ Hs u) as [Hm _]; [by intros ?%elem_of_nil|done..|]. rewrite Hn in Hm.
    unfold mapping, pte_of in Hm. rewrite Hp in Hm. simpl in Hm. rewrite Hx in Hm. simpl in Hm.
    by destruct (has PTE_P x). }
  apply wp_bind, wp_assert; [by rewrite Hnp|]. apply wp_bind. eapply wp_store_word; [exact Hx|]. apply wp_ret.
  pose proof (store_entry m1 pd u (pt, i) (pte_create_user k w) (ps_wf _ _ _ _ Hs) Ho Hu Hp) as He.
  split; [done|]. split; [|apply He]. eapply pte_step_trans; [by apply pte_step_weaken|].
  eapply entry_set_step; [|exact He]. exists x. unfold pte_of. by rewrite Hp.
Qed.

Lemma wp_set_page m pd u k w (Q : bool -> vmem -> Prop) :
  pd_wf m pd -> pd <> init_page_dir m -> is_user_vaddr u = true -> pg_ofs u = 0 -> pg_ofs k = 0 ->
  Z.shiftr (vtop k) PTSHIFT < init_ram_pages m -> mapping m pd u = None ->
  (pte_of m pd u = None -> palloc_next false (pages m) = None -> Q false m) ->
  (forall m', pte_step [u] m m' pd -> pte_of m' pd u = Some (pte_create_user k w) -> Q true m') ->
  wp (pagedir_set_page pd u k w) Q m.
Proof.
  intros W Hi Hu Ho Hk Hram Hn H1 H2. unfold pagedir_set_page.
  apply wp_bind, wp_get. do 5 (apply wp_bind, wp_assert; [zcase|]).
  apply wp_bind. apply wp_lookup_create; [done|done|..].
  - intros [pt i] Hp. eapply wp_mono; [apply (wp_put_pte m m pd u k w (pt, i)); by try apply pte_step_refl|].
    intros r m' (-> & Hs & He). by apply H2.
  - intros Hp Hf. apply wp_ret, H1; [|done]. unfold pte_of. by rewrite Hp.
  - intros [pt i] m1 _ Hs Hp. eapply wp_mono; [by apply (wp_put_pte m m1 pd u k w (pt, i))|].
    intros r m' (-> & Hs' & He). by apply H2.
Qed.

(** What the directory says of a page mapped to [k]. *)
Lemma fresh_entry m' pd u k w :
  is_user_vaddr u = true -> pg_ofs u = 0 -> pg_ofs k = 0 -> pd_wf m' pd ->
  pte_of m' pd u = Some (pte_create_user k w) ->
  mapping m' pd u = Some k /\
  flag_of PTE_W m' pd u = w /\ flag_of PTE_A m' pd u = false /\ flag_of PTE_D m' pd u = false.
Proof.
  intros Hu Ho Hk W E. destruct (pte_create_flags k w Hk) as (F1 & F2 & F3 & F4).
  unfold flag_of, mapping. rewrite E. simpl. rewrite F1, pte_get_create by done. done.
Qed.

(** C26: [pagedir_set_page] on an unmapped user page.  It returns false, and changes
    nothing, only if a page table is needed and memory is exhausted; otherwise the page is
    mapped to the frame, for every address in it, with the writable flag as asked and the
    accessed and dirty flags clear, and all other user pages are as before. *)
Theorem pagedir_set_page_maps m pd u k w
    (W : pd_wf m pd) (Hi : pd <> init_page_dir m) (Hu : is_user_vaddr u = true) (Ho : pg_ofs u = 0)
    (Hk : pg_ofs k = 0) (Hram : Z.shiftr (vtop k) PTSHIFT < init_ram_pages m)
    (Hn : mapping m pd u = None) :
  wp (pagedir_set_page pd u k w) (fun r m' =>
    if r then
      pd_wf m' pd /\
      (forall o, 0 <= o < PGSIZE ->
         wp (pagedir_get_page pd (u + o)) (fun a m'' => a = Some (k + o) /\ m'' = m') m') /\
      flag_of PTE_W m' pd u = w /\ flag_of PTE_A m' pd u = false /\ flag_of PTE_D m' pd u = false /\
      same_but [u] m m' pd
    else palloc_next false (pages m) = None /\ m' = m) m.
Proof.
  apply wp_set_page; [done..|by intros _|]. intros m' Hs He.
  destruct (fresh_entry m' pd u k w) as (F0 & F1 & F2 & F3); [done..|apply Hs|done|].
  split_and!; [apply Hs| |done..|apply Hs]. intros o Hr.
  apply wp_pagedir_get_page; [apply Hs|done..|]. by rewrite F0.
Qed.

Lemma same_tables m m' pd : pages m' = pages m -> pd_wf m pd -> pd_wf m' pd /\ forall v, pte_of m' pd v = pte_of m pd v.
Proof.
  intros Hpg [W1 W2 W3]. rewrite <- Hpg in W1. split; [split; [done|..]; intros *; rewrite Hpg; [apply W2|apply W3]|].
  intros v. unfold pte_of, slot, word. by rewrite Hpg.
Qed.

(** *** [pagedir_clear_page] *)
Lemma wp_clear_entry m pd u (Q : unit -> vmem -> Prop) :
  pd_wf m pd -> is_user_vaddr u = true -> pg_ofs u = 0 ->
  (mapping m pd u = None -> Q tt m) ->
  (forall w m', pte_of m pd u = Some w -> has PTE_P w = true ->
     entry_set u (change_flag false PTE_P w) m m' pd ->
     cr3_loads m' = (if ptov (cr3 m) =? pd then [vtop pd] else []) ++ cr3_loads m -> Q tt m') ->
  wp (pagedir_clear_page pd u) Q m.
Proof.
  intros W Hu Ho H1 H2. unfold pagedir_clear_page. do 2 (apply wp_bind, wp_assert; [zcase|]).
  apply wp_bind, wp_lookup_page; [done..|].
  destruct (slot m pd u) as [[pt i]|] eqn:Hs.
  2:{ apply wp_ret, H1. unfold mapping, pte_of. by rewrite Hs. }
  destruct (slot_word m pd u _ W Hu Hs) as (_ & _ & _ & w & Hw).
  assert (Hpte : pte_of m pd u = Some w) by (unfold pte_of; by rewrite Hs).
  apply wp_bind. eapply wp_load_word; [done|]. apply wp_when; intros HP.
  2:{ apply H1. unfold mapping. rewrite Hpte. simpl. by rewrite HP. }
  apply wp_bind. eapply wp_store_word; [done|].
  pose proof (store_entry m pd u (pt, i) (change_flag false PTE_P w) W Ho Hu Hs) as [E1 E2 E3 E4].
  simpl change_flag in *. set (m1 := store_slot _ _ m) in *.
  assert (Hcr : cr3 m1 = cr3 m /\ cr3_loads m1 = cr3_loads m).
  { unfold m1, store_slot. simpl. by destruct (pages m !! pt) as [[]|]. }
  apply wp_invalidate. intros m' Hpg Hram Hinit Hloads. destruct Hcr as [-> ->] in Hloads.
  destruct (same_tables _ m' pd Hpg E1) as [W' Hp]. apply (H2 w); [done|done| |done].
  split; [done|by rewrite Hp|intros v ? ? ?; rewrite Hp; by apply E3|].
  etransitivity; [exact E4|by apply keep_same].
Qed.

(** [pagedir_clear_page] removes the mapping of a user page and keeps the other bits
    of its entry; other pages stay as they are, and if the page was mapped and the
    directory is active the address translations are flushed. *)
Theorem pagedir_clear_page_unmaps m pd u
    (W : pd_wf m pd) (Hu : is_user_vaddr u = true) (Ho : pg_ofs u = 0) :
  wp (pagedir_clear_page pd u) (fun _ m' =>
    pd_wf m' pd /\ mapping m' pd u = None /\ same_but [u] m m' pd /\
    Forall (fun f => flag_of f m' pd u = flag_of f m pd u) [PTE_W; PTE_A; PTE_D] /\
    (mapping m pd u <> None -> ptov (cr3 m) = pd -> cr3_loads m' = vtop pd :: cr3_loads m)) m.
Proof.
  assert (Hsame : same_but [u] m m pd) by (intros v _ _ _; done).
  apply wp_clear_entry; [done..| |].
  - intros Hm. split_and!; [done..|by repeat constructor|by rewrite Hm].
  - intros w m' Hw HP He Hl. assert (Hb : a_flag bit_P) by (by left).
    destruct (change_entry bit_P false m pd u w m' Hb W Hw He) as (F1 & F2 & _).
    split_and!; [apply He| |by eapply entry_set_same| |].
    + unfold flag_of in F1. unfold mapping. destruct (pte_of m' pd u); [|done]. simpl. unfold PTE_P. by rewrite F1.
    + destruct flag_bits as [Hnd _]. repeat rewrite NoDup_cons in Hnd.
      unfold PTE_W, PTE_A, PTE_D. repeat constructor; apply F2; set_solver.
    + intros _ Ha. rewrite Hl. by rewrite (proj2 (Z.eqb_eq _ _) Ha).
Qed.


(** The functions that change one flag. *)
Lemma wp_pte_change b v m pd u (Q : unit -> vmem -> Prop) :
  a_flag b -> pd_wf m pd -> is_user_vaddr u = true -> pg_ofs u = 0 ->
  (pte_of m pd u = None -> Q tt m) ->
  (forall w m', pte_of m pd u = Some w -> entry_set u (change_flag v (2 ^ b) w) m m' pd -> Q tt m') ->
  wp (pte_change (2 ^ b) pd u v) Q m.
Proof.
  intros Hb W Hu Ho H1 H2. unfold pte_change. apply wp_bind, wp_lookup_page; [done..|].
  destruct (slot m pd u) as [[pt i]|] eqn:Hs; [|apply wp_ret, H1; unfold pte_of; by rewrite Hs].
  destruct (slot_word m pd u _ W Hu Hs) as (_ & _ & _ & w & Hw).
  assert (Hpte : pte_of m pd u = Some w) by (unfold pte_of; by rewrite Hs).
  apply wp_bind. eapply wp_load_word; [done|].
  pose proof (store_entry m pd u (pt, i) (change_flag v (2 ^ b) w) W Ho Hu Hs) as He. destruct v; simpl in He.
  - eapply wp_store_word; [done|]. by eapply H2.
  - apply wp_bind. eapply wp_store_word; [done|]. apply wp_invalidate. intros m' Hpg Hram Hinit _.
    eapply H2; [done|]. destruct He as [E1 E2 E3 E4]. destruct (same_tables _ m' pd Hpg E1) as [W' Hp].
    split; [done|by rewrite Hp|intros x ? ? ?; rewrite Hp; by apply E3|].
    etransitivity; [exact E4|by apply keep_same].
Qed.

Lemma wp_pte_test b m pd u (Q : bool -> vmem -> Prop) :
  pd_wf m pd -> is_user_vaddr u = true -> Q (flag_of (2 ^ b) m pd u) m -> wp (pte_test (2 ^ b) pd u) Q m.
Proof.
  intros W Hu HQ. unfold pte_test. apply wp_bind, wp_lookup_page; [done..|].
  unfold flag_of, pte_of in HQ. destruct (slot m pd u) as [[pt i]|] eqn:Hs; [|by apply wp_ret].
  destruct (slot_word m pd u _ W Hu Hs) as (_ & _ & _ & w & Hw). simpl in HQ. rewrite Hw in HQ.
  apply wp_bind. eapply wp_load_word; [done|]. by apply wp_ret.
Qed.

(** the dirty and accessed bits.  After [pagedir_set_dirty] the page is dirty as
    asked, if it has an entry, and [pagedir_is_dirty] says so; its frame and its accessed
    and writable bits, and all other pages, are as before.  [pagedir_set_accessed] does
    the same for the accessed bit. *)
Theorem pagedir_bits_independent m pd u v
    (W : pd_wf m pd) (Hu : is_user_vaddr u = true) (Ho : pg_ofs u = 0) :
  wp (pagedir_set_dirty pd u v;; pagedir_is_dirty pd u) (fun r m' =>
    r = bool_decide (is_Some (pte_of m pd u)) && v /\ pd_wf m' pd /\ same_but [u] m m' pd /\
    mapping m' pd u = mapping m pd u /\ flag_of PTE_A m' pd u = flag_of PTE_A m pd u /\
    flag_of PTE_W m' pd u = flag_of PTE_W m pd u) m /\
  wp (pagedir_set_accessed pd u v;; pagedir_is_accessed pd u) (fun r m' =>
    r = bool_decide (is_Some (pte_of m pd u)) && v /\ pd_wf m' pd /\ same_but [u] m m' pd /\
    mapping m' pd u = mapping m pd u /\ flag_of PTE_D m' pd u = flag_of PTE_D m pd u /\
    flag_of PTE_W m' pd u = flag_of PTE_W m pd u) m.
Proof.
  destruct flag_bits as [Hnd _]. repeat rewrite NoDup_cons in Hnd.
  assert (Hsame : same_but [u] m m pd) by (intros x _ _ _; done).
  split; apply wp_bind; (apply wp_pte_change; [unfold a_flag; set_solver|done..| |]).
  1,3: intros Hn; apply wp_pte_test; [done..|]; unfold flag_of; rewrite Hn;
    rewrite bool_decide_false by (by intros []); done.
  all: intros w m' Hw He; apply wp_pte_test; [apply He|done|].
  - destruct (change_entry bit_D v m pd u w m') as (F1 & F2 & F3); [unfold a_flag; set_solver|done..|].
    rewrite F1, bool_decide_true by by exists w. split_and!; [done|apply He|by eapply entry_set_same|..].
    + apply F3. set_solver.
    + apply F2; [unfold a_flag|]; set_solver.
    + apply F2; [unfold a_flag|]; set_solver.
  - destruct (change_entry bit_A v m pd u w m') as (F1 & F2 & F3); [unfold a_flag; set_solver|done..|].
    rewrite F1, bool_decide_true by by exists w. split_and!; [done|apply He|by eapply entry_set_same|..].
    + apply F3. set_solver.
    + apply F2; [unfold a_flag|]; set_solver.
    + apply F2; [unfold a_flag|]; set_solver.
Qed.

(** ** What clients use

    The operations as changes of the map of the directory. *)
Lemma wp_get_page m pd u (Q : option Z -> vmem -> Prop) :
  pd_wf m pd -> is_user_vaddr u = true -> pg_ofs u = 0 -> Q (mapping m pd u) m ->
  wp (pagedir_get_page pd u) Q m.
Proof.
  intros W Hu Ho HQ. rewrite <- (Z.add_0_r u). apply wp_pagedir_get_page; [done..| |].
  - unfold PGSIZE. lia.
  - replace ((fun k => k + 0) <$> mapping m pd u) with (mapping m pd u); [done|].
    destruct (mapping m pd u); [simpl; by rewrite Z.add_0_r|done].
Qed.

Lemma wp_clear_page m pd u (Q : unit -> vmem -> Prop) :
  pd_wf m pd -> is_user_vaddr u = true -> pg_ofs u = 0 ->
  (forall m', pte_step [u] m m' pd -> mapping m' pd u = None -> Q tt m') ->
  wp (pagedir_clear_page pd u) Q m.
Proof.
  intros W Hu Ho HQ. apply wp_clear_entry; [done..| |].
  - apply HQ. by apply pte_step_refl.
  - intros w m' Hw HP He _. apply HQ; [eapply entry_set_step; [eauto|exact He]|].
    assert (Hb : a_flag bit_P) by (by left).
    destruct (change_entry bit_P false m pd u w m' Hb W Hw He) as (F1 & _ & _).
    unfold flag_of in F1. unfold mapping. destruct (pte_of m' pd u); [|done]. simpl. unfold PTE_P. by rewrite F1.
Qed.

(** A change of a flag other than the present bit keeps the map. *)
Lemma wp_change_flag b v m pd u (Q : unit -> vmem -> Prop) :
  a_flag b -> b <> bit_P -> pd_wf m pd -> is_user_vaddr u = true -> pg_ofs u = 0 ->
  (forall m', pte_step [u] m m' pd -> mapping m' pd u = mapping m pd u ->
     (forall c, a_flag c -> c <> b -> flag_of (2 ^ c) m' pd u = flag_of (2 ^ c) m pd u) ->
     flag_of (2 ^ b) m' pd u = bool_decide (is_Some (pte_of m pd u)) && v -> Q tt m') ->
  wp (pte_change (2 ^ b) pd u v) Q m.
Proof.
  intros Hb Hne W Hu Ho HQ. apply wp_pte_change; [done..| |].
  - intros Hn. apply HQ; [by apply pte_step_refl|done|done|]. unfold flag_of. rewrite Hn.
    by rewrite bool_decide_false by (by intros []).
  - intros w m' Hw He. destruct (change_entry b v m pd u w m' Hb W Hw He) as (F1 & F2 & F3).
    apply HQ; [eapply entry_set_step; [eauto|exact He]|by apply F3|done|].
    rewrite Hw, F1, bool_decide_true; [done|eauto].
Qed.

(** *** Freeing a page that is not a table *)
Definition free_page k m : vmem := set_pages (delete k (pages m)) m.

Lemma wp_palloc_free_page m k c (Q : unit -> vmem -> Prop) :
  data m k = Some c -> Q tt (free_page k m) -> wp (palloc_free_page k) Q m.
Proof.
  unfold data. intros Hk HQ. apply wp_bind, wp_get, wp_bind.
  destruct (pages m !! k) as [x|] eqn:Hx; [|done]. eapply wp_deref; [done|]. by apply wp_modify.
Qed.

Lemma table_free m k c a t :
  data m k = Some c -> pages m !! a = Some (Table t) -> pages (free_page k m) !! a = Some (Table t).
Proof.
  unfold data. intros Hk Ha. simpl. rewrite lookup_delete_ne; [done|]. intros ->. by rewrite Ha in Hk.
Qed.
Lemma table_of_free m k a t :
  pages (free_page k m) !! a = Some (Table t) -> pages m !! a = Some (Table t).
Proof. simpl. by intros [_ H]%lookup_delete_Some. Qed.

Lemma data_free m k a : data (free_page k m) a = if decide (k = a) then None else data m a.
Proof.
  unfold data. simpl. destruct (decide (k = a)) as [<-|].
  - by rewrite lookup_delete_eq.
  - by rewrite lookup_delete_ne.
Qed.

Lemma wf_free m k c pd : data m k = Some c -> pd_wf m pd -> pd_wf (free_page k m) pd.
Proof.
  intros Hk [(d & Hd & Hl) W2 W3]. split.
  - exists d. split; [by eapply table_free|done].
  - intros d' j pde Hd'%table_of_free Hj Hp Hn. destruct (W2 d' j pde Hd' Hj Hp Hn) as (Hne & t & Ht & Htl).
    split; [done|]. exists t. split; [by eapply table_free|done].
  - intros d' i j a b Hd'%table_of_free. by apply W3.
Qed.

Lemma pte_free m k c pd v :
  data m k = Some c -> pd_wf m pd -> is_user_vaddr v = true -> pte_of (free_page k m) pd v = pte_of m pd v.
Proof.
  intros Hk Wf Hu. destruct (pw_dir _ _ Wf) as (d & Hd & _).
  assert (Hs : slot (free_page k m) pd v = slot m pd v).
  { unfold slot. by rewrite (table_free m k c pd d Hk Hd), Hd. }
  unfold pte_of. rewrite Hs. destruct (slot m pd v) as [p|] eqn:Hp; [|done]. simpl.
  destruct (slot_word m pd v p Wf Hu Hp) as (_ & (t & Ht & _) & _).
  unfold word. by rewrite (table_free m k c _ t Hk Ht), Ht.
Qed.

Lemma mapping_free m k c pd v :
  data m k = Some c -> pd_wf m pd -> is_user_vaddr v = true ->
  mapping (free_page k m) pd v = mapping m pd v /\
  forall flag, flag_of flag (free_page k m) pd v = flag_of flag m pd v.
Proof. intros Hk Wf Hu. unfold mapping, flag_of. by rewrite (pte_free m k c). Qed.

(** *** Writing a page that is not a table *)
Definition put_page k c m : vmem := set_pages (<[k := Data c]> (pages m)) m.
Definition not_table m (k : Z) : Prop := forall t, pages m !! k <> Some (Table t).

Lemma fresh_not_table m k : pages m !! k = None -> not_table m k.
Proof. by intros H t; rewrite H. Qed.
Lemma data_not_table m k c : data m k = Some c -> not_table m k.
Proof. unfold data. intros H t Ht. by rewrite Ht in H. Qed.

Lemma data_put m k c a : data (put_page k c m) a = if decide (k = a) then Some c else data m a.
Proof.
  unfold data. simpl. destruct (decide (k = a)) as [<-|].
  - by rewrite lookup_insert_eq.
  - by rewrite lookup_insert_ne.
Qed.

Lemma table_put m k c a t : not_table m k -> pages (put_page k c m) !! a = Some (Table t) <-> pages m !! a = Some (Table t).
Proof.
  intros Hk. simpl. destruct (decide (k = a)) as [<-|].
  - rewrite lookup_insert_eq. split; [done|]. intros H. by destruct (Hk t).
  - by rewrite lookup_insert_ne.
Qed.

Lemma wf_put m k c pd : not_table m k -> pd_wf m pd -> pd_wf (put_page k c m) pd.
Proof.
  intros Hk [(d & Hd & Hl) W2 W3]. split.
  - exists d. by rewrite table_put.
  - intros d' j pde Hd'%(table_put m k c) Hj Hp Hn; [|done]. destruct (W2 d' j pde Hd' Hj Hp Hn) as (Hne & t & Ht & Htl).
    split; [done|]. exists t. by rewrite table_put.
  - intros d' i j a b Hd'%(table_put m k c); [|done]. by apply W3.
Qed.

Lemma pte_put m k c pd v :
  not_table m k -> pd_wf m pd -> is_user_vaddr v = true -> pte_of (put_page k c m) pd v = pte_of m pd v.
Proof.
  intros Hk Wf Hu. destruct (pw_dir _ _ Wf) as (d & Hd & _).
  assert (Hs : slot (put_page k c m) pd v = slot m pd v).
  { unfold slot. by rewrite (proj2 (table_put m k c pd d Hk) Hd), Hd. }
  unfold pte_of. rewrite Hs. destruct (slot m pd v) as [p|] eqn:Hp; [|done]. simpl.
  destruct (slot_word m pd v p Wf Hu Hp) as (_ & (t & Ht & _) & _).
  unfold word. by rewrite (proj2 (table_put m k c _ t Hk) Ht), Ht.
Qed.

Lemma mapping_put m k c pd v :
  not_table m k -> pd_wf m pd -> is_user_vaddr v = true ->
  mapping (put_page k c m) pd v = mapping m pd v /\
  forall flag, flag_of flag (put_page k c m) pd v = flag_of flag m pd v.
Proof. intros Hk Wf Hu. unfold mapping, flag_of. by rewrite (pte_put m k c). Qed.
End laws.

(** ** A concrete machine: 80x86 addresses and entries, four kernel and two user pages *)
Definition x86_base : Z := 0xc0000000.
Definition x86_pool (user : bool) : list Z :=
  (fun i => x86_base + 4096 * i) <$> (if user then seqZ 32 2 else seqZ 16 4).

(** [lia] with divisions. *)
Ltac dlia := Z.to_euclidean_division_equations; lia.

#[export] Instance x86 : Paging := {
  PHYS_BASE := x86_base;
  is_user_vaddr v := (0 <=? v) && (v <? x86_base);
  pd_no v := Z.to_nat (v / 4194304);
  pt_no v := Z.to_nat ((v / 4096) `mod` 1024);
  pg_ofs v := v `mod` 4096;
  pg_round_down v := v / 4096 * 4096;
  vtop v := v - x86_base;
  ptov p := p + x86_base;
  PTSHIFT := 12;
  bit_P := 0; bit_W := 1; bit_A := 5; bit_D := 6;
  pde_create p := p - x86_base + 7;
  pde_get_pt e := e / 4096 * 4096 + x86_base;
  pte_create_user k w := k - x86_base + (if w then 7 else 5);
  pte_get_page e := e / 4096 * 4096 + x86_base;
  is_kernel_vaddr v := x86_base <=? v;
  PAL_ZERO := 2; PAL_USER := 4;
  in_pool u a := bool_decide (a ∈ x86_pool u);
  palloc_next u m := List.find (fun a => bool_decide (m !! a = None)) (x86_pool u);
  stale _ _ := replicate 4096 204;
}.

Lemma low_flag k c b : k `mod` 4096 = 0 -> 0 <= c < 4096 -> 0 <= b < 12 ->
  has (2 ^ b) (k - x86_base + c) = Z.testbit c b.
Proof.
  intros Hk Hc Hb. rewrite has_testbit by lia.
  rewrite <- (Z.mod_pow2_bits_low _ 12) by lia. f_equal. unfold x86_base.
  change (2 ^ 12) with 4096.
  dlia.
Qed.

#[export] Instance x86_laws : PagingLaws.
Proof.
  split; try (simpl; unfold x86_base; intros; dlia).
  - unfold PGSIZE. simpl. unfold x86_base. by split_and!.
  - intros v. simpl. unfold PGSIZE. dlia.
  - done.
  - intros u o. unfold PGSIZE. simpl. unfold x86_base. intros Hu Ho.
    assert (E : (u + o) / 4096 = u / 4096) by (clear -Hu Ho; dlia).
    change 4194304 with (4096 * 1024). rewrite <- !Z.div_div, E by lia. split_and!; [done|done|dlia|].
    apply eq_true_iff_eq. rewrite !andb_true_iff, !Z.leb_le, !Z.ltb_lt. dlia.
  - split; [by apply (bool_decide_unpack _); vm_compute|]. repeat constructor; simpl; lia.
  - intros k []; simpl; unfold x86_base; dlia.
  - intros k w Hk. split_and!;
      (etrans; [apply (low_flag k (if w then 7 else 5)); [done|by destruct w|simpl; lia]|by destruct w]).
  - intros e e'. simpl. rewrite !Z.shiftr_div_pow2 by lia. change (2 ^ 12) with 4096. dlia.
  - by split_and!.
  - intros u a Ha%bool_decide_eq_true.
    assert (exists i, a = x86_base + 4096 * i /\ 16 <= i) as (i & -> & Hi).
    { apply list_elem_of_fmap in Ha as (i & -> & Hi). exists i. split; [done|].
      by destruct u; apply elem_of_seqZ in Hi; lia. }
    simpl. unfold x86_base. split; [dlia|]. apply Z.leb_le. lia.
  - intros u m a Ha. apply List.find_some in Ha as [Hin Hm]. apply list_elem_of_In in Hin.
    split; [by apply bool_decide_eq_true in Hm|by apply bool_decide_eq_true].
  - intros u m a Hn Ha%bool_decide_eq_true. apply list_elem_of_In in Ha.
    eapply List.find_none in Hn; [|exact Ha]. apply bool_decide_eq_false in Hn.
    destruct (m !! a); [eauto|done].
  - done.
Qed.

(** The kernel's directory alone; with a process directory; with the user page 0x8048000
    mapped, writable, to a frame. *)
Definition kernel_dir : Z := x86_base + 4096.
Definition user_dir : Z := x86_base + 4096 * 16.
Definition user_table : Z := x86_base + 4096 * 17.
Definition user_frame : Z := x86_base + 4096 * 32.
Definition code_page : Z := 0x8048000.
Definition vm0 : vmem := VMem {[kernel_dir := zero_table]} kernel_dir 1024 (vtop kernel_dir) [].
Definition vm1 : vmem := set_pages (<[user_dir := zero_table]> (pages vm0)) (load_cr3 (vtop user_dir) vm0).
Definition vm2 : vmem :=
  store_slot (user_table, pt_no code_page) (pte_create_user user_frame true)
    (with_table vm1 user_dir code_page user_table).

Example vm1_created :
  (pd ← pagedir_create; pagedir_activate pd;; mret pd) vm0 = Ok (Some user_dir) vm1.
Proof. vm_compute. reflexivity. Qed.
Example vm2_mapped : pagedir_set_page user_dir code_page user_frame true vm1 = Ok true vm2.
Proof. vm_compute. reflexivity. Qed.

Lemma wf_empty m pd d :
  pages m !! pd = Some (Table d) -> length d = 1024%nat ->
  (forall k pde, (k < pd_no PHYS_BASE)%nat -> d !! k = Some pde -> pde = 0) -> pd_wf m pd.
Proof.
  intros Hd Hl Hz. split; [eauto|..].
  - intros d' k pde. rewrite Hd. intros [= <-] Hk Hp Hn. by destruct Hn; eapply Hz.
  - intros d' j k a b. rewrite Hd. intros [= <-] Hj _ Ha _ Hn _ _. by destruct Hn; eapply Hz.
Qed.
Lemma vm1_wf : pd_wf vm1 user_dir.
Proof.
  apply (wf_empty _ _ (replicate 1024 0)); [done|done|]. intros k pde _ [-> _]%lookup_replicate. done.
Qed.
Lemma vm2_wf : pd_wf vm2 user_dir.
Proof.
  apply (wf_store _ _ code_page); [|done|done].
  apply (wf_with_table _ _ _ _ (replicate 1024 0)); [apply vm1_wf|done..].
Qed.

Lemma pagedir_set_page_maps_witness :
  mapping vm1 user_dir code_page = None /\
  wp (pagedir_set_page user_dir code_page user_frame true) (fun r m' => r = true /\
    wp (pagedir_get_page user_dir (code_page + 8)) (fun a _ => a = Some (user_frame + 8)) m') vm1.
Proof.
  split; [done|]. eapply wp_mono.
  - by apply (pagedir_set_page_maps vm1 user_dir code_page user_frame true vm1_wf).
  - intros [] m'; cbn beta; [|by intros [? _]]. intros (_ & H & _). split; [done|].
    eapply wp_mono; [apply (H 8); unfold PGSIZE; lia|]. by intros a m'' [-> _].
Defined.

Lemma pagedir_clear_page_unmaps_witness :
  mapping vm2 user_dir code_page = Some user_frame /\
  wp (pagedir_clear_page user_dir code_page) (fun _ m' => mapping m' user_dir code_page = None) vm2.
Proof.
  split; [done|]. eapply wp_mono.
  - by apply (pagedir_clear_page_unmaps vm2 user_dir code_page vm2_wf).
  - by intros ? m' (_ & H & _).
Defined.

Lemma pagedir_bits_independent_witness :
  flag_of PTE_D vm2 user_dir code_page = false /\
  wp (pagedir_set_dirty user_dir code_page true;; pagedir_is_dirty user_dir code_page)
    (fun r m' => r = true /\ flag_of PTE_W m' user_dir code_page = true) vm2.
Proof.
  split; [done|]. eapply wp_mono.
  - by apply (pagedir_bits_independent vm2 user_dir code_page true vm2_wf).
  - intros r m' (-> & _ & _ & _ & _ & ->). done.
Defined.
