(* ===== verification/Kernelmap.v ===== *)
(** * Kernelmap: the kernel's own mapping ([paging_init] of [threads/init.c]).

    [paging_init] fills the page directory that every process directory starts as a copy
    of: it maps the whole physical memory from [PHYS_BASE] on ([paging_init_maps_ram]). *)
From S2P Require Import Prelude Pagedir.
From Stdlib Require Import ZArith Lia.
From stdpp Require Import prelude gmap.

Open Scope Z_scope.

(** ** Interface: kernel entries ([threads/pte.h]) and the linker's symbols *)
Class KernelPaging := {
  pte_create_kernel : Z -> bool -> Z;
  start_text : Z;            (* [&_start] *)
  end_kernel_text : Z;       (* [&_end_kernel_text] *)
}.
(** [PHYS_BASE] is aligned on 4 MB: the page [k] of the memory has its entry in the table
    [k / 1024] behind the user part of the directory. *)
Class KernelPagingLaws {pg : Paging} := {
  kernel_page k : 0 <= k -> PHYS_BASE + k * PGSIZE < 2 ^ 32 ->
    pd_no (ptov (k * PGSIZE)) = (pd_no PHYS_BASE + Z.to_nat (k / 1024))%nat /\
    pt_no (ptov (k * PGSIZE)) = Z.to_nat (k mod 1024) /\
    (pd_no PHYS_BASE + Z.to_nat (k / 1024) < 1024)%nat;
}.

Definition set_init_page_dir x m : vmem := VMem (pages m) x (init_ram_pages m) (cr3 m) (cr3_loads m).

Section paging_init.
Context {pg : Paging} {kp : KernelPaging}.
Abbreviation K := (M vmem).

(** [palloc_get_page (PAL_ASSERT | PAL_ZERO)] *)
Definition palloc_asserted : K Z :=
  o ← palloc_table zero_table;
  match o with Some a => mret a | None => fail Panic end.

Definition in_kernel_text (vaddr : Z) : bool := (start_text <=? vaddr) && (vaddr <? end_kernel_text).

(** The loop over the [n] pages from [page] on; [pt] is null at first. *)
Fixpoint paging_loop (n : nat) (page : Z) (pt : option Z) (pd : Z) : K unit :=
  match n with
  | O => mret tt
  | S n =>
    let vaddr := ptov (page * PGSIZE) in
    let pde_idx := pd_no vaddr in
    let pte_idx := pt_no vaddr in
    pde ← load_word pd pde_idx;
    pt ← (if pde =? 0
          then pt ← palloc_asserted; store_word pd pde_idx (pde_create pt);; mret (Some pt)
          else mret pt);
    a ← deref pt;
    store_word a pte_idx (pte_create_kernel vaddr (negb (in_kernel_text vaddr)));;
    paging_loop n (page + 1) pt pd
  end.
Definition paging_init : K unit :=
  pd ← palloc_asserted;
  modify (set_init_page_dir pd);;
  n ← gets init_ram_pages;
  paging_loop (Z.to_nat n) 0 None pd;;
  modify (load_cr3 (vtop pd)).
End paging_init.

(** ** The contents of the tables *)
Section kernel_map.
Context {pg : Paging} {kp : KernelPaging} {pl : PagingLaws} {kl : KernelPagingLaws}.
Implicit Types (m : vmem) (ts : list Z).

Definition entry (k : Z) : Z :=
  let vaddr := ptov (k * PGSIZE) in pte_create_kernel vaddr (negb (in_kernel_text vaddr)).
Abbreviation user_part := (pd_no PHYS_BASE).

(** The directory that leads to the tables [ts], and the table [j] when the first [n]
    pages are mapped. *)
Definition directory ts : list Z :=
  replicate user_part 0 ++ (pde_create <$> ts) ++ replicate (1024 - user_part - length ts) 0.
Definition table (n : Z) (j : nat) : list Z :=
  (fun i => let k := 1024 * Z.of_nat j + Z.of_nat i in if k <? n then entry k else 0) <$> seq 0 1024.

Lemma length_directory ts : (user_part + length ts <= 1024)%nat -> length (directory ts) = 1024%nat.
Proof. intros. unfold directory. rewrite !length_app, !length_replicate, length_fmap. lia. Qed.
Lemma directory_old ts j a : ts !! j = Some a -> directory ts !! (user_part + j)%nat = Some (pde_create a).
Proof.
  intros H. unfold directory. pose proof (lookup_lt_Some _ _ _ H).
  rewrite lookup_app_r by (rewrite length_replicate; lia). rewrite length_replicate.
  replace (user_part + j - user_part)%nat with j by lia. rewrite lookup_app_l by (by rewrite length_fmap).
  by rewrite list_lookup_fmap, H.
Qed.
Lemma directory_new ts : (user_part + length ts < 1024)%nat ->
  directory ts !! (user_part + length ts)%nat = Some 0 /\
  forall a, <[(user_part + length ts)%nat := pde_create a]> (directory ts) = directory (ts ++ [a]).
Proof.
  intros H. unfold directory.
  destruct (1024 - user_part - length ts)%nat as [|k] eqn:Hk; [lia|]. split.
  - rewrite lookup_app_r, length_replicate, lookup_app_r, length_fmap by (rewrite ?length_replicate, ?length_fmap; lia).
    by replace (user_part + length ts - user_part - length ts)%nat with 0%nat by lia.
  - intros a. rewrite insert_app_r_alt, length_replicate, insert_app_r_alt, length_fmap
      by (rewrite ?length_replicate, ?length_fmap; lia).
    replace (user_part + length ts - user_part - length ts)%nat with 0%nat by lia.
    rewrite length_app, fmap_app. simpl. rewrite <- app_assoc. simpl. do 4 f_equal. lia.
Qed.

Lemma table_lookup n j i : (i < 1024)%nat ->
  table n j !! i = Some (let k := 1024 * Z.of_nat j + Z.of_nat i in if k <? n then entry k else 0).
Proof. intros H. unfold table. by rewrite list_lookup_fmap, lookup_seq_lt. Qed.
Lemma length_table n j : length (table n j) = 1024%nat.
Proof. unfold table. by rewrite length_fmap, length_seq. Qed.
Lemma table_ext n j (l : list Z) : length l = 1024%nat ->
  (forall i, (i < 1024)%nat ->
     l !! i = Some (let k := 1024 * Z.of_nat j + Z.of_nat i in if k <? n then entry k else 0)) ->
  table n j = l.
Proof.
  intros Hl H. apply list_eq. intros i. destruct (decide (i < 1024)%nat) as [Hi|Hi].
  - by rewrite table_lookup, H.
  - rewrite !lookup_ge_None_2; [done|lia|rewrite length_table; lia].
Qed.
Lemma table_empty n j : n <= 1024 * Z.of_nat j -> table n j = replicate 1024 0.
Proof.
  intros H. apply table_ext; [by rewrite length_replicate|]. intros i Hi. rewrite lookup_replicate_2 by done.
  cbn zeta. destruct (Z.ltb_spec (1024 * Z.of_nat j + Z.of_nat i) n); [lia|done].
Qed.
Lemma table_next n j : 0 <= n ->
  table (n + 1) j = if decide (j = Z.to_nat (n / 1024)) then <[Z.to_nat (n mod 1024) := entry n]> (table n j)
                    else table n j.
Proof.
  intros Hn. assert (Hk : forall i, (i < 1024)%nat ->
    (1024 * Z.of_nat j + Z.of_nat i = n <-> j = Z.to_nat (n / 1024) /\ i = Z.to_nat (n mod 1024))).
  { intros i Hi. split; [|intros [-> ->]]; [|Z.div_mod_to_equations; lia].
    split; Z.div_mod_to_equations; lia. }
  apply table_ext; [destruct (decide _); rewrite ?length_insert; apply length_table|]. intros i Hi. specialize (Hk i Hi).
  cbn zeta. set (k := 1024 * Z.of_nat j + Z.of_nat i) in *.
  assert (H : table n j !! i = Some (if k <? n then entry k else 0)) by (by rewrite table_lookup).
  destruct (decide (j = Z.to_nat (n / 1024))) as [Ej|Ej]; [destruct (decide (i = Z.to_nat (n mod 1024))) as [Ei|Ei]|].
  - rewrite <- Ei, list_lookup_insert_eq by (rewrite length_table; lia). rewrite (proj2 Hk) by done.
    by rewrite (proj2 (Z.ltb_lt n (n + 1))) by lia.
  - rewrite list_lookup_insert_ne, H by done. f_equal. assert (k <> n) by tauto.
    destruct (Z.ltb_spec k n), (Z.ltb_spec k (n + 1)); done || lia.
  - rewrite H. f_equal. assert (k <> n) by tauto. destruct (Z.ltb_spec k n), (Z.ltb_spec k (n + 1)); done || lia.
Qed.

(** ** The loop *)

(** The directory [pd] with the tables [ts] maps the first [n] pages; nothing that [m0] had
    allocated has changed. *)
Record ram_mapped m0 pd ts (n : Z) m : Prop := {
  kd_init : init_page_dir m = pd;
  kd_ram : init_ram_pages m = init_ram_pages m0;
  kd_nodup : NoDup (pd :: ts);
  kd_dir : pages m !! pd = Some (Table (directory ts));
  kd_table : forall j a, ts !! j = Some a -> pages m !! a = Some (Table (table n j));
  kd_ofs : Forall (fun a => pg_ofs a = 0) ts;
  kd_room : (user_part + length ts <= 1024)%nat;
  kd_old : pages m0 ⊆ pages m;
  kd_new : Forall (fun a => pages m0 !! a = None) (pd :: ts);
}.

(** A run ends with [Q], or it panics for want of memory. *)
Definition ends m0 {A} (Q : A -> vmem -> Prop) (r : res vmem A) : Prop :=
  match r with
  | Ok a m => Q a m
  | Fail f => f = Panic /\ exists ps, pages m0 ⊆ ps /\ palloc_next false ps = None
  end.
Lemma ends_bind m0 {A C} (c : M vmem A) (k : A -> M vmem C) Q m :
  ends m0 (fun a m' => ends m0 Q (k a m')) (c m) -> ends m0 Q ((c ≫= k) m).
Proof. unfold mbind, M_bind. by destruct (c m). Qed.
Lemma ends_wp m0 {A} (c : M vmem A) Q m : wp c Q m -> ends m0 Q (c m).
Proof. unfold wp. by destruct (c m). Qed.

Lemma ends_mono m0 {A} (Q Q' : A -> vmem -> Prop) r :
  (forall a m, Q a m -> Q' a m) -> ends m0 Q r -> ends m0 Q' r.
Proof. intros H. destruct r; [apply H|done]. Qed.

Lemma ends_palloc m0 m (Q : Z -> vmem -> Prop) :
  pages m0 ⊆ pages m ->
  (forall a, pages m !! a = None -> pg_ofs a = 0 -> Q a (set_pages (<[a := zero_table]> (pages m)) m)) ->
  ends m0 Q (palloc_asserted m).
Proof.
  intros Hs HQ. unfold palloc_asserted, palloc_table, mbind, M_bind, get, modify, mret, M_ret.
  destruct (palloc_next false (pages m)) as [a|] eqn:Ha.
  - destruct (palloc_some _ _ _ Ha) as [H1 [H2 _]%pool_page]. by apply HQ.
  - simpl. split; [done|]. by exists (pages m).
Qed.

Lemma wp_table_word a i ws w m (Q : Z -> vmem -> Prop) :
  pages m !! a = Some (Table ws) -> ws !! i = Some w -> Q w m -> wp (load_word a i) Q m.
Proof. intros H1 H2 HQ. apply wp_bind, wp_get. rewrite H1. by eapply wp_deref. Qed.
Lemma wp_set_table_word a i ws w m (Q : unit -> vmem -> Prop) :
  pages m !! a = Some (Table ws) -> (i < length ws)%nat ->
  Q tt (set_pages (<[a := Table (<[i := w]> ws)]> (pages m)) m) -> wp (store_word a i w) Q m.
Proof.
  intros H1 H2 HQ. apply wp_bind, wp_get. rewrite H1. apply lookup_lt_is_Some_2 in H2 as [x Hx].
  apply wp_bind. eapply wp_deref; [exact Hx|]. by apply wp_modify.
Qed.

(** A new table behind the others. *)
Lemma mapped_new_table m0 pd ts n a m :
  ram_mapped m0 pd ts n m -> pages m !! a = None -> pg_ofs a = 0 -> n = 1024 * Z.of_nat (length ts) ->
  (user_part + length ts < 1024)%nat ->
  ram_mapped m0 pd (ts ++ [a]) n
    (set_pages (<[pd := Table (directory (ts ++ [a]))]> (<[a := zero_table]> (pages m))) m).
Proof.
  intros [K1 K2 K3 K4 K5 K6 K7 K8 K9] Ha Ho Hn Hr.
  assert (Hpd : a <> pd) by congruence.
  assert (Hts : a ∉ ts).
  { intros [j Hj]%list_elem_of_lookup. apply K5 in Hj. congruence. }
  assert (H0 : pages m0 !! a = None).
  { destruct (pages m0 !! a) as [x|] eqn:Hx; [|done]. eapply lookup_weaken in Hx; [|exact K8]. congruence. }
  apply NoDup_cons in K3 as [K31 K32]. split; simpl; try done.
  - apply NoDup_cons. split; [set_solver|]. apply NoDup_app. split_and!; [done|set_solver|apply NoDup_singleton].
  - by rewrite lookup_insert_eq.
  - intros j b Hj. assert (b <> pd).
    { intros ->. apply list_elem_of_lookup_2 in Hj. set_solver. }
    rewrite lookup_insert_ne by done. apply lookup_snoc_Some in Hj as [[Hj1 Hj]|[-> <-]].
    + rewrite lookup_insert_ne by (intros <-; apply Hts; by eapply list_elem_of_lookup_2). by apply K5.
    + rewrite lookup_insert_eq. unfold zero_table. by rewrite table_empty by lia.
  - apply Forall_app. split; [done|by constructor].
  - rewrite length_app. simpl. lia.
  - apply Forall_cons in K9 as [K91 K92].
    apply insert_subseteq_r; [done|]. by apply insert_subseteq_r.
  - apply Forall_cons in K9 as [K91 K92]. constructor; [done|]. apply Forall_app. split; [done|by constructor].
Qed.

(** The entry of the page [n]. *)
Lemma mapped_store m0 pd ts n a m :
  ram_mapped m0 pd ts n m -> 0 <= n -> ts !! Z.to_nat (n / 1024) = Some a ->
  ram_mapped m0 pd ts (n + 1)
    (set_pages (<[a := Table (<[Z.to_nat (n mod 1024) := entry n]> (table n (Z.to_nat (n / 1024))))]> (pages m)) m).
Proof.
  intros [K1 K2 K3 K4 K5 K6 K7 K8 K9] Hn Ha.
  pose proof K3 as [K31 K32]%NoDup_cons. pose proof K9 as [K91 K92]%Forall_cons.
  assert (Hin : a ∈ ts) by (by eapply list_elem_of_lookup_2).
  assert (Hpd : a <> pd) by (by intros ->).
  split; simpl; try done.
  - by rewrite lookup_insert_ne.
  - intros j b Hj. rewrite table_next by done. destruct (decide (j = Z.to_nat (n / 1024))) as [->|Hne].
    + rewrite Ha in Hj. injection Hj as <-. by rewrite lookup_insert_eq.
    + rewrite lookup_insert_ne; [by apply K5|]. intros ->. apply Hne. by eapply NoDup_lookup.
  - apply insert_subseteq_r; [|done]. rewrite Forall_forall in K92. by apply K92.
Qed.

(** The choice of the table: a new one for the first page of a table, else the last one. *)
Lemma ends_choose m0 pd ts n pt m (Q : option Z -> vmem -> Prop) :
  ram_mapped m0 pd ts n m -> 0 <= n -> PHYS_BASE + n * PGSIZE < 2 ^ 32 ->
  Z.of_nat (length ts) = (n + 1023) / 1024 -> pt = last ts ->
  (forall ts' m' a, ram_mapped m0 pd ts' n m' -> last ts' = Some a -> ts' !! Z.to_nat (n / 1024) = Some a ->
     length ts' = S (Z.to_nat (n / 1024)) -> Q (Some a) m') ->
  ends m0 Q ((pde ← load_word pd (pd_no (ptov (n * PGSIZE)));
    if pde =? 0
    then pt ← palloc_asserted; store_word pd (pd_no (ptov (n * PGSIZE))) (pde_create pt);; mret (Some pt)
    else mret pt) m).
Proof.
  intros K Hn Hb Hl -> HQ. pose proof K as [_ _ K3 K4 K5 K6 K7 K8 K9].
  destruct (kernel_page n Hn Hb) as (-> & _ & Hr). apply ends_bind, ends_wp.
  destruct (decide (n mod 1024 = 0)) as [Hz|Hz].
  - assert (Hq : Z.to_nat (n / 1024) = length ts) by (Z.div_mod_to_equations; lia). rewrite Hq in *.
    destruct (directory_new ts Hr) as [H1 H2]. eapply wp_table_word; [exact K4|exact H1|]. simpl.
    apply ends_bind, ends_palloc; [done|]. intros a Ha Ho.
    assert (Hpd : a <> pd) by congruence. apply ends_wp, wp_bind.
    eapply wp_set_table_word; [simpl; by rewrite lookup_insert_ne|rewrite length_directory; lia|].
    apply wp_ret. rewrite H2. simpl. apply (HQ (ts ++ [a])).
    + change (ram_mapped m0 pd (ts ++ [a]) n
        (set_pages (<[pd := Table (directory (ts ++ [a]))]> (<[a := zero_table]> (pages m))) m)).
      apply mapped_new_table; [done..|Z.div_mod_to_equations; lia|done].
    + by rewrite last_snoc.
    + by rewrite lookup_app_r, Nat.sub_diag by lia.
    + rewrite length_app. simpl. lia.
  - assert (Hq : length ts = S (Z.to_nat (n / 1024))) by (Z.div_mod_to_equations; lia).
    destruct (lookup_lt_is_Some_2 ts (Z.to_nat (n / 1024))) as [a Ha]; [lia|].
    eapply wp_table_word; [exact K4|by apply directory_old|].
    rewrite Forall_forall in K6. pose proof (K6 a (list_elem_of_lookup_2 _ _ _ Ha)) as Ho.
    destruct (Z.eqb_spec (pde_create a) 0) as [E|_]; [by apply pde_nonzero in E|].
    assert (Hla : last ts = Some a) by (rewrite last_lookup, Hq; exact Ha).
    rewrite Hla. apply (HQ ts); done.
Qed.

Lemma ends_bind_assoc m0 {A C E} (c : M vmem A) (k : A -> M vmem C) (h : C -> M vmem E) Q m :
  ends m0 Q (((c ≫= k) ≫= h) m) -> ends m0 Q ((c ≫= fun a => k a ≫= h) m).
Proof. unfold mbind, M_bind. by destruct (c m). Qed.

Lemma ends_paging_loop m0 pd n page pt ts m :
  ram_mapped m0 pd ts page m -> 0 <= page -> PHYS_BASE + (page + Z.of_nat n) * PGSIZE <= 2 ^ 32 ->
  Z.of_nat (length ts) = (page + 1023) / 1024 -> pt = last ts ->
  ends m0 (fun _ m' => exists ts', ram_mapped m0 pd ts' (page + Z.of_nat n) m' /\
    Z.of_nat (length ts') = (page + Z.of_nat n + 1023) / 1024) (paging_loop n page pt pd m).
Proof.
  revert page pt ts m. induction n as [|n IH]; intros page pt ts m Hk Hp Hb Hl Hpt.
  { exists ts. by rewrite Z.add_0_r. }
  assert (Hlt : PHYS_BASE + page * PGSIZE < 2 ^ 32) by (unfold PGSIZE in *; lia).
  destruct (kernel_page page Hp Hlt) as (_ & Hi & _).
  cbn [paging_loop]. apply ends_bind_assoc, ends_bind.
  apply (ends_choose m0 pd ts page pt m); [done..|]. intros ts' m' a Hk' Hla Ha Hl'.
  apply ends_bind, ends_wp. eapply wp_deref; [done|]. apply ends_bind, ends_wp.
  eapply wp_set_table_word; [by eapply kd_table|rewrite length_table, Hi; Z.div_mod_to_equations; lia|].
  rewrite Hi. fold (entry page).
  replace (page + Z.of_nat (S n)) with (page + 1 + Z.of_nat n) by lia.
  apply (IH _ _ ts'); [by apply mapped_store|lia|lia| |done]. Z.div_mod_to_equations; lia.
Qed.

Lemma mapped_entry m0 pd ts n m k :
  ram_mapped m0 pd ts n m -> Z.of_nat (length ts) = (n + 1023) / 1024 -> PHYS_BASE + n * PGSIZE <= 2 ^ 32 ->
  0 <= k < n -> pte_of m pd (ptov (k * PGSIZE)) = Some (entry k).
Proof.
  intros K Hl Hb Hk. destruct (kernel_page k) as (E1 & E2 & _); [lia|unfold PGSIZE in *; lia|].
  destruct (lookup_lt_is_Some_2 ts (Z.to_nat (k / 1024))) as [a Ha]; [Z.div_mod_to_equations; lia|].
  pose proof (kd_ofs _ _ _ _ _ K) as Ho. rewrite Forall_forall in Ho.
  specialize (Ho a (list_elem_of_lookup_2 _ _ _ Ha)).
  unfold pte_of, slot, word. rewrite (kd_dir _ _ _ _ _ K), E1, E2. cbn [mbind option_bind].
  rewrite (directory_old ts _ a Ha). cbn [mbind option_bind].
  destruct (Z.eqb_spec (pde_create a) 0) as [E|_]; [by apply pde_nonzero in E|]. cbn [mbind option_bind fst snd].
  rewrite pde_get_create, (kd_table _ _ _ _ _ K _ a Ha), table_lookup by (done || (Z.div_mod_to_equations; lia)).
  cbn zeta. replace (1024 * _ + _) with k by (Z.div_mod_to_equations; lia).
  destruct (Z.ltb_spec k n); [done|lia].
Qed.
Lemma mapped_no_user m0 pd ts n m va :
  ram_mapped m0 pd ts n m -> is_user_vaddr va = true -> pte_of m pd va = None.
Proof.
  intros K Hu%user_pd. unfold pte_of, slot. rewrite (kd_dir _ _ _ _ _ K). unfold directory.
  rewrite lookup_app_l, lookup_replicate_2 by (rewrite ?length_replicate; lia). done.
Qed.
Lemma mapped_copied m0 pd ts n m pd' m' :
  ram_mapped m0 pd ts n m -> pagedir_create m = Ok (Some pd') m' ->
  pd' <> pd /\ forall va, pte_of m' pd' va = pte_of m pd va.
Proof.
  intros [K1 K2 K3 K4 K5 K6 K7 K8 K9]. unfold pagedir_create, palloc_table, mbind, M_bind, get, deref, modify, mret, M_ret.
  rewrite K1, K4.
  destruct (palloc_next false (pages m)) as [a|] eqn:Ha; [|done]. intros [= <- <-].
  destruct (palloc_some _ _ _ Ha) as [Hf _]. assert (Hne : a <> pd) by congruence. split; [done|].
  intros va. unfold pte_of, slot, word. simpl. rewrite lookup_insert_eq, K4.
  destruct (directory ts !! pd_no va) as [pde|] eqn:Hd; [simpl|done]. destruct (pde =? 0) eqn:Hz; [done|]. simpl.
  destruct (decide (pde_get_pt pde = a)) as [E|E]; [|by rewrite lookup_insert_ne].
  exfalso. unfold directory in Hd.
  assert (Hin : pde ∈ pde_create <$> ts).
  { apply list_elem_of_lookup_2 in Hd. rewrite !elem_of_app, !elem_of_replicate in Hd.
    destruct (Z.eqb_spec pde 0); [done|]. destruct Hd as [[? _]|[?|[? _]]]; done. }
  apply list_elem_of_fmap in Hin as (b & -> & Hb). rewrite Forall_forall in K6.
  rewrite pde_get_create in E by (by apply K6). subst b.
  apply list_elem_of_lookup in Hb as [j Hj]. apply K5 in Hj. congruence.
Qed.

Lemma ends_paging_init m0 :
  0 <= init_ram_pages m0 -> PHYS_BASE + init_ram_pages m0 * PGSIZE <= 2 ^ 32 ->
  ends m0 (fun _ m => let pd := init_page_dir m in
      cr3 m = vtop pd /\ pages m0 ⊆ pages m /\
      (forall k, 0 <= k < init_ram_pages m0 -> pte_of m pd (ptov (k * PGSIZE)) = Some (entry k)) /\
      (forall va, is_user_vaddr va = true -> pte_of m pd va = None) /\
      (forall pd' m', pagedir_create m = Ok (Some pd') m' -> pd' <> pd /\
         forall va, pte_of m' pd' va = pte_of m pd va))
    (paging_init m0).
Proof.
  intros Hn Hb. unfold paging_init. apply ends_bind, ends_palloc; [done|]. intros pd Hpd Ho.
  apply ends_bind, ends_wp, wp_modify. apply ends_bind, ends_wp, wp_gets. apply ends_bind. simpl.
  eapply ends_mono; [|apply (ends_paging_loop m0 pd _ 0 None [])].
  - intros [] m (ts & K & Hl). cbn beta. rewrite Z.add_0_l, Z2Nat.id in * by done.
    assert (K' : ram_mapped m0 pd ts (init_ram_pages m0) (load_cr3 (vtop pd) m)) by (destruct K; by split).
    simpl. rewrite (kd_init _ _ _ _ _ K). split_and!; [done|apply K|..].
    + intros k Hk. by apply (mapped_entry m0 pd ts (init_ram_pages m0)).
    + intros va Hva. by apply (mapped_no_user m0 pd ts (init_ram_pages m0)).
    + intros pd' m'. by apply (mapped_copied m0 pd ts (init_ram_pages m0)).
  - split; simpl; try done.
    + apply NoDup_singleton.
    + rewrite lookup_insert_eq. unfold directory. cbn [fmap list_fmap app length]. rewrite <- replicate_add.
      pose proof pd_base. by replace (user_part + (1024 - user_part - 0))%nat with 1024%nat by lia.
    + pose proof pd_base. lia.
    + by apply insert_subseteq.
    + by constructor.
  - done.
  - rewrite Z.add_0_l, Z2Nat.id; done.
  - done.
  - done.
Qed.

(** C16: [paging_init] maps the physical memory.  It panics only when the page allocator has
    run out.  Otherwise the processor uses the new directory, which maps the address of
    every page of the memory to the page, writable unless the page holds the kernel's code,
    and maps no user address; nothing that was allocated before has changed; and a process
    directory that is created next has the same kernel mapping. *)
Theorem paging_init_maps_ram m0 :
  0 <= init_ram_pages m0 -> PHYS_BASE + init_ram_pages m0 * PGSIZE <= 2 ^ 32 ->
  ends m0 (fun _ m => let pd := init_page_dir m in
      cr3 m = vtop pd /\ pages m0 ⊆ pages m /\
      (forall k, 0 <= k < init_ram_pages m0 -> pte_of m pd (ptov (k * PGSIZE)) = Some (entry k)) /\
      (forall va, is_user_vaddr va = true -> pte_of m pd va = None) /\
      (forall pd' m', pagedir_create m = Ok (Some pd') m' -> pd' <> pd /\
         forall va, pte_of m' pd' va = pte_of m pd va))
    (paging_init m0).
Proof. by apply ends_paging_init. Qed.
End kernel_map.

(** ** A memory of 16 pages, of which the second holds the kernel's code *)
#[local] Instance x86_kernel : KernelPaging :=
  {| pte_create_kernel v w := v - x86_base + (if w then 3 else 1);
     start_text := x86_base + 4096; end_kernel_text := x86_base + 8192 |}.
#[local] Instance x86_kernel_laws : KernelPagingLaws.
Proof. split. unfold PGSIZE. simpl. unfold x86_base. intros. dlia. Qed.

Definition bare_machine : vmem := VMem ∅ 0 16 0 [].

Lemma paging_init_maps_ram_witness :
  wp paging_init
     (fun _ m => pte_of m (init_page_dir m) (x86_base + 4096) = Some (4096 + 1) /\
        pte_of m (init_page_dir m) (x86_base + 5 * 4096) = Some (5 * 4096 + 3)) bare_machine.
Proof.
  pose proof (paging_init_maps_ram bare_machine ltac:(vm_compute; discriminate) ltac:(vm_compute; discriminate)) as H.
  unfold wp. destruct (paging_init bare_machine) as [[] m|f] eqn:E.
  - destruct H as (_ & _ & H & _). split.
    + exact (H 1 ltac:(vm_compute; split; congruence)).
    + exact (H 5 ltac:(vm_compute; split; congruence)).
  - assert (Hok : match paging_init bare_machine with Ok _ _ => true | Fail _ => false end = true)
      by (vm_compute; reflexivity).
    rewrite E in Hok. discriminate.
Defined.
