(* ===== verification/Pageops.v ===== *)
(** * Pageops: sequences of operations on a page directory.

    The theorems of Pagedir are about one operation.  Here a whole program of operations
    runs on a directory: well-formed memory stays well-formed, and the only fault that
    such a program can have is the assertion that a page is mapped once
    ([page_directory_typed]). *)
From S2P Require Import Prelude Pagedir.
From Stdlib Require Import ZArith Lia.
From stdpp Require Import prelude gmap.

Open Scope Z_scope.

(** The operations of [pagedir.c] on one directory; results are dropped. *)
Inductive pd_op :=
| Map (u k : Z) (writable : bool) | Look_up (u o : Z) | Unmap (u : Z)
| Is_dirty (u : Z) | Set_dirty (u : Z) (b : bool)
| Is_accessed (u : Z) | Set_accessed (u : Z) (b : bool)
| Set_writable (u : Z) (b : bool) | Activate.

Section operations.
Context {pg : Paging} {pl : PagingLaws}.
Implicit Types (m : vmem) (pd u k : Z).

Definition perform pd (op : pd_op) : M vmem unit :=
  match op with
  | Map u k w => pagedir_set_page pd u k w;; mret tt
  | Look_up u o => pagedir_get_page pd (u + o);; mret tt
  | Unmap u => pagedir_clear_page pd u
  | Is_dirty u => pagedir_is_dirty pd u;; mret tt
  | Set_dirty u b => pagedir_set_dirty pd u b
  | Is_accessed u => pagedir_is_accessed pd u;; mret tt
  | Set_accessed u b => pagedir_set_accessed pd u b
  | Set_writable u b => pagedir_set_writable pd u b
  | Activate => pagedir_activate (Some pd)
  end.

(** The address of a user page; the frame is a page of the memory. *)
Definition user_page u : Prop := is_user_vaddr u = true /\ pg_ofs u = 0.
Definition well_typed m (op : pd_op) : Prop :=
  match op with
  | Map u k _ => user_page u /\ pg_ofs k = 0 /\ Z.shiftr (vtop k) PTSHIFT < init_ram_pages m
  | Look_up u o => user_page u /\ 0 <= o < PGSIZE
  | Unmap u | Is_dirty u | Set_dirty u _ | Is_accessed u | Set_accessed u _ | Set_writable u _ => user_page u
  | Activate => True
  end.

(** A page that is mapped already. *)
Lemma set_page_mapped m pd u k w :
  pd_wf m pd -> pd <> init_page_dir m -> well_typed m (Map u k w) -> mapping m pd u <> None ->
  pagedir_set_page pd u k w m = Fail Panic.
Proof.
  intros W Hi [[Hu Ho] [Hk Hram]] Hm. unfold pagedir_set_page.
  apply fails_rest, wp_get. do 5 (apply fails_rest, wp_assert; [zcase|]).
  assert (Hs : is_Some (slot m pd u)) by (unfold mapping, pte_of in Hm; destruct (slot m pd u); [by eexists|done]).
  apply fails_rest, wp_lookup_create; [done|done|..].
  - intros [pt i] Hp. destruct (slot_word m pd u _ W Hu Hp) as (_ & _ & _ & v & Hv).
    apply fails_rest. eapply wp_load_word; [exact Hv|]. unfold mapping, pte_of in Hm. rewrite Hp in Hm.
    simpl in Hm. rewrite Hv in Hm. simpl in Hm. by destruct (has PTE_P v).
  - intros Hn. rewrite Hn in Hs. by destruct Hs.
  - intros p m' Hn. rewrite Hn in Hs. by destruct Hs.
Qed.

(** An operation on a well-formed directory. *)
Lemma wp_perform m pd op :
  pd_wf m pd -> pd <> init_page_dir m -> well_typed m op ->
  (forall u k w, op = Map u k w -> mapping m pd u = None) ->
  wp (perform pd op) (fun _ m' => pd_wf m' pd /\ mem_keep m m') m.
Proof.
  intros W Hi Ht Hm. assert (Hk : mem_keep m m) by done.
  assert (Hstep : forall X m', pte_step X m m' pd -> pd_wf m' pd /\ mem_keep m m') by (intros X m' []; done).
  assert (F : forall b, b ∈ [bit_W; bit_A; bit_D] -> a_flag b /\ b <> bit_P).
  { destruct flag_bits as [Hnd _]. repeat rewrite NoDup_cons in Hnd. unfold a_flag. set_solver. }
  destruct op as [u k w|u o|u|u|u b|u|u b|u b|]; simpl in *.
  - destruct Ht as ([Hu Ho] & Hk' & Hram). apply wp_bind, wp_set_page; [done..|by eapply Hm| |].
    + intros _ _. by apply wp_ret.
    + intros m' Hs _. by eapply wp_ret, Hstep.
  - destruct Ht as [[Hu Ho] Hr]. by apply wp_bind, wp_pagedir_get_page.
  - destruct Ht as [Hu Ho]. apply wp_clear_page; [done..|]. intros m' Hs _. by eapply Hstep.
  - destruct Ht as [Hu Ho]. by apply wp_bind, wp_pte_test.
  - destruct Ht as [Hu Ho]. apply wp_change_flag; [apply F; set_solver|apply F; set_solver|done..|]. intros m' Hs _ _ _. by eapply Hstep.
  - destruct Ht as [Hu Ho]. by apply wp_bind, wp_pte_test.
  - destruct Ht as [Hu Ho]. apply wp_change_flag; [apply F; set_solver|apply F; set_solver|done..|]. intros m' Hs _ _ _. by eapply Hstep.
  - destruct Ht as [Hu Ho]. apply wp_change_flag; [apply F; set_solver|apply F; set_solver|done..|]. intros m' Hs _ _ _. by eapply Hstep.
  - apply wp_bind, wp_get, wp_modify. split; [by apply (same_tables m)|]. by apply keep_same.
Qed.

Lemma typed_keep m m' op : mem_keep m m' -> well_typed m op -> well_typed m' op.
Proof. intros [_ Hr _ _] H. destruct op; simpl in *; rewrite ?Hr; done. Qed.

Lemma remaps_dec m pd op :
  (exists u k w, op = Map u k w /\ mapping m pd u <> None) \/ (forall u k w, op = Map u k w -> mapping m pd u = None).
Proof.
  destruct op as [u k w| | | | | | | |]; try (right; intros; done).
  destruct (mapping m pd u) eqn:E; [left; exists u, k, w; by rewrite E|right]. by intros ??? [= <- _ _].
Qed.

(** C28: Programs of page directory operations.  Run on a well-formed directory of a process,
    operations on user pages and frames never access memory out of bounds and never fail an
    assertion, except that of [pagedir_set_page] that the page is not mapped: if the program
    does not end, it panics at the first such operation.  If it ends, the directory is
    well-formed, and the pages of memory that are no tables are as before. *)
Theorem page_directory_typed pd ops m :
  pd_wf m pd -> pd <> init_page_dir m -> Forall (well_typed m) ops ->
  match for_each ops (perform pd) m with
  | Ok _ m' => pd_wf m' pd /\ mem_keep m m'
  | Fail f => f = Panic /\ exists ops1 u k w ops2 m1, ops = ops1 ++ Map u k w :: ops2 /\
      for_each ops1 (perform pd) m = Ok tt m1 /\ mapping m1 pd u <> None
  end.
Proof.
  revert m. induction ops as [|op ops IH]; intros m W Hi Ht; [done|].
  apply Forall_cons in Ht as [Hop Ht]. cbn [for_each]. unfold mbind, M_bind.
  destruct (remaps_dec m pd op) as [(u & k & w & -> & Hm)|Hno].
  - simpl. unfold mbind, M_bind. rewrite set_page_mapped by done.
    split; [done|]. by exists [], u, k, w, ops, m.
  - pose proof (wp_perform m pd op W Hi Hop) as Hw. unfold wp in Hw.
    destruct (perform pd op m) as [[] m1|f] eqn:E; [|by destruct Hw].
    + destruct Hw as [W1 K1]; [exact Hno|].
      specialize (IH m1 W1). rewrite (mk_init _ _ K1) in IH.
      assert (Ht1 : Forall (well_typed m1) ops) by (eapply Forall_impl; [exact Ht|]; intros; by eapply typed_keep).
      specialize (IH Hi Ht1). destruct (for_each ops (perform pd) m1) as [[] m2|f].
      * split; [apply IH|]. etransitivity; [exact K1|apply IH].
      * destruct IH as (-> & ops1 & u & k & w & ops2 & m3 & -> & H1 & H2). split; [done|].
        exists (op :: ops1), u, k, w, ops2, m3. split; [done|]. split; [|done].
        cbn [for_each]. unfold mbind, M_bind. by rewrite E.
Qed.
End operations.

(** ** A program on the directory [user_dir] *)
Definition map_and_back : list pd_op :=
  [Map code_page user_frame true; Set_dirty code_page true; Look_up code_page 8; Unmap code_page; Activate].

Lemma map_and_back_typed : Forall (well_typed vm1) map_and_back.
Proof.
  assert (Hu : user_page code_page) by by split. unfold PGSIZE.
  repeat constructor; try done; vm_compute; congruence.
Qed.

Lemma page_directory_typed_witness :
  match for_each map_and_back (perform user_dir) vm1 with
  | Ok _ m => pd_wf m user_dir /\ mem_keep vm1 m
  | Fail _ => False
  end.
Proof.
  pose proof (page_directory_typed user_dir map_and_back vm1 vm1_wf ltac:(vm_compute; discriminate) map_and_back_typed) as H.
  assert (Hok : match for_each map_and_back (perform user_dir) vm1 with Ok _ _ => true | Fail _ => false end = true)
    by (vm_compute; reflexivity).
  destruct (for_each map_and_back (perform user_dir) vm1); [exact H|discriminate].
Defined.
