(* ===== verification/Vm.v ===== *)
(** * Vm: frames ([vm/frame.c]), supplemental page tables ([vm/suppage.c]), swap
    ([vm/swap.c]) and the functions of [process.c] that install pages.

    The definitions; the theorems are in Paging.  A frame table entry, a supplemental
    page and a shared frame are objects in heaps indexed by numbers.  The address space of
    a process is its page directory (Pagedir) and its list of supplemental pages.  One
    thread runs at a time; the locks it holds are in the state of the file system, whose
    [held] set has [frame_lock] and [swap_lock] too. *)
From S2P Require Import Prelude Bytes State Instances Cache FreeMap Inode InodeData File Pagedir.
From Stdlib Require Import ZArith Lia.
From stdpp Require Import prelude gmap.

Open Scope Z_scope.

(** ** Data *)
Inductive page_type := FILE | MMAP | SWAP | SHARE.
#[export] Instance page_type_eq_dec : EqDecision page_type.
Proof. solve_decision. Defined.

(** [struct frame_elem]; [fr_read_bytes] is [page_read_bytes]. *)
Record frame_elem := FrameElem {
  fr_kpage : Z;
  fr_spt : nat;
  fr_shared : option nat;
  fr_load : bool;
  fr_file : option nat;
  fr_index : Z;
  fr_type : page_type;
  fr_ofs : Z;
  fr_read_bytes : Z;
  fr_writable : bool;
}.

(** [struct sup_page_table]. *)
Record sup_page_table := Spt { sp_upage : Z; sp_frame : nat; sp_thread : nat }.

(** What the paging code uses of [struct thread]. *)
Record process := Process {
  pr_pagedir : option Z;
  pr_page_table : list nat;         (* the supplemental pages, in list order *)
}.

(** The state: the file system with its open files, the memory, the processes and the
    running one, the heaps, and the swap device with the map of its slots.
    [shareds] gives the [spt_list] of a [struct shared_frame]. *)
Record vm (D B W : Type) := Vm {
  vm_os : os D B;
  vm_mem : vmem;
  procs : gmap nat process;
  running : nat;
  frames : gmap nat frame_elem;
  frame_table : list nat;
  spts : gmap nat sup_page_table;
  shareds : gmap nat (list nat);
  next_obj : nat;
  swap_block : W;
  swap_bitmap : B;
}.
Arguments Vm {D B W}. Arguments vm_os {D B W}. Arguments vm_mem {D B W}.
Arguments procs {D B W}. Arguments running {D B W}. Arguments frames {D B W}.
Arguments frame_table {D B W}. Arguments spts {D B W}. Arguments shareds {D B W}.
Arguments next_obj {D B W}. Arguments swap_block {D B W}. Arguments swap_bitmap {D B W}.

Definition set_kpage x e := FrameElem x (fr_spt e) (fr_shared e) (fr_load e) (fr_file e) (fr_index e) (fr_type e) (fr_ofs e) (fr_read_bytes e) (fr_writable e).
Definition set_spt x e := FrameElem (fr_kpage e) x (fr_shared e) (fr_load e) (fr_file e) (fr_index e) (fr_type e) (fr_ofs e) (fr_read_bytes e) (fr_writable e).
Definition set_shared x e := FrameElem (fr_kpage e) (fr_spt e) x (fr_load e) (fr_file e) (fr_index e) (fr_type e) (fr_ofs e) (fr_read_bytes e) (fr_writable e).
Definition set_load x e := FrameElem (fr_kpage e) (fr_spt e) (fr_shared e) x (fr_file e) (fr_index e) (fr_type e) (fr_ofs e) (fr_read_bytes e) (fr_writable e).
Definition set_index x e := FrameElem (fr_kpage e) (fr_spt e) (fr_shared e) (fr_load e) (fr_file e) x (fr_type e) (fr_ofs e) (fr_read_bytes e) (fr_writable e).
Definition set_type x e := FrameElem (fr_kpage e) (fr_spt e) (fr_shared e) (fr_load e) (fr_file e) (fr_index e) x (fr_ofs e) (fr_read_bytes e) (fr_writable e).
Definition set_frame_writable x e := FrameElem (fr_kpage e) (fr_spt e) (fr_shared e) (fr_load e) (fr_file e) (fr_index e) (fr_type e) (fr_ofs e) (fr_read_bytes e) x.

(** [-1] as a [size_t], also [BITMAP_ERROR]. *)
Definition SIZE_MAX : Z := UINT32 - 1.
(** [PGSIZE / BLOCK_SECTOR_SIZE]. *)
Definition PAGE_SECTORS : Z := 8.

Section vm.
Context {D B W : Type} {dev : BlockDev D} {bm : Bitmap B} {io : BitmapIO D B} {mem : Memory}
  {sdev : BlockDev W} {pg : Paging}.
Abbreviation vm := (vm D B W).
Abbreviation K := (M vm).
Implicit Types (s : vm) (f p : nat).

Definition set_os x s : vm := Vm x (vm_mem s) (procs s) (running s) (frames s) (frame_table s) (spts s) (shareds s) (next_obj s) (swap_block s) (swap_bitmap s).
Definition set_mem x s : vm := Vm (vm_os s) x (procs s) (running s) (frames s) (frame_table s) (spts s) (shareds s) (next_obj s) (swap_block s) (swap_bitmap s).
Definition set_procs x s : vm := Vm (vm_os s) (vm_mem s) x (running s) (frames s) (frame_table s) (spts s) (shareds s) (next_obj s) (swap_block s) (swap_bitmap s).
Definition set_frames x s : vm := Vm (vm_os s) (vm_mem s) (procs s) (running s) x (frame_table s) (spts s) (shareds s) (next_obj s) (swap_block s) (swap_bitmap s).
Definition set_table x s : vm := Vm (vm_os s) (vm_mem s) (procs s) (running s) (frames s) x (spts s) (shareds s) (next_obj s) (swap_block s) (swap_bitmap s).
Definition set_spts x s : vm := Vm (vm_os s) (vm_mem s) (procs s) (running s) (frames s) (frame_table s) x (shareds s) (next_obj s) (swap_block s) (swap_bitmap s).
Definition set_shareds x s : vm := Vm (vm_os s) (vm_mem s) (procs s) (running s) (frames s) (frame_table s) (spts s) x (next_obj s) (swap_block s) (swap_bitmap s).
Definition set_next_obj x s : vm := Vm (vm_os s) (vm_mem s) (procs s) (running s) (frames s) (frame_table s) (spts s) (shareds s) x (swap_block s) (swap_bitmap s).
Definition set_swap_block x s : vm := Vm (vm_os s) (vm_mem s) (procs s) (running s) (frames s) (frame_table s) (spts s) (shareds s) (next_obj s) x (swap_bitmap s).
Definition set_swap_bitmap x s : vm := Vm (vm_os s) (vm_mem s) (procs s) (running s) (frames s) (frame_table s) (spts s) (shareds s) (next_obj s) (swap_block s) x.

(** ** The layers below *)
Definition lift_os {A} (m : M (os D B) A) : K A := fun s =>
  match m (vm_os s) with Ok a x => Ok a (set_os x s) | Fail f => Fail f end.
Definition lift_mem {A} (m : M vmem A) : K A := fun s =>
  match m (vm_mem s) with Ok a x => Ok a (set_mem x s) | Fail f => Fail f end.
Definition lift_fs {A} (m : M (fs D B) A) : K A := lift_os (lift m).

Definition acquire (l : lockid) : K unit := lift_fs (lock_acquire l).
Definition release (l : lockid) : K unit := lift_fs (lock_release l).
(** [if (l.holder != thread_current ()) lock_acquire (&l)] *)
Definition acquire_unless_held (l : lockid) : K unit :=
  h ← lift_fs (holds l); when (negb h) (acquire l).

(** An access that is valid if [c] holds. *)
Definition access (c : bool) : K unit := if c then mret tt else fail BadAccess.

(** *** Objects *)
Definition load_frame f : K frame_elem := s ← get; deref (frames s !! f).
Definition store_frame f (g : frame_elem -> frame_elem) : K unit :=
  e ← load_frame f; modify (fun s => set_frames (<[f := g e]> (frames s)) s).
Definition load_spt p : K sup_page_table := s ← get; deref (spts s !! p).
Definition load_proc (t : nat) : K process := s ← get; deref (procs s !! t).
Definition store_proc (t : nat) (g : process -> process) : K unit :=
  x ← load_proc t; modify (fun s => set_procs (<[t := g x]> (procs s)) s).
(** [t->pagedir], for a call that follows the pointer. *)
Definition pagedir_of (t : nat) : K Z := x ← load_proc t; deref (pr_pagedir x).
Definition current_pagedir : K Z := t ← gets running; pagedir_of t.

(** The address of a new object; [malloc] is not checked. *)
Definition new_address : K nat :=
  p ← gets next_obj;
  access malloc_ok;;
  modify (set_next_obj (S p));; mret p.
Definition free_frame_elem f : K unit :=
  load_frame f;; modify (fun s => set_frames (delete f (frames s)) s).

(** *** Pages and lists *)
Definition palloc_get_page (flags : Z) : M vmem (option Z) :=
  m ← get;
  match palloc_next (has PAL_USER flags) (pages m) with
  | Some a =>
    let c := if has PAL_ZERO flags then replicate (Z.to_nat PGSIZE) 0 else stale (pages m) a in
    modify (set_pages (<[a := Data c]> (pages m)));; mret (Some a)
  | None => mret None
  end.

Definition load_page (a : Z) : K (list Z) :=
  s ← get; match pages (vm_mem s) !! a with Some (Data c) => mret c | _ => fail BadAccess end.
Definition store_page (a : Z) (c : list Z) : K unit :=
  load_page a;; modify (fun s => set_mem (set_pages (<[a := Data c]> (pages (vm_mem s))) (vm_mem s)) s).

(** [list_remove (&frame->elem)] and [list_push_back (&frame_table, &frame->elem)]. *)
Definition table_remove f : K unit :=
  l ← gets frame_table;
  if decide (f ∈ l) then modify (set_table (filter (fun x => x <> f) l)) else fail BadAccess.
Definition table_push f : K unit := modify (fun s => set_table (frame_table s ++ [f]) s).

(** A loop over [frame_table] up to the first entry that satisfies [P]. *)
Fixpoint find_frame_from (P : frame_elem -> K bool) (l : list nat) : K (option nat) :=
  match l with
  | [] => mret None
  | f :: rest =>
    e ← load_frame f;
    b ← P e;
    if b : bool then mret (Some f) else find_frame_from P rest
  end.

(** ** [frame.c] *)
Definition frame_table_init : K unit := modify (set_table []).

Definition frame_get_kpage (flags : Z) : K (option Z) :=
  if Z.land flags PAL_USER =? 0 then mret None else lift_mem (palloc_get_page flags).

Definition frame_destroy (kpage : Z) : K unit :=
  acquire frame_lock;;
  l ← gets frame_table;
  r ← find_frame_from (fun e => mret (fr_kpage e =? kpage)) l;
  match r with
  | Some f => table_remove f;; free_frame_elem f;; lift_mem (palloc_free_page kpage)
  | None => mret tt
  end;;
  release frame_lock.

Definition frame_find (kpage : Z) : K (option nat) :=
  acquire frame_lock;;
  l ← gets frame_table;
  r ← find_frame_from (fun e => mret (fr_kpage e =? kpage)) l;
  release frame_lock;;
  mret r.

(** [bitmap_flip (swap_bitmap, index)]. *)
Definition flip_slot (index : Z) : K unit :=
  b ← gets swap_bitmap;
  access ((0 <=? index) && (index <? bitmap_size b));;
  modify (set_swap_bitmap (bitmap_flip b index)).

Definition frame_free f : K unit :=
  acquire_unless_held frame_lock;;
  e ← load_frame f;
  match fr_shared e with
  | None =>
    (if bool_decide (fr_type e <> FILE) then
       if fr_load e then table_remove f;; lift_mem (palloc_free_page (fr_kpage e))
       else when (negb (fr_index e =? SIZE_MAX))
              (acquire swap_lock;; flip_slot (fr_index e);; release swap_lock)
     else when (fr_load e) (table_remove f;; lift_mem (palloc_free_page (fr_kpage e))));;
    free_frame_elem f
  | Some _ => mret tt
  end;;
  release frame_lock.

(** [type == FILE || type == MMAP] *)
Definition from_file (t : page_type) : bool := bool_decide (t = FILE) || bool_decide (t = MMAP).

(** [e0] is what the memory from [malloc] holds: the fields [spt], and for a page that is
    not from a file also [file], [ofs] and [page_read_bytes], are not set. *)
Definition frame_table_insert (e0 : frame_elem) (kpage : Z) (file : option nat) (type : page_type)
    (ofs read_bytes : Z) (writable : bool) : K nat :=
  f ← new_address;
  let e := if from_file type
    then FrameElem kpage (fr_spt e0) (fr_shared e0) false file SIZE_MAX type ofs read_bytes (fr_writable e0)
    else FrameElem kpage (fr_spt e0) (fr_shared e0) true (fr_file e0) SIZE_MAX type (fr_ofs e0)
           (fr_read_bytes e0) (fr_writable e0) in
  modify (fun s => set_frames (<[f := e]> (frames s)) s);;
  when (negb (from_file type)) (acquire frame_lock;; table_push f;; release frame_lock);;
  store_frame f (fun e => set_shared None (set_frame_writable writable e));;
  mret f.

(** [fe->file->inode == file->inode && ...], for pointers that are not [NULL]. *)
Definition same_page_of_file (e : frame_elem) (p q : nat) (ofs read_bytes : Z) : K bool :=
  x ← lift_os (load_file p);
  y ← lift_os (load_file q);
  mret ((f_inode x =? f_inode y)%nat && (fr_ofs e =? ofs) && (fr_read_bytes e =? read_bytes)).

Definition check_match (file : option nat) (ofs read_bytes : Z) : K (option nat) :=
  acquire frame_lock;;
  l ← gets frame_table;
  r ← find_frame_from (fun e =>
    sp ← load_spt (fr_spt e);
    load_proc (sp_thread sp);;
    match fr_file e, file with
    | Some p, Some q =>
      assert (negb (fr_kpage e =? 0));;
      pd ← pagedir_of (sp_thread sp);
      dirty ← lift_mem (pagedir_is_dirty pd (fr_kpage e));
      if dirty : bool then mret false else same_page_of_file e p q ofs read_bytes
    | _, _ => mret false
    end) l;
  release frame_lock;;
  mret r.
(** ** [suppage.c] *)
Definition spt_init (upage : Z) f : K nat :=
  p ← new_address;
  t ← gets running;
  modify (fun s => set_spts (<[p := Spt upage f t]> (spts s)) s);;
  store_frame f (set_spt p);;
  store_proc t (fun x => Process (pr_pagedir x) (pr_page_table x ++ [p]));;
  mret p.

(** [list_remove (&spt->elem)]: from the list of the thread it was created for. *)
Definition page_table_remove (t : nat) p : K unit :=
  x ← load_proc t;
  if decide (p ∈ pr_page_table x)
  then store_proc t (fun x => Process (pr_pagedir x) (filter (fun q => q <> p) (pr_page_table x)))
  else fail BadAccess.

Definition spt_free p : K unit :=
  sp ← load_spt p;
  e ← load_frame (sp_frame sp);
  when (fr_load e) (pd ← current_pagedir; lift_mem (pagedir_clear_page pd (sp_upage sp)));;
  page_table_remove (sp_thread sp) p;;
  match fr_shared e with
  | Some sh =>
    acquire_unless_held frame_lock;;
    s ← get;
    l ← deref (shareds s !! sh);
    access (bool_decide (p ∈ l));;
    let l' := filter (fun q => q <> p) l in
    modify (set_shareds (<[sh := l']> (shareds s)));;
    match l' with
    | [] => modify (fun s => set_shareds (delete sh (shareds s)) s);; store_frame (sp_frame sp) (set_shared None)
    | q :: _ => when (fr_spt e =? p)%nat (store_frame (sp_frame sp) (set_spt q))
    end;;
    release frame_lock
  | None => mret tt
  end;;
  modify (fun s => set_spts (delete p (spts s)) s).

(** A loop over the page table of the running thread. *)
Fixpoint find_spt_from (P : sup_page_table -> K bool) (l : list nat) : K (option nat) :=
  match l with
  | [] => mret None
  | p :: rest =>
    sp ← load_spt p;
    b ← P sp;
    if b : bool then mret (Some p) else find_spt_from P rest
  end.

Definition find_spt (upage : Z) : K (option nat) :=
  t ← gets running; x ← load_proc t;
  find_spt_from (fun sp => mret (sp_upage sp =? upage)) (pr_page_table x).

Definition find_page (kpage : Z) : K (option nat) :=
  t ← gets running; x ← load_proc t;
  find_spt_from (fun sp =>
    e ← load_frame (sp_frame sp);
    mret (fr_load e && (fr_kpage e =? kpage))) (pr_page_table x).

(** ** [swap.c] *)
Definition init_swap (role : option W) : K unit :=
  b ← deref role;
  m ← deref (bitmap_create (dev_sectors (D := W) / PAGE_SECTORS));
  modify (fun s => set_swap_bitmap (bitmap_set_all m false) (set_swap_block b s)).

(** The sector [i] of the slot [index]; the device panics on a sector outside it. *)
Definition swap_sector (index i : Z) : Z := u32 (index * PAGE_SECTORS + i).
Definition swap_write (index i : Z) (b : list Z) : K unit :=
  assert (valid_sector (D := W) (swap_sector index i));;
  modify (fun s => set_swap_block (block_write (swap_block s) (swap_sector index i) b) s).
Definition swap_read (index i : Z) : K (list Z) :=
  assert (valid_sector (D := W) (swap_sector index i));;
  gets (fun s => block_read (swap_block s) (swap_sector index i)).

Definition sout f : K Z :=
  acquire swap_lock;;
  store_frame f (set_type SWAP);;
  b ← gets swap_bitmap;
  let '(r, b') := bitmap_scan_and_flip b 0 1 false in
  modify (set_swap_bitmap b');;
  let index := default SIZE_MAX r in
  e ← load_frame f;
  for_up 0 (Z.to_nat PAGE_SECTORS) (fun i =>
    c ← load_page (fr_kpage e);
    swap_write index i (slice (i * SECTOR) SECTOR c));;
  release swap_lock;;
  mret index.

Definition sback (index : Z) f : K unit :=
  acquire swap_lock;;
  flip_slot index;;
  e ← load_frame f;
  for_up 0 (Z.to_nat PAGE_SECTORS) (fun i =>
    b ← swap_read index i;
    c ← load_page (fr_kpage e);
    c' ← deref (memcpy c (i * SECTOR) b);
    store_page (fr_kpage e) c');;
  release swap_lock.

(** The choice of [evict]: a page that was used since the last look gets another chance. *)
Definition evictable (e : frame_elem) : K bool :=
  sp ← load_spt (fr_spt e);
  pd ← current_pagedir;
  a ← lift_mem (pagedir_is_accessed pd (sp_upage sp));
  if a : bool then lift_mem (pagedir_set_accessed pd (sp_upage sp) false);; mret false
  else
    d ← lift_mem (pagedir_is_dirty pd (sp_upage sp));
    mret (negb d).

(** [pagedir_is_dirty (thread_current ()->pagedir, spt->upage)] *)
Definition dirty_now (sp : sup_page_table) : K bool :=
  pd ← current_pagedir; lift_mem (pagedir_is_dirty pd (sp_upage sp)).

(** The eviction of a page that is not shared: to its file, to swap, or nowhere. *)
Definition evict_to_disk f : K unit :=
  e ← load_frame f;
  (if bool_decide (fr_type e = MMAP) then
     sp ← load_spt (fr_spt e);
     d ← dirty_now sp;
     when d
       (acquire_unless_held file_lock;;
        q ← deref (fr_file e);
        c ← load_page (fr_kpage e);
        lift_os (file_write_at q c (s32 (fr_read_bytes e)) (fr_ofs e));;
        release file_lock)
   else
     d ← (if bool_decide (fr_type e <> FILE) then mret true
          else (sp ← load_spt (fr_spt e); dirty_now sp));
     when d
       (store_frame f (set_type SWAP);;
        index ← sout f;
        store_frame f (set_index index))).

(** The loops over [shared->spt_list] use a copy of the list's header: the walk does not
    meet the end of the copy, and goes on past the last element. *)
Definition for_copied_list (l : list nat) (body : nat -> K unit) : K unit :=
  for_each l body;; fail BadAccess.

Definition evict : K unit :=
  acquire frame_lock;;
  l ← gets frame_table;
  r ← find_frame_from evictable l;
  f ← deref (match r with Some f => Some f | None => head l end);
  table_remove f;;
  store_frame f (set_load false);;
  e ← load_frame f;
  match fr_shared e with
  | Some sh =>
    lift_mem (palloc_free_page (fr_kpage e));;
    s ← get;
    spt_list ← deref (shareds s !! sh);
    for_copied_list spt_list (fun p =>
      sp ← load_spt p; pd ← pagedir_of (sp_thread sp);
      lift_mem (pagedir_clear_page pd (sp_upage sp)))
  | None =>
    evict_to_disk f;;
    sp ← load_spt (fr_spt e);
    pd ← pagedir_of (sp_thread sp);
    lift_mem (pagedir_clear_page pd (sp_upage sp));;
    lift_mem (palloc_free_page (fr_kpage e));;
    release frame_lock
  end.

(** [while (!kpage) { evict (); kpage = frame_get_kpage (flags); }] *)
Fixpoint get_kpage (fuel : nat) (flags : Z) : K Z :=
  o ← frame_get_kpage flags;
  match o, fuel with
  | Some k, _ => mret k
  | None, O => fail Hang
  | None, S fuel => evict;; get_kpage fuel flags
  end.
(** ** Mapping a page ([process.c]) *)
Definition install_page (upage kpage : Z) (writable : bool) : K bool :=
  pd ← current_pagedir;
  o ← lift_mem (pagedir_get_page pd upage);
  match o with
  | None => lift_mem (pagedir_set_page pd upage kpage writable)
  | Some _ => mret false
  end.

(** ** Bringing a page back ([swap.c]) *)
Definition page_back p : K bool :=
  sp ← load_spt p;
  let f := sp_frame sp in
  kpage ← get_kpage 1 PAL_USER;
  assert (negb (kpage =? 0));;
  acquire frame_lock;;
  store_frame f (set_kpage kpage);;
  e ← load_frame f;
  sback (fr_index e) f;;
  success ← install_page (sp_upage sp) kpage (fr_writable e);
  when success (table_push f;; store_frame f (set_load true));;
  release frame_lock;;
  mret true.

(** The bytes of a page from its file: [page_read_bytes] are read, the rest is zero. *)
Definition read_page (e : frame_elem) (kpage : Z) : K bool :=
  acquire_unless_held file_lock;;
  q ← deref (fr_file e);
  b ← lift_os (file_read_at q (s32 (fr_read_bytes e)) (fr_ofs e));
  c ← load_page kpage;
  c ← deref (memcpy c 0 b);
  store_page kpage c;;
  if negb (Z.of_nat (length b) =? s32 (fr_read_bytes e)) then
    lift_mem (palloc_free_page kpage);; release file_lock;; mret false
  else
    c ← deref (memset c (fr_read_bytes e) 0 (PGSIZE - fr_read_bytes e));
    store_page kpage c;;
    release file_lock;;
    mret true.

Definition file_back p : K bool :=
  sp ← load_spt p;
  let f := sp_frame sp in
  e ← load_frame f;
  kpage ← get_kpage 1 (if fr_read_bytes e =? 0 then Z.lor PAL_USER PAL_ZERO else PAL_USER);
  store_frame f (set_kpage kpage);;
  e ← load_frame f;
  assert (is_kernel_vaddr kpage);;
  ok ← (if 0 <? fr_read_bytes e then read_page e kpage else mret true);
  if ok : bool then
    match fr_shared e with
    | Some sh =>
      s ← get;
      spt_list ← deref (shareds s !! sh);
      for_copied_list spt_list (fun p =>
        sp ← load_spt p; pd ← pagedir_of (sp_thread sp);
        o ← lift_mem (pagedir_get_page pd (sp_upage sp));
        match o with
        | None => lift_mem (pagedir_set_page pd (sp_upage sp) kpage false);; mret tt
        | Some _ => mret tt
        end);;
      mret true
    | None =>
      success ← install_page (sp_upage sp) kpage (fr_writable e);
      when success
        (acquire frame_lock;; store_frame f (set_load true);; table_push f;; release frame_lock);;
      mret success
    end
  else mret false.

(** A [SHARE] page has no case: the function ends without a value. *)
Definition load_back (o : option nat) : K bool :=
  match o with
  | None => mret false
  | Some p =>
    sp ← load_spt p;
    e ← load_frame (sp_frame sp);
    match fr_type e with
    | FILE | MMAP => file_back p
    | SWAP => page_back p
    | SHARE => fail BadAccess
    end
  end.

(** ** New pages ([process.c]) *)

(** [list_push_back (&match->shared, &spt->felem)]: the argument is the address of the
    pointer [shared], and not of the list in the object it points to, so that the fields
    next to the pointer are used as a list. *)
Definition push_on_pointer : K unit := fail BadAccess.

Definition install_file (e0 : frame_elem) (upage : Z) (file : option nat) (type : page_type)
    (ofs read_bytes : Z) (writable : bool) : K bool :=
  r ← check_match file ofs read_bytes;
  match r, from_file type with
  | Some f, true =>
    e ← load_frame f;
    match fr_shared e with
    | None =>
      sh ← new_address;
      modify (fun s => set_shareds (<[sh := []]> (shareds s)) s);;
      store_frame f (fun e => set_frame_writable false (set_shared (Some sh) e));;
      sp ← load_spt (fr_spt e);
      pd ← pagedir_of (sp_thread sp);
      lift_mem (pagedir_set_writable pd (fr_kpage e) false)
    | Some _ => mret tt
    end;;
    spt_init upage f;;
    push_on_pointer;;
    install_page upage (fr_kpage e) false
  | _, _ =>
    f ← frame_table_insert e0 0 file type ofs read_bytes writable;
    p ← spt_init upage f;
    pd ← current_pagedir;
    lift_mem (pagedir_clear_page pd upage);;
    mret true
  end.

(** [pg_round_down (upage) == upage] is [pg_ofs (upage) == 0]. *)
Definition install_frame (e0 : frame_elem) (upage kpage : Z) (writable : bool) (file : option nat)
    (type : page_type) (ofs read_bytes : Z) : K bool :=
  assert (pg_ofs upage =? 0);;
  if from_file type then install_file e0 upage file type ofs read_bytes writable
  else
    f ← frame_table_insert e0 kpage file type ofs read_bytes writable;
    spt_init upage f;;
    install_page upage kpage writable.
End vm.

(** ** Rules *)
Section rules.
Context {D B W : Type} {dev : BlockDev D} {bm : Bitmap B} {io : BitmapIO D B} {mem : Memory}
  {sdev : BlockDev W} {pg : Paging}.
Abbreviation vm := (vm D B W).
Implicit Types (s : vm) (f p : nat).

Lemma wp_lift_os {A} (m : M (os D B) A) s (Q : A -> vm -> Prop) :
  wp m (fun a x => Q a (set_os x s)) (vm_os s) -> wp (lift_os m) Q s.
Proof. unfold wp, lift_os. by destruct (m (vm_os s)). Qed.
Lemma wp_lift_mem {A} (m : M vmem A) s (Q : A -> vm -> Prop) :
  wp m (fun a x => Q a (set_mem x s)) (vm_mem s) -> wp (lift_mem m) Q s.
Proof. unfold wp, lift_mem. by destruct (m (vm_mem s)). Qed.

(** The locks the running thread holds. *)
Definition locks_of s : gset lockid := held (os_fs (vm_os s)).
Definition with_locks (h : gset lockid) s : vm :=
  set_os (set_fs (set_held h (os_fs (vm_os s))) (vm_os s)) s.

Lemma with_locks_same s : with_locks (locks_of s) s = s.
Proof. by destruct s as [[[]]]. Qed.
Lemma with_locks_twice h h' s : with_locks h (with_locks h' s) = with_locks h s.
Proof. done. Qed.
Lemma locks_of_with h s : locks_of (with_locks h s) = h.
Proof. done. Qed.

Lemma wp_acquire l s (Q : unit -> vm -> Prop) :
  l ∉ locks_of s -> Q tt (with_locks ({[l]} ∪ locks_of s) s) -> wp (acquire l) Q s.
Proof. intros Hl HQ. apply wp_lift_os, wp_lift, wp_lock_acquire; done. Qed.
Lemma wp_release_held l s (Q : unit -> vm -> Prop) :
  l ∈ locks_of s -> Q tt (with_locks (locks_of s ∖ {[l]}) s) -> wp (release l) Q s.
Proof. intros Hl HQ. apply wp_lift_os, wp_lift, wp_lock_release; done. Qed.
Lemma wp_holds l s (Q : bool -> vm -> Prop) :
  Q (bool_decide (l ∈ locks_of s)) s -> wp (lift_fs (holds l)) Q s.
Proof. intros HQ. apply wp_lift_os, wp_lift. by destruct s as [[]]. Qed.
Lemma wp_acquire_free l s (Q : unit -> vm -> Prop) :
  l ∉ locks_of s -> Q tt (with_locks ({[l]} ∪ locks_of s) s) -> wp (acquire_unless_held l) Q s.
Proof.
  intros Hl HQ. apply wp_bind, wp_holds. rewrite bool_decide_false by done.
  apply wp_when; [intros _|done]. by apply wp_acquire.
Qed.

(** The locks after a lock is taken and given back. *)
Lemma locks_back (l : lockid) (h : gset lockid) : l ∉ h -> ({[l]} ∪ h) ∖ {[l]} = h.
Proof. set_solver. Qed.

Lemma wp_access c s (Q : unit -> vm -> Prop) : c = true -> Q tt s -> wp (access c) Q s.
Proof. by intros ->. Qed.

Lemma wp_load_frame f e s (Q : frame_elem -> vm -> Prop) :
  frames s !! f = Some e -> Q e s -> wp (load_frame f) Q s.
Proof. intros H HQ. apply wp_bind, wp_get. by eapply wp_deref. Qed.
Lemma wp_store_frame f e g s (Q : unit -> vm -> Prop) :
  frames s !! f = Some e -> Q tt (set_frames (<[f := g e]> (frames s)) s) -> wp (store_frame f g) Q s.
Proof. intros H HQ. apply wp_bind. eapply wp_load_frame; [exact H|]. by apply wp_modify. Qed.
Lemma wp_load_spt p sp s (Q : sup_page_table -> vm -> Prop) :
  spts s !! p = Some sp -> Q sp s -> wp (load_spt p) Q s.
Proof. intros H HQ. apply wp_bind, wp_get. by eapply wp_deref. Qed.
Lemma wp_load_proc t x s (Q : process -> vm -> Prop) :
  procs s !! t = Some x -> Q x s -> wp (load_proc t) Q s.
Proof. intros H HQ. apply wp_bind, wp_get. by eapply wp_deref. Qed.
Lemma wp_pagedir_of t x pd s (Q : Z -> vm -> Prop) :
  procs s !! t = Some x -> pr_pagedir x = Some pd -> Q pd s -> wp (pagedir_of t) Q s.
Proof. intros H Hp HQ. apply wp_bind. eapply wp_load_proc; [exact H|]. by eapply wp_deref. Qed.
Lemma wp_current_pagedir x pd s (Q : Z -> vm -> Prop) :
  procs s !! running s = Some x -> pr_pagedir x = Some pd -> Q pd s -> wp current_pagedir Q s.
Proof. intros H Hp HQ. apply wp_bind, wp_gets. by eapply wp_pagedir_of. Qed.

Lemma wp_load_page a c s (Q : list Z -> vm -> Prop) :
  data (vm_mem s) a = Some c -> Q c s -> wp (load_page a) Q s.
Proof.
  unfold data. intros H HQ. apply wp_bind, wp_get.
  destruct (pages (vm_mem s) !! a) as [[]|]; [done| |done]. injection H as ->. by apply wp_ret.
Qed.

Definition with_page (a : Z) (c : list Z) s : vm :=
  set_mem (set_pages (<[a := Data c]> (pages (vm_mem s))) (vm_mem s)) s.
Lemma wp_store_page a c0 c s (Q : unit -> vm -> Prop) :
  data (vm_mem s) a = Some c0 -> Q tt (with_page a c s) -> wp (store_page a c) Q s.
Proof. intros H HQ. apply wp_bind. eapply wp_load_page; [exact H|]. by apply wp_modify. Qed.

Lemma data_with_page a c b s :
  data (vm_mem (with_page a c s)) b = if decide (a = b) then Some c else data (vm_mem s) b.
Proof.
  unfold data. simpl. destruct (decide (a = b)) as [<-|].
  - by rewrite lookup_insert_eq.
  - by rewrite lookup_insert_ne.
Qed.

Lemma wp_table_remove f s (Q : unit -> vm -> Prop) :
  f ∈ frame_table s -> Q tt (set_table (filter (fun x => x <> f) (frame_table s)) s) ->
  wp (table_remove f) Q s.
Proof. intros Hf HQ. apply wp_bind, wp_gets. rewrite decide_True by done. by apply wp_modify. Qed.
End rules.
