(* ===== verification/Swap.v ===== *)
(** * Swap: swap slots ([sout], [sback] of [vm/swap.c]).

    A page written to a slot is read back as it was; other slots are untouched. *)
From S2P Require Import Prelude Bytes State Instances Cache FreeMap Inode InodeData File Pagedir Vm.
From Stdlib Require Import ZArith Lia.
From stdpp Require Import prelude gmap.

Open Scope Z_scope.

(** ** A page is its eight sectors *)
Definition page_sectors (c : list Z) : list (list Z) := (fun j => slice (j * 512) 512 c) <$> seqZ 0 8.

Lemma concat_sectors c : Z.of_nat (length c) = PGSIZE -> concat (page_sectors c) = c.
Proof.
  unfold PGSIZE. intros Hc. unfold page_sectors. simpl. rewrite app_nil_r.
  repeat (rewrite slice_app; [|lia..]). simpl. unfold slice. simpl.
  rewrite take_ge; [by rewrite drop_0|]. rewrite length_drop. lia.
Qed.

Lemma in_sectors (c : list Z) i : 0 <= i < 8 -> page_sectors c !! Z.to_nat i = Some (slice (i * 512) 512 c).
Proof.
  intros Hi. unfold page_sectors. rewrite list_lookup_fmap, lookup_seqZ_lt by lia. simpl.
  by rewrite Z2Nat.id by lia.
Qed.

Lemma sectors_length c i : Z.of_nat (length c) = PGSIZE -> 0 <= i < 8 -> length (slice (i * 512) 512 c) = 512%nat.
Proof. unfold PGSIZE. intros Hc Hi. rewrite length_slice; lia. Qed.

Section swap.
Context {D B W : Type} {dev : BlockDev D} {bm : Bitmap B} {io : BitmapIO D B} {mem : Memory}
  {sdev : BlockDev W} {pg : Paging}.
Context {slaws : BlockDevLaws W} {blaws : BitmapLaws B} {pl : PagingLaws}.
Abbreviation vm := (vm D B W).
Implicit Types (s : vm) (f p : nat) (d : W).

(** The bytes of a slot. *)
Definition slot_sectors d (i : Z) : list (list Z) := (fun j => block_read d (i * 8 + j)) <$> seqZ 0 8.
Definition slot_bytes d (i : Z) : list Z := concat (slot_sectors d i).

(** The slots fit on the swap device, whose sectors have 32-bit numbers. *)
Record swap_ok (b : B) : Prop := {
  so_sectors : 8 * bitmap_size b <= dev_sectors (D := W);
  so_small : dev_sectors (D := W) <= UINT32;
}.

Lemma slot_bytes_ext d d' i :
  (forall j, 0 <= j < 8 -> block_read d' (i * 8 + j) = block_read d (i * 8 + j)) ->
  slot_bytes d' i = slot_bytes d i.
Proof.
  intros H. unfold slot_bytes, slot_sectors. f_equal. apply list_fmap_ext.
  intros k j [-> Hk]%lookup_seqZ. apply H. lia.
Qed.
Lemma slot_bytes_eq d i c :
  Z.of_nat (length c) = PGSIZE ->
  (forall j, 0 <= j < 8 -> block_read d (i * 8 + j) = slice (j * 512) 512 c) -> slot_bytes d i = c.
Proof.
  intros Hc H. rewrite <- (concat_sectors c Hc) at 1. unfold slot_bytes, slot_sectors, page_sectors.
  f_equal. apply list_fmap_ext. intros k j [-> Hk]%lookup_seqZ. apply H. lia.
Qed.

Lemma slot_sector b i j :
  swap_ok b -> 0 <= i < bitmap_size b -> 0 <= j < 8 ->
  swap_sector i j = i * 8 + j /\ valid_sector (D := W) (swap_sector i j) = true.
Proof.
  intros [H1 H2] Hi Hj. unfold swap_sector, PAGE_SECTORS.
  assert (Hs : u32 (i * 8 + j) = i * 8 + j) by (apply u32_small; lia).
  rewrite Hs. split; [done|]. unfold valid_sector. apply andb_true_iff. rewrite Z.leb_le, Z.ltb_lt. lia.
Qed.

(** [slots_but i d d']: the device changed in the slot [i] alone. *)
Definition slots_but (i : Z) d d' : Prop :=
  forall k, ~ (i * 8 <= k < i * 8 + 8) -> block_read d' k = block_read d k.
Lemma slots_but_bytes i d d' j : slots_but i d d' -> i <> j -> slot_bytes d' j = slot_bytes d j.
Proof. intros H Hne. apply slot_bytes_ext. intros k Hk. apply H. lia. Qed.

(** The loop of [sout]. *)
Lemma wp_write_slot s b i a c (Q : unit -> vm -> Prop) :
  swap_ok b -> 0 <= i < bitmap_size b -> data (vm_mem s) a = Some c -> Z.of_nat (length c) = PGSIZE ->
  (forall d, slots_but i (swap_block s) d -> slot_bytes d i = c -> Q tt (set_swap_block d s)) ->
  wp (for_up 0 (Z.to_nat PAGE_SECTORS) (fun j =>
        x ← load_page a; swap_write i j (slice (j * SECTOR) SECTOR x))) Q s.
Proof.
  intros Hb Hi Hd Hc HQ.
  apply (wp_for_up (fun j s1 => exists d, s1 = set_swap_block d s /\ slots_but i (swap_block s) d /\
    forall k, 0 <= k < j -> block_read d (i * 8 + k) = slice (k * 512) 512 c)).
  - exists (swap_block s). split; [by destruct s|]. split; [by intros k|lia].
  - change (Z.of_nat (Z.to_nat PAGE_SECTORS)) with 8.
    intros j s1 Hj (d & -> & Hbut & Hk). apply wp_bind. eapply wp_load_page; [exact Hd|].
    destruct (slot_sector b i j Hb Hi) as [Hs Hv]; [lia|].
    apply wp_bind, wp_assert; [exact Hv|]. apply wp_modify. rewrite Hs. simpl.
    exists (block_write d (i * 8 + j) (slice (j * SECTOR) SECTOR c)). split; [done|].
    rewrite Hs in Hv. unfold SECTOR.
    assert (Hl : Z.of_nat (length (slice (j * 512) 512 c)) = SECTOR)
      by (rewrite sectors_length by (done || lia); done).
    split.
    + intros k Hk'. rewrite block_read_write_ne by lia. by apply Hbut.
    + intros k Hk'. destruct (decide (k = j)) as [->|].
      * by rewrite block_read_write_eq.
      * rewrite block_read_write_ne by lia. apply Hk. lia.
  - change (Z.of_nat (Z.to_nat PAGE_SECTORS)) with 8. intros s1 (d & -> & Hbut & Hk).
    apply HQ; [done|]. apply slot_bytes_eq; [done|]. intros j Hj. apply Hk. lia.
Qed.

(** A free slot. *)
Definition has_free_slot (b : B) : Prop := exists i, 0 <= i < bitmap_size b /\ bitmap_test b i = false.

Lemma scan_slot b :
  has_free_slot b -> exists i b', bitmap_scan_and_flip b 0 1 false = (Some i, b') /\
    0 <= i < bitmap_size b /\ bitmap_test b i = false /\ bitmap_size b' = bitmap_size b /\
    forall j, 0 <= j < bitmap_size b -> bitmap_test b' j = (if i =? j then true else bitmap_test b j).
Proof.
  intros (k & Hk & Ht). destruct (bitmap_scan_and_flip b 0 1 false) as [[i|] b'] eqn:Hs.
  - destruct (bitmap_scan_some b 0 1 false i b' ltac:(lia) ltac:(lia) Hs) as (H1 & H2 & H3 & ->).
    exists i. eexists. split; [done|]. split; [lia|]. split; [apply H3; lia|].
    rewrite bitmap_set_multiple_size. split; [done|]. intros j Hj.
    rewrite bitmap_set_multiple_test by lia. simpl.
    destruct (Z.eqb_spec i j) as [->|]; zcase.
  - destruct (bitmap_scan_none b 0 1 false b' ltac:(lia) ltac:(lia) Hs) as (_ & H).
    destruct (H k) as (j & Hj & Hf); [lia..|]. replace j with k in Hf by lia. by rewrite Ht in Hf.
Qed.

(** [sout]: the page goes to a slot that was free. *)
Lemma wp_sout s f e c (Q : Z -> vm -> Prop) :
  swap_lock ∉ locks_of s -> frames s !! f = Some e -> data (vm_mem s) (fr_kpage e) = Some c ->
  Z.of_nat (length c) = PGSIZE -> swap_ok (swap_bitmap s) -> has_free_slot (swap_bitmap s) ->
  (forall i b d, 0 <= i < bitmap_size (swap_bitmap s) -> bitmap_test (swap_bitmap s) i = false ->
     bitmap_size b = bitmap_size (swap_bitmap s) ->
     (forall j, 0 <= j < bitmap_size (swap_bitmap s) ->
        bitmap_test b j = if i =? j then true else bitmap_test (swap_bitmap s) j) ->
     slots_but i (swap_block s) d -> slot_bytes d i = c ->
     Q i (set_swap_block d (set_swap_bitmap b (set_frames (<[f := set_type SWAP e]> (frames s)) s)))) ->
  wp (sout f) Q s.
Proof.
  intros Hl He Hd Hc Hb Hfree HQ. destruct (scan_slot _ Hfree) as (i & b' & Hs & Hi & Ht & Hsz & Hb').
  apply wp_bind, wp_acquire; [done|]. apply wp_bind. eapply wp_store_frame; [exact He|].
  apply wp_bind, wp_gets. simpl. rewrite Hs. apply wp_bind, wp_modify, wp_bind.
  eapply wp_load_frame; [by simpl; rewrite lookup_insert_eq|].
  apply wp_bind. eapply wp_write_slot; [exact Hb|exact Hi|exact Hd|exact Hc|].
  intros d Hbut Hby. apply wp_bind, wp_release_held; [simpl; set_solver|]. apply wp_ret.
  match goal with |- Q _ ?x => replace x with
    (set_swap_block d (set_swap_bitmap b' (set_frames (<[f := set_type SWAP e]> (frames s)) s))) end; [by apply HQ|].
  unfold locks_of. simpl. rewrite locks_back by done. by destruct s as [[[]]].
Qed.

Lemma with_page_same a c s : data (vm_mem s) a = Some c -> with_page a c s = s.
Proof.
  unfold data, with_page. destruct (pages (vm_mem s) !! a) as [[]|] eqn:Ha; [done| |done]. intros [= ->].
  rewrite insert_id by done. by destruct s as [? []].
Qed.
Lemma with_page_twice a c c' s : with_page a c (with_page a c' s) = with_page a c s.
Proof. unfold with_page. simpl. unfold set_pages. simpl. by rewrite insert_insert_eq. Qed.

(** The loop of [sback]. *)
Lemma wp_read_slot s b i a c0 (Q : unit -> vm -> Prop) :
  swap_ok b -> 0 <= i < bitmap_size b -> data (vm_mem s) a = Some c0 -> Z.of_nat (length c0) = PGSIZE ->
  (Z.of_nat (length (slot_bytes (swap_block s) i)) = PGSIZE ->
   Q tt (with_page a (slot_bytes (swap_block s) i) s)) ->
  wp (for_up 0 (Z.to_nat PAGE_SECTORS) (fun j =>
        x ← swap_read i j; c ← load_page a; c' ← deref (memcpy c (j * SECTOR) x); store_page a c')) Q s.
Proof.
  intros Hb Hi Hd Hc HQ.
  apply (wp_for_up (fun j s1 => exists c, s1 = with_page a c s /\ Z.of_nat (length c) = PGSIZE /\
    forall k, 0 <= k < j -> slice (k * 512) 512 c = block_read (swap_block s) (i * 8 + k))).
  - exists c0. split; [by rewrite with_page_same|]. split; [done|lia].
  - change (Z.of_nat (Z.to_nat PAGE_SECTORS)) with 8. intros j s1 Hj (c & -> & Hl & Hk).
    destruct (slot_sector b i j Hb Hi) as [Hs Hv]; [lia|].
    apply wp_bind, wp_bind, wp_assert; [exact Hv|]. apply wp_gets. rewrite Hs. simpl. rewrite Hs in Hv.
    pose proof (block_read_length (swap_block s) _ Hv) as Hbl. unfold SECTOR, PGSIZE in *.
    assert (Hda : data (vm_mem (with_page a c s)) a = Some c)
      by (rewrite data_with_page; by rewrite decide_True).
    apply wp_bind. eapply wp_load_page; [exact Hda|]. rewrite memcpy_ok by lia.
    apply wp_bind, wp_ret. eapply wp_store_page; [exact Hda|].
    rewrite with_page_twice. eexists. split; [done|].
    rewrite length_splice by lia. split; [done|]. intros k Hk'.
    destruct (decide (k = j)) as [->|].
    + replace 512 with (Z.of_nat (length (block_read (swap_block s) (i * 8 + j)))) at 2 by lia.
      by rewrite slice_splice_same by lia.
    + rewrite slice_splice_other by lia. apply Hk. lia.
  - change (Z.of_nat (Z.to_nat PAGE_SECTORS)) with 8. intros s1 (c & -> & Hl & Hk).
    assert (He : slot_bytes (swap_block s) i = c).
    { apply slot_bytes_eq; [done|]. intros j Hj. symmetry. by apply Hk. }
    rewrite He in HQ. by apply HQ.
Qed.

(** [sback]: the slot is given back and its bytes are in the page. *)
Lemma wp_sback s i f e c0 (Q : unit -> vm -> Prop) :
  swap_lock ∉ locks_of s -> frames s !! f = Some e -> data (vm_mem s) (fr_kpage e) = Some c0 ->
  Z.of_nat (length c0) = PGSIZE -> swap_ok (swap_bitmap s) -> 0 <= i < bitmap_size (swap_bitmap s) ->
  (Z.of_nat (length (slot_bytes (swap_block s) i)) = PGSIZE ->
   Q tt (with_page (fr_kpage e) (slot_bytes (swap_block s) i)
         (set_swap_bitmap (bitmap_flip (swap_bitmap s) i) s))) ->
  wp (sback i f) Q s.
Proof.
  intros Hl He Hd Hc Hb Hi HQ. apply wp_bind, wp_acquire; [done|].
  apply wp_bind, wp_bind, wp_gets, wp_bind, wp_access; [zcase|]. apply wp_modify.
  apply wp_bind. eapply wp_load_frame; [exact He|]. apply wp_bind.
  apply (wp_read_slot _ (swap_bitmap s) i (fr_kpage e) c0); [done|done|exact Hd|done|].
  intros Hlen. apply wp_release_held; [simpl; set_solver|].
  match goal with |- Q _ ?x => replace x with
    (with_page (fr_kpage e) (slot_bytes (swap_block s) i) (set_swap_bitmap (bitmap_flip (swap_bitmap s) i) s)) end;
    [by apply HQ|].
  unfold locks_of. simpl. rewrite locks_back by done. by destruct s as [[[]]].
Qed.

(** With no free slot [bitmap_scan_and_flip] returns [BITMAP_ERROR], which [sout] uses as
    a slot: the first write is outside the device. *)
Lemma sout_full_panics s f e c :
  swap_lock ∉ locks_of s -> frames s !! f = Some e -> data (vm_mem s) (fr_kpage e) = Some c ->
  dev_sectors (D := W) <= UINT32 - 8 ->
  (forall i, 0 <= i < bitmap_size (swap_bitmap s) -> bitmap_test (swap_bitmap s) i = true) ->
  sout f s = Fail Panic.
Proof.
  intros Hl He Hd Hsm Hfull. destruct (bitmap_scan_and_flip (swap_bitmap s) 0 1 false) as [[i|] b'] eqn:Hs.
  { destruct (bitmap_scan_some _ 0 1 false i b' ltac:(lia) ltac:(lia) Hs) as (H1 & H2 & H3 & _).
    pose proof (H3 i ltac:(lia)) as Hf. rewrite Hfull in Hf by lia. done. }
  apply fails_rest, wp_acquire; [done|]. apply fails_rest. eapply wp_store_frame; [exact He|].
  apply fails_rest, wp_gets. simpl. rewrite Hs. apply fails_rest, wp_modify, fails_rest.
  eapply wp_load_frame; [by simpl; rewrite lookup_insert_eq|]. apply fails_head. simpl.
  apply fails_head, fails_rest. eapply wp_load_page; [exact Hd|]. apply fails_head. unfold assert.
  replace (valid_sector _) with false; [done|]. symmetry. unfold valid_sector.
  apply andb_false_iff. right. apply Z.ltb_ge. exact Hsm.
Qed.
End swap.
