(* ===== verification/Paging.v ===== *)
(** * Paging: the memory of a process across eviction and reloading ([vm/swap.c]).

    The abstract view of the paging code is a map from frames to the bytes of their pages
    ([contents]), wherever they are: in memory, in a swap slot or in a file.  [evict] and
    [load_back] move pages and keep the invariant [vm_ok] and the contents of every page. *)
From S2P Require Import Prelude Bytes State Instances Cache FreeMap Inode InodeData File Pagedir Vm Swap.
From Stdlib Require Import ZArith Lia.
From stdpp Require Import prelude gmap.

Open Scope Z_scope.

Section paging.
Context {D B W : Type} {dev : BlockDev D} {bm : Bitmap B} {io : BitmapIO D B} {mem : Memory}
  {sdev : BlockDev W} {pg : Paging}.
Context {dlaws : BlockDevLaws D} {slaws : BlockDevLaws W} {blaws : BitmapLaws B} {pl : PagingLaws}.
Abbreviation vm := (vm D B W).
Implicit Types (s : vm) (f g p : nat) (e : frame_elem) (pd : Z).

(** ** The abstract view *)
Definition upage s e : Z := match spts s !! fr_spt e with Some sp => sp_upage sp | None => 0 end.

(** The page as its file has it. *)
Definition file_page (x : os D B) e : option (list Z) :=
  q ← fr_file e; y ← os_files x !! q; n ← inodes (os_fs x) !! f_inode y;
  Some (slice (fr_ofs e) (fr_read_bytes e) (file_bytes n x) ++
        replicate (Z.to_nat (PGSIZE - fr_read_bytes e)) 0).

Definition frame_contents s e : option (list Z) :=
  if fr_load e then data (vm_mem s) (fr_kpage e)
  else match fr_type e with
       | SWAP => Some (slot_bytes (swap_block s) (fr_index e))
       | FILE | MMAP => file_page (vm_os s) e
       | SHARE => None
       end.
Definition contents s f : option (list Z) := e ← frames s !! f; frame_contents s e.

(** ** The invariant, for the frames of the running process *)

(** The part of the file that holds the page is there. *)
Definition backed (x : os D B) e : Prop := exists q y n,
  fr_file e = Some q /\ file_at q y n x /\ 0 <= fr_ofs e /\ 0 <= fr_read_bytes e <= PGSIZE /\
  fr_ofs e + fr_read_bytes e <= id_length (i_data n).

(** A frame in a swap slot. *)
Definition swapped e : bool := negb (fr_load e) && bool_decide (fr_type e = SWAP).

Record frame_ok s pd f e : Prop := {
  fo_spt : spts s !! fr_spt e = Some (Spt (upage s e) f (running s));
  fo_user : is_user_vaddr (upage s e) = true;
  fo_aligned : pg_ofs (upage s e) = 0;
  fo_shared : fr_shared e = None;
  fo_type : fr_type e <> SHARE;
  fo_map : mapping (vm_mem s) pd (upage s e) = (if fr_load e then Some (fr_kpage e) else None);
  fo_loaded : fr_load e = true -> in_pool true (fr_kpage e) = true /\
    exists c, data (vm_mem s) (fr_kpage e) = Some c /\ Z.of_nat (length c) = PGSIZE;
  fo_slot : swapped e = true -> 0 <= fr_index e < bitmap_size (swap_bitmap s) /\
    bitmap_test (swap_bitmap s) (fr_index e) = true /\ is_Some (pte_of (vm_mem s) pd (upage s e));
  fo_backed : from_file (fr_type e) = true -> backed (vm_os s) e;
  fo_clean : from_file (fr_type e) = true -> fr_load e = true ->
    flag_of PTE_D (vm_mem s) pd (upage s e) = false ->
    data (vm_mem s) (fr_kpage e) = file_page (vm_os s) e;
  (** Modified pages of mapped files are left out. *)
  fo_mmap : fr_type e = MMAP -> fr_load e = true -> flag_of PTE_D (vm_mem s) pd (upage s e) = false;
}.

Record vm_ok s pd : Prop := {
  vo_proc : exists x, procs s !! running s = Some x /\ pr_pagedir x = Some pd;
  vo_dir : pd_wf (vm_mem s) pd;
  vo_init : pd <> init_page_dir (vm_mem s);
  vo_ram : forall a, in_pool true a = true -> Z.shiftr (vtop a) PTSHIFT < init_ram_pages (vm_mem s);
  vo_frame : forall f e, frames s !! f = Some e -> frame_ok s pd f e;
  vo_upage : forall f g e e', frames s !! f = Some e -> frames s !! g = Some e' ->
    upage s e = upage s e' -> f = g;
  vo_nodup : NoDup (frame_table s);
  vo_table : forall f, f ∈ frame_table s <-> exists e, frames s !! f = Some e /\ fr_load e = true;
  vo_kpage : forall f g e e', frames s !! f = Some e -> frames s !! g = Some e' ->
    fr_load e = true -> fr_load e' = true -> fr_kpage e = fr_kpage e' -> f = g;
  vo_swap : swap_ok (W := W) (swap_bitmap s);
  vo_slots : forall f g e e', frames s !! f = Some e -> frames s !! g = Some e' ->
    swapped e = true -> swapped e' = true -> fr_index e = fr_index e' -> f = g;
  (** No slot is lost: a slot in use holds a page. *)
  vo_used : forall i, 0 <= i < bitmap_size (swap_bitmap s) -> bitmap_test (swap_bitmap s) i = true ->
    exists f e, frames s !! f = Some e /\ swapped e = true /\ fr_index e = i;
}.

(** None of the locks of the paging code is held. *)
Definition unlocked s : Prop := Forall (fun l => l ∉ locks_of s) [frame_lock; swap_lock; file_lock].

(** ** Framing *)

(** The operations on files that change no file. *)
Definition os_same (x y : os D B) : Prop :=
  forall q z n, file_at q z n x -> file_at q z n y /\ file_bytes n y = file_bytes n x.
#[export] Instance os_same_preorder : PreOrder os_same.
Proof.
  split; [by split|]. intros x y z H1 H2 q w n Hw.
  destruct (H1 q w n Hw) as [Hy E1]. destruct (H2 q w n Hy) as [Hz E2]. split; congruence.
Qed.

(** Taking and giving back a lock that is not part of the file system's data. *)
Lemma locks_os_same h x :
  (forall i, inode_io i ∈ h -> inode_io i ∈ held (os_fs x)) ->
  (forall i, cache_io i ∈ h -> cache_io i ∈ held (os_fs x)) ->
  os_same x (set_fs (set_held h (os_fs x)) x).
Proof.
  intros Hi Hc q z n [H1 H2 H3 H4 H5 H6 H7]. split; [|done]. split; try done.
  - apply (fs_ok_ext (os_fs x)); try done.
  - simpl. auto.
Qed.

Lemma backed_page x e q y n :
  fr_file e = Some q -> file_at q y n x ->
  file_page x e = Some (slice (fr_ofs e) (fr_read_bytes e) (file_bytes n x) ++
    replicate (Z.to_nat (PGSIZE - fr_read_bytes e)) 0).
Proof. intros Hq [H1 H2 _ _ _ _ _]. unfold file_page. rewrite Hq. simpl. rewrite H1. simpl. by rewrite H2. Qed.

Lemma backed_same x y e : os_same x y -> backed x e -> backed y e /\ file_page y e = file_page x e.
Proof.
  intros Hs (q & z & n & Hq & Hz & H1 & H2 & H3). destruct (Hs q z n Hz) as [Hz' Eb]. split.
  - exists q, z, n. done.
  - rewrite (backed_page x e q z n), (backed_page y e q z n) by done. by rewrite Eb.
Qed.

(** What the frame [e] sees unchanged. *)
Record framed s s' pd e : Prop := {
  fr_run : running s' = running s;
  fr_spts : spts s' !! fr_spt e = spts s !! fr_spt e;
  fr_mapping : mapping (vm_mem s') pd (upage s e) = mapping (vm_mem s) pd (upage s e);
  fr_dirty : flag_of PTE_D (vm_mem s') pd (upage s e) = flag_of PTE_D (vm_mem s) pd (upage s e);
  fr_pte : is_Some (pte_of (vm_mem s) pd (upage s e)) -> is_Some (pte_of (vm_mem s') pd (upage s e));
  fr_data : fr_load e = true -> data (vm_mem s') (fr_kpage e) = data (vm_mem s) (fr_kpage e);
  fr_size : bitmap_size (swap_bitmap s') = bitmap_size (swap_bitmap s);
  fr_bit : swapped e = true -> bitmap_test (swap_bitmap s') (fr_index e) = bitmap_test (swap_bitmap s) (fr_index e);
  fr_bytes : swapped e = true -> slot_bytes (swap_block s') (fr_index e) = slot_bytes (swap_block s) (fr_index e);
  fr_os : backed (vm_os s) e -> backed (vm_os s') e /\ file_page (vm_os s') e = file_page (vm_os s) e;
}.

Lemma framed_upage s s' pd e : framed s s' pd e -> upage s' e = upage s e.
Proof. intros []. unfold upage. by rewrite fr_spts0. Qed.

Lemma framed_ok s s' pd f e : framed s s' pd e -> frame_ok s pd f e -> frame_ok s' pd f e.
Proof.
  intros F [H1 H2 H3 H4 H5 H6 H7 H8 H9 H10 H11]. pose proof (framed_upage _ _ _ _ F) as Hu.
  destruct F as [F1 F2 F3 F4 F5 F6 F7 F8 F9 F10].
  split; rewrite ?Hu, ?F1, ?F2, ?F3, ?F4, ?F7; try done.
  - intros Hl. rewrite F6 by done. auto.
  - intros Hs. rewrite F8 by done. destruct (H8 Hs) as (? & ? & ?). auto.
  - intros Ht. by apply F10, H9.
  - intros Ht Hl Hd. rewrite F6 by done. rewrite H10 by done.
    symmetry. by apply F10, H9.
Qed.

Lemma framed_contents s s' pd f e :
  framed s s' pd e -> frame_ok s pd f e -> frame_contents s' e = frame_contents s e.
Proof.
  intros F Hok. unfold frame_contents. destruct (fr_load e) eqn:Hl; [by apply F|].
  destruct (fr_type e) eqn:Ht; try done.
  - apply (fr_os _ _ _ _ F), (fo_backed _ _ _ _ Hok). by rewrite Ht.
  - apply (fr_os _ _ _ _ F), (fo_backed _ _ _ _ Hok). by rewrite Ht.
  - f_equal. apply (fr_bytes _ _ _ _ F). unfold swapped. by rewrite Hl, bool_decide_true.
Qed.

(** A step that changes the frame [f] alone, to [e']. *)
Record frame_step s s' pd f e e' : Prop := {
  fs_frames : frames s' = <[f := e']> (frames s);
  fs_run : running s' = running s;
  fs_procs : procs s' = procs s;
  fs_spts : spts s' = spts s;
  fs_spt : fr_spt e' = fr_spt e;
  fs_dir : pd_wf (vm_mem s') pd;
  fs_init : init_page_dir (vm_mem s') = init_page_dir (vm_mem s);
  fs_ram : init_ram_pages (vm_mem s') = init_ram_pages (vm_mem s);
  fs_nodup : NoDup (frame_table s');
  fs_table : forall g, g ∈ frame_table s' <-> if decide (g = f) then fr_load e' = true else g ∈ frame_table s;
  fs_kpage : fr_load e' = true -> forall g e0, g <> f -> frames s !! g = Some e0 -> fr_load e0 = true ->
    fr_kpage e0 <> fr_kpage e';
  fs_slots : swapped e' = true -> forall g e0, g <> f -> frames s !! g = Some e0 -> swapped e0 = true ->
    fr_index e0 <> fr_index e';
  fs_size : bitmap_size (swap_bitmap s') = bitmap_size (swap_bitmap s);
  fs_used : forall i, 0 <= i < bitmap_size (swap_bitmap s) -> bitmap_test (swap_bitmap s') i = true ->
    (swapped e' = true /\ fr_index e' = i) \/
    (bitmap_test (swap_bitmap s) i = true /\ ~ (swapped e = true /\ fr_index e = i));
  fs_ok_self : frame_ok s' pd f e';
  fs_others : forall g e0, g <> f -> frames s !! g = Some e0 -> framed s s' pd e0;
}.

Lemma frame_step_ok s s' pd f e e' :
  vm_ok s pd -> frames s !! f = Some e -> frame_step s s' pd f e e' -> vm_ok s' pd.
Proof.
  intros [H1 H2 H3 H4 H5 H6 H7 H8 H9 H10 H11 H12] He [].
  assert (Hlook : forall g e0, frames s' !! g = Some e0 ->
    (g = f /\ e0 = e') \/ (g <> f /\ frames s !! g = Some e0)).
  { intros g e0. rewrite fs_frames0. intros [[<- <-]|[Hne Hg]]%lookup_insert_Some; [by left|by right]. }
  assert (Hup : forall e0, upage s' e0 = upage s e0) by (intros e0; unfold upage; by rewrite fs_spts0).
  assert (Hupe : upage s e' = upage s e) by (unfold upage; by rewrite fs_spt0).
  split.
  - by rewrite fs_procs0, fs_run0.
  - done.
  - by rewrite fs_init0.
  - by rewrite fs_ram0.
  - intros g e0 [[-> ->]|[Hne Hg]]%Hlook; [done|]. eapply framed_ok; [by eapply fs_others0|by apply H5].
  - intros g h e0 e1 [[-> ->]|[Hne Hg]]%Hlook [[-> ->]|[Hne' Hg']]%Hlook; rewrite !Hup, ?Hupe; eauto.
  - done.
  - intros g. rewrite fs_table0, fs_frames0. destruct (decide (g = f)) as [->|Hne].
    + rewrite lookup_insert_eq. split; [eauto|]. by intros (? & [= <-] & ?).
    + rewrite lookup_insert_ne by done. apply H8.
  - intros g h e0 e1 [[-> ->]|[Hne Hg]]%Hlook [[-> ->]|[Hne' Hg']]%Hlook Hl Hl' Hk; eauto.
    + by destruct (fs_kpage0 Hl h e1).
    + by destruct (fs_kpage0 Hl' g e0).
  - destruct H10. by split; rewrite ?fs_size0.
  - intros g h e0 e1 [[-> ->]|[Hne Hg]]%Hlook [[-> ->]|[Hne' Hg']]%Hlook Hl Hl' Hk; eauto.
    + by destruct (fs_slots0 Hl h e1).
    + by destruct (fs_slots0 Hl' g e0).
  - intros i Hi Ht. rewrite fs_size0 in Hi. rewrite fs_frames0. destruct (fs_used0 i Hi Ht) as [[Hs <-]|[Ht' Hn]].
    + exists f, e'. by rewrite lookup_insert_eq.
    + destruct (H12 i Hi Ht') as (g & e0 & Hg & Hs & <-). exists g, e0.
      rewrite lookup_insert_ne; [done|]. intros ->. apply Hn. by rewrite He in Hg; injection Hg as ->.
Qed.

Lemma frame_step_contents s s' pd f e e' g :
  vm_ok s pd -> frames s !! f = Some e -> frame_step s s' pd f e e' ->
  frame_contents s' e' = frame_contents s e -> contents s' g = contents s g.
Proof.
  intros Hok He Hs Hc. unfold contents. rewrite (fs_frames _ _ _ _ _ _ Hs).
  destruct (decide (g = f)) as [->|Hne].
  - by rewrite lookup_insert_eq, He.
  - rewrite lookup_insert_ne by done. destruct (frames s !! g) as [e0|] eqn:Hg; [|done]. simpl.
    eapply framed_contents; [by eapply fs_others|by eapply vo_frame].
Qed.

(** ** The choice of [evict] *)

(** Changes of the accessed bits. *)
Record soft (m m' : vmem) pd : Prop := {
  sf_wf : pd_wf m' pd;
  sf_map : forall v, pg_ofs v = 0 -> is_user_vaddr v = true ->
    mapping m' pd v = mapping m pd v /\ flag_of PTE_D m' pd v = flag_of PTE_D m pd v /\
    (is_Some (pte_of m pd v) -> is_Some (pte_of m' pd v));
  sf_keep : mem_keep m m';
}.
Lemma soft_refl m pd : pd_wf m pd -> soft m m pd.
Proof. by split. Qed.
Lemma soft_trans m1 m2 m3 pd : soft m1 m2 pd -> soft m2 m3 pd -> soft m1 m3 pd.
Proof.
  intros [W1 M1 K1] [W2 M2 K2]. split; [done| |by etransitivity]. intros v Ho Hu.
  destruct (M1 v Ho Hu) as (E1 & F1 & P1), (M2 v Ho Hu) as (E2 & F2 & P2). split_and!; [congruence..|auto].
Qed.

Lemma os_same_refl x : os_same x x.
Proof. reflexivity. Qed.

Lemma soft_framed s m' pd f e :
  soft (vm_mem s) m' pd -> frame_ok s pd f e -> framed s (set_mem m' s) pd e.
Proof.
  intros [W0 M K] [H1 H2 H3 H4 H5 H6 H7 H8 H9 H10 H11]. destruct (M (upage s e) H3 H2) as (E1 & E2 & E3).
  split; try done. intros _. apply K.
Qed.

Lemma soft_ok s m' pd : vm_ok s pd -> soft (vm_mem s) m' pd -> vm_ok (set_mem m' s) pd.
Proof.
  intros [H1 H2 H3 H4 H5 H6 H7 H8 H9 H10 H11 H12] Hs. pose proof (sf_keep _ _ _ Hs) as K.
  split; try done; simpl; rewrite ?(mk_init _ _ K), ?(mk_ram _ _ K); [apply Hs|done|done|].
  intros f e He. eapply framed_ok; [|by apply H5]. eapply soft_framed; [done|by apply H5].
Qed.
Lemma soft_contents s m' pd g :
  vm_ok s pd -> soft (vm_mem s) m' pd -> contents (set_mem m' s) g = contents s g.
Proof.
  intros Hok Hs. unfold contents. simpl. destruct (frames s !! g) as [e|] eqn:He; [|done]. simpl.
  eapply framed_contents; [eapply soft_framed; [done|]|]; by eapply vo_frame.
Qed.

Lemma a_flag_all : a_flag bit_P /\ a_flag bit_W /\ a_flag bit_A /\ a_flag bit_D /\
  bit_A <> bit_P /\ bit_A <> bit_D /\ bit_D <> bit_P.
Proof.
  destruct flag_bits as [Hnd _]. repeat rewrite NoDup_cons in Hnd. unfold a_flag. set_solver.
Qed.

(** Not accessed and not dirty. *)
Definition page_idle (m : vmem) pd s f : bool :=
  match frames s !! f with
  | Some e => negb (flag_of PTE_A m pd (upage s e)) && negb (flag_of PTE_D m pd (upage s e))
  | None => false
  end.

Lemma wp_current s pd (Q : Z -> vm -> Prop) : vm_ok s pd -> Q pd s -> wp current_pagedir Q s.
Proof. intros Hok HQ. destruct (vo_proc _ _ Hok) as (x & Hx & Hp). by eapply wp_current_pagedir. Qed.

Lemma wp_evictable s pd f e (Q : bool -> vm -> Prop) :
  vm_ok s pd -> frames s !! f = Some e ->
  (page_idle (vm_mem s) pd s f = true -> Q true s) ->
  (forall m', page_idle (vm_mem s) pd s f = false -> soft (vm_mem s) m' pd ->
     (forall v, pg_ofs v = 0 -> is_user_vaddr v = true -> v <> upage s e ->
        flag_of PTE_A m' pd v = flag_of PTE_A (vm_mem s) pd v) ->
     flag_of PTE_A m' pd (upage s e) = false -> Q false (set_mem m' s)) ->
  wp (evictable e) Q s.
Proof.
  intros Hok He H1 H2. destruct (vo_frame _ _ Hok f e He) as [F1 F2 F3 _ _ _ _ _ _ _ _].
  pose proof (vo_dir _ _ Hok) as W0. unfold page_idle in *. rewrite He in *.
  destruct a_flag_all as (_ & _ & HA & HD & Hne1 & Hne2 & _).
  apply wp_bind. eapply wp_load_spt; [exact F1|]. simpl. apply wp_bind. eapply wp_current; [exact Hok|].
  apply wp_bind, wp_lift_mem, wp_pte_test; [done..|]. fold PTE_A.
  assert (Hself : set_mem (vm_mem s) s = s) by (by destruct s).
  destruct (flag_of PTE_A (vm_mem s) pd (upage s e)) eqn:Ha; simpl in *.
  - apply wp_bind, wp_lift_mem, wp_change_flag; [done..|]. intros m' Hs Hm Hf Hv. apply wp_ret.
    assert (soft (vm_mem s) m' pd).
    { split; [apply Hs| |apply Hs]. intros v Ho Hu. destruct (decide (v = upage s e)) as [->|Hne].
      - split; [done|]. split; [by apply Hf|by apply Hs].
      - destruct (ps_same _ _ _ _ Hs v) as [E1 E2]; [by intros ->%list_elem_of_singleton|done..|].
        split; [done|]. split; [apply E2|by apply Hs]. }
    apply H2; [done|done| |exact (eq_trans Hv (andb_false_r _))].
    intros v Ho Hu Hne. destruct (ps_same _ _ _ _ Hs v) as [_ E2]; [by intros ->%list_elem_of_singleton|done..|]. apply E2.
  - apply wp_bind, wp_lift_mem, wp_pte_test; [done..|]. fold PTE_D. apply wp_ret. simpl. rewrite !Hself.
    destruct (flag_of PTE_D (vm_mem s) pd (upage s e)); simpl in *; [|by apply H1].
    rewrite <- Hself. apply H2; [done|by apply soft_refl|done|done].
Qed.

(** The walk over [frame_table] passes [l1] and stops at the first page of [l2]. *)
Record walk s pd (l l1 l2 : list nat) (m' : vmem) : Prop := {
  wk_split : l = l1 ++ l2;
  wk_passed : Forall (fun g => page_idle (vm_mem s) pd s g = false) l1;
  wk_chosen : forall f, head l2 = Some f -> page_idle (vm_mem s) pd s f = true;
  wk_cleared : forall g e, g ∈ l1 -> frames s !! g = Some e -> flag_of PTE_A m' pd (upage s e) = false;
  (** The accessed bits of the pages that were not passed. *)
  wk_kept : forall g e, g ∉ l1 -> frames s !! g = Some e ->
    flag_of PTE_A m' pd (upage s e) = flag_of PTE_A (vm_mem s) pd (upage s e);
  wk_soft : soft (vm_mem s) m' pd;
}.

Lemma wp_choose l s pd (Q : option nat -> vm -> Prop) :
  vm_ok s pd -> NoDup l -> (forall f, f ∈ l -> is_Some (frames s !! f)) ->
  (forall l1 l2 m', walk s pd l l1 l2 m' -> Q (head l2) (set_mem m' s)) ->
  wp (find_frame_from evictable l) Q s.
Proof.
  revert s Q. induction l as [|f l IH]; intros s Q Hok Hnd Hl HQ; simpl.
  - apply wp_ret. replace s with (set_mem (vm_mem s) s) by by destruct s.
    apply (HQ [] []). split; [done|done|done|by intros g e ?%elem_of_nil|done|apply soft_refl, Hok].
  - destruct (Hl f) as [e He]; [by left|]. apply NoDup_cons in Hnd as [Hf Hnd].
    apply wp_bind. eapply wp_load_frame; [exact He|]. apply wp_bind.
    eapply wp_evictable; [exact Hok|exact He|..].
    + intros Hi. apply wp_ret. replace s with (set_mem (vm_mem s) s) by by destruct s.
      apply (HQ [] (f :: l)). split; [done|done|by intros ? [= <-]|by intros g ? ?%elem_of_nil|done|apply soft_refl, Hok].
    + intros m' Hi Hs Ha Hc. apply IH; [by apply soft_ok|done|intros g Hg; apply Hl; by right|].
      intros l1 l2 m'' [K1 K2 K3 K4 K5 K6].
      assert (Hother : forall g e', frames s !! g = Some e' -> g <> f ->
        flag_of PTE_A m' pd (upage s e') = flag_of PTE_A (vm_mem s) pd (upage s e') /\
        page_idle m' pd (set_mem m' s) g = page_idle (vm_mem s) pd s g).
      { intros g e' Hg Hne. pose proof (vo_frame _ _ Hok g e' Hg) as Fg.
        pose proof (fo_aligned _ _ _ _ Fg) as Go. pose proof (fo_user _ _ _ _ Fg) as Gu.
        assert (E : flag_of PTE_A m' pd (upage s e') = flag_of PTE_A (vm_mem s) pd (upage s e')).
        { apply Ha; [done|done|]. intros Hup. by apply Hne, (vo_upage _ _ Hok g f e' e). }
        split; [done|]. unfold page_idle. simpl. rewrite Hg.
        destruct (sf_map _ _ _ Hs (upage s e') Go Gu) as (_ & F & _).
        unfold upage in *. simpl. by rewrite E, F. }
      assert (Hl' : forall g, g ∈ l -> exists e', frames s !! g = Some e' /\ g <> f).
      { intros g Hg. destruct (Hl g) as [e' He']; [by right|]. exists e'. split; [done|]. by intros ->. }
      assert (Hsub : forall g, g ∈ l1 \/ g ∈ l2 -> g ∈ l) by (intros g Hg; rewrite K1; by apply elem_of_app).
      apply (HQ (f :: l1) l2). split.
      * by rewrite K1.
      * constructor; [done|]. rewrite Forall_forall in K2 |- *. intros g Hg.
        destruct (Hl' g) as (e' & Hge & Hne); [auto|]. rewrite <- (proj2 (Hother g e' Hge Hne)). by apply K2.
      * intros g Hg. destruct l2 as [|g' l2]; [done|]. injection Hg as ->.
        destruct (Hl' g) as (e' & Hge & Hne); [apply Hsub; right; by left|].
        rewrite <- (proj2 (Hother g e' Hge Hne)). by apply K3.
      * intros g e' [->|Hg]%elem_of_cons Hge; [|by apply (K4 g)].
        assert (e' = e) as -> by congruence. change (flag_of PTE_A m'' pd (upage (set_mem m' s) e) = false).
        rewrite (K5 f e); [done| |done]. intros Hin. by apply Hf, Hsub; left.
      * intros g e' Hg Hge. apply not_elem_of_cons in Hg as [Hne Hg].
        change (flag_of PTE_A m'' pd (upage (set_mem m' s) e') = flag_of PTE_A (vm_mem s) pd (upage s e')).
        rewrite (K5 g e') by done. by apply (Hother g e').
      * by eapply soft_trans.
Qed.

(** ** Eviction *)

(** The slot [i] was free and now holds [c]. *)
Record slot_filled s (i : Z) (b : B) (d : W) (c : list Z) : Prop := {
  sl_range : 0 <= i < bitmap_size (swap_bitmap s);
  sl_free : bitmap_test (swap_bitmap s) i = false;
  sl_size : bitmap_size b = bitmap_size (swap_bitmap s);
  sl_test : forall j, 0 <= j < bitmap_size (swap_bitmap s) ->
    bitmap_test b j = if i =? j then true else bitmap_test (swap_bitmap s) j;
  sl_but : slots_but i (swap_block s) d;
  sl_bytes : slot_bytes d i = c;
}.

Definition to_swap f e (i : Z) (b : B) (d : W) s : vm :=
  set_swap_block d (set_swap_bitmap b (set_frames (<[f := set_index i (set_type SWAP e)]> (frames s)) s)).

Lemma wp_dirty_now s pd x sp (Q : bool -> vm -> Prop) :
  procs s !! running s = Some x -> pr_pagedir x = Some pd -> pd_wf (vm_mem s) pd ->
  is_user_vaddr (sp_upage sp) = true -> Q (flag_of PTE_D (vm_mem s) pd (sp_upage sp)) s ->
  wp (dirty_now sp) Q s.
Proof.
  intros Hx Hp W0 Hu HQ. apply wp_bind. eapply wp_current_pagedir; [exact Hx|exact Hp|].
  apply wp_lift_mem, wp_pte_test; [done..|]. by replace (set_mem (vm_mem s) s) with s by by destruct s.
Qed.

Lemma wp_evict_to_disk s pd f e x sp c (Q : unit -> vm -> Prop) :
  procs s !! running s = Some x -> pr_pagedir x = Some pd -> pd_wf (vm_mem s) pd ->
  frames s !! f = Some e -> spts s !! fr_spt e = Some sp -> is_user_vaddr (sp_upage sp) = true ->
  data (vm_mem s) (fr_kpage e) = Some c -> Z.of_nat (length c) = PGSIZE ->
  swap_lock ∉ locks_of s -> swap_ok (W := W) (swap_bitmap s) -> has_free_slot (swap_bitmap s) ->
  (fr_type e = MMAP -> flag_of PTE_D (vm_mem s) pd (sp_upage sp) = false) ->
  (from_file (fr_type e) = true -> flag_of PTE_D (vm_mem s) pd (sp_upage sp) = false -> Q tt s) ->
  (forall i b d, slot_filled s i b d c -> Q tt (to_swap f e i b d s)) ->
  wp (evict_to_disk f) Q s.
Proof.
  intros Hx Hp W0 He Hsp Hu Hd Hc Hl Hok Hfree Hmm H1 H2.
  apply wp_bind. eapply wp_load_frame; [exact He|].
  destruct (decide (fr_type e = MMAP)) as [Hm|Hm].
  { rewrite (bool_decide_true (fr_type e = MMAP)) by done. apply wp_bind. eapply wp_load_spt; [exact Hsp|].
    apply wp_bind. eapply wp_dirty_now; [exact Hx|exact Hp|done|done|]. rewrite Hmm by done.
    apply wp_when; [done|intros _]. apply H1; [by rewrite Hm|by apply Hmm]. }
  rewrite (bool_decide_false (fr_type e = MMAP)) by done. apply wp_bind.
  assert (Hout : wp (store_frame f (set_type SWAP);; index ← sout f; store_frame f (set_index index)) Q s).
  { apply wp_bind. eapply wp_store_frame; [exact He|]. apply wp_bind.
    eapply (wp_sout _ f (set_type SWAP e) c); [done|simpl; by rewrite lookup_insert_eq|exact Hd|done|done|done|].
    intros i b d Hi Ht Hsz Hb Hbut Hby. eapply wp_store_frame; [simpl; by rewrite lookup_insert_eq|].
    simpl. rewrite !insert_insert_eq. by apply (H2 i b d). }
  destruct (decide (fr_type e = FILE)) as [Hf|Hf].
  - rewrite (bool_decide_false (fr_type e <> FILE)) by auto. apply wp_bind. eapply wp_load_spt; [exact Hsp|].
    eapply wp_dirty_now; [exact Hx|exact Hp|done|done|]. apply wp_when; [by intros _|].
    intros Hdi. apply H1; [by rewrite Hf|done].
  - rewrite (bool_decide_true (fr_type e <> FILE)) by auto. apply wp_ret, wp_when; [by intros _|done].
Qed.

(** The state after the eviction of [f]. *)
Definition evicted f e' (m : vmem) (b : B) (d : W) s : vm :=
  Vm (vm_os s) m (procs s) (running s) (<[f := e']> (frames s)) (filter (fun x => x <> f) (frame_table s))
    (spts s) (shareds s) (next_obj s) d b.

(** Where the page of [e] went: it is as its file has it, or it is in the slot. *)
Definition put_away s pd e e' (b : B) (d : W) (c : list Z) : Prop :=
  (from_file (fr_type e) = true /\ flag_of PTE_D (vm_mem s) pd (upage s e) = false /\
   e' = set_load false e /\ b = swap_bitmap s /\ d = swap_block s) \/
  (exists i, slot_filled s i b d c /\ e' = set_index i (set_type SWAP (set_load false e))).

Lemma put_away_contents s pd f e e' m b d c :
  vm_ok s pd -> frames s !! f = Some e -> fr_load e = true -> data (vm_mem s) (fr_kpage e) = Some c ->
  put_away s pd e e' b d c -> frame_contents (evicted f e' m b d s) e' = frame_contents s e.
Proof.
  intros Hok He Hl Hd [(Ht & Hdi & -> & -> & ->)|(i & Hi & ->)]; unfold frame_contents; simpl; rewrite Hl, Hd.
  - pose proof (fo_clean _ _ _ _ (vo_frame _ _ Hok f e He) Ht Hl Hdi) as Hcl. rewrite Hd in Hcl.
    by destruct (fr_type e).
  - by rewrite (sl_bytes _ _ _ _ _ Hi).
Qed.

(** The tables after the page [u] of the frame at [k] is unmapped and the frame freed. *)
Record unmapped (m m' : vmem) pd (u k : Z) : Prop := {
  um_wf : pd_wf m' pd;
  um_self : mapping m' pd u = None;
  um_pte : forall v, pg_ofs v = 0 -> is_user_vaddr v = true ->
    is_Some (pte_of m pd v) -> is_Some (pte_of m' pd v);
  um_other : forall v, v <> u -> pg_ofs v = 0 -> is_user_vaddr v = true ->
    mapping m' pd v = mapping m pd v /\ flag_of PTE_D m' pd v = flag_of PTE_D m pd v;
  um_data : forall a, a <> k -> data m' a = data m a;
  um_free : pages m' !! k = None;
  um_init : init_page_dir m' = init_page_dir m;
  um_ram : init_ram_pages m' = init_ram_pages m;
}.

Lemma unmapped_intro m m1 m2 pd u k c :
  soft m m1 pd -> pte_step [u] m1 m2 pd -> mapping m2 pd u = None -> data m k = Some c ->
  is_user_vaddr u = true -> unmapped m (free_page k m2) pd u k.
Proof.
  intros S1 S2 Hu Hk Hus. pose proof (sf_keep _ _ _ S1) as K1. pose proof (ps_keep _ _ _ _ S2) as K2.
  pose proof (ps_wf _ _ _ _ S2) as W2.
  assert (Hk2 : data m2 k = Some c) by (rewrite (mk_data _ _ K2), (mk_data _ _ K1); done).
  split.
  - by eapply wf_free.
  - by rewrite (proj1 (mapping_free m2 k c pd u Hk2 W2 Hus)).
  - intros v Ho Hv Hs. rewrite (pte_free m2 k c) by done. apply (ps_slots _ _ _ _ S2); [done..|].
    by apply (sf_map _ _ _ S1).
  - intros v Hne Ho Hv. destruct (mapping_free m2 k c pd v Hk2 W2 Hv) as [-> ->].
    destruct (ps_same _ _ _ _ S2 v) as [-> ->]; [by intros ->%list_elem_of_singleton|done..|].
    by destruct (sf_map _ _ _ S1 v Ho Hv) as (-> & -> & _).
  - intros a Ha. rewrite data_free, decide_False by done. by rewrite (mk_data _ _ K2), (mk_data _ _ K1).
  - apply lookup_delete_eq.
  - by rewrite <- (mk_init _ _ K1), <- (mk_init _ _ K2).
  - by rewrite <- (mk_ram _ _ K1), <- (mk_ram _ _ K2).
Qed.

(** The slots that the other frames use are left alone by [put_away]. *)
Lemma put_away_other s pd f e e' b d c g e0 :
  vm_ok s pd -> frames s !! f = Some e -> put_away s pd e e' b d c -> g <> f -> frames s !! g = Some e0 ->
  bitmap_size b = bitmap_size (swap_bitmap s) /\
  (swapped e0 = true -> bitmap_test b (fr_index e0) = bitmap_test (swap_bitmap s) (fr_index e0) /\
     slot_bytes d (fr_index e0) = slot_bytes (swap_block s) (fr_index e0)) /\
  (swapped e' = true -> swapped e0 = true -> fr_index e0 <> fr_index e').
Proof.
  intros Hok He [(Ht & _ & -> & -> & ->)|(i & [R F Z T U Y] & ->)] Hne Hg.
  - split; [done|]. split; [done|]. unfold swapped, from_file in *. simpl.
    by destruct (fr_type e).
  - destruct (vo_frame _ _ Hok g e0 Hg) as [_ _ _ _ _ _ _ Hslot _ _ _].
    assert (Hi : swapped e0 = true -> i <> fr_index e0).
    { intros Hs. destruct (Hslot Hs) as (_ & Hb & _). congruence. }
    split; [done|]. split; [|by intros _ Hs ?; apply (Hi Hs)].
    intros Hs. pose proof (Hi Hs) as Hni. destruct (Hslot Hs) as (Hr & _ & _). split.
    + rewrite T by done. by apply Z.eqb_neq in Hni as ->.
    + by eapply slots_but_bytes.
Qed.

Lemma evict_framed s pd f e e' m' b d c g e0 :
  vm_ok s pd -> frames s !! f = Some e -> fr_load e = true -> put_away s pd e e' b d c ->
  unmapped (vm_mem s) m' pd (upage s e) (fr_kpage e) -> g <> f -> frames s !! g = Some e0 ->
  framed s (evicted f e' m' b d s) pd e0.
Proof.
  intros Hok He Hl Hput Hum Hne Hg.
  destruct (put_away_other s pd f e e' b d c g e0 Hok He Hput Hne Hg) as (Hsz & Hsl & _).
  pose proof (vo_frame _ _ Hok g e0 Hg) as Fg.
  pose proof (fo_aligned _ _ _ _ Fg) as Go. pose proof (fo_user _ _ _ _ Fg) as Gu.
  assert (Hup : upage s e0 <> upage s e) by (intros Hup; by apply Hne, (vo_upage _ _ Hok g f e0 e)).
  destruct (um_other _ _ _ _ _ Hum (upage s e0) Hup Go Gu) as [E1 E2].
  split; simpl; try done.
  - by apply (um_pte _ _ _ _ _ Hum).
  - intros Hl0. apply (um_data _ _ _ _ _ Hum). intros Hk. by apply Hne, (vo_kpage _ _ Hok g f e0 e).
  - intros Hs. by apply Hsl.
  - intros Hs. by apply Hsl.
Qed.

Lemma evict_frame_ok s pd f e e' m' b d c :
  vm_ok s pd -> frames s !! f = Some e -> fr_load e = true -> put_away s pd e e' b d c ->
  unmapped (vm_mem s) m' pd (upage s e) (fr_kpage e) -> frame_ok (evicted f e' m' b d s) pd f e'.
Proof.
  intros Hok He Hl Hput Hum.
  destruct (vo_frame _ _ Hok f e He) as [F1 F2 F3 F4 F5 F6 F7 F8 F9 F10 F11]. rewrite Hl in F6.
  assert (Hpte : is_Some (pte_of m' pd (upage s e))).
  { apply (um_pte _ _ _ _ _ Hum); [done..|]. unfold mapping in F6. by destruct (pte_of _ _ _). }
  pose proof (um_self _ _ _ _ _ Hum) as Hself.
  destruct Hput as [(Ht & _ & -> & -> & ->)|(i & [R F Z T U Y] & ->)].
  - split; try done. intros Hs. unfold swapped, from_file in *. simpl in Hs. by destruct (fr_type e).
  - split; try done; simpl. intros _. unfold upage in *. simpl. rewrite Z, T by done.
    by rewrite Z.eqb_refl.
Qed.

Lemma evict_step s pd f e e' m' b d c :
  vm_ok s pd -> frames s !! f = Some e -> fr_load e = true -> put_away s pd e e' b d c ->
  unmapped (vm_mem s) m' pd (upage s e) (fr_kpage e) -> frame_step s (evicted f e' m' b d s) pd f e e'.
Proof.
  intros Hok He Hl Hput Hum.
  assert (Hl' : fr_load e' = false) by (by destruct Hput as [(_ & _ & -> & _)|(i & _ & ->)]).
  assert (Hsp : fr_spt e' = fr_spt e) by (by destruct Hput as [(_ & _ & -> & _)|(i & _ & ->)]).
  assert (Hnsw : swapped e = false) by (unfold swapped; by rewrite Hl).
  split; simpl; try done; try by apply Hum.
  - apply NoDup_filter, (vo_nodup _ _ Hok).
  - intros g. rewrite list_elem_of_filter. destruct (decide (g = f)) as [->|Hne]; [|tauto].
    rewrite Hl'. split; [by intros []|done].
  - by rewrite Hl'.
  - intros Hs g e0 Hne Hg Hs0.
    by apply (put_away_other s pd f e e' b d c g e0 Hok He Hput Hne Hg).
  - destruct Hput as [(_ & _ & _ & -> & _)|(i & [] & _)]; done.
  - intros i Hi Hb. destruct Hput as [(_ & _ & _ & -> & _)|(j & [R F Z T U Y] & ->)].
    + right. split; [done|]. rewrite Hnsw. by intros [].
    + rewrite T in Hb by done. destruct (Z.eqb_spec j i) as [<-|]; [by left|].
      right. split; [done|]. rewrite Hnsw. by intros [].
  - by eapply evict_frame_ok.
  - intros g e0 Hne Hg. by eapply evict_framed.
Qed.

(** Holding the locks of the paging code changes nothing else. *)
Lemma framed_locks s h pd e :
  (forall i, inode_io i ∈ h -> inode_io i ∈ locks_of s) ->
  (forall i, cache_io i ∈ h -> cache_io i ∈ locks_of s) -> framed s (with_locks h s) pd e.
Proof. intros Hi Hc. split; try done. by apply backed_same, locks_os_same. Qed.

Lemma vm_ok_locks s h pd :
  (forall i, inode_io i ∈ h -> inode_io i ∈ locks_of s) ->
  (forall i, cache_io i ∈ h -> cache_io i ∈ locks_of s) -> vm_ok s pd -> vm_ok (with_locks h s) pd.
Proof.
  intros Hi Hc [H1 H2 H3 H4 H5 H6 H7 H8 H9 H10 H11 H12]. split; try done.
  intros f e He. eapply framed_ok; [by apply framed_locks|by apply H5].
Qed.

Lemma vm_ok_frame_lock s pd : vm_ok s pd -> vm_ok (with_locks ({[frame_lock]} ∪ locks_of s) s) pd.
Proof. intros Hok. apply vm_ok_locks; [set_solver..|done]. Qed.

Lemma unlocked_in s l : unlocked s -> l ∈ [frame_lock; swap_lock; file_lock] -> l ∉ locks_of s.
Proof. unfold unlocked. rewrite Forall_forall. auto. Qed.

(** What [evict] does: it takes the first idle page, or the first page of all. *)
Record evicts s s' pd f e e' : Prop := {
  ev_chosen : exists l1 l2 m, walk s pd (frame_table s) l1 l2 m /\ head (l2 ++ frame_table s) = Some f /\
    forall g e0, g <> f -> frames s !! g = Some e0 ->
      flag_of PTE_A (vm_mem s') pd (upage s e0) = flag_of PTE_A m pd (upage s e0);
  ev_table : frame_table s' = filter (fun x => x <> f) (frame_table s);
  ev_frame : frames s !! f = Some e;
  ev_loaded : fr_load e = true;
  ev_step : frame_step s s' pd f e e';
  ev_unloaded : fr_load e' = false;
  ev_contents : frame_contents s' e' = frame_contents s e;
  ev_os : vm_os s' = vm_os s;
  ev_next : next_obj s' = next_obj s;
  ev_index : fr_type e' = MMAP -> fr_type e = MMAP /\ fr_index e' = fr_index e;
  ev_freed : pages (vm_mem s') !! fr_kpage e = None;
  ev_unmapped : unmapped (vm_mem s) (vm_mem s') pd (upage s e) (fr_kpage e);
}.

(** The end of [evict]: the page is unmapped and its frame freed. *)
Lemma wp_evict_tail s sp x pd k c (Q : unit -> vm -> Prop) p :
  spts s !! p = Some sp -> procs s !! sp_thread sp = Some x -> pr_pagedir x = Some pd ->
  pd_wf (vm_mem s) pd -> is_user_vaddr (sp_upage sp) = true -> pg_ofs (sp_upage sp) = 0 ->
  data (vm_mem s) k = Some c -> frame_lock ∈ locks_of s ->
  (forall m2, pte_step [sp_upage sp] (vm_mem s) m2 pd -> mapping m2 pd (sp_upage sp) = None ->
     Q tt (with_locks (locks_of s ∖ {[frame_lock]}) (set_mem (free_page k m2) s))) ->
  wp (sp ← load_spt p; pd ← pagedir_of (sp_thread sp);
      lift_mem (pagedir_clear_page pd (sp_upage sp));; lift_mem (palloc_free_page k);; release frame_lock) Q s.
Proof.
  intros Hsp Hx Hp W0 Hu Ho Hk Hl HQ. apply wp_bind. eapply wp_load_spt; [exact Hsp|].
  apply wp_bind. eapply wp_pagedir_of; [exact Hx|exact Hp|]. apply wp_bind, wp_lift_mem, wp_clear_page; [done..|].
  intros m2 Hs Hm. apply wp_bind, wp_lift_mem. eapply wp_palloc_free_page.
  - simpl. rewrite (mk_data _ _ (ps_keep _ _ _ _ Hs)). exact Hk.
  - apply wp_release_held; [done|]. by apply HQ.
Qed.

Lemma evicts_intro s pd f e e' m1 m2 b d c l1 l2 :
  vm_ok s pd -> frames s !! f = Some e -> fr_load e = true -> data (vm_mem s) (fr_kpage e) = Some c ->
  walk s pd (frame_table s) l1 l2 m1 -> head (l2 ++ frame_table s) = Some f ->
  pte_step [upage s e] m1 m2 pd -> mapping m2 pd (upage s e) = None -> put_away s pd e e' b d c ->
  evicts s (evicted f e' (free_page (fr_kpage e) m2) b d s) pd f e e'.
Proof.
  intros Hok He Hl Hd Hw Hh S2 Hm Hput.
  assert (Hum : unmapped (vm_mem s) (free_page (fr_kpage e) m2) pd (upage s e) (fr_kpage e)).
  { eapply unmapped_intro; [by eapply wk_soft|done|done|exact Hd|]. by eapply fo_user, vo_frame. }
  split; [|done..|by eapply evict_step| |by eapply put_away_contents|done|done| |apply Hum|exact Hum].
  2,3: by destruct Hput as [(_ & _ & -> & _)|(i & _ & ->)].
  exists l1, l2, m1. split_and!; [done..|]. intros g e0 Hne Hg. pose proof (vo_frame _ _ Hok g e0 Hg) as Fg.
  assert (Hd2 : data m2 (fr_kpage e) = Some c).
  { rewrite (mk_data _ _ (ps_keep _ _ _ _ S2)), (mk_data _ _ (sf_keep _ _ _ (wk_soft _ _ _ _ _ _ Hw))). done. }
  destruct (mapping_free m2 (fr_kpage e) c pd (upage s e0) Hd2 (ps_wf _ _ _ _ S2) (fo_user _ _ _ _ Fg)) as [_ Hf].
  simpl. rewrite Hf. apply (ps_same _ _ _ _ S2); [|apply Fg..].
  intros Hup%list_elem_of_singleton. by apply Hne, (vo_upage _ _ Hok g f e0 e).
Qed.

(** The frame that [evict] takes. *)
Lemma evict_takes s pd l1 l2 m1 :
  vm_ok s pd -> walk s pd (frame_table s) l1 l2 m1 -> frame_table s <> [] ->
  exists f e, head (l2 ++ frame_table s) = Some f /\ (f ∈ frame_table s) /\ frames s !! f = Some e /\ fr_load e = true.
Proof.
  intros Hok Hw Hne. pose proof (wk_split _ _ _ _ _ _ Hw) as Hs.
  assert (exists f : nat, head (l2 ++ frame_table s) = Some f /\ (f ∈ frame_table s)) as (f & Hh & Hin).
  { destruct l2 as [|f l2]; simpl.
    - destruct (frame_table s) as [|f l]; [done|]. exists f. split; [done|by left].
    - exists f. split; [done|]. rewrite Hs. apply elem_of_app. right. by left. }
  destruct (proj1 (vo_table _ _ Hok f) Hin) as (e & He & Hl). by exists f, e.
Qed.

Lemma walk_locks s h pd l l1 l2 m : walk (with_locks h s) pd l l1 l2 m -> walk s pd l l1 l2 m.
Proof. by intros []. Qed.

Lemma wp_evict s pd (Q : unit -> vm -> Prop) :
  vm_ok s pd -> unlocked s -> has_free_slot (swap_bitmap s) -> frame_table s <> [] ->
  (forall f e e' s', evicts s s' pd f e e' -> Q tt s') -> wp evict Q s.
Proof.
  intros Hok Hun Hfree Hne HQ.
  assert (Hfl : frame_lock ∉ locks_of s) by (apply unlocked_in; [done|by left]).
  assert (Hsl : swap_lock ∉ locks_of s) by (apply unlocked_in; [done|right; by left]).
  apply wp_bind, wp_acquire; [done|]. apply wp_bind, wp_gets, wp_bind.
  apply (wp_choose _ _ pd); [by apply vm_ok_frame_lock|apply (vo_nodup _ _ Hok)| |].
  { intros f Hf. apply (vo_table _ _ Hok) in Hf as (e & He & _). by exists e. }
  intros l1 l2 m1 Hw%walk_locks. destruct (evict_takes s pd l1 l2 m1 Hok Hw Hne) as (f & e & Hh & Hin & He & Hl).
  apply wp_bind. eapply (wp_deref _ f); [by destruct l2|].
  destruct (vo_frame _ _ Hok f e He) as [F1 F2 F3 F4 F5 F6 F7 F8 F9 F10 F11].
  destruct (F7 Hl) as (Hpool & c & Hd & Hc). destruct (vo_proc _ _ Hok) as (x & Hx & Hp).
  pose proof (wk_soft _ _ _ _ _ _ Hw) as S1. pose proof (sf_keep _ _ _ S1) as K1.
  assert (Hd1 : data m1 (fr_kpage e) = Some c) by (rewrite (mk_data _ _ K1); done).
  destruct (sf_map _ _ _ S1 (upage s e) F3 F2) as (_ & HD1 & _).
  apply wp_bind, wp_table_remove; [done|]. apply wp_bind. eapply wp_store_frame; [exact He|].
  apply wp_bind. eapply wp_load_frame; [simpl; by rewrite lookup_insert_eq|]. simpl. rewrite F4.
  assert (Htail : forall e' b d, put_away s pd e e' b d c ->
    wp (sp ← load_spt (fr_spt e); pd ← pagedir_of (sp_thread sp);
        lift_mem (pagedir_clear_page pd (sp_upage sp));; lift_mem (palloc_free_page (fr_kpage e));;
        release frame_lock) Q
      (with_locks ({[frame_lock]} ∪ locks_of s) (evicted f e' m1 b d s))).
  { intros e' b d Hput. eapply wp_evict_tail; [exact F1|exact Hx|exact Hp|apply S1|done|done|exact Hd1|set_solver|].
    intros m2 S2 Hm2.
    match goal with |- Q _ ?y => replace y with (evicted f e' (free_page (fr_kpage e) m2) b d s) end.
    2:{ unfold locks_of, with_locks. simpl. rewrite locks_back by done. by destruct s as [[[]]]. }
    eapply HQ, (evicts_intro s pd f e e' m1 m2); done. }
  apply wp_bind.
  eapply (wp_evict_to_disk _ pd f (set_load false e) x (Spt (upage s e) f (running s)) c);
    [exact Hx|exact Hp|apply S1|simpl; by rewrite lookup_insert_eq|exact F1|done|done|done| |apply (vo_swap _ _ Hok)|done| | |].
  - unfold locks_of in *. simpl. set_solver.
  - simpl. rewrite HD1. auto.
  - simpl. rewrite HD1. intros Ht Hdi. eapply (Htail _ (swap_bitmap s) (swap_block s)). by left.
  - intros i b d [R F Z T U Y]. unfold to_swap. simpl. rewrite insert_insert_eq.
    apply (Htail (set_index i (set_type SWAP (set_load false e))) b d). right. by exists i.
Qed.


(** The choice of [evict].  The walk over the frame table passes the pages [l1], all
    accessed or dirty, and stops at the first page that is neither, which it takes; if
    there is none it takes the first page of the table.  The pages that were passed have
    lost their accessed bit, the others keep theirs. *)
Theorem evict_second_chance s pd
    (Hok : vm_ok s pd) (Hun : unlocked s) (Hfree : has_free_slot (swap_bitmap s)) (Hne : frame_table s <> []) :
  wp evict (fun _ s' => exists (f : nat) l1 l2,
    frame_table s = l1 ++ l2 /\ head (l2 ++ frame_table s) = Some f /\
    frame_table s' = filter (fun x => x <> f) (frame_table s) /\
    Forall (fun g => page_idle (vm_mem s) pd s g = false) l1 /\
    (l2 <> [] -> page_idle (vm_mem s) pd s f = true) /\
    forall g e, g <> f -> frames s !! g = Some e ->
      flag_of PTE_A (vm_mem s') pd (upage s e) =
        if decide (g ∈ l1) then false else flag_of PTE_A (vm_mem s) pd (upage s e)) s.
Proof.
  apply (wp_evict s pd); [done..|].
  intros f e e' s' [(l1 & l2 & m & [K1 K2 K3 K4 K5 K6] & Hh & Hfl) E2 _ _ _ _ _ _ _ _ _ _].
  exists f, l1, l2. split_and!; try done.
  - intros Hl. apply K3. by destruct l2.
  - intros g e0 Hg Hge. rewrite (Hfl g e0) by done. case_decide; [by eapply K4|by apply (K5 g)].
Qed.
End paging.

(** ** A process with one page in memory and one still in its file *)
Definition stack_bytes : list Z := replicate 4096 7.
Definition vm_mem0 : vmem := put_page user_frame stack_bytes vm2.

Definition stack_frame : frame_elem :=
  FrameElem user_frame 0 None true None SIZE_MAX SWAP 0 0 true.
Definition code_frame : frame_elem :=
  FrameElem 0 1 None false (Some 0%nat) SIZE_MAX FILE 100 400 false.

Definition paged : vm disk bits disk :=
  Vm (open_file_os 0) vm_mem0 {[0%nat := Process (Some user_dir) [0%nat; 1%nat]]} 0
    (<[0%nat := stack_frame]> {[1%nat := code_frame]}) [0%nat]
    (<[0%nat := Spt code_page 0 0]> {[1%nat := Spt (code_page + 4096) 1 0]}) ∅ 2
    ∅ (replicate 16 false).

Lemma paged_frames f e : frames paged !! f = Some e -> (f = 0%nat /\ e = stack_frame) \/ (f = 1%nat /\ e = code_frame).
Proof.
  simpl. intros [[<- <-]|[_ [<- <-]%lookup_singleton_Some]]%lookup_insert_Some; [by left|by right].
Qed.

Lemma paged_stack_ok : frame_ok paged user_dir 0 stack_frame.
Proof.
  split; try done.
  - intros _. split; [done|]. by exists stack_bytes.
Qed.
Lemma paged_code_ok : frame_ok paged user_dir 1 code_frame.
Proof.
  split; try done.
  intros _. exists 0%nat, (File 0 0 false), (two_block_inode 0).
  split; [done|]. split; [by apply open_file_at|]. simpl. unfold PGSIZE. lia.
Qed.

Lemma paged_ok : vm_ok paged user_dir.
Proof.
  split.
  - by exists (Process (Some user_dir) [0%nat; 1%nat]).
  - apply wf_put; [by apply fresh_not_table|apply vm2_wf].
  - done.
  - intros a Ha%bool_decide_eq_true. simpl. revert a Ha. by apply Forall_forall; repeat constructor.
  - by intros f e [[-> ->]|[-> ->]]%paged_frames; [apply paged_stack_ok|apply paged_code_ok].
  - by intros f g e e' [[-> ->]|[-> ->]]%paged_frames [[-> ->]|[-> ->]]%paged_frames.
  - apply NoDup_singleton.
  - intros f. simpl. rewrite list_elem_of_singleton. split.
    + intros ->. by exists stack_frame.
    + by intros (e & [[-> ->]|[-> ->]]%paged_frames & Hl).
  - by intros f g e e' [[-> ->]|[-> ->]]%paged_frames [[-> ->]|[-> ->]]%paged_frames.
  - split; simpl; unfold UINT32; lia.
  - by intros f g e e' [[-> ->]|[-> ->]]%paged_frames [[-> ->]|[-> ->]]%paged_frames.
  - intros i Hi. simpl. unfold bits_test. rewrite nth_lookup. simpl.
    change [_; _; _; _; _; _; _; _; _; _; _; _; _; _; _; _] with (replicate 16 false).
    destruct (replicate 16 false !! Z.to_nat i) as [x|] eqn:Hx; [|done].
    by apply lookup_replicate in Hx as [-> _].
Qed.

Lemma paged_free_slot : has_free_slot (swap_bitmap paged).
Proof. exists 0. done. Qed.
Lemma paged_unlocked : unlocked paged.
Proof. repeat constructor; by apply not_elem_of_empty. Qed.


Lemma evict_second_chance_witness :
  page_idle (vm_mem paged) user_dir paged 0 = true /\ wp evict (fun _ s' => frame_table s' = []) paged.
Proof.
  split; [done|]. eapply wp_mono.
  - by apply (evict_second_chance paged user_dir paged_ok paged_unlocked paged_free_slot).
  - intros [] s' (f & l1 & l2 & Hs & Hh & -> & Hb & _). simpl in Hs.
    destruct l1 as [|g l1]; simpl in Hs; [subst l2; injection Hh as <-; done|].
    injection Hs as <- Hs. by apply Forall_cons in Hb as [Hb _].
Defined.
