(* ===== verification/Reload.v ===== *)
(** * Reload: bringing pages back ([page_back], [file_back], [load_back] of [vm/swap.c]).

    With the invariant and the abstract view of Paging: the bytes of a page that is not in
    memory are in the page after [load_back], and nothing else changes. *)
From S2P Require Import Prelude Bytes State Instances Cache FreeMap Inode InodeData File Pagedir Vm Swap Paging.
From Stdlib Require Import ZArith Lia.
From stdpp Require Import prelude gmap.

Open Scope Z_scope.

Section reload.
Context {D B W : Type} {dev : BlockDev D} {bm : Bitmap B} {io : BitmapIO D B} {mem : Memory}
  {sdev : BlockDev W} {pg : Paging}.
Context {dlaws : BlockDevLaws D} {slaws : BlockDevLaws W} {blaws : BitmapLaws B} {pl : PagingLaws}.
Abbreviation vm := (vm D B W).
Implicit Types (s : vm) (f g p : nat) (e : frame_elem) (pd k : Z).

(** ** A frame for the page *)

(** There is a free page, or [evict] can make one. *)
Definition can_get s : Prop :=
  is_Some (palloc_next true (pages (vm_mem s))) \/
  (has_free_slot (swap_bitmap s) /\ frame_table s <> []).

(** The state before the page is handed out: [s], or [s] after an eviction. *)
Record prepared s s0 pd : Prop := {
  pp_ok : vm_ok s0 pd;
  pp_contents : forall g, contents s0 g = contents s g;
  pp_frame : forall f e, frames s !! f = Some e -> fr_load e = false -> frames s0 !! f = Some e;
  pp_spts : spts s0 = spts s;
  pp_run : running s0 = running s;
  pp_os : vm_os s0 = vm_os s;
  pp_procs : procs s0 = procs s;
  pp_next : next_obj s0 = next_obj s;
  pp_maps : forall v, pg_ofs v = 0 -> is_user_vaddr v = true ->
    mapping (vm_mem s) pd v = None -> mapping (vm_mem s0) pd v = None;
  pp_links : forall g, fr_spt <$> frames s0 !! g = fr_spt <$> frames s !! g;
  pp_index : forall g e0, frames s0 !! g = Some e0 -> fr_type e0 = MMAP ->
    exists e, frames s !! g = Some e /\ fr_type e = MMAP /\ fr_index e0 = fr_index e;
  pp_pte : forall v, pg_ofs v = 0 -> is_user_vaddr v = true ->
    is_Some (pte_of (vm_mem s) pd v) -> is_Some (pte_of (vm_mem s0) pd v);
}.

Lemma prepared_refl s pd : vm_ok s pd -> prepared s s pd.
Proof. split; eauto. Qed.
Lemma prepared_evicts s s' pd f e e' : vm_ok s pd -> evicts s s' pd f e e' -> prepared s s' pd.
Proof.
  intros Hok [_ _ E2 E3 E4 E5 E6 E7 E8 Hix E9 Hum]. split; try apply E4; try done.
  - by eapply frame_step_ok.
  - intros g. by eapply frame_step_contents.
  - intros g e0 Hg Hl. rewrite (fs_frames _ _ _ _ _ _ E4), lookup_insert_ne; [done|]. intros ->. congruence.
  - intros v Ho Hu Hm. destruct (decide (v = upage s e)) as [->|Hne]; [apply Hum|].
    by destruct (um_other _ _ _ _ _ Hum v Hne Ho Hu) as [-> _].
  - intros g. rewrite (fs_frames _ _ _ _ _ _ E4). destruct (decide (f = g)) as [<-|].
    + rewrite lookup_insert_eq, E2. simpl. by rewrite (fs_spt _ _ _ _ _ _ E4).
    + by rewrite lookup_insert_ne.
  - intros g e0. rewrite (fs_frames _ _ _ _ _ _ E4). intros [[<- <-]|[Hne Hg]]%lookup_insert_Some Ht; [|eauto].
    destruct (Hix Ht). eauto.
  - apply (um_pte _ _ _ _ _ Hum).
Qed.

Definition page_flags (c0 : list Z) (flags : Z) : Prop :=
  Z.of_nat (length c0) = PGSIZE /\ (has PAL_ZERO flags = true -> c0 = replicate (Z.to_nat PGSIZE) 0).

Lemma wp_palloc m flags a (Q : option Z -> vmem -> Prop) :
  has PAL_USER flags = true -> palloc_next true (pages m) = Some a ->
  (forall c0, page_flags c0 flags -> Q (Some a) (put_page a c0 m)) -> wp (palloc_get_page flags) Q m.
Proof.
  intros Hu Ha HQ. apply wp_bind, wp_get. rewrite Hu, Ha. apply wp_bind, wp_modify, wp_ret, HQ.
  unfold page_flags. destruct (has PAL_ZERO flags); (split; [|done]); [|apply stale_length].
  by rewrite length_replicate.
Qed.

Lemma wp_palloc_full m flags (Q : option Z -> vmem -> Prop) :
  has PAL_USER flags = true -> palloc_next true (pages m) = None -> Q None m -> wp (palloc_get_page flags) Q m.
Proof. intros Hu Ha HQ. apply wp_bind, wp_get. rewrite Hu, Ha. by apply wp_ret. Qed.

Lemma wp_get_kpage s pd flags (Q : Z -> vm -> Prop) :
  vm_ok s pd -> unlocked s -> can_get s -> has PAL_USER flags = true ->
  (forall s0 k c0, prepared s s0 pd -> pages (vm_mem s0) !! k = None -> in_pool true k = true ->
     page_flags c0 flags -> Q k (with_page k c0 s0)) ->
  wp (get_kpage 1 flags) Q s.
Proof.
  intros Hok Hun Hcan Hf HQ. unfold get_kpage, frame_get_kpage.
  assert (Hz : (Z.land flags PAL_USER =? 0) = false) by (unfold has in Hf; by destruct (_ =? _)).
  rewrite Hz. apply wp_bind, wp_lift_mem. destruct (palloc_next true (pages (vm_mem s))) as [a|] eqn:Ha.
  - eapply wp_palloc; [done|exact Ha|]. intros c0 Hc. apply wp_ret.
    destruct (palloc_some _ _ _ Ha) as [Hn Hp]. by apply (HQ s); [apply prepared_refl|..].
  - apply wp_palloc_full; [done|done|]. destruct Hcan as [[? Hs]|[Hfree Hne]]; [by rewrite Ha in Hs|].
    replace (set_mem (vm_mem s) s) with s by by destruct s.
    apply wp_bind, (wp_evict s pd); [done..|]. intros f e e' s' Hev.
    pose proof (prepared_evicts s s' pd f e e' Hok Hev) as Hprep.
    destruct Hev as [_ _ E2 E3 _ _ _ _ _ _ E8 _].
    destruct (fo_loaded _ _ _ _ (vo_frame _ _ Hok f e E2) E3) as [Hpool _].
    apply wp_bind, wp_lift_mem. destruct (palloc_next true (pages (vm_mem s'))) as [a'|] eqn:Ha'.
    + eapply wp_palloc; [done|exact Ha'|]. intros c0 Hc. apply wp_ret.
      destruct (palloc_some _ _ _ Ha') as [Hn Hp]. by apply (HQ s').
    + destruct (palloc_none _ _ _ Ha' Hpool) as [? Hs]. by rewrite E8 in Hs.
Qed.


(** ** Mapping the page *)

(** The memory after the page [u] is mapped to the new frame [k] with the bytes [c]. *)
Record mapped (m m' : vmem) pd (u k : Z) (c : list Z) : Prop := {
  mp_wf : pd_wf m' pd;
  mp_self : mapping m' pd u = Some k;
  mp_clean : flag_of PTE_D m' pd u = false;
  mp_pte : forall v, pg_ofs v = 0 -> is_user_vaddr v = true ->
    is_Some (pte_of m pd v) -> is_Some (pte_of m' pd v);
  mp_other : forall v, v <> u -> pg_ofs v = 0 -> is_user_vaddr v = true ->
    mapping m' pd v = mapping m pd v /\ flag_of PTE_D m' pd v = flag_of PTE_D m pd v;
  mp_page : data m' k = Some c;
  mp_data : forall a, a <> k -> data m' a = data m a;
  mp_init : init_page_dir m' = init_page_dir m;
  mp_ram : init_ram_pages m' = init_ram_pages m;
}.

Lemma wp_install_page s x pd u k c w m (Q : bool -> vm -> Prop) :
  procs s !! running s = Some x -> pr_pagedir x = Some pd -> pd_wf m pd -> pd <> init_page_dir m ->
  is_user_vaddr u = true -> pg_ofs u = 0 -> pg_ofs k = 0 -> Z.shiftr (vtop k) PTSHIFT < init_ram_pages m ->
  mapping m pd u = None -> pages m !! k = None -> vm_mem s = put_page k c m ->
  (pte_of m pd u = None -> palloc_next false (pages (vm_mem s)) = None -> Q false s) ->
  (forall m', mapped m m' pd u k c -> flag_of PTE_W m' pd u = w -> Q true (set_mem m' s)) ->
  wp (install_page u k w) Q s.
Proof.
  intros Hx Hp W0 Hi Hu Ho Hk Hram Hm Hfree Hs H1 H2. pose proof (fresh_not_table m k Hfree) as Hnt.
  assert (Hself : set_mem (put_page k c m) s = s) by (rewrite <- Hs; by destruct s).
  assert (W1 : pd_wf (put_page k c m) pd) by by apply wf_put.
  destruct (mapping_put m k c pd u Hnt W0 Hu) as [Em Ef].
  apply wp_bind. eapply wp_current_pagedir; [exact Hx|exact Hp|]. apply wp_bind, wp_lift_mem. rewrite Hs.
  apply wp_get_page; [done..|]. rewrite Em, Hm, Hself. apply wp_lift_mem. rewrite Hs.
  apply wp_set_page; [done..|by rewrite Em| |].
  - rewrite (pte_put m k c), Hself, <- Hs by done. exact H1.
  - intros m' S2 He. pose proof (ps_keep _ _ _ _ S2) as K2.
    destruct (fresh_entry m' pd u k w) as (F0 & F1 & _ & F3); [done..|apply S2|done|].
    apply H2; [|done]. split; try done; try by apply S2.
    + intros v Hv Hvu Hsome. apply (ps_slots _ _ _ _ S2); [done..|]. by rewrite (pte_put m k c).
    + intros v Hne Hv Hvu. destruct (ps_same _ _ _ _ S2 v) as [-> ->]; [by intros ->%list_elem_of_singleton|done..|].
      destruct (mapping_put m k c pd v Hnt W0 Hvu) as [-> ->]. done.
    + by rewrite (mk_data _ _ K2), data_put, decide_True.
    + intros a Ha. by rewrite (mk_data _ _ K2), data_put, decide_False.
Qed.

(** The state after the frame [f] is back in memory. *)
Definition reloaded f e' (m : vmem) (b : B) (x : os D B) s : vm :=
  Vm x m (procs s) (running s) (<[f := e']> (frames s)) (frame_table s ++ [f])
    (spts s) (shareds s) (next_obj s) (swap_block s) b.

(** The swap map after the load: the slot of a swapped page is given back. *)
Definition given_back s e (b : B) : Prop :=
  if swapped e then b = bitmap_flip (swap_bitmap s) (fr_index e) else b = swap_bitmap s.

Lemma given_back_test s pd f e b :
  vm_ok s pd -> frames s !! f = Some e -> given_back s e b ->
  bitmap_size b = bitmap_size (swap_bitmap s) /\
  forall i, 0 <= i < bitmap_size (swap_bitmap s) ->
    bitmap_test b i = bitmap_test (swap_bitmap s) i && negb (swapped e && (fr_index e =? i)).
Proof.
  intros Hok He. unfold given_back. destruct (swapped e) eqn:Hs; intros ->; simpl.
  - destruct (fo_slot _ _ _ _ (vo_frame _ _ Hok f e He) Hs) as (Hr & Ht & _).
    split; [apply bitmap_flip_size|]. intros i Hi. rewrite bitmap_flip_test by done.
    destruct (Z.eqb_spec (fr_index e) i) as [<-|]; [by rewrite Ht|by rewrite andb_true_r].
  - split; [done|]. intros i _. by rewrite andb_true_r.
Qed.

Lemma reload_framed s pd f e k c m' b x g e0 :
  vm_ok s pd -> frames s !! f = Some e -> fr_load e = false -> pages (vm_mem s) !! k = None ->
  mapped (vm_mem s) m' pd (upage s e) k c -> given_back s e b -> os_same (vm_os s) x ->
  g <> f -> frames s !! g = Some e0 -> framed s (reloaded f (set_load true (set_kpage k e)) m' b x s) pd e0.
Proof.
  intros Hok He Hl Hk Hm Hb Hos Hne Hg. pose proof (vo_frame _ _ Hok g e0 Hg) as Fg.
  pose proof (fo_aligned _ _ _ _ Fg) as Go. pose proof (fo_user _ _ _ _ Fg) as Gu.
  destruct (given_back_test s pd f e b Hok He Hb) as [Hsz Ht].
  assert (Hup : upage s e0 <> upage s e) by (intros Hup; by apply Hne, (vo_upage _ _ Hok g f e0 e)).
  destruct (mp_other _ _ _ _ _ _ Hm (upage s e0) Hup Go Gu) as [E1 E2].
  split; simpl; try done.
  - by apply (mp_pte _ _ _ _ _ _ Hm).
  - intros Hl0. apply (mp_data _ _ _ _ _ _ Hm). intros Hk0.
    destruct (fo_loaded _ _ _ _ Fg Hl0) as (_ & c0 & Hd & _). unfold data in Hd. by rewrite Hk0, Hk in Hd.
  - intros Hs0. destruct (fo_slot _ _ _ _ Fg Hs0) as (Hr & _). rewrite Ht by done.
    destruct (swapped e) eqn:Hs; [|by rewrite andb_true_r].
    destruct (Z.eqb_spec (fr_index e) (fr_index e0)) as [Hi|]; [|by rewrite andb_true_r].
    by destruct Hne; apply (vo_slots _ _ Hok g f e0 e).
  - by apply backed_same.
Qed.

(** The page [c] of the frame [e] can be put at [k]. *)
Record loads s pd f e (k : Z) (c : list Z) (m' : vmem) (b : B) (x : os D B) : Prop := {
  ld_ok : vm_ok s pd;
  ld_frame : frames s !! f = Some e;
  ld_unloaded : fr_load e = false;
  ld_free : pages (vm_mem s) !! k = None;
  ld_pool : in_pool true k = true;
  ld_length : Z.of_nat (length c) = PGSIZE;
  ld_mapped : mapped (vm_mem s) m' pd (upage s e) k c;
  ld_back : given_back s e b;
  ld_os : os_same (vm_os s) x;
  ld_contents : frame_contents s e = Some c;
}.

Lemma reload_frame_ok s pd f e k c m' b x :
  loads s pd f e k c m' b x ->
  frame_ok (reloaded f (set_load true (set_kpage k e)) m' b x s) pd f (set_load true (set_kpage k e)).
Proof.
  intros [Hok He Hl Hk Hpool Hc Hm Hb Hos Hcon].
  destruct (vo_frame _ _ Hok f e He) as [F1 F2 F3 F4 F5 F6 F7 F8 F9 F10 F11].
  pose proof (mp_clean _ _ _ _ _ _ Hm) as Hcl. pose proof (mp_page _ _ _ _ _ _ Hm) as Hpg.
  split; try done.
  - by apply (mp_self _ _ _ _ _ _ Hm).
  - intros _. split; [done|]. by exists c.
  - intros Ht. destruct (backed_same _ _ e Hos (F9 Ht)) as [(q & y & n & Hq) _]. by exists q, y, n.
  - intros Ht _ _. simpl. rewrite Hpg. change (Some c = file_page x e).
    destruct (backed_same _ _ e Hos (F9 Ht)) as [_ ->]. rewrite <- Hcon. unfold frame_contents, from_file in *.
    rewrite Hl. simpl in Ht. by destruct (fr_type e).
Qed.

Lemma reload_step s pd f e k c m' b x :
  loads s pd f e k c m' b x ->
  frame_step s (reloaded f (set_load true (set_kpage k e)) m' b x s) pd f e (set_load true (set_kpage k e)).
Proof.
  intros Hld. pose proof Hld as [Hok He Hl Hk Hpool Hc Hm Hb Hos Hcon].
  destruct (given_back_test s pd f e b Hok He Hb) as [Hsz Ht].
  assert (Hnin : f ∉ frame_table s).
  { rewrite (vo_table _ _ Hok). intros (e0 & He0 & Hl0). congruence. }
  split; simpl; try done; try by apply Hm.
  - apply NoDup_app. split_and!; [apply (vo_nodup _ _ Hok)|by intros g Hg ->%list_elem_of_singleton|apply NoDup_singleton].
  - intros g. rewrite elem_of_app, list_elem_of_singleton. destruct (decide (g = f)); [by split; [|right]|tauto].
  - intros _ g e0 Hne Hg Hl0 Hk0.
    destruct (fo_loaded _ _ _ _ (vo_frame _ _ Hok g e0 Hg) Hl0) as (_ & c0 & Hd & _).
    unfold data in Hd. by rewrite Hk0, Hk in Hd.
  - intros i Hi Hb1. right. rewrite Ht in Hb1 by done. apply andb_true_iff in Hb1 as [Hb1 Hb2].
    split; [done|]. intros [Hs <-]. by rewrite Hs, Z.eqb_refl in Hb2.
  - by eapply reload_frame_ok.
  - intros g e0 Hne Hg. by eapply reload_framed.
Qed.

(** What [load_back] does when it returns true. *)
Record restores s s' pd f e : Prop := {
  rs_ok : vm_ok s' pd;
  rs_contents : forall g, contents s' g = contents s g;
  rs_mapped : exists k c, mapping (vm_mem s') pd (upage s e) = Some k /\
    data (vm_mem s') k = Some c /\ contents s f = Some c;
}.

Lemma loads_restores s s0 pd f e k c m' b x :
  prepared s s0 pd -> frames s !! f = Some e -> loads s0 pd f e k c m' b x ->
  restores s (reloaded f (set_load true (set_kpage k e)) m' b x s0) pd f e.
Proof.
  intros Hprep He Hld. pose proof (reload_step _ _ _ _ _ _ _ _ _ Hld) as Hstep.
  pose proof (ld_frame _ _ _ _ _ _ _ _ _ Hld) as He0. pose proof (ld_ok _ _ _ _ _ _ _ _ _ Hld) as Hok0.
  assert (Hcon : frame_contents (reloaded f (set_load true (set_kpage k e)) m' b x s0) (set_load true (set_kpage k e))
    = frame_contents s0 e).
  { rewrite (ld_contents _ _ _ _ _ _ _ _ _ Hld). apply (mp_page _ _ _ _ _ _ (ld_mapped _ _ _ _ _ _ _ _ _ Hld)). }
  split.
  - by eapply frame_step_ok.
  - intros g. rewrite <- (pp_contents _ _ _ Hprep g). by eapply frame_step_contents.
  - exists k, c. assert (Hup : upage s e = upage s0 e) by (unfold upage; by rewrite (pp_spts _ _ _ Hprep)).
    destruct (ld_mapped _ _ _ _ _ _ _ _ _ Hld). rewrite Hup. split_and!; [done|done|].
    rewrite <- (pp_contents _ _ _ Hprep f). unfold contents. rewrite He0. apply (ld_contents _ _ _ _ _ _ _ _ _ Hld).
Qed.


(** ** [page_back] *)
Lemma kernel_page k u : in_pool u k = true -> pg_ofs k = 0 /\ negb (k =? 0) = true /\ is_kernel_vaddr k = true.
Proof.
  intros Hk. destruct (pool_page u k Hk) as [Ho Hv]. split_and!; [done| |done].
  destruct (Z.eqb_spec k 0) as [->|]; [|done]. by rewrite null_page in Hv.
Qed.

Lemma user_flag : has PAL_USER PAL_USER = true.
Proof. destruct pal_flags as (H & _). unfold has. by destruct (Z.eqb_spec (Z.land PAL_USER PAL_USER) 0). Qed.

Lemma locks_same s s0 pd : prepared s s0 pd -> locks_of s0 = locks_of s.
Proof. intros Hp. unfold locks_of. by rewrite (pp_os _ _ _ Hp). Qed.

Lemma wp_page_back s pd p f e (Q : bool -> vm -> Prop) :
  vm_ok s pd -> unlocked s -> can_get s -> frames s !! f = Some e -> fr_spt e = p -> swapped e = true ->
  (forall s', restores s s' pd f e -> vm_os s' = vm_os s -> Q true s') -> wp (page_back p) Q s.
Proof.
  intros Hok Hun Hcan He <- Hsw HQ. pose proof (vo_frame _ _ Hok f e He) as F.
  assert (Hl : fr_load e = false) by (unfold swapped in Hsw; by destruct (fr_load e)).
  apply wp_bind. eapply wp_load_spt; [apply F|]. simpl. apply wp_bind.
  eapply wp_get_kpage; [exact Hok|done|done|apply user_flag|]. intros s0 k c0 Hprep Hk Hpool [Hc0 _].
  destruct (kernel_page k true Hpool) as (Hko & Hkn & _). apply wp_bind, wp_assert; [done|].
  assert (Hfl : frame_lock ∉ locks_of s0) by (rewrite (locks_same _ _ _ Hprep); apply unlocked_in; [done|by left]).
  assert (Hsl : swap_lock ∉ locks_of s0)
    by (rewrite (locks_same _ _ _ Hprep); apply unlocked_in; [done|right; by left]).
  pose proof (pp_ok _ _ _ Hprep) as Hok0. pose proof (pp_frame _ _ _ Hprep f e He Hl) as He0.
  destruct (vo_frame _ _ Hok0 f e He0) as [F1 F2 F3 F4 F5 F6 F7 F8 F9 F10 F11].
  destruct (F8 Hsw) as (Hr & Ht & Hpte). rewrite Hl in F6. destruct (vo_proc _ _ Hok0) as (x & Hx & Hp).
  apply wp_bind, wp_acquire; [done|]. apply wp_bind. eapply wp_store_frame; [exact He0|].
  apply wp_bind. eapply wp_load_frame; [simpl; by rewrite lookup_insert_eq|]. apply wp_bind.
  eapply (wp_sback _ _ f (set_kpage k e) c0).
  { unfold locks_of in *. simpl. set_solver. }
  { simpl. by rewrite lookup_insert_eq. }
  { simpl. unfold data. simpl. by rewrite lookup_insert_eq. }
  { done. }
  { apply (vo_swap _ _ Hok0). }
  { exact Hr. }
  simpl. set (c := slot_bytes (swap_block s0) (fr_index e)). intros Hc. apply wp_bind.
  replace (upage s e) with (upage s0 e) by (unfold upage; by rewrite (pp_spts _ _ _ Hprep)).
  eapply (wp_install_page _ x pd (upage s0 e) k c _ (vm_mem s0)); [exact Hx|exact Hp|apply Hok0|apply Hok0|done..| |done|done| | |].
  - by apply (vo_ram _ _ Hok0).
  - unfold put_page. simpl. unfold set_pages. simpl. by rewrite insert_insert_eq.
  - intros Hn _. rewrite Hn in Hpte. by destruct Hpte.
  - intros m' Hm _. apply wp_bind, wp_when; [intros _|done]. apply wp_bind, wp_modify.
    eapply wp_store_frame; [simpl; by rewrite lookup_insert_eq|]. apply wp_bind, wp_release_held.
    { unfold locks_of. simpl. set_solver. }
    apply wp_ret.
    match goal with |- Q _ ?y => replace y with
      (reloaded f (set_load true (set_kpage k e)) m' (bitmap_flip (swap_bitmap s0) (fr_index e)) (vm_os s0) s0) end.
    2:{ unfold locks_of, with_locks, reloaded. simpl. rewrite locks_back, insert_insert_eq by done. by destruct s0 as [[[]]]. }
    apply HQ; [|by rewrite <- (pp_os _ _ _ Hprep)]. eapply loads_restores; [exact Hprep|done|].
    split; try done; [by unfold given_back; rewrite Hsw|]. unfold frame_contents, swapped in *. rewrite Hl in *.
    simpl in Hsw. apply bool_decide_eq_true in Hsw as ->. done.
Qed.


(** ** [file_back] *)
Lemma wp_file_read_at q y n size ofs (x : os D B) (Q : list Z -> os D B -> Prop) :
  file_at q y n x -> 0 <= ofs ->
  (forall z, quiet (os_fs x) z -> Q (slice ofs size (file_bytes n x)) (set_fs z x)) ->
  wp (file_read_at q size ofs) Q x.
Proof.
  intros [H1 H2 H3 H4 H5 H6 H7] Ho HQ. apply wp_bind. eapply wp_load_file; [exact H1|].
  apply wp_lift. eapply wp_mono; [by apply (wp_inode_read_at (f_inode y) n)|]. intros b z [-> Hq]. by apply HQ.
Qed.

Lemma quiet_os_same (x : os D B) z : quiet (os_fs x) z -> os_same x (set_fs z x).
Proof.
  intros [Q1 Q2 [R1 R2 R3 R4 R5 R6]] q y n [H1 H2 H3 H4 H5 H6 H7]. split; [split|]; simpl; try done.
  - by rewrite R4.
  - eapply file_wf_ext; [|exact H4]. intros; apply Q2.
  - by rewrite R6.
  - by apply content_ext.
Qed.

(** The page that [file_read_at] and [memset] make of the bytes read. *)
Lemma fill_page c0 b n :
  Z.of_nat (length c0) = PGSIZE -> Z.of_nat (length b) = n -> 0 < n <= PGSIZE ->
  memcpy c0 0 b = Some (splice 0 b c0) /\ Z.of_nat (length (splice 0 b c0)) = PGSIZE /\
  memset (splice 0 b c0) n 0 (PGSIZE - n) = Some (b ++ replicate (Z.to_nat (PGSIZE - n)) 0).
Proof.
  intros Hc Hb Hn. assert (Hl : length (splice 0 b c0) = length c0) by (apply length_splice; lia).
  split; [apply memcpy_ok; lia|]. split; [by rewrite Hl|].
  destruct (memset_ok (splice 0 b c0) n 0 (PGSIZE - n)) as (d & -> & Hd & Hby);
    [lia|lia|lia|unfold PGSIZE, UINT32 in *; lia|].
  f_equal. apply list_byte_eq.
  - rewrite length_app, length_replicate. lia.
  - intros k Hk. rewrite Hby by lia. unfold byte_at. rewrite (nth_default_lookup (b ++ _)).
    destruct (Z.leb_spec n k); simpl.
    + destruct (Z.ltb_spec k (n + (PGSIZE - n))); [|lia].
      rewrite lookup_app_r by lia. rewrite lookup_replicate_2 by lia. done.
    + rewrite lookup_app_l by lia. rewrite <- nth_default_lookup.
      change (byte_at (splice 0 b c0) k = byte_at b k). rewrite byte_at_splice by lia.
      zcase. f_equal. lia.
Qed.

Lemma file_page_slice (x : os D B) e q y n c :
  fr_file e = Some q -> file_at q y n x -> 0 <= fr_ofs e -> 0 <= fr_read_bytes e ->
  fr_ofs e + fr_read_bytes e <= id_length (i_data n) -> file_page x e = Some c ->
  c = slice (fr_ofs e) (fr_read_bytes e) (file_bytes n x) ++ replicate (Z.to_nat (PGSIZE - fr_read_bytes e)) 0 /\
  Z.of_nat (length (slice (fr_ofs e) (fr_read_bytes e) (file_bytes n x))) = fr_read_bytes e.
Proof.
  intros Hq Hy Ho Hb Hl. rewrite (backed_page x e q y n) by done. intros [= <-]. split; [done|].
  pose proof (length_content (view (os_fs x)) (i_data n)) as Hc. pose proof (fa_wf _ _ _ _ Hy) as Hwf.
  unfold file_bytes. rewrite length_slice; lia.
Qed.

Lemma wp_read_page s e k c0 c (Q : bool -> vm -> Prop) :
  file_lock ∉ locks_of s -> backed (vm_os s) e -> 0 < fr_read_bytes e -> file_page (vm_os s) e = Some c ->
  data (vm_mem s) k = Some c0 -> Z.of_nat (length c0) = PGSIZE ->
  (forall x, os_same (vm_os s) x -> held (os_fs x) = held (os_fs (vm_os s)) -> Q true (set_os x (with_page k c s))) ->
  wp (read_page e k) Q s.
Proof.
  intros Hl (q & y & n & Hq & Hy & Ho & Hb & Hlen) Hpos Hpage Hd Hc0 HQ.
  apply wp_bind, wp_acquire_free; [done|]. set (h := {[file_lock]} ∪ locks_of s).
  assert (Hs1 : os_same (vm_os s) (vm_os (with_locks h s))) by (apply locks_os_same; set_solver).
  destruct (Hs1 q y n Hy) as [Hy1 Eb]. destruct (file_page_slice _ e q y n c Hq Hy) as [Hc Hn]; [lia..|done|].
  assert (H32 : s32 (fr_read_bytes e) = fr_read_bytes e)
    by (apply s32_small; unfold PGSIZE, INT_MAX in *; lia).
  apply wp_bind. eapply wp_deref; [exact Hq|]. apply wp_bind, wp_lift_os. rewrite H32.
  eapply wp_file_read_at; [exact Hy1|done|]. rewrite Eb. intros z Hz.
  set (b := slice (fr_ofs e) (fr_read_bytes e) (file_bytes n (vm_os s))) in *.
  destruct (fill_page c0 b (fr_read_bytes e) Hc0 Hn) as (M1 & M2 & M3); [lia|].
  apply wp_bind. eapply wp_load_page; [exact Hd|]. apply wp_bind. eapply wp_deref; [exact M1|].
  apply wp_bind. eapply wp_store_page; [exact Hd|]. rewrite Hn, Z.eqb_refl. simpl. rewrite M3.
  apply wp_bind, wp_ret, wp_bind.
  eapply wp_store_page; [rewrite data_with_page; by rewrite decide_True|]. rewrite with_page_twice, <- Hc.
  pose proof (sr_held _ _ (q_rest _ _ Hz)) as Hh. simpl in Hh.
  apply wp_bind, wp_release_held. { unfold locks_of. simpl. rewrite Hh. set_solver. }
  apply wp_ret. match goal with |- Q _ ?t => replace t with
    (set_os (set_fs (set_held (locks_of s) z) (vm_os s)) (with_page k c s)) end.
  2:{ unfold with_locks, locks_of, set_os, with_page. simpl. rewrite Hh. unfold h. by rewrite locks_back by done. }
  apply HQ; [|done]. transitivity (set_fs z (set_fs (set_held h (os_fs (vm_os s))) (vm_os s))).
  - etransitivity; [exact Hs1|by apply quiet_os_same].
  - apply (locks_os_same (locks_of s) (set_fs z (vm_os s))); simpl; rewrite Hh; set_solver.
Qed.


(** [file_back] fails where no page table can be had: the page is as before. *)
Definition not_loaded f e' (m : vmem) (x : os D B) s : vm :=
  Vm x m (procs s) (running s) (<[f := e']> (frames s)) (frame_table s)
    (spts s) (shareds s) (next_obj s) (swap_block s) (swap_bitmap s).

Lemma put_framed s pd k c F T x g e0 :
  vm_ok s pd -> pages (vm_mem s) !! k = None -> os_same (vm_os s) x -> frames s !! g = Some e0 ->
  framed s (Vm x (put_page k c (vm_mem s)) (procs s) (running s) F T (spts s) (shareds s) (next_obj s)
    (swap_block s) (swap_bitmap s)) pd e0.
Proof.
  intros Hok Hk Hos Hg. pose proof (vo_frame _ _ Hok g e0 Hg) as Fg. pose proof (vo_dir _ _ Hok) as W0.
  pose proof (fo_user _ _ _ _ Fg) as Gu. pose proof (fresh_not_table _ _ Hk) as Hnt.
  destruct (mapping_put _ k c pd _ Hnt W0 Gu) as [E1 E2].
  split; simpl; try done.
  - by rewrite (pte_put _ k c).
  - intros Hl0. rewrite data_put, decide_False; [done|]. intros Hk0.
    destruct (fo_loaded _ _ _ _ Fg Hl0) as (_ & c0 & Hd & _). unfold data in Hd. by rewrite <- Hk0, Hk in Hd.
  - by apply backed_same.
Qed.

Lemma not_loaded_step s pd f e k c x :
  vm_ok s pd -> frames s !! f = Some e -> fr_load e = false -> pages (vm_mem s) !! k = None ->
  os_same (vm_os s) x ->
  frame_step s (not_loaded f (set_kpage k e) (put_page k c (vm_mem s)) x s) pd f e (set_kpage k e).
Proof.
  intros Hok He Hl Hk Hos. pose proof (vo_dir _ _ Hok) as W0.
  assert (Hself := put_framed s pd k c (<[f := set_kpage k e]> (frames s)) (frame_table s) x f e Hok Hk Hos He).
  split; simpl; try done.
  - apply wf_put; [by apply fresh_not_table|done].
  - apply (vo_nodup _ _ Hok).
  - intros g. destruct (decide (g = f)) as [->|]; [|done]. rewrite (vo_table _ _ Hok), Hl.
    split; [|done]. intros (e0 & He0 & Hl0). congruence.
  - by rewrite Hl.
  - intros Hs g e0 Hne Hg Hs0 Hi. by apply Hne, (vo_slots _ _ Hok g f e0 e).
  - intros i Hi Ht. destruct (swapped e && (fr_index e =? i)) eqn:Hc.
    + left. apply andb_true_iff in Hc as [Hs Hi'%Z.eqb_eq]. done.
    + right. split; [done|]. intros [Hs <-]. by rewrite Hs, Z.eqb_refl in Hc.
  - destruct (framed_ok _ _ _ _ _ Hself (vo_frame _ _ Hok f e He)) as [F1 F2 F3 F4 F5 F6 F7 F8 F9 F10 F11].
    split; try done; simpl; rewrite ?Hl in *; done.
  - intros g e0 Hne Hg. by eapply put_framed.
Qed.

(** The result of [load_back] on the page of [f]. *)
Definition load_result s pd f e (r : bool) s' : Prop :=
  locks_of s' = locks_of s /\
  if r then restores s s' pd f e
  else vm_ok s' pd /\ (forall g, contents s' g = contents s g) /\ from_file (fr_type e) = true.


(** The reading part of [file_back], in the new page. *)
Lemma wp_fill s e k c0 c (Q : bool -> vm -> Prop) :
  file_lock ∉ locks_of s -> backed (vm_os s) e -> file_page (vm_os s) e = Some c ->
  data (vm_mem s) k = Some c0 ->
  page_flags c0 (if fr_read_bytes e =? 0 then Z.lor PAL_USER PAL_ZERO else PAL_USER) ->
  (forall x, os_same (vm_os s) x -> held (os_fs x) = held (os_fs (vm_os s)) -> Q true (set_os x (with_page k c s))) ->
  wp (if 0 <? fr_read_bytes e then read_page e k else mret true) Q s.
Proof.
  intros Hl Hbk Hpage Hd [Hlen Hz] HQ. pose proof Hbk as (q & y & n & Hq & Hy & Ho & Hb & Hend).
  destruct (Z.ltb_spec 0 (fr_read_bytes e)) as [Hpos|Hpos].
  - by eapply wp_read_page.
  - assert (H0 : fr_read_bytes e = 0) by lia.
    destruct (file_page_slice _ e q y n c Hq Hy) as [Hc Hn]; [lia..|done|].
    rewrite H0 in *. assert (Hc0 : c0 = c).
    { rewrite Hc, Hz; [done|].
      destruct pal_flags as (_ & _ & _ & Hf). rewrite Z.eqb_refl. unfold has. by apply Z.eqb_neq in Hf as ->. }
    apply wp_ret. pose proof (HQ (vm_os s) ltac:(reflexivity) eq_refl) as HQ'.
    rewrite with_page_same in HQ' by by rewrite <- Hc0. by destruct s.
Qed.

Lemma file_flags (n : Z) : has PAL_USER (if n =? 0 then Z.lor PAL_USER PAL_ZERO else PAL_USER) = true.
Proof.
  destruct pal_flags as (_ & _ & Hf & _). destruct (n =? 0); [|apply user_flag].
  unfold has. by apply Z.eqb_neq in Hf as ->.
Qed.

(** The end of [file_back]: the page is mapped. *)
Lemma wp_map_file_page s s0 pd f e k c x (Q : bool -> vm -> Prop) :
  prepared s s0 pd -> unlocked s -> frames s !! f = Some e -> fr_load e = false ->
  from_file (fr_type e) = true -> pages (vm_mem s0) !! k = None -> in_pool true k = true ->
  Z.of_nat (length c) = PGSIZE -> file_page (vm_os s0) e = Some c ->
  os_same (vm_os s0) x -> held (os_fs x) = held (os_fs (vm_os s0)) ->
  (forall r s', load_result s pd f e r s' -> Q r s') ->
  wp (success ← install_page (upage s e) k (fr_writable e);
      when success (acquire frame_lock;; store_frame f (set_load true);; table_push f;; release frame_lock);;
      mret success) Q
    (set_os x (with_page k c (set_frames (<[f := set_kpage k e]> (frames s0)) s0))).
Proof.
  intros Hprep Hun He Hl Ht Hk Hpool Hc Hpage Hos Hheld HQ. destruct (kernel_page k true Hpool) as (Hko & _ & _).
  assert (Hlocks : held (os_fs x) = locks_of s) by (rewrite Hheld; apply (locks_same _ _ _ Hprep)).
  pose proof (pp_ok _ _ _ Hprep) as Hok0. pose proof (pp_frame _ _ _ Hprep f e He Hl) as He0.
  destruct (vo_proc _ _ Hok0) as (px & Hx & Hp).
  destruct (vo_frame _ _ Hok0 f e He0) as [F1 F2 F3 F4 F5 F6 F7 F8 F9 F10 F11]. rewrite Hl in F6.
  assert (Hsw : swapped e = false) by (unfold swapped, from_file in *; by destruct (fr_type e); rewrite Hl).
  replace (upage s e) with (upage s0 e) by (unfold upage; by rewrite (pp_spts _ _ _ Hprep)).
  apply wp_bind. eapply (wp_install_page _ px pd (upage s0 e) k c _ (vm_mem s0));
    [exact Hx|exact Hp|apply Hok0|apply Hok0|done..|by apply (vo_ram _ _ Hok0)|done|done|done| |].
  - intros _ _. apply wp_bind, wp_when; [done|intros _]. apply wp_ret, HQ.
    pose proof (not_loaded_step s0 pd f e k c x Hok0 He0 Hl Hk Hos) as Hstep.
    split; [done|]. split_and!; [by eapply frame_step_ok| |done]. intros g.
    rewrite <- (pp_contents _ _ _ Hprep g). eapply frame_step_contents; [done|exact He0|exact Hstep|].
    unfold frame_contents. simpl. rewrite Hl. unfold from_file in Ht.
    pose proof (backed_same _ _ e Hos (F9 Ht)) as [_ E]. by destruct (fr_type e).
  - intros m' Hm _. apply wp_bind, wp_when; [intros _|done]. apply wp_bind, wp_acquire.
    { change (frame_lock ∉ held (os_fs x)). rewrite Hlocks. apply unlocked_in; [done|by left]. }
    apply wp_bind. eapply wp_store_frame; [simpl; by rewrite lookup_insert_eq|]. apply wp_bind, wp_modify.
    apply wp_release_held; [unfold locks_of; simpl; set_solver|]. apply wp_ret.
    match goal with |- Q _ ?t => replace t with
      (reloaded f (set_load true (set_kpage k e)) m' (swap_bitmap s0) x s0) end.
    2:{ unfold locks_of, with_locks, reloaded. simpl. rewrite Hlocks, insert_insert_eq.
        rewrite locks_back by (apply unlocked_in; [done|by left]). rewrite <- Hlocks. by destruct x as [[]]. }
    apply HQ. split; [done|]. eapply loads_restores; [exact Hprep|done|].
    split; try done; [by unfold given_back; rewrite Hsw|]. unfold frame_contents. rewrite Hl.
    unfold from_file in Ht. by destruct (fr_type e).
Qed.

Lemma wp_file_back s pd p f e (Q : bool -> vm -> Prop) :
  vm_ok s pd -> unlocked s -> can_get s -> frames s !! f = Some e -> fr_spt e = p ->
  fr_load e = false -> from_file (fr_type e) = true ->
  (forall r s', load_result s pd f e r s' -> Q r s') -> wp (file_back p) Q s.
Proof.
  intros Hok Hun Hcan He <- Hl Ht HQ. pose proof (vo_frame _ _ Hok f e He) as F.
  apply wp_bind. eapply wp_load_spt; [apply F|]. simpl. apply wp_bind. eapply wp_load_frame; [exact He|].
  apply wp_bind. eapply wp_get_kpage; [exact Hok|done|done|apply file_flags|].
  intros s0 k c0 Hprep Hk Hpool Hflags. destruct (kernel_page k true Hpool) as (_ & _ & Hkv).
  pose proof (pp_ok _ _ _ Hprep) as Hok0. pose proof (pp_frame _ _ _ Hprep f e He Hl) as He0.
  destruct (vo_frame _ _ Hok0 f e He0) as [F1 F2 F3 F4 F5 F6 F7 F8 F9 F10 F11].
  destruct (F9 Ht) as (q & y & n & Hq & Hy & Ho & Hb & Hend).
  pose proof (backed_page (vm_os s0) e q y n Hq Hy) as Hpage. set (c := _ ++ _) in Hpage.
  destruct (file_page_slice _ e q y n c Hq Hy) as [Hc Hn]; [lia..|done|].
  assert (Hlen : Z.of_nat (length c) = PGSIZE) by (rewrite Hc, length_app, length_replicate; lia).
  apply wp_bind. eapply wp_store_frame; [exact He0|].
  apply wp_bind. eapply wp_load_frame; [simpl; by rewrite lookup_insert_eq|].
  apply wp_bind, wp_assert; [done|]. apply wp_bind. eapply (wp_fill _ _ k c0 c).
  - unfold locks_of. simpl. change (file_lock ∉ locks_of s0). rewrite (locks_same _ _ _ Hprep).
    apply unlocked_in; [done|right; right; by left].
  - by exists q, y, n.
  - exact Hpage.
  - simpl. unfold data. simpl. by rewrite lookup_insert_eq.
  - exact Hflags.
  - intros x Hx1 Hx2. simpl in Hx1, Hx2. simpl. rewrite F4.
    match goal with |- wp _ _ ?t => replace t with
      (set_os x (with_page k c (set_frames (<[f := set_kpage k e]> (frames s0)) s0))) end.
    2:{ unfold with_page, set_frames, set_mem, set_os, set_pages. simpl. by rewrite insert_insert_eq. }
    exact (wp_map_file_page s s0 pd f e k c x Q Hprep Hun He Hl Ht Hk Hpool Hlen Hpage Hx1 Hx2 HQ).
Qed.

Lemma wp_load_back s pd f e :
  vm_ok s pd -> unlocked s -> can_get s -> frames s !! f = Some e -> fr_load e = false ->
  wp (load_back (Some (fr_spt e))) (fun r s' =>
    vm_ok s' pd /\ unlocked s' /\ (forall g, contents s' g = contents s g) /\
    if r then exists k c, mapping (vm_mem s') pd (upage s e) = Some k /\
      data (vm_mem s') k = Some c /\ contents s f = Some c
    else from_file (fr_type e) = true) s.
Proof.
  intros Hok Hun Hcan He Hl. pose proof (vo_frame _ _ Hok f e He) as F. apply wp_bind. eapply wp_load_spt; [apply F|]. simpl.
  apply wp_bind. eapply wp_load_frame; [exact He|].
  assert (Hfile : from_file (fr_type e) = true -> wp (file_back (fr_spt e)) (fun r s' =>
    vm_ok s' pd /\ unlocked s' /\ (forall g, contents s' g = contents s g) /\
    if r then exists k c, mapping (vm_mem s') pd (upage s e) = Some k /\
      data (vm_mem s') k = Some c /\ contents s f = Some c
    else from_file (fr_type e) = true) s).
  { intros Ht. eapply (wp_file_back s pd _ f e); [done..|]. intros r s' [Hlk Hr].
    unfold unlocked. rewrite Hlk. destruct r; [destruct Hr|destruct Hr as (? & ? & ?)]; done. }
  destruct (fr_type e) eqn:Ht; [by apply Hfile|by apply Hfile| |by destruct (fo_type _ _ _ _ F)].
  eapply (wp_page_back s pd _ f e); [done..| |].
  - unfold swapped. by rewrite Hl, Ht.
  - intros s' [R1 R2 R3] Hos. unfold unlocked, locks_of. by rewrite Hos.
Qed.

End reload.

Definition code_bytes : list Z := replicate 400 1 ++ replicate 3696 0.

