(* ===== verification/Pages.v ===== *)
(** * Pages: adding pages to an address space ([install_frame], [install_file] of
    [userprog/process.c]).

    The address space of the running process is the relation [space]: the bytes of each of
    its pages.  A page of a file is added without reading it ([wp_install_lazy]), a page of
    the stack with its frame ([wp_install_stack]); both extend the space by one page and
    keep the invariants. *)
From S2P Require Import Prelude Bytes State Instances Cache FreeMap Inode InodeData File Pagedir Vm Swap Paging Reload.
From Stdlib Require Import ZArith Lia.
From stdpp Require Import prelude gmap.

Open Scope Z_scope.

Section pages.
Context {D B W : Type} {dev : BlockDev D} {bm : Bitmap B} {io : BitmapIO D B} {mem : Memory}
  {sdev : BlockDev W} {pg : Paging}.
Context {dlaws : BlockDevLaws D} {slaws : BlockDevLaws W} {blaws : BitmapLaws B} {pl : PagingLaws}.
Abbreviation vm := (vm D B W).
Implicit Types (s : vm) (f g p q : nat) (e : frame_elem) (pd u k : Z).

(** ** The invariant of the heaps *)

(** Addresses are handed out once; the page table of the running process lists the pages
    of its frames. *)
Record heap_ok s : Prop := {
  ho_frames : forall f, is_Some (frames s !! f) -> (f < next_obj s)%nat;
  ho_spts : forall p, is_Some (spts s !! p) -> (p < next_obj s)%nat;
  ho_table : forall x, procs s !! running s = Some x ->
    forall p, p ∈ pr_page_table x <-> exists f e, frames s !! f = Some e /\ fr_spt e = p;
  (** A page of a mapped file is never in swap. *)
  ho_index : forall f e, frames s !! f = Some e -> fr_type e = MMAP -> fr_index e = SIZE_MAX;
}.

(** ** The address space *)
Definition space s u (c : list Z) : Prop :=
  exists f e, frames s !! f = Some e /\ upage s e = u /\ contents s f = Some c.
(** No page is at [u]. *)
Definition unused s u : Prop := forall f e, frames s !! f = Some e -> upage s e <> u.

Lemma space_unused s u c : space s u c -> unused s u -> False.
Proof. intros (f & e & He & Hu & _) Hn. by eapply Hn. Qed.

(** ** One more page *)

(** [s'] is [s] with the frame [f] of contents [e] and the page [p] at the address [u]. *)
Record new_page s s' pd f p u e : Prop := {
  np_frame_new : frames s !! f = None;
  np_spt_new : spts s !! p = None;
  np_frames : frames s' = <[f := e]> (frames s);
  np_spts : spts s' = <[p := Spt u f (running s)]> (spts s);
  np_spt : fr_spt e = p;
  np_run : running s' = running s;
  np_procs : exists x, procs s !! running s = Some x /\
    procs s' = <[running s := Process (pr_pagedir x) (pr_page_table x ++ [p])]> (procs s);
  np_next : (next_obj s <= f /\ next_obj s <= p /\ f < next_obj s' /\ p < next_obj s')%nat;
  np_dir : pd_wf (vm_mem s') pd;
  np_init : init_page_dir (vm_mem s') = init_page_dir (vm_mem s);
  np_ram : init_ram_pages (vm_mem s') = init_ram_pages (vm_mem s);
  np_table : frame_table s' = if fr_load e then frame_table s ++ [f] else frame_table s;
  np_kpage : fr_load e = true -> forall g e0, frames s !! g = Some e0 -> fr_load e0 = true ->
    fr_kpage e0 <> fr_kpage e;
  np_unused : unused s u;
  np_swapped : swapped e = false;
  np_index : fr_index e = SIZE_MAX;
  np_bits : swap_bitmap s' = swap_bitmap s;
  np_self : frame_ok s' pd f e;
  np_others : forall g e0, frames s !! g = Some e0 -> framed s s' pd e0;
}.

Section new_page.
Variables (s s' : vm) (pd : Z) (f p : nat) (u : Z) (e : frame_elem).
Hypothesis Hok : vm_ok s pd.
Hypothesis Hnew : new_page s s' pd f p u e.

Lemma new_frames g e0 : frames s' !! g = Some e0 ->
  (g = f /\ e0 = e) \/ (g <> f /\ frames s !! g = Some e0).
Proof. rewrite (np_frames _ _ _ _ _ _ _ Hnew). intros [[<- <-]|[Hne Hg]]%lookup_insert_Some; [by left|by right]. Qed.

Lemma old_frames g e0 : frames s !! g = Some e0 -> frames s' !! g = Some e0.
Proof.
  intros Hg. rewrite (np_frames _ _ _ _ _ _ _ Hnew), lookup_insert_ne; [done|]. intros <-.
  by rewrite (np_frame_new _ _ _ _ _ _ _ Hnew) in Hg.
Qed.

Lemma new_upage : upage s' e = u.
Proof.
  unfold upage. by rewrite (np_spts _ _ _ _ _ _ _ Hnew), (np_spt _ _ _ _ _ _ _ Hnew), lookup_insert_eq.
Qed.
Lemma old_upage g e0 : frames s !! g = Some e0 -> upage s' e0 = upage s e0.
Proof. intros Hg. eapply framed_upage. by eapply np_others. Qed.

Lemma new_page_ok : vm_ok s' pd.
Proof.
  pose proof new_frames as Hlook. pose proof new_upage as Hself. pose proof old_upage as Hold.
  destruct Hok as [H1 H2 H3 H4 H5 H6 H7 H8 H9 H10 H11 H12]. destruct Hnew.
  destruct np_procs0 as (x & Hx & Hps). split.
  - destruct H1 as (y & Hy & Hp). assert (x = y) as -> by congruence.
    eexists. by rewrite Hps, np_run0, lookup_insert_eq.
  - done.
  - by rewrite np_init0.
  - by rewrite np_ram0.
  - intros g e0 [[-> ->]|[Hne Hg]]%Hlook; [done|]. eapply framed_ok; [by eapply np_others0|by apply H5].
  - intros g h e0 e1 [[-> ->]|[Hne Hg]]%Hlook [[-> ->]|[Hne' Hg']]%Hlook; rewrite ?Hself; [done|..].
    + rewrite (Hold h) by done. intros Hu. by destruct (np_unused0 h e1).
    + rewrite (Hold g) by done. intros Hu. by destruct (np_unused0 g e0).
    + rewrite (Hold g), (Hold h) by done. eauto.
  - rewrite np_table0. destruct (fr_load e); [|done]. apply NoDup_app. split_and!; [done| |apply NoDup_singleton].
    intros g Hg ->%list_elem_of_singleton. apply H8 in Hg as (? & ? & _). congruence.
  - intros g. rewrite np_table0, np_frames0. destruct (decide (g = f)) as [->|Hne].
    + rewrite lookup_insert_eq. split.
      * destruct (fr_load e) eqn:Hl; [by eauto|]. intros (? & ? & _)%H8. congruence.
      * intros (? & [= <-] & ->). apply elem_of_app. right. by left.
    + rewrite lookup_insert_ne by done. rewrite <- H8. destruct (fr_load e); [|done].
      rewrite elem_of_app, list_elem_of_singleton. tauto.
  - intros g h e0 e1 [[-> ->]|[Hne Hg]]%Hlook [[-> ->]|[Hne' Hg']]%Hlook Hl Hl' Hk; eauto.
    + by destruct (np_kpage0 Hl h e1).
    + by destruct (np_kpage0 Hl' g e0).
  - by rewrite np_bits0.
  - intros g h e0 e1 [[-> ->]|[Hne Hg]]%Hlook [[-> ->]|[Hne' Hg']]%Hlook Hl Hl' Hk; try congruence. eauto.
  - intros i Hi Ht. rewrite np_bits0 in Hi, Ht. destruct (H12 i Hi Ht) as (g & e0 & Hg & Hs & <-).
    exists g, e0. rewrite np_frames0, lookup_insert_ne; [done|]. intros <-. congruence.
Qed.

Lemma new_page_heap : heap_ok s -> heap_ok s'.
Proof.
  intros [G1 G2 G3 G4]. pose proof new_frames as Hlook. pose proof old_frames as Hkeep. destruct Hnew. split.
  - intros g [e0 [[-> _]|[_ Hg]]%Hlook]; [lia|]. assert (g < next_obj s)%nat by eauto. lia.
  - intros r. rewrite np_spts0. intros [y [[<- _]|[_ Hy]]%lookup_insert_Some]; [lia|].
    assert (r < next_obj s)%nat by eauto. lia.
  - destruct np_procs0 as (x & Hx & ->). rewrite np_run0, lookup_insert_eq. intros y [= <-] r. simpl.
    rewrite elem_of_app, list_elem_of_singleton, (G3 x Hx). split.
    + intros [(g & e0 & Hg & <-)| ->]; [by eauto|]. exists f, e. by rewrite np_frames0, lookup_insert_eq.
    + intros (g & e0 & [[-> ->]|[_ Hg]]%Hlook & <-); [by right|left; eauto].
  - intros g e0 [[-> ->]|[_ Hg]]%Hlook; [done|eauto].
Qed.

(** The space gains the page, the other pages are as before. *)
Lemma new_page_space v c :
  space s' v c <-> (v = u /\ frame_contents s' e = Some c) \/ space s v c.
Proof.
  pose proof new_frames as Hlook. pose proof new_upage as Hself. pose proof old_upage as Hold.
  pose proof old_frames as Hkeep.
  assert (Hc : forall g e0, frames s !! g = Some e0 -> contents s' g = contents s g).
  { intros g e0 Hg. unfold contents. rewrite Hg, (Hkeep g e0 Hg). simpl.
    eapply framed_contents; [by eapply np_others|by eapply vo_frame]. }
  split.
  - intros (g & e0 & Hg & Hu & Hcg). destruct (Hlook _ _ Hg) as [[-> ->]|[Hne Hg']].
    + left. unfold contents in Hcg. rewrite Hg in Hcg. simpl in Hcg. by rewrite <- Hu, Hself.
    + right. exists g, e0. rewrite <- (Hold g e0 Hg'), <- (Hc g e0 Hg'). done.
  - intros [[-> He]|(g & e0 & Hg & Hu & Hcg)].
    + exists f, e. assert (Hf : frames s' !! f = Some e)
        by (rewrite (np_frames _ _ _ _ _ _ _ Hnew); apply lookup_insert_eq).
      split; [done|]. split; [done|]. unfold contents. by rewrite Hf.
    + exists g, e0. rewrite (Hold g e0 Hg), (Hc g e0 Hg). auto.
Qed.
End new_page.

(** ** The objects of a new page *)

(** The entry that [frame_table_insert] makes in memory that holds [e0], after
    [spt_init] has set its page. *)
Definition new_entry e0 (k : Z) (file : option nat) (t : page_type) (ofs n : Z) (w : bool) p : frame_elem :=
  if from_file t then FrameElem k p None false file SIZE_MAX t ofs n w
  else FrameElem k p None true (fr_file e0) SIZE_MAX t (fr_ofs e0) (fr_read_bytes e0) w.

Definition with_new_page u e (x : process) (m : vmem) s : vm :=
  let f := next_obj s in let p := S (next_obj s) in
  Vm (vm_os s) m (<[running s := Process (pr_pagedir x) (pr_page_table x ++ [p])]> (procs s)) (running s)
    (<[f := e]> (frames s)) (if from_file (fr_type e) then frame_table s else frame_table s ++ [f])
    (<[p := Spt u f (running s)]> (spts s)) (shareds s) (S p) (swap_block s) (swap_bitmap s).

Lemma wp_new_address s (Q : nat -> vm -> Prop) :
  malloc_ok = true -> Q (next_obj s) (set_next_obj (S (next_obj s)) s) -> wp new_address Q s.
Proof.
  intros Hm HQ. apply wp_bind, wp_gets, wp_bind, wp_access; [done|]. by apply wp_bind, wp_modify, wp_ret.
Qed.

Lemma wp_store_proc t x (h : process -> process) s (Q : unit -> vm -> Prop) :
  procs s !! t = Some x -> Q tt (set_procs (<[t := h x]> (procs s)) s) -> wp (store_proc t h) Q s.
Proof. intros H HQ. apply wp_bind. eapply wp_load_proc; [exact H|]. by apply wp_modify. Qed.

(** [frame_table_insert] and [spt_init], in a row. *)
Lemma wp_insert_page {A} (kont : nat -> nat -> M vm A) e0 u k file t ofs n w s x (Q : A -> vm -> Prop) :
  malloc_ok = true -> frame_lock ∉ locks_of s -> procs s !! running s = Some x ->
  wp (kont (next_obj s) (S (next_obj s))) Q
    (with_new_page u (new_entry e0 k file t ofs n w (S (next_obj s))) x (vm_mem s) s) ->
  wp (f ← frame_table_insert e0 k file t ofs n w; p ← spt_init u f; kont f p) Q s.
Proof.
  intros Hm Hl Hx HQ. unfold frame_table_insert, spt_init, new_entry, with_new_page in *.
  apply wp_bind, wp_bind, wp_new_address; [done|]. cbv zeta. apply wp_bind, wp_modify, wp_bind.
  assert (Hend : forall s1 e1, frames s1 = <[next_obj s := e1]> (frames s) -> locks_of s1 = locks_of s ->
    vm_os s1 = vm_os s -> vm_mem s1 = vm_mem s -> procs s1 = procs s -> running s1 = running s ->
    spts s1 = spts s -> shareds s1 = shareds s -> next_obj s1 = S (next_obj s) ->
    swap_block s1 = swap_block s -> swap_bitmap s1 = swap_bitmap s ->
    (fr_type e1 = t) ->
    frame_table s1 = (if from_file t then frame_table s else frame_table s ++ [next_obj s]) ->
    set_spt (S (next_obj s)) (set_shared None (set_frame_writable w e1)) =
      new_entry e0 k file t ofs n w (S (next_obj s)) ->
    wp (store_frame (next_obj s) (fun e => set_shared None (set_frame_writable w e));; mret (next_obj s))
      (fun f => wp (p ← (p ← new_address; t ← gets running;
          modify (fun s => set_spts (<[p := Spt u f t]> (spts s)) s);; store_frame f (set_spt p);;
          store_proc t (fun x => Process (pr_pagedir x) (pr_page_table x ++ [p]));; mret p); kont f p) Q) s1).
  { intros [] e1. simpl. intros -> _ -> -> -> -> -> -> -> -> -> Ht -> He.
    apply wp_bind. eapply wp_store_frame; [simpl; by rewrite lookup_insert_eq|]. apply wp_ret.
    apply wp_bind, wp_bind, wp_new_address; [done|]. apply wp_bind, wp_gets, wp_bind, wp_modify, wp_bind.
    eapply wp_store_frame; [simpl; by rewrite lookup_insert_eq|]. simpl. rewrite He.
    apply wp_bind. eapply wp_store_proc; [exact Hx|]. apply wp_ret. simpl.
    unfold set_procs, set_frames, set_spts, set_next_obj. simpl. rewrite !insert_insert_eq.
    unfold new_entry in *. by destruct t. }
  destruct (from_file t) eqn:Ht; apply wp_when; simpl; try done.
  - intros _. eapply Hend; try done. unfold new_entry. by rewrite Ht.
  - intros _. apply wp_bind, wp_acquire; [done|]. apply wp_bind, wp_modify, wp_release_held; [set_solver|].
    eapply Hend; try done; unfold locks_of, with_locks; simpl; try by rewrite locks_back.
    + rewrite locks_back by done. by destruct s as [[[]]].
    + unfold new_entry. by rewrite Ht.
Qed.


(** ** No page to share *)

(** The pages in memory are not from a file, or not from the inode [i], or [check_match]
    takes them for modified.  It looks for the bit of the frame at the kernel's address of
    the frame. *)
Definition no_match s pd (i : nat) : Prop := forall f e r, f ∈ frame_table s -> frames s !! f = Some e ->
  fr_file e = Some r -> exists y b, os_files (vm_os s) !! r = Some y /\
    pagedir_is_dirty pd (fr_kpage e) (vm_mem s) = Ok b (vm_mem s) /\ (b = true \/ f_inode y <> i).

Lemma wp_find_none (P : frame_elem -> M vm bool) l s (Q : option nat -> vm -> Prop) :
  (forall f, f ∈ l -> exists e, frames s !! f = Some e /\ wp (P e) (fun b s' => b = false /\ s' = s) s) ->
  Q None s -> wp (find_frame_from P l) Q s.
Proof.
  induction l as [|f l IH]; intros H HQ; simpl; [by apply wp_ret|].
  destruct (H f) as (e & He & Hp); [by left|]. apply wp_bind. eapply wp_load_frame; [exact He|].
  apply wp_bind. eapply wp_mono; [exact Hp|]. intros b s' [-> ->]. apply IH; [|done].
  intros g Hg. apply H. by right.
Qed.

Lemma wp_check_match s pd q z ofs n (Q : option nat -> vm -> Prop) :
  vm_ok s pd -> frame_lock ∉ locks_of s -> os_files (vm_os s) !! q = Some z ->
  no_match s pd (f_inode z) -> Q None s ->
  wp (check_match (Some q) ofs n) Q s.
Proof.
  intros Hok Hl Hz Hn HQ. apply wp_bind, wp_acquire; [done|]. apply wp_bind, wp_gets, wp_bind.
  destruct (vo_proc _ _ Hok) as (x & Hx & Hp). apply wp_find_none.
  - intros f Hf. destruct (proj1 (vo_table _ _ Hok f) Hf) as (e & He & Hload). exists e. split; [done|].
    pose proof (vo_frame _ _ Hok f e He) as F. apply wp_bind. eapply wp_load_spt; [apply F|]. simpl.
    apply wp_bind. eapply wp_load_proc; [exact Hx|]. destruct (fr_file e) as [r|] eqn:Hr; [|by apply wp_ret].
    destruct (Hn f e r Hf He Hr) as (y & b & Hy & Hb & Hor).
    destruct (fo_loaded _ _ _ _ F Hload) as [Hpool _]. destruct (kernel_page _ _ Hpool) as (_ & Hk & _).
    apply wp_bind, wp_assert; [done|]. apply wp_bind. eapply wp_pagedir_of; [exact Hx|exact Hp|].
    apply wp_bind, wp_lift_mem. simpl. unfold wp at 1. rewrite Hb.
    match goal with |- wp _ _ ?t => replace t with (with_locks ({[frame_lock]} ∪ locks_of s) s) by by destruct s end.
    destruct b; [by apply wp_ret|]. destruct Hor as [|Hne]; [done|].
    apply wp_bind, wp_lift_os. eapply wp_load_file; [exact Hy|]. simpl. apply wp_bind, wp_lift_os.
    eapply wp_load_file; [exact Hz|]. apply wp_ret. split; [|done].
    apply Nat.eqb_neq in Hne. by rewrite Hne.
  - apply wp_bind, wp_release_held; [set_solver|]. apply wp_ret.
    by rewrite locks_of_with, locks_back, with_locks_twice, with_locks_same.
Qed.

(** Unmapping a page that is not mapped changes nothing. *)
Lemma wp_clear_unmapped m pd u (Q : unit -> vmem -> Prop) :
  pd_wf m pd -> is_user_vaddr u = true -> pg_ofs u = 0 -> mapping m pd u = None -> Q tt m ->
  wp (pagedir_clear_page pd u) Q m.
Proof.
  intros W0 Hu Ho Hm HQ. apply wp_bind, wp_assert; [by apply Z.eqb_eq|]. apply wp_bind, wp_assert; [done|].
  apply wp_bind, wp_lookup_page; [done..|]. destruct (slot m pd u) as [[pt i]|] eqn:Hs; [|by apply wp_ret].
  destruct (slot_word m pd u (pt, i) W0 Hu Hs) as (_ & _ & _ & w & Hw). apply wp_bind.
  eapply wp_load_word; [exact Hw|]. assert (Hp : has PTE_P w = false).
  { unfold mapping, pte_of in Hm. rewrite Hs in Hm. simpl in Hm. rewrite Hw in Hm. simpl in Hm.
    by destruct (has PTE_P w). }
  apply wp_when; [by rewrite Hp|done].
Qed.

(** ** A page of a file *)
Definition lazy_page u q t ofs n w s : vm -> Prop := fun s' => exists x, procs s !! running s = Some x /\
  s' = with_new_page u (FrameElem 0 (S (next_obj s)) None false (Some q) SIZE_MAX t ofs n w) x (vm_mem s) s.

Lemma wp_install_lazy e0 u q z t ofs n w s pd (Q : bool -> vm -> Prop) :
  malloc_ok = true -> vm_ok s pd -> frame_lock ∉ locks_of s -> os_files (vm_os s) !! q = Some z ->
  no_match s pd (f_inode z) -> from_file t = true ->
  is_user_vaddr u = true -> pg_ofs u = 0 -> mapping (vm_mem s) pd u = None ->
  (forall s', lazy_page u q t ofs n w s s' -> Q true s') ->
  wp (install_frame e0 u 0 w (Some q) t ofs n) Q s.
Proof.
  intros Hm Hok Hl Hz Hn Ht Hu Ho Hmap HQ. destruct (vo_proc _ _ Hok) as (x & Hx & Hp).
  apply wp_bind, wp_assert; [by apply Z.eqb_eq|]. rewrite Ht. apply wp_bind.
  eapply wp_check_match; [exact Hok|done|exact Hz|done|]. simpl.
  apply (wp_insert_page (fun f p => pd ← current_pagedir; lift_mem (pagedir_clear_page pd u);; mret true) _ _ _ _ _ _ _ _ _ x);
    [done..|].
  apply wp_bind. eapply wp_current_pagedir; [simpl; by rewrite lookup_insert_eq|exact Hp|].
  apply wp_bind, wp_lift_mem. simpl. apply wp_clear_unmapped; [apply Hok|done..|]. apply wp_ret, HQ.
  exists x. split; [done|]. unfold new_entry. by rewrite Ht.
Qed.

(** What the mapped part of a frame sees is the same when objects are added. *)
Lemma lazy_framed u q t ofs n w s s' pd g e0 :
  vm_ok s pd -> heap_ok s -> lazy_page u q t ofs n w s s' -> frames s !! g = Some e0 -> framed s s' pd e0.
Proof.
  intros Hok Hh (x & Hx & ->) Hg. pose proof (vo_frame _ _ Hok g e0 Hg) as F.
  split; simpl; try done. apply lookup_insert_ne. intros Heq.
  pose proof (ho_spts _ Hh (fr_spt e0)) as Hb. rewrite (fo_spt _ _ _ _ F) in Hb.
  specialize (Hb (mk_is_Some _ _ eq_refl)). lia.
Qed.

(** The page is new, at an address no page is at. *)
Lemma lazy_new u q t ofs n w s s' pd :
  vm_ok s pd -> heap_ok s -> from_file t = true -> is_user_vaddr u = true -> pg_ofs u = 0 ->
  unused s u -> mapping (vm_mem s) pd u = None ->
  backed (vm_os s) (FrameElem 0 (S (next_obj s)) None false (Some q) SIZE_MAX t ofs n w) ->
  lazy_page u q t ofs n w s s' ->
  new_page s s' pd (next_obj s) (S (next_obj s)) u
    (FrameElem 0 (S (next_obj s)) None false (Some q) SIZE_MAX t ofs n w).
Proof.
  intros Hok Hh Ht Hu Ho Hun Hm Hb Hlz. pose proof Hlz as (x & Hx & ->).
  assert (Hfr : frames s !! next_obj s = None).
  { destruct (frames s !! next_obj s) as [e1|] eqn:E; [|done].
    pose proof (ho_frames _ Hh _ (mk_is_Some _ _ E)). lia. }
  assert (Hsp : spts s !! S (next_obj s) = None).
  { destruct (spts s !! S (next_obj s)) as [e1|] eqn:E; [|done].
    pose proof (ho_spts _ Hh _ (mk_is_Some _ _ E)). lia. }
  assert (Hself : forall e, fr_spt e = S (next_obj s) ->
    upage (with_new_page u (FrameElem 0 (S (next_obj s)) None false (Some q) SIZE_MAX t ofs n w) x (vm_mem s) s) e = u).
  { intros e He. unfold upage. simpl. by rewrite He, lookup_insert_eq. }
  split; simpl; try done; try apply Hok.
  - by exists x.
  - lia.
  - by rewrite Ht.
  - unfold swapped. simpl. rewrite bool_decide_false; [done|]. intros ->. by unfold from_file in Ht.
  - assert (Hns : t <> SHARE) by (intros ->; by unfold from_file in Ht).
    assert (Hsw : t <> SWAP) by (intros ->; by unfold from_file in Ht).
    split; rewrite ?Hself by done; try done.
    + simpl. by rewrite lookup_insert_eq.
    + unfold swapped. simpl. by rewrite bool_decide_false.
  - intros g e1 Hg. by eapply lazy_framed.
Qed.


(** ** A page of the stack *)
Definition stack_entry e0 k (w : bool) p : frame_elem :=
  FrameElem k p None true (fr_file e0) SIZE_MAX SWAP (fr_ofs e0) (fr_read_bytes e0) w.

(** The frame [k] with the bytes [c] is fresh in [s]. *)
Record fresh_frame s k (c : list Z) : Prop := {
  ff_free : pages (vm_mem s) !! k = None;
  ff_pool : in_pool true k = true;
  ff_length : Z.of_nat (length c) = PGSIZE;
}.

Lemma wp_install_stack e0 u k c ofs n w s pd (Q : bool -> vm -> Prop) :
  malloc_ok = true -> vm_ok s pd -> frame_lock ∉ locks_of s -> fresh_frame s k c ->
  is_user_vaddr u = true -> pg_ofs u = 0 -> mapping (vm_mem s) pd u = None ->
  (forall x, procs s !! running s = Some x -> pte_of (vm_mem s) pd u = None ->
     palloc_next false (pages (put_page k c (vm_mem s))) = None ->
     Q false (with_new_page u (stack_entry e0 k w (S (next_obj s))) x (put_page k c (vm_mem s)) s)) ->
  (forall x m', procs s !! running s = Some x -> mapped (vm_mem s) m' pd u k c ->
     flag_of PTE_W m' pd u = w ->
     Q true (with_new_page u (stack_entry e0 k w (S (next_obj s))) x m' s)) ->
  wp (install_frame e0 u k w None SWAP ofs n) Q (with_page k c s).
Proof.
  intros Hm Hok Hl [Hk Hpool Hlen] Hu Ho Hmap H1 H2. destruct (vo_proc _ _ Hok) as (x & Hx & Hp).
  destruct (kernel_page k true Hpool) as (Hko & _ & _).
  apply wp_bind, wp_assert; [by apply Z.eqb_eq|]. simpl.
  apply (wp_insert_page (fun f p => install_page u k w) _ _ _ _ _ _ _ _ _ x); [done..|].
  eapply (wp_install_page _ (Process (pr_pagedir x) (pr_page_table x ++ [S (next_obj s)])) pd u k c w (vm_mem s));
    [simpl; by rewrite lookup_insert_eq|exact Hp|apply Hok|apply Hok|done|done|done|by apply (vo_ram _ _ Hok)|done|done|done| |].
  - intros Hn Hf. by apply (H1 x).
  - intros m' Hm' Hw. by apply (H2 x m').
Qed.

Lemma stack_new e0 u k c w s pd x m' :
  vm_ok s pd -> heap_ok s -> fresh_frame s k c -> is_user_vaddr u = true -> pg_ofs u = 0 ->
  unused s u -> procs s !! running s = Some x -> mapped (vm_mem s) m' pd u k c ->
  new_page s (with_new_page u (stack_entry e0 k w (S (next_obj s))) x m' s) pd (next_obj s) (S (next_obj s)) u
    (stack_entry e0 k w (S (next_obj s))).
Proof.
  intros Hok Hh [Hk Hpool Hlen] Hu Ho Hun Hx Hm.
  assert (Hfr : frames s !! next_obj s = None).
  { destruct (frames s !! next_obj s) as [e1|] eqn:E; [|done].
    pose proof (ho_frames _ Hh _ (mk_is_Some _ _ E)). lia. }
  assert (Hsp : spts s !! S (next_obj s) = None).
  { destruct (spts s !! S (next_obj s)) as [e1|] eqn:E; [|done].
    pose proof (ho_spts _ Hh _ (mk_is_Some _ _ E)). lia. }
  assert (Hself : upage (with_new_page u (stack_entry e0 k w (S (next_obj s))) x m' s)
    (stack_entry e0 k w (S (next_obj s))) = u) by (unfold upage; simpl; by rewrite lookup_insert_eq).
  assert (Hkp : forall g e1, frames s !! g = Some e1 -> fr_load e1 = true -> fr_kpage e1 <> k).
  { intros g e1 Hg Hl1 Hk1. destruct (fo_loaded _ _ _ _ (vo_frame _ _ Hok g e1 Hg) Hl1) as (_ & c1 & Hd & _).
    unfold data in Hd. by rewrite Hk1, Hk in Hd. }
  split; simpl; try done; try by apply Hm.
  - by exists x.
  - lia.
  - split; rewrite ?Hself; simpl; try done.
    + by rewrite lookup_insert_eq.
    + by apply (mp_self _ _ _ _ _ _ Hm).
    + intros _. split; [done|]. exists c. split; [|done]. by apply (mp_page _ _ _ _ _ _ Hm).
  - intros g e1 Hg. pose proof (vo_frame _ _ Hok g e1 Hg) as F.
    destruct (mp_other _ _ _ _ _ _ Hm (upage s e1)) as [E1 E2]; [by apply Hun with (1 := Hg)|apply F|apply F|].
    split; simpl; try done.
    + apply lookup_insert_ne. intros Heq. pose proof (fo_spt _ _ _ _ F) as E. by rewrite <- Heq, Hsp in E.
    + apply (mp_pte _ _ _ _ _ _ Hm); apply F.
    + intros Hl1. apply (mp_data _ _ _ _ _ _ Hm). by eapply Hkp.
Qed.


(** ** Extending the address space *)

(** [s'] has the pages [l] on top of those of [s]. *)
Record extended s s' pd (l : list (Z * list Z)) : Prop := {
  ex_ok : vm_ok s' pd;
  ex_heap : heap_ok s';
  ex_run : running s' = running s;
  ex_space : forall v c, space s' v c <-> ((v, c) ∈ l) \/ space s v c;
  ex_unused : forall v, unused s' v <-> (v ∉ l.*1) /\ unused s v;
  ex_maps : forall v, pg_ofs v = 0 -> is_user_vaddr v = true -> v ∉ l.*1 ->
    mapping (vm_mem s) pd v = None -> mapping (vm_mem s') pd v = None;
}.

Lemma extended_refl s pd : vm_ok s pd -> heap_ok s -> extended s s pd [].
Proof.
  split; try done; [intros v c|intros v]; simpl; rewrite elem_of_nil; tauto.
Qed.

Lemma extended_trans s1 s2 s3 pd l1 l2 :
  extended s1 s2 pd l1 -> extended s2 s3 pd l2 -> extended s1 s3 pd (l1 ++ l2).
Proof.
  intros [A1 A2 A3 A4 A5 A6] [B1 B2 B3 B4 B5 B6]. split; try done; try congruence.
  - intros v c. rewrite B4, A4, elem_of_app. tauto.
  - intros v. rewrite B5, A5, fmap_app, not_elem_of_app. tauto.
  - intros v Ho Hu. rewrite fmap_app, not_elem_of_app. intros [] Hm. auto.
Qed.

(** A new page extends the space. *)
Lemma new_page_extended s s' pd f p u e c :
  vm_ok s pd -> heap_ok s -> new_page s s' pd f p u e -> frame_contents s' e = Some c ->
  (forall v, pg_ofs v = 0 -> is_user_vaddr v = true -> v <> u ->
    mapping (vm_mem s) pd v = None -> mapping (vm_mem s') pd v = None) ->
  extended s s' pd [(u, c)].
Proof.
  intros Hok Hh Hnew Hc Hm. split; try done.
  - by eapply new_page_ok.
  - by eapply new_page_heap.
  - apply Hnew.
  - intros v d. rewrite (new_page_space s s' pd f p u e Hok Hnew), list_elem_of_singleton, Hc.
    split; intros [H|H]; auto; left; [by destruct H as [-> [= ->]]|by injection H as -> ->].
  - intros v. simpl. rewrite list_elem_of_singleton. split.
    + intros Hv. split.
      * intros ->. apply (Hv f e); [|by eapply new_upage]. rewrite (np_frames _ _ _ _ _ _ _ Hnew).
        apply lookup_insert_eq.
      * intros g e0 Hg. rewrite <- (old_upage s s' pd f p u e Hnew g e0 Hg). eapply Hv. by eapply old_frames.
    + intros [Hne Hv] g e0 Hg. destruct (new_frames s s' pd f p u e Hnew g e0 Hg) as [[-> ->]|[_ Hg']].
      * rewrite (new_upage s s' pd f p u e Hnew). congruence.
      * rewrite (old_upage s s' pd f p u e Hnew g e0 Hg'). by eapply Hv.
  - intros v Ho Hu Hv. apply Hm; [done..|]. intros ->. apply Hv. by left.
Qed.

(** *** Pages of a file, not read yet *)

(** The page with the [n] bytes from [ofs] of the file. *)
Definition page_from (b : list Z) (ofs n : Z) : list Z := slice ofs n b ++ replicate (Z.to_nat (PGSIZE - n)) 0.

Record lazily s s' pd (l : list (Z * list Z)) : Prop := {
  lz_ext : extended s s' pd l;
  lz_os : vm_os s' = vm_os s;
  lz_mem : vm_mem s' = vm_mem s;
  lz_table : frame_table s' = frame_table s;
  lz_frames : forall f e, frames s !! f = Some e -> frames s' !! f = Some e /\ upage s' e = upage s e;
}.

Lemma lazily_refl s pd : vm_ok s pd -> heap_ok s -> lazily s s pd [].
Proof. intros. split; try done. by apply extended_refl. Qed.
Lemma lazily_trans s1 s2 s3 pd l1 l2 :
  lazily s1 s2 pd l1 -> lazily s2 s3 pd l2 -> lazily s1 s3 pd (l1 ++ l2).
Proof.
  intros [? ? ? ? A] [? ? ? ? C]. split; try congruence; [by eapply extended_trans|].
  intros f e He. destruct (A f e He) as [He2 Hu]. destruct (C f e He2) as [He3 Hu']. split; congruence.
Qed.

Lemma lazily_no_match s s' pd l i : vm_ok s pd -> lazily s s' pd l -> no_match s pd i -> no_match s' pd i.
Proof.
  intros Hok [_ L2 L3 L4 L5] Hn f e r. rewrite L2, L3, L4. intros Hf He.
  destruct (proj1 (vo_table _ _ Hok f) Hf) as (e1 & He1 & _). destruct (L5 f e1 He1) as [He2 _].
  apply (Hn f e r Hf). congruence.
Qed.

Lemma wp_add_lazy e0 u q t ofs n w s pd y i (Q : bool -> vm -> Prop) :
  malloc_ok = true -> vm_ok s pd -> heap_ok s -> frame_lock ∉ locks_of s -> no_match s pd (f_inode y) ->
  from_file t = true -> is_user_vaddr u = true -> pg_ofs u = 0 -> unused s u ->
  mapping (vm_mem s) pd u = None -> file_at q y i (vm_os s) ->
  0 <= ofs -> 0 <= n <= PGSIZE -> ofs + n <= id_length (i_data i) ->
  (forall s', lazily s s' pd [(u, page_from (file_bytes i (vm_os s)) ofs n)] -> Q true s') ->
  wp (install_frame e0 u 0 w (Some q) t ofs n) Q s.
Proof.
  intros Hm Hok Hh Hl Hn Ht Hu Ho Hun Hmap Hq Hofs Hb Hend HQ.
  eapply wp_install_lazy; [done|exact Hok|done|by apply (fa_file _ _ _ _ Hq)|done..|]. intros s' Hlz. apply HQ.
  set (e := FrameElem 0 (S (next_obj s)) None false (Some q) SIZE_MAX t ofs n w) in *.
  assert (Hbk : backed (vm_os s) e) by by exists q, y, i.
  pose proof (lazy_new u q t ofs n w s s' pd Hok Hh Ht Hu Ho Hun Hmap Hbk Hlz) as Hnew.
  destruct Hlz as (x & Hx & ->). split; try done.
  - eapply new_page_extended; [done..| |done]. unfold frame_contents. simpl.
    pose proof (backed_page (vm_os s) e q y i eq_refl Hq) as Hp. unfold from_file in Ht. by destruct t.
  - simpl. by rewrite Ht.
  - intros f e1 Hf. split; [by eapply old_frames|by eapply old_upage].
Qed.

(** *** Pages of the stack *)

(** [while (!kpage) { evict (); kpage = palloc_get_page (flags); }] *)
Fixpoint palloc_or_evict (fuel : nat) (flags : Z) (o : option Z) : M vm Z :=
  match o, fuel with
  | Some k, _ => mret k
  | None, O => fail Hang
  | None, S fuel => evict;; o ← lift_mem (palloc_get_page flags); palloc_or_evict fuel flags o
  end.
Definition ZEROED : Z := Z.lor PAL_USER PAL_ZERO.
Definition zero_page : M vm Z := o ← lift_mem (palloc_get_page ZEROED); palloc_or_evict 1 ZEROED o.

Lemma zeroed_flag : has PAL_USER ZEROED = true /\ has PAL_ZERO ZEROED = true.
Proof.
  destruct pal_flags as (_ & _ & H1 & H2). unfold has, ZEROED.
  by apply Z.eqb_neq in H1 as ->; apply Z.eqb_neq in H2 as ->.
Qed.
Lemma zero_page_get s : zero_page s = get_kpage 1 ZEROED s.
Proof.
  unfold zero_page, get_kpage, frame_get_kpage, palloc_or_evict.
  assert (Hz : (Z.land ZEROED PAL_USER =? 0) = false)
    by (pose proof (proj1 zeroed_flag) as H; unfold has in H; by destruct (_ =? _)).
  by rewrite Hz.
Qed.

Definition zeros : list Z := replicate (Z.to_nat PGSIZE) 0.

Lemma prepared_extended s s0 pd : heap_ok s -> prepared s s0 pd -> extended s s0 pd [].
Proof.
  intros [G1 G2 G3 G4] [P1 P2 P3 P4 P5 P6 P7 P8 P9 P10 P11 _].
  assert (Hsame : forall g, is_Some (frames s0 !! g) <-> is_Some (frames s !! g)).
  { intros g. specialize (P10 g). destruct (frames s0 !! g), (frames s !! g); try done; naive_solver. }
  assert (Hup : forall g e1 e2, frames s0 !! g = Some e1 -> frames s !! g = Some e2 -> upage s0 e1 = upage s e2).
  { intros g e1 e2 H1 H2. specialize (P10 g). rewrite H1, H2 in P10. simpl in P10. injection P10 as Hs.
    unfold upage. by rewrite P4, Hs. }
  split; try done.
  - split.
    + intros f Hf. rewrite P8. by apply G1, Hsame.
    + intros p. rewrite P4, P8. apply G2.
    + rewrite P5, P7. intros x Hx p. rewrite (G3 x Hx).
      split; intros (f & e & He & <-); specialize (P10 f); rewrite He in P10; simpl in P10.
      * destruct (frames s0 !! f) as [e1|] eqn:E; [|done]. exists f, e1. split; [done|]. by injection P10.
      * destruct (frames s !! f) as [e1|] eqn:E; [|done]. exists f, e1. split; [done|]. by injection P10.
    + intros f e He Ht. destruct (P11 f e He Ht) as (e1 & He1 & Ht1 & ->). eauto.
  - intros v c. rewrite elem_of_nil. split.
    + intros (f & e & He & Hu & Hc). right. rewrite P2 in Hc. destruct (proj1 (Hsame f)) as [e1 He1]; [by eauto|].
      exists f, e1. split; [done|]. by rewrite <- (Hup f e e1).
    + intros [[]|(f & e & He & Hu & Hc)]. rewrite <- P2 in Hc. destruct (proj2 (Hsame f)) as [e1 He1]; [by eauto|].
      exists f, e1. split; [done|]. by rewrite (Hup f e1 e).
  - intros v. simpl. split.
    + intros Hv. split; [by intros ?%elem_of_nil|]. intros f e He. destruct (proj2 (Hsame f)) as [e1 He1]; [by eauto|].
      rewrite <- (Hup f e1 e) by done. by apply (Hv f).
    + intros [_ Hv] f e He. destruct (proj1 (Hsame f)) as [e1 He1]; [by eauto|].
      rewrite (Hup f e e1) by done. by apply (Hv f).
  - intros v Ho Hu _. by apply P9.
Qed.


(** The user page [u] is mapped, writable, to the frame [k] with the bytes [c]. *)
Record user_page s pd u k (c : list Z) : Prop := {
  up_user : is_user_vaddr u = true;
  up_aligned : pg_ofs u = 0;
  up_mapped : mapping (vm_mem s) pd u = Some k;
  up_writable : flag_of PTE_W (vm_mem s) pd u = true;
  up_bytes : data (vm_mem s) k = Some c;
  up_length : Z.of_nat (length c) = PGSIZE;
}.

(** There is no page table for [u] and no memory for one: the page has its objects, but it
    is not mapped. *)
Definition table_missing e0 u s pd k s' : Prop := exists s0 x,
  prepared s s0 pd /\ procs s0 !! running s0 = Some x /\ fresh_frame s0 k zeros /\
  pte_of (vm_mem s0) pd u = None /\ palloc_next false (pages (vm_mem s')) = None /\
  s' = with_new_page u (stack_entry e0 k true (S (next_obj s0))) x (put_page k zeros (vm_mem s0)) s0.

(** [kpage = palloc_get_page (PAL_USER | PAL_ZERO)], with evictions until there is one, and
    [install_frame (upage, kpage, true, NULL, SWAP, NULL, NULL)]. *)
Lemma wp_new_stack {A} (kont : Z -> bool -> M vm A) e0 u s pd (Q : A -> vm -> Prop) :
  malloc_ok = true -> vm_ok s pd -> heap_ok s -> unlocked s -> can_get s ->
  is_user_vaddr u = true -> pg_ofs u = 0 -> unused s u -> mapping (vm_mem s) pd u = None ->
  (forall k s', table_missing e0 u s pd k s' -> wp (kont k false) Q s') ->
  (forall k s', extended s s' pd [(u, zeros)] -> vm_os s' = vm_os s -> user_page s' pd u k zeros ->
     wp (kont k true) Q s') ->
  wp (kpage ← get_kpage 1 ZEROED; ok ← install_frame e0 u kpage true None SWAP 0 0; kont kpage ok) Q s.
Proof.
  intros Hm Hok Hh Hul Hcan Hu Ho Hun Hmap H1 H2. apply wp_bind.
  apply (wp_get_kpage s pd); [done..|apply zeroed_flag|]. intros s0 k c0 Hprep Hfree Hpool [Hlen Hz].
  rewrite (Hz (proj2 zeroed_flag)) in *. clear c0 Hz. fold zeros in Hlen |- *.
  assert (Hff : fresh_frame s0 k zeros) by by split.
  pose proof (prepared_extended s s0 pd Hh Hprep) as Hext. pose proof (pp_ok _ _ _ Hprep) as Hok0.
  assert (Hun0 : unused s0 u) by (apply (ex_unused _ _ _ _ Hext); split; [apply not_elem_of_nil|done]).
  assert (Hmap0 : mapping (vm_mem s0) pd u = None) by by apply (pp_maps _ _ _ Hprep).
  apply wp_bind. eapply wp_install_stack; [done|exact Hok0| |done..| |].
  - rewrite (locks_same s s0 pd Hprep). apply unlocked_in; [done|by left].
  - intros x Hx Hn Hf. apply H1. by exists s0, x.
  - intros x m' Hx Hmp Hw. pose proof (ex_heap _ _ _ _ Hext) as Hh0.
    pose proof (stack_new e0 u k zeros true s0 pd x m' Hok0 Hh0 Hff Hu Ho Hun0 Hx Hmp) as Hnew. apply H2.
    + change [(u, zeros)] with ([] ++ [(u, zeros)]). eapply extended_trans; [exact Hext|].
      eapply new_page_extended; [done|done|exact Hnew| |].
      * apply (mp_page _ _ _ _ _ _ Hmp).
      * intros v Hv Hvu Hne Hmv. simpl. by destruct (mp_other _ _ _ _ _ _ Hmp v Hne Hv Hvu) as [-> _].
    + simpl. apply (pp_os _ _ _ Hprep).
    + split; simpl; try done; apply Hmp.
Qed.


(** *** Other changes of the open files *)
Lemma extended_os s pd (y : os D B) :
  vm_ok s pd -> heap_ok s ->
  (forall e, backed (vm_os s) e -> backed y e /\ file_page y e = file_page (vm_os s) e) ->
  extended s (set_os y s) pd [].
Proof.
  intros Hok Hh Hy.
  assert (Hfr : forall f e, frames s !! f = Some e -> framed s (set_os y s) pd e).
  { intros f e _. split; try done. apply Hy. }
  assert (Hc : forall f, contents (set_os y s) f = contents s f).
  { intros f. unfold contents. simpl. destruct (frames s !! f) as [e|] eqn:He; [|done]. simpl.
    eapply framed_contents; [by eapply Hfr|by eapply vo_frame]. }
  split; try done.
  - destruct Hok as [H1 H2 H3 H4 H5 H6 H7 H8 H9 H10 H11 H12]. split; try done.
    intros f e He. eapply framed_ok; [by eapply Hfr|by apply H5].
  - by destruct Hh.
  - intros v c. rewrite elem_of_nil. unfold space. setoid_rewrite Hc. tauto.
  - intros v. simpl. rewrite elem_of_nil. unfold unused. simpl. tauto.
Qed.

(** ** A range of pages of a file *)

(** The pages from [u] on that hold the [n] bytes from [ofs], [cnt] in number. *)
Fixpoint pages_from (cnt : nat) (b : list Z) (u ofs n : Z) : list (Z * list Z) :=
  match cnt with
  | O => []
  | S cnt => (u, page_from b ofs (Z.min n PGSIZE)) ::
      pages_from cnt b (u + PGSIZE) (ofs + Z.min n PGSIZE) (n - Z.min n PGSIZE)
  end.

Lemma pages_from_addresses cnt b u ofs n :
  (pages_from cnt b u ofs n).*1 = (fun j : nat => u + PGSIZE * Z.of_nat j) <$> seq 0 cnt.
Proof.
  revert u ofs n. induction cnt as [|cnt IH]; intros u ofs n; [done|]. simpl. rewrite IH. f_equal; [lia|].
  rewrite <- fmap_S_seq, <- list_fmap_compose. apply list_fmap_ext. intros _ j _. unfold compose. lia.
Qed.

(** One after the other they are the bytes of the file, and zeros. *)
Lemma pages_from_bytes cnt b u ofs n :
  0 <= ofs -> 0 <= n <= PGSIZE * Z.of_nat cnt -> ofs + n <= Z.of_nat (length b) ->
  concat (pages_from cnt b u ofs n).*2 = slice ofs n b ++ replicate (Z.to_nat (PGSIZE * Z.of_nat cnt - n)) 0.
Proof.
  unfold page_from, PGSIZE. revert u ofs n. induction cnt as [|cnt IH]; intros u ofs n Ho Hn Hb.
  - assert (n = 0) as -> by lia. done.
  - cbn [pages_from fmap list_fmap]. unfold page_from, PGSIZE. simpl concat. rewrite IH by lia.
    destruct (Z.le_gt_cases n 4096) as [Hle|Hgt].
    + rewrite Z.min_l by lia. replace (n - n) with 0 by lia. change (slice (ofs + n) 0 b) with (@nil Z).
      rewrite app_nil_l, <- app_assoc, <- replicate_add. do 2 f_equal. lia.
    + rewrite Z.min_r, Z.sub_diag by lia. simpl replicate. rewrite app_nil_r, app_assoc.
      f_equal; [|f_equal; lia].
      assert (Hl : Z.of_nat (length (slice ofs 4096 b)) = 4096) by (rewrite length_slice; lia).
      rewrite <- Hl at 2. rewrite slice_slice_app by lia. f_equal. lia.
Qed.

(** The addresses are free for new pages. *)
Record free_range s pd u (cnt : nat) : Prop := {
  rg_low : 0 <= u;
  rg_high : u + PGSIZE * Z.of_nat cnt <= PHYS_BASE;
  rg_aligned : pg_ofs u = 0;
  rg_unused : forall j, (j < cnt)%nat -> unused s (u + PGSIZE * Z.of_nat j);
  rg_unmapped : forall j, (j < cnt)%nat -> mapping (vm_mem s) pd (u + PGSIZE * Z.of_nat j) = None;
}.

Lemma aligned_next u : pg_ofs u = 0 -> pg_ofs (u + PGSIZE) = 0.
Proof.
  intros Hu. destruct (round_down (u + PGSIZE)) as (E1 & E2 & E3). set (w := pg_round_down (u + PGSIZE)) in *.
  destruct (Z.eqb_spec (pg_ofs (u + PGSIZE)) 0) as [|Hne]; [done|]. exfalso.
  destruct (page_offset u (PGSIZE - pg_ofs (u + PGSIZE)) Hu) as (_ & _ & E4 & _); [lia|].
  replace (u + (PGSIZE - pg_ofs (u + PGSIZE))) with w in E4 by lia. lia.
Qed.


Lemma range_head s pd u cnt : free_range s pd u (S cnt) ->
  is_user_vaddr u = true /\ unused s u /\ mapping (vm_mem s) pd u = None /\ 0 <= u + PGSIZE < UINT32.
Proof.
  intros [R1 R2 R3 R4 R5]. specialize (R4 0%nat ltac:(lia)). specialize (R5 0%nat ltac:(lia)).
  rewrite Z.mul_0_r, Z.add_0_r in R4, R5. destruct base_page as (_ & Hb).
  unfold PGSIZE, UINT32 in *. split_and!; try done; [|lia|lia]. apply user_below; lia.
Qed.

Lemma range_next s s' pd u c cnt :
  free_range s pd u (S cnt) -> lazily s s' pd [(u, c)] -> free_range s' pd (u + PGSIZE) cnt.
Proof.
  intros [R1 R2 R3 R4 R5] [Hext _ Hm _ _]. unfold PGSIZE in *. split.
  - lia.
  - unfold PGSIZE. lia.
  - by apply aligned_next.
  - intros j Hj. unfold PGSIZE. apply (ex_unused _ _ _ _ Hext). simpl. rewrite list_elem_of_singleton.
    split; [lia|]. replace (u + 4096 + 4096 * Z.of_nat j) with (u + 4096 * Z.of_nat (S j)) by lia. apply R4. lia.
  - intros j Hj. unfold PGSIZE. rewrite Hm.
    replace (u + 4096 + 4096 * Z.of_nat j) with (u + 4096 * Z.of_nat (S j)) by lia. apply R5. lia.
Qed.

(** The state has room for a page of the file [q]: what [wp_add_lazy] needs. *)
Record ready s pd q (y : file) (i : inode) : Prop := {
  rd_ok : vm_ok s pd;
  rd_heap : heap_ok s;
  rd_lock : frame_lock ∉ locks_of s;
  rd_match : no_match s pd (f_inode y);
  rd_file : file_at q y i (vm_os s);
}.

Lemma lazily_ready s s' pd q y i l : ready s pd q y i -> lazily s s' pd l -> ready s' pd q y i.
Proof.
  intros [R1 R2 R3 R4 R5] Hl. pose proof Hl as [Hext Ho _ _ _]. split.
  - apply Hext.
  - apply Hext.
  - unfold locks_of. by rewrite Ho.
  - by eapply lazily_no_match.
  - by rewrite Ho.
Qed.

(** One page of a loop that maps a file. *)
Lemma wp_lazy_step e0 u q t ofs n w s pd y i cnt (Q : bool -> vm -> Prop) :
  malloc_ok = true -> ready s pd q y i -> from_file t = true -> free_range s pd u (S cnt) ->
  0 <= ofs -> 0 <= n <= PGSIZE -> ofs + n <= id_length (i_data i) ->
  (forall s', lazily s s' pd [(u, page_from (file_bytes i (vm_os s)) ofs n)] ->
     ready s' pd q y i -> free_range s' pd (u + PGSIZE) cnt -> Q true s') ->
  wp (install_frame e0 u 0 w (Some q) t ofs n) Q s.
Proof.
  intros Hm Hr Ht Hrg Ho Hn Hend HQ. pose proof Hr as [R1 R2 R3 R4 R5].
  destruct (range_head s pd u cnt Hrg) as (Hu & Hun & Hmap & _).
  eapply wp_add_lazy; [done|exact R1|done|done|exact R4|done|done|apply Hrg|done|done|exact R5|done..|].
  intros s' Hl. apply HQ; [done|by eapply lazily_ready|by eapply range_next].
Qed.
End pages.
