(* ===== verification/Release.v ===== *)
(** * Release: giving pages back ([spt_free], [frame_free]).

    [wp_free_page] is the rule for one page of the address space: its frame, its slot and
    its objects are given back, and the space loses the page.  [exit_returns_pages] is the
    loop of [process_exit]. *)
From S2P Require Import Prelude Bytes State Instances Cache FreeMap Inode InodeData File Pagedir Vm Swap Paging Reload Pages.
From Stdlib Require Import ZArith Lia.
From stdpp Require Import prelude gmap.

Open Scope Z_scope.

Section release.
Context {D B W : Type} {dev : BlockDev D} {bm : Bitmap B} {io : BitmapIO D B} {mem : Memory}
  {sdev : BlockDev W} {pg : Paging}.
Context {dlaws : BlockDevLaws D} {slaws : BlockDevLaws W} {blaws : BitmapLaws B} {pl : PagingLaws}.
Abbreviation vm := (vm D B W).
Abbreviation K := (M vm).
Implicit Types (s : vm) (f g p q : nat) (e : frame_elem) (pd u k : Z).

(** [spt_free (spt)] and [frame_free (frame)], the frame of [spt]. *)
Definition free_page_of p : K unit :=
  sp ← load_spt p;
  spt_free p;;
  frame_free (sp_frame sp).

(** [while (!list_empty (&cur->page_table)) ...] of [process_exit]: every turn frees the
    first page of the list, so that the length of the list is fuel enough. *)
Definition page_table : K (list nat) := t ← gets running; x ← load_proc t; mret (pr_page_table x).
Fixpoint free_pages_loop (fuel : nat) : K unit :=
  l ← page_table;
  match l, fuel with
  | [], _ => mret tt
  | _, O => fail Hang
  | p :: _, S fuel => free_page_of p;; free_pages_loop fuel
  end.
Definition free_pages : K unit := l ← page_table; free_pages_loop (length l).

(** ** One page less *)

(** [s'] is [s] without the frame [f] of contents [e] and its page. *)
Record removed_page s s' pd f e : Prop := {
  rp_frame : frames s !! f = Some e;
  rp_frames : frames s' = delete f (frames s);
  rp_spts : spts s' = delete (fr_spt e) (spts s);
  rp_run : running s' = running s;
  rp_procs : exists x, procs s !! running s = Some x /\
    procs s' = <[running s := Process (pr_pagedir x) (filter (fun q => q <> fr_spt e) (pr_page_table x))]> (procs s);
  rp_next : next_obj s' = next_obj s;
  rp_dir : pd_wf (vm_mem s') pd;
  rp_init : init_page_dir (vm_mem s') = init_page_dir (vm_mem s);
  rp_ram : init_ram_pages (vm_mem s') = init_ram_pages (vm_mem s);
  rp_table : frame_table s' = if fr_load e then filter (fun x => x <> f) (frame_table s) else frame_table s;
  rp_bits : given_back s e (swap_bitmap s');
  rp_os : vm_os s' = vm_os s;
  rp_data : forall a, data (vm_mem s') a = if fr_load e && (a =? fr_kpage e) then None else data (vm_mem s) a;
  rp_unmapped : mapping (vm_mem s') pd (upage s e) = None;
  rp_maps : forall v, v <> upage s e -> pg_ofs v = 0 -> is_user_vaddr v = true ->
    mapping (vm_mem s') pd v = mapping (vm_mem s) pd v;
  rp_others : forall g e0, g <> f -> frames s !! g = Some e0 -> framed s s' pd e0;
}.

Section removed_page.
Variables (s s' : vm) (pd : Z) (f : nat) (e : frame_elem).
Hypothesis Hok : vm_ok s pd.
Hypothesis Hrm : removed_page s s' pd f e.

Lemma kept_frames g e0 : frames s' !! g = Some e0 <-> g <> f /\ frames s !! g = Some e0.
Proof. rewrite (rp_frames _ _ _ _ _ Hrm), lookup_delete_Some. naive_solver. Qed.
Lemma kept_upage g e0 : g <> f -> frames s !! g = Some e0 -> upage s' e0 = upage s e0.
Proof. intros Hne Hg. eapply framed_upage. by eapply rp_others. Qed.
Lemma kept_contents g : g <> f -> contents s' g = contents s g.
Proof.
  intros Hne. unfold contents. rewrite (rp_frames _ _ _ _ _ Hrm), lookup_delete_ne by done.
  destruct (frames s !! g) as [e0|] eqn:Hg; [|done]. simpl.
  eapply framed_contents; [by eapply rp_others|by eapply vo_frame].
Qed.

Lemma removed_ok : vm_ok s' pd.
Proof.
  pose proof kept_frames as Hlook. pose proof kept_upage as Hup.
  destruct (given_back_test s pd f e _ Hok (rp_frame _ _ _ _ _ Hrm) (rp_bits _ _ _ _ _ Hrm)) as [Hsz Hbits].
  destruct Hok as [H1 H2 H3 H4 H5 H6 H7 H8 H9 H10 H11 H12]. destruct Hrm.
  destruct rp_procs0 as (x & Hx & Hps). split.
  - destruct H1 as (y & Hy & Hp). assert (x = y) as -> by congruence.
    eexists. by rewrite Hps, rp_run0, lookup_insert_eq.
  - done.
  - by rewrite rp_init0.
  - by rewrite rp_ram0.
  - intros g e0 [Hne Hg]%Hlook. eapply framed_ok; [by apply (rp_others0 g)|by apply H5].
  - intros g h e0 e1 [Hg Hg']%Hlook [Hh Hh']%Hlook. rewrite (Hup g), (Hup h) by done. eauto.
  - rewrite rp_table0. destruct (fr_load e); [by apply NoDup_filter|done].
  - intros g. rewrite rp_table0. setoid_rewrite Hlook. destruct (fr_load e) eqn:Hl.
    + rewrite list_elem_of_filter, H8. naive_solver.
    + rewrite H8. split; [|naive_solver]. intros (e0 & Hg & Hl0). exists e0. split; [|done]. split; [|done].
      intros ->. congruence.
  - intros g h e0 e1 [_ Hg]%Hlook [_ Hh]%Hlook. eauto.
  - destruct H10. by split; rewrite ?Hsz.
  - intros g h e0 e1 [_ Hg]%Hlook [_ Hh]%Hlook. eauto.
  - intros i Hi. rewrite Hsz in Hi. rewrite Hbits by done. intros [Ht Hn]%andb_true_iff.
    destruct (H12 i Hi Ht) as (g & e0 & Hg & Hs & <-). exists g, e0. split; [|done]. apply Hlook. split; [|done].
    intros ->. assert (e0 = e) as -> by congruence. by rewrite Hs, Z.eqb_refl in Hn.
Qed.

Lemma removed_heap : heap_ok s -> heap_ok s'.
Proof.
  intros [G1 G2 G3 G4]. pose proof kept_frames as Hlook.
  assert (Hlink : forall g e0, g <> f -> frames s !! g = Some e0 -> fr_spt e0 <> fr_spt e).
  { intros g e0 Hne Hg Heq. pose proof (fo_spt _ _ _ _ (vo_frame _ _ Hok g e0 Hg)) as E1.
    pose proof (fo_spt _ _ _ _ (vo_frame _ _ Hok f e (rp_frame _ _ _ _ _ Hrm))) as E2. rewrite Heq in E1. congruence. }
  destruct Hrm. split.
  - intros g [e0 [_ Hg]%Hlook]. rewrite rp_next0. eauto.
  - intros p. rewrite rp_spts0, rp_next0. intros [y [_ Hy]%lookup_delete_Some]. eauto.
  - destruct rp_procs0 as (x & Hx & ->). rewrite rp_run0, lookup_insert_eq. intros y [= <-] r. simpl.
    rewrite list_elem_of_filter, (G3 x Hx). split.
    + intros (Hne & g & e0 & Hg & <-). exists g, e0. split; [|done]. apply Hlook. split; [|done].
      intros ->. congruence.
    + intros (g & e0 & [Hne Hg]%Hlook & <-). split; [by apply (Hlink g)|eauto].
  - intros g e0 [_ Hg]%Hlook. eauto.
Qed.

(** The space loses the page, the other pages are as before. *)
Lemma removed_space v c : space s' v c <-> v <> upage s e /\ space s v c.
Proof.
  pose proof kept_frames as Hlook. split.
  - intros (g & e0 & [Hne Hg]%Hlook & Hu & Hc). rewrite kept_contents in Hc by done.
    rewrite (kept_upage g) in Hu by done. split; [|by exists g, e0]. intros ->.
    by apply Hne, (vo_upage _ _ Hok g f e0 e); [|eapply rp_frame|].
  - intros (Hne & g & e0 & Hg & Hu & Hc). assert (g <> f) as Hgf.
    { intros ->. apply Hne. rewrite <- Hu. f_equal. pose proof (rp_frame _ _ _ _ _ Hrm). congruence. }
    exists g, e0. rewrite kept_contents, (kept_upage g) by done. split; [by apply Hlook|done].
Qed.
End removed_page.

(** ** The rule *)

(** [s] without the frame [f] and its page, with the memory [m] and the slots [b]. *)
Definition released f e (x : process) (m : vmem) (b : B) s : vm :=
  Vm (vm_os s) m
    (<[running s := Process (pr_pagedir x) (filter (fun q => q <> fr_spt e) (pr_page_table x))]> (procs s))
    (running s) (delete f (frames s))
    (if fr_load e then filter (fun y => y <> f) (frame_table s) else frame_table s)
    (delete (fr_spt e) (spts s)) (shareds s) (next_obj s) (swap_block s) b.

(** The memory without the page of [e]. *)
Record page_gone s pd e (m : vmem) : Prop := {
  pn_wf : pd_wf m pd;
  pn_self : mapping m pd (upage s e) = None;
  pn_pte : forall v, pg_ofs v = 0 -> is_user_vaddr v = true ->
    is_Some (pte_of (vm_mem s) pd v) -> is_Some (pte_of m pd v);
  pn_other : forall v, v <> upage s e -> pg_ofs v = 0 -> is_user_vaddr v = true ->
    mapping m pd v = mapping (vm_mem s) pd v /\ flag_of PTE_D m pd v = flag_of PTE_D (vm_mem s) pd v;
  pn_data : forall a, data m a = if fr_load e && (a =? fr_kpage e) then None else data (vm_mem s) a;
  pn_init : init_page_dir m = init_page_dir (vm_mem s);
  pn_ram : init_ram_pages m = init_ram_pages (vm_mem s);
}.

Lemma page_gone_unloaded s pd f e :
  vm_ok s pd -> frames s !! f = Some e -> fr_load e = false -> page_gone s pd e (vm_mem s).
Proof.
  intros Hok He Hl. pose proof (fo_map _ _ _ _ (vo_frame _ _ Hok f e He)) as Hm. rewrite Hl in Hm.
  split; try done; [apply (vo_dir _ _ Hok)|]. intros a. by rewrite Hl.
Qed.

Lemma page_gone_loaded s pd f e m :
  vm_ok s pd -> frames s !! f = Some e -> fr_load e = true ->
  pte_step [upage s e] (vm_mem s) m pd -> mapping m pd (upage s e) = None ->
  page_gone s pd e (free_page (fr_kpage e) m).
Proof.
  intros Hok He Hl Hs Hm. pose proof (vo_frame _ _ Hok f e He) as F.
  destruct (fo_loaded _ _ _ _ F Hl) as (_ & c & Hd & _).
  destruct (unmapped_intro (vm_mem s) (vm_mem s) m pd (upage s e) (fr_kpage e) c
    (soft_refl _ _ (vo_dir _ _ Hok)) Hs Hm Hd (fo_user _ _ _ _ F)) as [U1 U2 U3 U4 U5 U6 U7 U8].
  split; try done. intros a. rewrite Hl. simpl. destruct (Z.eqb_spec a (fr_kpage e)) as [->|Hne]; [|by apply U5].
  unfold data. by rewrite U6.
Qed.

Lemma released_removed s pd f e x m b :
  vm_ok s pd -> frames s !! f = Some e -> procs s !! running s = Some x -> page_gone s pd e m ->
  given_back s e b -> removed_page s (released f e x m b s) pd f e.
Proof.
  intros Hok He Hx Hg Hb. destruct (given_back_test s pd f e b Hok He Hb) as [Hsz Hbits].
  split; try done; try apply Hg; [by exists x|].
  intros g e0 Hne Hge. pose proof (vo_frame _ _ Hok g e0 Hge) as Fg. pose proof (vo_frame _ _ Hok f e He) as F.
  assert (Hup : upage s e0 <> upage s e) by (intros Hup; by apply Hne, (vo_upage _ _ Hok g f e0 e)).
  destruct (pn_other _ _ _ _ Hg (upage s e0) Hup (fo_aligned _ _ _ _ Fg) (fo_user _ _ _ _ Fg)) as [E1 E2].
  split; simpl; try done.
  - rewrite lookup_delete_ne; [done|]. intros Heq. pose proof (fo_spt _ _ _ _ Fg) as Q1.
    rewrite <- Heq, (fo_spt _ _ _ _ F) in Q1. congruence.
  - by apply (pn_pte _ _ _ _ Hg); apply Fg.
  - intros Hl0. rewrite (pn_data _ _ _ _ Hg). destruct (fr_load e) eqn:Hl; [|done]. simpl.
    destruct (Z.eqb_spec (fr_kpage e0) (fr_kpage e)); [|done]. by destruct Hne; apply (vo_kpage _ _ Hok g f e0 e).
  - intros Hs0. destruct (fo_slot _ _ _ _ Fg Hs0) as (Hr & _). rewrite Hbits by done.
    destruct (swapped e) eqn:Hs; [|by rewrite andb_true_r]. simpl.
    destruct (Z.eqb_spec (fr_index e) (fr_index e0)); [|by rewrite andb_true_r].
    by destruct Hne; apply (vo_slots _ _ Hok g f e0 e).
Qed.

(** [spt_free] of a page, and then [frame_free] of its frame. *)
Definition unlinked e (x : process) (m : vmem) s : vm :=
  Vm (vm_os s) m
    (<[running s := Process (pr_pagedir x) (filter (fun q => q <> fr_spt e) (pr_page_table x))]> (procs s))
    (running s) (frames s) (frame_table s) (delete (fr_spt e) (spts s)) (shareds s) (next_obj s)
    (swap_block s) (swap_bitmap s).

Lemma wp_spt_free s pd f e x (Q : unit -> vm -> Prop) :
  vm_ok s pd -> heap_ok s -> frames s !! f = Some e -> procs s !! running s = Some x ->
  (forall m, (if fr_load e then pte_step [upage s e] (vm_mem s) m pd /\ mapping m pd (upage s e) = None
              else m = vm_mem s) -> Q tt (unlinked e x m s)) ->
  wp (spt_free (fr_spt e)) Q s.
Proof.
  intros Hok Hh He Hx HQ. pose proof (vo_frame _ _ Hok f e He) as F.
  apply wp_bind. eapply wp_load_spt; [apply F|]. apply wp_bind. eapply wp_load_frame; [exact He|].
  apply wp_bind. simpl sp_upage. simpl sp_thread.
  assert (Hin : fr_spt e ∈ pr_page_table x) by (apply (ho_table _ Hh x Hx); eauto).
  assert (Htail : forall m, (if fr_load e then pte_step [upage s e] (vm_mem s) m pd /\ mapping m pd (upage s e) = None
              else m = vm_mem s) ->
    wp (page_table_remove (running s) (fr_spt e);; mret tt;; modify (fun s => set_spts (delete (fr_spt e) (spts s)) s))
      Q (set_mem m s)).
  { intros m Hm. apply wp_bind, wp_bind. eapply wp_load_proc; [exact Hx|]. rewrite decide_True by done.
    apply wp_bind. eapply wp_load_proc; [exact Hx|]. apply wp_modify, wp_bind, wp_ret, wp_modify.
    by apply HQ. }
  apply wp_when; intros Hl; rewrite Hl in *.
  - apply wp_bind. eapply wp_current; [exact Hok|]. apply wp_lift_mem, wp_clear_page; [apply Hok|apply F|apply F|].
    intros m Hs Hm. rewrite (fo_shared _ _ _ _ F). by apply Htail.
  - rewrite (fo_shared _ _ _ _ F). specialize (Htail _ eq_refl).
    by replace (set_mem (vm_mem s) s) with s in Htail by by destruct s.
Qed.

Lemma swapped_index s pd f e :
  vm_ok s pd -> heap_ok s -> frames s !! f = Some e -> fr_load e = false -> fr_type e <> FILE ->
  negb (fr_index e =? SIZE_MAX) = swapped e.
Proof.
  intros Hok Hh He Hl Ht. pose proof (vo_frame _ _ Hok f e He) as F. unfold swapped. rewrite Hl. simpl.
  destruct (fr_type e) eqn:Hty; [done| | |by destruct (fo_type _ _ _ _ F)].
  - rewrite (ho_index _ Hh f e He Hty), Z.eqb_refl. done.
  - rewrite bool_decide_true by done. destruct (fo_slot _ _ _ _ F) as ([H0 H1] & _).
    { unfold swapped. by rewrite Hl, Hty. }
    destruct (vo_swap _ _ Hok) as [S1 S2]. unfold SIZE_MAX, UINT32 in *.
    destruct (Z.eqb_spec (fr_index e) (2 ^ 32 - 1)); [lia|done].
Qed.

(** *** [frame_free], after [spt_free] *)
Section frame_free.
Variables (s : vm) (pd : Z) (f : nat) (e : frame_elem) (x : process) (m : vmem) (Q : unit -> vm -> Prop).
Hypothesis Hok : vm_ok s pd.
Hypothesis Hh : heap_ok s.
Hypothesis Hfl : frame_lock ∉ locks_of s.
Hypothesis Hsl : swap_lock ∉ locks_of s.
Hypothesis He : frames s !! f = Some e.
Hypothesis Hx : procs s !! running s = Some x.
Hypothesis Hm : if fr_load e then pte_step [upage s e] (vm_mem s) m pd /\ mapping m pd (upage s e) = None
  else m = vm_mem s.
Hypothesis HQ : forall s', removed_page s s' pd f e -> Q tt s'.

Definition entry_left : vm := with_locks ({[frame_lock]} ∪ locks_of s) (unlinked e x m s).

(** The end: the entry is freed and the lock given back. *)
Definition free_end : vm -> Prop := wp (free_frame_elem f) (fun _ s' => wp (release frame_lock) Q s').

Lemma wp_free_end m' b t :
  page_gone s pd e m' -> given_back s e b -> t = (if fr_load e then filter (fun y => y <> f) (frame_table s) else frame_table s) ->
  free_end (set_table t (set_mem m' (set_swap_bitmap b entry_left))).
Proof.
  intros Hg Hb ->. apply wp_bind. eapply wp_load_frame; [exact He|]. apply wp_modify.
  apply wp_release_held; [apply elem_of_union_l, elem_of_singleton_2; done|].
  match goal with |- Q _ ?y => replace y with (released f e x m' b s) end; [by apply HQ, released_removed|].
  unfold released, entry_left, with_locks, locks_of in *. simpl. rewrite locks_back by done. by destruct s as [[[]]].
Qed.

Lemma wp_free_loaded : fr_load e = true ->
  wp (table_remove f;; lift_mem (palloc_free_page (fr_kpage e))) (fun _ => free_end) entry_left.
Proof.
  intros Hl. pose proof Hm as Hm'. rewrite Hl in Hm'. destruct Hm' as [Hs Hn].
  destruct (fo_loaded _ _ _ _ (vo_frame _ _ Hok f e He) Hl) as (_ & c & Hd & _).
  apply wp_bind, wp_table_remove; [apply (vo_table _ _ Hok); eauto|]. apply wp_lift_mem.
  eapply (wp_palloc_free_page _ _ c); [simpl; by rewrite (mk_data _ _ (ps_keep _ _ _ _ Hs))|].
  apply (wp_free_end (free_page (fr_kpage e) m) (swap_bitmap s)).
  - by eapply page_gone_loaded.
  - unfold given_back, swapped. by rewrite Hl.
  - by rewrite Hl.
Qed.

Lemma wp_free_unloaded : fr_load e = false -> swapped e = false -> free_end entry_left.
Proof.
  intros Hl Hs. pose proof Hm as Hm'. rewrite Hl in Hm'.
  apply (wp_free_end m (swap_bitmap s) (frame_table s)).
  - rewrite Hm'. by eapply page_gone_unloaded.
  - unfold given_back. by rewrite Hs.
  - by rewrite Hl.
Qed.

Lemma wp_free_swapped : fr_load e = false -> swapped e = true ->
  wp (acquire swap_lock;; flip_slot (fr_index e);; release swap_lock) (fun _ => free_end) entry_left.
Proof.
  intros Hl Hs. pose proof Hm as Hm'. rewrite Hl in Hm'.
  destruct (fo_slot _ _ _ _ (vo_frame _ _ Hok f e He) Hs) as ([Hi1 Hi2] & _).
  assert (Hsl' : swap_lock ∉ {[frame_lock]} ∪ locks_of s) by (intros [?%elem_of_singleton|?]%elem_of_union; done).
  apply wp_bind, wp_acquire; [done|]. apply wp_bind, wp_bind, wp_gets, wp_bind, wp_access; [simpl; zcase|].
  apply wp_modify, wp_release_held; [apply elem_of_union_l, elem_of_singleton_2; done|].
  match goal with |- free_end ?y => replace y with
    (set_table (frame_table s) (set_mem m (set_swap_bitmap (bitmap_flip (swap_bitmap s) (fr_index e)) entry_left))) end.
  - apply wp_free_end; [rewrite Hm'; by eapply page_gone_unloaded|unfold given_back; by rewrite Hs|by rewrite Hl].
  - unfold entry_left, with_locks, locks_of in *. simpl. by rewrite locks_back.
Qed.

Lemma wp_frame_free : wp (frame_free f) Q (unlinked e x m s).
Proof.
  apply wp_bind, wp_acquire_free; [done|]. apply wp_bind. eapply wp_load_frame; [exact He|].
  rewrite (fo_shared _ _ _ _ (vo_frame _ _ Hok f e He)). apply wp_bind, wp_bind.
  destruct (decide (fr_type e = FILE)) as [Ht|Ht].
  - rewrite bool_decide_false by auto. apply wp_when; [apply wp_free_loaded|]. intros Hl. apply wp_free_unloaded; [done|].
    unfold swapped. rewrite Ht. by rewrite andb_false_r.
  - rewrite bool_decide_true by done.
    destruct (decide (fr_load e = true)) as [Hl|Hl%not_true_is_false]; rewrite Hl; [by apply wp_free_loaded|].
    rewrite (swapped_index s pd f e) by done.
    apply wp_when; intros Hs; [by apply wp_free_swapped|by apply wp_free_unloaded].
Qed.
End frame_free.

Lemma wp_free_page s pd f e (Q : unit -> vm -> Prop) :
  vm_ok s pd -> heap_ok s -> frame_lock ∉ locks_of s -> swap_lock ∉ locks_of s ->
  frames s !! f = Some e -> (forall s', removed_page s s' pd f e -> Q tt s') ->
  wp (free_page_of (fr_spt e)) Q s.
Proof.
  intros Hok Hh Hfl Hsl He HQ. destruct (vo_proc _ _ Hok) as (x & Hx & _).
  apply wp_bind. eapply wp_load_spt; [apply (vo_frame _ _ Hok f e He)|]. apply wp_bind.
  eapply wp_spt_free; [done..|]. intros m Hm. by eapply (wp_frame_free s pd).
Qed.

(** ** The loop of [process_exit] *)
Record pages_freed s s' pd : Prop := {
  pf_ok : vm_ok s' pd;
  pf_heap : heap_ok s';
  pf_os : vm_os s' = vm_os s;
  pf_run : running s' = running s;
  pf_frames : forall f e, frames s' !! f = Some e -> frames s !! f = Some e;
  pf_data : forall a, data (vm_mem s') a = data (vm_mem s) a \/ data (vm_mem s') a = None;
  pf_gone : forall f e, frames s !! f = Some e -> fr_load e = true ->
    frames s' !! f = Some e \/ data (vm_mem s') (fr_kpage e) = None;
  pf_maps : forall v, pg_ofs v = 0 -> is_user_vaddr v = true ->
    mapping (vm_mem s) pd v = None -> mapping (vm_mem s') pd v = None;
  pf_unmapped : forall f e, frames s !! f = Some e ->
    (exists e', frames s' !! f = Some e') \/ mapping (vm_mem s') pd (upage s e) = None;
  pf_others : forall g, g <> running s -> procs s' !! g = procs s !! g;
}.

Lemma removed_freed s s' pd f e :
  vm_ok s pd -> heap_ok s -> removed_page s s' pd f e -> pages_freed s s' pd.
Proof.
  intros Hok Hh Hr. pose proof (kept_frames s s' pd f e Hr) as Hlook. split.
  - by eapply removed_ok.
  - by eapply removed_heap.
  - apply Hr.
  - apply Hr.
  - by intros g e0 [_ ?]%Hlook.
  - intros a. rewrite (rp_data _ _ _ _ _ Hr). destruct (fr_load e && _); auto.
  - intros g e0 Hg Hl. destruct (decide (g = f)) as [->|Hne]; [right|left; by apply Hlook].
    pose proof (rp_frame _ _ _ _ _ Hr) as He. assert (e0 = e) as -> by congruence.
    by rewrite (rp_data _ _ _ _ _ Hr), Hl, Z.eqb_refl.
  - intros v Ho Hu Hn. destruct (decide (v = upage s e)) as [->|Hne]; [apply Hr|]. by rewrite (rp_maps _ _ _ _ _ Hr).
  - intros g e0 Hg. destruct (decide (g = f)) as [->|Hne]; [right|left; exists e0; by apply Hlook].
    pose proof (rp_frame _ _ _ _ _ Hr) as He. assert (e0 = e) as -> by congruence. apply Hr.
  - intros g Hg. destruct (rp_procs _ _ _ _ _ Hr) as (x & _ & ->). by rewrite lookup_insert_ne.
Qed.

Lemma freed_step s s1 s2 pd f e :
  vm_ok s pd -> heap_ok s -> removed_page s s1 pd f e -> pages_freed s1 s2 pd -> pages_freed s s2 pd.
Proof.
  intros Hok Hh Hr F2. pose proof (removed_freed s s1 pd f e Hok Hh Hr) as F1.
  destruct F1 as [A1 A2 A3 A4 A5 A6 A7 Am A8 A9], F2 as [B1 B2 B3 B4 B5 B6 B7 Bm B8 B9].
  split; try congruence; try done.
  - eauto.
  - intros a. destruct (B6 a) as [->|?]; auto.
  - intros g e0 Hg Hl. destruct (A7 g e0 Hg Hl) as [Hg1|Hn]; [eauto|]. right.
    destruct (B6 (fr_kpage e0)) as [->|?]; done.
  - eauto.
  - intros g e0 Hg. pose proof (vo_frame _ _ Hok g e0 Hg) as Fg. destruct (decide (g = f)) as [->|Hne].
    + right. apply Bm; [apply Fg..|]. assert (e0 = e) as -> by (pose proof (rp_frame _ _ _ _ _ Hr); congruence). apply Hr.
    + rewrite <- (kept_upage s s1 pd f e Hr g e0) by done. apply B8. by apply (kept_frames s s1 pd f e Hr).
  - intros g Hg. rewrite B9 by congruence. by apply A9.
Qed.

Lemma pages_freed_refl s pd : vm_ok s pd -> heap_ok s -> pages_freed s s pd.
Proof. intros Hok Hh. split; eauto. Qed.

Lemma wp_page_table s x (Q : list nat -> vm -> Prop) :
  procs s !! running s = Some x -> Q (pr_page_table x) s -> wp page_table Q s.
Proof. intros Hx HQ. apply wp_bind, wp_gets, wp_bind. eapply wp_load_proc; [exact Hx|]. by apply wp_ret. Qed.

Lemma wp_free_pages_loop n : forall s pd x (Q : unit -> vm -> Prop),
  vm_ok s pd -> heap_ok s -> frame_lock ∉ locks_of s -> swap_lock ∉ locks_of s ->
  procs s !! running s = Some x -> (length (pr_page_table x) <= n)%nat ->
  (forall s' y, pages_freed s s' pd -> procs s' !! running s' = Some y -> pr_page_table y = [] -> Q tt s') ->
  wp (free_pages_loop n) Q s.
Proof.
  induction n as [|n IH]; intros s pd x Q Hok Hh Hfl Hsl Hx Hn HQ; cbn [free_pages_loop];
    (apply wp_bind; eapply wp_page_table; [exact Hx|]); destruct (pr_page_table x) as [|p l] eqn:Hl.
  1,3: by apply wp_ret, (HQ s x); [apply pages_freed_refl|..].
  { simpl in Hn. lia. }
  destruct (proj1 (ho_table _ Hh x Hx p)) as (f & e & He & <-); [rewrite Hl; by left|].
  apply wp_bind. eapply wp_free_page; [done..|]. intros s1 Hr.
  destruct (rp_procs _ _ _ _ _ Hr) as (x' & Hx' & Hps). assert (x' = x) as -> by congruence.
  apply (IH s1 pd (Process (pr_pagedir x) (filter (fun q => q <> fr_spt e) (pr_page_table x)))).
  - by eapply removed_ok.
  - by eapply removed_heap.
  - unfold locks_of. by rewrite (rp_os _ _ _ _ _ Hr).
  - unfold locks_of. by rewrite (rp_os _ _ _ _ _ Hr).
  - by rewrite Hps, (rp_run _ _ _ _ _ Hr), lookup_insert_eq.
  - rewrite Hl. simpl. rewrite filter_cons_False by (intros Hp; by apply Hp).
    pose proof (length_filter (fun q => q <> fr_spt e) l). simpl in Hn. lia.
  - intros s2 y Hf Hy Hn2. apply (HQ s2 y); [by eapply freed_step|done..].
Qed.

(** No page is left. *)
Record no_pages s s' pd : Prop := {
  nopages_freed : pages_freed s s' pd;
  nopages_frames : frames s' = ∅;
  nopages_table : exists x, procs s' !! running s' = Some x /\ pr_page_table x = [];
}.
Lemma wp_free_pages s pd (Q : unit -> vm -> Prop) :
  vm_ok s pd -> heap_ok s -> unlocked s -> (forall s', no_pages s s' pd -> Q tt s') -> wp free_pages Q s.
Proof.
  intros Hok Hh Hun HQ. destruct (vo_proc _ _ Hok) as (x & Hx & _). apply wp_bind. eapply wp_page_table; [exact Hx|].
  eapply (wp_free_pages_loop _ s pd x); [done..| | |done|lia|].
  1,2: apply unlocked_in; [done|set_solver].
  intros s' y Hf Hy Hl. apply HQ. split; [done| |by exists y].
  apply map_empty. intros f. destruct (frames s' !! f) as [e|] eqn:He; [|done]. exfalso.
  apply (not_elem_of_nil (fr_spt e)). rewrite <- Hl. apply (ho_table _ (pf_heap _ _ _ Hf) y Hy). eauto.
Qed.

(** C10: [process_exit] gives every page back.  For a process whose address space satisfies
    the invariant, the loop over its page table ends; then no frame, no supplemental page
    and no entry of the frame table is left, every slot of the swap device is free, the
    memory of every frame it had is freed, none of its pages is mapped, and the invariant
    holds. *)
Theorem free_pages_returns_all s pd
    (Hok : vm_ok s pd) (Hh : heap_ok s) (Hun : unlocked s) :
  wp free_pages (fun _ s' =>
    vm_ok s' pd /\ vm_os s' = vm_os s /\ frames s' = ∅ /\ frame_table s' = [] /\
    (exists x, procs s' !! running s' = Some x /\ pr_page_table x = []) /\
    (forall i, 0 <= i < bitmap_size (swap_bitmap s') -> bitmap_test (swap_bitmap s') i = false) /\
    (forall f e, frames s !! f = Some e -> mapping (vm_mem s') pd (upage s e) = None /\
       (fr_load e = true -> data (vm_mem s') (fr_kpage e) = None))) s.
Proof.
  apply (wp_free_pages s pd); [done..|]. intros s' [[F1 F2 F3 F4 F5 F6 F7 Fm F8 F9] Hno Hx].
  split_and!; [done..| |done| |].
  - destruct (frame_table s') as [|f l] eqn:Ht; [done|]. exfalso.
    destruct (proj1 (vo_table _ _ F1 f)) as (e & He & _); [rewrite Ht; by left|]. by rewrite Hno in He.
  - intros i Hi. apply not_true_is_false. intros Ht.
    destruct (vo_used _ _ F1 i Hi Ht) as (f & e & He & _). by rewrite Hno in He.
  - intros f e He. split.
    + destruct (F8 f e He) as [[e' He']|?]; [by rewrite Hno in He'|done].
    + intros Hl'. destruct (F7 f e He Hl') as [He'|?]; [by rewrite Hno in He'|done].
Qed.
End release.

(** A process with a page in memory and one in its file: both are given back. *)
Lemma paged_heap : heap_ok paged.
Proof.
  split.
  - by intros f [e [[-> _]|[-> _]]%paged_frames]; simpl; lia.
  - intros p [y Hy]. simpl in *. destruct p as [|[|p]]; [lia..|].
    rewrite lookup_insert_ne, lookup_singleton_ne in Hy; done.
  - intros x [= <-] p. change (p ∈ [0%nat; 1%nat] <-> exists f e, frames paged !! f = Some e /\ fr_spt e = p). split.
    + intros [->|[->|[]%elem_of_nil]%elem_of_cons]%elem_of_cons; [by exists 0%nat, stack_frame|by exists 1%nat, code_frame].
    + intros (f & e & [[-> ->]|[-> ->]]%paged_frames & <-); simpl; [by left|right; by left].
  - by intros f e [[-> ->]|[-> ->]]%paged_frames.
Qed.

Lemma free_pages_returns_all_witness :
  data (vm_mem paged) user_frame = Some stack_bytes /\
  wp free_pages (fun _ s' => frames s' = ∅ /\ data (vm_mem s') user_frame = None) paged.
Proof.
  split; [done|]. eapply wp_mono.
  - by apply (free_pages_returns_all paged user_dir paged_ok paged_heap paged_unlocked).
  - intros [] s' (_ & _ & Hf & _ & _ & _ & Hd). split; [done|]. by apply (Hd 0%nat stack_frame).
Defined.
