(* ===== verification/Sharing.v ===== *)
(** * Sharing: pages that processes share ([install_file], [evict], [file_back]).

    The paths for shared pages never return: the element of a shared page is pushed on the
    wrong object, and the walks over the pages of a shared frame leave their list.  The
    other theorem of the file is about pages of another process: [evict] reads the bits of
    the running process for them. *)
From S2P Require Import Prelude Bytes State Instances Cache FreeMap Inode InodeData File Pagedir Vm Swap Paging.
From Stdlib Require Import ZArith Lia.
From stdpp Require Import prelude gmap.

Open Scope Z_scope.

Section sharing.
Context {D B W : Type} {dev : BlockDev D} {bm : Bitmap B} {io : BitmapIO D B} {mem : Memory}
  {sdev : BlockDev W} {pg : Paging}.
Abbreviation vm := (vm D B W).
Implicit Types (s : vm) (f p : nat) (e : frame_elem).

(** The supplemental pages, and which frames are shared, stay the same. *)
Definition shared_of s f : option (option nat) := fr_shared <$> frames s !! f.
Record same_sharing s s' : Prop := {
  ss_spts : spts s' = spts s;
  ss_shared : forall f, shared_of s' f = shared_of s f;
}.
#[local] Instance same_sharing_preorder : PreOrder same_sharing.
Proof. split; [by split|]. intros s1 s2 s3 [] []. split; [congruence|intros f; congruence]. Qed.
Abbreviation shares := (preserves same_sharing).

Lemma shares_lift_os {A} (m : M (os D B) A) : shares (lift_os m).
Proof. intros s a s'. unfold lift_os. destruct (m (vm_os s)); [|done]. by intros [= _ <-]. Qed.
Lemma shares_lift_mem {A} (m : M vmem A) : shares (lift_mem m).
Proof. intros s a s'. unfold lift_mem. destruct (m (vm_mem s)); [|done]. by intros [= _ <-]. Qed.
Hint Resolve shares_lift_os shares_lift_mem : keeps.

Lemma shares_store_frame f g : (forall e, fr_shared (g e) = fr_shared e) -> shares (store_frame f g).
Proof.
  intros Hg s a s'. unfold store_frame, load_frame, mbind, M_bind, get, deref, modify.
  destruct (frames s !! f) as [e|] eqn:He; [|done]. intros [= _ <-]. split; [done|].
  intros h. unfold shared_of. simpl. destruct (decide (f = h)) as [<-|].
  - by rewrite lookup_insert_eq, He; simpl; rewrite Hg.
  - by rewrite lookup_insert_ne.
Qed.

Lemma shares_access c : shares (access c).
Proof. unfold access. by destruct c; intros s a s'; [intros [= _ <-]|]. Qed.
Hint Resolve shares_access : keeps.

Ltac shares_step :=
  first [ apply shares_store_frame; by intros [] | apply preserves_modify; solve [by intros []] | preserves_step ].
Ltac shares_all := repeat shares_step.

Lemma shares_acquire l : shares (acquire l).
Proof. unfold acquire, lift_fs. shares_all. Qed.
Lemma shares_release l : shares (release l).
Proof. unfold release, lift_fs. shares_all. Qed.
Hint Resolve shares_acquire shares_release : keeps.
Lemma shares_acquire_unless_held l : shares (acquire_unless_held l).
Proof. unfold acquire_unless_held, lift_fs. shares_all. Qed.
Lemma shares_load_frame f : shares (load_frame f).
Proof. unfold load_frame. shares_all. Qed.
Lemma shares_load_spt p : shares (load_spt p).
Proof. unfold load_spt. shares_all. Qed.
Lemma shares_load_proc t : shares (load_proc t).
Proof. unfold load_proc. shares_all. Qed.
Lemma shares_load_page a : shares (load_page a).
Proof. unfold load_page. shares_all. Qed.
Hint Resolve shares_acquire_unless_held shares_load_frame shares_load_spt shares_load_proc shares_load_page : keeps.
Lemma shares_store_page a c : shares (store_page a c).
Proof. unfold store_page. shares_all. Qed.
Lemma shares_current_pagedir : shares current_pagedir.
Proof. unfold current_pagedir, pagedir_of. shares_all. Qed.
Lemma shares_pagedir_of t : shares (pagedir_of t).
Proof. unfold pagedir_of. shares_all. Qed.
Lemma shares_table_remove f : shares (table_remove f).
Proof. unfold table_remove. shares_all. Qed.
Hint Resolve shares_store_page shares_current_pagedir shares_pagedir_of shares_table_remove : keeps.

Lemma shares_find P l : (forall e, shares (P e)) -> shares (find_frame_from P l).
Proof. intros HP. induction l as [|f l IH]; simpl; shares_all; auto. Qed.
Lemma shares_evictable e : shares (evictable e).
Proof. unfold evictable. shares_all. Qed.

Lemma shares_sout f : shares (sout f).
Proof.
  unfold sout. unfold swap_write. shares_all.
Qed.

Hint Resolve shares_sout shares_evictable : keeps.

Lemma shares_dirty_now sp : shares (dirty_now sp).
Proof. unfold dirty_now. shares_all. Qed.
Hint Resolve shares_dirty_now : keeps.
Lemma shares_evict_to_disk f : shares (evict_to_disk f).
Proof. unfold evict_to_disk. shares_all. Qed.
Hint Resolve shares_evict_to_disk : keeps.
Lemma shares_evict : shares evict.
Proof.
  unfold evict, for_copied_list. shares_all. apply shares_find. intros e. auto with keeps.
Qed.
Hint Resolve shares_evict : keeps.
Lemma shares_frame_get_kpage flags : shares (frame_get_kpage flags).
Proof. unfold frame_get_kpage. shares_all. Qed.
Hint Resolve shares_frame_get_kpage : keeps.
Lemma shares_get_kpage n flags : shares (get_kpage n flags).
Proof. induction n as [|n IH]; simpl; shares_all; auto. Qed.
Lemma shares_read_page e k : shares (read_page e k).
Proof. unfold read_page. shares_all. Qed.
Hint Resolve shares_get_kpage shares_read_page : keeps.

(** ** The walks never come back *)
Lemma copied_list_fails l body s r s' : for_copied_list l body s <> Ok r s' :> res vm unit.
Proof. unfold for_copied_list. intros H. ok_split H. Qed.

(** The walk of [evict] ends at a page of the table. *)
Lemma find_in_list P l s r s' : find_frame_from P l s = Ok r s' -> forall f, r = Some f -> f ∈ l.
Proof.
  revert s. induction l as [|f l IH]; simpl; intros s H g ->; [by injection H|].
  ok_split H. destruct a0; [injection H as <- _; by left|]. right. by eapply IH.
Qed.

Lemma load_frame_ok f s e s' : load_frame f s = Ok e s' -> frames s !! f = Some e /\ s' = s.
Proof. unfold load_frame. intros H. ok_split H. done. Qed.

Lemma acquire_table l s a s' : acquire l s = Ok a s' -> frame_table s' = frame_table s.
Proof. unfold acquire, lift_fs, lift_os. destruct (lift _ _); [|done]. by intros [= _ <-]. Qed.

Lemma shared_frame s s' f sh e :
  same_sharing s s' -> shared_of s f = Some (Some sh) -> frames s' !! f = Some e -> fr_shared e = Some sh.
Proof.
  intros [_ Hs] Hf He. specialize (Hs f). rewrite Hf in Hs. unfold shared_of in Hs. rewrite He in Hs.
  by injection Hs.
Qed.

Lemma evict_shared s r s' :
  (forall f, f ∈ frame_table s -> exists sh, shared_of s f = Some (Some sh)) -> evict s <> Ok r s'.
Proof.
  intros Hall H. unfold evict in H. ok_split H.
  assert (Hin : a1 ∈ frame_table s0).
  { destruct a0 as [f|]; [injection Hd as ->; by eapply find_in_list|].
    destruct (frame_table s0); [done|]. injection Hd as ->. by left. }
  rewrite (acquire_table _ _ _ _ R) in Hin. destruct (Hall _ Hin) as [sh Hsh].
  assert (Hss : same_sharing s s3).
  { transitivity s0; [by eapply shares_acquire|]. transitivity s1; [by eapply shares_find, R0; intros; auto with keeps|].
    transitivity s2; [by eapply shares_table_remove|]. eapply shares_store_frame, R2. by intros []. }
  apply load_frame_ok in R3 as [He ->]. rewrite (shared_frame _ _ _ _ _ Hss Hsh He) in H.
  ok_split H. by eapply copied_list_fails.
Qed.

Lemma file_back_shared s p sp sh s' :
  spts s !! p = Some sp -> shared_of s (sp_frame sp) = Some (Some sh) -> file_back p s <> Ok true s'.
Proof.
  intros Hsp Hsh H. unfold file_back in H. apply bind_ok in H as (sp' & s1 & R1 & H).
  unfold load_spt in R1. ok_split R1. assert (sp' = sp) as -> by congruence.
  ok_split H. apply load_frame_ok in R as [_ ->]. apply load_frame_ok in R2 as [He ->].
  assert (Hss : same_sharing s s2).
  { transitivity s1; [by eapply shares_get_kpage|]. eapply shares_store_frame, R1. by intros []. }
  rewrite (shared_frame _ _ _ _ _ Hss Hsh He) in H. destruct a4; [|by inversion H].
  ok_split H. by eapply copied_list_fails.
Qed.

Lemma install_file_shared e0 upage file type ofs n w s f s1 r s' :
  check_match file ofs n s = Ok (Some f) s1 -> from_file type = true ->
  install_file e0 upage file type ofs n w s <> Ok r s'.
Proof.
  intros Hm Ht H. unfold install_file, push_on_pointer in H. apply bind_ok in H as (a & s2 & R & H).
  assert (a = Some f) as -> by congruence. rewrite Ht in H. ok_split H.
Qed.

End sharing.

(** ** Concrete states *)

(** The page of [paged] as a page of the file, in memory. *)
Definition file_frame (shared : option nat) : frame_elem :=
  FrameElem user_frame 0 shared true (Some 0%nat) SIZE_MAX FILE 0 400 false.
Definition file_loaded (shared : option nat) : vm disk bits disk :=
  set_shareds {[9%nat := [0%nat]]} (set_frames (<[0%nat := file_frame shared]> (frames paged)) paged).

#[local] Existing Instance memory_available.


(** A modified page of process 1, while process 0 runs. *)
Definition other_dir : Z := x86_base + 4096 * 18.
Definition foreign_mem : vmem :=
  match pagedir_set_dirty user_dir code_page true (set_pages (<[other_dir := zero_table]> (pages vm_mem0)) vm_mem0) with
  | Ok _ m => m
  | Fail _ => vm_mem0
  end.
Definition foreign : vm disk bits disk :=
  Vm (open_file_os 0) foreign_mem
    (<[0%nat := Process (Some other_dir) []]> {[1%nat := Process (Some user_dir) [0%nat]]}) 0
    {[0%nat := file_frame None]} [0%nat] {[0%nat := Spt code_page 0 1]} ∅ 1 ∅ (replicate 16 false).

(** [evict] can lose a page of another process.  It asks the page directory of the
    running process whether the page is dirty; here the page belongs to process 1, which
    modified it, and process 0 runs: the page is dropped as if it were as its file has it,
    and its bytes are gone. *)
Theorem evict_loses_foreign_page :
  contents foreign 0 = Some stack_bytes /\ flag_of PTE_D (vm_mem foreign) user_dir code_page = true /\
  wp evict (fun _ s' => contents s' 0 <> Some stack_bytes /\ swap_bitmap s' = swap_bitmap foreign) foreign.
Proof.
  split; [vm_compute; reflexivity|]. split; [vm_compute; reflexivity|].
  vm_compute. split; [discriminate|reflexivity].
Qed.
