(* ===== verification/Task.v ===== *)
(** * Task: the state of user programs ([threads/thread.h], [userprog/process.h],
    [userprog/syscall.h]) and the records of children ([userprog/process.c]).

    On top of the paging state [vm]: what the system calls use of every thread, the heap of
    [struct child_process_elem], the console and the keyboard.  A process reads and writes
    its own memory through its page directory; an access by the kernel to a page that is
    not mapped is a fault of the model. *)
From S2P Require Import Prelude Bytes State Instances Cache FreeMap Inode InodeData File Directory Filesys Pagedir Vm Swap.
From Stdlib Require Import ZArith Lia.
From stdpp Require Import prelude gmap.

Open Scope Z_scope.

(** ** Data *)

(** [struct mmap_elem]; [spt] is [NULL] when [find_spt] finds nothing. *)
Record mmap_elem := MmapElem { mm_mapid : Z; mm_file : nat; mm_writable : bool; mm_spt : option nat }.

(** [struct child_process_elem].  The two barriers are semaphores, here their values.  A
    [struct file_elem] is a pair of a descriptor and an open file. *)
Record child := Child {
  ch_pid : Z;
  ch_process_wait : bool;
  ch_exit : bool;
  ch_load : bool;
  ch_status : Z;
  ch_file_list : list (Z * nat);
  ch_load_barrier : Z;
  ch_wait_barrier : Z;
  ch_next_fd : Z;
}.

(** The part of [struct thread] that belongs to user programs; [pagedir] and [page_table]
    are in [process], the current directory of the running thread in [os].
    [mmap_file_list] is not declared in [thread.h]: it is taken as the list it is used as. *)
Record uthread := UThread {
  ut_tid : Z;
  ut_name : list Z;
  ut_parent : Z;
  ut_process : option nat;
  ut_children : list nat;
  ut_file : option nat;
  ut_esp : Z;
  ut_mmap_list : list mmap_elem;
  ut_mmap_files : list nat;
  ut_next_mapid : Z;
  ut_cur_dir : option nat;
  ut_page : option Z;               (* the page of the thread, if it is from [palloc] *)
}.

(** What is printed. *)
Inductive message :=
| Put (bytes : list Z)                       (* [putbuf] *)
| Exited (name : list Z) (status : Z)        (* "%s: exit(%d)\n" *)
| OpenFailed (name : list Z)                 (* "load: %s: open failed\n" *)
| LoadError (name : list Z)                  (* "load: %s: error loading executable\n" *)
| Dying (name : list Z) (vec_no : Z)         (* "%s: dying due to interrupt %#04x (%s).\n" *)
| UnknownSegment (vec_no : Z).               (* "Interrupt %#04x (%s) in unknown segment %04x\n" *)

(** The threads of [all_list] are the domain of [uthreads]. *)
Record sys (D B W : Type) := Sys {
  sy_vm : vm D B W;
  uthreads : gmap nat uthread;
  children : gmap nat child;
  next_child : nat;
  console : list message;
  keyboard : list Z;
  sy_next_tid : Z;
}.
Arguments Sys {D B W}. Arguments sy_vm {D B W}. Arguments uthreads {D B W}.
Arguments children {D B W}. Arguments next_child {D B W}. Arguments console {D B W}.
Arguments keyboard {D B W}. Arguments sy_next_tid {D B W}.

Definition set_ch_wait x c := Child (ch_pid c) x (ch_exit c) (ch_load c) (ch_status c) (ch_file_list c) (ch_load_barrier c) (ch_wait_barrier c) (ch_next_fd c).
Definition set_ch_exit x c := Child (ch_pid c) (ch_process_wait c) x (ch_load c) (ch_status c) (ch_file_list c) (ch_load_barrier c) (ch_wait_barrier c) (ch_next_fd c).
Definition set_ch_load x c := Child (ch_pid c) (ch_process_wait c) (ch_exit c) x (ch_status c) (ch_file_list c) (ch_load_barrier c) (ch_wait_barrier c) (ch_next_fd c).
Definition set_ch_status x c := Child (ch_pid c) (ch_process_wait c) (ch_exit c) (ch_load c) x (ch_file_list c) (ch_load_barrier c) (ch_wait_barrier c) (ch_next_fd c).
Definition set_ch_files x c := Child (ch_pid c) (ch_process_wait c) (ch_exit c) (ch_load c) (ch_status c) x (ch_load_barrier c) (ch_wait_barrier c) (ch_next_fd c).
Definition set_ch_load_barrier x c := Child (ch_pid c) (ch_process_wait c) (ch_exit c) (ch_load c) (ch_status c) (ch_file_list c) x (ch_wait_barrier c) (ch_next_fd c).
Definition set_ch_wait_barrier x c := Child (ch_pid c) (ch_process_wait c) (ch_exit c) (ch_load c) (ch_status c) (ch_file_list c) (ch_load_barrier c) x (ch_next_fd c).
Definition set_ch_next_fd x c := Child (ch_pid c) (ch_process_wait c) (ch_exit c) (ch_load c) (ch_status c) (ch_file_list c) (ch_load_barrier c) (ch_wait_barrier c) x.

Definition set_ut_process x t := UThread (ut_tid t) (ut_name t) (ut_parent t) x (ut_children t) (ut_file t) (ut_esp t) (ut_mmap_list t) (ut_mmap_files t) (ut_next_mapid t) (ut_cur_dir t) (ut_page t).
Definition set_ut_children x t := UThread (ut_tid t) (ut_name t) (ut_parent t) (ut_process t) x (ut_file t) (ut_esp t) (ut_mmap_list t) (ut_mmap_files t) (ut_next_mapid t) (ut_cur_dir t) (ut_page t).
Definition set_ut_file x t := UThread (ut_tid t) (ut_name t) (ut_parent t) (ut_process t) (ut_children t) x (ut_esp t) (ut_mmap_list t) (ut_mmap_files t) (ut_next_mapid t) (ut_cur_dir t) (ut_page t).
Definition set_ut_esp x t := UThread (ut_tid t) (ut_name t) (ut_parent t) (ut_process t) (ut_children t) (ut_file t) x (ut_mmap_list t) (ut_mmap_files t) (ut_next_mapid t) (ut_cur_dir t) (ut_page t).
Definition set_ut_mmap_list x t := UThread (ut_tid t) (ut_name t) (ut_parent t) (ut_process t) (ut_children t) (ut_file t) (ut_esp t) x (ut_mmap_files t) (ut_next_mapid t) (ut_cur_dir t) (ut_page t).
Definition set_ut_mmap_files x t := UThread (ut_tid t) (ut_name t) (ut_parent t) (ut_process t) (ut_children t) (ut_file t) (ut_esp t) (ut_mmap_list t) x (ut_next_mapid t) (ut_cur_dir t) (ut_page t).
Definition set_ut_next_mapid x t := UThread (ut_tid t) (ut_name t) (ut_parent t) (ut_process t) (ut_children t) (ut_file t) (ut_esp t) (ut_mmap_list t) (ut_mmap_files t) x (ut_cur_dir t) (ut_page t).

(** [CODE_BASE]. *)
Definition CODE_BASE : Z := 0x08048000.

Section task.
Context {D B W : Type} {dev : BlockDev D} {bm : Bitmap B} {io : BitmapIO D B} {mem : Memory}
  {sdev : BlockDev W} {pg : Paging}.
Abbreviation sys := (sys D B W).
Abbreviation K := (M sys).
Implicit Types (s : sys) (c t : nat).

Definition set_vm x s : sys := Sys x (uthreads s) (children s) (next_child s) (console s) (keyboard s) (sy_next_tid s).
Definition set_uthreads x s : sys := Sys (sy_vm s) x (children s) (next_child s) (console s) (keyboard s) (sy_next_tid s).
Definition set_children x s : sys := Sys (sy_vm s) (uthreads s) x (next_child s) (console s) (keyboard s) (sy_next_tid s).
Definition set_next_child x s : sys := Sys (sy_vm s) (uthreads s) (children s) x (console s) (keyboard s) (sy_next_tid s).
Definition set_console x s : sys := Sys (sy_vm s) (uthreads s) (children s) (next_child s) x (keyboard s) (sy_next_tid s).
Definition set_keyboard x s : sys := Sys (sy_vm s) (uthreads s) (children s) (next_child s) (console s) x (sy_next_tid s).
Definition set_sy_next_tid x s : sys := Sys (sy_vm s) (uthreads s) (children s) (next_child s) (console s) (keyboard s) x.

(** ** The layers below *)
Definition lift_vm {A} (m : M (vm D B W) A) : K A := fun s =>
  match m (sy_vm s) with Ok a x => Ok a (set_vm x s) | Fail f => Fail f end.
Definition in_os {A} (m : M (os D B) A) : K A := lift_vm (lift_os m).
Definition take_lock (l : lockid) : K unit := lift_vm (acquire l).
Definition give_lock (l : lockid) : K unit := lift_vm (release l).

(** ** Objects *)
Definition load_uthread t : K uthread := s ← get; deref (uthreads s !! t).
Definition store_uthread t (g : uthread -> uthread) : K unit :=
  x ← load_uthread t; modify (fun s => set_uthreads (<[t := g x]> (uthreads s)) s).
Definition load_child c : K child := s ← get; deref (children s !! c).
Definition store_child c (g : child -> child) : K unit :=
  x ← load_child c; modify (fun s => set_children (<[c := g x]> (children s)) s).

Definition running_thread : K nat := gets (fun s => running (sy_vm s)).
Definition current : K uthread := t ← running_thread; load_uthread t.
Definition store_current (g : uthread -> uthread) : K unit := t ← running_thread; store_uthread t g.
(** [thread_current ()->process], for a call that follows the pointer. *)
Definition process : K nat := t ← current; deref (ut_process t).

Definition print (m : message) : K unit := modify (fun s => set_console (console s ++ [m]) s).

(** *** The barriers: semaphores, seen by the running thread *)
Definition down (v : child -> Z) (set : Z -> child -> child) c : K unit :=
  x ← load_child c;
  if v x =? 0 then fail WouldBlock else store_child c (set (v x - 1)).
Definition up (v : child -> Z) (set : Z -> child -> child) c : K unit :=
  x ← load_child c; store_child c (set (u32 (v x + 1))).
Definition down_wait := down ch_wait_barrier set_ch_wait_barrier.
Definition up_wait := up ch_wait_barrier set_ch_wait_barrier.
Definition down_load := down ch_load_barrier set_ch_load_barrier.
Definition up_load := up ch_load_barrier set_ch_load_barrier.

(** ** Access to user memory, through the page directory of the running process *)
Definition user_byte (va : Z) : M (vm D B W) Z :=
  pd ← current_pagedir;
  s ← get;
  access (is_user_vaddr va);;
  k ← deref (mapping (vm_mem s) pd va);
  b ← load_page k;
  deref (b !! Z.to_nat (pg_ofs va)).
Definition user_store (va : Z) (x : Z) : M (vm D B W) unit :=
  pd ← current_pagedir;
  s ← get;
  access (is_user_vaddr va && flag_of PTE_W (vm_mem s) pd va);;
  k ← deref (mapping (vm_mem s) pd va);
  b ← load_page k;
  deref (b !! Z.to_nat (pg_ofs va));;
  store_page k (<[Z.to_nat (pg_ofs va) := x]> b).

(** [n] bytes from [va], and [memcpy] to [va]. *)
Fixpoint user_read (va : Z) (n : nat) : M (vm D B W) (list Z) :=
  match n with
  | O => mret []
  | S n => x ← user_byte va; rest ← user_read (va + 1) n; mret (x :: rest)
  end.
Fixpoint user_write (va : Z) (bytes : list Z) : M (vm D B W) unit :=
  match bytes with
  | [] => mret tt
  | x :: rest => user_store va x;; user_write (va + 1) rest
  end.
Definition user_word (va : Z) : M (vm D B W) Z := b ← user_read va 4; mret (of_le32 b).

(** The string at [va]; its bytes are below [PHYS_BASE]. *)
Fixpoint user_string_from (fuel : nat) (va : Z) : M (vm D B W) (list Z) :=
  match fuel with
  | O => fail Hang
  | S fuel =>
    x ← user_byte va;
    if x =? 0 then mret [] else rest ← user_string_from fuel (va + 1); mret (x :: rest)
  end.

(** ** Children ([process.c]) *)

(** [x0] is what the memory from [malloc] holds. *)
Definition child_init (x0 : child) : child :=
  set_ch_files [] (set_ch_next_fd 2 (set_ch_exit false (set_ch_wait false x0))).

Definition create_child (x0 : child) (pid : Z) : K nat :=
  c ← gets next_child;
  lift_vm (access malloc_ok);;
  let x := child_init x0 in
  let x := Child pid (ch_process_wait x) (ch_exit x) false (ch_status x) (ch_file_list x) 0 0 (ch_next_fd x) in
  modify (fun s => set_next_child (S c) (set_children (<[c := x]> (children s)) s));;
  store_current (fun x => set_ut_children (ut_children x ++ [c]) x);;
  mret c.

Fixpoint get_child_from (pid : Z) (l : list nat) : K (option nat) :=
  match l with
  | [] => mret None
  | c :: rest => x ← load_child c; if ch_pid x =? pid then mret (Some c) else get_child_from pid rest
  end.
Definition get_child (pid : Z) : K (option nat) := t ← current; get_child_from pid (ut_children t).

Definition free_child c : K unit :=
  load_child c;; modify (fun s => set_children (delete c (children s)) s).
(** [list_remove (&child->elem)]: from the list of the running thread, whose child it is. *)
Definition remove_child c : K unit :=
  t ← current;
  lift_vm (access (bool_decide (c ∈ ut_children t)));;
  store_current (set_ut_children (filter (fun x => x <> c) (ut_children t)));;
  free_child c.

Definition wait_return c : K unit := down_wait c.

Definition process_wait (child_tid : Z) : K Z :=
  o ← get_child child_tid;
  match o with
  | None => mret (-1)
  | Some c =>
    x ← load_child c;
    if ch_process_wait x then mret (-1)
    else
      store_child c (set_ch_wait true);;
      wait_return c;;
      x ← load_child c;
      when (negb (ch_exit x)) (store_child c (set_ch_status (-1)));;
      x ← load_child c;
      remove_child c;;
      mret (ch_status x)
  end.

(** [wait] of [syscall.c]. *)
Definition wait (pid : Z) : K Z := process_wait pid.

(** [thread_exist] of [thread.c], a loop over [all_list]. *)
Definition task_exist (tid : Z) : K bool :=
  gets (fun s => existsb (fun p => ut_tid p.2 =? tid) (map_to_list (uthreads s))).
End task.

(** ** Rules *)
Section task_rules.
Context {D B W : Type} {dev : BlockDev D} {bm : Bitmap B} {io : BitmapIO D B} {mem : Memory}
  {sdev : BlockDev W} {pg : Paging} {pl : PagingLaws}.
Abbreviation sys := (sys D B W).
Abbreviation vm := (vm D B W).
Implicit Types (s : sys) (v : vm) (c : nat).

Lemma wp_lift_vm {A} (m : M vm A) s (Q : A -> sys -> Prop) :
  wp m (fun a x => Q a (set_vm x s)) (sy_vm s) -> wp (lift_vm m) Q s.
Proof. unfold wp, lift_vm. by destruct (m (sy_vm s)). Qed.
Lemma wp_in_os {A} (m : M (os D B) A) s (Q : A -> sys -> Prop) :
  wp m (fun a x => Q a (set_vm (set_os x (sy_vm s)) s)) (vm_os (sy_vm s)) -> wp (in_os m) Q s.
Proof. intros H. by apply wp_lift_vm, wp_lift_os. Qed.
Lemma wp_load_child c x s (Q : child -> sys -> Prop) :
  children s !! c = Some x -> Q x s -> wp (load_child c) Q s.
Proof. intros H HQ. apply wp_bind, wp_get. by eapply wp_deref. Qed.
Lemma wp_store_child c x g s (Q : unit -> sys -> Prop) :
  children s !! c = Some x -> Q tt (set_children (<[c := g x]> (children s)) s) -> wp (store_child c g) Q s.
Proof. intros H HQ. apply wp_bind. eapply wp_load_child; [exact H|]. by apply wp_modify. Qed.
Lemma wp_load_uthread t x s (Q : uthread -> sys -> Prop) :
  uthreads s !! t = Some x -> Q x s -> wp (load_uthread t) Q s.
Proof. intros H HQ. apply wp_bind, wp_get. by eapply wp_deref. Qed.

(** The running thread, and its process record. *)
Definition current_is s (x : uthread) : Prop := uthreads s !! running (sy_vm s) = Some x.
Definition process_is s c (x : child) : Prop := exists t, current_is s t /\ ut_process t = Some c /\ children s !! c = Some x.

Lemma wp_current_task x s (Q : uthread -> sys -> Prop) : current_is s x -> Q x s -> wp current Q s.
Proof. intros H HQ. apply wp_bind, wp_gets. by eapply wp_load_uthread. Qed.
Lemma wp_store_current x g s (Q : unit -> sys -> Prop) :
  current_is s x -> Q tt (set_uthreads (<[running (sy_vm s) := g x]> (uthreads s)) s) -> wp (store_current g) Q s.
Proof.
  intros H HQ. apply wp_bind, wp_gets, wp_bind. eapply wp_load_uthread; [exact H|]. by apply wp_modify.
Qed.
Lemma wp_process c x s (Q : nat -> sys -> Prop) : process_is s c x -> Q c s -> wp process Q s.
Proof. intros (t & Ht & Hc & _) HQ. apply wp_bind. eapply wp_current_task; [exact Ht|]. by eapply wp_deref. Qed.

Lemma wp_take_lock l s (Q : unit -> sys -> Prop) :
  l ∉ locks_of (sy_vm s) ->
  Q tt (set_vm (with_locks ({[l]} ∪ locks_of (sy_vm s)) (sy_vm s)) s) -> wp (take_lock l) Q s.
Proof. intros Hl HQ. by apply wp_lift_vm, wp_acquire. Qed.
Lemma wp_give_lock l s (Q : unit -> sys -> Prop) :
  l ∈ locks_of (sy_vm s) ->
  Q tt (set_vm (with_locks (locks_of (sy_vm s) ∖ {[l]}) (sy_vm s)) s) -> wp (give_lock l) Q s.
Proof. intros Hl HQ. by apply wp_lift_vm, wp_release_held. Qed.

(** *** User memory *)

(** The page [u] of the running process is mapped to [k], which has the bytes [b]. *)
Record mapped_page v (u k : Z) (b : list Z) (writable : bool) : Prop := {
  mg_dir : exists x pd, procs v !! running v = Some x /\ pr_pagedir x = Some pd /\
    forall o, 0 <= o < PGSIZE -> mapping (vm_mem v) pd (u + o) = Some k /\
      (writable = true -> flag_of PTE_W (vm_mem v) pd (u + o) = true);
  mg_user : is_user_vaddr u = true;
  mg_aligned : pg_ofs u = 0;
  mg_bytes : data (vm_mem v) k = Some b;
  mg_length : Z.of_nat (length b) = PGSIZE;
}.

Lemma mapping_offset m pd u o flag : pg_ofs u = 0 -> 0 <= o < PGSIZE ->
  mapping m pd (u + o) = mapping m pd u /\ flag_of flag m pd (u + o) = flag_of flag m pd u.
Proof.
  intros Hu Ho. destruct (page_offset u o Hu Ho) as (E1 & E2 & _).
  unfold mapping, flag_of, pte_of, slot. by rewrite E1, E2.
Qed.

Lemma wp_user_byte v u k b w o (Q : Z -> vm -> Prop) x :
  mapped_page v u k b w -> 0 <= o < PGSIZE -> b !! Z.to_nat o = Some x -> Q x v -> wp (user_byte (u + o)) Q v.
Proof.
  intros [(p & pd & Hp & Hpd & Hm) Hu Ha Hb _] Ho Hx HQ. destruct (page_offset u o Ha Ho) as (_ & _ & E3 & E4).
  apply wp_bind. eapply wp_current_pagedir; [exact Hp|exact Hpd|]. apply wp_bind, wp_get.
  apply wp_bind, wp_access; [by rewrite E4|]. apply wp_bind. eapply wp_deref; [by apply Hm|].
  apply wp_bind. eapply wp_load_page; [exact Hb|]. rewrite E3. by eapply wp_deref.
Qed.

Lemma wp_user_read v u k b w n o (Q : list Z -> vm -> Prop) :
  mapped_page v u k b w -> 0 <= o -> o + Z.of_nat n <= PGSIZE ->
  Q (slice o (Z.of_nat n) b) v -> wp (user_read (u + o) n) Q v.
Proof.
  intros Hm. pose proof (mg_length _ _ _ _ _ Hm) as Hl. revert o Q. induction n as [|n IH]; intros o Q Ho Hn HQ.
  { apply wp_ret. exact HQ. }
  cbn [user_read]. destruct (lookup_lt_is_Some_2 b (Z.to_nat o)) as [x Hx]; [lia|].
  apply wp_bind. eapply wp_user_byte; [exact Hm|lia|exact Hx|]. replace (u + o + 1) with (u + (o + 1)) by lia.
  apply wp_bind, IH; [lia..|]. apply wp_ret. cbn beta. replace (_ :: _) with (slice o (Z.of_nat (S n)) b); [done|].
  unfold slice. rewrite !Nat2Z.id. replace (Z.to_nat (o + 1)) with (S (Z.to_nat o)) by lia.
  by rewrite (drop_S b x) by done.
Qed.

Lemma wp_user_store v u k b o (Q : unit -> vm -> Prop) x :
  mapped_page v u k b true -> 0 <= o < PGSIZE ->
  Q tt (with_page k (<[Z.to_nat o := x]> b) v) -> wp (user_store (u + o) x) Q v.
Proof.
  intros [(p & pd & Hp & Hpd & Hm) Hu Ha Hb Hl] Ho HQ. destruct (page_offset u o Ha Ho) as (_ & _ & E3 & E4).
  destruct (Hm o Ho) as [Hmo Hw].
  apply wp_bind. eapply wp_current_pagedir; [exact Hp|exact Hpd|]. apply wp_bind, wp_get.
  apply wp_bind, wp_access; [by rewrite E4, Hu, Hw|]. apply wp_bind. eapply wp_deref; [exact Hmo|].
  apply wp_bind. eapply wp_load_page; [exact Hb|]. rewrite E3. apply wp_bind.
  destruct (lookup_lt_is_Some_2 b (Z.to_nat o)) as [y Hy]; [lia|]. eapply wp_deref; [exact Hy|].
  by eapply wp_store_page.
Qed.

Lemma mapped_with_page v u k b w k' b' b0 :
  mapped_page v u k b w -> data (vm_mem v) k' = Some b0 -> length b' = length b0 ->
  mapped_page (with_page k' b' v) u k (if decide (k' = k) then b' else b) w.
Proof.
  intros [(p & pd & Hp & Hpd & Hm) Hu Ha Hb Hl] Hb' Hl'. pose proof (data_not_table _ _ _ Hb') as Hnt.
  split; try done.
  - exists p, pd. split; [done|]. split; [done|]. intros o Ho. simpl.
    change (set_pages (<[k' := Data b']> (pages (vm_mem v))) (vm_mem v)) with (put_page k' b' (vm_mem v)).
    assert (E : forall va, pte_of (put_page k' b' (vm_mem v)) pd va = pte_of (vm_mem v) pd va); [|
      unfold mapping, flag_of; rewrite E; by apply Hm].
    intros va. unfold pte_of, slot, word, put_page. simpl. destruct (decide (k' = pd)) as [->|Hne].
    + rewrite lookup_insert_eq. destruct (pages (vm_mem v) !! pd) as [[t|]|] eqn:Hpg; [by destruct (Hnt t)|done|done].
    + rewrite lookup_insert_ne by done. destruct (pages (vm_mem v) !! pd) as [[t|]|]; [|done..].
      destruct (t !! pd_no va) as [pde|]; [|done]. simpl. destruct (pde =? 0); [done|]. simpl.
      destruct (decide (k' = pde_get_pt pde)) as [->|Hne']; [|by rewrite lookup_insert_ne].
      rewrite lookup_insert_eq. destruct (pages (vm_mem v) !! pde_get_pt pde) as [[t'|]|] eqn:Hpg; [by destruct (Hnt t')|done|done].
  - rewrite data_with_page. by case_decide.
  - case_decide as Hk; [|done]. subst k'. rewrite Hl'. by replace b0 with b by congruence.
Qed.

Lemma insert_splice o x rest b : 0 <= o -> o + 1 + Z.of_nat (length rest) <= Z.of_nat (length b) ->
  splice (o + 1) rest (<[Z.to_nat o := x]> b) = splice o (x :: rest) b.
Proof.
  intros Ho Hl. apply list_byte_eq.
  { rewrite !length_splice; rewrite ?length_insert; simpl; lia. }
  intros k Hk. rewrite length_splice, length_insert in Hk by (rewrite ?length_insert; lia).
  rewrite !byte_at_splice by (rewrite ?length_insert; simpl; lia). unfold byte_at. simpl length.
  rewrite !nth_default_lookup. destruct (decide (k = o)) as [->|Hne].
  - rewrite list_lookup_insert_eq by lia. replace (o - o) with 0 by lia. zcase.
  - rewrite list_lookup_insert_ne by lia. zcase.
    replace (Z.to_nat (k - o)) with (S (Z.to_nat (k - (o + 1)))) by lia. done.
Qed.

Lemma wp_user_write v u k b bytes o (Q : unit -> vm -> Prop) :
  mapped_page v u k b true -> 0 <= o -> o + Z.of_nat (length bytes) <= PGSIZE ->
  Q tt (with_page k (splice o bytes b) v) -> wp (user_write (u + o) bytes) Q v.
Proof.
  revert v b o Q. induction bytes as [|x rest IH]; intros v b o Q Hm Ho Hn HQ.
  - apply wp_ret. revert HQ. unfold splice. rewrite Nat.add_0_r, app_nil_l, take_drop.
    by rewrite with_page_same by apply Hm.
  - simpl length in Hn. cbn [user_write]. apply wp_bind. eapply wp_user_store; [exact Hm|lia|].
    replace (u + o + 1) with (u + (o + 1)) by lia. pose proof (mg_length _ _ _ _ _ Hm) as Hl.
    eapply (IH _ (<[Z.to_nat o := x]> b)); [|lia|lia|].
    + pose proof (mapped_with_page v u k b true k (<[Z.to_nat o := x]> b) b Hm) as H.
      rewrite decide_True in H by done. apply H; [apply Hm|by rewrite length_insert].
    + by rewrite insert_splice, with_page_twice by lia.
Qed.
End task_rules.
