(* ===== verification/Descriptors.v ===== *)
(** * Descriptors: the system calls on open files ([userprog/syscall.c]).

    The open files of a process are the list [file_list] of its record, a map from
    descriptors to files ([fd_map]).  The operations, and what they do to that map, to the
    files and to the memory of the process. *)
From S2P Require Import Prelude Bytes State Instances Cache FreeMap Inode InodeData File Directory Filesys Pagedir Vm Swap Paging Task.
From Stdlib Require Import ZArith Lia.
From stdpp Require Import prelude gmap.

Open Scope Z_scope.

Section descriptors.
Context {D B W : Type} {dev : BlockDev D} {bm : Bitmap B} {io : BitmapIO D B} {mem : Memory}
  {sdev : BlockDev W} {pg : Paging}.
Abbreviation sys := (sys D B W).
Abbreviation K := (M sys).
Implicit Types (s : sys) (c p : nat) (x : child) (fd : Z).

(** ** The operations *)
Fixpoint find_fd fd (l : list (Z * nat)) : option nat :=
  match l with
  | [] => None
  | (n, p) :: rest => if n =? fd then Some p else find_fd fd rest
  end.
Definition find_file c fd : K (option nat) := x ← load_child c; mret (find_fd fd (ch_file_list x)).

Definition filesize fd : K Z :=
  c ← process;
  o ← find_file c fd;
  match o with None => mret (-1) | Some p => in_os (file_length p) end.

(** A key of the keyboard; [input_getc] waits for one. *)
Definition input_getc : K Z :=
  s ← get;
  match keyboard s with
  | [] => fail WouldBlock
  | x :: rest => modify (set_keyboard rest);; mret x
  end.

(** The key is assigned to the pointer, and not to what it points to. *)
Definition read fd (buffer length : Z) : K Z :=
  if fd =? 0 then
    for_up 0 (Z.to_nat length) (fun _ => input_getc;; mret tt);;
    mret (s32 length)
  else
    take_lock file_lock;;
    c ← process;
    o ← find_file c fd;
    match o with
    | None => give_lock file_lock;; mret (-1)
    | Some p =>
      b ← in_os (file_read p (s32 length));
      lift_vm (user_write buffer b);;
      give_lock file_lock;;
      mret (Z.of_nat (List.length b))
    end.

(** The buffer is read before the write to the file starts. *)
Definition write fd (buffer length : Z) : K Z :=
  if fd =? 1 then
    b ← lift_vm (user_read buffer (Z.to_nat length));
    print (Put b);;
    mret (s32 length)
  else
    take_lock file_lock;;
    c ← process;
    o ← find_file c fd;
    match o with
    | None => give_lock file_lock;; mret (-1)
    | Some p =>
      b ← lift_vm (user_read buffer (Z.to_nat length));
      n ← in_os (file_write p b (s32 length));
      give_lock file_lock;;
      mret n
    end.

(** [position] is unsigned, the offset of [file_seek] is not. *)
Definition seek fd (position : Z) : K unit :=
  take_lock file_lock;;
  c ← process;
  o ← find_file c fd;
  match o with
  | None => give_lock file_lock
  | Some p => in_os (file_seek p (s32 position));; give_lock file_lock
  end.

Definition tell fd : K Z :=
  c ← process;
  o ← find_file c fd;
  match o with None => mret (u32 (-1)) | Some p => n ← in_os (file_tell p); mret (u32 n) end.

(** [list_push_back (&process->file_list, &fe->elem)], with [process->next_fd++]. *)
Definition add_file c p : K Z :=
  x ← load_child c;
  n ← add_int (ch_next_fd x) 1;
  store_child c (fun x => set_ch_next_fd n (set_ch_files (ch_file_list x ++ [(ch_next_fd x, p)]) x));;
  mret (ch_next_fd x).

Definition open (name : list Z) : K Z :=
  take_lock file_lock;;
  f ← in_os (filesys_open name);
  match f with
  | None => give_lock file_lock;; mret (-1)
  | Some p =>
    lift_vm (access malloc_ok);;
    c ← process;
    fd ← add_file c p;
    give_lock file_lock;;
    mret fd
  end.

Definition remove (name : list Z) : K bool := in_os (filesys_remove name).

(** [list_remove (e)] of the first element with the descriptor. *)
Fixpoint remove_fd fd (l : list (Z * nat)) : list (Z * nat) :=
  match l with
  | [] => []
  | (n, p) :: rest => if n =? fd then rest else (n, p) :: remove_fd fd rest
  end.

Definition close fd : K unit :=
  c ← process;
  o ← find_file c fd;
  match o with
  | None => mret tt
  | Some p =>
    take_lock file_lock;;
    in_os (file_close (Some p));;
    store_child c (fun x => set_ch_files (remove_fd fd (ch_file_list x)) x);;
    give_lock file_lock
  end.

(** [while (!list_empty (&process->file_list)) ...], the list having the elements [l]. *)
Fixpoint close_list c (l : list (Z * nat)) : K unit :=
  match l with
  | [] => mret tt
  | (_, p) :: rest =>
    store_child c (set_ch_files rest);;
    in_os (file_close (Some p));;
    close_list c rest
  end.
Definition close_all : K unit :=
  c ← process; x ← load_child c; close_list c (ch_file_list x).

(** ** The map of the open files *)
Definition fd_map x : gmap Z nat := list_to_map (ch_file_list x).

(** Descriptors are handed out once, from 2 on. *)
Definition fd_ok x : Prop :=
  NoDup (ch_file_list x).*1 /\ Forall (fun e => 2 <= e.1 < ch_next_fd x) (ch_file_list x) /\
  2 <= ch_next_fd x.

Lemma find_fd_map fd (l : list (Z * nat)) : find_fd fd l = (list_to_map l : gmap Z nat) !! fd.
Proof.
  induction l as [|[n p] l IH]; simpl; [by rewrite lookup_empty|].
  destruct (Z.eqb_spec n fd) as [->|]; [by rewrite lookup_insert_eq|by rewrite lookup_insert_ne].
Qed.

Lemma remove_fd_keys fd l : (remove_fd fd l).*1 ⊆ l.*1.
Proof. induction l as [|[n p] l IH]; simpl; [done|]. destruct (n =? fd); set_solver. Qed.

Lemma remove_fd_map fd (l : list (Z * nat)) : NoDup l.*1 ->
  (list_to_map (remove_fd fd l) : gmap Z nat) = delete fd (list_to_map l) /\ NoDup (remove_fd fd l).*1.
Proof.
  induction l as [|[n p] l IH]; simpl; intros Hnd; [by rewrite delete_empty|].
  apply NoDup_cons in Hnd as [Hn Hnd]. destruct (Z.eqb_spec n fd) as [->|Hne].
  - split; [|done]. rewrite delete_insert_id; [done|]. by apply not_elem_of_list_to_map_1.
  - destruct (IH Hnd) as [E1 E2]. simpl. rewrite E1. split.
    + by rewrite delete_insert_ne.
    + apply NoDup_cons. split; [|done]. intros Hin. by apply Hn, (remove_fd_keys fd).
Qed.

Lemma remove_fd_forall fd (P : Z * nat -> Prop) l : Forall P l -> Forall P (remove_fd fd l).
Proof.
  induction 1 as [|[n p] l Hp Hl IH]; simpl; [done|]. destruct (n =? fd); [done|by constructor].
Qed.

(** Opening: the next descriptor is new. *)
Lemma fd_ok_add x p n : fd_ok x -> n = ch_next_fd x + 1 ->
  let x' := set_ch_next_fd n (set_ch_files (ch_file_list x ++ [(ch_next_fd x, p)]) x) in
  fd_ok x' /\ fd_map x' = <[ch_next_fd x := p]> (fd_map x) /\ fd_map x !! ch_next_fd x = None.
Proof.
  intros (Hnd & Hall & H2) ->. rewrite Forall_forall in Hall.
  assert (Hnew : ch_next_fd x ∉ (ch_file_list x).*1).
  { intros ([fd q] & Hfd & Hin)%list_elem_of_fmap. simpl in Hfd. pose proof (Hall _ Hin) as Hr. simpl in Hr. lia. }
  assert (Hnone : fd_map x !! ch_next_fd x = None) by by apply not_elem_of_list_to_map_1.
  split; [split_and!|split; [|done]]; simpl; [| |lia|].
  - rewrite fmap_app. apply NoDup_app. split_and!; [done| |apply NoDup_singleton].
    intros k Hk ->%list_elem_of_singleton. done.
  - apply Forall_app. split; [|by repeat constructor; simpl; lia].
    apply Forall_forall. intros [fd q] Hin. specialize (Hall _ Hin). simpl in *. lia.
  - unfold fd_map. simpl. rewrite list_to_map_app. simpl.
    rewrite <- insert_union_r, map_union_empty by done. done.
Qed.


(** The fields of the record that are not about open files. *)
Lemma fd_ok_remove x fd :
  fd_ok x -> fd_ok (set_ch_files (remove_fd fd (ch_file_list x)) x) /\
  fd_map (set_ch_files (remove_fd fd (ch_file_list x)) x) = delete fd (fd_map x).
Proof.
  intros (Hnd & Hall & H2). destruct (remove_fd_map fd (ch_file_list x) Hnd) as [E1 E2].
  split; [split_and!; [done| |done]|exact E1]. by apply remove_fd_forall.
Qed.

(** ** Runs that leave the threads and the records alone *)
Record same_tasks s s' : Prop := {
  st_threads : uthreads s' = uthreads s;
  st_children : children s' = children s;
  st_running : running (sy_vm s') = running (sy_vm s);
}.
#[export] Instance same_tasks_preorder : PreOrder same_tasks.
Proof. split; [by split|]. intros s1 s2 s3 [] []. split; congruence. Qed.

Lemma same_process s s' c x : same_tasks s s' -> process_is s c x -> process_is s' c x.
Proof. intros [H1 H2 H3] (t & Ht & Hc & Hx). exists t. unfold current_is in *. by rewrite H1, H2, H3. Qed.

Lemma same_in_os {A} (m : M (os D B) A) : preserves same_tasks (in_os m).
Proof.
  intros s a s'. unfold in_os, lift_vm, lift_os. destruct (m (vm_os (sy_vm s))); [|done]. by intros [= _ <-].
Qed.
Lemma same_take_lock l : preserves same_tasks (take_lock l).
Proof.
  intros s a s'. unfold take_lock, acquire, lift_fs, lift_vm, lift_os. destruct (lift _ _); [|done]. by intros [= _ <-].
Qed.
Lemma same_give_lock l : preserves same_tasks (give_lock l).
Proof.
  intros s a s'. unfold give_lock, release, lift_fs, lift_vm, lift_os. destruct (lift _ _); [|done]. by intros [= _ <-].
Qed.

Lemma process_ok s c x a s' : process_is s c x -> process s = Ok a s' -> a = c /\ s' = s.
Proof.
  intros (t & Ht & Hc & _) H. unfold process, current, running_thread, load_uthread in H. ok_split H.
  unfold current_is in Ht. split; congruence.
Qed.
Lemma load_child_ok s c x a s' : children s !! c = Some x -> load_child c s = Ok a s' -> a = x /\ s' = s.
Proof. intros Hx H. unfold load_child in H. ok_split H. split; congruence. Qed.
Lemma find_file_ok s c x fd a s' : children s !! c = Some x ->
  find_file c fd s = Ok a s' -> a = fd_map x !! fd /\ s' = s.
Proof.
  intros Hx H. unfold find_file in H. apply bind_ok in H as (y & s1 & R & H).
  destruct (load_child_ok s c x y s1 Hx R) as [-> ->]. ok_split H. split; [|done]. apply find_fd_map.
Qed.

Lemma store_child_ok s c x g a s' : children s !! c = Some x ->
  store_child c g s = Ok a s' -> s' = set_children (<[c := g x]> (children s)) s.
Proof.
  intros Hx H. unfold store_child in H. apply bind_ok in H as (y & s1 & R & H).
  destruct (load_child_ok s c x y s1 Hx R) as [-> ->]. by ok_split H.
Qed.

Lemma process_stored s c x y : process_is s c x -> process_is (set_children (<[c := y]> (children s)) s) c y.
Proof. intros (t & Ht & Hc & Hx). exists t. split; [done|]. split; [done|]. apply lookup_insert_eq. Qed.

Lemma add_file_ok s c x p r s' : process_is s c x -> fd_ok x -> add_file c p s = Ok r s' ->
  exists x', process_is s' c x' /\ fd_ok x' /\ 2 <= r /\ fd_map x !! r = None /\
    fd_map x' = <[r := p]> (fd_map x).
Proof.
  intros Hp Hok H. pose proof Hp as (t & _ & _ & Hx). unfold add_file in H.
  apply bind_ok in H as (y & s1 & R & H). destruct (load_child_ok s c x y s1 Hx R) as [-> ->].
  apply bind_ok in H as (n & s1 & R1 & H). destruct (add_int_ok _ _ _ _ _ R1) as [Hn ->].
  apply bind_ok in H as ([] & s1 & R2 & H). apply (store_child_ok s c x) in R2; [subst s1|done]. ok_split H.
  destruct (fd_ok_add x p n Hok Hn) as (F1 & F2 & F3).
  eexists. split; [eapply process_stored; eassumption|]. split_and!; [exact F1|apply Hok|exact F3|exact F2].
Qed.

Lemma open_ok s c x name r s' : process_is s c x -> fd_ok x -> open name s = Ok r s' ->
  exists x', process_is s' c x' /\ fd_ok x' /\
    ((r = -1 /\ x' = x) \/ (2 <= r /\ fd_map x !! r = None /\ exists p, fd_map x' = <[r := p]> (fd_map x))).
Proof.
  intros Hp Hok H. unfold open in H. apply bind_ok in H as ([] & s1 & R1 & H).
  apply same_take_lock in R1. apply bind_ok in H as (f & s2 & R2 & H). apply same_in_os in R2.
  assert (Hp2 : process_is s2 c x) by (eapply same_process, same_process; eauto).
  destruct f as [p|].
  - apply bind_ok in H as ([] & s3 & R3 & H). unfold lift_vm, access in R3.
    destruct malloc_ok; [|done]. injection R3 as R3. assert (s3 = s2) as -> by by destruct s2.
    apply bind_ok in H as (c' & s3 & R4 & H). destruct (process_ok s2 c x c' s3 Hp2 R4) as [-> ->].
    apply bind_ok in H as (fd & s3 & R5 & H).
    destruct (add_file_ok s2 c x p fd s3 Hp2 Hok R5) as (x' & Hp3 & Hok' & H2 & Hn & Hm).
    apply bind_ok in H as ([] & s4 & R6 & H). apply same_give_lock in R6. ok_split H.
    exists x'. split; [by eapply same_process|]. split; [done|]. right. eauto.
  - apply bind_ok in H as ([] & s3 & R3 & H). apply same_give_lock in R3. ok_split H.
    exists x. split; [by eapply same_process|]. split; [done|]. by left.
Qed.

Lemma close_ok s c x fd r s' : process_is s c x -> fd_ok x -> close fd s = Ok r s' ->
  exists x', process_is s' c x' /\ fd_ok x' /\ fd_map x' = delete fd (fd_map x).
Proof.
  intros Hp Hok H. pose proof Hp as (t & _ & _ & Hx). unfold close in H.
  apply bind_ok in H as (c' & s1 & R1 & H). destruct (process_ok s c x c' s1 Hp R1) as [-> ->].
  apply bind_ok in H as (o & s1 & R2 & H). destruct (find_file_ok s c x fd o s1 Hx R2) as [-> ->].
  destruct (fd_map x !! fd) as [p|] eqn:Hfd.
  - apply bind_ok in H as ([] & s1 & R3 & H). apply same_take_lock in R3.
    apply bind_ok in H as ([] & s2 & R4 & H). apply same_in_os in R4.
    assert (Hp2 : process_is s2 c x) by (eapply same_process, same_process; eauto).
    pose proof Hp2 as (_ & _ & _ & Hx2).
    apply bind_ok in H as ([] & s3 & R5 & H). apply (store_child_ok s2 c x) in R5; [subst s3|done].
    apply same_give_lock in H. destruct (fd_ok_remove x fd Hok) as [F1 F2].
    eexists. split; [eapply same_process; [exact H|eapply process_stored; eassumption]|]. done.
  - ok_split H. exists x. split; [done|]. split; [done|]. by rewrite delete_id.
Qed.

Lemma close_list_ok s c x r s' l : process_is s c x -> ch_file_list x = l -> fd_ok x ->
  close_list c l s = Ok r s' -> exists x', process_is s' c x' /\ fd_ok x' /\ fd_map x' = ∅.
Proof.
  revert s x. induction l as [|[fd p] l IH]; intros s x Hp Hl Hok H; cbn [close_list] in H.
  - ok_split H. exists x. split; [done|]. split; [done|]. unfold fd_map. by rewrite Hl.
  - pose proof Hp as (_ & _ & _ & Hx). apply bind_ok in H as ([] & s1 & R1 & H).
    apply (store_child_ok s c x) in R1; [subst s1|done]. apply bind_ok in H as ([] & s2 & R2 & H).
    apply same_in_os in R2. eapply IH; [eapply same_process; [exact R2|eapply process_stored; eassumption]|done| |exact H].
    destruct Hok as (Hnd & Hall & H2). rewrite Hl in Hnd, Hall. simpl in Hnd.
    apply NoDup_cons in Hnd as [_ Hnd]. apply Forall_cons in Hall as [_ Hall]. done.
Qed.

(** C23: The open files of a process are a map from descriptors to files, and the system
    calls are its operations, whatever the file system does below them, whenever they
    return: [find_file] is lookup; [open] fails and changes nothing, or inserts a file
    under a descriptor that was not in use (never 0 or 1); [close] deletes the descriptor
    alone; [close_all] leaves the map empty. *)
Theorem descriptors_refine_map s c x (Hp : process_is s c x) (Hok : fd_ok x) :
  (forall fd, find_file c fd s = Ok (fd_map x !! fd) s) /\
  (forall name r s', open name s = Ok r s' -> exists x', process_is s' c x' /\ fd_ok x' /\
     ((r = -1 /\ x' = x) \/ (2 <= r /\ fd_map x !! r = None /\ exists p, fd_map x' = <[r := p]> (fd_map x)))) /\
  (forall fd r s', close fd s = Ok r s' ->
     exists x', process_is s' c x' /\ fd_ok x' /\ fd_map x' = delete fd (fd_map x)) /\
  (forall r s', close_all s = Ok r s' -> exists x', process_is s' c x' /\ fd_ok x' /\ fd_map x' = ∅).
Proof.
  split_and!.
  - intros fd. destruct Hp as (_ & _ & _ & Hx). unfold find_file, load_child, mbind, M_bind, get, deref.
    rewrite Hx. unfold mret, M_ret. by rewrite find_fd_map.
  - intros name r s'. by apply open_ok.
  - intros fd r s'. by apply close_ok.
  - intros r s' H. pose proof Hp as (_ & _ & _ & Hx). unfold close_all in H.
    apply bind_ok in H as (c' & s1 & R1 & H). destruct (process_ok s c x c' s1 Hp R1) as [-> ->].
    apply bind_ok in H as (y & s1 & R2 & H). destruct (load_child_ok s c x y s1 Hx R2) as [-> ->].
    by eapply close_list_ok.
Qed.


(** ** Reading and writing through a descriptor *)
Context {dlaws : BlockDevLaws D} {pl : PagingLaws}.

(** The descriptor [fd] of the running process is the open file [f] at [p], on the inode
    [n], and nobody holds [file_lock]. *)
Record fd_at s fd p (f : file) (n : inode) : Prop := {
  fa_process : exists c x, process_is s c x /\ fd_map x !! fd = Some p;
  fa_at : file_at p f n (vm_os (sy_vm s));
  fa_unlocked : file_lock ∉ locks_of (sy_vm s);
}.

Lemma with_file_lock s p f n : file_at p f n (vm_os (sy_vm s)) ->
  let x := vm_os (with_locks ({[file_lock]} ∪ locks_of (sy_vm s)) (sy_vm s)) in
  file_at p f n x /\ file_bytes n x = file_bytes n (vm_os (sy_vm s)).
Proof. intros Hf. apply (locks_os_same ({[file_lock]} ∪ locks_of (sy_vm s))); [set_solver..|done]. Qed.

(** The body of a call between [lock_acquire (&file_lock)] and [lock_release]. *)
Lemma wp_with_file {A} (body : nat -> K A) fd p f n s c x (Q : A -> sys -> Prop) none :
  process_is s c x -> fd_map x !! fd = Some p -> fd_at s fd p f n ->
  let l := {[file_lock]} ∪ locks_of (sy_vm s) in
  wp (body p) Q (set_vm (with_locks l (sy_vm s)) s) ->
  wp (take_lock file_lock;; c ← process; o ← find_file c fd;
      match o with None => none | Some p => body p end) Q s.
Proof.
  intros Hp Hfd [_ _ Hl] l HQ. apply wp_bind, wp_take_lock; [done|].
  assert (Hp' : process_is (set_vm (with_locks l (sy_vm s)) s) c x)
    by (eapply same_process; [|exact Hp]; by split).
  apply wp_bind. eapply wp_process; [exact Hp'|]. pose proof Hp' as (_ & _ & _ & Hx).
  apply wp_bind, wp_bind. eapply wp_load_child; [exact Hx|]. apply wp_ret.
  change (find_fd fd (ch_file_list x)) with (find_fd fd (ch_file_list x)). rewrite find_fd_map. fold (fd_map x).
  by rewrite Hfd.
Qed.

Lemma in_locks s : file_lock ∉ locks_of (sy_vm s) ->
  ({[file_lock]} ∪ locks_of (sy_vm s)) ∖ {[file_lock]} = locks_of (sy_vm s).
Proof. apply locks_back. Qed.

(** The state after the open files become [y]. *)
Definition with_os (y : os D B) s : sys := set_vm (set_os y (sy_vm s)) s.

Lemma fd_at_with_os s fd p f n f' n' y : fd_at s fd p f n -> file_at p f' n' y ->
  held (os_fs y) = locks_of (sy_vm s) -> fd_at (with_os y s) fd p f' n'.
Proof.
  intros [(c & x & Hp & Hfd) _ Hl] Hf Hh. split; [|done|].
  - exists c, x. split; [|done]. eapply same_process; [|exact Hp]. by split.
  - unfold locks_of, with_os. simpl. by rewrite Hh.
Qed.


(** Giving the lock back leaves the open file as it is. *)
Lemma unlocked_os s (y : os D B) p f n : file_lock ∉ locks_of (sy_vm s) ->
  held (os_fs y) = {[file_lock]} ∪ locks_of (sy_vm s) -> file_at p f n y ->
  let z := set_fs (set_held (locks_of (sy_vm s)) (os_fs y)) y in
  file_at p f n z /\ file_bytes n z = file_bytes n y.
Proof. intros Hl Hh Hf. apply (locks_os_same (locks_of (sy_vm s)) y); [rewrite Hh; set_solver..|done]. Qed.

(** [file_lock] is taken, the open files become [y] and the page at [k] gets the bytes
    [b], and the lock is given back. *)
Lemma wp_release_file s (y : os D B) k b (Q : unit -> sys -> Prop) :
  file_lock ∉ locks_of (sy_vm s) -> held (os_fs y) = {[file_lock]} ∪ locks_of (sy_vm s) ->
  Q tt (with_os (set_fs (set_held (locks_of (sy_vm s)) (os_fs y)) y) (set_vm (with_page k b (sy_vm s)) s)) ->
  wp (give_lock file_lock) Q (set_vm (with_page k b (set_os y (sy_vm s))) s).
Proof.
  intros Hl Hh HQ. apply wp_give_lock; [unfold locks_of; simpl; rewrite Hh; set_solver|].
  revert HQ. unfold with_os, with_locks, locks_of. simpl. by rewrite Hh, locks_back.
Qed.

Lemma wp_write fd p f n s u k b w o len (Q : Z -> sys -> Prop) :
  fd_at s fd p f n -> i_read_cnt n = 0 -> i_deny_write_cnt n = 0 -> fd <> 1 ->
  mapped_page (sy_vm s) u k b w -> 0 <= o -> 0 <= len -> o + len <= PGSIZE ->
  f_pos f + len <= id_length (i_data n) ->
  (forall y, file_at p (set_pos (f_pos f + len) f) n y ->
     file_bytes n y = splice (f_pos f) (slice o len b) (file_bytes n (vm_os (sy_vm s))) ->
     held (os_fs y) = locks_of (sy_vm s) -> Q len (with_os y s)) ->
  wp (write fd (u + o) len) Q s.
Proof.
  intros Hf Hr Hd H1 Hm Ho Hlen Hend Hmax HQ. pose proof Hf as [(c & x & Hp & Hfd) Hat Hl].
  unfold write. apply Z.eqb_neq in H1 as ->.
  destruct (with_file_lock s p f n Hat) as [Hat1 Eb]. pose proof (mg_length _ _ _ _ _ Hm) as Hbl.
  assert (Hsl : Z.of_nat (length (slice o len b)) = len) by (rewrite length_slice; lia).
  eapply (wp_with_file (fun p => b ← lift_vm (user_read (u + o) (Z.to_nat len));
    m ← in_os (file_write p b (s32 len)); give_lock file_lock;; mret m)); [exact Hp|exact Hfd|exact Hf|].
  apply wp_bind, wp_lift_vm. eapply (wp_user_read _ u k b w); [|done|lia|].
  { destruct Hm. by split. }
  rewrite Z2Nat.id by done. apply wp_bind, wp_in_os.
  rewrite s32_small by (unfold PGSIZE, INT_MAX in *; lia).
  eapply wp_file_write; [exact Hat1|done..|lia|]. intros y f' Hy Hby Hh. simpl in Hh.
  apply wp_bind. change (set_vm _ _) with (set_vm (set_os y (sy_vm s)) s).
  rewrite <- (with_page_same k b (set_os y (sy_vm s))) by apply Hm.
  apply wp_release_file; [done|done|]. apply wp_ret. rewrite with_page_same by apply Hm.
  replace (set_vm (sy_vm s) s) with s by by destruct s.
  destruct (unlocked_os s y p f' n Hl Hh Hy) as [Hz Ez]. apply HQ; [exact Hz| |done].
  rewrite Ez. etrans; [exact Hby|]. f_equal. unfold slice at 1. rewrite drop_0. apply take_ge. lia.
Qed.

Lemma wp_read fd p f n s u k b o len (Q : Z -> sys -> Prop) :
  fd_at s fd p f n -> fd <> 0 ->
  mapped_page (sy_vm s) u k b true -> 0 <= o -> 0 <= len -> o + len <= PGSIZE ->
  (forall y, let bytes := slice (f_pos f) len (file_bytes n (vm_os (sy_vm s))) in
     file_at p (set_pos (f_pos f + Z.of_nat (length bytes)) f) n y ->
     file_bytes n y = file_bytes n (vm_os (sy_vm s)) -> held (os_fs y) = locks_of (sy_vm s) ->
     Q (Z.of_nat (length bytes)) (with_os y (set_vm (with_page k (splice o bytes b) (sy_vm s)) s))) ->
  wp (read fd (u + o) len) Q s.
Proof.
  intros Hf H1 Hm Ho Hlen Hend HQ. pose proof Hf as [(c & x & Hp & Hfd) Hat Hl].
  unfold read. apply Z.eqb_neq in H1 as ->. cbn zeta in HQ.
  destruct (with_file_lock s p f n Hat) as [Hat1 Eb]. set (bytes := slice (f_pos f) len _) in HQ.
  eapply (wp_with_file (fun p => b ← in_os (file_read p (s32 len)); lift_vm (user_write (u + o) b);;
    give_lock file_lock;; mret (Z.of_nat (length b)))); [exact Hp|exact Hfd|exact Hf|].
  apply wp_bind, wp_in_os. rewrite s32_small by (unfold PGSIZE, INT_MAX in *; lia).
  set (x0 := vm_os (with_locks ({[file_lock]} ∪ locks_of (sy_vm s)) (sy_vm s))) in *.
  match goal with |- wp _ _ ?y => change y with x0 end.
  eapply wp_file_read; [exact Hat1|]. rewrite Eb. fold bytes. cbv zeta. intros y Hy Hby _ Hq.
  pose proof (sr_held _ _ (q_rest _ _ Hq)) as Hh. simpl in Hh. change (set_vm _ _) with (set_vm (set_os y (sy_vm s)) s).
  apply wp_bind, wp_lift_vm. assert (Hbl : Z.of_nat (length bytes) <= len).
  { unfold bytes, slice. rewrite length_take. lia. }
  eapply (wp_user_write _ u k b); [|done|lia|].
  { destruct Hm. by split. }
  change (set_vm _ _) with (set_vm (with_page k (splice o bytes b) (set_os y (sy_vm s))) s).
  apply wp_bind, wp_release_file; [done|done|]. apply wp_ret.
  destruct (unlocked_os s y p _ n Hl Hh Hy) as [Hz Ez]. apply HQ; [exact Hz| |done].
  by rewrite Ez.
Qed.

Lemma wp_seek fd p f n s pos (Q : unit -> sys -> Prop) :
  fd_at s fd p f n -> 0 <= pos <= INT_MAX ->
  (forall y, file_at p (set_pos pos f) n y -> file_bytes n y = file_bytes n (vm_os (sy_vm s)) ->
     held (os_fs y) = locks_of (sy_vm s) -> Q tt (with_os y s)) ->
  wp (seek fd pos) Q s.
Proof.
  intros Hf Hpos HQ. pose proof Hf as [(c & x & Hp & Hfd) Hat Hl].
  eapply (wp_with_file (fun p => in_os (file_seek p (s32 pos));; give_lock file_lock));
    [exact Hp|exact Hfd|exact Hf|].
  rewrite s32_small by done. apply wp_bind, wp_in_os, wp_bind, wp_assert; [zcase|].
  destruct (with_file_lock s p f n Hat) as [Hat1 Eb]. eapply wp_store_file; [apply Hat1|].
  apply wp_give_lock; [unfold locks_of; simpl; set_solver|].
  match goal with |- Q _ ?t => set (st := t) end.
  set (y := set_files (<[p := set_pos pos f]> (os_files (vm_os (sy_vm s)))) (vm_os (sy_vm s))).
  assert (st = with_os y s) as ->.
  { unfold st, with_os, with_locks, locks_of, y. simpl. rewrite locks_back by done.
    by destruct s as [[[[]]]]. }
  destruct Hat as [A1 A2 A3 A4 A5 A6 A7]. apply HQ; [|done|done]. split; simpl; try done.
  by rewrite lookup_insert_eq.
Qed.

(** C24: Data goes through the system calls unharmed.  A process writes [len] bytes of its
    memory inside an open file through a descriptor, seeks back and reads into another
    place of its memory: every call returns, [write] and [read] with [len], and the bytes
    there are the ones written; [file_lock] is free again and the position is behind them. *)
Theorem write_seek_read s fd p f n u1 k1 b1 w o1 u2 k2 b2 o2 len
    (Hf : fd_at s fd p f n) (Hr : i_read_cnt n = 0) (Hd : i_deny_write_cnt n = 0)
    (Hfd : 2 <= fd) (Hlen : 0 <= len) (Hmax : f_pos f + len <= id_length (i_data n))
    (Hm1 : mapped_page (sy_vm s) u1 k1 b1 w) (Ho1 : 0 <= o1) (He1 : o1 + len <= PGSIZE)
    (Hm2 : mapped_page (sy_vm s) u2 k2 b2 true) (Ho2 : 0 <= o2) (He2 : o2 + len <= PGSIZE) :
  wp (a ← write fd (u1 + o1) len; seek fd (f_pos f);; b ← read fd (u2 + o2) len; mret (a, b))
    (fun r s' => r = (len, len) /\ fd_at s' fd p (set_pos (f_pos f + len) f) n /\
       data (vm_mem (sy_vm s')) k2 = Some (splice o2 (slice o1 len b1) b2)) s.
Proof.
  pose proof (fa_pos _ _ _ _ (fa_at _ _ _ _ _ Hf)) as Hpos. pose proof (mg_length _ _ _ _ _ Hm1) as Hb1.
  assert (Hsl : Z.of_nat (length (slice o1 len b1)) = len) by (rewrite length_slice; lia).
  apply wp_bind. eapply wp_write; [exact Hf|done|done|lia|exact Hm1|done..|]. intros y1 Y1 E1 L1.
  assert (Hf1 : fd_at (with_os y1 s) fd p (set_pos (f_pos f + len) f) n) by (by eapply fd_at_with_os).
  apply wp_bind. eapply wp_seek; [exact Hf1|done|]. intros y2 Y2 E2 L2.
  change (with_os y2 (with_os y1 s)) with (with_os y2 s).
  change (file_at p (set_pos (f_pos f) f) n y2) in Y2.
  assert (Hf2 : fd_at (with_os y2 s) fd p (set_pos (f_pos f) f) n).
  { eapply fd_at_with_os; [exact Hf|exact Y2|]. rewrite L2. exact L1. }
  apply wp_bind. eapply wp_read; [exact Hf2|lia| |done..|].
  { destruct Hm2. split; [done..]. }
  intros y3 bytes Y3 E3 L3. assert (Hbytes : bytes = slice o1 len b1).
  { unfold bytes. simpl. rewrite E2. change (vm_os (sy_vm (with_os y1 s))) with y1. rewrite E1.
    rewrite <- Hsl at 1. apply slice_splice_same; [lia|].
    unfold file_bytes. rewrite length_content. pose proof (fa_wf _ _ _ _ (fa_at _ _ _ _ _ Hf)). lia. }
  apply wp_ret. rewrite Hbytes, Hsl. split; [done|]. split.
  - simpl in Y3. rewrite Hbytes, Hsl in Y3.
    change (fd_at (with_os y3 (set_vm (with_page k2 (splice o2 (slice o1 len b1) b2) (sy_vm s)) s)) fd p (set_pos (f_pos f + len) f) n).
    destruct Hf as [(c & x & Hp & Hx) _ Hl]. split; [|exact Y3|].
    + exists c, x. split; [|done]. eapply same_process; [|exact Hp]. by split.
    + unfold locks_of. simpl. rewrite L3. unfold locks_of, with_os. simpl. rewrite L2. unfold locks_of. simpl.
      by rewrite L1.
  - etrans; [apply (data_with_page k2 _ k2 (sy_vm s))|by rewrite decide_True].
Qed.


(** ** Where the calls go wrong *)

(** A system call can stop the kernel.  [seek] converts its unsigned position to a
    signed offset: from 2^31 on it is negative, and the assertion of [file_seek] fails, for
    every open descriptor. *)
Theorem seek_far_panics s fd p f n position (Hf : fd_at s fd p f n) (Hpos : 2 ^ 31 <= position < 2 ^ 32) :
  seek fd position s = Fail Panic.
Proof.
  pose proof Hf as [(c & x & Hp & Hfd) Hat Hl].
  assert (Hneg : s32 position < 0).
  { unfold s32. rewrite u32_small by (unfold UINT32; lia). unfold INT_MAX, UINT32. zcase. }
  unfold seek. apply fails_rest, wp_take_lock; [done|]. apply fails_rest.
  eapply wp_process; [eapply same_process; [|exact Hp]; by split|]. apply fails_rest.
  destruct Hp as (_ & _ & _ & Hx). apply wp_bind. eapply wp_load_child; [exact Hx|]. apply wp_ret.
  rewrite find_fd_map. fold (fd_map x). rewrite Hfd. apply fails_head.
  unfold in_os, lift_vm, lift_os, file_seek, mbind, M_bind, assert.
  destruct (Z.leb_spec 0 (s32 position)); [lia|done].
Qed.

Lemma read_keys n keys rest lo s : keyboard s = keys ++ rest -> length keys = n ->
  for_up lo n (fun _ => input_getc;; mret tt) s = Ok tt (set_keyboard rest s).
Proof.
  revert keys lo s. induction n as [|n IH]; intros [|k keys] lo s Hk Hn; try done; simpl in *.
  - unfold mret, M_ret. rewrite <- Hk. by destruct s.
  - unfold input_getc, mbind, M_bind, get. rewrite Hk. unfold modify, mret, M_ret.
    rewrite (IH keys _ (set_keyboard (keys ++ rest) s)); [by destruct s|done|lia].
Qed.

(** Keyboard input is lost.  [read] from descriptor 0 takes the keys and returns their
    number, and nothing else of the state changes: no byte of the process's buffer is
    written, because every key is assigned to the pointer. *)
Theorem keyboard_input_lost s buffer keys rest (Hk : keyboard s = keys ++ rest)
    (Hn : Z.of_nat (length keys) <= INT_MAX) :
  read 0 buffer (Z.of_nat (length keys)) s = Ok (Z.of_nat (length keys)) (set_keyboard rest s).
Proof.
  unfold read. simpl. rewrite Nat2Z.id. unfold mbind, M_bind.
  rewrite (read_keys (length keys) keys rest) by done. by rewrite s32_small by lia.
Qed.
End descriptors.

(** ** A process with one open file, descriptor 2 *)
Definition task_child : child := Child 1 false false true 0 [(2, 0%nat)] 0 0 3.
Definition task_thread : uthread := UThread 1 [97] 0 (Some 0%nat) [] None (code_page + 8192) [] [] 1 None None.
Definition task0 : sys disk bits disk :=
  Sys paged {[0%nat := task_thread]} {[0%nat := task_child]} 1 [] [104; 105; 10] 2.

Lemma task_process : process_is task0 0 task_child.
Proof. by exists task_thread. Qed.
Lemma task_fd_ok : fd_ok task_child.
Proof. split_and!; [apply NoDup_singleton|by repeat constructor|done]. Qed.

#[local] Existing Instance memory_available.

Lemma task_fd : fd_at task0 2 0 (File 0 0 false) (two_block_inode 0).
Proof.
  split; [|by apply open_file_at|by apply not_elem_of_empty].
  exists 0%nat, task_child. split; [exact task_process|reflexivity].
Qed.

Lemma task_page : mapped_page (sy_vm task0) code_page user_frame stack_bytes true.
Proof.
  split; try done. exists (Process (Some user_dir) [0%nat; 1%nat]), user_dir.
  split; [done|]. split; [done|]. intros o Ho.
  assert (Hc : pg_ofs code_page = 0) by by vm_compute.
  destruct (mapping_offset vm_mem0 user_dir code_page o PTE_W Hc Ho) as [E1 E2]. simpl vm_mem.
  rewrite E1. split; [by vm_compute|]. intros _. rewrite E2. by vm_compute.
Qed.

Lemma descriptors_refine_map_witness :
  (forall fd, find_file 0 fd task0 = Ok (fd_map task_child !! fd) task0) /\
  (exists s', close 2 task0 = Ok tt s' /\ exists x', process_is s' 0 x' /\ fd_map x' !! 2 = None).
Proof.
  pose proof (descriptors_refine_map task0 0 task_child task_process task_fd_ok) as (H1 & _ & H3 & _).
  split; [exact H1|]. assert (Hrun : exists s', close 2 task0 = Ok tt s') by (eexists; vm_compute; reflexivity).
  destruct Hrun as [s' Hs']. exists s'. split; [done|]. destruct (H3 2 tt s' Hs') as (x' & Hp & _ & Hm).
  exists x'. split; [done|]. by rewrite Hm, lookup_delete_eq.
Defined.

Lemma write_seek_read_witness :
  wp (a ← write 2 (code_page + 0) 8; seek 2 0;; b ← read 2 (code_page + 100) 8; mret (a, b))
    (fun r s' => r = (8, 8) /\ data (vm_mem (sy_vm s')) user_frame = Some stack_bytes) task0.
Proof.
  eapply wp_mono.
  - apply (write_seek_read task0 2 0 (File 0 0 false) (two_block_inode 0) code_page user_frame stack_bytes true 0
      code_page user_frame stack_bytes 100 8 task_fd);
      [reflexivity|reflexivity|lia|lia|simpl; lia|apply task_page|lia|unfold PGSIZE; lia|apply task_page|lia|unfold PGSIZE; lia].
  - intros r s' (-> & _ & H). split; [done|]. rewrite H. vm_compute. reflexivity.
Defined.

Lemma seek_far_panics_witness : seek 2 (2 ^ 31) task0 = Fail Panic.
Proof. apply (seek_far_panics task0 2 0 (File 0 0 false) (two_block_inode 0) (2 ^ 31) task_fd). lia. Defined.

Lemma keyboard_input_lost_witness :
  read 0 code_page 2 task0 = Ok 2 (set_keyboard [10] task0).
Proof. apply (keyboard_input_lost task0 code_page [104; 105] [10]); [reflexivity|vm_compute; discriminate]. Defined.
