(* ===== verification/Mmap.v ===== *)
(** * Mmap: files mapped into memory ([mmap], [munmap], [munmap_all] of
    [userprog/syscall.c]).

    A mapping is a list of elements, one for every page, with the number of the mapping.
    The theorems: [mmap] extends the address space by the pages of the file
    ([mmap_maps_file]), and where mapping and unmapping go wrong. *)
From S2P Require Import Prelude Bytes State Instances Cache FreeMap Inode InodeData InodeFaults InodeLife File Directory Filesys Pagedir Vm Swap Paging Reload Pages Task Descriptors.
From Stdlib Require Import ZArith Lia.
From stdpp Require Import prelude gmap.

Open Scope Z_scope.

Section mmap.
Context {D B W : Type} {dev : BlockDev D} {bm : Bitmap B} {io : BitmapIO D B} {mem : Memory}
  {sdev : BlockDev W} {pg : Paging}.
Abbreviation sys := (sys D B W).
Abbreviation vm := (vm D B W).
Abbreviation K := (M sys).
Implicit Types (s : sys) (v : vm) (p q : nat).

(** ** The operations *)

(** [upage >= PHYS_BASE || upage < CODE_BASE || pg_round_down (upage) != upage] *)
Definition check_mmap_addr (upage : Z) : K bool :=
  if (PHYS_BASE <=? upage) || (upage <? CODE_BASE) || negb (pg_round_down upage =? upage) then mret false
  else o ← lift_vm (find_spt upage); mret (bool_decide (o = None)).

(** A loop over [mmap_file_list]: the first file with the same inode, and its index. *)
Fixpoint find_mapped_from (n : nat) (file : nat) (l : list nat) : K (option (nat * nat)) :=
  match l with
  | [] => mret None
  | q :: rest =>
    x ← in_os (load_file q);
    y ← in_os (load_file file);
    if (f_inode x =? f_inode y)%nat then mret (Some (n, q)) else find_mapped_from (S n) file rest
  end.
Definition find_mapped_file (file : nat) : K (option (nat * nat)) :=
  t ← current; find_mapped_from 0 file (ut_mmap_files t).
(** [list_remove (&fe->elem)] for the element with the index [n]. *)
Definition remove_mapped (n : nat) : K unit :=
  store_current (fun t => set_ut_mmap_files (delete n (ut_mmap_files t)) t).

(** The page of an element: written back when it is dirty, then unmapped and freed. *)
Definition unmap_page (m : mmap_elem) : M vm unit :=
  p ← deref (mm_spt m);
  sp ← load_spt p;
  e ← load_frame (sp_frame sp);
  when (fr_load e)
    (pd ← current_pagedir;
     d ← lift_mem (pagedir_is_dirty pd (sp_upage sp));
     when d
       (q ← deref (fr_file e);
        c ← load_page (fr_kpage e);
        lift_os (file_write_at q c (s32 (fr_read_bytes e)) (fr_ofs e));;
        mret tt);;
     pd ← current_pagedir;
     lift_mem (pagedir_clear_page pd (sp_upage sp)));;
  spt_free p;;
  frame_free (sp_frame sp).

(** The walk over [mmap_list]: [kept] are the elements passed, [rest] those to come. *)
Fixpoint munmap_from (mapid : Z) (kept rest : list mmap_elem) : K unit :=
  match rest with
  | [] => mret tt
  | m :: rest =>
    if mapid =? mm_mapid m then
      lift_vm (unmap_page m);;
      store_current (set_ut_mmap_list (kept ++ rest));;
      fe ← find_mapped_file (mm_file m);
      match fe with
      | Some (n, q) => in_os (file_close (Some q));; remove_mapped n
      | None => mret tt
      end;;
      munmap_from mapid kept rest
    else munmap_from mapid (kept ++ [m]) rest
  end.
Definition munmap (mapid : Z) : K unit := t ← current; munmap_from mapid [] (ut_mmap_list t).

(** [while (!list_empty (&cur->mmap_list)) ...], the list having the elements [l]; the
    files are taken from their list, and stay open. *)
Fixpoint munmap_list (l : list mmap_elem) : K unit :=
  match l with
  | [] => mret tt
  | m :: rest =>
    store_current (set_ut_mmap_list rest);;
    lift_vm (unmap_page m);;
    fe ← find_mapped_file (mm_file m);
    match fe with Some (n, _) => remove_mapped n | None => mret tt end;;
    munmap_list rest
  end.
Definition munmap_all : K unit := t ← current; munmap_list (ut_mmap_list t).

(** [page_read_bytes] *)
Definition page_bytes (read_bytes : Z) : Z := if read_bytes <? PGSIZE then read_bytes else PGSIZE.

(** The loop of [mmap]; false when [install_frame] failed.  [zero_bytes] starts at 0 and
    only gets smaller. *)
Fixpoint mmap_loop (fuel : nat) (e0 : frame_elem) (mapid : Z) (file : nat) (writable : bool)
    (upage ofs read_bytes zero_bytes : Z) : K bool :=
  if (0 <? read_bytes) || (0 <? zero_bytes) then
    match fuel with
    | O => fail Hang
    | S fuel =>
      let n := page_bytes read_bytes in
      success ← lift_vm (install_frame e0 upage 0 writable (Some file) MMAP ofs n);
      if success : bool then
        lift_vm (access malloc_ok);;
        o ← lift_vm (find_spt upage);
        x ← in_os (load_file file);
        store_current (fun t =>
          set_ut_mmap_list (ut_mmap_list t ++ [MmapElem mapid file (negb (f_deny_write x)) o]) t);;
        mmap_loop fuel e0 mapid file writable (u32 (upage + PGSIZE)) (s32 (ofs + n))
          (read_bytes - n) (s32 (zero_bytes - (PGSIZE - n)))
      else munmap mapid;; mret false
    end
  else mret true.

(** [thread_current ()->next_mapid++] *)
Definition new_mapid : K Z :=
  t ← current;
  n ← add_int (ut_next_mapid t) 1;
  store_current (set_ut_next_mapid n);;
  mret (ut_next_mapid t).

(** On the early returns after [lock_acquire] the lock is not given back. *)
Definition mmap (e0 : frame_elem) (fd upage : Z) : K Z :=
  ok ← check_mmap_addr upage;
  if negb ok then mret (-1)
  else
    take_lock file_lock;;
    length ← filesize fd;
    if length <=? 0 then mret (-1)
    else
      c ← process;
      o ← find_file c fd;
      mmap_file ← deref o;
      r ← in_os (file_reopen mmap_file);
      match r with
      | None => mret (-1)
      | Some file =>
        in_os (file_seek file 0);;
        mapid ← new_mapid;
        x ← in_os (load_file file);
        ok ← mmap_loop (S (Z.to_nat (length / PGSIZE))) e0 mapid file (negb (f_deny_write x)) upage 0 length 0;
        if negb ok then mret (-1)
        else
          lift_vm (access malloc_ok);;
          store_current (fun t => set_ut_mmap_files (ut_mmap_files t ++ [file]) t);;
          give_lock file_lock;;
          mret mapid
      end.


(** ** The page of an address *)
Context {dlaws : BlockDevLaws D} {slaws : BlockDevLaws W} {blaws : BitmapLaws B} {pl : PagingLaws}.

Lemma wp_find_spt_from l v pd u (Q : option nat -> vm -> Prop) :
  vm_ok v pd -> (forall p, p ∈ l -> exists f e, frames v !! f = Some e /\ fr_spt e = p) ->
  ((forall f e, fr_spt e ∈ l -> frames v !! f = Some e -> upage v e <> u) -> Q None v) ->
  (forall f e, frames v !! f = Some e -> upage v e = u -> Q (Some (fr_spt e)) v) ->
  wp (find_spt_from (fun sp => mret (sp_upage sp =? u)) l) Q v.
Proof.
  intros Hok. induction l as [|p l IH]; intros Hl H1 H2; simpl.
  - apply wp_ret, H1. by intros f e ?%elem_of_nil.
  - destruct (Hl p) as (f & e & He & <-); [by left|]. pose proof (vo_frame _ _ Hok f e He) as F.
    apply wp_bind. eapply wp_load_spt; [apply F|]. apply wp_bind, wp_ret. simpl.
    destruct (Z.eqb_spec (upage v e) u) as [Hu|Hu]; [apply wp_ret; by eapply H2|].
    apply IH; [intros q Hq; apply Hl; by right| |done]. intros Hrest. apply H1.
    intros g e1 [Heq|Hin]%elem_of_cons Hg; [|by eapply Hrest].
    pose proof (fo_spt _ _ _ _ (vo_frame _ _ Hok g e1 Hg)) as Hs. rewrite Heq in Hs.
    rewrite (fo_spt _ _ _ _ F) in Hs. congruence.
Qed.

Lemma wp_find_spt v pd u (Q : option nat -> vm -> Prop) :
  vm_ok v pd -> heap_ok v -> (unused v u -> Q None v) ->
  (forall f e, frames v !! f = Some e -> upage v e = u -> Q (Some (fr_spt e)) v) -> wp (find_spt u) Q v.
Proof.
  intros Hok Hh H1 H2. destruct (vo_proc _ _ Hok) as (x & Hx & _). apply wp_bind, wp_gets, wp_bind.
  eapply wp_load_proc; [exact Hx|]. eapply wp_find_spt_from; [exact Hok| | |done].
  - intros p Hp. by apply (ho_table _ Hh x Hx).
  - intros Hn. apply H1. intros f e He. apply (Hn f e); [|done]. apply (ho_table _ Hh x Hx). eauto.
Qed.

(** The address of a mapping: a user page at or above the code. *)
Definition mmap_addr (u : Z) : Prop := CODE_BASE <= u < PHYS_BASE /\ pg_ofs u = 0.

Lemma wp_check_mmap_addr s pd u (Q : bool -> sys -> Prop) :
  vm_ok (sy_vm s) pd -> heap_ok (sy_vm s) -> mmap_addr u -> unused (sy_vm s) u -> Q true s ->
  wp (check_mmap_addr u) Q s.
Proof.
  intros Hok Hh [Hu Ho] Hun HQ. unfold check_mmap_addr.
  assert (Hr : pg_round_down u = u) by (destruct (round_down u) as (E & _); lia).
  rewrite Hr, Z.eqb_refl. destruct (Z.leb_spec PHYS_BASE u); [lia|]. destruct (Z.ltb_spec u CODE_BASE); [lia|].
  simpl. apply wp_bind, wp_lift_vm. apply (wp_find_spt _ pd); [done..| |].
  - intros _. apply wp_ret. by destruct s.
  - intros f e He Hue. by destruct (Hun f e).
Qed.

(** ** Opening the file again *)
Definition reopened (f : file) (n : inode) (x : os D B) : os D B :=
  Os (set_inodes (<[f_inode f := set_open_cnt (i_open_cnt n + 1) n]> (inodes (os_fs x))) (os_fs x))
    (<[os_next x := File (f_inode f) 0 false]> (os_files x)) (S (os_next x)) (os_free_map_file x) (os_cur_dir x).

Lemma wp_file_reopen p (f : file) n (x : os D B) (Q : option nat -> os D B -> Prop) :
  malloc_ok = true -> file_at p f n x -> Q (Some (os_next x)) (reopened f n x) -> wp (file_reopen p) Q x.
Proof.
  intros Hm [H1 H2 H3 H4 H5 H6 H7] HQ. apply wp_bind. eapply wp_load_file; [exact H1|].
  apply wp_bind, wp_lift, wp_bind, wp_locked; [done|]. apply wp_bind.
  eapply wp_load_inode; [exact H2|]. eapply wp_store_inode; [exact H2|]. split; [done|]. apply wp_ret.
  unfold file_open. rewrite Hm. apply wp_bind, wp_bind, wp_gets, wp_bind, wp_modify, wp_ret, wp_ret. done.
Qed.

Lemma reopened_file_at (f : file) n (x : os D B) p q z (m : inode) :
  os_files x !! os_next x = None -> file_at p f n x -> file_at q z m x ->
  exists m', file_at q z m' (reopened f n x) /\ i_data m' = i_data m /\
    file_bytes m' (reopened f n x) = file_bytes m x.
Proof.
  intros Hnew Hp [H1 H2 H3 H4 H5 H6 H7].
  exists (if decide (f_inode f = f_inode z) then set_open_cnt (i_open_cnt n + 1) n else m).
  assert (Hd : i_data (if decide (f_inode f = f_inode z) then set_open_cnt (i_open_cnt n + 1) n else m) = i_data m).
  { case_decide as Hi; [|done]. pose proof (fa_inode _ _ _ _ Hp) as Hn. rewrite Hi in Hn. simpl. congruence. }
  split; [|by unfold file_bytes; rewrite Hd]. split; rewrite ?Hd; try done.
  - simpl. rewrite lookup_insert_ne; [done|]. intros <-. congruence.
  - simpl. case_decide as Hi; [by rewrite Hi, lookup_insert_eq|by rewrite lookup_insert_ne].
  - by apply (fs_ok_ext (os_fs x)).
Qed.

Lemma reopened_self (f : file) n (x : os D B) p :
  file_at p f n x -> let n' := set_open_cnt (i_open_cnt n + 1) n in
  file_at (os_next x) (File (f_inode f) 0 false) n' (reopened f n x) /\
  file_bytes n' (reopened f n x) = file_bytes n x.
Proof.
  intros [H1 H2 H3 H4 H5 H6 H7]. split; [|done]. split; try done; simpl.
  - by rewrite lookup_insert_eq.
  - by rewrite lookup_insert_eq.
  - by apply (fs_ok_ext (os_fs x)).
Qed.

Lemma reopened_backed (f : file) n (x : os D B) p e :
  os_files x !! os_next x = None -> file_at p f n x -> backed x e ->
  backed (reopened f n x) e /\ file_page (reopened f n x) e = file_page x e.
Proof.
  intros Hnew Hp (q & z & m & Hq & Hz & H1 & H2 & H3).
  destruct (reopened_file_at f n x p q z m Hnew Hp Hz) as (m' & Hz' & Hd & Hb). split.
  - exists q, z, m'. by rewrite Hd.
  - rewrite (backed_page x e q z m), (backed_page (reopened f n x) e q z m') by done. by rewrite Hb.
Qed.


(** ** The pages of a mapping *)

(** The element [m] of the mapping [mapid] is for the page at [a]. *)
Definition element_of v (mapid : Z) q (w : bool) (a : Z) (m : mmap_elem) : Prop :=
  mm_mapid m = mapid /\ mm_file m = q /\ mm_writable m = w /\
  exists f e, frames v !! f = Some e /\ upage v e = a /\ mm_spt m = Some (fr_spt e).
Definition elements_of v mapid q w (l : list Z) (ms : list mmap_elem) : Prop :=
  Forall2 (element_of v mapid q w) l ms.

Lemma elements_later v v' pd pages mapid q w l ms :
  lazily v v' pd pages -> elements_of v mapid q w l ms -> elements_of v' mapid q w l ms.
Proof.
  intros Hl H. eapply Forall2_impl; [exact H|]. intros a m (E1 & E2 & E3 & f & e & He & Hu & Hs).
  destruct (lz_frames _ _ _ _ Hl f e He) as [He' Hu']. split_and!; [done..|]. exists f, e. by rewrite Hu'.
Qed.

(** The state with the address space [v] and more elements. *)
Definition with_elements v (t : uthread) (ms : list mmap_elem) s : sys :=
  set_uthreads (<[running (sy_vm s) := set_ut_mmap_list (ut_mmap_list t ++ ms) t]> (uthreads s)) (set_vm v s).

Lemma with_elements_nil s t : current_is s t -> with_elements (sy_vm s) t [] s = s.
Proof.
  intros Ht. unfold with_elements. rewrite app_nil_r.
  replace (set_ut_mmap_list (ut_mmap_list t) t) with t by by destruct t.
  rewrite insert_id by done. by destruct s.
Qed.

Lemma s32_neg z : - PGSIZE <= z <= 0 -> s32 z <= 0.
Proof.
  intros Hz. unfold s32, u32, UINT32, INT_MAX. unfold PGSIZE in Hz. destruct (decide (z = 0)) as [->|Hne]; [done|].
  replace (z mod 2 ^ 32) with (z + 2 ^ 32) by (apply (Zmod_unique z (2 ^ 32) (-1)); lia). zcase.
Qed.

(** [cnt] pages are enough for [n] bytes, and no page is without any. *)
Definition page_count (n : Z) (cnt : nat) : Prop :=
  0 <= n /\ PGSIZE * (Z.of_nat cnt - 1) < n <= PGSIZE * Z.of_nat cnt.

Lemma wp_mmap_loop cnt e0 mapid q y i w fuel pd : malloc_ok = true -> (cnt <= fuel)%nat ->
  forall s t u ofs n zero (Q : bool -> sys -> Prop),
  ready (sy_vm s) pd q y i -> current_is s t -> free_range (sy_vm s) pd u cnt -> 0 <= ofs ->
  page_count n cnt -> (0 < n -> zero = 0) -> zero <= 0 ->
  ofs + n <= id_length (i_data i) -> ofs + n <= INT_MAX ->
  (forall v ms, let pages := pages_from cnt (file_bytes i (vm_os (sy_vm s))) u ofs n in
     lazily (sy_vm s) v pd pages -> elements_of v mapid q (negb (f_deny_write y)) pages.*1 ms ->
     Q true (with_elements v t ms s)) ->
  wp (mmap_loop fuel e0 mapid q w u ofs n zero) Q s.
Proof.
  intros Hm. revert fuel. induction cnt as [|cnt IH]; intros fuel Hfuel s t u ofs n zero Q Hr Ht Hrg Ho Hcnt Hz Hz0 Hend Hint HQ.
  - assert (n = 0) as -> by (unfold page_count, PGSIZE in Hcnt; lia).
    assert (Hd : (0 <? 0) || (0 <? zero) = false) by (destruct (Z.ltb_spec 0 zero); [lia|done]).
    destruct fuel; cbn [mmap_loop]; rewrite Hd; apply wp_ret; rewrite <- (with_elements_nil s t Ht);
      (apply HQ; [apply lazily_refl; apply Hr|constructor]).
  - assert (Hpos : 0 < n) by (unfold page_count, PGSIZE in Hcnt; lia).
    rewrite (Hz Hpos) in *. clear zero Hz Hz0.
    destruct fuel as [|fuel]; [lia|]. cbn [mmap_loop].
    assert (Hd : (0 <? n) || (0 <? 0) = true) by (destruct (Z.ltb_spec 0 n); [done|lia]). rewrite Hd.
    assert (Hpb : page_bytes n = Z.min n PGSIZE) by (unfold page_bytes; zcase). rewrite Hpb. cbn zeta.
    destruct (range_head _ _ _ _ Hrg) as (_ & _ & _ & Hnext).
    apply wp_bind, wp_lift_vm. eapply wp_lazy_step; [done|exact Hr|done|exact Hrg|done|unfold PGSIZE in *; lia|lia|].
    intros v Hl Hr' Hrg'. apply wp_bind, wp_lift_vm, wp_access; [done|].
    apply wp_bind, wp_lift_vm. apply (wp_find_spt _ pd); [apply Hl|apply Hl| |].
    { intros Hun. simpl in Hun. apply (ex_unused _ _ _ _ (lz_ext _ _ _ _ Hl)) in Hun as [Hun _].
      simpl in Hun. set_solver. }
    intros f e He Hue. simpl in He, Hue. apply wp_bind, wp_in_os. simpl. eapply wp_load_file; [apply Hr'|].
    apply wp_bind. assert (Hrun : running v = running (sy_vm s)) by apply Hl.
    eapply wp_store_current; [unfold current_is; simpl; by rewrite Hrun|]. simpl. rewrite Hrun.
    set (m := MmapElem mapid q (negb (f_deny_write y)) (Some (fr_spt e))).
    match goal with |- wp _ _ ?st => replace st with (with_elements v t [m] s) end.
    2:{ unfold with_elements, set_uthreads, set_vm. simpl. f_equal. by destruct v. }
    assert (Hu32 : u32 (u + PGSIZE) = u + PGSIZE) by by apply u32_small. rewrite Hu32.
    assert (Hs32 : s32 (ofs + Z.min n PGSIZE) = ofs + Z.min n PGSIZE)
      by (apply s32_small; unfold PGSIZE, INT_MAX in *; lia). rewrite Hs32.
    assert (Hos : vm_os v = vm_os (sy_vm s)) by apply Hl.
    eapply (IH fuel ltac:(lia) _ (set_ut_mmap_list (ut_mmap_list t ++ [m]) t)); [exact Hr'| |exact Hrg'|..].
    + unfold current_is. simpl. rewrite Hrun. apply lookup_insert_eq.
    + unfold PGSIZE in *. lia.
    + unfold page_count, PGSIZE in *. lia.
    + intros Hn. replace (0 - (PGSIZE - Z.min n PGSIZE)) with 0 by lia. done.
    + apply s32_neg. unfold PGSIZE in *. lia.
    + lia.
    + lia.
    + cbn zeta. simpl. rewrite Hos. intros v2 ms Hl2 Hms.
      pose proof (lz_ext _ _ _ _ Hl2) as Hx2.
      replace (with_elements v2 _ ms (with_elements v t [m] s)) with (with_elements v2 t (m :: ms) s).
      2:{ unfold with_elements. simpl. rewrite Hrun, insert_insert_eq, <- app_assoc. done. }
      apply HQ.
      * exact (lazily_trans _ _ _ _ _ _ Hl Hl2).
      * constructor; [|exact Hms]. destruct (lz_frames _ _ _ _ Hl2 f e He) as [He2 Hu2].
        split_and!; [done..|]. exists f, e. by rewrite Hu2.
Qed.


(** ** [mmap] *)
Lemma extended_locks v pd (h : gset lockid) :
  vm_ok v pd -> heap_ok v -> (forall j, inode_io j ∈ h -> inode_io j ∈ locks_of v) ->
  (forall j, cache_io j ∈ h -> cache_io j ∈ locks_of v) -> extended v (with_locks h v) pd [].
Proof.
  intros Hok Hh H1 H2. apply extended_os; [done..|]. intros e Hb. by apply backed_same, Hb; apply locks_os_same.
Qed.

(** The process can map the open file [fd] at [u]: its [cnt] pages are free. *)
Record can_map s pd (t : uthread) (fd : Z) p (f : file) (n : inode) (u : Z) (cnt : nat) : Prop := {
  cm_ok : vm_ok (sy_vm s) pd;
  cm_heap : heap_ok (sy_vm s);
  cm_current : current_is s t;
  cm_fd : fd_at s fd p f n;
  cm_lock : frame_lock ∉ locks_of (sy_vm s);
  cm_match : no_match (sy_vm s) pd (f_inode f);
  cm_addr : CODE_BASE <= u < PHYS_BASE;
  cm_range : free_range (sy_vm s) pd u cnt;
  cm_length : 0 < id_length (i_data n);
  cm_count : page_count (id_length (i_data n)) cnt;
  cm_mapid : 0 <= ut_next_mapid t < INT_MAX;
  cm_fresh : os_files (vm_os (sy_vm s)) !! os_next (vm_os (sy_vm s)) = None;
}.

(** The state in which the pages are added: the lock is held, the file open again. *)
Definition locked_os s : os D B := vm_os (with_locks ({[file_lock]} ∪ locks_of (sy_vm s)) (sy_vm s)).
Definition opened_again s f n : vm := set_os (reopened f n (locked_os s)) (sy_vm s).

Section can_map.
Variables (s : sys) (pd : Z) (t : uthread) (fd : Z) (p : nat) (f : file) (n : inode) (u : Z) (cnt : nat).
Hypothesis Hc : can_map s pd t fd p f n u cnt.

Lemma again_file : file_at p f n (locked_os s) /\ file_bytes n (locked_os s) = file_bytes n (vm_os (sy_vm s)).
Proof. apply with_file_lock, Hc. Qed.

Lemma again_extended : extended (sy_vm s) (opened_again s f n) pd [].
Proof.
  destruct Hc as [C1 C2 C3 C4 C5 C6 C7 C8 C9 C10 C11 C12].
  assert (H1 : extended (sy_vm s) (with_locks ({[file_lock]} ∪ locks_of (sy_vm s)) (sy_vm s)) pd [])
    by (apply extended_locks; set_solver).
  change (opened_again s f n) with (set_os (reopened f n (locked_os s))
    (with_locks ({[file_lock]} ∪ locks_of (sy_vm s)) (sy_vm s))).
  eapply (extended_trans _ _ _ _ [] []); [exact H1|]. apply extended_os; [apply H1|apply H1|].
  intros e He. eapply reopened_backed; [exact C12|apply again_file|exact He].
Qed.

Lemma again_ready : ready (opened_again s f n) pd (os_next (vm_os (sy_vm s))) (File (f_inode f) 0 false)
  (set_open_cnt (i_open_cnt n + 1) n).
Proof.
  destruct Hc as [C1 C2 C3 C4 C5 C6 C7 C8 C9 C10 C11 C12]. split; try apply again_extended.
  - unfold locks_of. simpl. set_solver.
  - intros g e r Hg He Hr. destruct (C6 g e r Hg He Hr) as (y & b & Hy & Hb & Hor).
    exists y, b. split_and!; [|exact Hb|done]. simpl. rewrite lookup_insert_ne; [done|]. intros <-. congruence.
  - apply (reopened_self f n (locked_os s) p), again_file.
Qed.

Lemma again_range : free_range (opened_again s f n) pd u cnt.
Proof. by destruct Hc as [_ _ _ _ _ _ _ [R1 R2 R3 R4 R5] _ _ _ _]. Qed.

Lemma wp_filesize s1 c x p1 f1 n1 (Q : Z -> sys -> Prop) :
  process_is s1 c x -> fd_map x !! fd = Some p1 -> file_at p1 f1 n1 (vm_os (sy_vm s1)) ->
  Q (id_length (i_data n1)) s1 -> wp (filesize fd) Q s1.
Proof.
  intros Hp Hx Hf HQ. apply wp_bind. eapply wp_process; [exact Hp|]. destruct Hp as (_ & _ & _ & Hx1).
  apply wp_bind, wp_bind. eapply wp_load_child; [exact Hx1|]. apply wp_ret. rewrite find_fd_map. fold (fd_map x).
  rewrite Hx. apply wp_in_os, wp_bind. eapply wp_load_file; [apply Hf|]. apply wp_lift, wp_locked; [apply Hf|]. apply wp_bind.
  eapply wp_load_inode; [apply Hf|]. apply wp_ret. split; [done|]. by destruct s1 as [[[[]]]].
Qed.

(** The part of [mmap] after the file is open again. *)
Definition map_again e0 (q : nat) : K Z :=
  in_os (file_seek q 0);;
  mapid ← new_mapid;
  x ← in_os (load_file q);
  ok ← mmap_loop (S (Z.to_nat (id_length (i_data n) / PGSIZE))) e0 mapid q (negb (f_deny_write x)) u 0
    (id_length (i_data n)) 0;
  if negb ok then mret (-1)
  else
    lift_vm (access malloc_ok);;
    store_current (fun t => set_ut_mmap_files (ut_mmap_files t ++ [q]) t);;
    give_lock file_lock;;
    mret mapid.

(** The new pages: those of the file, one after the other. *)
Definition mmap_pages : list (Z * list Z) :=
  pages_from cnt (file_bytes n (vm_os (sy_vm s))) u 0 (id_length (i_data n)).

(** What [mmap] leaves behind. *)
Record mapped_file (r : Z) (s' : sys) : Prop := {
  mf_id : r = ut_next_mapid t;
  mf_locks : locks_of (sy_vm s') = locks_of (sy_vm s);
  mf_pages : extended (sy_vm s) (sy_vm s') pd mmap_pages;
  mf_elements : exists t' ms, current_is s' t' /\ ut_mmap_list t' = ut_mmap_list t ++ ms /\
    elements_of (sy_vm s') r (os_next (vm_os (sy_vm s))) true mmap_pages.*1 ms;
}.

Lemma wp_map_again e0 (Q : Z -> sys -> Prop) :
  malloc_ok = true -> (forall r s', mapped_file r s' -> Q r s') ->
  wp (map_again e0 (os_next (vm_os (sy_vm s)))) Q (set_vm (opened_again s f n) s).
Proof.
  intros Hm HQ. pose proof again_ready as Hr. pose proof again_extended as Hx0. pose proof again_range as Hrg.
  destruct Hc as [C1 C2 C3 C4 C5 C6 C7 C8 C9 C10 C11 C12]. pose proof (fa_unlocked _ _ _ _ _ C4) as Hl.
  pose proof (fa_max _ _ _ _ (fa_at _ _ _ _ _ C4)) as Hmax. set (q := os_next (vm_os (sy_vm s))) in *.
  apply wp_bind, wp_in_os, wp_bind, wp_assert; [done|]. eapply wp_store_file; [apply Hr|].
  match goal with |- wp _ _ ?st => replace st with (set_vm (opened_again s f n) s) end.
  2:{ unfold opened_again, reopened, set_vm, set_os, set_files. simpl. by rewrite insert_insert_eq. }
  apply wp_bind, wp_bind. eapply wp_current_task; [exact C3|]. apply wp_bind, wp_add_int; [unfold INT_MIN; lia|].
  apply wp_bind. eapply wp_store_current; [exact C3|]. apply wp_ret.
  set (t1 := set_ut_next_mapid (ut_next_mapid t + 1) t). apply wp_bind, wp_in_os.
  eapply wp_load_file; [apply Hr|]. apply wp_bind.
  eapply (wp_mmap_loop cnt _ _ q (File (f_inode f) 0 false) (set_open_cnt (i_open_cnt n + 1) n) _ _ pd);
    [done| |exact Hr|unfold current_is; simpl; apply lookup_insert_eq|exact Hrg|done|exact C10|done|done|simpl; lia|lia|].
  { destruct C10 as [_ Hcnt]. apply Nat2Z.inj_le. rewrite Nat2Z.inj_succ, Z2Nat.id; [|apply Z.div_pos; unfold PGSIZE; lia].
    unfold PGSIZE in *. pose proof (Z.mod_pos_bound (id_length (i_data n)) 4096).
    pose proof (Z.div_mod (id_length (i_data n)) 4096). lia. }
  cbn zeta. intros v ms Hlz Hms.
  change (lazily (opened_again s f n) v pd mmap_pages) in Hlz. simpl negb. cbn iota. apply wp_bind, wp_lift_vm, wp_access; [done|].
  assert (Hrun : running v = running (sy_vm s)) by apply (lz_ext _ _ _ _ Hlz).
  assert (Hos : vm_os v = reopened f n (locked_os s)) by apply (lz_os _ _ _ _ Hlz).
  assert (Hlocks : locks_of v = {[file_lock]} ∪ locks_of (sy_vm s)) by (unfold locks_of; by rewrite Hos).
  apply wp_bind. eapply wp_store_current; [unfold current_is; simpl; rewrite Hrun; apply lookup_insert_eq|].
  apply wp_bind, wp_give_lock; [simpl; change (file_lock ∈ locks_of v); rewrite Hlocks; set_solver|].
  apply wp_ret, HQ. simpl.
  assert (Hx : extended (sy_vm s) (with_locks (locks_of v ∖ {[file_lock]}) v) pd mmap_pages).
  { change mmap_pages with ([] ++ mmap_pages). eapply extended_trans; [exact Hx0|].
    rewrite <- (app_nil_r mmap_pages). eapply extended_trans; [exact (lz_ext _ _ _ _ Hlz)|].
    apply extended_locks; [apply Hlz|apply Hlz|set_solver..]. }
  split; [done| |exact Hx|].
  - simpl. unfold locks_of at 1. simpl. by rewrite Hlocks, locks_back.
  - exists (set_ut_mmap_files (ut_mmap_files t ++ [q]) (set_ut_mmap_list (ut_mmap_list t ++ ms) t1)), ms.
    split; [|split; [done|exact Hms]]. unfold current_is. simpl. rewrite Hrun. apply lookup_insert_eq.
Qed.
End can_map.


(** C4: [mmap] maps the file.  For an open file that is not empty and free pages at the
    address, [mmap] returns the number of the new mapping with [file_lock] free again; the
    address space has exactly the pages of the file on top of those it had: they follow one
    another from the address on, and their bytes in a row are the bytes of the file, the
    rest of the last page zero.  The new elements are, page by page, those of the mapping. *)
Theorem mmap_maps_file s pd t fd p f n u cnt e0
    (Hm : malloc_ok = true) (Hc : can_map s pd t fd p f n u cnt) :
  wp (mmap e0 fd u) (fun r s' => r = ut_next_mapid t /\
    locks_of (sy_vm s') = locks_of (sy_vm s) /\
    (exists pages, extended (sy_vm s) (sy_vm s') pd pages /\
       pages.*1 = (fun j : nat => u + PGSIZE * Z.of_nat j) <$> seq 0 cnt /\
       concat pages.*2 = file_bytes n (vm_os (sy_vm s)) ++
         replicate (Z.to_nat (PGSIZE * Z.of_nat cnt - id_length (i_data n))) 0 /\
       exists t' ms, current_is s' t' /\ ut_mmap_list t' = ut_mmap_list t ++ ms /\
         elements_of (sy_vm s') r (os_next (vm_os (sy_vm s))) true pages.*1 ms)) s.
Proof.
  pose proof Hc as [C1 C2 C3 C4 C5 C6 C7 C8 C9 C10 C11 C12].
  pose proof C4 as [(c & x & Hp & Hx) Hat Hl]. destruct (again_file _ _ _ _ _ _ _ _ _ Hc) as [Hat1 _].
  set (s1 := set_vm (with_locks ({[file_lock]} ∪ locks_of (sy_vm s)) (sy_vm s)) s).
  assert (Hp1 : process_is s1 c x) by (eapply same_process; [|exact Hp]; by split).
  unfold mmap. apply wp_bind, (wp_check_mmap_addr s pd); [done|done|split; [done|apply C8]| |].
  { pose proof (rg_unused _ _ _ _ C8 0%nat) as H. rewrite Z.mul_0_r, Z.add_0_r in H. apply H.
    destruct C10. unfold PGSIZE in *. lia. }
  simpl negb. cbn iota. apply wp_bind, wp_take_lock; [done|]. fold s1. apply wp_bind.
  eapply (wp_filesize fd s1 c x); [exact Hp1|exact Hx|exact Hat1|].
  destruct (Z.leb_spec (id_length (i_data n)) 0); [lia|]. apply wp_bind. eapply wp_process; [exact Hp1|].
  pose proof Hp1 as (_ & _ & _ & Hx1). apply wp_bind, wp_bind. eapply wp_load_child; [exact Hx1|]. apply wp_ret.
  rewrite find_fd_map. fold (fd_map x). apply wp_bind. eapply wp_deref; [exact Hx|].
  apply wp_bind, wp_in_os, (wp_file_reopen p f n); [done|exact Hat1|].
  eapply wp_mono; [exact (wp_map_again s pd t fd p f n u cnt Hc e0 _ Hm (fun r s' H => H))|].
  intros r s' [M1 M2 M3 (t' & ms & M4 & M5 & M6)]. split; [done|]. split; [done|].
  exists (mmap_pages s n u cnt). split; [done|]. unfold mmap_pages. rewrite pages_from_addresses. split; [done|]. split.
  - pose proof (fa_wf _ _ _ _ Hat) as Hwf. destruct C10.
    assert (Hlen : Z.of_nat (length (file_bytes n (vm_os (sy_vm s)))) = id_length (i_data n))
      by (unfold file_bytes; rewrite length_content; lia).
    rewrite pages_from_bytes; [|lia|lia|rewrite Hlen; lia].
    f_equal. unfold slice. rewrite drop_0. apply take_ge. lia.
  - exists t', ms. split; [done|]. split; [done|]. unfold mmap_pages in M6. by rewrite pages_from_addresses in M6.
Qed.


(** ** Where mapping goes wrong *)
Lemma take_held l s : l ∈ locks_of (sy_vm s) -> take_lock l s = Fail Panic.
Proof.
  intros Hl. unfold take_lock, lift_vm, acquire, lift_fs, lift_os, lift, lock_acquire. unfold locks_of in Hl.
  by rewrite decide_True.
Qed.

(** A failed [mmap] keeps [file_lock].  With a descriptor that is not open, at an
    address that is fit, [mmap] returns -1 and the process holds the lock from then on:
    the next call that takes it, [open], [read], [write], [seek] or [mmap], stops the
    kernel. *)
Theorem failed_mmap_keeps_lock s c x e0 fd u
    (Hp : process_is s c x) (Hfd : fd_map x !! fd = None) (Hl : file_lock ∉ locks_of (sy_vm s))
    (Hu : check_mmap_addr u s = Ok true s) :
  wp (mmap e0 fd u) (fun r s' => r = -1 /\ file_lock ∈ locks_of (sy_vm s') /\
    (forall name, open name s' = Fail Panic) /\
    (forall n buffer len, n <> 0 -> read n buffer len s' = Fail Panic) /\
    (forall n buffer len, n <> 1 -> write n buffer len s' = Fail Panic) /\
    (forall n position, seek n position s' = Fail Panic)) s.
Proof.
  apply wp_bind. unfold wp at 1. rewrite Hu. simpl negb. cbn iota. apply wp_bind, wp_take_lock; [done|].
  set (s1 := set_vm _ s). assert (Hp1 : process_is s1 c x) by (eapply same_process; [|exact Hp]; by split).
  apply wp_bind, wp_bind. eapply wp_process; [exact Hp1|]. pose proof Hp1 as (_ & _ & _ & Hx1).
  apply wp_bind, wp_bind. eapply wp_load_child; [exact Hx1|]. apply wp_ret. rewrite find_fd_map. fold (fd_map x).
  rewrite Hfd. apply wp_ret. simpl. apply wp_ret. split; [done|].
  assert (Hin : file_lock ∈ locks_of (sy_vm s1)) by (unfold locks_of; simpl; set_solver).
  split; [done|]. pose proof (take_held file_lock s1 Hin) as Hf. split_and!.
  - intros name. by apply fails_head.
  - intros n buffer len Hn. unfold read. apply Z.eqb_neq in Hn as ->. by apply fails_head.
  - intros n buffer len Hn. unfold write. apply Z.eqb_neq in Hn as ->. by apply fails_head.
  - intros n position. by apply fails_head.
Qed.
End mmap.

(** ** A process with an open file of two pages *)

(** The file has 4100 bytes: sector 3, eight sectors 6 to 13 through the index block in
    sector 4. *)
Definition long_disk : disk :=
  <[3 := replicate 512 1]> (<[4 := concat (le32 <$> seqZ 6 8)]>
    (list_to_map ((fun k => (k, replicate 512 k)) <$> seqZ 6 8))).
Definition long_inode : inode :=
  Inode 5 1 false 0 (InodeDisk 4100 3 4 0 INODE_MAGIC false [0; 0; 0] 0 []) 0.
Definition long_os : os disk bits :=
  Os (set_device long_disk (set_inodes {[0%nat := long_inode]} (fresh_fs 20)))
    {[0%nat := File 0 0 false]} 1 None None.

(** A process without pages, and one with a page of its stack at [own_page]. *)
Definition bare (x : os disk bits) : vm disk bits disk :=
  Vm x vm1 {[0%nat := Process (Some user_dir) []]} 0 ∅ [] ∅ ∅ 0 ∅ (replicate 16 false).
Definition map_page : Z := 0x8050000.
Definition own_page : Z := map_page + PGSIZE.
Definition as_task (v : vm disk bits disk) : sys disk bits disk :=
  Sys v {[0%nat := task_thread]} {[0%nat := task_child]} 1 [] [] 2.

#[local] Existing Instance memory_available.
Definition with_own_page : vm disk bits disk :=
  match (k ← zero_page; install_frame stack_frame own_page k true None SWAP 0 0) (bare long_os) with
  | Ok _ v => v
  | Fail _ => bare long_os
  end.
(** The process touches the page at [a]. *)
Definition touch (a : Z) : M (vm disk bits disk) bool := p ← find_spt a; load_back p.

Lemma no_bit_set i : bits_test (replicate 16 false) i = false.
Proof.
  unfold bits_test. rewrite nth_lookup. destruct (replicate 16 false !! Z.to_nat i) as [x|] eqn:Hx; [|done].
  by apply lookup_replicate in Hx as [-> _].
Qed.

Lemma bare_ok x : vm_ok (bare x) user_dir.
Proof.
  split; try done.
  - by exists (Process (Some user_dir) []).
  - apply vm1_wf.
  - intros a Ha%bool_decide_eq_true. simpl. revert a Ha. by apply Forall_forall; repeat constructor.
  - apply NoDup_nil_2.
  - intros f. simpl. rewrite elem_of_nil. split; [done|]. by intros (? & ? & _).
  - intros i _. simpl. by rewrite no_bit_set.
Qed.
Lemma bare_heap x : heap_ok (bare x).
Proof.
  split; simpl; try by intros ? [? ?].
  intros y [= <-] p. simpl. rewrite elem_of_nil. split; [done|]. by intros (? & ? & ? & _).
Qed.

Lemma bare_can_map :
  can_map (as_task (bare (open_file_os 0))) user_dir task_thread 2 0 (File 0 0 false) (two_block_inode 0) map_page 1.
Proof.
  split; try done.
  - apply bare_ok.
  - apply bare_heap.
  - split; [|by apply open_file_at|by apply not_elem_of_empty].
    exists 0%nat, task_child. split; [by exists task_thread|done].
  - split; try done. intros [|j] Hj; [by vm_compute|lia].
Qed.

Lemma mmap_maps_file_witness :
  wp (mmap stack_frame 2 map_page) (fun r s' => r = 1 /\ (file_lock ∉ locks_of (sy_vm s')) /\
    exists c, space (sy_vm s') map_page c /\
      c = replicate 512 1 ++ replicate 88 2 ++ replicate 3496 0) (as_task (bare (open_file_os 0))).
Proof.
  eapply wp_mono; [exact (mmap_maps_file _ _ _ _ _ _ _ _ _ stack_frame eq_refl bare_can_map)|].
  intros r s' (-> & Hl & pages & Hx & Ha & Hb & _). split; [done|]. split; [rewrite Hl; by apply not_elem_of_empty|].
  destruct pages as [|[a c] [|? ?]]; try done. simpl in Ha, Hb. injection Ha as ->.
  exists c. split; [apply (ex_space _ _ _ _ Hx); left; by left|]. rewrite app_nil_r in Hb. rewrite Hb.
  vm_compute. reflexivity.
Defined.

Lemma failed_mmap_keeps_lock_witness :
  wp (mmap stack_frame 3 map_page) (fun r s' => r = -1 /\ read 2 0 0 s' = Fail Panic)
    (as_task (bare (open_file_os 0))).
Proof.
  eapply wp_mono.
  - apply (failed_mmap_keeps_lock (as_task (bare (open_file_os 0))) 0 task_child stack_frame 3 map_page);
      [by exists task_thread|reflexivity|by apply not_elem_of_empty|vm_compute; reflexivity].
  - intros r s' (-> & _ & _ & H & _). split; [done|]. by apply H.
Defined.

(** [munmap] of two pages can use a file after it is closed.  It closes the file of the
    mapping with the first page; when the process has modified the second page, writing it
    back goes through the freed [struct file].  Here a process maps a file of two pages,
    touches both and modifies the second; [munmap] stops with an invalid access. *)
Theorem munmap_uses_closed_file :
  wp (id ← mmap stack_frame 2 map_page; lift_vm (touch map_page);; lift_vm (touch own_page);;
      lift_vm (lift_mem (pagedir_set_dirty user_dir own_page true));; mret id)
    (fun id s' => munmap id s' = Fail BadAccess) (as_task (bare long_os)).
Proof. vm_compute. reflexivity. Qed.

(** [mmap] can unmap a page in use.  It checks only the first page of the range: here
    the second page of the mapping is a page of the process, in memory.  [mmap] returns a
    mapping, the page is no longer mapped, and when the process touches it again the kernel
    stops with an invalid access, because it takes the page for one in swap. *)
Theorem mmap_hides_own_page :
  is_Some (mapping (vm_mem with_own_page) user_dir own_page) /\
  wp (mmap stack_frame 2 map_page) (fun id s' => id = 1 /\
    mapping (vm_mem (sy_vm s')) user_dir own_page = None /\
    lift_vm (touch own_page) s' = Fail BadAccess) (as_task with_own_page).
Proof. split; [vm_compute; eauto|]. vm_compute. split_and!; reflexivity. Qed.
