(* ===== verification/Process.v ===== *)
(** * Process: creation, exit and waiting ([userprog/process.c], [exec] and [exit] of
    [userprog/syscall.c], the parts of [threads/thread.c] that they use).

    A thread runs until it waits for another one.  [switch_to] is the switch to another
    thread; [exec] and [process_exit] are cut where the parent and the child meet, so that
    both orders of the two can be run. *)
From S2P Require Import Prelude Bytes State Instances Cache FreeMap Inode InodeData InodeFaults File Directory Filesys Pagedir Vm Swap Paging Reload Pages Release Task Descriptors Mmap.
From Stdlib Require Import ZArith Lia.
From stdpp Require Import prelude gmap.

Open Scope Z_scope.

(** ** Calls that may end the process

    A computation with the result [None] has ended the running thread. *)
Section may_exit.
Context {S : Type}.
Definition live {A B} (m : M S (option A)) (k : A -> M S (option B)) : M S (option B) :=
  o ← m; match o with Some a => k a | None => mret None end.
Definition returns {A} (m : M S A) : M S (option A) := a ← m; mret (Some a).

Lemma wp_live {A B} (m : M S (option A)) (k : A -> M S (option B)) s (Q : option B -> S -> Prop) :
  wp m (fun o s' => match o with Some a => wp (k a) Q s' | None => Q None s' end) s -> wp (live m k) Q s.
Proof. intros H. apply wp_bind. eapply wp_mono; [exact H|]. by intros [a|] s'. Qed.
Lemma wp_returns {A} (m : M S A) s (Q : option A -> S -> Prop) :
  wp m (fun a => Q (Some a)) s -> wp (returns m) Q s.
Proof. intros H. by apply wp_bind. Qed.
End may_exit.
Declare Scope exit_scope.
Delimit Scope exit_scope with exit.
Notation "x ⇠ m ; k" := (live m (fun x => k)) (at level 20, m at level 100, k at level 200, right associativity) : exit_scope.

Definition TID_ERROR : Z := -1.
Definition SPACE : Z := 32.

(** The tokens of [strtok_r (s, " ", ...)]. *)
Fixpoint words_loop (cur : list Z) (l : list Z) : list (list Z) :=
  match l with
  | [] => match cur with [] => [] | _ => [cur] end
  | x :: rest =>
    if x =? SPACE then match cur with [] => words_loop [] rest | _ => cur :: words_loop [] rest end
    else words_loop (cur ++ [x]) rest
  end.
Definition words (l : list Z) : list (list Z) := words_loop [] l.

(** [strlcpy (dst, src, size)]: at most [size - 1] bytes, and a null. *)
Definition strlcpy (src : list Z) (size : Z) : list Z := take (Z.to_nat (size - 1)) src.

Section process.
Context {D B W : Type} {dev : BlockDev D} {bm : Bitmap B} {io : BitmapIO D B} {mem : Memory}
  {sdev : BlockDev W} {pg : Paging}.
Abbreviation sys := (sys D B W).
Abbreviation K := (M sys).
Implicit Types (s : sys) (c t : nat).

(** ** The running thread *)
Definition process_activate : M (vm D B W) unit :=
  t ← gets running; x ← load_proc t; lift_mem (pagedir_activate (pr_pagedir x)).

(** The switch to the thread [t], where the running thread holds no lock; the end of it is
    [thread_schedule_tail]. *)
Definition switch_to t : K unit :=
  s ← get;
  if bool_decide (locks_of (sy_vm s) = ∅) then
    x ← load_uthread t;
    let v := sy_vm s in
    modify (set_vm (Vm (set_cur_dir (ut_cur_dir x) (vm_os v)) (vm_mem v) (procs v) t (frames v) (frame_table v)
      (spts v) (shareds v) (next_obj v) (swap_block v) (swap_bitmap v)));;
    lift_vm process_activate
  else fail WouldBlock.

(** ** Exit *)
Fixpoint free_child_list (l : list nat) : K unit :=
  match l with
  | [] => mret tt
  | c :: rest => store_current (set_ut_children rest);; free_child c;; free_child_list rest
  end.
Definition free_children : K unit := t ← current; free_child_list (ut_children t).

Definition destroy_pagedir : M (vm D B W) unit :=
  t ← gets running;
  x ← load_proc t;
  match pr_pagedir x with
  | None => mret tt
  | Some pd =>
    store_proc t (fun x => Process None (pr_page_table x));;
    lift_mem (pagedir_activate None);;
    lift_mem (pagedir_destroy (Some pd))
  end.

(** [process_exit] up to the wake-up of the parent, and the rest. *)
Definition exit_begin : K unit :=
  munmap_all;;
  lift_vm free_pages;;
  free_children;;
  t ← current;
  in_os (file_close (ut_file t));;
  t ← current;
  match ut_process t with Some c => up_wait c | None => mret tt end.
Definition exit_end : K unit :=
  t ← current;
  match ut_process t with Some _ => close_all | None => mret tt end;;
  lift_vm destroy_pagedir.
Definition process_exit : K unit := exit_begin;; exit_end.

(** [thread_exit] after [process_exit]: the locks are given up and the thread leaves
    [all_list]; the thread that runs next frees its page. *)
Definition thread_exit_end : K unit :=
  h ← gets (fun s => elements (locks_of (sy_vm s)));
  for_each h give_lock;;
  t ← running_thread;
  x ← current;
  modify (fun s => set_uthreads (delete t (uthreads s)) s);;
  match ut_page x with Some k => lift_vm (lift_mem (palloc_free_page k)) | None => mret tt end.
Definition thread_exit : K unit := process_exit;; thread_exit_end.

(** The part of [exit] before [thread_exit]. *)
Definition set_exit_status (status : Z) : K unit :=
  t ← current;
  print (Exited (ut_name t) status);;
  b ← task_exist (ut_parent t);
  when b
    (c ← process;
     store_child c (set_ch_status status);;
     c ← process;
     store_child c (set_ch_exit true)).
Definition exit {A} (status : Z) : K (option A) := set_exit_status status;; thread_exit;; mret None.

(** ** Creation *)

(** [thread_create] with [start_process] as the function: the new thread is the key of
    its entry in [uthreads].  [x0] is what the memory for its [child_process_elem] holds. *)
Definition task_allocate_tid : K Z := n ← gets sy_next_tid; n' ← add_int n 1; modify (set_sy_next_tid n');; mret n.
Definition create_process_thread (x0 : child) (name : option (list Z)) : K Z :=
  k ← lift_vm (lift_mem (palloc_get_page PAL_ZERO));
  match k with
  | None => mret TID_ERROR
  | Some k =>
    name ← (match name with Some n => mret n | None => fail Panic end);
    n ← gets (fun s => fresh (dom (uthreads s)));
    tid ← task_allocate_tid;
    t ← current;
    c ← create_child x0 tid;
    d ← gets (fun s => os_cur_dir (vm_os (sy_vm s)));
    d' ← (match d with Some p => in_os (dir_reopen p) | None => mret None end);
    modify (fun s => set_uthreads
      (<[n := UThread tid (strlcpy name 16) (ut_tid t) (Some c) [] None 0 [] [] 1 d' (Some k)]> (uthreads s)) s);;
    modify (fun s => set_vm (set_procs (<[n := Process None []]> (procs (sy_vm s))) (sy_vm s)) s);;
    mret tid
  end.

(** The first token, [NULL] if there is none. *)
Definition determine_argument (file_name : list Z) : option (list Z) := head (words file_name).

(** The copy of the command line in the page [k]. *)
Definition copy_name (k : Z) (file_name : list Z) : M (vm D B W) unit :=
  b ← load_page k;
  store_page k (splice 0 (strlcpy file_name PGSIZE ++ [0]) b).

Definition process_execute (x0 : child) (file_name : list Z) : K Z :=
  fn_copy ← lift_vm (lift_mem (palloc_get_page 0));
  match fn_copy with
  | None => mret TID_ERROR
  | Some k =>
    lift_vm (copy_name k file_name);;
    lift_vm (access malloc_ok);;
    tid ← create_process_thread x0 (determine_argument file_name);
    when (tid =? TID_ERROR) (lift_vm (lift_mem (palloc_free_page k)));;
    mret tid
  end.

(** [exec] up to the wait for [load_barrier], and the rest; a null [child] is followed. *)
Definition exec_begin (x0 : child) (cmd_line : list Z) : K (Z * option nat) :=
  pid ← process_execute x0 cmd_line;
  o ← get_child pid;
  mret (pid, o).
Definition exec_end (pid : Z) (o : option nat) : K Z :=
  c ← deref o;
  down_load c;;
  x ← load_child c;
  mret (if ch_load x then pid else -1).
Definition exec (x0 : child) (cmd_line : list Z) : K Z := '(pid, o) ← exec_begin x0 cmd_line; exec_end pid o.
End process.

(** ** Waiting *)
Section waiting.
Context {D B W : Type} {dev : BlockDev D} {bm : Bitmap B} {io : BitmapIO D B} {mem : Memory}
  {sdev : BlockDev W} {pg : Paging}.
Abbreviation sys := (sys D B W).
Implicit Types (s : sys) (c t : nat).

(** The first child in the list [l] with this process id. *)
Fixpoint child_in (m : gmap nat child) (pid : Z) (l : list nat) : option nat :=
  match l with
  | [] => None
  | c :: rest => x ← m !! c; if ch_pid x =? pid then Some c else child_in m pid rest
  end.
(** No record in the list is freed. *)
Definition allocated s (l : list nat) : Prop := Forall (fun c => is_Some (children s !! c)) l.

Lemma wp_get_child_from pid l s (Q : option nat -> sys -> Prop) :
  allocated s l -> Q (child_in (children s) pid l) s -> wp (get_child_from pid l) Q s.
Proof.
  induction l as [|c l IH]; intros Hl HQ; cbn [get_child_from child_in] in *; [by apply wp_ret|].
  apply Forall_cons in Hl as [[x Hx] Hl]. rewrite Hx in HQ. simpl in HQ.
  apply wp_bind. eapply wp_load_child; [exact Hx|]. destruct (ch_pid x =? pid); [by apply wp_ret|by apply IH].
Qed.
Lemma child_in_some m pid l c : child_in m pid l = Some c ->
  c ∈ l /\ exists x, m !! c = Some x /\ ch_pid x = pid.
Proof.
  induction l as [|b l IH]; simpl; [done|]. intros (x & Hx & Hc)%bind_Some.
  destruct (Z.eqb_spec (ch_pid x) pid) as [Hp|Hp].
  - injection Hc as <-. split; [by left|eauto].
  - destruct (IH Hc) as [? ?]. split; [by right|done].
Qed.
Lemma child_in_same m m' pid l :
  (forall c, c ∈ l -> ch_pid <$> m' !! c = ch_pid <$> m !! c) -> child_in m' pid l = child_in m pid l.
Proof.
  induction l as [|c l IH]; intros H; [done|]. simpl. pose proof (H c ltac:(by left)) as Hc.
  rewrite IH by (intros b Hb; apply H; by right).
  destruct (m' !! c), (m !! c); simpl in *; try done. by injection Hc as ->.
Qed.

Lemma wp_get_child pid x s (Q : option nat -> sys -> Prop) :
  current_is s x -> allocated s (ut_children x) -> Q (child_in (children s) pid (ut_children x)) s ->
  wp (get_child pid) Q s.
Proof. intros Hx Hl HQ. apply wp_bind. eapply wp_current_task; [exact Hx|]. by apply wp_get_child_from. Qed.

(** The state after the record [c] of a child of the running thread is freed. *)
Definition reaped c (x : uthread) s : sys :=
  set_children (delete c (children s))
    (set_uthreads (<[running (sy_vm s) := set_ut_children (filter (fun b => b <> c) (ut_children x)) x]> (uthreads s)) s).

Lemma wp_remove_child c x y s (Q : unit -> sys -> Prop) :
  current_is s x -> c ∈ ut_children x -> children s !! c = Some y -> Q tt (reaped c x s) ->
  wp (remove_child c) Q s.
Proof.
  intros Hx Hc Hy HQ. apply wp_bind. eapply wp_current_task; [exact Hx|].
  apply wp_bind, wp_lift_vm, wp_access; [by apply bool_decide_eq_true|]. replace (set_vm (sy_vm s) s) with s by by destruct s.
  apply wp_bind. eapply wp_store_current; [exact Hx|]. apply wp_bind. eapply wp_load_child; [exact Hy|].
  by apply wp_modify.
Qed.

(** What the second part of [process_wait] returns. *)
Definition wait_result (y : child) : Z := if ch_exit y then ch_status y else -1.

Lemma wp_process_wait pid c x y s (Q : Z -> sys -> Prop) :
  current_is s x -> allocated s (ut_children x) -> child_in (children s) pid (ut_children x) = Some c ->
  children s !! c = Some y -> ch_process_wait y = false -> ch_wait_barrier y <> 0 ->
  Q (wait_result y) (reaped c x s) -> wp (process_wait pid) Q s.
Proof.
  intros Hx Hl Hc Hy Hw Hb HQ. destruct (child_in_some _ _ _ _ Hc) as [Hin _].
  apply wp_bind. eapply wp_get_child; [exact Hx|done|]. rewrite Hc.
  apply wp_bind. eapply wp_load_child; [exact Hy|]. rewrite Hw.
  apply wp_bind. eapply wp_store_child; [exact Hy|].
  apply wp_bind, wp_bind. eapply wp_load_child; [simpl; by rewrite lookup_insert_eq|]. simpl.
  destruct (Z.eqb_spec (ch_wait_barrier y) 0) as [|_]; [done|].
  eapply wp_store_child; [simpl; by rewrite lookup_insert_eq|]. simpl. rewrite insert_insert_eq.
  apply wp_bind. eapply wp_load_child; [simpl; by rewrite lookup_insert_eq|]. simpl.
  assert (Hend : forall z (s1 : sys), s1 = set_children (<[c := z]> (children s)) s -> ch_status z = wait_result y ->
    wp (x ← load_child c; remove_child c;; mret (ch_status x)) Q s1).
  { intros z s1 -> Hz. apply wp_bind. eapply wp_load_child; [simpl; by rewrite lookup_insert_eq|].
    apply wp_bind. eapply (wp_remove_child _ x); [exact Hx|done|simpl; by rewrite lookup_insert_eq|].
    apply wp_ret. rewrite Hz. unfold reaped in *. simpl. by rewrite delete_insert_eq. }
  apply wp_bind, wp_when; intros He.
  - eapply wp_store_child; [simpl; by rewrite lookup_insert_eq|]. simpl. rewrite insert_insert_eq.
    eapply Hend; [done|]. unfold wait_result. by destruct (ch_exit y).
  - eapply Hend; [done|]. unfold wait_result. simpl. by destruct (ch_exit y).
Qed.

(** C12: [process_wait] hands out an exit status once.  For a child whose record it finds:
    if the child has not been waited for and has come to its end, [process_wait] returns
    its exit status, or -1 if the kernel ended it, the record is freed and taken off the
    list of the parent, and a second wait for the same child returns -1 at once; if the
    child still runs, the parent waits; if it has been waited for, the result is -1.  For
    a process that is not a child the result is -1.  No other record changes. *)
Theorem process_wait_once s x pid (Hx : current_is s x) (Hl : allocated s (ut_children x)) :
  match child_in (children s) pid (ut_children x) with
  | None => process_wait pid s = Ok (-1) s
  | Some c => exists y, children s !! c = Some y /\
      if ch_process_wait y then process_wait pid s = Ok (-1) s
      else if ch_wait_barrier y =? 0 then process_wait pid s = Fail WouldBlock
      else wp (process_wait pid) (fun r s' => r = wait_result y /\ s' = reaped c x s /\
             (child_in (children s') pid (filter (fun b => b <> c) (ut_children x)) = None ->
              process_wait pid s' = Ok (-1) s')) s
  end.
Proof.
  assert (Hnone : forall s x, current_is s x -> allocated s (ut_children x) ->
    child_in (children s) pid (ut_children x) = None -> process_wait pid s = Ok (-1) s).
  { intros s0 x0 Hx0 Hl0 Hn. apply wp_eq, wp_bind. eapply wp_get_child; [exact Hx0|done|]. rewrite Hn. by apply wp_ret. }
  destruct (child_in (children s) pid (ut_children x)) as [c|] eqn:Hc; [|by eapply Hnone].
  destruct (child_in_some _ _ _ _ Hc) as (Hin & y & Hy & _). exists y. split; [done|].
  destruct (ch_process_wait y) eqn:Hw.
  { apply wp_eq, wp_bind. eapply wp_get_child; [exact Hx|done|]. rewrite Hc.
    apply wp_bind. eapply wp_load_child; [exact Hy|]. rewrite Hw. by apply wp_ret. }
  destruct (Z.eqb_spec (ch_wait_barrier y) 0) as [Hb|Hb].
  - apply fails_rest. eapply wp_get_child; [exact Hx|done|]. rewrite Hc. apply fails_rest.
    eapply wp_load_child; [exact Hy|]. rewrite Hw. apply fails_rest.
    eapply wp_store_child; [exact Hy|]. apply fails_head, fails_rest.
    eapply wp_load_child; [simpl; by rewrite lookup_insert_eq|]. simpl. by rewrite Hb.
  - eapply (wp_process_wait pid c x y); [done..|]. split; [done|]. split; [done|]. intros Hn.
    apply (Hnone _ (set_ut_children (filter (fun b => b <> c) (ut_children x)) x)); [|simpl|exact Hn].
    + unfold current_is. simpl. by rewrite lookup_insert_eq.
    + unfold allocated in *. rewrite Forall_forall in Hl |- *. intros b [Hne Hb']%list_elem_of_filter. simpl.
      rewrite lookup_delete_ne by done. by apply Hl.
Qed.
End waiting.

(** ** Exit *)
Section exiting.
Context {D B W : Type} {dev : BlockDev D} {bm : Bitmap B} {io : BitmapIO D B} {mem : Memory}
  {sdev : BlockDev W} {pg : Paging}.
Context {dlaws : BlockDevLaws D} {slaws : BlockDevLaws W} {blaws : BitmapLaws B} {pl : PagingLaws}.
Abbreviation sys := (sys D B W).
Implicit Types (s : sys) (c t : nat).

Lemma wp_task_exist tid t x s (Q : bool -> sys -> Prop) :
  uthreads s !! t = Some x -> ut_tid x = tid -> Q true s -> wp (task_exist tid) Q s.
Proof.
  intros Hx Ht HQ. apply wp_gets. replace (existsb _ _) with true; [done|]. symmetry. apply existsb_exists.
  exists (t, x). split; [|simpl; by apply Z.eqb_eq]. apply list_elem_of_In. by apply elem_of_map_to_list.
Qed.

(** *** The records of the children *)
Record children_freed s s' (x : uthread) (l : list nat) : Prop := {
  cf_current : current_is s' (set_ut_children [] x);
  cf_others : forall t, t <> running (sy_vm s) -> uthreads s' !! t = uthreads s !! t;
  cf_vm : sy_vm s' = sy_vm s;
  cf_children : forall c, children s' !! c = if decide (c ∈ l) then None else children s !! c;
}.

Lemma wp_free_child_list l : forall s x (Q : unit -> sys -> Prop),
  current_is s x -> ut_children x = l -> allocated s l -> NoDup l ->
  (forall s', children_freed s s' x l -> Q tt s') -> wp (free_child_list l) Q s.
Proof.
  induction l as [|c l IH]; intros s x Q Hx Hl Ha Hnd HQ; cbn [free_child_list].
  { apply wp_ret, HQ. split; try done. rewrite <- Hl. by destruct x. }
  apply Forall_cons in Ha as [[y Hy] Ha]. apply NoDup_cons in Hnd as [Hn Hnd].
  apply wp_bind. eapply wp_store_current; [exact Hx|].
  apply wp_bind, wp_bind. eapply wp_load_child; [exact Hy|]. apply wp_modify.
  apply (IH _ (set_ut_children l x)); [|done| |done|].
  - unfold current_is. simpl. by rewrite lookup_insert_eq.
  - unfold allocated in *. rewrite Forall_forall in Ha |- *. intros b Hb. simpl.
    rewrite lookup_delete_ne; [by apply Ha|]. by intros ->.
  - intros s' [C1 C2 C3 C4]. apply HQ. split; try done.
    + intros t Ht. rewrite C2 by done. simpl. by rewrite lookup_insert_ne.
    + intros b. rewrite C4. simpl. destruct (decide (b ∈ l)) as [Hb|Hb]; case_decide as Hc; try done.
      * destruct Hc. by right.
      * apply elem_of_cons in Hc as [->|?]; [by rewrite lookup_delete_eq|done].
      * rewrite lookup_delete_ne; [done|]. intros ->. apply Hc. by left.
Qed.

(** *** The end of a process without mappings *)
Record can_exit s pd (t : uthread) c (x : child) (y : os D B) : Prop := {
  ce_ok : vm_ok (sy_vm s) pd;
  ce_heap : heap_ok (sy_vm s);
  ce_unlocked : unlocked (sy_vm s);
  ce_process : process_is s c x;
  ce_current : current_is s t;
  ce_maps : ut_mmap_list t = [];
  ce_children : allocated s (ut_children t) /\ NoDup (ut_children t) /\ c ∉ ut_children t;
  (** The executable can be closed. *)
  ce_file : file_close (ut_file t) (vm_os (sy_vm s)) = Ok tt y /\ held (os_fs y) = ∅;
}.

(** What is left of the process when its parent is woken. *)
Record exited s s' (t : uthread) c (x' : child) (y : os D B) : Prop := {
  xd_child : children s' !! c = Some x';
  xd_kept : forall b, b ≠ c -> b ∉ ut_children t -> children s' !! b = children s !! b;
  xd_threads : forall n, n <> running (sy_vm s) -> uthreads s' !! n = uthreads s !! n;
  xd_procs : forall n, n <> running (sy_vm s) -> procs (sy_vm s') !! n = procs (sy_vm s) !! n;
  xd_frames : frames (sy_vm s') = ∅;
  xd_os : vm_os (sy_vm s') = y;
}.

Lemma wp_exit_begin s pd (t : uthread) c x y (Q : unit -> sys -> Prop) :
  can_exit s pd t c x y ->
  (forall s', exited s s' t c (set_ch_wait_barrier (u32 (ch_wait_barrier x + 1)) x) y -> Q tt s') ->
  wp exit_begin Q s.
Proof.
  intros [H1 H2 H3 (t' & Ht' & Hc & Hx) H5 H6 (H7 & H8 & H9) (H10 & H11)] HQ.
  assert (t' = t) as -> by (unfold current_is in *; congruence).
  apply wp_bind, wp_bind. eapply wp_current_task; [exact H5|]. rewrite H6. apply wp_ret.
  apply wp_bind, wp_lift_vm, (wp_free_pages _ pd); [done..|]. intros v [Hf Hfr Ht].
  assert (H5' : current_is (set_vm v s) t) by (unfold current_is; simpl; by rewrite (pf_run _ _ _ Hf)).
  apply wp_bind, wp_bind. eapply wp_current_task; [exact H5'|].
  apply (wp_free_child_list _ _ t); [done..|]. intros s1 [C1 C2 C3 C4].
  apply wp_bind. eapply wp_current_task; [exact C1|]. apply wp_bind, wp_in_os. simpl ut_file.
  replace (vm_os (sy_vm s1)) with (vm_os (sy_vm s)) by (rewrite C3; symmetry; apply Hf).
  unfold wp at 1. rewrite H10. apply wp_bind. eapply wp_current_task; [exact C1|]. simpl ut_process. rewrite Hc.
  apply wp_bind. eapply wp_load_child; [simpl; rewrite C4, decide_False by done; exact Hx|].
  eapply wp_store_child; [simpl; rewrite C4, decide_False by done; exact Hx|]. apply HQ.
  simpl in C2, C4. rewrite (pf_run _ _ _ Hf) in C2. split; simpl.
  - by rewrite lookup_insert_eq.
  - intros b Hne Hb. rewrite lookup_insert_ne, C4 by done. by rewrite decide_False.
  - done.
  - intros n Hn. rewrite C3. by apply (pf_others _ _ _ Hf).
  - by rewrite C3.
  - done.
Qed.

Lemma wp_set_exit_status s (t : uthread) c x status p tp (Q : unit -> sys -> Prop) :
  process_is s c x -> current_is s t -> uthreads s !! p = Some tp -> ut_tid tp = ut_parent t ->
  Q tt (set_children (<[c := set_ch_exit true (set_ch_status status x)]> (children s))
    (set_console (console s ++ [Exited (ut_name t) status]) s)) ->
  wp (set_exit_status status) Q s.
Proof.
  intros Hp Ht Htp Hid HQ. pose proof Hp as (t' & Ht' & Hc & Hx).
  apply wp_bind. eapply wp_current_task; [exact Ht|]. apply wp_bind, wp_modify.
  apply wp_bind. eapply wp_task_exist; [exact Htp|done|]. apply wp_when; [intros _|done].
  apply wp_bind. eapply (wp_process c x); [exact Hp|]. apply wp_bind. eapply wp_store_child; [exact Hx|].
  apply wp_bind. eapply (wp_process c (set_ch_status status x)).
  { exists t'. split; [done|]. split; [done|]. simpl. by rewrite lookup_insert_eq. }
  eapply wp_store_child; [simpl; by rewrite lookup_insert_eq|]. simpl. by rewrite insert_insert_eq.
Qed.

Lemma wp_switch_to n x pr s (Q : unit -> sys -> Prop) :
  locks_of (sy_vm s) = ∅ -> uthreads s !! n = Some x -> procs (sy_vm s) !! n = Some pr ->
  (forall s', running (sy_vm s') = n -> uthreads s' = uthreads s -> children s' = children s ->
     frames (sy_vm s') = frames (sy_vm s) -> Q tt s') ->
  wp (switch_to n) Q s.
Proof.
  intros Hl Hx Hp HQ. apply wp_bind, wp_get. rewrite bool_decide_true by done.
  apply wp_bind. eapply wp_load_uthread; [exact Hx|]. apply wp_bind, wp_modify, wp_lift_vm.
  apply wp_bind, wp_gets, wp_bind. eapply wp_load_proc; [exact Hp|].
  apply wp_lift_mem, wp_bind, wp_get, wp_modify. by apply HQ.
Qed.

End exiting.

(** ** Creation without memory *)
Section exec_faults.
Context {D B W : Type} {dev : BlockDev D} {bm : Bitmap B} {io : BitmapIO D B} {mem : Memory}
  {sdev : BlockDev W} {pg : Paging}.
Abbreviation sys := (sys D B W).

(** [exec] follows a null pointer when the process cannot be created: without a page for
    the command line, [process_execute] returns [TID_ERROR], no child has that number, and
    [exec] waits on the semaphore of the child that it did not find. *)
Theorem exec_without_memory (s : sys) x x0 cmd_line (Hx : current_is s x) (Hl : allocated s (ut_children x))
    (Hnone : child_in (children s) TID_ERROR (ut_children x) = None)
    (Hmem : palloc_next (has PAL_USER 0) (pages (vm_mem (sy_vm s))) = None) :
  process_execute x0 cmd_line s = Ok TID_ERROR s /\ exec x0 cmd_line s = Fail BadAccess.
Proof.
  assert (He : process_execute x0 cmd_line s = Ok TID_ERROR s).
  { apply wp_eq, wp_bind, wp_lift_vm, wp_lift_mem, wp_bind, wp_get. rewrite Hmem. apply wp_ret, wp_ret.
    split; [done|]. by destruct s as [[]]. }
  split; [done|]. apply fails_rest. apply wp_bind. unfold wp at 1. rewrite He.
  apply wp_bind. eapply wp_get_child; [exact Hx|done|]. rewrite Hnone. by apply wp_ret.
Qed.
End exec_faults.

(** ** A parent and a child *)
#[local] Existing Instance memory_available.
Definition child_thread : uthread := UThread 1 [99] 7 (Some 0%nat) [] None (code_page + 8192) [] [] 1 None None.
Definition parent_thread : uthread := UThread 7 [112] 0 None [0%nat] None 0 [] [] 1 None None.
Definition family : sys disk bits disk :=
  Sys (set_procs (<[1%nat := Process None []]> (procs paged)) paged)
    (<[1%nat := parent_thread]> {[0%nat := child_thread]}) {[0%nat := task_child]} 1 [] [] 8.

Lemma family_ok : vm_ok (sy_vm family) user_dir.
Proof.
  destruct paged_ok as [H1 H2 H3 H4 H5 H6 H7 H8 H9 H10 H11 H12]. split; try done.
  intros f e He. destruct (H5 f e He) as [F1 F2 F3 F4 F5 F6 F7 F8 F9 F10 F11]. by split.
Qed.
Lemma family_heap : heap_ok (sy_vm family).
Proof. destruct paged_heap as [G1 G2 G3 G4]. by split. Qed.

Lemma family_can_exit : can_exit family user_dir child_thread 0 task_child (vm_os (sy_vm family)).
Proof.
  split; try done.
  - apply family_ok.
  - apply family_heap.
  - apply paged_unlocked.
  - by exists child_thread.
  - split_and!; [by apply Forall_nil|apply NoDup_nil_2|by apply not_elem_of_nil].
Qed.


Lemma process_wait_once_witness :
  wp (switch_to 1) (fun _ (s : sys disk bits disk) => process_wait 1 s = Fail WouldBlock /\ process_wait 2 s = Ok (-1) s) family.
Proof.
  assert (H : forall s : sys disk bits disk, current_is s parent_thread -> children s = children family ->
    process_wait 1 s = Fail WouldBlock /\ process_wait 2 s = Ok (-1) s).
  { intros s Hs Hch. assert (Ha : allocated s (ut_children parent_thread)).
    { apply Forall_cons. rewrite Hch. split; [by exists task_child|by apply Forall_nil]. }
    pose proof (process_wait_once s parent_thread 1 Hs Ha) as H1.
    pose proof (process_wait_once s parent_thread 2 Hs Ha) as H2.
    rewrite Hch in H1, H2. simpl in H1, H2. destruct H1 as (y & Hy & H1). injection Hy as <-. by split. }
  eapply (wp_switch_to 1 parent_thread (Process None [])); [done..|].
  intros s R1 R2 R3 _. apply H; [unfold current_is; by rewrite R1, R2|done].
Defined.

(** A child that outlives its parent stops the kernel: the parent frees the records of
    its children when it exits, and the child raises a semaphore in its record. *)
Theorem orphan_exit_faults :
  wp (switch_to 1;; exit (A := unit) 0;; switch_to 0) (fun _ (s : sys disk bits disk) => exit (A := unit) 3 s = Fail BadAccess) family.
Proof. vm_compute. reflexivity. Qed.

(** A parent that runs as soon as it is woken frees the record that the child still uses:
    [process_exit] raises [wait_barrier] and then closes the files of the record. *)
Theorem early_wait_frees_record :
  wp (set_exit_status 5;; exit_begin;; switch_to 1;; r ← process_wait 1; switch_to 0;; mret r)
    (fun r (s : sys disk bits disk) => r = 5 /\ exit_end s = Fail BadAccess) family.
Proof. vm_compute. split; reflexivity. Qed.

(** A blank command line stops the kernel: it has no first word, and [init_thread] asserts
    that the thread has a name. *)
Theorem exec_blank_panics : exec task_child [SPACE; SPACE] family = Fail Panic.
Proof. vm_compute. reflexivity. Qed.
