(* ===== verification/Init.v ===== *)
(** * Init: the start of the kernel ([threads/init.c]).

    [main] reads the words of the kernel command line ([command_line_round_trip]), takes
    the options off ([parse_options_round_trip]), chooses the block devices of the roles
    ([locate_block_devices_spec]) and runs the actions that remain in their order
    ([run_actions_in_order]); among them are the console utilities of Fsutil and, with
    [run], the processes of Process. *)
From S2P Require Import Prelude Bytes State Instances FreeMap Inode Directory File Fsutil Pagedir Vm Task Process.
From Stdlib Require Import ZArith Lia.
From stdpp Require Import prelude gmap strings.

Open Scope Z_scope.

(** A string literal as the bytes in front of its null. *)
Definition str (s : string) : list Z := (fun a => Z.of_N (Ascii.N_of_ascii a)) <$> String.list_ascii_of_string s.

Inductive shutdown_type := SHUTDOWN_POWER_OFF | SHUTDOWN_REBOOT.
Inductive block_role := BLOCK_FILESYS | BLOCK_SCRATCH | BLOCK_SWAP | BLOCK_KERNEL | BLOCK_RAW | BLOCK_FOREIGN.
#[export] Instance block_role_eq_dec : EqDecision block_role.
Proof. solve_decision. Defined.

Inductive boot_message :=
| Command_line (argv : list (list Z)) | Usage
| Using (role : block_role) (block : nat).

(** What the options set; [seeds] are the arguments of [random_init], the last one first
    (the generator keeps the seed of the first call). *)
Record options := Options {
  shutdown_how : option shutdown_type;
  format_filesys : bool;
  filesys_bdev_name : option (list Z);
  scratch_bdev_name : option (list Z);
  swap_bdev_name : option (list Z);
  seeds : list Z;
  thread_mlfqs : bool;
  user_page_limit : Z;
  roles : list (block_role * nat);       (* the assignments of [block_set_role], the last one first *)
  messages : list boot_message;
}.
Definition default_options : options := Options None false None None None [] false SIZE_MAX [] [].
Definition set_shutdown x o := Options x (format_filesys o) (filesys_bdev_name o) (scratch_bdev_name o) (swap_bdev_name o) (seeds o) (thread_mlfqs o) (user_page_limit o) (roles o) (messages o).
Definition set_format x o := Options (shutdown_how o) x (filesys_bdev_name o) (scratch_bdev_name o) (swap_bdev_name o) (seeds o) (thread_mlfqs o) (user_page_limit o) (roles o) (messages o).
Definition set_filesys_bdev x o := Options (shutdown_how o) (format_filesys o) x (scratch_bdev_name o) (swap_bdev_name o) (seeds o) (thread_mlfqs o) (user_page_limit o) (roles o) (messages o).
Definition set_scratch_bdev x o := Options (shutdown_how o) (format_filesys o) (filesys_bdev_name o) x (swap_bdev_name o) (seeds o) (thread_mlfqs o) (user_page_limit o) (roles o) (messages o).
Definition set_swap_bdev x o := Options (shutdown_how o) (format_filesys o) (filesys_bdev_name o) (scratch_bdev_name o) x (seeds o) (thread_mlfqs o) (user_page_limit o) (roles o) (messages o).
Definition random_init x o := Options (shutdown_how o) (format_filesys o) (filesys_bdev_name o) (scratch_bdev_name o) (swap_bdev_name o) (x :: seeds o) (thread_mlfqs o) (user_page_limit o) (roles o) (messages o).
Definition set_mlfqs x o := Options (shutdown_how o) (format_filesys o) (filesys_bdev_name o) (scratch_bdev_name o) (swap_bdev_name o) (seeds o) x (user_page_limit o) (roles o) (messages o).
Definition set_page_limit x o := Options (shutdown_how o) (format_filesys o) (filesys_bdev_name o) (scratch_bdev_name o) (swap_bdev_name o) (seeds o) (thread_mlfqs o) x (roles o) (messages o).
Definition block_set_role r b o := Options (shutdown_how o) (format_filesys o) (filesys_bdev_name o) (scratch_bdev_name o) (swap_bdev_name o) (seeds o) (thread_mlfqs o) (user_page_limit o) ((r, b) :: roles o) (messages o).
Definition add_message x o := Options (shutdown_how o) (format_filesys o) (filesys_bdev_name o) (scratch_bdev_name o) (swap_bdev_name o) (seeds o) (thread_mlfqs o) (user_page_limit o) (roles o) (messages o ++ [x]).

(** ** The command line *)
Fixpoint strnlen (l : list Z) : Z :=
  match l with [] => 0 | x :: l' => if x =? 0 then 0 else 1 + strnlen l' end.

Section command_line.
(** [loader.h], [atoi] and the clock are not among the sources. *)
Context (LOADER_ARGS_LEN : Z) (atoi : list Z -> Z) (rtc_get_time : Z).
Abbreviation K := (M options).

(** An access to [argv] with an index out of range. *)
Definition within (c : bool) : K unit := if c then mret tt else fail BadAccess.

(** The loop over [i]: the pointers stored into [argv], an array of
    [LOADER_ARGS_LEN / 2 + 1] elements, as offsets in the block of the arguments. *)
Fixpoint read_args (n : nat) (i p : Z) (args : list Z) : K (list Z) :=
  match n with
  | O => mret []
  | S n =>
    assert (p <? LOADER_ARGS_LEN);;
    within (i <? LOADER_ARGS_LEN / 2 + 1);;
    ps ← read_args n (i + 1) (p + strnlen (drop (Z.to_nat p) args) + 1) args;
    mret (p :: ps)
  end.
(** The [argc] strings, up to the null pointer. *)
Fixpoint pointed_to (ps args : list Z) : K (list (list Z)) :=
  match ps with
  | [] => mret []
  | p :: ps => w ← deref (c_string (drop (Z.to_nat p) args)); ws ← pointed_to ps args; mret (w :: ws)
  end.
Definition read_command_line (arg_cnt : Z) (args : list Z) : K (list (list Z)) :=
  let argc := s32 arg_cnt in
  ps ← read_args (Z.to_nat argc) 0 0 args;
  within ((0 <=? argc) && (argc <? LOADER_ARGS_LEN / 2 + 1));;
  ws ← pointed_to ps args;
  modify (add_message (Command_line ws));;
  mret ws.

Definition DASH : Z := 45.
Definition EQUALS : Z := 61.
Fixpoint before (c : Z) (l : list Z) : list Z :=
  match l with [] => [] | x :: l' => if x =? c then [] else x :: before c l' end.
(** [strtok_r ( *argv, "=", &save_ptr)] and [strtok_r (NULL, "", &save_ptr)] on a word that
    does not begin with "=". *)
Definition option_name (arg : list Z) : list Z := before EQUALS arg.
Definition option_value (arg : list Z) : option (list Z) :=
  match drop (S (length (option_name arg))) arg with [] => None | v => Some v end.

Definition is_option (arg : list Z) : bool := match arg with x :: _ => x =? DASH | [] => false end.
Definition is_named (s : string) (name : list Z) : bool := bool_decide (name = str s).

(** The body of the loop; the result is false when [usage] has switched the machine off. *)
Definition parse_option (arg : list Z) : K bool :=
  let name := option_name arg in
  let value := option_value arg in
  if is_named "-h" name then modify (add_message Usage);; mret false
  else if is_named "-q" name then modify (set_shutdown (Some SHUTDOWN_POWER_OFF));; mret true
  else if is_named "-r" name then modify (set_shutdown (Some SHUTDOWN_REBOOT));; mret true
  else if is_named "-f" name then modify (set_format true);; mret true
  else if is_named "-filesys" name then modify (set_filesys_bdev value);; mret true
  else if is_named "-scratch" name then modify (set_scratch_bdev value);; mret true
  else if is_named "-swap" name then modify (set_swap_bdev value);; mret true
  else if is_named "-rs" name then v ← deref value; modify (random_init (u32 (atoi v)));; mret true
  else if is_named "-mlfqs" name then modify (set_mlfqs true);; mret true
  else if is_named "-ul" name then v ← deref value; modify (set_page_limit (u32 (atoi v)));; mret true
  else fail Panic.

(** The first argument that is not an option and those behind it. *)
Fixpoint parse_options (argv : list (list Z)) : K (option (list (list Z))) :=
  match argv with
  | arg :: argv' =>
    if is_option arg then
      b ← parse_option arg;
      match b with true => parse_options argv' | false => mret None end
    else modify (random_init rtc_get_time);; mret (Some argv)
  | [] => modify (random_init rtc_get_time);; mret (Some [])
  end.
End command_line.

(** ** Block devices ([devices/block.h]) *)
Class Blocks := {
  (** The devices in probe order, as [block_first] and [block_next] go through them. *)
  probed : list nat;
  block_type : nat -> block_role;
  block_get_by_name : list Z -> option nat;
}.

Section devices.
Context {bl : Blocks}.
Abbreviation K := (M options).

Definition locate_block_device (role : block_role) (name : option (list Z)) : K unit :=
  o ← (match name with
       | Some name => match block_get_by_name name with Some b => mret (Some b) | None => fail Panic end
       | None => mret (List.find (fun b => bool_decide (block_type b = role)) probed)
       end);
  match o with
  | Some b => modify (add_message (Using role b));; modify (block_set_role role b)
  | None => mret tt
  end.
(** [locate_block_devices] up to the call of [init_swap]. *)
Definition locate_roles : K unit :=
  n ← gets filesys_bdev_name; locate_block_device BLOCK_FILESYS n;;
  n ← gets scratch_bdev_name; locate_block_device BLOCK_SCRATCH n;;
  n ← gets swap_bdev_name; locate_block_device BLOCK_SWAP n.
End devices.

(** ** The actions *)
Inductive kernel_line := Executing (task : list Z) | Complete (task : list Z) | Printed (l : line).

(** The processes with the file system, the memory and the swap device; what the kernel
    thread prints; the scratch device and the static counters of [fsutil.c]. *)
Record kernel (D B W X : Type) := Kernel {
  k_sys : sys D B W;
  k_console : list kernel_line;
  k_scratch : option X;
  k_extract : Z;
  k_append : Z;
}.
Arguments Kernel {D B W X}. Arguments k_sys {D B W X}. Arguments k_console {D B W X}.
Arguments k_scratch {D B W X}. Arguments k_extract {D B W X}. Arguments k_append {D B W X}.

Section actions.
Context {D B W X : Type} {dev : BlockDev D} {bm : Bitmap B} {io : BitmapIO D B} {mem : Memory}
  {sdev : BlockDev W} {pg : Paging} {xdev : BlockDev X} {us : Ustar}.
Abbreviation kernel := (kernel D B W X).
Abbreviation K := (M kernel).

(** Values that the code leaves undefined: the record of a new child, an entry of a
    directory and the byte behind a buffer; whether a page is left for [cat]; and what the
    other threads do while the kernel waits for the process [pid]. *)
Context (x0 : child) (e0 : list Z) (after : Z) (page_ok : bool) (others : Z -> M (sys D B W) unit).

Definition on_sys {A} (m : M (sys D B W) A) : K A := fun s =>
  match m (k_sys s) with
  | Ok a x => Ok a (Kernel x (k_console s) (k_scratch s) (k_extract s) (k_append s))
  | Fail f => Fail f
  end.
Definition on_fsutil {A} (m : M (fsu D B X) A) : K A := fun s =>
  match m (Fsu (vm_os (sy_vm (k_sys s))) [] (k_scratch s) (k_extract s) (k_append s)) with
  | Ok a u => Ok a (Kernel (set_vm (set_os (u_os u) (sy_vm (k_sys s))) (k_sys s)) (k_console s ++ (Printed <$> u_console u))
                      (u_scratch u) (u_extract u) (u_append u))
  | Fail f => Fail f
  end.
Definition kernel_print (l : kernel_line) : K unit :=
  modify (fun s => Kernel (k_sys s) (k_console s ++ [l]) (k_scratch s) (k_extract s) (k_append s)).

Definition run_task (argv : list (list Z)) : K unit :=
  task ← deref (argv !! 1%nat);
  kernel_print (Executing task);;
  pid ← on_sys (process_execute x0 task);
  on_sys (others pid);;
  on_sys (process_wait pid);;
  kernel_print (Complete task).

Record action := Action { a_name : list Z; a_argc : nat; a_function : list (list Z) -> K unit }.
Definition actions : list action := [
  Action (str "run") 2 run_task;
  Action (str "ls") 1 (fun argv => on_fsutil (fsutil_ls argv));
  Action (str "cat") 2 (fun argv => on_fsutil (fsutil_cat page_ok argv));
  Action (str "rm") 2 (fun argv => on_fsutil (fsutil_rm argv));
  Action (str "extract") 1 (fun argv => on_fsutil (fsutil_extract e0 argv));
  Action (str "append") 2 (fun argv => on_fsutil (fsutil_append after argv))
].

Definition find_action (name : list Z) : option action :=
  List.find (fun a => bool_decide (name = a_name a)) actions.

(** [while ( *argv != NULL)], with a unit of fuel for every word. *)
Fixpoint run_actions_loop (fuel : nat) (argv : list (list Z)) : K unit :=
  match argv with
  | [] => mret tt
  | name :: _ =>
    match fuel with
    | O => fail Hang
    | S fuel =>
      match find_action name with
      | None => fail Panic
      | Some a =>
        assert (bool_decide (a_argc a <= length argv)%nat);;
        a_function a argv;;
        run_actions_loop fuel (drop (a_argc a) argv)
      end
    end
  end.
Definition run_actions (argv : list (list Z)) : K unit := run_actions_loop (length argv) argv.
End actions.

(** ** The theorems about the command line *)
Section command_line_theorems.
Context (LOADER_ARGS_LEN : Z).
Implicit Types ws : list (list Z).

(** The words one after the other, as the loader leaves them. *)
Definition packed ws : list Z := concat ((fun w => w ++ [0]) <$> ws).

Lemma packed_cons w ws tail : packed (w :: ws) ++ tail = w ++ 0 :: packed ws ++ tail.
Proof. unfold packed. simpl. by rewrite <- !app_assoc. Qed.

Lemma strnlen_word w l : 0 ∉ w -> strnlen (w ++ 0 :: l) = Z.of_nat (length w).
Proof.
  induction w as [|x w IH]; intros H; [done|]. apply not_elem_of_cons in H as [H1 H2]. cbn [strnlen app].
  destruct (Z.eqb_spec x 0); [done|]. rewrite IH by done. simpl length. lia.
Qed.
Lemma c_string_word w l : 0 ∉ w -> c_string (w ++ 0 :: l) = Some w.
Proof.
  induction w as [|x w IH]; intros H; [done|]. apply not_elem_of_cons in H as [H1 H2]. cbn [c_string app].
  destruct (Z.eqb_spec x 0); [done|]. by rewrite IH.
Qed.

(** The offsets of the words from [p] on. *)
Fixpoint offsets p ws : list Z :=
  match ws with [] => [] | w :: ws => p :: offsets (p + Z.of_nat (length w) + 1) ws end.

Lemma wp_read_args ws pre tail i s (Q : list Z -> options -> Prop) :
  Forall (fun w => w <> [] /\ 0 ∉ w) ws -> Z.of_nat (length (pre ++ packed ws ++ tail)) = LOADER_ARGS_LEN ->
  0 <= i -> 2 * i <= Z.of_nat (length pre) ->
  Q (offsets (Z.of_nat (length pre)) ws) s ->
  wp (read_args LOADER_ARGS_LEN (length ws) i (Z.of_nat (length pre)) (pre ++ packed ws ++ tail)) Q s.
Proof.
  revert pre i Q. induction ws as [|w ws IH]; intros pre i Q Hws Hlen Hi Hp HQ; [done|].
  apply Forall_cons in Hws as [[Hne H0] Hws]. rewrite packed_cons in *.
  assert (Hw : (0 < length w)%nat) by (destruct w; [done|simpl; lia]).
  rewrite !length_app in Hlen. simpl in Hlen. rewrite length_app in Hlen. cbn [length read_args].
  apply wp_bind, wp_assert; [zcase|]. apply wp_bind. unfold within.
  destruct (Z.ltb_spec i (LOADER_ARGS_LEN / 2 + 1)); [|Z.div_mod_to_equations; lia]. apply wp_ret.
  rewrite Nat2Z.id, drop_app_length, strnlen_word by done.
  apply wp_bind. specialize (IH (pre ++ w ++ [0]) (i + 1)).
  rewrite !length_app in IH. simpl in IH. rewrite <- !app_assoc in IH. simpl in IH.
  replace (Z.of_nat (length pre + (length w + 1))) with (Z.of_nat (length pre) + Z.of_nat (length w) + 1) in IH by lia.
  apply IH; [done|lia|lia|lia|by apply wp_ret].
Qed.

Lemma wp_pointed_to ws pre tail s (Q : list (list Z) -> options -> Prop) :
  Forall (fun w => w <> [] /\ 0 ∉ w) ws -> Q ws s ->
  wp (pointed_to (offsets (Z.of_nat (length pre)) ws) (pre ++ packed ws ++ tail)) Q s.
Proof.
  revert pre Q. induction ws as [|w ws IH]; intros pre Q Hws HQ; [done|].
  apply Forall_cons in Hws as [[Hne H0] Hws]. rewrite packed_cons.
  cbn [offsets pointed_to]. rewrite Nat2Z.id, drop_app_length, c_string_word by done.
  apply wp_bind. eapply wp_deref; [done|]. apply wp_bind. specialize (IH (pre ++ w ++ [0])).
  rewrite !length_app in IH. simpl in IH. rewrite <- !app_assoc in IH. simpl in IH.
  replace (Z.of_nat (length pre + (length w + 1))) with (Z.of_nat (length pre) + Z.of_nat (length w) + 1) in IH by lia.
  apply IH; [done|]. by apply wp_ret.
Qed.

Lemma packed_length ws : Forall (fun w => w <> [] /\ 0 ∉ w) ws -> (2 * length ws <= length (packed ws))%nat.
Proof.
  induction ws as [|w ws IH]; [done|]. intros [[H _] H2]%Forall_cons. specialize (IH H2).
  rewrite <- (app_nil_r (packed _)), packed_cons, app_nil_r, length_app. destruct w; [done|]. simpl. lia.
Qed.

Lemma read_command_line_words ws tail o :
  Forall (fun w => w <> [] /\ 0 ∉ w) ws -> Z.of_nat (length (packed ws ++ tail)) = LOADER_ARGS_LEN ->
  LOADER_ARGS_LEN <= INT_MAX ->
  read_command_line LOADER_ARGS_LEN (Z.of_nat (length ws)) (packed ws ++ tail) o =
    Ok ws (add_message (Command_line ws) o).
Proof.
  intros Hws Hlen Hmax. pose proof (packed_length ws Hws) as Hp. rewrite length_app in Hlen.
  assert (H : wp (read_command_line LOADER_ARGS_LEN (Z.of_nat (length ws)) (packed ws ++ tail))
    (fun r s => r = ws /\ s = add_message (Command_line ws) o) o).
  { unfold read_command_line. rewrite s32_small, Nat2Z.id by lia. apply wp_bind.
    apply (wp_read_args ws [] tail 0); [done|simpl; rewrite length_app; lia|lia|simpl; lia|].
    apply wp_bind. unfold within. destruct (Z.leb_spec 0 (Z.of_nat (length ws))); [|lia].
    destruct (Z.ltb_spec (Z.of_nat (length ws)) (LOADER_ARGS_LEN / 2 + 1)); [|Z.div_mod_to_equations; lia].
    apply wp_ret, wp_bind, (wp_pointed_to ws []); [done|]. by apply wp_bind, wp_modify, wp_ret. }
  unfold wp in H. destruct (read_command_line _ _ _ _); [|done]. by destruct H as [-> ->].
Qed.

(** [read_command_line].  Words that are packed one after the other, each with its null,
    into the block of the loader come out as they went in, and [argv] has room for them
    all, if no word is empty: an element of [argv] for every two bytes is enough. *)
Theorem command_line_round_trip ws tail o :
  Forall (fun w => w <> [] /\ 0 ∉ w) ws -> Z.of_nat (length (packed ws ++ tail)) = LOADER_ARGS_LEN ->
  LOADER_ARGS_LEN <= INT_MAX ->
  read_command_line LOADER_ARGS_LEN (Z.of_nat (length ws)) (packed ws ++ tail) o =
    Ok ws (add_message (Command_line ws) o).
Proof. by apply read_command_line_words. Qed.
End command_line_theorems.

(** The value of an option is followed even if there is none. *)
Lemma option_without_value atoi o : parse_option atoi (str "-rs") o = Fail BadAccess.
Proof. done. Qed.

(** Empty words take one byte each: more of them fit into the block than [argv] has
    elements. *)
Lemma empty_arguments_overflow o : read_command_line 128 65 (replicate 128 0) o = Fail BadAccess.
Proof. by vm_compute. Qed.

(** ** The theorems about the options *)
Section option_theorems.
Context (atoi : list Z -> Z) (itoa : Z -> list Z) (rtc_get_time : Z).
Abbreviation parse_options := (parse_options atoi rtc_get_time).
Implicit Types (o : options) (rest : list (list Z)).

(** The command line for some options; [itoa] writes a number in decimal. *)
Definition assign (name : string) (v : list Z) : list Z := str name ++ EQUALS :: v.
Definition render_if (name : string) (b : bool) : list (list Z) := if b then [str name] else [].
Definition render_value (name : string) (v : option (list Z)) : list (list Z) :=
  match v with Some v => [assign name v] | None => [] end.
Definition render_shutdown (x : option shutdown_type) : list (list Z) :=
  match x with
  | Some SHUTDOWN_POWER_OFF => [str "-q"] | Some SHUTDOWN_REBOOT => [str "-r"] | None => []
  end.
Definition render_seeds (l : list Z) : list (list Z) := (fun x => assign "-rs" (itoa x)) <$> rev l.
Definition render o : list (list Z) :=
  render_shutdown (shutdown_how o) ++ render_if "-f" (format_filesys o) ++
  render_value "-filesys" (filesys_bdev_name o) ++ render_value "-scratch" (scratch_bdev_name o) ++
  render_value "-swap" (swap_bdev_name o) ++ render_seeds (seeds o) ++
  render_if "-mlfqs" (thread_mlfqs o) ++
  render_value "-ul" (if user_page_limit o =? SIZE_MAX then None else Some (itoa (user_page_limit o))).

Lemma parse_options_step arg rest o o' :
  is_option arg = true -> parse_option atoi arg o = Ok true o' ->
  parse_options (arg :: rest) o = parse_options rest o'.
Proof. intros H1 H2. cbn [Init.parse_options]. rewrite H1. unfold mbind, M_bind. by rewrite H2. Qed.
#[local] Arguments Init.parse_options : simpl never.

(** Options that take a value; the value may contain an "=". *)
Lemma parse_value name (set : option (list Z) -> options -> options) v rest o :
  (forall x, x <> [] -> is_option (assign name x) = true /\
     parse_option atoi (assign name x) o = Ok true (set (Some x) o)) ->
  set None o = o -> v <> Some [] ->
  parse_options (render_value name v ++ rest) o = parse_options rest (set v o).
Proof.
  intros H H0 Hv. destruct v as [x|]; simpl; [|by rewrite H0].
  destruct (H x) as [H1 H2]; [congruence|]. by apply parse_options_step.
Qed.
Lemma parse_if name (set : bool -> options -> options) b rest o :
  is_option (str name) = true -> parse_option atoi (str name) o = Ok true (set true o) ->
  set false o = o -> parse_options (render_if name b ++ rest) o = parse_options rest (set b o).
Proof. intros H1 H2 H3. destruct b; simpl; [by apply parse_options_step|by rewrite H3]. Qed.

Context (itoa_digits : forall z, itoa z <> []) (atoi_itoa : forall z, 0 <= z <= INT_MAX -> atoi (itoa z) = z).

Lemma u32_atoi z : 0 <= z <= INT_MAX -> u32 (atoi (itoa z)) = z.
Proof. intros H. rewrite atoi_itoa, u32_small; [done|unfold INT_MAX, UINT32 in *; lia|done]. Qed.

Lemma assigned_seed x o : x <> [] ->
  is_option (assign "-rs" x) = true /\ parse_option atoi (assign "-rs" x) o = Ok true (random_init (u32 (atoi x)) o).
Proof. intros H. split; [done|]. by destruct x. Qed.

Definition add_seeds l o : options :=
  Options (shutdown_how o) (format_filesys o) (filesys_bdev_name o) (scratch_bdev_name o)
    (swap_bdev_name o) (l ++ seeds o) (thread_mlfqs o) (user_page_limit o) (roles o) (messages o).

Lemma parse_seeds l rest o :
  Forall (fun x => 0 <= x <= INT_MAX) l ->
  parse_options (render_seeds l ++ rest) o =
    parse_options rest (add_seeds l o).
Proof.
  revert rest. induction l as [|x l IH]; intros rest Hl; [by destruct o|]. apply Forall_cons in Hl as [Hx Hl].
  unfold render_seeds in *. simpl. rewrite fmap_app, <- app_assoc, IH by done. simpl.
  destruct (assigned_seed (itoa x) (add_seeds l o)) as [H1 H2]; [done|].
  erewrite parse_options_step by done. by rewrite u32_atoi.
Qed.

(** The defaults, after some messages. *)
Definition greeted (ms : list boot_message) : options := Options None false None None None [] false SIZE_MAX [] ms.
Lemma parse_options_render o actions :
  roles o = [] ->
  Forall (fun v => v <> Some []) [filesys_bdev_name o; scratch_bdev_name o; swap_bdev_name o] ->
  Forall (fun x => 0 <= x <= INT_MAX) (seeds o) ->
  user_page_limit o = SIZE_MAX \/ 0 <= user_page_limit o <= INT_MAX ->
  match actions with w :: _ => is_option w = false | [] => True end ->
  parse_options (render o ++ actions) (greeted (messages o)) = Ok (Some actions) (random_init rtc_get_time o).
Proof.
  intros Hr Hn Hs Hl Ha. unfold render. rewrite <- !app_assoc.
  rewrite !Forall_cons in Hn. destruct Hn as (N1 & N2 & N3 & _).
  assert (E : forall rest, parse_options (render_shutdown (shutdown_how o) ++ rest) (greeted (messages o)) =
    parse_options rest (set_shutdown (shutdown_how o) (greeted (messages o)))).
  { intros rest. by destruct (shutdown_how o) as [[]|]; [apply parse_options_step..|]. }
  rewrite E. clear E.
  rewrite (parse_if "-f" set_format) by done.
  rewrite (parse_value "-filesys" set_filesys_bdev) by (done || by intros [|z x] Hx).
  rewrite (parse_value "-scratch" set_scratch_bdev) by (done || by intros [|z x] Hx).
  rewrite (parse_value "-swap" set_swap_bdev) by (done || by intros [|z x] Hx).
  rewrite parse_seeds, (parse_if "-mlfqs" set_mlfqs) by done.
  set (limit := if _ =? _ then None else _).
  rewrite (parse_value "-ul" (fun v => set_page_limit (match v with Some v => u32 (atoi v) | None => SIZE_MAX end)))
    by (done || (unfold limit; destruct (_ =? _); congruence || by intros [= ?%itoa_digits]) || by intros [|z x] Hx).
  assert (E : forall p, parse_options actions p = Ok (Some actions) (random_init rtc_get_time p)).
  { intros p. destruct actions as [|w ws]; [done|]. unfold Init.parse_options. by rewrite Ha. }
  rewrite E. do 2 f_equal.
  assert (L : match limit with Some v => u32 (atoi v) | None => SIZE_MAX end = user_page_limit o).
  { unfold limit. destruct (Z.eqb_spec (user_page_limit o) SIZE_MAX); [done|]. apply u32_atoi. by destruct Hl. }
  rewrite L. destruct o. unfold add_seeds. simpl in *. by rewrite app_nil_r, Hr.
Qed.

(** C33: [parse_options].  From the defaults, the options that a command line spells out are
    the ones set, in particular a device name with all that follows the first "=", and the
    words from the first one that is no option on are returned untouched; the seed from the
    clock comes last. *)
Theorem parse_options_round_trip o actions :
  roles o = [] -> messages o = [] ->
  Forall (fun v => v <> Some []) [filesys_bdev_name o; scratch_bdev_name o; swap_bdev_name o] ->
  Forall (fun x => 0 <= x <= INT_MAX) (seeds o) ->
  user_page_limit o = SIZE_MAX \/ 0 <= user_page_limit o <= INT_MAX ->
  match actions with w :: _ => is_option w = false | [] => True end ->
  parse_options (render o ++ actions) default_options = Ok (Some actions) (random_init rtc_get_time o).
Proof. intros Hr Hm. pose proof (parse_options_render o actions Hr) as H. by rewrite Hm in H. Qed.
End option_theorems.

(** ** The theorems about the devices and the actions *)
Section device_theorems.
Context {bl : Blocks}.
Implicit Types (o : options) (r : block_role).

Definition with_roles rs ms o := Options (shutdown_how o) (format_filesys o) (filesys_bdev_name o) (scratch_bdev_name o) (swap_bdev_name o) (seeds o) (thread_mlfqs o) (user_page_limit o) rs ms.
Definition role_of r o : option nat := snd <$> List.find (fun p => bool_decide (p.1 = r)) (roles o).
Definition wanted o : list (block_role * option (list Z)) :=
  [(BLOCK_FILESYS, filesys_bdev_name o); (BLOCK_SCRATCH, scratch_bdev_name o); (BLOCK_SWAP, swap_bdev_name o)].
Definition device_for r (name : option (list Z)) : option nat :=
  match name with
  | Some name => block_get_by_name name
  | None => List.find (fun b => bool_decide (block_type b = r)) probed
  end.

#[local] Arguments device_for : simpl never.

Lemma locate_block_device_run r name o :
  locate_block_device r name o =
    match device_for r name with
    | Some b => Ok tt (block_set_role r b (add_message (Using r b) o))
    | None => match name with Some _ => Fail Panic | None => Ok tt o end
    end.
Proof.
  unfold locate_block_device, device_for, mbind, M_bind.
  destruct name as [n|]; [by destruct (block_get_by_name n)|]. simpl. by destruct (List.find _ _).
Qed.

(** [locate_block_devices], up to [init_swap].  Without a device of a given name the
    kernel panics; otherwise each of the three roles goes to the device named for it or
    else to the first one of its type in probe order, and a role without such a device,
    and every other role, stays as it was. *)
Theorem locate_block_devices_spec o :
  if existsb (fun p => match p.2 with Some n => negb (bool_decide (is_Some (block_get_by_name n))) | None => false end)
       (wanted o)
  then locate_roles o = Fail Panic
  else exists rs ms, locate_roles o = Ok tt (with_roles rs ms o) /\
    forall r, role_of r (with_roles rs ms o) =
      match List.find (fun p => bool_decide (p.1 = r)) (wanted o) with
      | Some (_, name) => match device_for r name with Some b => Some b | None => role_of r o end
      | None => role_of r o
      end.
Proof.
  unfold locate_roles, mbind, M_bind, gets, wanted. rewrite locate_block_device_run.
  cbn [existsb List.find fst snd].
  assert (Hd : forall r name, match name with Some n => negb (bool_decide (is_Some (block_get_by_name n))) | None => false end =
    match name, device_for r name with Some _, None => true | _, _ => false end).
  { intros r [n|]; [|done]. unfold device_for. by destruct (block_get_by_name n). }
  rewrite (Hd BLOCK_FILESYS), (Hd BLOCK_SCRATCH), (Hd BLOCK_SWAP).
  destruct o as [how fmt f c w sd ml ul rs ms]. cbn [filesys_bdev_name scratch_bdev_name swap_bdev_name].
  destruct f as [f|], (device_for BLOCK_FILESYS _) as [b1|] eqn:E1; cbn [orb]; try done;
    rewrite locate_block_device_run; cbn [scratch_bdev_name block_set_role add_message];
    (destruct c as [c|], (device_for BLOCK_SCRATCH _) as [b2|] eqn:E2; cbn [orb]; try done;
      rewrite locate_block_device_run; cbn [swap_bdev_name block_set_role add_message];
      (destruct w as [w|], (device_for BLOCK_SWAP _) as [b3|] eqn:E3; cbn [orb]; try done;
        (do 2 eexists; split; [unfold with_roles; reflexivity|by intros []; simpl; rewrite ?E1, ?E2, ?E3]))).
Qed.
End device_theorems.

Section action_theorems.
Context {D B W X : Type} {dev : BlockDev D} {bm : Bitmap B} {io : BitmapIO D B} {mem : Memory}
  {sdev : BlockDev W} {pg : Paging} {xdev : BlockDev X} {us : Ustar}.
Context (x0 : child) (e0 : list Z) (after : Z) (page_ok : bool) (others : Z -> M (sys D B W) unit).
Implicit Types (s : kernel D B W X) (ws bad : list (list Z)).
Abbreviation action := (@action D B W X).
Abbreviation find_action := (find_action (D := D) (B := B) (W := W) (X := X) x0 e0 after page_ok others).
Abbreviation run_actions := (run_actions (D := D) (B := B) (W := W) (X := X) x0 e0 after page_ok others).
Abbreviation run_actions_loop := (run_actions_loop (D := D) (B := B) (W := W) (X := X) x0 e0 after page_ok others).

(** The words of an action: its name and the arguments that it requires. *)
Definition action_line (p : action * list (list Z)) : Prop :=
  exists name args, p.2 = name :: args /\ find_action name = Some p.1 /\ length p.2 = a_argc p.1.
Definition all_words (l : list (action * list (list Z))) : list (list Z) := concat (snd <$> l).
(** Words that begin with no action, or with one that lacks arguments. *)
Definition stuck bad : Prop :=
  match bad with
  | name :: _ => match find_action name with Some a => (length bad < a_argc a)%nat | None => True end
  | [] => False
  end.
Definition perform_line (p : action * list (list Z)) : M (kernel D B W X) unit := a_function p.1 p.2.

(** An action looks at its own words only. *)
Lemma action_own_words name (a : action) ws rest :
  find_action name = Some a -> length ws = a_argc a -> a_function a (ws ++ rest) = a_function a ws.
Proof.
  intros H. apply List.find_some in H as [H _]. simpl in H.
  destruct H as [<-|[<-|[<-|[<-|[<-|[<-|[]]]]]]]; simpl; intros Hl; destruct ws as [|x [|y ws]]; done.
Qed.
Lemma action_argc name (a : action) : find_action name = Some a -> (0 < a_argc a)%nat.
Proof.
  intros H. apply List.find_some in H as [H _]. simpl in H.
  destruct H as [<-|[<-|[<-|[<-|[<-|[<-|[]]]]]]]; simpl; lia.
Qed.

Lemma run_loop_line p rest fuel s :
  action_line p -> (length (p.2 ++ rest) <= fuel)%nat ->
  exists fuel', (length rest <= fuel')%nat /\
    run_actions_loop fuel (p.2 ++ rest) s = (perform_line p;; run_actions_loop fuel' rest) s.
Proof.
  destruct p as [a ws]. intros (name & args & Hws & Hf & Hl) Hfu. simpl in *. subst ws.
  destruct fuel as [|fuel]; [simpl in Hfu; lia|]. exists fuel. split; [simpl in Hfu; rewrite length_app in Hfu; lia|].
  cbn [Init.run_actions_loop app]. rewrite Hf. unfold mbind at 1, M_bind at 1, assert.
  rewrite bool_decide_true by (rewrite <- Hl; simpl; rewrite length_app; lia).
  change (name :: args ++ rest) with ((name :: args) ++ rest).
  rewrite (action_own_words name) by done. by rewrite <- Hl, drop_app_length.
Qed.

Lemma run_loop_lines l rest fuel s :
  Forall action_line l -> (length (all_words l ++ rest) <= fuel)%nat ->
  exists fuel', (length rest <= fuel')%nat /\
    run_actions_loop fuel (all_words l ++ rest) s =
      (for_each l perform_line;; run_actions_loop fuel' rest) s.
Proof.
  revert fuel s. induction l as [|p l IH]; intros fuel s Hl Hfu; [by exists fuel|].
  apply Forall_cons in Hl as [Hp Hl]. change (all_words (p :: l)) with (p.2 ++ all_words l) in *. rewrite <- app_assoc in *.
  destruct (run_loop_line p (all_words l ++ rest) fuel s Hp Hfu) as (fuel1 & H1 & H2).
  rewrite H2. cbn [for_each]. unfold mbind, M_bind.
  destruct (perform_line p s) as [[] s1|f]; [|by exists (length rest)].
  by apply IH.
Qed.

Lemma words_split ws : exists l bad, ws = all_words l ++ bad /\ Forall action_line l /\ (bad = [] \/ stuck bad).
Proof.
  remember (length ws) as n eqn:Hn. revert ws Hn.
  induction (lt_wf n) as [n _ IH]. intros ws ->. destruct ws as [|name args]; [by exists [], []; auto|].
  destruct (find_action name) as [a|] eqn:Hf.
  2:{ exists [], (name :: args). split_and!; [done|done|]. right. simpl. by rewrite Hf. }
  destruct (decide (length (name :: args) < a_argc a)%nat) as [Hlt|Hge].
  { exists [], (name :: args). split_and!; [done|done|]. right. simpl. rewrite Hf. exact Hlt. }
  pose proof (action_argc name a Hf) as Hc.
  destruct (IH (length (drop (a_argc a) (name :: args)))) with (ws := drop (a_argc a) (name :: args))
    as (l & bad & H1 & H2 & H3); [rewrite length_drop; simpl in *; lia|done|].
  exists ((a, take (a_argc a) (name :: args)) :: l), bad. split_and!; [|constructor; [|done]|done].
  - change (name :: args = (take (a_argc a) (name :: args) ++ all_words l) ++ bad).
    by rewrite <- app_assoc, <- H1, take_drop.
  - exists name, (take (a_argc a - 1) args). simpl. destruct (a_argc a) as [|k]; [lia|]. simpl.
    split_and!; [by rewrite Nat.sub_0_r|done|]. rewrite length_take. simpl in Hge. lia.
Qed.

(** The words of actions, then words that begin with none. *)
Lemma run_actions_words l bad s :
  Forall action_line l -> bad = [] \/ stuck bad ->
  run_actions (all_words l ++ bad) s =
    (for_each l perform_line;; match bad with [] => mret tt | _ => fail Panic end) s.
Proof.
  intros Hl Hbad. unfold Init.run_actions.
  destruct (run_loop_lines l bad _ s Hl (le_n _)) as (fuel & Hfu & ->). unfold mbind, M_bind.
  destruct (for_each _ _ s) as [[] s1|]; [|done]. destruct bad as [|name args]; [by destruct fuel|].
  destruct Hbad as [|Hbad]; [done|]. destruct fuel as [|fuel]; [simpl in Hfu; lia|]. simpl in *.
  destruct (find_action name) as [a|]; [|done]. unfold mbind, M_bind, assert.
  by rewrite bool_decide_false by lia.
Qed.

(** C32: [run_actions].  The words of the command line are a sequence of actions, each with
    the arguments that it requires, followed by nothing or by words that do not begin with
    an action and its arguments.  The actions are run in this order, each on its own words,
    and only when the last one is done does the kernel panic for the words that remain. *)
Theorem run_actions_in_order ws s :
  exists l bad, ws = all_words l ++ bad /\ Forall action_line l /\
    ((bad = [] /\ run_actions ws s = for_each l perform_line s) \/
     (stuck bad /\ run_actions ws s = (for_each l perform_line;; fail Panic) s)).
Proof.
  destruct (words_split ws) as (l & bad & -> & Hl & Hbad). exists l, bad. split_and!; [done|done|].
  destruct Hbad as [->|Hbad]; [left|right]; (split; [done|]); rewrite run_actions_words by auto.
  - unfold mbind, M_bind. by destruct (for_each _ _ s) as [[] s1|].
  - by destruct bad.
Qed.
End action_theorems.

(** ** Decimal numbers *)
Fixpoint decimal (fuel : nat) (z : Z) (acc : list Z) : list Z :=
  match fuel with
  | O => acc
  | S fuel => if z <? 10 then 48 + z :: acc else decimal fuel (z / 10) (48 + z mod 10 :: acc)
  end.
Definition decimal_value (l : list Z) : Z := fold_left (fun a d => 10 * a + (d - 48)) l 0.

Lemma decimal_value_decimal fuel z acc :
  0 <= z < 10 ^ Z.of_nat fuel -> (0 < fuel)%nat ->
  decimal_value (decimal fuel z acc) = fold_left (fun a d => 10 * a + (d - 48)) acc z.
Proof.
  revert z acc. induction fuel as [|fuel IH]; intros z acc Hz Hf; [lia|]. cbn [decimal].
  destruct (Z.ltb_spec z 10) as [Hlt|Hge].
  - unfold decimal_value. simpl fold_left. f_equal. lia.
  - assert (Hp : 10 ^ Z.of_nat (S fuel) = 10 * 10 ^ Z.of_nat fuel)
      by (rewrite Nat2Z.inj_succ, Z.pow_succ_r by lia; done).
    assert (Hpos : (0 < fuel)%nat) by (destruct fuel; [simpl in *; lia|lia]).
    rewrite IH; [|Z.div_mod_to_equations; lia|done]. simpl fold_left. f_equal. Z.div_mod_to_equations. lia.
Qed.

Lemma decimal_nonempty fuel z acc : acc <> [] \/ (0 < fuel)%nat -> decimal fuel z acc <> [].
Proof.
  revert z acc. induction fuel as [|fuel IH]; intros z acc [H|H]; try done; try lia; cbn [decimal];
    destruct (z <? 10); try done; apply IH; by left.
Qed.

Lemma command_line_round_trip_witness :
  read_command_line 16 3 (packed [str "-q"; str "cat"; str "a"] ++ replicate 7 0) default_options =
    Ok [str "-q"; str "cat"; str "a"] (add_message (Command_line [str "-q"; str "cat"; str "a"]) default_options).
Proof.
  apply (command_line_round_trip 16 [str "-q"; str "cat"; str "a"] (replicate 7 0) default_options);
    [|reflexivity|vm_compute; discriminate].
  by apply (bool_decide_unpack _).
Defined.

Lemma parse_options_round_trip_witness :
  parse_options decimal_value 7 [str "-q"; str "-filesys=hda1=x"; str "-rs=42"; str "ls"] default_options =
    Ok (Some [str "ls"])
      (Options (Some SHUTDOWN_POWER_OFF) false (Some (str "hda1=x")) None None [7; 42] false SIZE_MAX [] []).
Proof.
  assert (Hd : forall z, decimal 10 z [] <> []) by (intros z; apply decimal_nonempty; right; lia).
  refine (parse_options_round_trip decimal_value (fun z => decimal 10 z []) 7 Hd _
    (Options (Some SHUTDOWN_POWER_OFF) false (Some (str "hda1=x")) None None [42] false SIZE_MAX [] [])
    [str "ls"] eq_refl eq_refl _ _ _ eq_refl).
  - intros z Hz. rewrite (decimal_value_decimal 10); [done| |lia]. unfold INT_MAX in Hz. simpl. lia.
  - repeat constructor; discriminate.
  - repeat constructor; unfold INT_MAX; lia.
  - by left.
Defined.
