(* ===== verification/Loader.v ===== *)
(** * Loader: loading a program ([load], [load_segment], [validate_segment] and
    [setup_stack] of [userprog/process.c]).

    The executable is an ELF file: a header of 52 bytes and program headers of 32 bytes.  A
    segment is added to the address space page by page without reading it
    ([load_segment_maps]); the arguments are put on a new page for the stack, where the
    program finds them ([arguments_round_trip]). *)
From S2P Require Import Prelude Bytes State Instances Cache FreeMap Inode InodeData InodeFaults File Directory Filesys Pagedir Vm Swap Paging Reload Pages Task Descriptors Mmap Process.
From Stdlib Require Import ZArith Lia.
From stdpp Require Import prelude gmap.

Open Scope Z_scope.

(** ** ELF headers *)
Definition of_le16 (b : list Z) : Z := byte_at b 0 + 256 * byte_at b 1.
Definition field16 (b : list Z) (ofs : Z) : Z := of_le16 (slice ofs 2 b).
Definition field32 (b : list Z) (ofs : Z) : Z := of_le32 (slice ofs 4 b).

(** [struct Elf32_Ehdr]: the fields that [load] uses. *)
Record ehdr := Ehdr {
  e_ident : list Z; e_type : Z; e_machine : Z; e_version : Z; e_entry : Z; e_phoff : Z;
  e_phentsize : Z; e_phnum : Z;
}.
Definition EHDR_SIZE : Z := 52.
Definition decode_ehdr (b : list Z) : ehdr :=
  Ehdr (slice 0 16 b) (field16 b 16) (field16 b 18) (field32 b 20) (field32 b 24) (field32 b 28)
    (field16 b 42) (field16 b 44).

(** [struct Elf32_Phdr]. *)
Record phdr := Phdr {
  p_type : Z; p_offset : Z; p_vaddr : Z; p_paddr : Z; p_filesz : Z; p_memsz : Z; p_flags : Z; p_align : Z;
}.
Definition PHDR_SIZE : Z := 32.
Definition decode_phdr (b : list Z) : phdr :=
  Phdr (field32 b 0) (field32 b 4) (field32 b 8) (field32 b 12) (field32 b 16) (field32 b 20) (field32 b 24)
    (field32 b 28).

Definition PT_LOAD : Z := 1.
Definition PT_DYNAMIC : Z := 2.
Definition PT_INTERP : Z := 3.
Definition PT_SHLIB : Z := 5.
Definition PF_W : Z := 2.

(** "\177ELF\1\1\1" *)
Definition ELF_MAGIC : list Z := [127; 69; 76; 70; 1; 1; 1].
Definition valid_ehdr (h : ehdr) : bool :=
  bool_decide (take 7 (e_ident h) = ELF_MAGIC) && (e_type h =? 2) && (e_machine h =? 3) &&
  (e_version h =? 1) && (e_phentsize h =? PHDR_SIZE) && negb (1024 <? e_phnum h).

Definition PGMASK : Z := PGSIZE - 1.
(** [ROUND_UP (x, PGSIZE)] on 32-bit unsigned numbers. *)
Definition round_up (x : Z) : Z := u32 (u32 (x + (PGSIZE - 1)) / PGSIZE * PGSIZE).

(** [argv] has [size] elements; the last one is left for the null pointer. *)
Definition ARGV_SIZE : Z := 64.

Section loader.
Context {D B W : Type} {dev : BlockDev D} {bm : Bitmap B} {io : BitmapIO D B} {mem : Memory}
  {sdev : BlockDev W} {pg : Paging}.
Abbreviation sys := (sys D B W).
Abbreviation vm := (vm D B W).
Abbreviation K := (M sys).
Implicit Types (s : sys) (v : vm) (c t p : nat).

(** ** Segments *)

(** [length] is [file_length (file)]. *)
Definition validate_segment (h : phdr) (length : Z) : bool :=
  (Z.land (p_offset h) PGMASK =? Z.land (p_vaddr h) PGMASK) &&
  negb (u32 length <? p_offset h) &&
  negb (p_memsz h <? p_filesz h) &&
  negb (p_memsz h =? 0) &&
  is_user_vaddr (p_vaddr h) &&
  is_user_vaddr (u32 (p_vaddr h + p_memsz h)) &&
  negb (u32 (p_vaddr h + p_memsz h) <? p_vaddr h) &&
  negb (p_vaddr h <? PGSIZE).

(** The loop of [load_segment]; the result of [install_frame] is not looked at. *)
Fixpoint segment_loop (fuel : nat) (e0 : frame_elem) p (ofs upage read_bytes zero_bytes : Z) (writable : bool)
    : M vm unit :=
  if (0 <? read_bytes) || (0 <? zero_bytes) then
    match fuel with
    | O => fail Hang
    | S fuel =>
      let page_read_bytes := page_bytes read_bytes in
      let page_zero_bytes := PGSIZE - page_read_bytes in
      install_frame e0 upage 0 writable (Some p) FILE ofs page_read_bytes;;
      segment_loop fuel e0 p (s32 (ofs + page_read_bytes)) (u32 (upage + PGSIZE))
        (u32 (read_bytes - page_read_bytes)) (u32 (zero_bytes - page_zero_bytes)) writable
    end
  else mret tt.
Definition load_segment (e0 : frame_elem) p (ofs upage read_bytes zero_bytes : Z) (writable : bool) : M vm bool :=
  assert (u32 (read_bytes + zero_bytes) mod PGSIZE =? 0);;
  assert (pg_ofs upage =? 0);;
  assert (Z.rem ofs PGSIZE =? 0);;
  lift_os (file_seek p ofs);;
  segment_loop (S (Z.to_nat ((read_bytes + zero_bytes) / PGSIZE))) e0 p ofs upage read_bytes zero_bytes writable;;
  mret true.

(** One program header: false if the program cannot be loaded. *)
Definition load_phdr (e0 : frame_elem) p (h : phdr) : M vm bool :=
  if (p_type h =? PT_DYNAMIC) || (p_type h =? PT_INTERP) || (p_type h =? PT_SHLIB) then mret false
  else if p_type h =? PT_LOAD then
    length ← lift_os (file_length p);
    if validate_segment h length then
      let writable := negb (Z.land (p_flags h) PF_W =? 0) in
      let file_page := Z.ldiff (p_offset h) PGMASK in
      let mem_page := Z.ldiff (p_vaddr h) PGMASK in
      let page_offset := Z.land (p_vaddr h) PGMASK in
      let read_bytes := if 0 <? p_filesz h then u32 (page_offset + p_filesz h) else 0 in
      let zero_bytes := u32 (round_up (u32 (page_offset + p_memsz h)) - read_bytes) in
      load_segment e0 p (s32 file_page) mem_page read_bytes zero_bytes writable
    else mret false
  else mret true.

(** The loop over the program headers, [n] of them left, the next one at [file_ofs]. *)
Fixpoint load_phdrs (n : nat) (e0 : frame_elem) p (file_ofs : Z) : M vm bool :=
  match n with
  | O => mret true
  | S n =>
    length ← lift_os (file_length p);
    if (file_ofs <? 0) || (length <? file_ofs) then mret false
    else
      lift_os (file_seek p file_ofs);;
      b ← lift_os (file_read p PHDR_SIZE);
      if negb (Z.of_nat (List.length b) =? PHDR_SIZE) then mret false
      else
        ok ← load_phdr e0 p (decode_phdr b);
        if ok : bool then load_phdrs n e0 p (s32 (file_ofs + PHDR_SIZE)) else mret false
  end.

(** ** The stack *)
Definition check_esp (esp : Z) : bool := negb ((esp <=? 0x08048000) || (PHYS_BASE <? esp)).

(** The loop over the tokens: the stack pointer and the addresses of the tokens. *)
Fixpoint push_words (tokens : list (list Z)) (esp : Z) (argv : list Z) : M vm (option (Z * list Z)) :=
  match tokens with
  | [] => mret (Some (esp, argv))
  | token :: rest =>
    let esp := u32 (esp - (Z.of_nat (length token) + 1)) in
    if negb (check_esp esp) then mret None
    else
      user_write esp (token ++ [0]);;
      let argv := argv ++ [esp] in
      if ARGV_SIZE <=? Z.of_nat (length argv) then mret None else push_words rest esp argv
  end.

(** The stack pointer goes down by 4, and the word is stored there. *)
Definition push_word (w esp : Z) : M vm Z := let esp := u32 (esp - 4) in user_write esp (le32 w);; mret esp.
(** [argv[argc]], ..., [argv[0]] *)
Fixpoint push_addresses (l : list Z) (esp : Z) : M vm Z :=
  match l with [] => mret esp | a :: rest => esp ← push_word a esp; push_addresses rest esp end.

(** The arguments, below the stack pointer [esp]; [None] when there is no room. *)
Definition push_arguments (file_name : list Z) (esp : Z) : M vm (option Z) :=
  o ← push_words (words file_name) esp [];
  match o with
  | None => mret None
  | Some (esp, argv) =>
    let argc := Z.of_nat (length argv) in
    if negb (check_esp (u32 (esp - 4 - 1 - argc * 4 - 4 - 4 - 4))) then mret None
    else
      let esp := if esp mod 4 =? 0 then esp else esp - esp mod 4 in
      esp ← push_addresses (reverse (argv ++ [0])) esp;
      esp ← push_word esp esp;
      esp ← push_word argc esp;
      esp ← push_word 0 esp;
      mret (Some esp)
  end.

(** The page below [PHYS_BASE]. *)
Definition stack_page : Z := PHYS_BASE - PGSIZE.
Definition setup_stack (e0 : frame_elem) (file_name : list Z) : K (option Z) :=
  kpage ← lift_vm zero_page;
  success ← lift_vm (install_frame e0 stack_page kpage true None SWAP 0 0);
  if success : bool then
    store_current (set_ut_esp stack_page);;
    lift_vm (push_arguments file_name PHYS_BASE)
  else lift_vm (frame_destroy kpage);; mret None.

(** ** [load] *)

(** From the check of the header to the end: the entry point and the stack pointer. *)
Definition load_program (e0 : frame_elem) (file_name execute_file_name : list Z) p : K (option (Z * Z)) :=
  b ← in_os (file_read p EHDR_SIZE);
  let h := decode_ehdr b in
  if negb (Z.of_nat (length b) =? EHDR_SIZE) || negb (valid_ehdr h) then
    print (LoadError execute_file_name);; mret None
  else
    ok ← lift_vm (load_phdrs (Z.to_nat (e_phnum h)) e0 p (s32 (e_phoff h)));
    if negb ok then mret None
    else
      r ← setup_stack e0 file_name;
      mret (esp ← r; Some (e_entry h, esp)).

(** The label [done]. *)
Definition load_done (file : option nat) (r : option (Z * Z)) : K (option (Z * Z)) :=
  store_current (set_ut_file file);;
  c ← process;
  store_child c (set_ch_load (bool_decide (is_Some r)));;
  give_lock file_lock;;
  c ← process;
  up_load c;;
  mret r.

Definition set_pagedir (pd : option Z) : M vm unit :=
  t ← gets running; store_proc t (fun x => Process pd (pr_page_table x)).

Definition load (e0 : frame_elem) (file_name : list Z) : K (option (Z * Z)) :=
  pd ← lift_vm (lift_mem pagedir_create);
  lift_vm (set_pagedir pd);;
  match pd with
  | None => load_done None None
  | Some _ =>
    lift_vm process_activate;;
    lift_vm (access malloc_ok);;
    execute_file_name ← deref (determine_argument file_name);
    take_lock file_lock;;
    o ← in_os (filesys_open execute_file_name);
    match o with
    | None => print (OpenFailed execute_file_name);; load_done None None
    | Some p =>
      in_os (file_deny_write p);;
      r ← load_program e0 file_name execute_file_name p;
      load_done (Some p) r
    end
  end.

(** The string in the page [k]. *)
Definition page_string (k : Z) : M vm (list Z) :=
  b ← load_page k; deref (c_string b).

(** [None] if the process has ended, else where it starts. *)
Definition start_process (e0 : frame_elem) (file_name_ : Z) : K (option (Z * Z)) :=
  t ← running_thread;
  lift_vm (store_proc t (fun x => Process (pr_pagedir x) []));;
  file_name ← lift_vm (page_string file_name_);
  success ← load e0 file_name;
  lift_vm (lift_mem (palloc_free_page file_name_));;
  match success with Some r => mret (Some r) | None => exit (-1) end.
End loader.

(** ** Segments in the address space *)
Section segments.
Context {D B W : Type} {dev : BlockDev D} {bm : Bitmap B} {io : BitmapIO D B} {mem : Memory}
  {sdev : BlockDev W} {pg : Paging}.
Context {dlaws : BlockDevLaws D} {slaws : BlockDevLaws W} {blaws : BitmapLaws B} {pl : PagingLaws}.
Abbreviation vm := (vm D B W).
Implicit Types (v : vm) (p q : nat).

Lemma validate_segment_iff (h : phdr) length :
  0 <= p_vaddr h < UINT32 -> 0 <= p_memsz h < UINT32 -> 0 <= length <= INT_MAX -> 0 <= p_offset h ->
  validate_segment h length = true <->
  (p_offset h mod PGSIZE) = (p_vaddr h mod PGSIZE) /\ p_offset h <= length /\
  p_filesz h <= p_memsz h /\ 0 < p_memsz h /\
  PGSIZE <= p_vaddr h /\ p_vaddr h + p_memsz h < PHYS_BASE.
Proof.
  intros Hv Hm Hl Ho. unfold validate_segment, PGMASK. rewrite !andb_true_iff, !negb_true_iff, Z.eqb_eq, Z.eqb_neq, !Z.ltb_ge.
  change (PGSIZE - 1) with (Z.ones 12). rewrite !Z.land_ones by lia. change (2 ^ 12) with PGSIZE.
  assert (Hul : u32 length = length) by (apply u32_small; unfold UINT32, INT_MAX in *; lia). rewrite Hul.
  destruct base_page as [_ [_ Hb]]. pose proof (user_below (p_vaddr h) ltac:(lia)) as U1.
  pose proof (user_below (u32 (p_vaddr h + p_memsz h)) ltac:(apply u32_range)) as U2.
  rewrite U1, U2. unfold PGSIZE in *. split.
  - intros (((((((E & H1) & H2) & H3) & H4) & H5) & H6) & H7).
    assert (Hs : u32 (p_vaddr h + p_memsz h) = p_vaddr h + p_memsz h).
    { unfold u32, UINT32 in *. destruct (Z.lt_ge_cases (p_vaddr h + p_memsz h) (2 ^ 32)) as [|Hge].
      - apply Z.mod_small. lia.
      - exfalso. rewrite <- (Z.mod_unique_pos _ (2 ^ 32) 1 (p_vaddr h + p_memsz h - 2 ^ 32)) in H6 by lia. lia. }
    rewrite Hs in *. split_and!; try done; lia.
  - intros (E & H1 & H2 & H3 & H4 & H5).
    rewrite u32_small by (unfold UINT32 in *; lia). split_and!; try done; lia.
Qed.

(** C39: [validate_segment] accepts exactly the segments that lie in user space: the file
    offset and the address agree in their page offset, the file offset is in the file, the
    segment is not empty and not smaller in memory than in the file, and it starts behind
    page 0 and ends below the kernel, without an overflow of the 32-bit addition. *)
Theorem validate_segment_bounds (h : phdr) length
    (Hv : 0 <= p_vaddr h < UINT32) (Hm : 0 <= p_memsz h < UINT32) (Hl : 0 <= length <= INT_MAX)
    (Ho : 0 <= p_offset h) :
  validate_segment h length = true <->
  (p_offset h mod PGSIZE) = (p_vaddr h mod PGSIZE) /\ p_offset h <= length /\
  p_filesz h <= p_memsz h /\ 0 < p_memsz h /\
  PGSIZE <= p_vaddr h /\ p_vaddr h + p_memsz h < PHYS_BASE.
Proof. by apply validate_segment_iff. Qed.

Lemma wp_segment_loop e0 q y i pd w cnt : malloc_ok = true ->
  forall fuel v u ofs n zero (Q : unit -> vm -> Prop), (cnt <= fuel)%nat ->
  ready v pd q y i -> free_range v pd u cnt -> 0 <= ofs -> 0 <= n -> 0 <= zero ->
  n + zero = PGSIZE * Z.of_nat cnt -> ofs + n <= id_length (i_data i) -> ofs + n <= INT_MAX ->
  (forall v', lazily v v' pd (pages_from cnt (file_bytes i (vm_os v)) u ofs n) -> Q tt v') ->
  wp (segment_loop fuel e0 q ofs u n zero w) Q v.
Proof.
  intros Hm. induction cnt as [|cnt IH]; intros fuel v u ofs n zero Q Hfuel Hr Hrg Ho Hn Hz Hsum Hend Hint HQ.
  - assert (n = 0) as -> by lia. assert (zero = 0) as -> by lia.
    destruct fuel; apply wp_ret, HQ, lazily_refl; apply Hr.
  - destruct fuel as [|fuel]; [lia|]. cbn [segment_loop]. rewrite Nat2Z.inj_succ in Hsum.
    assert (Hd : (0 <? n) || (0 <? zero) = true) by (apply orb_true_iff; rewrite !Z.ltb_lt; unfold PGSIZE in *; lia).
    rewrite Hd. cbn zeta. assert (Hpb : page_bytes n = Z.min n PGSIZE) by (unfold page_bytes; zcase). rewrite Hpb.
    destruct (range_head _ _ _ _ Hrg) as (_ & _ & _ & Hnext). pose proof (rg_high _ _ _ _ Hrg) as Hhigh.
    destruct base_page as [_ [_ Hb]]. assert (Hlow := rg_low _ _ _ _ Hrg).
    apply wp_bind. eapply wp_lazy_step; [done|exact Hr|done|exact Hrg|done|unfold PGSIZE in *; lia|lia|].
    intros v1 Hl Hr1 Hrg1. pose proof (lz_os _ _ _ _ Hl) as Hos.
    rewrite s32_small by (unfold PGSIZE, INT_MAX in *; lia).
    rewrite (u32_small (u + PGSIZE)) by done.
    rewrite !u32_small by (unfold PGSIZE, UINT32 in *; lia).
    apply IH; [lia|done|done|unfold PGSIZE in *; lia..|].
    intros v2 Hl2. apply HQ. rewrite Hos in Hl2. exact (lazily_trans _ _ _ _ _ _ Hl Hl2).
Qed.

(** *** [file_seek] keeps the space *)
Definition sought p (f : file) (pos : Z) v : vm :=
  set_os (set_files (<[p := set_pos pos f]> (os_files (vm_os v))) (vm_os v)) v.

Lemma sought_file_at p (f : file) pos v q z n :
  0 <= pos <= INT_MAX -> os_files (vm_os v) !! p = Some f -> file_at q z n (vm_os v) ->
  file_at q (if decide (p = q) then set_pos pos f else z) n (vm_os (sought p f pos v)).
Proof.
  intros Hpos Hp [H1 H2 H3 H4 H5 H6 H7]. case_decide as Hq.
  - subst q. assert (f = z) as -> by congruence. split; try done. simpl. by rewrite lookup_insert_eq.
  - split; try done. simpl. by rewrite lookup_insert_ne.
Qed.

Lemma sought_extended p (f : file) pos v pd :
  vm_ok v pd -> heap_ok v -> 0 <= pos <= INT_MAX -> os_files (vm_os v) !! p = Some f ->
  extended v (sought p f pos v) pd [].
Proof.
  intros Hok Hh Hpos Hp. apply extended_os; [done..|]. intros e (q & z & n & Hq & Hz & Hb).
  pose proof (sought_file_at p f pos v q z n Hpos Hp Hz) as Hz'.
  change (backed (vm_os (sought p f pos v)) e /\ file_page (vm_os (sought p f pos v)) e = file_page (vm_os v) e). split.
  - by exists q, (if decide (p = q) then set_pos pos f else z), n.
  - by rewrite (backed_page (vm_os v) e q z n), (backed_page _ e q _ n Hq Hz').
Qed.

Lemma sought_ready p (f : file) pos v pd i :
  0 <= pos <= INT_MAX -> ready v pd p f i -> ready (sought p f pos v) pd p (set_pos pos f) i.
Proof.
  intros Hpos [R1 R2 R3 R4 R5]. pose proof (fa_file _ _ _ _ R5) as Hp.
  pose proof (sought_extended p f pos v pd R1 R2 Hpos Hp) as Hx. split; [apply Hx|apply Hx|done| |].
  - intros g e r Hg He Hr. destruct (R4 g e r Hg He Hr) as (y & b & Hy & Hb & Hor). simpl.
    destruct (decide (p = r)) as [->|Hne].
    + exists (set_pos pos f), b. rewrite lookup_insert_eq. assert (y = f) as -> by congruence. done.
    + exists y, b. by rewrite lookup_insert_ne.
  - pose proof (sought_file_at p f pos v p f i Hpos Hp R5) as H. by rewrite decide_True in H.
Qed.

Lemma wp_load_segment e0 p f i pd w cnt v u ofs n zero (Q : bool -> vm -> Prop) :
  malloc_ok = true -> ready v pd p f i -> free_range v pd u cnt -> 0 <= ofs -> ofs mod PGSIZE = 0 ->
  0 <= n -> 0 <= zero -> n + zero = PGSIZE * Z.of_nat cnt -> ofs + n <= id_length (i_data i) ->
  (forall v', extended v v' pd (pages_from cnt (file_bytes i (vm_os v)) u ofs n) ->
     ready v' pd p (set_pos ofs f) i -> Q true v') ->
  wp (load_segment e0 p ofs u n zero w) Q v.
Proof.
  intros Hm Hr Hrg Ho Hmod Hn Hz Hsum Hend HQ. pose proof Hr as [R1 R2 R3 R4 R5].
  pose proof (fa_max _ _ _ _ R5) as Hmax. pose proof (rg_low _ _ _ _ Hrg) as Hlow.
  pose proof (rg_high _ _ _ _ Hrg) as Hhigh. destruct base_page as [_ [_ Hb]].
  assert (Hpos : 0 <= ofs <= INT_MAX) by lia.
  apply wp_bind, wp_assert.
  { rewrite u32_small by (unfold UINT32, PGSIZE in *; lia). rewrite Hsum, Z.mul_comm, Z.mod_mul; done. }
  apply wp_bind, wp_assert; [apply Z.eqb_eq, Hrg|].
  apply wp_bind, wp_assert; [by rewrite Z.rem_mod_nonneg, Hmod by (unfold PGSIZE; lia)|].
  apply wp_bind, wp_lift_os, wp_bind, wp_assert; [zcase|]. eapply wp_store_file; [apply R5|].
  change (set_os _ v) with (sought p f ofs v). apply wp_bind.
  pose proof (sought_ready p f ofs v pd i Hpos Hr) as Hr'.
  apply (wp_segment_loop e0 p (set_pos ofs f) i pd w cnt Hm); try done; [|by destruct Hrg|lia|].
  { rewrite Hsum, Z.mul_comm, Z.div_mul by done. lia. }
  intros v' Hl. apply wp_ret, HQ; [|by eapply lazily_ready].
  assert (Hb' : file_bytes i (vm_os (sought p f ofs v)) = file_bytes i (vm_os v)) by done. rewrite Hb' in Hl.
  eapply (extended_trans _ _ _ _ []); [|apply Hl]. apply sought_extended; [done..|apply R5].
Qed.

(** *** One segment *)
Lemma slice_zeros a n m : 0 <= a -> 0 <= n -> a + n <= m ->
  slice a n (replicate (Z.to_nat m) 0) = replicate (Z.to_nat n) 0.
Proof. intros. unfold slice. rewrite drop_replicate, take_replicate. f_equal. lia. Qed.

Lemma slice_file_zeros b ofs po fs k n :
  0 <= ofs -> 0 <= po -> 0 <= fs <= n -> ofs + po + fs <= Z.of_nat (length b) -> n - fs <= k ->
  slice po n (slice ofs (po + fs) b ++ replicate (Z.to_nat k) 0) =
  slice (ofs + po) fs b ++ replicate (Z.to_nat (n - fs)) 0.
Proof.
  intros Ho Hp Hf Hl Hk. rewrite <- slice_app, <- app_assoc by lia.
  assert (H1 : length (slice ofs po b) = Z.to_nat po) by (rewrite length_slice; lia).
  assert (H2 : length (slice (ofs + po) fs b) = Z.to_nat fs) by (rewrite length_slice; lia).
  unfold slice at 1. rewrite drop_app_length' by done.
  replace (Z.to_nat n) with (Z.to_nat fs + Z.to_nat (n - fs))%nat by lia.
  rewrite <- H2 at 1. rewrite take_app_add. f_equal. rewrite take_replicate. f_equal. lia.
Qed.

Lemma land_pgmask x : Z.land x PGMASK = x mod PGSIZE.
Proof. unfold PGMASK. change (PGSIZE - 1) with (Z.ones 12). by rewrite Z.land_ones by lia. Qed.
Lemma ldiff_pgmask x : Z.ldiff x PGMASK = x - x mod PGSIZE.
Proof.
  unfold PGMASK. change (PGSIZE - 1) with (Z.ones 12). rewrite Z.ldiff_ones_r by lia.
  rewrite Z.shiftl_mul_pow2, Z.shiftr_div_pow2 by lia. change (2 ^ 12) with PGSIZE. unfold PGSIZE. dlia.
Qed.

(** The first page of a segment, and the number of its pages. *)
Definition segment_page (h : phdr) : Z := p_vaddr h - p_vaddr h mod PGSIZE.
Definition segment_pages (h : phdr) : nat :=
  Z.to_nat ((p_vaddr h mod PGSIZE + p_memsz h + (PGSIZE - 1)) / PGSIZE).

Lemma round_up_pages h : 0 <= p_vaddr h -> 0 < p_memsz h -> p_vaddr h + p_memsz h < PHYS_BASE ->
  round_up (u32 (p_vaddr h mod PGSIZE + p_memsz h)) = PGSIZE * Z.of_nat (segment_pages h) /\ 
  (p_vaddr h mod PGSIZE) + p_memsz h <= PGSIZE * Z.of_nat (segment_pages h) < UINT32.
Proof.
  intros Hv Hm Hend. destruct base_page as [Hpb [_ Hb]]. rewrite pg_ofs_mod in Hpb by lia.
  unfold segment_pages, round_up, PGSIZE, UINT32 in *.
  assert (Hx : 0 <= p_vaddr h mod 4096 + p_memsz h < PHYS_BASE) by dlia.
  set (x := p_vaddr h mod 4096 + p_memsz h) in *.
  assert (Hb2 : PHYS_BASE <= 2 ^ 32 - 4096) by dlia.
  rewrite (u32_small x) by (unfold UINT32; lia). rewrite (u32_small (x + (4096 - 1))) by (unfold UINT32; lia).
  rewrite u32_small by (unfold UINT32; dlia). rewrite Z2Nat.id by dlia. split; [lia|]. dlia.
Qed.

(** C6: A segment is loaded.  For a segment that [validate_segment] accepts, whose bytes
    are in the file and whose pages are free, [load_phdr] returns true and adds exactly the
    pages of the segment to the address space; from its address on they hold the
    [p_filesz] bytes of the file from [p_offset], and then zeros up to [p_memsz]. *)
Theorem load_phdr_maps_segment e0 p f i pd v h
    (Hm : malloc_ok = true) (Hr : ready v pd p f i) (Ht : p_type h = PT_LOAD)
    (Hv : 0 <= p_vaddr h < UINT32) (Ho : 0 <= p_offset h < UINT32)
    (Hfs : 0 <= p_filesz h) (Hms : 0 <= p_memsz h < UINT32)
    (Hok : validate_segment h (id_length (i_data i)) = true)
    (Hend : p_offset h + p_filesz h <= id_length (i_data i))
    (Hrg : free_range v pd (segment_page h) (segment_pages h)) :
  wp (load_phdr e0 p h) (fun r v' => r = true /\ exists pages, extended v v' pd pages /\
    pages.*1 = (fun j : nat => segment_page h + PGSIZE * Z.of_nat j) <$> seq 0 (segment_pages h) /\
    slice (p_vaddr h - segment_page h) (p_memsz h) (concat pages.*2) =
      slice (p_offset h) (p_filesz h) (file_bytes i (vm_os v)) ++
      replicate (Z.to_nat (p_memsz h - p_filesz h)) 0) v.
Proof.
  pose proof (rd_file _ _ _ _ _ Hr) as Hf. pose proof (fa_max _ _ _ _ Hf) as Hmax.
  assert (Hlen : Z.of_nat (length (file_bytes i (vm_os v))) = id_length (i_data i)) by (pose proof (fa_wf _ _ _ _ Hf); unfold file_bytes; rewrite length_content; lia).
  pose proof Hok as Hval. apply validate_segment_iff in Hval as (E & H1 & H2 & H3 & H4 & H5); [|lia..].
  destruct (round_up_pages h) as (Hru & Hle & Hlt); [lia..|].
  unfold load_phdr. rewrite Ht. simpl orb. cbv iota. rewrite Z.eqb_refl.
  apply wp_bind, wp_lift_os, wp_bind. eapply wp_load_file; [apply Hf|]. apply wp_lift, wp_locked; [apply Hf|].
  apply wp_bind. eapply wp_load_inode; [apply Hf|]. apply wp_ret. split; [done|].
  match goal with |- wp _ _ ?y => replace y with v by by destruct v as [[[]]] end.
  rewrite Hok, land_pgmask, !ldiff_pgmask. fold (segment_page h). cbv zeta.
  rewrite Hru, E. set (po := p_vaddr h mod PGSIZE) in *. set (b := file_bytes i (vm_os v)) in *.
  assert (Hpo : 0 <= po < PGSIZE) by (unfold po, PGSIZE; dlia).
  assert (Hofs : 0 <= p_offset h - po /\ (p_offset h - po) mod PGSIZE = 0) by (unfold po in *; rewrite <- E; unfold PGSIZE; dlia).
  set (n := if 0 <? p_filesz h then po + p_filesz h else 0).
  assert (Hn : (if 0 <? p_filesz h then u32 (po + p_filesz h) else 0) = n).
  { unfold n. destruct (0 <? p_filesz h); [|done]. apply u32_small. unfold UINT32 in *. lia. }
  assert (Hn' : 0 <= n <= po + p_filesz h) by (unfold n; zcase).
  rewrite Hn, u32_small by (unfold UINT32 in *; lia). rewrite s32_small by (unfold INT_MAX in *; lia).
  eapply (wp_load_segment e0 p f i pd _ (segment_pages h)); [done|done|done|lia|apply Hofs|lia|lia|lia|lia|].
  intros v' Hx _. split; [done|]. exists (pages_from (segment_pages h) b (segment_page h) (p_offset h - po) n).
  split; [done|]. split; [apply pages_from_addresses|].
  rewrite pages_from_bytes by lia. replace (p_vaddr h - segment_page h) with po by (unfold segment_page; fold po; lia).
  unfold n. destruct (Z.ltb_spec 0 (p_filesz h)) as [Hp|Hz].
  - rewrite slice_file_zeros by lia. do 2 f_equal. lia.
  - assert (p_filesz h = 0) as -> by lia. unfold slice at 2 3. simpl. by rewrite !Z.sub_0_r, slice_zeros by lia.
Qed.
End segments.

(** ** The arguments on the stack *)
Section arguments.
Context {D B W : Type} {dev : BlockDev D} {bm : Bitmap B} {io : BitmapIO D B} {mem : Memory}
  {sdev : BlockDev W} {pg : Paging}.
Context {dlaws : BlockDevLaws D} {slaws : BlockDevLaws W} {blaws : BitmapLaws B} {pl : PagingLaws}.
Abbreviation vm := (vm D B W).
Abbreviation sys := (sys D B W).
Implicit Types (v : vm) (s : sys) (k o esp : Z) (b top : list Z) (w : list Z) (ws : list (list Z)).

(** *** What the program reads *)
Fixpoint read_strings (n : nat) (argv : Z) : M vm (list (list Z)) :=
  match n with
  | O => mret []
  | S n =>
    a ← user_word argv;
    x ← user_string_from (Z.to_nat PGSIZE) a;
    rest ← read_strings n (argv + 4);
    mret (x :: rest)
  end.
(** [argv[0]], ..., [argv[argc - 1]] of [main], whose arguments are above [esp]. *)
Definition main_arguments esp : M vm (list (list Z)) :=
  argc ← user_word (esp + 4);
  argv ← user_word (esp + 8);
  read_strings (Z.to_nat argc) argv.

Lemma wp_user_word v u k b f o x rest (Q : Z -> vm -> Prop) :
  mapped_page v u k b f -> 0 <= o -> o + 4 <= PGSIZE -> drop (Z.to_nat o) b = le32 x ++ rest ->
  Q (u32 x) v -> wp (user_word (u + o)) Q v.
Proof.
  intros Hm Ho Hend Hd HQ. apply wp_bind. eapply (wp_user_read _ _ _ _ _ 4); [exact Hm|done|lia|].
  apply wp_ret. unfold slice. rewrite Hd. rewrite (take_app_length' (le32 x)) by (by rewrite le32_length).
  by rewrite of_le32_le32.
Qed.

Definition string_at b o w : Prop := exists post, drop (Z.to_nat o) b = w ++ 0 :: post.

Lemma wp_user_string v u k b f w fuel : forall o (Q : list Z -> vm -> Prop),
  mapped_page v u k b f -> 0 <= o -> string_at b o w -> 0 ∉ w -> (length w < fuel)%nat -> Q w v ->
  wp (user_string_from fuel (u + o)) Q v.
Proof.
  revert fuel. induction w as [|x w IH]; intros [|fuel] o Q Hm Ho [post Hd] Hz Hf HQ; simpl in Hf; try lia;
    cbn [user_string_from]; pose proof (mg_length _ _ _ _ _ Hm) as Hl;
    assert (Hlt : (Z.to_nat o < length b)%nat) by
      (assert (H := f_equal length Hd); rewrite length_drop, length_app in H; simpl in H; lia);
    assert (H0 : forall y t, drop (Z.to_nat o) b = y :: t -> b !! Z.to_nat o = Some y) by
      (intros y t E; by rewrite <- (Nat.add_0_r (Z.to_nat o)), <- lookup_drop, E);
    apply wp_bind; (eapply wp_user_byte; [exact Hm|lia|eapply H0; exact Hd|]).
  - by apply wp_ret.
  - destruct (Z.eqb_spec x 0) as [->|Hx]; [destruct Hz; by left|]. apply wp_bind.
    replace (u + o + 1) with (u + (o + 1)) by lia. apply IH; [done|lia| |set_solver|lia|by apply wp_ret].
    exists post. replace (Z.to_nat (o + 1)) with (Z.to_nat o + 1)%nat by lia. by rewrite <- drop_drop, Hd.
Qed.

(** The pointers from [oa] on and the strings they point to. *)
Fixpoint args_in b oa (addrs : list Z) ws : Prop :=
  match addrs, ws with
  | [], [] => True
  | a :: addrs, w :: ws =>
    (exists rest, drop (Z.to_nat oa) b = le32 a ++ rest) /\ stack_page <= a < UINT32 /\
    string_at b (a - stack_page) w /\ args_in b (oa + 4) addrs ws
  | _, _ => False
  end.

Lemma wp_read_strings v k b f addrs : forall ws oa (Q : list (list Z) -> vm -> Prop),
  mapped_page v stack_page k b f -> 0 <= oa -> oa + 4 * Z.of_nat (length addrs) <= PGSIZE ->
  args_in b oa addrs ws -> Forall (fun w => (0 ∉ w) /\ Z.of_nat (length w) < PGSIZE) ws -> Q ws v ->
  wp (read_strings (length addrs) (stack_page + oa)) Q v.
Proof.
  induction addrs as [|a addrs IH]; intros [|w ws] oa Q Hm Ho Hend Ha Hw HQ; try done.
  cbn [length read_strings] in *. destruct Ha as ([rest Hd] & Hr & Hs & Ha).
  apply Forall_cons in Hw as [[Hz Hl] Hw]. apply wp_bind. eapply wp_user_word; [exact Hm|done|lia|exact Hd|].
  destruct base_page as [_ [Hb _]]. rewrite u32_small by (unfold stack_page in *; lia).
  replace a with (stack_page + (a - stack_page)) at 1 by lia. apply wp_bind.
  eapply wp_user_string; [exact Hm|lia|exact Hs|done|lia|]. apply wp_bind.
  replace (stack_page + oa + 4) with (stack_page + (oa + 4)) by lia.
  eapply IH; [exact Hm|lia|lia|done|done|]. by apply wp_ret.
Qed.

(** *** Pushing *)

(** The stack page is mapped to [k]; from the offset [o] on it holds [top], below zeros. *)
Record stack_at v k o top : Prop := {
  sa_page : mapped_page v stack_page k (replicate (Z.to_nat o) 0 ++ top) true;
  sa_low : 0 <= o;
  sa_length : o + Z.of_nat (length top) = PGSIZE;
}.

(** Everything but the bytes of the stack page. *)
Definition same_but_page k v v' : Prop := exists c, v' = with_page k c v.
Lemma same_but_page_trans k v1 v2 v3 : same_but_page k v1 v2 -> same_but_page k v2 v3 -> same_but_page k v1 v3.
Proof. intros [c ->] [c' ->]. exists c'. by rewrite with_page_twice. Qed.

Lemma wp_push v k o top bytes (Q : unit -> vm -> Prop) :
  stack_at v k o top -> Z.of_nat (length bytes) <= o ->
  (forall v', same_but_page k v v' -> stack_at v' k (o - Z.of_nat (length bytes)) (bytes ++ top) -> Q tt v') ->
  wp (user_write (stack_page + (o - Z.of_nat (length bytes))) bytes) Q v.
Proof.
  intros [S1 S2 S3] Hl HQ. set (n := Z.of_nat (length bytes)) in *.
  eapply wp_user_write; [exact S1|lia|lia|]. apply HQ; [by eexists|].
  assert (Hb : splice (o - n) bytes (replicate (Z.to_nat o) 0 ++ top) = replicate (Z.to_nat (o - n)) 0 ++ bytes ++ top).
  { unfold splice. rewrite take_app_le by (rewrite length_replicate; lia). rewrite take_replicate. f_equal; [f_equal; lia|].
    f_equal. rewrite drop_app_ge by (rewrite length_replicate; lia). rewrite length_replicate.
    by replace (_ - _)%nat with 0%nat by lia. }
  rewrite Hb. split; [|lia|rewrite length_app; lia].
  pose proof (mapped_with_page v stack_page k _ true k (replicate (Z.to_nat (o - n)) 0 ++ bytes ++ top) _ S1 (mg_bytes _ _ _ _ _ S1)) as H.
  rewrite decide_True in H by done. apply H. rewrite !length_app, !length_replicate. lia.
Qed.

Lemma wp_push_word v k o top x (Q : Z -> vm -> Prop) :
  stack_at v k o top -> 4 <= o ->
  (forall v', same_but_page k v v' -> stack_at v' k (o - 4) (le32 x ++ top) -> Q (stack_page + (o - 4)) v') ->
  wp (push_word x (stack_page + o)) Q v.
Proof.
  intros Hs Ho HQ. destruct base_page as [_ [Hb Hb']]. pose proof (sa_length _ _ _ _ Hs).
  unfold push_word. rewrite u32_small by (unfold stack_page, UINT32, PGSIZE in *; lia).
  replace (stack_page + o - 4) with (stack_page + (o - 4)) by lia.
  apply wp_bind. eapply (wp_push v k o top (le32 x)); [exact Hs|rewrite le32_length; lia|].
  rewrite le32_length. intros v' Hv Hs'. by apply wp_ret, HQ.
Qed.

Lemma wp_push_addresses l : forall v k o top (Q : Z -> vm -> Prop),
  stack_at v k o top -> 4 * Z.of_nat (length l) <= o ->
  (forall v', same_but_page k v v' ->
     stack_at v' k (o - 4 * Z.of_nat (length l)) (concat (le32 <$> reverse l) ++ top) ->
     Q (stack_page + (o - 4 * Z.of_nat (length l))) v') ->
  wp (push_addresses l (stack_page + o)) Q v.
Proof.
  induction l as [|a l IH]; intros v k o top Q Hs Ho HQ; cbn [push_addresses length] in *.
  - apply wp_ret. rewrite Z.mul_0_r, Z.sub_0_r in HQ. apply HQ; [|done]. exists (replicate (Z.to_nat o) 0 ++ top).
    rewrite with_page_same; [done|]. apply Hs.
  - apply wp_bind. eapply wp_push_word; [exact Hs|lia|]. intros v1 Hv1 Hs1.
    eapply IH; [exact Hs1|lia|]. intros v2 Hv2 Hs2.
    replace (o - 4 - 4 * Z.of_nat (length l)) with (o - 4 * Z.of_nat (S (length l))) in * by lia.
    apply HQ; [by eapply same_but_page_trans|].
    replace (concat (le32 <$> reverse (a :: l)) ++ top) with (concat (le32 <$> reverse l) ++ le32 a ++ top); [done|].
    rewrite reverse_cons, fmap_app, concat_app. change (concat (le32 <$> [a])) with (le32 a ++ []).
    by rewrite app_nil_r, <- app_assoc.
Qed.

(** *** The words *)
Definition words_size ws : Z := foldr (fun w n => Z.of_nat (length w) + 1 + n) 0 ws.
Fixpoint words_top ws top : list Z :=
  match ws with [] => top | w :: ws => words_top ws (w ++ 0 :: top) end.
Fixpoint word_addresses esp ws : list Z :=
  match ws with
  | [] => []
  | w :: ws => let a := esp - (Z.of_nat (length w) + 1) in a :: word_addresses a ws
  end.

Lemma words_size_pos ws : 0 <= words_size ws.
Proof. induction ws; simpl; lia. Qed.
Lemma length_word_addresses ws : forall esp, length (word_addresses esp ws) = length ws.
Proof. induction ws; intros esp; simpl; [done|]. by rewrite IHws. Qed.
Lemma words_top_app ws : forall top, exists t, words_top ws top = t ++ top /\ Z.of_nat (length t) = words_size ws.
Proof.
  induction ws as [|w ws IH]; intros top; simpl; [by exists []|]. destruct (IH (w ++ 0 :: top)) as (t & -> & Hl).
  exists (t ++ w ++ [0]). rewrite <- !app_assoc. split; [done|]. rewrite !length_app. simpl. lia.
Qed.

Lemma wp_push_words ws : 0x08048000 < stack_page -> forall v k o top argv (Q : option (Z * list Z) -> vm -> Prop),
  stack_at v k o top -> words_size ws <= o -> Z.of_nat (length argv) + Z.of_nat (length ws) < ARGV_SIZE ->
  (forall v', same_but_page k v v' -> stack_at v' k (o - words_size ws) (words_top ws top) ->
     Q (Some (stack_page + (o - words_size ws), argv ++ word_addresses (stack_page + o) ws)) v') ->
  wp (push_words ws (stack_page + o) argv) Q v.
Proof.
  intros Hlow. destruct base_page as [_ [Hb Hb']].
  induction ws as [|w ws IH]; intros v k o top argv Q Hs Ho Hc HQ; cbn [push_words words_size foldr] in *.
  - apply wp_ret. rewrite Z.sub_0_r, app_nil_r in HQ. apply HQ; [|done]. exists (replicate (Z.to_nat o) 0 ++ top).
    rewrite with_page_same; [done|]. apply Hs.
  - fold (words_size ws) in *. pose proof (words_size_pos ws). pose proof (sa_length _ _ _ _ Hs).
    rewrite u32_small by (unfold stack_page, UINT32, PGSIZE in *; lia). cbv zeta.
    set (n := Z.of_nat (length w) + 1) in *. replace (stack_page + o - n) with (stack_page + (o - n)) by lia.
    assert (Hce : check_esp (stack_page + (o - n)) = true).
    { unfold check_esp. apply negb_true_iff, orb_false_iff. rewrite Z.leb_gt, Z.ltb_ge.
      unfold stack_page, PGSIZE in *. lia. }
    rewrite Hce. assert (Hn : n = Z.of_nat (length (w ++ [0]))) by (rewrite length_app; simpl; lia).
    apply wp_bind. rewrite Hn at 1. eapply wp_push; [exact Hs|lia|]. rewrite <- Hn. intros v1 Hv1 Hs1.
    assert (Hca : (ARGV_SIZE <=? Z.of_nat (length (argv ++ [stack_page + (o - n)]))) = false)
      by (apply Z.leb_gt; rewrite length_app; simpl in *; lia).
    rewrite Hca. eapply IH; [exact Hs1|lia|rewrite length_app; simpl in *; lia|].
    intros v2 Hv2 Hs2. rewrite <- app_assoc in *. replace (o - n - words_size ws) with (o - (n + words_size ws)) in * by lia.
    assert (Ha : word_addresses (stack_page + o) (w :: ws) =
      (stack_page + (o - n)) :: word_addresses (stack_page + (o - n)) ws).
    { simpl. fold n. by replace (stack_page + o - n) with (stack_page + (o - n)) by lia. }
    rewrite Ha in HQ. apply HQ; [by eapply same_but_page_trans|]. done.
Qed.

(** *** The whole layout *)
Lemma words_strings b ws : forall top o, 0 <= o - words_size ws ->
  drop (Z.to_nat (o - words_size ws)) b = words_top ws top ->
  Forall2 (fun a w => string_at b (a - stack_page) w) (word_addresses (stack_page + o) ws) ws.
Proof.
  induction ws as [|w ws IH]; intros top o Ho Hd; [constructor|]. cbn [word_addresses words_top words_size foldr] in *.
  fold (words_size ws) in *. set (n := Z.of_nat (length w) + 1) in *. constructor.
  - exists top. destruct (words_top_app ws (w ++ 0 :: top)) as (t & Ht & Hl). rewrite Ht in Hd.
    replace (Z.to_nat (stack_page + o - n - stack_page)) with (Z.to_nat (o - (n + words_size ws)) + length t)%nat by lia.
    rewrite <- drop_drop, Hd. by rewrite drop_app_length.
  - replace (stack_page + o - n) with (stack_page + (o - n)) by lia. apply (IH (w ++ 0 :: top)); [lia|].
    rewrite <- Hd. f_equal. lia.
Qed.

Lemma word_addresses_range ws : forall o, 0 <= o - words_size ws ->
  Forall (fun a => stack_page <= a <= stack_page + o) (word_addresses (stack_page + o) ws).
Proof.
  induction ws as [|w ws IH]; intros o Ho; [constructor|]. cbn [word_addresses words_size foldr] in *.
  fold (words_size ws) in *. pose proof (words_size_pos ws). set (n := Z.of_nat (length w) + 1) in *. constructor; [lia|].
  replace (stack_page + o - n) with (stack_page + (o - n)) by lia.
  eapply Forall_impl; [apply IH; lia|]. simpl. lia.
Qed.

Lemma args_in_intro b addrs : forall ws oa rest, 0 <= oa ->
  drop (Z.to_nat oa) b = concat (le32 <$> addrs) ++ rest ->
  Forall (fun a => stack_page <= a < UINT32) addrs ->
  Forall2 (fun a w => string_at b (a - stack_page) w) addrs ws -> args_in b oa addrs ws.
Proof.
  induction addrs as [|a addrs IH]; intros ws oa rest Ho Hd Hr Hs;
    [by apply Forall2_nil_inv_l in Hs as ->|]. apply Forall2_cons_inv_l in Hs as (w & ws' & Hw & Hs & ->).
  apply Forall_cons in Hr as [Ha Hr]. change (concat (le32 <$> a :: addrs)) with (le32 a ++ concat (le32 <$> addrs)) in Hd.
  rewrite <- app_assoc in Hd. split; [by eexists|]. split; [done|]. split; [done|].
  eapply IH; [lia| |done|done]. replace (Z.to_nat (oa + 4)) with (Z.to_nat oa + 4)%nat by lia.
  rewrite <- drop_drop, Hd. apply drop_app_length'. by rewrite le32_length.
Qed.

(** What is on the page below the strings: a return address, [argc], [argv] and the
    pointers, above the offset [o]. *)
Definition argument_block o ws (addrs pad : list Z) : list Z :=
  le32 0 ++ le32 (Z.of_nat (length ws)) ++ le32 (stack_page + (o + 12)) ++ concat (le32 <$> addrs) ++ le32 0 ++ pad.

(** The page is laid out for [main]. *)
Record laid_out b o ws : Prop := {
  lo_range : 0 <= o /\ o + 16 + 4 * Z.of_nat (length ws) <= PGSIZE;
  lo_block : exists pad, b = replicate (Z.to_nat o) 0 ++ argument_block o ws (word_addresses PHYS_BASE ws) pad ++ words_top ws [];
  lo_length : Z.of_nat (length b) = PGSIZE;
}.

Lemma laid_out_from b o ws n : laid_out b o ws -> (n <= 16)%nat -> exists pad,
  drop (Z.to_nat (o + Z.of_nat n)) b =
  drop n (argument_block o ws (word_addresses PHYS_BASE ws) pad ++ words_top ws []).
Proof.
  intros [Hr [pad ->] Hl] Hn. exists pad. replace (Z.to_nat (o + Z.of_nat n)) with (Z.to_nat o + n)%nat by lia.
  rewrite <- drop_drop. f_equal. apply drop_app_length'. by rewrite length_replicate.
Qed.

Lemma laid_out_strings b o ws : laid_out b o ws -> words_size ws <= PGSIZE ->
  Forall2 (fun a w => string_at b (a - stack_page) w) (word_addresses PHYS_BASE ws) ws.
Proof.
  intros [Hr [pad Hb] Hl] Hs. replace PHYS_BASE with (stack_page + PGSIZE) by (unfold stack_page; lia).
  apply (words_strings b ws []); [lia|]. destruct (words_top_app ws []) as (t & Ht & Htl).
  rewrite Ht, app_nil_r in *. rewrite Hb, app_assoc, length_app in Hl. rewrite Hb, app_assoc.
  apply drop_app_length'. lia.
Qed.

Lemma wp_main_arguments v k b f o ws :
  mapped_page v stack_page k b f -> laid_out b o ws -> words_size ws <= PGSIZE ->
  Forall (fun w => (0 ∉ w) /\ Z.of_nat (length w) < PGSIZE) ws ->
  wp (main_arguments (stack_page + o)) (fun l v' => l = ws /\ v' = v) v.
Proof.
  intros Hm Hlo Hs Hw. pose proof Hlo as [[Hr1 Hr2] _ Hl]. destruct base_page as [_ [Hb Hb']].
  destruct (laid_out_from b o ws 4 Hlo) as [pad4 H4]; [lia|]. destruct (laid_out_from b o ws 8 Hlo) as [pad8 H8]; [lia|].
  destruct (laid_out_from b o ws 12 Hlo) as [pad12 H12]; [lia|].
  unfold argument_block in *. unfold main_arguments. rewrite <- !Z.add_assoc. apply wp_bind.
  eapply wp_user_word; [exact Hm|lia|lia| |].
  { change (Z.of_nat 4) with 4 in H4. rewrite H4, <- app_assoc, drop_app_length' by (by rewrite le32_length).
    rewrite <- app_assoc. reflexivity. }
  rewrite u32_small by (unfold UINT32, PGSIZE in *; lia). apply wp_bind.
  eapply wp_user_word; [exact Hm|lia|lia| |].
  { change (Z.of_nat 8) with 8 in H8. rewrite H8. change 8%nat with (4 + 4)%nat.
    rewrite <- drop_drop, <- !app_assoc, !drop_app_length' by (by rewrite le32_length). reflexivity. }
  rewrite u32_small by (unfold stack_page, UINT32, PGSIZE in *; lia). rewrite Nat2Z.id.
  assert (Hln : length (word_addresses PHYS_BASE ws) = length ws) by apply length_word_addresses.
  rewrite <- Hln. eapply wp_read_strings; [exact Hm|lia|rewrite Hln; unfold PGSIZE in *; lia| |done|done].
  eapply args_in_intro; [lia| | |by eapply laid_out_strings].
  - change (Z.of_nat 12) with 12 in H12. rewrite H12. change 12%nat with (4 + (4 + 4))%nat.
    rewrite <- !drop_drop, <- !app_assoc, !drop_app_length' by (by rewrite le32_length). reflexivity.
  - pose proof (word_addresses_range ws PGSIZE ltac:(lia)) as Hrg.
    replace (stack_page + PGSIZE) with PHYS_BASE in Hrg by (unfold stack_page; lia).
    eapply Forall_impl; [exact Hrg|]. unfold UINT32. simpl. lia.
Qed.

Lemma stack_page_aligned : 0 <= stack_page -> stack_page mod 4 = 0.
Proof.
  intros H. destruct base_page as [Hp [Hb Hb']]. rewrite pg_ofs_mod in Hp by (unfold PGSIZE in *; lia).
  unfold stack_page, PGSIZE in *. dlia.
Qed.

(** The stack pointer rounded down to a multiple of 4: the bytes passed over are zeros. *)
Lemma stack_at_aligned v k o top : stack_at v k o top ->
  stack_at v k (o - o mod 4) (replicate (Z.to_nat (o mod 4)) 0 ++ top).
Proof.
  intros [S1 S2 S3]. assert (Hm : 0 <= o mod 4 <= o) by dlia.
  split; [|lia|rewrite length_app, length_replicate; lia].
  rewrite app_assoc, <- replicate_add. by replace (Z.to_nat (o - o mod 4) + Z.to_nat (o mod 4))%nat with (Z.to_nat o) by lia.
Qed.

Lemma wp_push_arguments v k file_name (Q : option Z -> vm -> Prop) : let ws := words file_name in
  0x08048000 < stack_page -> stack_at v k PGSIZE [] -> Z.of_nat (length ws) < ARGV_SIZE ->
  words_size ws + 4 * Z.of_nat (length ws) + 20 <= PGSIZE ->
  (forall v' o b, same_but_page k v v' -> mapped_page v' stack_page k b true -> laid_out b o ws -> o mod 4 = 0 ->
     Q (Some (stack_page + o)) v') ->
  wp (push_arguments file_name PHYS_BASE) Q v.
Proof.
  intros ws Hlow Hs Hc Hsize HQ. destruct base_page as [_ [Hb Hb']]. pose proof (words_size_pos ws) as Hpos.
  assert (Hpb : PHYS_BASE = stack_page + PGSIZE) by (unfold stack_page; lia).
  unfold push_arguments. fold ws. rewrite Hpb. apply wp_bind.
  eapply wp_push_words; [done|exact Hs|lia|simpl; lia|]. intros v1 Hv1 Hs1. rewrite app_nil_l, <- Hpb in *.
  set (addrs := word_addresses PHYS_BASE ws) in *. assert (Hal : length addrs = length ws) by apply length_word_addresses.
  cbv zeta. rewrite Hal. set (n := Z.of_nat (length ws)) in *. set (o1 := PGSIZE - words_size ws) in *.
  assert (Ho1 : o1 = PGSIZE - words_size ws) by done. assert (Hn0 : 0 <= n) by (unfold n; lia).
  assert (Hce : check_esp (u32 (stack_page + o1 - 4 - 1 - n * 4 - 4 - 4 - 4)) = true).
  { rewrite u32_small by (unfold UINT32, PGSIZE in *; lia). unfold check_esp. apply negb_true_iff, orb_false_iff.
    rewrite Z.leb_gt, Z.ltb_ge. lia. }
  rewrite Hce. set (o2 := o1 - o1 mod 4). pose proof (stack_page_aligned ltac:(lia)) as Hsp.
  assert (Ho2 : o1 - 3 <= o2 <= o1) by (unfold o2; dlia).
  assert (He : (if (stack_page + o1) mod 4 =? 0 then stack_page + o1 else stack_page + o1 - (stack_page + o1) mod 4) =
    stack_page + o2) by (unfold o2; destruct (Z.eqb_spec ((stack_page + o1) mod 4) 0); dlia).
  simpl negb. cbv iota. rewrite He. apply stack_at_aligned in Hs1. fold o2 in Hs1.
  apply wp_bind. eapply wp_push_addresses; [exact Hs1|rewrite length_reverse, length_app, Hal; simpl; lia|].
  rewrite length_reverse, length_app, Hal, reverse_involutive. intros v2 Hv2 Hs2.
  set (o3 := o2 - 4 * Z.of_nat (length ws + length [0])) in *. assert (Ho3 : o3 = o2 - 4 * (n + 1)) by (unfold o3; simpl; lia).
  apply wp_bind. eapply wp_push_word; [exact Hs2|lia|]. intros v3 Hv3 Hs3.
  apply wp_bind. eapply wp_push_word; [exact Hs3|lia|]. intros v4 Hv4 Hs4.
  apply wp_bind. eapply wp_push_word; [exact Hs4|lia|]. intros v5 Hv5 Hs5.
  apply wp_ret. eapply HQ; [|apply Hs5| |].
  - do 4 (eapply same_but_page_trans; [eassumption|]). done.
  - split; [fold n; lia| |apply (mg_length _ _ _ _ _ (sa_page _ _ _ _ Hs5))].
    exists (replicate (Z.to_nat (o1 mod 4)) 0). unfold argument_block. fold n addrs.
    rewrite fmap_app, concat_app, <- !app_assoc. replace (o3 - 4 - 4 - 4 + 12) with o3 by lia. done.
  - rewrite Ho3. unfold o2. dlia.
Qed.

(** *** [setup_stack] *)
Lemma wp_find_kpage k l : forall v, (forall g, g ∈ l -> is_Some (frames v !! g)) ->
  wp (find_frame_from (fun e => mret (fr_kpage e =? k)) l) (fun (r : option nat) v' => v' = v /\
    forall f, r = Some f -> f ∈ l) v.
Proof.
  induction l as [|g l IH]; intros v Hl; cbn [find_frame_from]; [by apply wp_ret|].
  destruct (Hl g) as [e He]; [by left|]. apply wp_bind. eapply wp_load_frame; [exact He|].
  apply wp_bind, wp_ret. destruct (fr_kpage e =? k).
  - apply wp_ret. split; [done|]. intros f [= ->]. by left.
  - eapply wp_mono; [apply IH; intros h Hh; apply Hl; by right|]. intros r v' [-> Ho]. split; [done|].
    intros f Hf. right. by apply Ho.
Qed.

(** [frame_destroy] returns, whatever frame it finds. *)
Lemma wp_frame_destroy v k c (Q : unit -> vm -> Prop) :
  frame_lock ∉ locks_of v -> (forall g, g ∈ frame_table v -> is_Some (frames v !! g)) ->
  data (vm_mem v) k = Some c -> (forall v', Q tt v') -> wp (frame_destroy k) Q v.
Proof.
  intros Hl Ht Hk HQ. apply wp_bind, wp_acquire; [done|]. apply wp_bind, wp_gets, wp_bind.
  eapply wp_mono; [by apply wp_find_kpage|]. intros r v' [-> Ho]. apply wp_bind. destruct r as [f|].
  - specialize (Ho f eq_refl). destruct (Ht f Ho) as [e He].
    apply wp_bind, wp_table_remove; [done|]. apply wp_bind, wp_bind. eapply wp_load_frame; [exact He|].
    apply wp_modify, wp_lift_mem. eapply wp_palloc_free_page; [exact Hk|].
    apply wp_release_held; [unfold locks_of; simpl; set_solver|]. apply HQ.
  - apply wp_ret, wp_release_held; [unfold locks_of; simpl; set_solver|]. apply HQ.
Qed.

(** *** [setup_stack] *)
Lemma words_loop_bytes P l : forall cur, Forall P cur -> Forall P l -> Forall (Forall P) (words_loop cur l).
Proof.
  induction l as [|x l IH]; intros cur Hc Hl; simpl.
  { destruct cur; [by apply Forall_nil|by apply Forall_singleton]. }
  apply Forall_cons in Hl as [Hx Hl]. destruct (x =? SPACE).
  - destruct cur; [by apply IH|]. apply Forall_cons. split; [done|]. by apply IH.
  - apply IH; [|done]. apply Forall_app. split; [done|by repeat constructor].
Qed.
Lemma word_size w ws : w ∈ ws -> Z.of_nat (length w) < words_size ws.
Proof.
  induction ws as [|x ws IH]; [by intros ?%elem_of_nil|]. pose proof (words_size_pos ws) as Hp.
  intros [->|Hw]%elem_of_cons; cbn [words_size foldr]; fold (words_size ws); [lia|]. specialize (IH Hw). lia.
Qed.
(** The words have no null, and they fit in the page. *)
Lemma words_fit file_name : 0 ∉ file_name -> words_size (words file_name) <= PGSIZE ->
  Forall (fun w => (0 ∉ w) /\ Z.of_nat (length w) < PGSIZE) (words file_name).
Proof.
  intros H0 Hs. assert (Hb : Forall (Forall (fun x => x <> 0)) (words file_name)).
  { apply words_loop_bytes; [by apply Forall_nil|]. apply Forall_forall. by intros x Hx ->. }
  apply Forall_forall. intros w Hw. split; [|pose proof (word_size w _ Hw); lia].
  rewrite Forall_forall in Hb. specialize (Hb w Hw). rewrite Forall_forall in Hb. intros Hx. by apply (Hb 0).
Qed.

(** The new page is an empty stack. *)
Lemma user_page_stack v pd k x : procs v !! running v = Some x -> pr_pagedir x = Some pd ->
  user_page v pd stack_page k zeros -> stack_at v k PGSIZE [].
Proof.
  intros Hx Hp [U1 U2 U3 U4 U5 U6]. split; [|unfold PGSIZE; lia|done].
  rewrite app_nil_r. split; try done. exists x, pd. split_and!; [done..|]. intros o Ho.
  destruct (mapping_offset (vm_mem v) pd stack_page o PTE_W U2 Ho) as [-> ->]. by rewrite U3, U4.
Qed.

Lemma stack_page_user : 0x08048000 < stack_page -> is_user_vaddr stack_page = true /\ pg_ofs stack_page = 0.
Proof.
  intros H. destruct base_page as [Hp [Hb Hb']]. split; [apply user_below; unfold stack_page, PGSIZE in *; lia|].
  rewrite pg_ofs_mod in Hp |- * by (unfold stack_page, PGSIZE in *; lia). unfold stack_page, PGSIZE in *. dlia.
Qed.

(** The objects of a page whose mapping failed. *)
Lemma table_missing_frames e0 u v pd k v' : table_missing e0 u v pd k v' -> unlocked v ->
  (frame_lock ∉ locks_of v') /\ (forall g, g ∈ frame_table v' -> is_Some (frames v' !! g)) /\ 
  data (vm_mem v') k = Some zeros /\ running v' = running v.
Proof.
  intros (s0 & x & Hp & Hx & Hf & Hn & _ & ->) Hul. simpl. split_and!.
  - unfold locks_of. simpl. rewrite (pp_os _ _ _ Hp). apply unlocked_in; [done|by left].
  - intros g [Hg| ->%list_elem_of_singleton]%elem_of_app.
    + destruct (decide (g = next_obj s0)) as [->|Hne]; [rewrite lookup_insert_eq; by eauto|].
      rewrite lookup_insert_ne by done. apply (vo_table _ _ (pp_ok _ _ _ Hp)) in Hg as (e & He & _). by eauto.
    + rewrite lookup_insert_eq. by eauto.
  - rewrite data_put. by rewrite decide_True.
  - apply (pp_run _ _ _ Hp).
Qed.

(** A new zero page for the running process: [wp_new_stack], inside a system call. *)
Lemma wp_new_stack_page {A} (kont : Z -> bool -> M sys A) e0 u s pd (Q : A -> sys -> Prop) :
  malloc_ok = true -> vm_ok (sy_vm s) pd -> heap_ok (sy_vm s) -> unlocked (sy_vm s) -> can_get (sy_vm s) ->
  is_user_vaddr u = true -> pg_ofs u = 0 -> unused (sy_vm s) u -> mapping (vm_mem (sy_vm s)) pd u = None ->
  (forall k v', table_missing e0 u (sy_vm s) pd k v' -> wp (kont k false) Q (set_vm v' s)) ->
  (forall k v', extended (sy_vm s) v' pd [(u, zeros)] -> vm_os v' = vm_os (sy_vm s) -> user_page v' pd u k zeros ->
     wp (kont k true) Q (set_vm v' s)) ->
  wp (kpage ← lift_vm zero_page; ok ← lift_vm (install_frame e0 u kpage true None SWAP 0 0); kont kpage ok) Q s.
Proof.
  intros Hm Hok Hh Hul Hcan Hu Ho Hun Hmap H1 H2.
  assert (H := wp_new_stack (fun kpage ok => mret (kpage, ok)) e0 u (sy_vm s) pd
    (fun r v' => wp (kont r.1 r.2) Q (set_vm v' s)) Hm Hok Hh Hul Hcan Hu Ho Hun Hmap H1 H2).
  apply wp_bind, wp_lift_vm. unfold wp at 1. rewrite zero_page_get. apply wp_bind_inv in H.
  eapply wp_mono; [exact H|]. intros kpage v1 H'. apply wp_bind_inv in H'.
  apply wp_bind, wp_lift_vm. eapply wp_mono; [exact H'|]. by intros ok v2 H''.
Qed.

(** C5: Arguments.  [setup_stack] puts the words of the command line on a new page below
    [PHYS_BASE], so that the program finds them: what it reads through [argc] and [argv]
    above the stack pointer, which is aligned, are the words that [strtok_r] finds in the
    command line.  Without memory for a page table there is no stack. *)
Theorem arguments_round_trip e0 file_name s pd t
    (Hm : malloc_ok = true) (Hok : vm_ok (sy_vm s) pd) (Hh : heap_ok (sy_vm s)) (Hul : unlocked (sy_vm s))
    (Hcan : can_get (sy_vm s)) (Hun : unused (sy_vm s) stack_page)
    (Hmap : mapping (vm_mem (sy_vm s)) pd stack_page = None) (Hlow : 0x08048000 < stack_page)
    (H0 : 0 ∉ file_name) (Hc : Z.of_nat (length (words file_name)) < ARGV_SIZE)
    (Hsize : words_size (words file_name) + 4 * Z.of_nat (length (words file_name)) + 20 <= PGSIZE)
    (Ht : current_is s t) :
  wp (setup_stack e0 file_name) (fun r s' => match r with
    | Some esp => esp mod 4 = 0 /\ current_is s' (set_ut_esp stack_page t) /\
        main_arguments esp (sy_vm s') = Ok (words file_name) (sy_vm s')
    | None => exists k v', table_missing e0 stack_page (sy_vm s) pd k v'
    end) s.
Proof.
  destruct (stack_page_user Hlow) as [Hu Ho]. 
  apply (wp_new_stack_page (fun kpage success => if success : bool then _ else _) e0 stack_page s pd); try done.
  - intros k v' Hmiss. simpl. destruct (table_missing_frames _ _ _ _ _ _ Hmiss Hul) as (L & F & K & _).
    apply wp_bind, wp_lift_vm. eapply wp_frame_destroy; [done..|]. intros v2. apply wp_ret. eauto.
  - intros k v' Hx Hos Hp. simpl. apply wp_bind. eapply (wp_store_current t).
    { unfold current_is. simpl. by rewrite (ex_run _ _ _ _ Hx). }
    apply wp_lift_vm. simpl. destruct (vo_proc _ _ (ex_ok _ _ _ _ Hx)) as (x & Hx' & Hpd).
    eapply wp_push_arguments; [done|by eapply user_page_stack|done..|]. intros v2 o b Hsb Hmp Hlo Hal.
    split; [|split].
    + rewrite Z.add_mod, (stack_page_aligned), Hal by (try done; lia). done.
    + unfold current_is. simpl. destruct Hsb as [c ->]. simpl. by rewrite lookup_insert_eq.
    + apply wp_eq. eapply wp_main_arguments; [exact Hmp|exact Hlo|lia|].
      apply words_fit; [done|lia].
Qed.
End arguments.

(** ** [load] and the lock of the file system *)
Section load_lock.
Context {D B W : Type} {dev : BlockDev D} {bm : Bitmap B} {io : BitmapIO D B} {mem : Memory}
  {sdev : BlockDev W} {pg : Paging} {pl : PagingLaws}.
Implicit Types (s : sys D B W) (v : vm D B W).

Lemma wp_set_pagedir pd v x (Q : unit -> vm D B W -> Prop) : procs v !! running v = Some x ->
  Q tt (set_procs (<[running v := Process pd (pr_page_table x)]> (procs v)) v) -> wp (set_pagedir pd) Q v.
Proof. intros Hx HQ. apply wp_bind, wp_gets. by eapply wp_store_proc. Qed.
Lemma wp_process_activate v x (Q : unit -> vm D B W -> Prop) : procs v !! running v = Some x ->
  (forall c, Q tt (set_mem (load_cr3 c (vm_mem v)) v)) -> wp process_activate Q v.
Proof.
  intros Hx HQ. apply wp_bind, wp_gets, wp_bind. eapply wp_load_proc; [exact Hx|].
  apply wp_lift_mem, wp_bind, wp_get, wp_modify, HQ.
Qed.

Lemma in_os_fails {A} (m : M (os D B) A) f s : m (vm_os (sy_vm s)) = Fail f -> in_os m s = Fail f.
Proof. intros H. unfold in_os, lift_vm, lift_os. by rewrite H. Qed.
Lemma give_lock_not_held l s : l ∉ locks_of (sy_vm s) -> give_lock l s = Fail Panic.
Proof. intros H. unfold give_lock, lift_vm, release, lift_fs, lift_os, lift, lock_release. by rewrite decide_False. Qed.

(** [load] opens the executable with [file_lock] held, and the operations on a path take
    it again: for a path from the root the kernel panics. *)
Theorem load_opens_with_lock e0 file_name w ws s x pd m
    (Hw : words file_name = w :: ws) (Hroot : from_root w (vm_os (sy_vm s)))
    (Hx : procs (sy_vm s) !! running (sy_vm s) = Some x) (Hm : malloc_ok = true)
    (Hl : file_lock ∉ locks_of (sy_vm s)) (Hpd : pagedir_create (vm_mem (sy_vm s)) = Ok (Some pd) m) :
  faults Panic (load e0 file_name) s.
Proof.
  apply fails_rest, wp_lift_vm, wp_lift_mem. unfold wp. rewrite Hpd.
  apply fails_rest, wp_lift_vm. eapply wp_set_pagedir; [exact Hx|].
  apply fails_rest, wp_lift_vm. eapply wp_process_activate; [simpl; by rewrite lookup_insert_eq|]. intros c.
  apply fails_rest, wp_lift_vm, wp_access; [done|].
  apply fails_rest. eapply wp_deref; [unfold determine_argument; by rewrite Hw|].
  apply fails_rest, wp_take_lock; [done|].
  apply fails_head, in_os_fails, filesys_open_locked; [done|]. by apply elem_of_union_l, elem_of_singleton.
Qed.

(** Without memory for a page directory [load] releases [file_lock], which it has not
    acquired yet: the kernel panics. *)
Theorem load_without_memory e0 file_name s x t c y m
    (Ht : current_is s t) (Hc : ut_process t = Some c) (Hy : children s !! c = Some y)
    (Hx : procs (sy_vm s) !! running (sy_vm s) = Some x)
    (Hl : file_lock ∉ locks_of (sy_vm s)) (Hpd : pagedir_create (vm_mem (sy_vm s)) = Ok None m) :
  faults Panic (load e0 file_name) s.
Proof.
  apply fails_rest, wp_lift_vm, wp_lift_mem. unfold wp. rewrite Hpd.
  apply fails_rest, wp_lift_vm. eapply wp_set_pagedir; [exact Hx|].
  apply fails_rest. eapply wp_store_current; [exact Ht|].
  apply fails_rest. eapply (wp_process c y).
  { eexists. split; [unfold current_is; simpl; by rewrite lookup_insert_eq|done]. }
  apply fails_rest. eapply wp_store_child; [exact Hy|]. by apply fails_head, give_lock_not_held.
Qed.
End load_lock.

(** ** Concrete runs *)
#[local] Existing Instance memory_available.
(** A process without pages, which loads "ls -l  a". *)
Definition ls_line : list Z := [108; 115; 32; 45; 108; 32; 32; 97].
Definition loading : sys disk bits disk := as_task (bare (open_file_os 0)).

Lemma arguments_round_trip_witness :
  wp (setup_stack stack_frame ls_line) (fun r s' => exists esp, r = Some esp /\ esp mod 4 = 0 /\
    main_arguments esp (sy_vm s') = Ok [[108; 115]; [45; 108]; [97]] (sy_vm s')) loading.
Proof.
  assert (Hr : exists esp s', setup_stack stack_frame ls_line loading = Ok (Some esp) s').
  { eexists _, _. vm_compute. reflexivity. }
  destruct Hr as (esp & s' & Hr).
  pose proof (arguments_round_trip stack_frame ls_line loading user_dir task_thread) as H.
  unfold wp in *. rewrite Hr in *.
  destruct H as (Ha & _ & Hm);
    [done|apply bare_ok|apply bare_heap|by repeat (apply Forall_cons; split; [by apply not_elem_of_empty|]); apply Forall_nil| |intros f e He; simpl in He; by rewrite lookup_empty in He
    |by vm_compute|done|by apply (bool_decide_unpack _)|by vm_compute|by vm_compute|reflexivity|exists esp; split; [done|split; [exact Ha|exact Hm]]].
  left. eexists. vm_compute. reflexivity.
Defined.

(** A segment of the file of 600 bytes, with 400 more bytes in memory. *)
Definition text_segment : phdr := Phdr PT_LOAD 0 map_page 0 600 1000 7 4096.
Lemma validate_segment_bounds_witness : validate_segment text_segment 600 = true /\ validate_segment text_segment 599 = true.
Proof.
  split; apply (validate_segment_bounds text_segment); try done; by vm_compute.
Defined.

Lemma loading_ready : ready (sy_vm loading) user_dir 0 (File 0 0 false) (two_block_inode 0).
Proof.
  split; [apply bare_ok|apply bare_heap|by apply not_elem_of_empty|by intros f e r Hf%elem_of_nil|by apply open_file_at].
Qed.

Lemma load_phdr_maps_segment_witness :
  wp (load_phdr stack_frame 0 text_segment) (fun r v => r = true /\ exists c, space v map_page c /\
    slice 0 1000 c = replicate 512 1 ++ replicate 88 2 ++ replicate 400 0) (sy_vm loading).
Proof.
  eapply wp_mono.
  - apply (load_phdr_maps_segment stack_frame 0 (File 0 0 false) (two_block_inode 0) user_dir (sy_vm loading) text_segment);
      [reflexivity|apply loading_ready|reflexivity|by vm_compute|by vm_compute|by vm_compute|by vm_compute|by vm_compute|by vm_compute|].
    split; [by vm_compute|by vm_compute|by vm_compute|..].
    + intros j Hj f e He. simpl in He. by rewrite lookup_empty in He.
    + intros [|j] Hj; [by vm_compute|]. assert (segment_pages text_segment = 1%nat) as E by (by vm_compute). lia.
  - intros r v (-> & pages & Hx & Ha & Hb). split; [done|].
    destruct pages as [|[a c] [|? ?]]; try done. simpl in Ha. injection Ha as ->.
    exists c. split; [apply (ex_space _ _ _ _ Hx); left; by left|]. simpl concat in Hb. rewrite app_nil_r in Hb.
    change (slice 0 1000 c) with (slice (p_vaddr text_segment - segment_page text_segment) (p_memsz text_segment) c).
    rewrite Hb. vm_compute. reflexivity.
Defined.
