(* ===== verification/Syscall.v ===== *)
(** * Syscall: the system calls and the page faults ([syscall_handler], [check_valid_esp],
    [halt] and [create] of [userprog/syscall.c]; [page_fault] and [kill] of
    [userprog/exception.c]).

    The handler reads its arguments from the stack of the process, after it has checked
    their addresses; a page that is not in memory is loaded, and an address close to the
    stack pointer is given a new page ([stack_grows_at_fault], [stack_grows_in_call]). *)
From S2P Require Import Prelude Bytes State Instances Cache FreeMap Inode InodeData InodeFaults File Directory Filesys Pagedir Vm Swap Paging Reload Pages Release Task Descriptors Mmap Process Loader.
From Stdlib Require Import ZArith Lia.
From stdpp Require Import prelude gmap.

Open Scope Z_scope.

(** The system calls of [syscall_handler]. *)
Inductive syscall :=
| SYS_HALT | SYS_EXIT | SYS_EXEC | SYS_WAIT | SYS_CREATE | SYS_REMOVE | SYS_OPEN | SYS_FILESIZE
| SYS_READ | SYS_WRITE | SYS_SEEK | SYS_TELL | SYS_CLOSE | SYS_MMAP | SYS_MUNMAP.

(** The members of [struct intr_frame] that the handlers use. *)
Inductive code_segment := SEL_UCSEG | SEL_KCSEG | SEL_OTHER.
Record intr_frame := IntrFrame {
  f_esp : Z; f_eax : Z; f_error_code : Z; f_cs : code_segment; f_vec_no : Z;
}.
Definition set_eax (x : Z) (f : intr_frame) : intr_frame :=
  IntrFrame (f_esp f) x (f_error_code f) (f_cs f) (f_vec_no f).

(** What memory holds that the code does not initialise: a frame from [malloc], a child
    record from [malloc], a directory entry on the stack of [dir_add], and the argument
    [isdir] that [create] does not pass. *)
Record stale := Stale { st_frame : frame_elem; st_child : child; st_entry : list Z; st_isdir : bool }.

(** The bit of the error code that is set when the page was present. *)
Definition PF_P : Z := 1.

Section syscall.
Context {D B W : Type} {dev : BlockDev D} {bm : Bitmap B} {io : BitmapIO D B} {mem : Memory}
  {sdev : BlockDev W} {pg : Paging}.
Abbreviation sys := (sys D B W).
Abbreviation vm := (vm D B W).
Abbreviation K := (M sys).
Implicit Types (s : sys) (v : vm) (st : stale) (f : intr_frame).

(** [lib/syscall-nr.h] and [devices/shutdown.c] are not among the sources. *)
Context (syscall_nr : Z -> option syscall) (shutdown_power_off : K unit).

(** ** User addresses *)
Definition get_user_page (ptr : Z) : M vm (option Z) :=
  pd ← current_pagedir; lift_mem (pagedir_get_page pd ptr).

(** [exit (-1)] does not return: the result is [None]. *)
Definition check_valid_esp st (ptr esp : Z) : K (option unit) :=
  if (PHYS_BASE <=? ptr) || (ptr <=? CODE_BASE) then exit (-1)
  else
    addr ← lift_vm (get_user_page ptr);
    match addr with
    | Some _ => mret (Some tt)
    | None =>
      let upage := pg_round_down ptr in
      spt ← lift_vm (find_spt upage);
      match spt with
      | Some _ =>
        success ← lift_vm (load_back spt);
        if success : bool then mret (Some tt) else exit (-1)
      | None =>
        if u32 (esp - 33) <? ptr then
          kpage ← lift_vm (o ← frame_get_kpage ZEROED; palloc_or_evict 1 ZEROED o);
          sucess ← lift_vm (install_frame (st_frame st) upage kpage true None SWAP 0 0);
          if sucess : bool then store_current (set_ut_esp upage);; mret (Some tt)
          else lift_vm (frame_destroy kpage);; exit (-1)
        else exit (-1)
      end
    end.

(** [check_valid_esp (ptr, thread_current ()->esp)] *)
Definition check st (ptr : Z) : K (option unit) := t ← current; check_valid_esp st ptr (ut_esp t).

(** The loop over the bytes of a buffer. *)
Fixpoint check_buffer st (size : nat) (buffer : Z) : K (option unit) :=
  match size with
  | O => mret (Some tt)
  | S size => (_u ⇠ check st buffer; check_buffer st size (u32 (buffer + 1)))%exit
  end.

(** ** Page faults *)

(** [fault_addr] is what the processor left in CR2. *)
Definition page_fault st (fault_addr : Z) f : K (option unit) :=
  let not_present := Z.land (f_error_code f) PF_P =? 0 in
  if negb not_present || (PHYS_BASE <=? fault_addr) || (fault_addr <=? CODE_BASE) then exit (-1)
  else
    ptr ← lift_vm (get_user_page fault_addr);
    match ptr with
    | Some _ => exit (-1)
    | None =>
      let upage := pg_round_down fault_addr in
      spt ← lift_vm (find_spt upage);
      match spt with
      | Some _ =>
        success ← lift_vm (load_back spt);
        if success : bool then mret (Some tt) else exit (-1)
      | None =>
        if u32 (f_esp f - 33) <? fault_addr then
          kpage ← lift_vm zero_page;
          sucess ← lift_vm (install_frame (st_frame st) upage kpage true None SWAP 0 0);
          if sucess : bool then store_current (set_ut_esp upage);; mret (Some tt)
          else lift_vm (frame_destroy kpage);; exit (-1)
        else exit (-1)
      end
    end.

(** The other exceptions. *)
Definition kill f : K (option unit) :=
  match f_cs f with
  | SEL_UCSEG => t ← current; print (Dying (ut_name t) (f_vec_no f));; thread_exit;; mret None
  | SEL_KCSEG => fail Panic
  | SEL_OTHER => print (UnknownSegment (f_vec_no f));; thread_exit;; mret None
  end.

(** ** The handler *)
Definition halt : K (option intr_frame) := shutdown_power_off;; mret None.

(** [filesys_create] has a third argument, [isdir], which [create] does not pass. *)
Definition create st (file : option (list Z)) (initial_size : Z) : K (option Z) :=
  match file with
  | None => exit (-1)
  | Some name =>
    take_lock file_lock;;
    success ← in_os (filesys_create (st_entry st) name (s32 initial_size) (st_isdir st));
    give_lock file_lock;;
    mret (Some (Z.b2z success))
  end.

(** The word at [f->esp + i]. *)
Definition arg f (i : Z) : K Z := lift_vm (user_word (u32 (f_esp f + i))).
Definition result f (m : K Z) : K (option intr_frame) := r ← m; mret (Some (set_eax (u32 r) f)).
Definition no_result f (m : K unit) : K (option intr_frame) := m;; mret (Some f).

(** The string at the kernel address [a]. *)
Fixpoint kernel_string (fuel : nat) (a : Z) : M vm (list Z) :=
  match fuel with
  | O => fail Hang
  | S fuel =>
    b ← load_page (pg_round_down a);
    x ← deref (b !! Z.to_nat (pg_ofs a));
    if x =? 0 then mret [] else rest ← kernel_string fuel (a + 1); mret (x :: rest)
  end.

(** One case of the [switch]; strings are followed for at most [n] bytes. *)
Definition system_call st (n : nat) (c : syscall) f : K (option intr_frame) :=
  let esp := f_esp f in
  let check_arg i := check st (u32 (esp + i)) in
  (match c with
  | SYS_HALT => halt
  | SYS_EXIT =>
    _u ⇠ check_arg 4;
    status ⇠ returns (arg f 4);
    exit (s32 status)
  | SYS_EXEC =>
    _u ⇠ check_arg 4;
    a ⇠ returns (arg f 4);
    _u ⇠ check st a;
    cmd_line ⇠ returns (lift_vm (user_string_from n a));
    result f (exec (st_child st) cmd_line)
  | SYS_WAIT =>
    _u ⇠ check_arg 4;
    pid ⇠ returns (arg f 4);
    result f (wait (s32 pid))
  | SYS_CREATE =>
    _u ⇠ check_arg 4;
    _u ⇠ check_arg 8;
    a ⇠ returns (arg f 4);
    _u ⇠ check st a;
    file_name ⇠ returns (lift_vm (user_string_from n a));
    size ⇠ returns (arg f 8);
    success ⇠ create st (Some file_name) size;
    mret (Some (set_eax success f))
  | SYS_REMOVE =>
    _u ⇠ check_arg 4;
    a ⇠ returns (arg f 4);
    _u ⇠ check st a;
    k ⇠ returns (lift_vm (get_user_page a));
    k ⇠ returns (deref k);
    file_name ⇠ returns (lift_vm (kernel_string n k));
    result f (b ← Descriptors.remove file_name; mret (Z.b2z b))
  | SYS_OPEN =>
    _u ⇠ check_arg 4;
    a ⇠ returns (arg f 4);
    _u ⇠ check st a;
    file_name ⇠ returns (lift_vm (user_string_from n a));
    result f (open file_name)
  | SYS_FILESIZE =>
    _u ⇠ check_arg 4;
    fd ⇠ returns (arg f 4);
    result f (filesize (s32 fd))
  | SYS_READ =>
    _u ⇠ check_arg 4;
    _u ⇠ check_arg 8;
    _u ⇠ check_arg 12;
    size ⇠ returns (arg f 12);
    fd ⇠ returns (arg f 4);
    buffer ⇠ returns (arg f 8);
    _u ⇠ check_buffer st (Z.to_nat size) buffer;
    buffer ⇠ returns (arg f 8);
    result f (read (s32 fd) buffer size)
  | SYS_WRITE =>
    _u ⇠ check_arg 4;
    _u ⇠ check_arg 8;
    _u ⇠ check_arg 12;
    size ⇠ returns (arg f 12);
    buffer ⇠ returns (arg f 8);
    _u ⇠ check_buffer st (Z.to_nat size) buffer;
    buffer ⇠ returns (arg f 8);
    fd ⇠ returns (arg f 4);
    result f (write (s32 fd) buffer size)
  | SYS_SEEK =>
    _u ⇠ check_arg 4;
    _u ⇠ check_arg 8;
    fd ⇠ returns (arg f 4);
    position ⇠ returns (arg f 8);
    no_result f (seek (s32 fd) position)
  | SYS_TELL =>
    _u ⇠ check_arg 4;
    fd ⇠ returns (arg f 4);
    result f (tell (s32 fd))
  | SYS_CLOSE =>
    _u ⇠ check_arg 4;
    fd ⇠ returns (arg f 4);
    no_result f (close (s32 fd))
  | SYS_MMAP =>
    _u ⇠ check_arg 4;
    fd ⇠ returns (arg f 4);
    upage ⇠ returns (arg f 8);
    result f (mmap (st_frame st) (s32 fd) upage)
  | SYS_MUNMAP =>
    _u ⇠ check_arg 4;
    mapid ⇠ returns (arg f 4);
    no_result f (munmap (s32 mapid))
  end)%exit.

Definition syscall_handler st (n : nat) f : K (option intr_frame) :=
  (_u ⇠ check st (f_esp f);
   nr ⇠ returns (arg f 0);
   match syscall_nr nr with
   | Some c => system_call st n c f
   | None => mret (Some f)
   end)%exit.
End syscall.

(** ** The behaviour *)
Section syscall_rules.
Context {D B W : Type} {dev : BlockDev D} {bm : Bitmap B} {io : BitmapIO D B} {mem : Memory}
  {sdev : BlockDev W} {pg : Paging}.
Context {dlaws : BlockDevLaws D} {slaws : BlockDevLaws W} {blaws : BitmapLaws B} {pl : PagingLaws}.
Abbreviation sys := (sys D B W).
Abbreviation vm := (vm D B W).
Implicit Types (s : sys) (v : vm) (st : stale) (f : intr_frame).

Lemma same_vm s : set_vm (sy_vm s) s = s.
Proof. by destruct s. Qed.

Lemma wp_get_user_page v pd a (Q : option Z -> vm -> Prop) : vm_ok v pd -> 0 <= a < PHYS_BASE ->
  Q ((fun k => k + pg_ofs a) <$> mapping (vm_mem v) pd (pg_round_down a)) v -> wp (get_user_page a) Q v.
Proof.
  intros Hok Ha HQ. destruct (vo_proc _ _ Hok) as (x & Hx & Hp). destruct (round_down a) as (E1 & E2 & E3).
  apply wp_bind. eapply wp_current_pagedir; [exact Hx|exact Hp|]. apply wp_lift_mem. rewrite E1 at 1.
  destruct (page_offset (pg_round_down a) (pg_ofs a) E2 E3) as (_ & _ & _ & E4).
  apply wp_pagedir_get_page; [apply Hok| |done|done|by destruct v].
  rewrite <- E4, <- E1. apply user_below; lia.
Qed.

(** An address of user space that the checks accept. *)
Definition user_range (a : Z) : Prop := CODE_BASE < a < PHYS_BASE.
Lemma in_range a : user_range a -> (PHYS_BASE <=? a) || (a <=? CODE_BASE) = false /\ 0 <= a < PHYS_BASE.
Proof. unfold user_range, CODE_BASE. intros H. rewrite orb_false_iff, !Z.leb_gt. lia. Qed.
Lemma range_page a : user_range a -> is_user_vaddr (pg_round_down a) = true /\ pg_ofs (pg_round_down a) = 0.
Proof.
  intros H. destruct (in_range a H) as [_ Ha]. destruct (round_down a) as (E1 & E2 & E3). split; [|done].
  destruct (page_offset (pg_round_down a) (pg_ofs a) E2 E3) as (_ & _ & _ & E4).
  rewrite <- E4, <- E1. apply user_below; lia.
Qed.

(** What the two handlers find for an address without a page in memory. *)
Lemma page_not_mapped s pd a : vm_ok (sy_vm s) pd -> user_range a ->
  mapping (vm_mem (sy_vm s)) pd (pg_round_down a) = None -> lift_vm (get_user_page a) s = Ok None s.
Proof.
  intros Hok Hr Hm. destruct (in_range a Hr) as [_ Ha]. apply wp_eq, wp_lift_vm.
  eapply wp_get_user_page; [done..|]. by rewrite Hm, same_vm.
Qed.
Lemma page_not_known s pd a : vm_ok (sy_vm s) pd -> heap_ok (sy_vm s) -> unused (sy_vm s) (pg_round_down a) ->
  lift_vm (find_spt (pg_round_down a)) s = Ok None s.
Proof.
  intros Hok Hh Hun. apply wp_eq, wp_lift_vm. apply (wp_find_spt _ pd); [done..|by rewrite same_vm|].
  intros g e Hg He. by destruct (Hun g e).
Qed.

(** The page of [a]: mapped, known to the process but not in memory, or unknown. *)
Definition page_unknown v pd (a : Z) : Prop :=
  mapping (vm_mem v) pd (pg_round_down a) = None /\ unused v (pg_round_down a).

(** C40: A bad address ends the process.  [check_valid_esp] and [page_fault] do exactly
    what [exit (-1)] does for an address outside user space, and for an address without a
    page that is more than 32 bytes below the stack pointer; so does [page_fault] for an
    access that the page table forbids. *)
Theorem bad_address_exits st a esp f s pd (Hok : vm_ok (sy_vm s) pd) (Hh : heap_ok (sy_vm s)) :
  (~ user_range a -> check_valid_esp st a esp s = exit (-1) s /\ page_fault st a f s = exit (-1) s) /\
  (user_range a -> page_unknown (sy_vm s) pd a ->
    (a <= u32 (esp - 33) -> check_valid_esp st a esp s = exit (-1) s) /\
    (a <= u32 (f_esp f - 33) -> page_fault st a f s = exit (-1) s)) /\
  (Z.land (f_error_code f) PF_P <> 0 -> page_fault st a f s = exit (-1) s).
Proof.
  assert (Hout : ~ user_range a -> (PHYS_BASE <=? a) || (a <=? CODE_BASE) = true).
  { unfold user_range. rewrite orb_true_iff, !Z.leb_le. lia. }
  split; [|split].
  - intros H. unfold check_valid_esp, page_fault. specialize (Hout H). rewrite <- orb_assoc, Hout.
    by destruct (negb _).
  - intros Hr [Hm Hun]. destruct (in_range a Hr) as [E Ha].
    pose proof (page_not_mapped s pd a Hok Hr Hm) as H1. pose proof (page_not_known s pd a Hok Hh Hun) as H2.
    split; intros Hlow; unfold check_valid_esp, page_fault; [|rewrite <- orb_assoc]; rewrite E.
    + unfold mbind, M_bind. rewrite H1, H2. destruct (Z.ltb_spec (u32 (esp - 33)) a); [lia|done].
    + destruct (negb _); [done|]. unfold mbind, M_bind. simpl. rewrite H1, H2.
      destruct (Z.ltb_spec (u32 (f_esp f - 33)) a); [lia|done].
  - intros H. unfold page_fault. apply Z.eqb_neq in H. by rewrite H.
Qed.
(** *** A page for the stack *)

(** What the growth of the stack needs: an unknown address whose page table is there. *)
Record can_grow s pd (t : uthread) (a : Z) : Prop := {
  cg_ok : vm_ok (sy_vm s) pd;
  cg_heap : heap_ok (sy_vm s);
  cg_unlocked : unlocked (sy_vm s);
  cg_get : can_get (sy_vm s);
  cg_current : current_is s t;
  cg_range : user_range a;
  cg_unknown : page_unknown (sy_vm s) pd a;
  cg_table : is_Some (pte_of (vm_mem (sy_vm s)) pd (pg_round_down a));
}.

(** The page of [a] is a new page of zeros, mapped and writable; the other pages are as
    they were, and the stack of the thread is known to reach down to it. *)
Definition grown s pd (t : uthread) (a : Z) s' : Prop :=
  let page := pg_round_down a in
  extended (sy_vm s) (sy_vm s') pd [(page, zeros)] /\ vm_os (sy_vm s') = vm_os (sy_vm s) /\
  (exists k, user_page (sy_vm s') pd page k zeros) /\ current_is s' (set_ut_esp page t).

Lemma wp_grow_stack (get : M vm Z) e0 s pd t a (Q : option unit -> sys -> Prop) :
  (forall v, get v = zero_page v) -> malloc_ok = true -> can_grow s pd t a ->
  (forall s', grown s pd t a s' -> Q (Some tt) s') ->
  wp (kpage ← lift_vm get;
      sucess ← lift_vm (install_frame e0 (pg_round_down a) kpage true None SWAP 0 0);
      if sucess : bool then store_current (set_ut_esp (pg_round_down a));; mret (Some tt)
      else lift_vm (frame_destroy kpage);; exit (-1)) Q s.
Proof.
  intros Hg Hm [Hok Hh Hul Hcan Ht Hr [Hmap Hun] Htab] HQ. destruct (range_page a Hr) as [Hu Ho].
  assert (E : lift_vm get s = lift_vm zero_page s) by (unfold lift_vm; by rewrite Hg).
  unfold wp, mbind, M_bind. rewrite E.
  refine (wp_new_stack_page (fun kpage (ok : bool) => if ok then store_current (set_ut_esp (pg_round_down a));; mret (Some tt)
    else lift_vm (frame_destroy kpage);; exit (-1)) e0 (pg_round_down a) s pd Q Hm Hok Hh Hul Hcan Hu Ho Hun Hmap _ _).
  - intros k v' (s0 & x & Hp & _ & _ & Hn & _). apply (pp_pte _ _ _ Hp) in Htab; [|done..]. rewrite Hn in Htab.
    by destruct Htab.
  - intros k v' Hx Hos Hp. simpl. pose proof (ex_run _ _ _ _ Hx) as Hrun. apply wp_bind. eapply (wp_store_current t).
    { unfold current_is. simpl. by rewrite Hrun. }
    apply wp_ret, HQ. split; [done|]. split; [done|]. split; [by exists k|].
    unfold current_is. simpl. by rewrite lookup_insert_eq.
Qed.

Lemma frame_or_evict v : (o ← frame_get_kpage ZEROED; palloc_or_evict 1 ZEROED o) v = zero_page v.
Proof.
  unfold frame_get_kpage, zero_page. assert (Hz : (Z.land ZEROED PAL_USER =? 0) = false).
  { pose proof (proj1 zeroed_flag) as H. unfold has in H. by destruct (_ =? _). }
  by rewrite Hz.
Qed.

(** C8: The stack grows.  At an address without a page that is at most 32 bytes below the
    stack pointer, or above it, a page fault of the process and the check of a system call
    add one page of zeros to its address space, even when memory is full; they return, the
    page can be written, and every other page keeps its contents.  (The page table for the
    address exists.) *)
Theorem stack_grows st a esp f s pd t (Hm : malloc_ok = true) (Hg : can_grow s pd t a) :
  (u32 (esp - 33) < a -> wp (check_valid_esp st a esp) (fun r s' => r = Some tt /\ grown s pd t a s') s) /\
  (u32 (f_esp f - 33) < a -> Z.land (f_error_code f) PF_P = 0 ->
   wp (page_fault st a f) (fun r s' => r = Some tt /\ grown s pd t a s') s).
Proof.
  pose proof Hg as [Hok Hh _ _ _ Hr [Hmap Hun] _]. destruct (in_range a Hr) as [E Ha].
  pose proof (page_not_mapped s pd a Hok Hr Hmap) as H1. pose proof (page_not_known s pd a Hok Hh Hun) as H2.
  split.
  - intros Hlow. unfold check_valid_esp. rewrite E. unfold wp, mbind at 1, M_bind at 1. rewrite H1.
    cbv zeta. unfold mbind at 1, M_bind at 1. rewrite H2.
    destruct (Z.ltb_spec (u32 (esp - 33)) a); [|lia].
    apply (wp_grow_stack _ _ s pd t a); [apply frame_or_evict|done|done|]. by intros s' Hs.
  - intros Hlow Hp. unfold page_fault. rewrite Hp, <- orb_assoc, E. change (negb (0 =? 0) || false) with false. cbv iota.
    unfold wp, mbind at 1, M_bind at 1. rewrite H1. cbv zeta. unfold mbind at 1, M_bind at 1. rewrite H2.
    destruct (Z.ltb_spec (u32 (f_esp f - 33)) a); [|lia].
    apply (wp_grow_stack _ _ s pd t a); [done|done|done|]. by intros s' Hs.
Qed.

(** *** A page that is not in memory *)

(** *** The dispatch *)
Lemma live_ok {A B'} (m : M sys (option A)) (k : A -> M sys (option B')) a s s' :
  m s = Ok (Some a) s' -> live m k s = k a s'.
Proof. unfold live, mbind, M_bind. by intros ->. Qed.
Lemma returns_ok {A} (m : M sys A) a s s' : m s = Ok a s' -> returns m s = Ok (Some a) s'.
Proof. unfold returns, mbind, M_bind. by intros ->. Qed.

(** The page at [u] is mapped to [k] and holds [b]; it lies in the user space. *)
Record user_bytes s u k (b : list Z) : Prop := {
  ub_page : exists w, mapped_page (sy_vm s) u k b w;
  ub_low : CODE_BASE < u;
  ub_high : u + PGSIZE <= PHYS_BASE;
}.

Section dispatch.
Context (syscall_nr : Z -> option syscall) (shutdown_power_off : M sys unit).
Context (s : sys) (pd : Z) (t : uthread).
Hypothesis Hok : vm_ok (sy_vm s) pd.
Hypothesis Ht : current_is s t.

Lemma check_mapped st u k b o : user_bytes s u k b -> 0 <= o < PGSIZE -> check st (u + o) s = Ok (Some tt) s.
Proof.
  intros [[w [(x & pd' & Hx & Hp & Hm) Hu Ha Hb Hl]] H1 H2] Ho. apply wp_eq, wp_bind.
  eapply wp_current_task; [exact Ht|]. unfold check_valid_esp.
  assert (Hr : user_range (u + o)) by (unfold user_range; lia). destruct (in_range _ Hr) as [E Hr']. rewrite E.
  destruct (vo_proc _ _ Hok) as (x' & Hx' & Hp'). assert (x' = x) as -> by congruence. assert (pd' = pd) as -> by congruence.
  apply wp_bind, wp_lift_vm. eapply wp_get_user_page; [done..|].
  destruct (page_offset u o Ha Ho) as (_ & _ & E3 & _). destruct (round_down (u + o)) as (E4 & _ & _).
  replace (pg_round_down (u + o)) with u by lia. destruct (Hm 0) as [Hm0 _]; [unfold PGSIZE; lia|].
  rewrite Z.add_0_r in Hm0. rewrite Hm0. simpl. apply wp_ret. by rewrite same_vm.
Qed.

Lemma check_buffer_mapped st u k b n : forall o, user_bytes s u k b -> 0 <= o -> o + Z.of_nat n <= PGSIZE ->
  check_buffer st n (u + o) s = Ok (Some tt) s.
Proof.
  induction n as [|n IH]; intros o Hu Ho Hn; [done|]. cbn [check_buffer].
  erewrite live_ok by (eapply check_mapped; [exact Hu|lia]). destruct n as [|n]; [done|].
  pose proof (ub_low _ _ _ _ Hu). pose proof (ub_high _ _ _ _ Hu). destruct base_page as (_ & _ & Hb).
  rewrite u32_small by (unfold UINT32, CODE_BASE in *; lia). replace (u + o + 1) with (u + (o + 1)) by lia.
  apply IH; [done|lia..].
Qed.

(** The stack pointer of the frame points to the number of the call and its arguments. *)
Record call_at f (nr a1 a2 a3 : Z) : Prop := {
  ca_words : exists u k b o rest, user_bytes s u k b /\ f_esp f = u + o /\ 0 <= o /\ o + 16 <= PGSIZE /\
    drop (Z.to_nat o) b = le32 nr ++ le32 a1 ++ le32 a2 ++ le32 a3 ++ rest;
  ca_range : Forall (fun a => 0 <= a < UINT32) [nr; a1; a2; a3];
}.

Lemma call_args st f nr a1 a2 a3 : call_at f nr a1 a2 a3 ->
  check st (f_esp f) s = Ok (Some tt) s /\
  (forall i, 0 <= i < 16 -> check st (u32 (f_esp f + i)) s = Ok (Some tt) s) /\
  arg f 0 s = Ok nr s /\ arg f 4 s = Ok a1 s /\ arg f 8 s = Ok a2 s /\ arg f 12 s = Ok a3 s.
Proof.
  intros [(u & k & b & o & rest & Hu & He & Ho & Hend & Hd) Hr]. rewrite He.
  pose proof (ub_low _ _ _ _ Hu) as H1. pose proof (ub_high _ _ _ _ Hu) as H2. destruct base_page as (_ & _ & Hb).
  assert (Hi : forall i, 0 <= i < 16 -> u32 (u + o + i) = u + (o + i)).
  { intros i Hi. rewrite u32_small; [lia|]. unfold UINT32, CODE_BASE in *. lia. }
  repeat rewrite Forall_cons in Hr. destruct Hr as (R0 & R1 & R2 & R3 & _).
  assert (Ha : forall (j : nat) a l, 4 * Z.of_nat j <= 12 -> 0 <= a < UINT32 ->
    drop (Z.to_nat (o + 4 * Z.of_nat j)) b = le32 a ++ l -> arg f (4 * Z.of_nat j) s = Ok a s).
  { intros j a l Hj Ha Hl. unfold arg. rewrite He, Hi by lia. destruct (ub_page _ _ _ _ Hu) as [w Hw].
    apply wp_eq, wp_lift_vm. eapply wp_user_word; [exact Hw|lia|lia|exact Hl|].
    rewrite u32_small by done. by rewrite same_vm. }
  assert (Hdrop : forall (j : nat) l1 l2, drop (Z.to_nat o) b = l1 ++ l2 -> length l1 = (4 * j)%nat ->
    drop (Z.to_nat (o + 4 * Z.of_nat j)) b = l2).
  { intros j l1 l2 Hl Hn. replace (Z.to_nat (o + 4 * Z.of_nat j)) with (Z.to_nat o + 4 * j)%nat by lia.
    rewrite <- drop_drop, Hl. by apply drop_app_length'. }
  split; [by eapply check_mapped; [|lia]|]. split; [intros i Hi'; rewrite Hi by done; eapply check_mapped; [done|lia]|].
  split; [|split; [|split]].
  - apply (Ha 0%nat nr (le32 a1 ++ le32 a2 ++ le32 a3 ++ rest)); [lia|done|]. by apply (Hdrop 0%nat []).
  - apply (Ha 1%nat a1 (le32 a2 ++ le32 a3 ++ rest)); [lia|done|]. apply (Hdrop 1%nat (le32 nr)); [done|].
    by rewrite le32_length.
  - apply (Ha 2%nat a2 (le32 a3 ++ rest)); [lia|done|]. apply (Hdrop 2%nat (le32 nr ++ le32 a1)).
    + by rewrite <- app_assoc.
    + by rewrite length_app, !le32_length.
  - apply (Ha 3%nat a3 rest); [lia|done|]. apply (Hdrop 3%nat (le32 nr ++ le32 a1 ++ le32 a2)).
    + by rewrite <- !app_assoc.
    + by rewrite !length_app, !le32_length.
Qed.

(** [n] bytes of the process from the address [a], in one page. *)
Definition buffer_at (a : Z) (n : Z) : Prop := exists u k b o,
  user_bytes s u k b /\ a = u + o /\ 0 <= o /\ 0 <= n /\ o + n <= PGSIZE.
(** The string [w] at the address [a], in one page. *)
Definition string_in (a : Z) (w : list Z) : Prop := exists u k b o,
  user_bytes s u k b /\ pg_ofs k = 0 /\ a = u + o /\ 0 <= o < PGSIZE /\ string_at b o w /\ 0 ∉ w.

Lemma check_buffer_at st a n : buffer_at a n -> check_buffer st (Z.to_nat n) a s = Ok (Some tt) s.
Proof. intros (u & k & b & o & Hu & -> & Ho & Hn & Hend). eapply check_buffer_mapped; [done|done|lia]. Qed.
Lemma check_string st a w : string_in a w -> check st a s = Ok (Some tt) s.
Proof. intros (u & k & b & o & Hu & _ & -> & Ho & _). by eapply check_mapped. Qed.

Lemma user_string n a w : string_in a w -> (length w < n)%nat -> lift_vm (user_string_from n a) s = Ok w s.
Proof.
  intros (u & k & b & o & [[m Hw] _ _] & _ & -> & Ho & Hs & H0) Hn. apply wp_eq, wp_lift_vm.
  eapply wp_user_string; [exact Hw|lia|done..|]. by rewrite same_vm.
Qed.

(** The kernel reads the same string at the address of the frame. *)
Lemma wp_kernel_string v k b w fuel : forall o (Q : list Z -> vm -> Prop),
  data (vm_mem v) k = Some b -> Z.of_nat (length b) = PGSIZE -> pg_ofs k = 0 -> 0 <= o -> string_at b o w -> 0 ∉ w ->
  (length w < fuel)%nat -> Q w v -> wp (kernel_string fuel (k + o)) Q v.
Proof.
  revert fuel. induction w as [|x w IH]; intros [|fuel] o Q Hb Hl Hk Ho [post Hd] Hz Hf HQ; simpl in Hf; try lia;
    cbn [kernel_string];
    assert (Hlt : (Z.to_nat o < length b)%nat) by
      (assert (H := f_equal length Hd); rewrite length_drop, length_app in H; simpl in H; lia);
    assert (H0 : forall y l, drop (Z.to_nat o) b = y :: l -> b !! Z.to_nat o = Some y) by
      (intros y l E; by rewrite <- (Nat.add_0_r (Z.to_nat o)), <- lookup_drop, E);
    destruct (page_offset k o Hk ltac:(lia)) as (_ & _ & E3 & _); destruct (round_down (k + o)) as (E4 & _ & _);
    (apply wp_bind; replace (pg_round_down (k + o)) with k by lia; eapply wp_load_page; [exact Hb|]);
    (apply wp_bind; eapply wp_deref; [rewrite E3; eapply H0; exact Hd|]).
  - by apply wp_ret.
  - apply not_elem_of_cons in Hz as [Hx Hz]. destruct (Z.eqb_spec x 0) as [->|_]; [done|]. apply wp_bind.
    replace (k + o + 1) with (k + (o + 1)) by lia. eapply IH; [done|done|done|lia| |done|lia|by apply wp_ret].
    exists post. replace (Z.to_nat (o + 1)) with (Z.to_nat o + 1)%nat by lia. by rewrite <- drop_drop, Hd.
Qed.

Lemma kernel_string_at n a w : string_in a w -> (length w < n)%nat ->
  exists k, lift_vm (get_user_page a) s = Ok (Some k) s /\ lift_vm (kernel_string n k) s = Ok w s.
Proof.
  intros (u & k & b & o & Hu & Hk & -> & Ho & Hs & H0) Hn. exists (k + o).
  pose proof (ub_low _ _ _ _ Hu) as H1. pose proof (ub_high _ _ _ _ Hu) as H2.
  destruct Hu as [[m [(x & pd' & Hx & Hp & Hm) Hu Ha Hb Hl]] _ _].
  destruct (vo_proc _ _ Hok) as (x' & Hx' & Hp'). assert (x' = x) as -> by congruence. assert (pd' = pd) as -> by congruence.
  split; apply wp_eq, wp_lift_vm.
  - eapply wp_get_user_page; [done|unfold CODE_BASE in *; lia|].
    destruct (page_offset u o Ha Ho) as (_ & _ & E3 & _). destruct (round_down (u + o)) as (E4 & _ & _).
    replace (pg_round_down (u + o)) with u by lia. destruct (Hm 0) as [Hm0 _]; [unfold PGSIZE; lia|].
    rewrite Z.add_0_r in Hm0. rewrite Hm0. simpl. by rewrite E3, same_vm.
  - eapply wp_kernel_string; [exact Hb|done|done|lia|done..|]. by rewrite same_vm.
Qed.

(** What the [switch] does with the arguments [a1], [a2] and [a3]. *)
Definition called st (n : nat) f (c : syscall) (a1 a2 a3 : Z) (o : res sys (option intr_frame)) : Prop :=
  match c with
  | SYS_HALT => o = halt shutdown_power_off s
  | SYS_EXIT => o = exit (s32 a1) s
  | SYS_EXEC => forall w, string_in a1 w -> (length w < n)%nat -> o = result f (exec (st_child st) w) s
  | SYS_WAIT => o = result f (wait (s32 a1)) s
  | SYS_CREATE => forall w, string_in a1 w -> (length w < n)%nat ->
      o = live (create st (Some w) a2) (fun r => mret (Some (set_eax r f))) s
  | SYS_REMOVE => forall w, string_in a1 w -> (length w < n)%nat ->
      o = result f (b ← Descriptors.remove w; mret (Z.b2z b)) s
  | SYS_OPEN => forall w, string_in a1 w -> (length w < n)%nat -> o = result f (open w) s
  | SYS_FILESIZE => o = result f (filesize (s32 a1)) s
  | SYS_READ => buffer_at a2 a3 -> o = result f (read (s32 a1) a2 a3) s
  | SYS_WRITE => buffer_at a2 a3 -> o = result f (write (s32 a1) a2 a3) s
  | SYS_SEEK => o = no_result f (seek (s32 a1) a2) s
  | SYS_TELL => o = result f (tell (s32 a1)) s
  | SYS_CLOSE => o = no_result f (close (s32 a1)) s
  | SYS_MMAP => o = result f (mmap (st_frame st) (s32 a1) a2) s
  | SYS_MUNMAP => o = no_result f (munmap (s32 a1)) s
  end.

(** C7: The system calls.  When the stack pointer of the process points to the number of a
    system call and its arguments, and the pointers among them to pages of the process,
    every check of [syscall_handler] passes without changing the state; the handler makes
    the call of that number, with the words of the stack as arguments and the string at a
    pointer as a file name, and the result of the call becomes [f->eax].  An unknown
    number changes nothing. *)
Theorem syscall_dispatch st n f nr a1 a2 a3 (Hc : call_at f nr a1 a2 a3) :
  match syscall_nr nr with
  | Some c => called st n f c a1 a2 a3 (syscall_handler syscall_nr shutdown_power_off st n f s)
  | None => syscall_handler syscall_nr shutdown_power_off st n f s = Ok (Some f) s
  end.
Proof.
  destruct (call_args st f nr a1 a2 a3 Hc) as (C0 & C & A0 & A1 & A2 & A3).
  assert (R1 := returns_ok _ _ _ _ A1). assert (R2 := returns_ok _ _ _ _ A2). assert (R3 := returns_ok _ _ _ _ A3).
  pose proof (C 4 ltac:(lia)) as C4. pose proof (C 8 ltac:(lia)) as C8. pose proof (C 12 ltac:(lia)) as C12.
  assert (E : syscall_handler syscall_nr shutdown_power_off st n f s = match syscall_nr nr with
    | Some c => system_call shutdown_power_off st n c f s | None => Ok (Some f) s end).
  { unfold syscall_handler. rewrite (live_ok _ _ _ _ _ C0), (live_ok _ _ _ _ _ (returns_ok _ _ _ _ A0)).
    by destruct (syscall_nr nr). }
  rewrite E. clear E. destruct (syscall_nr nr) as [c|]; [|done].
  destruct c; simpl; unfold system_call; try intros w Hw Hn; try intros Hb;
    repeat (rewrite (live_ok _ _ _ _ _ C4) || rewrite (live_ok _ _ _ _ _ C8) || rewrite (live_ok _ _ _ _ _ C12) ||
      rewrite (live_ok _ _ _ _ _ R1) || rewrite (live_ok _ _ _ _ _ R2) || rewrite (live_ok _ _ _ _ _ R3) ||
      rewrite (live_ok _ _ _ _ _ (check_string st a1 _ Hw)) || rewrite (live_ok _ _ _ _ _ (check_buffer_at st a2 a3 Hb)) ||
      rewrite (live_ok _ _ _ _ _ (returns_ok _ _ _ _ (user_string n a1 _ Hw Hn))));
    try done.
  destruct (kernel_string_at n a1 w Hw Hn) as (k & K1 & K2).
  rewrite (live_ok _ _ _ _ _ (returns_ok _ _ _ _ K1)), (live_ok _ _ k s s) by done.
  by rewrite (live_ok _ _ _ _ _ (returns_ok _ _ _ _ K2)).
Qed.
End dispatch.
End syscall_rules.

(** ** Concrete runs *)
#[local] Existing Instance memory_available.

(** What uninitialised memory holds, and the numbers of some calls. *)
Definition stale0 : stale := Stale stack_frame task_child [] false.
Definition numbers (nr : Z) : option syscall :=
  if nr =? 3 then Some SYS_WAIT else if nr =? 9 then Some SYS_WRITE else None.
Definition at_user (esp : Z) : intr_frame := IntrFrame esp 0 4 SEL_UCSEG 14.

Lemma bare_mem_ok x m : pd_wf m user_dir -> init_page_dir m = kernel_dir -> init_ram_pages m = 1024 ->
  vm_ok (set_mem m (bare x)) user_dir.
Proof.
  intros Hwf Hi Hr. destruct (bare_ok x) as [H1 H2 H3 H4 H5 H6 H7 H8 H9 H10 H11 H12]. split; try done.
  - simpl. by rewrite Hi.
  - simpl. by rewrite Hr.
Qed.
Lemma bare_mem_heap x m : heap_ok (set_mem m (bare x)).
Proof. by destruct (bare_heap x) as [G1 G2 G3 G4]. Qed.

(** A process without pages; its directory has the page table for [map_page]. *)
Definition growing : sys disk bits disk := as_task (set_mem vm2 (bare (open_file_os 0))).
Lemma growing_unknown a : mapping vm2 user_dir (pg_round_down a) = None -> page_unknown (sy_vm growing) user_dir a.
Proof. intros H. split; [done|]. intros g e He. simpl in He. by rewrite lookup_empty in He. Qed.
Lemma growing_ok : vm_ok (sy_vm growing) user_dir.
Proof. apply bare_mem_ok; [apply vm2_wf|done..]. Qed.

Lemma bad_address_exits_witness :
  check_valid_esp stale0 0 map_page growing = exit (-1) growing /\
  page_fault stale0 (map_page + 100) (at_user (map_page + 200)) growing = exit (-1) growing.
Proof.
  destruct (bad_address_exits stale0 0 map_page (at_user 0) growing user_dir growing_ok (bare_mem_heap _ _)) as [H1 _].
  destruct (bad_address_exits stale0 (map_page + 100) 0 (at_user (map_page + 200)) growing user_dir growing_ok
    (bare_mem_heap _ _)) as [_ [H2 _]].
  split.
  - refine (proj1 (H1 _)). unfold user_range, CODE_BASE. lia.
  - refine (proj2 (H2 _ _) _); [by vm_compute|by apply growing_unknown|by vm_compute].
Defined.

Lemma stack_grows_witness :
  wp (page_fault stale0 (map_page + 100) (at_user (map_page + 104))) (fun r s' => r = Some tt /\
    space (sy_vm s') map_page zeros) growing.
Proof.
  eapply wp_mono.
  - refine (proj2 (stack_grows stale0 (map_page + 100) 0 (at_user (map_page + 104)) growing user_dir task_thread eq_refl _) _ _);
      [|by vm_compute|done].
    split; [apply growing_ok|apply bare_mem_heap| |left; eexists; vm_compute; reflexivity|reflexivity|by vm_compute
      |by apply growing_unknown|eexists; vm_compute; reflexivity].
    repeat (apply Forall_cons; split; [by apply not_elem_of_empty|]). apply Forall_nil_2.
  - intros r s' [-> [Hx _]]. split; [done|]. apply (ex_space _ _ _ _ Hx). left. left.
Defined.

(** The second page of [paged] is not in memory. *)
Definition faulting : sys disk bits disk := as_task paged.

(** A process that calls [write (1, "hello", 5)]. *)
Definition hello : list Z := [104; 101; 108; 108; 111].
Definition call_bytes : list Z :=
  le32 9 ++ le32 1 ++ le32 (map_page + 16) ++ le32 5 ++ hello ++ replicate 4075 0.
Definition vm_call : vmem :=
  put_page user_frame call_bytes
    (store_slot (user_table, pt_no map_page) (pte_create_user user_frame true)
      (with_table vm1 user_dir map_page user_table)).
Definition calling : sys disk bits disk := as_task (set_mem vm_call (bare (open_file_os 0))).

Lemma calling_ok : vm_ok (sy_vm calling) user_dir.
Proof.
  apply bare_mem_ok; [|done..]. apply wf_put; [by apply fresh_not_table|].
  apply (wf_store _ _ map_page); [|done|done].
  apply (wf_with_table _ _ _ _ (replicate 1024 0)); [apply vm1_wf|done..].
Qed.
Lemma calling_page : user_bytes calling map_page user_frame call_bytes.
Proof.
  split; [exists true|by vm_compute|by vm_compute].
  split; try done. exists (Process (Some user_dir) []), user_dir. split; [done|]. split; [done|]. intros o Ho.
  assert (Hc : pg_ofs map_page = 0) by by vm_compute.
  destruct (mapping_offset vm_call user_dir map_page o PTE_W Hc Ho) as [E1 E2]. simpl vm_mem.
  rewrite E1. split; [by vm_compute|]. intros _. rewrite E2. by vm_compute.
Qed.

Lemma syscall_dispatch_witness :
  wp (syscall_handler numbers (mret tt) stale0 100 (at_user map_page)) (fun r s' =>
    r = Some (set_eax 5 (at_user map_page)) /\ console s' = [Put hello]) calling.
Proof.
  pose proof (syscall_dispatch numbers (mret tt) calling user_dir task_thread calling_ok eq_refl stale0 100
    (at_user map_page) 9 1 (map_page + 16) 5) as H.
  simpl in H. unfold wp. rewrite H.
  - vm_compute. split; reflexivity.
  - split.
    + exists map_page, user_frame, call_bytes, 0, (hello ++ replicate 4075 0). split; [apply calling_page|].
      split; [reflexivity|]. split; [lia|]. split; [unfold PGSIZE; lia|reflexivity].
    + repeat constructor; by vm_compute.
  - exists map_page, user_frame, call_bytes, 16. split; [apply calling_page|]. split; [reflexivity|unfold PGSIZE; lia].
Defined.
