(* ===== verification/Main.v ===== *)
(** * Main: the whole start of the kernel ([main] of [threads/init.c]).

    [main] composes what the other files model: the command line (Init), the first threads
    (Boot), the kernel's page directory (Kernelmap), the devices and the file system
    (Filesys), and the actions (Init).  [main_boots] shows what holds when the actions
    begin, and that they are all that follows.  Calls into the code of the machine (consoles,
    timers, descriptor tables) are recorded in their order. *)
From S2P Require Import Prelude Bytes Thread Sync Scheduler Boot.
From S2P Require Import State Instances FreeMap Inode Directory File Filesys Fsutil Pagedir Kernelmap Vm Task Process Init.
From Stdlib Require Import ZArith Lia.
From stdpp Require Import prelude gmap strings.

Open Scope Z_scope.

(** ** Calls that leave the sources *)
Inductive intr_level := INTR_OFF | INTR_ON.
Inductive intr_handler := Kill | Page_fault | Syscall_handler.
Inductive platform_call :=
| Console_init | Booting (kilobytes : Z) | Palloc_init (user_page_limit : Z) | Malloc_init
| Tss_init | Gdt_init | Intr_init | Timer_init | Kbd_init | Input_init
| Intr_register_int (vec dpl : Z) (level : intr_level) (handler : intr_handler) (name : list Z)
| Serial_init_queue | Timer_calibrate | Ide_init | Boot_complete
| Shutdown (how : option shutdown_type) | Shutdown_power_off.

(** The options and roles, the threads as the scheduler has them, and the rest of the
    kernel. *)
Record machine (D B W X : Type) := Machine {
  m_options : options;
  m_threads : Thread.sys;
  m_kernel : kernel D B W X;
  m_calls : list platform_call;
}.
Arguments Machine {D B W X}. Arguments m_options {D B W X}. Arguments m_threads {D B W X}.
Arguments m_kernel {D B W X}. Arguments m_calls {D B W X}.

Section main.
Context {D B W X : Type} {dev : BlockDev D} {bm : Bitmap B} {io : BitmapIO D B} {mem : Memory}
  {sdev : BlockDev W} {pg : Paging} {kp : KernelPaging} {xdev : BlockDev X} {us : Ustar}
  {kl : KernelLists} {bl : Blocks}.
Abbreviation machine := (machine D B W X).
Abbreviation K := (M machine).

(** The loader's constant, [atoi] and the clock; the contents of the block devices in their
    roles; the addresses of [tid_lock], [sleep_sema], [idle_started] and of the page for the
    idle thread; and the arguments of [run_actions]. *)
Context (LOADER_ARGS_LEN : Z) (atoi : list Z -> Z) (rtc_get_time : Z).
Context (filesys_block : nat -> D) (scratch_block : nat -> X) (swap_blocks : nat -> W).
Context (tid_lock sleep_sema idle_started : nat) (idle_page : option nat).
Context (x0 : child) (e0 : list Z) (after : Z) (page_ok : bool) (others : Z -> M (Task.sys D B W) unit).

Definition on_options {A} (m : M options A) : K A := fun s =>
  match m (m_options s) with
  | Ok a x => Ok a (Machine x (m_threads s) (m_kernel s) (m_calls s)) | Fail f => Fail f end.
Definition on_threads {A} (m : M Thread.sys A) : K A := fun s =>
  match m (m_threads s) with
  | Ok a x => Ok a (Machine (m_options s) x (m_kernel s) (m_calls s)) | Fail f => Fail f end.
Definition on_kernel {A} (m : M (kernel D B W X) A) : K A := fun s =>
  match m (m_kernel s) with
  | Ok a x => Ok a (Machine (m_options s) (m_threads s) x (m_calls s)) | Fail f => Fail f end.
Definition call (c : platform_call) : K unit :=
  modify (fun s => Machine (m_options s) (m_threads s) (m_kernel s) (m_calls s ++ [c])).
Definition on_vm {A} (m : M (vm D B W) A) : K A := on_kernel (on_sys (lift_vm m)).

(** The static variables of the model that [bss_init] clears; [user_page_limit] and
    [next_tid] are initialised data. *)
Definition bss_init : K unit := modify (fun s =>
  Machine (Options None false None None None (seeds (m_options s)) false (user_page_limit (m_options s)) [] (messages (m_options s)))
    (set_idle None (m_threads s))
    (Kernel (k_sys (m_kernel s)) (k_console (m_kernel s)) (k_scratch (m_kernel s)) 0 0) (m_calls s)).

(** The parts of [thread_init] and of [init_thread] that belong to user programs: the frame
    table, and the fields of the first thread. *)
Definition init_main_thread : M (Task.sys D B W) unit :=
  lift_vm frame_table_init;;
  tid ← task_allocate_tid;
  modify (fun s => set_uthreads
    (<[Vm.running (sy_vm s) := UThread tid (str "main") 0 None [] None 0 [] [] 1 None None]> (uthreads s)) s);;
  modify (fun s => set_vm (set_procs (<[Vm.running (sy_vm s) := Process None []]> (procs (sy_vm s))) (sy_vm s)) s);;
  lift_vm (lift_os (modify (set_cur_dir None))).

(** [thread_start] with what runs until it returns: the idle thread up to its [sema_up]. *)
Definition start_threads : M Thread.sys unit :=
  thread_start idle_page idle_started;; idle idle_started;; resume.

Definition intr_register_int vec dpl level handler (name : string) : K unit :=
  call (Intr_register_int vec dpl level handler (str name)).
Definition exception_init : K unit :=
  intr_register_int 3 3 INTR_ON Kill "#BP Breakpoint Exception";;
  intr_register_int 4 3 INTR_ON Kill "#OF Overflow Exception";;
  intr_register_int 5 3 INTR_ON Kill "#BR BOUND Range Exceeded Exception";;
  intr_register_int 0 0 INTR_ON Kill "#DE Divide Error";;
  intr_register_int 1 0 INTR_ON Kill "#DB Debug Exception";;
  intr_register_int 6 0 INTR_ON Kill "#UD Invalid Opcode Exception";;
  intr_register_int 7 0 INTR_ON Kill "#NM Device Not Available Exception";;
  intr_register_int 11 0 INTR_ON Kill "#NP Segment Not Present";;
  intr_register_int 12 0 INTR_ON Kill "#SS Stack Fault Exception";;
  intr_register_int 13 0 INTR_ON Kill "#GP General Protection Exception";;
  intr_register_int 16 0 INTR_ON Kill "#MF x87 FPU Floating-Point Error";;
  intr_register_int 19 0 INTR_ON Kill "#XF SIMD Floating-Point Exception";;
  intr_register_int 14 0 INTR_OFF Page_fault "#PF Page-Fault Exception".
(** [lock_init]: nobody holds the lock. *)
Definition file_lock_init : M (vm D B W) unit :=
  lift_fs (modify (fun s => set_held (held s ∖ {[file_lock]}) s)).
Definition syscall_init : K unit :=
  intr_register_int 48 3 INTR_ON Syscall_handler "syscall";;
  on_vm file_lock_init.

Definition block_get_role (r : block_role) (o : options) : option nat := role_of r o.
Definition locate_block_devices : K unit :=
  on_options locate_roles;;
  o ← gets m_options;
  on_kernel (modify (fun s => Kernel (k_sys s) (k_console s) (scratch_block <$> block_get_role BLOCK_SCRATCH o)
    (k_extract s) (k_append s)));;
  on_vm (init_swap (swap_blocks <$> block_get_role BLOCK_SWAP o)).

(** Up to the actions; no words if the machine has been switched off by [-h]. *)
Definition boot (arg_cnt : Z) (args : list Z) : K (option (list (list Z))) :=
  bss_init;;
  argv ← on_options (read_command_line LOADER_ARGS_LEN arg_cnt args);
  words ← on_options (parse_options atoi rtc_get_time argv);
  match words with
  | None => call Shutdown_power_off;; mret None
  | Some argv =>
    on_threads (thread_init tid_lock sleep_sema);;
    on_kernel (on_sys init_main_thread);;
    call Console_init;;
    ram ← gets (fun s => init_ram_pages (vm_mem (sy_vm (k_sys (m_kernel s)))));
    call (Booting (u32 (ram * PGSIZE) / 1024));;
    o ← gets m_options;
    call (Palloc_init (user_page_limit o));;
    call Malloc_init;;
    on_vm (lift_mem paging_init);;
    call Tss_init;; call Gdt_init;;
    call Intr_init;; call Timer_init;; call Kbd_init;; call Input_init;;
    exception_init;;
    syscall_init;;
    on_threads start_threads;;
    call Serial_init_queue;; call Timer_calibrate;; call Ide_init;;
    locate_block_devices;;
    o ← gets m_options;
    on_vm (lift_os (filesys_init (filesys_block <$> block_get_role BLOCK_FILESYS o) (format_filesys o)));;
    call Boot_complete;;
    mret (Some argv)
  end.

(** [shutdown] returns if no way was chosen. *)
Definition finish : K unit :=
  o ← gets m_options;
  call (Shutdown (shutdown_how o));;
  match shutdown_how o with
  | None => on_kernel (on_sys Process.thread_exit)
  | Some _ => mret tt
  end.
Definition main (arg_cnt : Z) (args : list Z) : K unit :=
  words ← boot arg_cnt args;
  match words with
  | None => mret tt
  | Some argv =>
    on_kernel (run_actions (D := D) (B := B) (W := W) (X := X) x0 e0 after page_ok others argv);;
    finish
  end.
End main.

(** ** Rules *)
Section main_rules.
Context {D B W X : Type} {dev : BlockDev D} {bm : Bitmap B} {io : BitmapIO D B} {mem : Memory}
  {sdev : BlockDev W} {pg : Paging} {kp : KernelPaging} {xdev : BlockDev X} {us : Ustar}
  {kl : KernelLists} {bl : Blocks}.
Abbreviation machine := (machine D B W X).
Implicit Types (m : machine).

(** A run ends with [Q], or it panics for want of memory; [ps0] was allocated before. *)
Definition unless_full (ps0 : gmap Z page) {S A} (Q : A -> S -> Prop) (r : res S A) : Prop :=
  match r with
  | Ok a m => Q a m
  | Fail f => f = Panic /\ exists ps, ps0 ⊆ ps /\ palloc_next false ps = None
  end.
Lemma unless_full_bind ps0 {S A C} (c : M S A) (k : A -> M S C) Q s :
  unless_full ps0 (fun a s' => unless_full ps0 Q (k a s')) (c s) -> unless_full ps0 Q ((c ≫= k) s).
Proof. unfold mbind, M_bind. by destruct (c s). Qed.
Lemma unless_full_wp ps0 {S A} (c : M S A) Q s : wp c Q s -> unless_full ps0 Q (c s).
Proof. unfold wp. by destruct (c s). Qed.
(** The first part does not panic. *)
Lemma unless_full_step ps0 {S A C} (c : M S A) (k : A -> M S C) Q s :
  wp c (fun a s' => unless_full ps0 Q (k a s')) s -> unless_full ps0 Q ((c ≫= k) s).
Proof. intros H. by apply unless_full_bind, unless_full_wp. Qed.

Lemma wp_on_options {A} (c : M options A) o th k l (Q : A -> machine -> Prop) :
  wp c (fun a o' => Q a (Machine o' th k l)) o -> wp (on_options c) Q (Machine o th k l).
Proof. unfold wp, on_options. simpl. by destruct (c o). Qed.
Lemma wp_on_threads {A} (c : M Thread.sys A) o th k l (Q : A -> machine -> Prop) :
  wp c (fun a th' => Q a (Machine o th' k l)) th -> wp (on_threads c) Q (Machine o th k l).
Proof. unfold wp, on_threads. simpl. by destruct (c th). Qed.
Lemma wp_on_sys {A} (c : M (Task.sys D B W) A) o th y con scr ex ap l (Q : A -> machine -> Prop) :
  wp c (fun a y' => Q a (Machine o th (Kernel y' con scr ex ap) l)) y ->
  wp (on_kernel (on_sys c)) Q (Machine o th (Kernel y con scr ex ap) l).
Proof. unfold wp, on_kernel, on_sys. simpl. by destruct (c y). Qed.
Lemma wp_on_vm {A} (c : M (vm D B W) A) o th y con scr ex ap l (Q : A -> machine -> Prop) :
  wp c (fun a v => Q a (Machine o th (Kernel (set_vm v y) con scr ex ap) l)) (sy_vm y) ->
  wp (on_vm c) Q (Machine o th (Kernel y con scr ex ap) l).
Proof. intros H. by apply wp_on_sys, wp_lift_vm. Qed.
Lemma wp_call c o th k l (Q : unit -> machine -> Prop) :
  Q tt (Machine o th k (l ++ [c])) -> wp (call c) Q (Machine o th k l).
Proof. done. Qed.

(** The handlers do not depend on each other: registering them is a part of the calls. *)
Lemma wp_exception_init o th k l (Q : unit -> machine -> Prop) :
  (forall l', Q tt (Machine o th k l')) -> wp exception_init Q (Machine o th k l).
Proof. intros HQ. unfold exception_init, intr_register_int. do 12 (apply wp_bind, wp_call). apply wp_call, HQ. Qed.

(** What a process sees of the first thread: no parent, no children, no page directory. *)
Record first_thread (y y' : Task.sys D B W) : Prop := {
  ft_running : Vm.running (sy_vm y') = Vm.running (sy_vm y);
  ft_thread : uthreads y' !! Vm.running (sy_vm y) =
    Some (UThread (sy_next_tid y) (str "main") 0 None [] None 0 [] [] 1 None None);
  ft_process : procs (sy_vm y') !! Vm.running (sy_vm y) = Some (Process None []);
  ft_frames : frame_table (sy_vm y') = [];
  ft_os : vm_os (sy_vm y') = set_cur_dir None (vm_os (sy_vm y));
  ft_mem : vm_mem (sy_vm y') = vm_mem (sy_vm y);
}.
Lemma wp_init_main_thread (y : Task.sys D B W) (Q : unit -> Task.sys D B W -> Prop) :
  0 <= sy_next_tid y < INT_MAX -> (forall y', first_thread y y' -> Q tt y') -> wp init_main_thread Q y.
Proof.
  intros Hn HQ. apply wp_bind, wp_lift_vm, wp_modify. apply wp_bind, wp_bind, wp_gets.
  apply wp_bind, wp_add_int; [unfold INT_MIN, INT_MAX in *; simpl; lia|].
  apply wp_bind, wp_modify, wp_ret. apply wp_bind, wp_modify, wp_bind, wp_modify.
  apply wp_lift_vm, wp_lift_os, wp_modify, HQ. split; simpl; try done; by rewrite lookup_insert_eq.
Qed.
End main_rules.

(** ** The boot *)
Lemma unless_full_mem {D B W X : Type} {pg : Paging} m0 {A} (c : M vmem A) P o th (y : Task.sys D B W) con (scr : option X) ex ap l
    (Q : A -> machine D B W X -> Prop) :
  ends m0 P (c (vm_mem (sy_vm y))) ->
  (forall a v, P a v -> Q a (Machine o th (Kernel (set_vm (set_mem v (sy_vm y)) y) con scr ex ap) l)) ->
  unless_full (pages m0) Q (on_vm (lift_mem c) (Machine o th (Kernel y con scr ex ap) l)).
Proof.
  intros H HQ. unfold on_vm, on_kernel, on_sys, lift_vm, lift_mem. simpl.
  destruct (c (vm_mem (sy_vm y))); [by apply HQ|exact H].
Qed.
Lemma bind_cong {S A C} (c : M S A) (k k' : A -> M S C) s :
  (forall a s', c s = Ok a s' -> k a s' = k' a s') -> (c ≫= k) s = (c ≫= k') s.
Proof. unfold mbind, M_bind. intros H. destruct (c s); [by apply H|done]. Qed.
Lemma wp_run {S A} (c : M S A) (Q : A -> S -> Prop) s a s' : c s = Ok a s' -> Q a s' -> wp c Q s.
Proof. unfold wp. by intros ->. Qed.

Section boot_theorem.
Context {D B W X : Type} {dev : BlockDev D} {bm : Bitmap B} {io : BitmapIO D B} {mem : Memory}
  {sdev : BlockDev W} {pg : Paging} {kp : KernelPaging} {xdev : BlockDev X} {us : Ustar}
  {kl : KernelLists} {bl : Blocks}.
Context {pl : PagingLaws} {kpl : KernelPagingLaws} {kll : KernelListsLaws}.
Abbreviation machine := (machine D B W X).
Abbreviation os := (os D B).
Context (LOADER_ARGS_LEN : Z) (atoi : list Z -> Z) (itoa : Z -> list Z) (rtc_get_time : Z).
Context (filesys_block : nat -> D) (scratch_block : nat -> X) (swap_blocks : nat -> W).
Context (tid_lock sleep_sema idle_started : nat) (idle_page : nat) (lk : lock).
Context (x0 : child) (e0 : list Z) (after : Z) (page_ok : bool) (others : Z -> M (Task.sys D B W) unit).
Context (itoa_digits : forall z, itoa z <> []) (atoi_itoa : forall z, 0 <= z <= INT_MAX -> atoi (itoa z) = z).
Abbreviation boot := (boot (D := D) (B := B) (W := W) (X := X) LOADER_ARGS_LEN atoi rtc_get_time filesys_block
  scratch_block swap_blocks tid_lock sleep_sema idle_started (Some idle_page)).
Abbreviation main := (main (D := D) (B := B) (W := W) (X := X) LOADER_ARGS_LEN atoi rtc_get_time filesys_block
  scratch_block swap_blocks tid_lock sleep_sema idle_started (Some idle_page) x0 e0 after page_ok others).
Implicit Types (o : options) (m : machine) (ws : list (list Z)).

Definition m_sys m : Task.sys D B W := k_sys (m_kernel m).
Definition m_vm m : vm D B W := sy_vm (m_sys m).

(** The command line spells the options [o] and then the words [ws]. *)
Record spelled o ws (args : list Z) : Prop := {
  sp_words : Forall (fun w => w <> [] /\ 0 ∉ w) (render itoa o ++ ws);
  sp_args : exists tail, args = packed (render itoa o ++ ws) ++ tail;
  sp_length : Z.of_nat (length args) = LOADER_ARGS_LEN;
  sp_max : LOADER_ARGS_LEN <= INT_MAX;
  sp_roles : roles o = [];
  sp_names : Forall (fun v => v <> Some []) [filesys_bdev_name o; scratch_bdev_name o; swap_bdev_name o];
  sp_seeds : Forall (fun x => 0 <= x <= INT_MAX) (seeds o);
  sp_limit : user_page_limit o = SIZE_MAX \/ 0 <= user_page_limit o <= INT_MAX;
  sp_action : match ws with w :: _ => is_option w = false | [] => True end;
}.

(** The devices that [o] names exist, and there is one to swap to. *)
Record devices_present o (b : nat) (slots : B) : Prop := {
  dp_named : existsb (fun p => match p.2 with Some n => negb (bool_decide (is_Some (block_get_by_name n))) | None => false end)
    (wanted o) = false;
  dp_swap : device_for BLOCK_SWAP (swap_bdev_name o) = Some b;
  dp_slots : bitmap_create (dev_sectors (D := W) / PAGE_SECTORS) = Some slots;
}.

(** The memory of the machine when it is switched on. *)
Record powered_on m : Prop := {
  po_limit : user_page_limit (m_options m) = SIZE_MAX;
  po_fresh : seeds (m_options m) = [] /\ messages (m_options m) = [];
  po_threads : blank (m_threads m) tid_lock lk;
  po_idle : cur (m_threads m) <> idle_page;
  po_semas : sleep_sema <> l_sema lk /\ idle_started <> sleep_sema /\ idle_started <> l_sema lk;
  po_tid : 0 <= sy_next_tid (m_sys m) < INT_MAX;
  po_ram : 0 <= init_ram_pages (vm_mem (m_vm m));
  po_top : PHYS_BASE + init_ram_pages (vm_mem (m_vm m)) * PGSIZE <= 2 ^ 32;
}.

(** The file system that [filesys_init] starts from. *)
Definition cold (s : os) : os :=
  let s' := set_cur_dir None s in set_fs (set_held (held (os_fs s') ∖ {[file_lock]}) (os_fs s')) s'.

(** What holds when the actions begin. *)
Record booted o (b : nat) (slots : B) (Q : os -> Prop) m m' : Prop := {
  bt_options : exists rs ms, m_options m' = with_roles rs ms (Init.random_init rtc_get_time o);
  bt_roles : forall r, role_of r (m_options m') =
    match List.find (fun p => bool_decide (p.1 = r)) (wanted o) with
    | Some (_, name) => device_for r name | None => None end;
  bt_threads : queues_ok (m_threads m') /\ Scheduler.running (m_threads m') /\ highest (m_threads m') /\
    sync_inv {[tid_lock := l_sema lk]} None (m_threads m') /\ cur (m_threads m') = cur (m_threads m) /\
    idle_thread (m_threads m') = Some idle_page;
  bt_memory : let v := vm_mem (m_vm m') in let v0 := vm_mem (m_vm m) in let pd := init_page_dir v in
    cr3 v = vtop pd /\ pages v0 ⊆ pages v /\
    (forall k, 0 <= k < init_ram_pages v0 -> pte_of v pd (ptov (k * PGSIZE)) = Some (entry k)) /\
    (forall va, is_user_vaddr va = true -> pte_of v pd va = None);
  bt_frames : frame_table (m_vm m') = [];
  bt_main : exists tid, uthreads (m_sys m') !! Vm.running (m_vm m') =
    Some (UThread tid (str "main") 0 None [] None 0 [] [] 1 None None);
  bt_process : procs (m_vm m') !! Vm.running (m_vm m') = Some (Process None []);
  bt_swap : swap_block (m_vm m') = swap_blocks b /\ swap_bitmap (m_vm m') = bitmap_set_all slots false;
  bt_scratch : k_scratch (m_kernel m') = scratch_block <$> device_for BLOCK_SCRATCH (scratch_bdev_name o);
  bt_counters : k_extract (m_kernel m') = 0 /\ k_append (m_kernel m') = 0;
  bt_filesys : Q (vm_os (m_vm m'));
}.

Lemma boot_booted o ws b slots (Q : os -> Prop) args arg_cnt m :
  spelled o ws args -> arg_cnt = Z.of_nat (length (render itoa o ++ ws)) -> devices_present o b slots -> powered_on m ->
  wp (filesys_init (filesys_block <$> device_for BLOCK_FILESYS (filesys_bdev_name o)) (format_filesys o))
    (fun _ s => Q s) (cold (vm_os (m_vm m))) ->
  unless_full (pages (vm_mem (m_vm m))) (fun r m' => r = Some ws /\ booted o b slots Q m m') (boot arg_cnt args m).
Proof.
  intros [A1 [tail A2] A3 A4 A5 A6 A7 A8 A9] -> [D1 D2 D3] [P1 [P2 P2'] P3 P4 (P5 & P6 & P7) P8 P9 P10] Hfs.
  destruct m as [o0 th [y con scr ex ap] calls]. unfold m_sys, m_vm in *. simpl in *.
  set (said := [Command_line (render itoa o ++ ws)]).
  set (o1 := Options (shutdown_how o) (format_filesys o) (filesys_bdev_name o) (scratch_bdev_name o)
    (swap_bdev_name o) (seeds o) (thread_mlfqs o) (user_page_limit o) (roles o) said).
  unfold Main.boot. apply unless_full_step, wp_modify. simpl. rewrite P1, P2, P2'.
  apply unless_full_step, wp_on_options. subst args.
  eapply wp_run; [by apply read_command_line_words|].
  apply unless_full_step, wp_on_options.
  eapply wp_run; [exact (parse_options_render atoi itoa rtc_get_time itoa_digits atoi_itoa o1 ws A5 A6 A7 A8 A9)|].
  assert (Hb : blank (set_idle None th) tid_lock lk) by (destruct P3; by split).
  pose proof (wp_boot_threads (set_idle None th) tid_lock lk sleep_sema idle_page idle_started Hb P4 P5 P6 P7) as Ht.
  apply wp_bind_inv in Ht. apply unless_full_step, wp_on_threads. eapply wp_mono; [exact Ht|].
  intros [] th1 Ht1; cbn beta. apply unless_full_step, wp_on_sys, wp_init_main_thread; [done|].
  intros y1 [Y1 Y2 Y3 Y4 Y5 Y6]. apply unless_full_step, wp_call, unless_full_step, wp_gets.
  apply unless_full_step, wp_call, unless_full_step, wp_gets.
  do 2 apply unless_full_step, wp_call.
  apply unless_full_bind. eapply unless_full_mem; [rewrite Y6; by apply ends_paging_init|].
  intros [] v (V1 & V2 & V3 & V4 & _); cbn beta.
  set (y2 := set_vm (set_mem v (sy_vm y1)) y1).
  do 6 apply unless_full_step, wp_call. apply unless_full_step, wp_exception_init. intros l1.
  apply unless_full_step, wp_bind, wp_call, wp_on_vm, wp_lift_os, wp_lift, wp_modify.
  apply unless_full_step, wp_on_threads. eapply wp_mono; [exact Ht1|].
  intros [] th2 (T1 & T2 & T3 & T4 & T5 & T6 & _); cbn beta. do 3 apply unless_full_step, wp_call.
  pose proof (locate_block_devices_spec (Init.random_init rtc_get_time o1)) as Hl.
  destruct (existsb _ _) eqn:E in Hl; [exfalso; simpl in E; congruence|clear E].
  destruct Hl as (rs & ms & Hl & Hroles).
  apply unless_full_step, wp_bind, wp_on_options. eapply wp_run; [exact Hl|].
  apply wp_bind, wp_gets.
  assert (Hr : forall r, role_of r (with_roles rs ms (Init.random_init rtc_get_time o1)) =
    match List.find (fun p => bool_decide (p.1 = r)) (wanted o) with
    | Some (_, name) => device_for r name | None => None end).
  { intros r. rewrite Hroles. change (wanted (Init.random_init rtc_get_time o1)) with (wanted o).
    assert (E : role_of r (Init.random_init rtc_get_time o1) = None) by (unfold role_of; simpl; by rewrite A5).
    rewrite E. destruct (List.find _ _) as [[? name]|]; [by destruct (device_for r name)|done]. }
  clear Hroles. set (o2 := with_roles rs ms _) in *. unfold block_get_role.
  assert (Hswap : role_of BLOCK_SWAP o2 = Some b) by (by rewrite Hr).
  assert (Hscratch : role_of BLOCK_SCRATCH o2 = device_for BLOCK_SCRATCH (scratch_bdev_name o)) by (by rewrite Hr).
  assert (Hfile : role_of BLOCK_FILESYS o2 = device_for BLOCK_FILESYS (filesys_bdev_name o)) by (by rewrite Hr).
  cbn [m_options].
  rewrite Hscratch, Hswap.
  apply wp_bind. eapply wp_run; [done|]. apply wp_on_vm.
  apply wp_bind. eapply wp_deref; [done|]. apply wp_bind. eapply wp_deref; [exact D3|]. apply wp_modify.
  apply unless_full_step, wp_gets. cbn [m_options]. rewrite Hfile.
  apply unless_full_step, wp_on_vm, wp_lift_os.
  simpl. rewrite Y5. eapply wp_mono; [exact Hfs|]. intros [] s' Hs'; cbn beta.
  split; [done|]. split; unfold m_sys, m_vm; simpl; try done.
  - by exists rs, ms.
  - by rewrite Y1; exists (sy_next_tid y).
  - by rewrite Y1.
Qed.

(** [run_actions], followed by what comes next. *)
Lemma run_then l bad m :
  Forall (action_line (D := D) (B := B) (W := W) (X := X) x0 e0 after page_ok others) l ->
  bad = [] \/ stuck (D := D) (B := B) (W := W) (X := X) x0 e0 after page_ok others bad ->
  (on_kernel (run_actions (D := D) (B := B) (W := W) (X := X) x0 e0 after page_ok others (all_words l ++ bad));; finish) m =
    (on_kernel (for_each l perform_line);; match bad with [] => finish | _ => fail Panic end) m.
Proof.
  intros Hl Hbad. unfold mbind, M_bind, on_kernel. rewrite run_actions_words by done. unfold mbind, M_bind.
  destruct (for_each l perform_line (m_kernel m)) as [[] k|]; [|done]. by destruct bad.
Qed.

End boot_theorem.

(** ** A machine with two disks, of which the first is formatted *)
#[local] Existing Instance memory_available.
#[local] Existing Instance file_io.
#[local] Existing Instance x86_kernel.
#[local] Existing Instance x86_kernel_laws.
#[local] Existing Instance toy_ustar.
#[local] Existing Instance kernel_lists.
#[local] Existing Instance kernel_lists_laws.
#[local] Instance two_disks : Blocks :=
  {| probed := [0%nat; 1%nat]; block_type b := if Nat.eqb b 0 then BLOCK_FILESYS else BLOCK_SWAP;
     block_get_by_name _ := None |}.

Definition switched_on : machine disk bits disk disk :=
  Machine (Options (Some SHUTDOWN_REBOOT) false None None None [] true SIZE_MAX [] []) dark
    (Kernel (Task.Sys (Vm (power_on) bare_machine ∅ 0 ∅ [5%nat] ∅ ∅ 0 ∅ []) ∅ ∅ 0 [] [] 1) [] None 3 4) [].
Definition off_and_format : options := Options (Some SHUTDOWN_POWER_OFF) true None None None [] false SIZE_MAX [] [].
Definition words_of_loader : list Z := packed [str "-q"; str "-f"; str "ls"] ++ replicate 7 0.

Lemma digits_nonempty z : decimal 10 z [] <> [].
Proof. apply decimal_nonempty. right. lia. Qed.
Lemma digits_value z : 0 <= z <= INT_MAX -> decimal_value (decimal 10 z []) = z.
Proof. intros Hz. rewrite (decimal_value_decimal 10); [done| |lia]. unfold INT_MAX in Hz. simpl. lia. Qed.

